(* ===== verification/_CoqProject ===== *)
-Q . S2P
Prelude.v
CInt.v
Printf.v
CFloat.v
NetBuf.v
Frame.v
IrComm.v
LapParams.v
Obex.v
Conn.v
Dump.v
IrLMP.v
IrLAP.v
Capture.v
IrDump.v
Replay.v
CLib.v
PortIO.v
ChipInfo.v
FindNsc.v
FindSmc.v
FindWinbond.v
FindChip.v
GFindChip.v
SmcInit.v
IrKbd.v
Tosh1800.v
Tosh2450.v
SmcInitMain.v
Tosh1800Main.v
SmcCopies.v
Proc.v
IrDumpMain.v
IrKbdMain.v
DevList.v
Attach.v
AttachDev.v
AttachTty.v
AttachUtil.v
IrdaPing.v
Irda.v
Psion.v
Spray.v
SprayIas.v
SprayOld.v
IrSock.v
Irnetd.v
IrCard.v
IrChip.v
IrCardRun.v
IrCardCs.v
