(* ===== verification/Prelude.v ===== *)
(** * Verification of the IrDA utilities

    The repository holds the user programs of the Linux IrDA stack: [irdadump], which
    decodes frames; [findchip] and its window [gfindchip]; [smcinit], [tosh1800-smcinit] and
    [tosh2450-smcinit], which set up the infrared chips by I/O ports; [irattach] and
    [dongle_attach], which give the kernel a serial line or an interface; [irkbd], a
    keyboard and mouse driver; [irdaping], [irda], [irdaspray], [irpsion5], [irnetd] and the small
    programs of irsockets/, which talk over sockets; and ircard_cs, a kernel driver of an infrared
    card.  Each has its files below; every definition translates the code
    at the lines that the map of the manifest names.

    ** The models
    C code is a function over an explicit state: [M] (Prelude) for code whose
    state after a stop does not matter, [P] (Proc) for programs that end with a status
    and leave a state behind.  The outcomes that are not a value are [Stop w]: a
    read or a write outside an object, a null pointer, an [exit], and [OutOfFuel],
    the outcome of a loop whose bound was too small.  A loop of the source is
    structural recursion on what it consumes, or recursion on fuel; where there is
    fuel a theorem says that it is enough in every state ([parse_irlap_frame_terminates],
    [main_read_ends], [driver_ends], [psion_ends], [spray_ends], [old_programs_end],
    [gfindchip_ends], and the totality that the functional
    theorems include).  Integers keep their width: [u8], [u16], [u32], [s32] (CInt)
    are written where the C type truncates; the order of the bytes of the host and the
    width of [long] are parameters where the code depends on them.  Text is
    produced as the program prints it (Printf; CFloat for the numbers with decimals),
    and text that is read goes through the C library's functions (CLib).

    What is not under src/ is a parameter with, where a theorem needs it, its laws as
    a class: the ports of a chip ([PortDev], [ConfigPort], [ConfigKeys] of PortIO, [SmcChip] of
    FindSmc), the PCI library ([PciDev], [PciConfig], [Bridge], [Apart]), the kernel ([Kernel] and
    [KernelLaws] of Attach, [Net] of Psion, [IrdaKernel] and [Willing] of Spray, [OldKernel] of SprayOld, [IasKernel]
    of SprayIas, [Ias] of Irda), the interface ([Interface] of IrdaPing), the card
    ([CardHost], [IbmChip]) and its services ([CardServices]).  The allocator of NetBuf
    and the bytes that an uninitialised object holds are variables.  Each class has an
    instance, on which the examples and the witnesses run.

    ** Files
    - Prelude, CInt, Printf, CFloat, CLib, Proc: the two monads with their laws and weakest
      preconditions, machine integers, [printf] and its inverse, the C library.
    - NetBuf, Frame, IrComm, LapParams, Obex, Conn, Dump, IrLMP, IrLAP: the decoder
      (irdadump/netbuf.c, ircomm.c, irlap.c, obex.c, irlmp.c).  A buffer is an
      abstract byte sequence ([netbuf_refines_bytes]).  [parse_irlap_frame] is the
      entry; the theorems encode a frame and show that the decoder prints its fields
      (headers, negotiation, discovery, IAS sessions, OBEX over TinyTP), that
      sequence numbers are tracked so that a clean exchange prints no loss and a lost
      frame is counted, that the table of the connections is safe and its cache
      agrees with a search, and that every frame, of any content, is decoded
      without running out of fuel.
    - Capture, IrDump, Replay, IrDumpMain: capture files, the loop of the program and the
      program from its command line to its exit (capture.c, irdadump.c, main.c).  A file that was written is
      read back as the same records; a session replayed by [irdadump -r] shows what
      [irdadump -w] showed, when the frames pass the filter ([replay_session], with the
      byte-order condition).
    - PortIO, ChipInfo, FindNsc, FindSmc, FindWinbond, FindChip, GFindChip: [findchip] and [gfindchip]
      (findchip/).  What a probe may write on any hardware ([emits]), what it
      decodes of a chip that behaves as its registers say ([smc_chip_reported] and its likes), and what the
      window makes of the line that is printed ([gfindchip_shows], [gfindchip_overflow]).
    - SmcInit, SmcInitMain, Tosh1800, Tosh1800Main, Tosh2450, SmcCopies: the set-up programs (smcinit/, and the copies of
      irda-utils/smcinit/, which are instances of them).  What each leaves in the chip and in
      the bridge, register by register, from the options typed to the machine: the chip gets
      the ports, the DMA and the interrupt that were typed, the bridge of [smcinit] and
      [tosh2450-smcinit] gets fixed ones, and some registers are
      written whole ([smcinit_session], [tosh1800_session], [tosh2450_ok]).
    - IrKbd, IrKbdMain: [irkbd] (tekram/irkbd.c).  What each byte of a frame does to the fifo, the console
      and the state of the driver; the states that can be reached when the signals
      fall between the statements of the loop of [main]; the driver keeps polling.
    - DevList, Attach, AttachDev, AttachTty, AttachUtil: [irattach] and [dongle_attach] (irattach/).
      A session restores the line discipline and the terminal at each of its ends, under the laws that say
      when the calls succeed ([irattach_session]).
    - IrdaPing, Irda, Psion: [irdaping] (and its frames as [irdadump] shows them), [irda]
      (irda/src/), [irpsion5] (psion/): a file sent is the file received.
    - Spray, SprayIas, SprayOld: [irdaspray], its tests of the service database, and the three
      older programs of irsockets/oldies/.  A frame echoed is the frame sent; on a stream the bytes
      are, and the old client counts all of them exactly when the pieces are no more
      than the frames.
    - IrSock, Irnetd: the small programs of irsockets/ and [irnetd] (irnetd/).  The lines sent
      are the lines shown; the command is run for each request with its address in its place.
    - IrCard, IrChip, IrCardRun, IrCardCs: the card driver (pcmcia/ircard_cs.c).  Frames go on the air in
      order and unchanged ([tx_in_order]), eight at most between two turns to receive
      ([ninth_frame]); a received frame is delivered ([receive_complete_ok]); every entry ends,
      with the lock given back when it returns, or at an access outside the ring or the queue
      that it makes with the lock held ([driver_ends]); a card is configured
      with every resource of an entry that the services accepted, or what the link
      holds is given back, where the resources of rejected entries are lost ([config_all_or_nothing]).

    ** Interaction
    The components meet where the programs do: irdadump decodes the frames of [irdaping]
    ([ping_shown_by_irdadump]), the decoder runs on frames read back from a
    file ([replay_session]), gfindchip reads the text of findchip's [print_info] ([gfindchip_overflow]),
    clients run against the servers of Spray, SprayOld, IrSock and Psion, the card services
    call the driver of the card.

    ** Bounds
    Fuel is the length of the frame for the decoder (every item takes a byte), the
    number of records for a capture file, the length of the file, of the line or of the stream
    for the transfers.  Arrays whose overflow the code does not exclude keep their size in the model,
    and the theorems named [_overflow], [_full_block], [_out_of_table] state inputs that reach it.

    ** Not modelled
    Sockets, ioctls and files are modelled by what the program passes and gets, not by
    their contents in the kernel; signals are taken between two rounds of a loop, and so is the
    user of a window; those of irkbd are taken between the statements of the loop of its [main] too,
    but its two handlers and the call that connects are each taken whole.
    The law of the card lets a request to send put the whole frame on the air,
    though ircard_cs.h names an underrun, and takes the bit PAGE_DISABLE of the high address as bit 14 of
    the address.  Left out are: the closing of files, the messages of a round of irdadump that
    ends by [exit], [g_netbuf_free], the two messages of netbuf.c on its reallocations, the DEBUG messages of irpsion5, of ircard_cs and of tosh1800-smcinit, and the
    MODULE_PARM lines.  irsockets/oldies/discard.c is three functions cut out of
    an OBEX library: their type [obex_t] is not in the repository and the last one ends
    after its [recv].  ethereal, www and the build files have no program logic. *)
From Stdlib Require Import ZArith Lia String Ascii.
From stdpp Require Export base list strings gmap.
From Stdlib Require Export ZArith Lia.

#[global] Open Scope Z_scope.

(** ** Outcomes of C code

    A C function either returns, or stops: by undefined behaviour (a read or a
    write outside an object, a null pointer), or by a call of [exit].
    [OutOfFuel] is the outcome of a loop whose bound was too small; no loop of
    the development reaches it, which is proved loop by loop. *)
Inductive stop :=
  | OobRead
  | OobWrite
  | NullDeref
  | Exited (code : Z)
  | OutOfFuel.

#[export] Instance stop_eq_dec : EqDecision stop.
Proof. solve_decision. Defined.

Inductive res (A : Type) :=
  | Ok (a : A)
  | Stop (w : stop).
Arguments Ok {A} a.
Arguments Stop {A} w.

(** ** The state monad of C code over a state [S] *)
Definition M (S A : Type) : Type := S → res (A * S).

#[export] Instance M_ret {S} : MRet (M S) := λ A a s, Ok (a, s).
#[export] Instance M_bind {S} : MBind (M S) := λ A B k m s,
  match m s with
  | Ok (a, s') => k a s'
  | Stop w => Stop w
  end.

Definition halt {S A} (w : stop) : M S A := λ _, Stop w.
Definition get {S} : M S S := λ s, Ok (s, s).
Definition gets {S A} (f : S → A) : M S A := λ s, Ok (f s, s).
Definition modify {S} (f : S → S) : M S unit := λ s, Ok (tt, f s).
(** [if (b) m] *)
Definition when {S} (b : bool) (m : M S unit) : M S unit :=
  if b then m else mret tt.

(** A read of an optional value: [None] is an access outside the object. *)
Definition or_stop {S A} (w : stop) (o : option A) : M S A := λ s,
  match o with
  | Some a => Ok (a, s)
  | None => Stop w
  end.

(** A computation on local data only. *)
Definition lift {S A} (r : res A) : M S A := λ s,
  match r with
  | Ok a => Ok (a, s)
  | Stop w => Stop w
  end.

Section monad_laws.
Context {S A B C : Type}.
Implicit Types (m : M S A) (s : S).

Lemma bind_ret_l (a : A) (k : A → M S B) s : (mret a ≫= k) s = k a s.
Proof. done. Qed.

Lemma bind_ok m (k : A → M S B) s a s' :
  m s = Ok (a, s') → (m ≫= k) s = k a s'.
Proof. unfold mbind, M_bind. by intros ->. Qed.

Lemma bind_stop m (k : A → M S B) s w :
  m s = Stop w → (m ≫= k) s = Stop w.
Proof. unfold mbind, M_bind. by intros ->. Qed.

Lemma bind_assoc m (k : A → M S B) (h : B → M S C) s :
  ((m ≫= k) ≫= h) s = (m ≫= (λ a, k a ≫= h)) s.
Proof. unfold mbind, M_bind. destruct (m s) as [[a s']|w]; done. Qed.

Lemma bind_ok_inv m (k : A → M S B) s b s' :
  (m ≫= k) s = Ok (b, s') → ∃ a s1, m s = Ok (a, s1) ∧ k a s1 = Ok (b, s').
Proof.
  unfold mbind, M_bind. destruct (m s) as [[a s1]|w]; [eauto | done].
Qed.
End monad_laws.

(** ** Part of a larger state: a lens, with its laws

    A decoder written over the state [F] runs inside a larger state [S]
    through [zoom]; its lemmas carry over by [zoom_ok] and [zoom_stop]. *)
Class Lens (S F : Type) := {
  view : S → F;
  put : F → S → S;
  view_put f s : view (put f s) = f;
  put_view s : put (view s) s = s;
  put_put f g s : put f (put g s) = put f s }.

Definition zoom {S F A} `{Lens S F} (m : M F A) : M S A := λ s,
  match m (view s) with
  | Ok (a, f) => Ok (a, put f s)
  | Stop w => Stop w
  end.

#[export] Program Instance lens_id {S} : Lens S S | 100 :=
  {| view s := s; put f _ := f |}.
Solve All Obligations with done.

Section zoom.
Context {S F A B : Type} `{!Lens S F}.

Lemma zoom_ok (m : M F A) s a f :
  m (view s) = Ok (a, f) → zoom m s = Ok (a, put f s).
Proof. unfold zoom. by intros ->. Qed.

Lemma zoom_stop (m : M F A) s w :
  m (view s) = Stop w → zoom (S:=S) m s = Stop w.
Proof. unfold zoom. by intros ->. Qed.

Lemma zoom_ret (a : A) s : zoom (S:=S) (F:=F) (mret a) s = Ok (a, s).
Proof. unfold zoom. simpl. by rewrite put_view. Qed.

Lemma zoom_bind (m : M F A) (k : A → M F B) s :
  zoom (S:=S) (m ≫= k) s = (zoom m ≫= λ a, zoom (k a)) s.
Proof.
  unfold zoom, mbind, M_bind. destruct (m (view s)) as [[a f]|w]; [|done].
  rewrite view_put. destruct (k a f) as [[b g]|w]; [|done].
  by rewrite put_put.
Qed.
End zoom.

(** ** Code whose loops have enough fuel in every state

    [m] never runs out of fuel, whatever the state.  The tactic [no_fuel] goes
    through the structure of a program; the hint database holds the lemmas on
    its basic operations. *)
Definition terminating {S A} (m : M S A) : Prop := ∀ s, m s ≠ Stop OutOfFuel.

Create HintDb fuel.

Section terminating.
Context {S A B : Type}.

Lemma term_ret (a : A) : terminating (S:=S) (mret a).
Proof. done. Qed.
Lemma term_halt w : w ≠ OutOfFuel → terminating (S:=S) (A:=A) (halt w).
Proof. intros Hw s [= H]. done. Qed.
Lemma term_get : terminating (S:=S) get.
Proof. done. Qed.
Lemma term_gets (f : S → A) : terminating (gets f).
Proof. done. Qed.
Lemma term_modify (f : S → S) : terminating (modify f).
Proof. done. Qed.
Lemma term_or_stop w (o : option A) :
  w ≠ OutOfFuel → terminating (S:=S) (or_stop w o).
Proof. intros Hw s. destruct o; [done|]. by intros [= H]. Qed.
Lemma term_bind (m : M S A) (k : A → M S B) :
  terminating m → (∀ a, terminating (k a)) → terminating (m ≫= k).
Proof.
  intros Hm Hk s. unfold mbind, M_bind. specialize (Hm s).
  destruct (m s) as [[a s']|w]; [apply Hk|congruence].
Qed.
(** when the continuation needs what [m] returned *)
Lemma term_bind_ok (m : M S A) (k : A → M S B) :
  terminating m → (∀ a s s', m s = Ok (a, s') → k a s' ≠ Stop OutOfFuel) →
  terminating (m ≫= k).
Proof.
  intros Hm Hk s. unfold mbind, M_bind. specialize (Hm s).
  destruct (m s) as [[a s']|w] eqn:E; [by eapply Hk|congruence].
Qed.
Lemma term_when b (m : M S unit) : terminating m → terminating (when b m).
Proof. by destruct b. Qed.
Lemma term_zoom {F} `{!Lens S F} (m : M F A) :
  terminating m → terminating (S:=S) (zoom m).
Proof.
  intros Hm s. unfold zoom. specialize (Hm (view s)).
  destruct (m (view s)) as [[a f]|w]; [done|congruence].
Qed.
End terminating.
#[export] Hint Resolve term_ret term_get term_gets term_modify : fuel.
#[export] Hint Extern 1 (terminating (halt _)) => by apply term_halt : fuel.
#[export] Hint Extern 1 (terminating (or_stop _ _)) => by apply term_or_stop : fuel.

Ltac no_fuel :=
  repeat match goal with
  | |- ∀ _, terminating _ => intro
  | |- terminating (_ ≫= _) => apply term_bind; [|intro]
  | |- terminating (when _ _) => apply term_when
  | |- terminating (match ?x with _ => _ end) => destruct x
  | |- terminating _ => solve [auto 3 with fuel nocore]
  | |- terminating (zoom _) => apply term_zoom
  end.

Create Rewrite HintDb lens.
#[export] Hint Rewrite @view_put @put_view @put_put : lens.
