(* ===== verification/CInt.v ===== *)
(** * C integers and byte order

    Fixed-width integers are [Z] with the wrap-around written out; bit tests
    and byte-order conversions are those of the C and GLib macros. *)
From S2P Require Import Prelude.

(** ** Widths *)
Definition u8 (z : Z) : Z := z mod 2 ^ 8.
Definition u16 (z : Z) : Z := z mod 2 ^ 16.
Definition u32 (z : Z) : Z := z mod 2 ^ 32.
(** conversion to [int] (two's complement) and to [signed char] *)
Definition s32 (z : Z) : Z := (z + 2 ^ 31) mod 2 ^ 32 - 2 ^ 31.
Definition s8 (z : Z) : Z := (z + 2 ^ 7) mod 2 ^ 8 - 2 ^ 7.

(** [x & m] as a C condition *)
Definition tst (x m : Z) : bool := negb (Z.land x m =? 0).

(** C's truth value of an [int] *)
Definition truth (x : Z) : bool := negb (x =? 0).
Definition b2z (b : bool) : Z := if b then 1 else 0.

Ltac zmod := Z.div_mod_to_equations; lia.

Lemma u8_range z : 0 ≤ u8 z < 256.
Proof. unfold u8. change (2 ^ 8) with 256. zmod. Qed.
Lemma u16_range z : 0 ≤ u16 z < 65536.
Proof. unfold u16. change (2 ^ 16) with 65536. zmod. Qed.
Lemma u32_range z : 0 ≤ u32 z < 4294967296.
Proof. unfold u32. change (2 ^ 32) with 4294967296. zmod. Qed.
Lemma u8_small z : 0 ≤ z < 256 → u8 z = z.
Proof. intros. unfold u8. by apply Z.mod_small. Qed.
Lemma u16_small z : 0 ≤ z < 65536 → u16 z = z.
Proof. intros. unfold u16. by apply Z.mod_small. Qed.
Lemma u32_small z : 0 ≤ z < 4294967296 → u32 z = z.
Proof. intros. unfold u32. by apply Z.mod_small. Qed.
Lemma s32_small z : - 2147483648 ≤ z < 2147483648 → s32 z = z.
Proof. intros. unfold s32. rewrite Z.mod_small; lia. Qed.
Lemma u8_u8 z : u8 (u8 z) = u8 z.
Proof. apply u8_small, u8_range. Qed.

Create HintDb cint discriminated.
#[export] Hint Resolve u8_range u16_range u32_range : cint.

(** ** Bytes in memory *)

(** a byte value *)
Definition is_byte (b : Z) : Prop := 0 ≤ b < 256.

(** Fields of several bytes: most significant byte first / last. *)
Definition be16 (b0 b1 : Z) : Z := b0 * 256 + b1.
Definition le16 (b0 b1 : Z) : Z := be16 b1 b0.
Definition be32 (b0 b1 b2 b3 : Z) : Z :=
  b0 * 16777216 + b1 * 65536 + b2 * 256 + b3.
Definition le32 (b0 b1 b2 b3 : Z) : Z := be32 b3 b2 b1 b0.

Definition be16_bytes (v : Z) : list Z := [u8 (v / 256); u8 v].
Definition be32_bytes (v : Z) : list Z :=
  [u8 (v / 16777216); u8 (v / 65536); u8 (v / 256); u8 v].
Definition le16_bytes (v : Z) : list Z := rev (be16_bytes v).
Definition le32_bytes (v : Z) : list Z := rev (be32_bytes v).

Lemma be16_of_bytes v :
  0 ≤ v < 65536 → be16 (u8 (v / 256)) (u8 v) = v.
Proof. intros. unfold be16, u8. change (2 ^ 8) with 256. zmod. Qed.

Lemma be32_of_bytes v :
  0 ≤ v < 4294967296 →
  be32 (u8 (v / 16777216)) (u8 (v / 65536)) (u8 (v / 256)) (u8 v) = v.
Proof.
  intros. unfold be32, u8. change (2 ^ 8) with 256. zmod.
Qed.

Lemma be16_range a b : is_byte a → is_byte b → 0 ≤ be16 a b < 65536.
Proof. unfold is_byte, be16. lia. Qed.
Lemma be32_range a b c d :
  is_byte a → is_byte b → is_byte c → is_byte d →
  0 ≤ be32 a b c d < 4294967296.
Proof. unfold is_byte, be32. lia. Qed.

(** The host's byte order: the value of a multi-byte object of the host
    whose bytes in memory are given, and its inverse. *)
Inductive endian := LittleEndian | BigEndian.

#[export] Instance endian_eq_dec : EqDecision endian.
Proof. solve_decision. Defined.

Definition host16 (e : endian) (b0 b1 : Z) : Z :=
  match e with LittleEndian => le16 b0 b1 | BigEndian => be16 b0 b1 end.
Definition host32 (e : endian) (b0 b1 b2 b3 : Z) : Z :=
  match e with
  | LittleEndian => le32 b0 b1 b2 b3 | BigEndian => be32 b0 b1 b2 b3
  end.
Definition host16_bytes (e : endian) (v : Z) : list Z :=
  match e with LittleEndian => le16_bytes v | BigEndian => be16_bytes v end.
Definition host32_bytes (e : endian) (v : Z) : list Z :=
  match e with LittleEndian => le32_bytes v | BigEndian => be32_bytes v end.

(** [htons]/[ntohs] *)
Definition swap16 (v : Z) : Z := le16 (u8 (v / 256)) (u8 v).
Definition htons (e : endian) (v : Z) : Z :=
  match e with LittleEndian => swap16 (u16 v) | BigEndian => u16 v end.
Definition ntohs := htons.

Lemma htons_involutive e v : 0 ≤ v < 65536 → ntohs e (htons e v) = v.
Proof.
  intros Hv. destruct e; unfold ntohs, htons, swap16, le16, be16, u16, u8;
    change (2 ^ 8) with 256; change (2 ^ 16) with 65536; zmod.
Qed.

(** A 16-bit object holding [htons v] is stored most significant byte first,
    on either host. *)
Lemma host16_bytes_htons e v :
  0 ≤ v < 65536 → host16_bytes e (htons e v) = be16_bytes v.
Proof.
  intros Hv. destruct e; unfold host16_bytes, le16_bytes, be16_bytes; simpl;
    unfold swap16, le16, be16, u16, u8;
    change (2 ^ 8) with 256; change (2 ^ 16) with 65536;
    repeat (f_equal; try zmod).
Qed.

(** ** Reading bytes out of a list *)
Definition zlookup (l : list Z) (i : Z) : option Z :=
  if decide (0 ≤ i) then l !! Z.to_nat i else None.

Lemma zlookup_ge l i : 0 ≤ i → zlookup l i = l !! Z.to_nat i.
Proof. intros. unfold zlookup. by rewrite decide_True. Qed.
Lemma zlookup_neg l i : i < 0 → zlookup l i = None.
Proof. intros. unfold zlookup. rewrite decide_False; [done|lia]. Qed.

(** ** Single bits *)
Lemma tst_bit x k : 0 ≤ k → tst x (2 ^ k) = Z.testbit x k.
Proof.
  intros Hk. unfold tst. destruct (Z.testbit x k) eqn:E.
  - apply negb_true_iff, Z.eqb_neq. intros H0.
    assert (Z.testbit (Z.land x (2 ^ k)) k = true) as H1.
    { rewrite Z.land_spec, E, Z.pow2_bits_true; [done|lia]. }
    rewrite H0, Z.bits_0 in H1. done.
  - apply negb_false_iff, Z.eqb_eq. apply Z.bits_inj'. intros n Hn.
    rewrite Z.land_spec, Z.bits_0.
    destruct (decide (n = k)) as [->|Hne]; [by rewrite E|].
    rewrite (Z.pow2_bits_false k n); [apply andb_false_r|lia].
Qed.

Lemma land_range x m : 0 ≤ m → 0 ≤ Z.land x m ≤ m.
Proof.
  intros Hm. split.
  - apply Z.land_nonneg. by right.
  - destruct (decide (Z.land x m ≤ m)) as [|Hgt]; [done|exfalso].
    assert (0 ≤ Z.ldiff m x) by (apply Z.ldiff_nonneg; by left).
    assert (m = Z.lor (Z.land x m) (Z.ldiff m x)) as Heq.
    { apply Z.bits_inj'. intros n Hn. rewrite Z.lor_spec, Z.land_spec, Z.ldiff_spec.
      by destruct (Z.testbit x n), (Z.testbit m n). }
    assert (Z.land (Z.land x m) (Z.ldiff m x) = 0) as Hdisj.
    { apply Z.bits_inj'. intros n Hn. rewrite !Z.land_spec, Z.ldiff_spec, Z.bits_0.
      by destruct (Z.testbit x n), (Z.testbit m n). }
    pose proof (Z.add_nocarry_lxor _ _ Hdisj) as Hadd.
    assert (Z.lxor (Z.land x m) (Z.ldiff m x) = m) as Hx.
    { apply Z.bits_inj'. intros n Hn. rewrite Z.lxor_spec, Z.land_spec, Z.ldiff_spec.
      by destruct (Z.testbit x n), (Z.testbit m n). }
    lia.
Qed.

(** Shifting one field over another and or-ing them is addition. *)
Lemma lor_add_disjoint a b k :
  0 ≤ k → 0 ≤ b < 2 ^ k → Z.lor (Z.shiftl a k) b = a * 2 ^ k + b.
Proof.
  intros Hk Hb. rewrite <- Z.shiftl_mul_pow2 by done.
  pose proof (Z.add_lor_land (Z.shiftl a k) b) as Hadd.
  enough (Z.land (Z.shiftl a k) b = 0) by lia.
  destruct (decide (b = 0)) as [->|Hnz]; [apply Z.land_0_r|].
  apply Z.bits_inj'. intros n Hn. rewrite Z.land_spec, Z.bits_0.
  destruct (decide (n < k)).
  - by rewrite Z.shiftl_spec_low.
  - rewrite (Z.bits_above_log2 b n); [apply andb_false_r|lia|].
    apply Z.log2_lt_pow2; [lia|]. apply Z.lt_le_trans with (2 ^ k); [lia|].
    apply Z.pow_le_mono_r; lia.
Qed.

(** ** All values of a byte *)
Definition all_bytes : list Z := Z.of_nat <$> seq 0 256.

Lemma all_bytes_spec b : is_byte b → b ∈ all_bytes.
Proof.
  intros [? ?]. unfold all_bytes. apply list_elem_of_fmap. exists (Z.to_nat b).
  rewrite elem_of_seq. lia.
Qed.

(** A decidable fact about one byte holds when it holds of the 256 values. *)
Lemma byte_forall (P : Z → bool) :
  forallb P all_bytes = true → ∀ b, is_byte b → P b = true.
Proof.
  intros H b Hb. rewrite forallb_forall in H. apply H.
  apply list_elem_of_In. by apply all_bytes_spec.
Qed.
(** ... and so does an equation between functions of a byte. *)
Lemma byte_eq (f g : Z → Z) :
  forallb (λ b, f b =? g b) all_bytes = true → ∀ b, is_byte b → f b = g b.
Proof. intros H b Hb. by apply Z.eqb_eq, (byte_forall (λ b, f b =? g b)). Qed.
