(* ===== verification/Printf.v ===== *)
(** * The conversions of [printf] the programs use, and C strings

    [%d], [%u], [%x], [%#x], zero padding and [%s], on Rocq strings. *)
From Stdlib Require Import String Ascii.
From S2P Require Import Prelude CInt.

(** ** Appending strings *)
Lemma str_app_cons a (s t : string) :
  (String a s +:+ t = String a (s +:+ t))%string.
Proof. done. Qed.

Lemma str_app_nil_l (s : string) : (EmptyString +:+ s = s)%string.
Proof. done. Qed.

Lemma str_app_assoc (s t u : string) :
  ((s +:+ t) +:+ u = s +:+ (t +:+ u))%string.
Proof. induction s; [done|]. by rewrite !str_app_cons, IHs. Qed.

Lemma str_app_nil_r (s : string) : (s +:+ EmptyString = s)%string.
Proof. induction s; [done|]. by rewrite str_app_cons, IHs. Qed.

Create Rewrite HintDb str.
#[export] Hint Rewrite str_app_assoc str_app_nil_r str_app_nil_l : str.

(** ** Characters *)
Definition chr (b : Z) : ascii := ascii_of_N (Z.to_N (u8 b)).
Definition ord (a : ascii) : Z := Z.of_N (N_of_ascii a).
Definition char1 (b : Z) : string := String (chr b) EmptyString.

(** newline, tabulation and double quote *)
Definition nl : string := char1 10.
Definition tab : string := char1 9.
Definition dq : string := char1 34.

Lemma ord_chr b : is_byte b → ord (chr b) = b.
Proof.
  intros Hb. unfold ord, chr. rewrite u8_small by done. unfold is_byte in Hb.
  rewrite N_ascii_embedding; lia.
Qed.

Lemma chr_inj a b : is_byte a → is_byte b → chr a = chr b → a = b.
Proof. intros Ha Hb H. rewrite <- (ord_chr a), <- (ord_chr b) by done. by rewrite H. Qed.

Fixpoint str_of_bytes (l : list Z) : string :=
  match l with
  | [] => EmptyString
  | b :: l => String (chr b) (str_of_bytes l)
  end.

Fixpoint bytes_of_str (s : string) : list Z :=
  match s with
  | EmptyString => []
  | String a s => ord a :: bytes_of_str s
  end.

Lemma str_of_bytes_app l k :
  str_of_bytes (l ++ k) = (str_of_bytes l +:+ str_of_bytes k)%string.
Proof. induction l; simpl; [done|]. by rewrite str_app_cons, IHl. Qed.

Lemma bytes_of_str_of_bytes l :
  Forall is_byte l → bytes_of_str (str_of_bytes l) = l.
Proof. induction 1; simpl; [done|]. by rewrite ord_chr, IHForall. Qed.

Lemma str_of_bytes_inj l k :
  Forall is_byte l → Forall is_byte k → str_of_bytes l = str_of_bytes k → l = k.
Proof.
  intros Hl Hk H. rewrite <- (bytes_of_str_of_bytes l), <- (bytes_of_str_of_bytes k) by done.
  by rewrite H.
Qed.

Lemma ord_byte a : is_byte (ord a).
Proof. unfold is_byte, ord. pose proof (N_ascii_bounded a). lia. Qed.

Lemma bytes_of_str_bytes s : Forall is_byte (bytes_of_str s).
Proof. induction s; simpl; constructor; [apply ord_byte|done]. Qed.

Lemma chr_ord a : chr (ord a) = a.
Proof.
  unfold chr. rewrite u8_small by apply ord_byte.
  unfold ord. rewrite N2Z.id. apply ascii_N_embedding.
Qed.

Lemma str_of_bytes_of_str s : str_of_bytes (bytes_of_str s) = s.
Proof. induction s; simpl; [done|]. by rewrite chr_ord, IHs. Qed.

(** ** Numbers *)
Definition digit (d : Z) : ascii := chr (if d <? 10 then 48 + d else 87 + d).
Definition undigit (a : ascii) : Z :=
  let c := ord a in if c <? 58 then c - 48 else c - 87.

Fixpoint digits (fuel : nat) (base n : Z) (acc : string) : string :=
  match fuel with
  | O => acc
  | S fuel =>
      let acc := String (digit (n mod base)) acc in
      if n <? base then acc else digits fuel base (n / base) acc
  end.

(** A number [n ≥ 0] has at most [1 + log2 n] digits in any base from 2. *)
Definition fmt_base (base n : Z) : string :=
  digits (S (Z.to_nat (Z.log2 n))) base n EmptyString.

Definition pad0 (w : nat) (s : string) : string :=
  (str_of_bytes (replicate (w - String.length s) 48%Z) +:+ s)%string.

(** [%d] of an [int], [%u], [%x] and [%#x] of an [unsigned] *)
Definition fmt_u (n : Z) : string := fmt_base 10 n.
Definition fmt_d (n : Z) : string :=
  if n <? 0 then ("-" +:+ fmt_base 10 (- n))%string else fmt_base 10 n.
Definition fmt_x (n : Z) : string := fmt_base 16 n.
Definition fmt_ax (n : Z) : string :=
  if n =? 0 then "0"%string else ("0x" +:+ fmt_x n)%string.
(** [%02x], [%08x], [%#02x], [%02d], [%06u] *)
Definition fmt_02x (n : Z) : string := pad0 2 (fmt_x n).
Definition fmt_04x (n : Z) : string := pad0 4 (fmt_x n).
Definition fmt_06x (n : Z) : string := pad0 6 (fmt_x n).
Definition fmt_08x (n : Z) : string := pad0 8 (fmt_x n).
Definition fmt_a02x (n : Z) : string :=
  if n =? 0 then "00"%string else ("0x" +:+ fmt_x n)%string.
Definition fmt_02d (n : Z) : string := pad0 2 (fmt_d n).
Definition fmt_06u (n : Z) : string := pad0 6 (fmt_u n).

Example fmt_examples :
  (fmt_d 115200 = "115200" ∧ fmt_d (-1) = "-1" ∧ fmt_x 48879 = "beef" ∧
   fmt_02x 5 = "05" ∧ fmt_08x 4660 = "00001234" ∧ fmt_d 0 = "0" ∧
   fmt_ax 127 = "0x7f")%string.
Proof. by vm_compute. Qed.

(** Reading a number back. *)
Fixpoint value_of (base acc : Z) (s : string) : Z :=
  match s with
  | EmptyString => acc
  | String a s => value_of base (acc * base + undigit a) s
  end.

Lemma undigit_digit d : 0 ≤ d < 16 → undigit (digit d) = d.
Proof.
  intros Hd. unfold undigit, digit.
  destruct (d <? 10) eqn:E.
  - apply Z.ltb_lt in E. rewrite ord_chr by (unfold is_byte; lia).
    rewrite (proj2 (Z.ltb_lt _ _)) by lia. lia.
  - apply Z.ltb_ge in E. rewrite ord_chr by (unfold is_byte; lia).
    rewrite (proj2 (Z.ltb_ge _ _)) by lia. lia.
Qed.

Lemma value_of_digits fuel base n acc :
  2 ≤ base ≤ 16 → 0 ≤ n < 2 ^ Z.of_nat fuel →
  value_of base 0 (digits fuel base n acc) = value_of base n acc.
Proof.
  intros Hb. revert n acc. induction fuel as [|fuel IH]; intros n acc Hn; simpl.
  - change (2 ^ Z.of_nat 0) with 1 in Hn. by replace n with 0 by lia.
  - destruct (n <? base) eqn:E.
    + apply Z.ltb_lt in E. simpl. rewrite Z.mod_small, undigit_digit by lia. done.
    + apply Z.ltb_ge in E. rewrite Nat2Z.inj_succ, Z.pow_succ_r in Hn by lia.
      rewrite IH.
      * simpl. rewrite undigit_digit by (pose proof (Z.mod_pos_bound n base); lia).
        f_equal. pose proof (Z.div_mod n base). lia.
      * split; [apply Z.div_pos; lia|].
        apply Z.div_lt_upper_bound; [lia|]. nia.
Qed.

Lemma log2_fuel n : 0 ≤ n → n < 2 ^ Z.of_nat (S (Z.to_nat (Z.log2 n))).
Proof.
  intros Hn. rewrite Nat2Z.inj_succ, Z2Nat.id by apply Z.log2_nonneg.
  destruct (decide (n = 0)) as [->|]; [done|]. apply Z.log2_spec. lia.
Qed.

(** Printing then reading a number gives the number back. *)
Lemma fmt_base_value base n :
  2 ≤ base ≤ 16 → 0 ≤ n → value_of base 0 (fmt_base base n) = n.
Proof.
  intros Hb Hn. unfold fmt_base. rewrite value_of_digits; [done|done|].
  split; [done|]. by apply log2_fuel.
Qed.

Lemma value_of_zeros base k s :
  value_of base 0 (str_of_bytes (replicate k 48%Z) +:+ s) = value_of base 0 s.
Proof.
  induction k as [|k IH]; [done|]. exact IH.
Qed.

Lemma pad0_value base w n :
  2 ≤ base ≤ 16 → 0 ≤ n → value_of base 0 (pad0 w (fmt_base base n)) = n.
Proof.
  intros. unfold pad0. rewrite value_of_zeros.
  by apply fmt_base_value.
Qed.

(** ** C strings in memory: the bytes before the first zero *)
Fixpoint cstr (l : list Z) : option (list Z) :=
  match l with
  | [] => None
  | b :: l => if b =? 0 then Some [] else (b ::.) <$> cstr l
  end.

Lemma cstr_app l k : (∀ b, b ∈ l → b ≠ 0) → cstr (l ++ 0 :: k) = Some l.
Proof.
  induction l as [|b l IH]; intros H; simpl; [done|].
  rewrite (proj2 (Z.eqb_neq b 0)) by (apply H; left).
  rewrite IH; [done|]. intros c Hc. apply H. by right.
Qed.

(** [strstr(hay, needle) != NULL], on the contents of the two strings *)
Fixpoint prefixb (p l : list Z) : bool :=
  match p, l with
  | [], _ => true
  | a :: p, b :: l => (a =? b) && prefixb p l
  | _ :: _, [] => false
  end.

Fixpoint strstr (hay needle : list Z) : bool :=
  prefixb needle hay ||
  match hay with [] => false | _ :: hay => strstr hay needle end.

Lemma prefixb_spec p l : prefixb p l = true ↔ ∃ k, l = p ++ k.
Proof.
  revert l. induction p as [|a p IH]; intros l; simpl.
  - split; [eauto|done].
  - destruct l as [|b l]; [split; [done|by intros [k ?]]|].
    rewrite andb_true_iff, Z.eqb_eq, IH. split.
    + intros [-> [k ->]]. by exists k.
    + intros [k [= -> ->]]. eauto.
Qed.

(** [strstr] finds exactly the substrings. *)
Lemma strstr_spec hay needle :
  strstr hay needle = true ↔ ∃ l r, hay = l ++ needle ++ r.
Proof.
  induction hay as [|b hay IH]; simpl.
  - rewrite orb_false_r, prefixb_spec. split.
    + intros [k ->]. by exists [], k.
    + intros (l & r & H). destruct l; [|done]. by exists r.
  - rewrite orb_true_iff, prefixb_spec, IH. split.
    + intros [[k ->]|(l & r & ->)]; [by exists [], k|by exists (b :: l), r].
    + intros (l & r & H). destruct l as [|c l]; simplify_eq/=; eauto.
Qed.

Definition has (hay : list Z) (s : string) : bool := strstr hay (bytes_of_str s).
