(* ===== verification/CFloat.v ===== *)
(** * Floating point numbers of C, and how [printf] shows them

    [float] is IEEE binary32 and [double] binary64, rounded to nearest, and the
    operations on [float] are done in [float]. *)
From Stdlib Require Import String Ascii SpecFloat.
From S2P Require Import Prelude CInt Printf.
Local Open Scope string_scope.
Local Open Scope list_scope.
Local Open Scope Z_scope.

Definition float_of_Z (n : Z) : spec_float := binary_normalize 24 128 n 0 false.
Definition double_of_Z (n : Z) : spec_float := binary_normalize 53 1024 n 0 false.
Definition float_of_double (x : spec_float) : spec_float :=
  match x with
  | S754_finite s m e => binary_normalize 24 128 (if s then Zneg m else Zpos m) e s
  | x => x
  end.

(** the quotient of two integers, rounded to nearest, ties to even *)
Definition round_div (n d : Z) : Z :=
  let q := n / d in
  let r := n mod d in
  if 2 * r <? d then q
  else if d <? 2 * r then q + 1
  else if Z.even q then q else q + 1.

(** [m * 2^e * p], rounded *)
Definition scaled (p : Z) (m : positive) (e : Z) : Z :=
  if 0 <=? e then Zpos m * 2 ^ e * p else round_div (Zpos m * p) (2 ^ (- e)).
Definition hundredths (m : positive) (e : Z) : Z := scaled 100 m e.

(** with [k] decimals: [%.kf] *)
Definition fmt_f (k : nat) (x : spec_float) : string :=
  let p := 10 ^ Z.of_nat k in
  let digits h := fmt_u (h / p) +:+ "." +:+ pad0 k (fmt_u (h mod p)) in
  match x with
  | S754_zero s => (if s then "-" else "") +:+ digits 0
  | S754_finite s m e => (if s then "-" else "") +:+ digits (scaled p m e)
  | S754_infinity s => if s then "-inf" else "inf"
  | S754_nan => "-nan"
  end.

(** [%g]: six digits, without the zeros at their end, in the scientific notation where
    the exponent [x] is less than -4 or more than 5 *)
Definition fmt_exponent (x : Z) : string :=
  "e" +:+ (if x <? 0 then "-" else "+") +:+ pad0 2 (fmt_u (Z.abs x)).

Fixpoint strip_zeros (s : string) : string :=
  match s with
  | EmptyString => ""
  | String c s =>
      match strip_zeros s with
      | EmptyString => if Ascii.eqb c "0" then "" else String c ""
      | t => String c t
      end
  end.
(** [n / 10^k] *)
Definition fmt_decimals (k : nat) (n : Z) : string :=
  let p := 10 ^ Z.of_nat k in
  match strip_zeros (pad0 k (fmt_u (n mod p))) with
  | EmptyString => fmt_u (n / p)
  | t => fmt_u (n / p) +:+ "." +:+ t
  end.

(** the [x] for which [n / d] is at least [10^x] and less than [10^(x + 1)] *)
Definition exponent10 (n d : Z) : Z :=
  if d <=? n then Z.of_nat (String.length (fmt_u (n / d))) - 1
  else - Z.of_nat (String.length (fmt_u ((d - 1) / n))).

(** six digits of [n / d] and their exponent *)
Definition six_digits (n d : Z) : Z * Z :=
  let x := exponent10 n d in
  let r := if x <=? 5 then round_div (n * 10 ^ (5 - x)) d else round_div n (d * 10 ^ (x - 5)) in
  if r =? 1000000 then (100000, x + 1) else (r, x).

Definition fmt_g_finite (m : positive) (e : Z) : string :=
  let '(r, x) := six_digits (Zpos m * 2 ^ Z.max e 0) (2 ^ Z.max (- e) 0) in
  if (x <? -4) || (5 <? x) then fmt_decimals 5 r +:+ fmt_exponent x
  else fmt_decimals (Z.to_nat (5 - x)) r.

Definition fmt_g (x : spec_float) : string :=
  match x with
  | S754_zero s => if s then "-0" else "0"
  | S754_finite s m e => (if s then "-" else "") +:+ fmt_g_finite m e
  | S754_infinity s => if s then "-inf" else "inf"
  | S754_nan => "-nan"
  end.

Lemma round_div_nearest n d : 0 < d → 2 * Z.abs (round_div n d * d - n) ≤ d.
Proof.
  intros Hd. unfold round_div. pose proof (Z.div_mod n d ltac:(lia)) as Hdm.
  pose proof (Z.mod_pos_bound n d Hd) as Hr.
  set (q := n / d) in *. set (r := n mod d) in *.
  destruct (Z.ltb_spec (2 * r) d); [nia|].
  destruct (Z.ltb_spec d (2 * r)); [nia|]. destruct (Z.even q); nia.
Qed.

(** what [scaled] gives is as near as an integer can be *)
Lemma scaled_nearest p m e : 0 < p → e < 0 →
  2 * Z.abs (scaled p m e * 2 ^ (- e) - Zpos m * p) ≤ 2 ^ (- e).
Proof.
  intros Hp He. unfold scaled. rewrite (proj2 (Z.leb_gt _ _)) by lia.
  apply round_div_nearest, Z.pow_pos_nonneg; lia.
Qed.

(** [double] operations *)
Definition double_div : spec_float → spec_float → spec_float := SFdiv 53 1024.
Definition double_mul : spec_float → spec_float → spec_float := SFmul 53 1024.

Example fmt_g_examples :
  fmt_g (double_of_Z 0) = "0" ∧ fmt_g (double_of_Z 123456) = "123456" ∧
  fmt_g (double_of_Z 1234567) = "1.23457e+06" ∧ fmt_g (double_of_Z 1000000) = "1e+06" ∧
  fmt_g (double_div (double_of_Z 1) (double_of_Z 8)) = "0.125" ∧
  fmt_g (double_div (double_of_Z 2) (double_of_Z 3)) = "0.666667" ∧
  fmt_g (double_div (double_of_Z 1) (double_of_Z 20000)) = "5e-05" ∧
  fmt_g (double_div (double_of_Z 9999999) (double_of_Z 10)) = "1e+06" ∧
  fmt_g (double_div (double_of_Z 1) (double_of_Z 10)) = "0.1" ∧
  fmt_g (double_of_Z (-10)) = "-10".
Proof. by vm_compute. Qed.
