(* ===== verification/NetBuf.v ===== *)
(** * Network buffers: irdadump/netbuf.c

    The heap block of a [GNetBuf] is a list of bytes; [data], [tail] and [end]
    are offsets from [head].  Operations run in the state monad of C code over
    the buffer; a [memcpy] outside the block stops with [OobWrite].
    The two messages that [g_netbuf_put] and [g_netbuf_push] print when they reallocate are left
    out: the state is the buffer. *)
From Stdlib Require Import String.
From S2P Require Import Prelude CInt Printf.

Record netbuf := mkBuf {
  mem : list Z;      (* the block at head *)
  data : Z;
  tail : Z;
  endp : Z;
  blen : Z;          (* guint len *)
  truesize : Z }.    (* guint truesize *)

Definition set_mem m b := mkBuf m (data b) (tail b) (endp b) (blen b) (truesize b).
Definition set_data v b := mkBuf (mem b) v (tail b) (endp b) (blen b) (truesize b).
Definition set_tail v b := mkBuf (mem b) (data b) v (endp b) (blen b) (truesize b).
Definition set_endp v b := mkBuf (mem b) (data b) (tail b) v (blen b) (truesize b).
Definition set_blen v b := mkBuf (mem b) (data b) (tail b) (endp b) v (truesize b).
Definition set_truesize v b := mkBuf (mem b) (data b) (tail b) (endp b) (blen b) v.

(** ** Memory access through offsets from [head] *)

(** a [guint8] read *)
Definition peek (off : Z) : M netbuf Z :=
  b ← get; v ← or_stop OobRead (zlookup (mem b) off); mret (u8 v).

(** a read of [n] bytes *)
Definition peeks (off n : Z) : M netbuf (list Z) :=
  b ← get;
  if decide (0 ≤ off ∧ 0 ≤ n ∧ off + n ≤ Z.of_nat (length (mem b)))
  then mret (u8 <$> take (Z.to_nat n) (drop (Z.to_nat off) (mem b)))
  else halt OobRead.

(** a write of the bytes [bs] *)
Definition splice (off : Z) (bs l : list Z) : list Z :=
  take (Z.to_nat off) l ++ bs ++ drop (Z.to_nat off + length bs) l.

Definition poke (off : Z) (bs : list Z) : M netbuf unit :=
  b ← get;
  if decide (0 ≤ off ∧ off + Z.of_nat (length bs) ≤ Z.of_nat (length (mem b)))
  then modify (set_mem (splice off (u8 <$> bs) (mem b)))
  else halt OobWrite.

(** [memcpy(head + off, src, n)] from an object holding [src] *)
Definition memcpy_in (off : Z) (src : list Z) (n : Z) : M netbuf unit :=
  if decide (n ≤ Z.of_nat (length src)) then poke off (take (Z.to_nat n) src)
  else halt OobRead.

Section netbuf.
(** The C library: the contents of byte [i] of a block when it is allocated
    or grown, and whether [realloc] to a size succeeds.  ([g_malloc] does not
    return on failure.) *)
Variable heap_fill : Z → Z.
Variable realloc_ok : Z → bool.

Definition fill (from upto : Z) : list Z :=
  (λ i, u8 (heap_fill (from + Z.of_nat i))) <$> seq 0 (Z.to_nat (upto - from)).

Definition g_netbuf_recycle (b : netbuf) : netbuf :=
  set_endp (truesize b) (set_blen 0 (set_tail 0 (set_data 0 b))).

Definition g_netbuf_new (len : Z) : netbuf :=
  g_netbuf_recycle (mkBuf (fill 0 len) 0 0 0 0 len).

(** [None]: realloc returned NULL *)
Definition g_netbuf_realloc (len : Z) : M netbuf (option unit) :=
  b ← get;
  if realloc_ok len then
    modify (λ b, set_endp len (set_truesize len
      (set_mem (take (Z.to_nat len) (mem b)
                ++ fill (Z.of_nat (length (mem b))) len) b)));;
    mret (Some tt)
  else mret None.

Definition g_netbuf_put (len : Z) : M netbuf (option Z) :=
  b ← get;
  let tmp := tail b in
  modify (λ b, set_tail (tail b + len) b);;
  modify (λ b, set_blen (u32 (blen b + len)) b);;
  b ← get;
  if decide (tail b > endp b) then
    r ← g_netbuf_realloc (u32 (truesize b + len));
    match r with
    | None => mret None
    | Some _ => b ← get; mret (Some (tail b - len))
    end
  else mret (Some tmp).

Definition g_netbuf_put_data (src : list Z) (len : Z) : M netbuf (option Z) :=
  tmp ← g_netbuf_put len;
  match tmp with
  | None => halt NullDeref
  | Some off => memcpy_in off src len;; mret (Some off)
  end.

Definition g_netbuf_push (len : Z) : M netbuf (option Z) :=
  b ← get;
  r ← (if decide (data b - len < 0) then
         r ← g_netbuf_realloc (u32 (truesize b + len));
         match r with
         | None => mret None
         | Some _ =>
             b ← get;
             (* Move data with offset len *)
             bs ← peeks (data b) (blen b);
             poke (data b + len) bs;;
             modify (λ b, set_data (data b + len) b);;
             modify (λ b, set_tail (tail b + len) b);;
             mret (Some tt)
         end
       else mret (Some tt));
  match r with
  | None => mret None
  | Some _ =>
      modify (λ b, set_data (data b - len) b);;
      modify (λ b, set_blen (u32 (blen b + len)) b);;
      b ← get; mret (Some (data b))
  end.

Definition g_netbuf_prepend_hdr (hdr : list Z) (len : Z) : M netbuf (option Z) :=
  tmp ← g_netbuf_push len;
  match tmp with
  | None => halt NullDeref
  | Some off => memcpy_in off hdr len;; mret (Some off)
  end.

Definition g_netbuf_pull (len : Z) : M netbuf (option Z) :=
  b ← get;
  if decide (len > blen b) then mret None
  else
    modify (λ b, set_blen (u32 (blen b - len)) b);;
    modify (λ b, set_data (data b + len) b);;
    b ← get; mret (Some (data b)).

Definition g_netbuf_reserve (len : Z) : M netbuf unit :=
  modify (λ b, set_data (data b + len) b);;
  modify (λ b, set_tail (tail b + len) b).

Definition g_netbuf_headroom (b : netbuf) : Z := data b.
Definition g_netbuf_tailroom (b : netbuf) : Z := endp b - tail b.

Definition g_netbuf_trim (len : Z) : M netbuf unit :=
  b ← get;
  when (bool_decide (blen b > len))
    (modify (set_blen len);; modify (λ b, set_tail (data b + len) b)).

(** what [g_netbuf_print] prints *)
Definition g_netbuf_print : M netbuf string :=
  b ← get;
  bs ← peeks (data b) (blen b);
  mret (foldr (λ v s, (fmt_02x v +:+ s)%string) nl bs).
End netbuf.

Definition g_netbuf_get_len (b : netbuf) : Z := blen b.
Definition g_netbuf_get_data (b : netbuf) : Z := data b.

(** ** Well-formed buffers and their payload *)
Record wf (b : netbuf) : Prop := {
  wf_data : 0 ≤ data b ≤ tail b;
  wf_tail : tail b ≤ endp b;
  wf_endp : endp b = truesize b;
  wf_mem : Z.of_nat (length (mem b)) = truesize b;
  wf_blen : blen b = tail b - data b;
  wf_size : truesize b < 4294967296;
  wf_bytes : Forall is_byte (mem b) }.

Definition payload (b : netbuf) : list Z :=
  take (Z.to_nat (blen b)) (drop (Z.to_nat (data b)) (mem b)).

(** A well-formed buffer is headroom, payload and tailroom laid end to end. *)
Definition lay (pre pay post : list Z) : netbuf :=
  mkBuf (pre ++ pay ++ post) (Z.of_nat (length pre))
    (Z.of_nat (length pre + length pay))
    (Z.of_nat (length (pre ++ pay ++ post)))
    (Z.of_nat (length pay)) (Z.of_nat (length (pre ++ pay ++ post))).

(** ** Abstract specification: a buffer is a byte string

    Each operation of a client, as run by the C functions and as an operation
    on byte strings. *)
Inductive buf_op :=
  | OpPut (bs : list Z)      (* g_netbuf_put_data *)
  | OpPrepend (bs : list Z)  (* g_netbuf_prepend_hdr *)
  | OpPull (n : Z)           (* g_netbuf_pull *)
  | OpTrim (n : Z)           (* g_netbuf_trim *)
  | OpRecycle.               (* g_netbuf_recycle *)

Definition run_op (hf : Z → Z) (ok : Z → bool) (o : buf_op) : M netbuf unit :=
  match o with
  | OpPut bs => g_netbuf_put_data hf ok bs (Z.of_nat (length bs));; mret tt
  | OpPrepend bs => g_netbuf_prepend_hdr hf ok bs (Z.of_nat (length bs));; mret tt
  | OpPull n => g_netbuf_pull n;; mret tt
  | OpTrim n => g_netbuf_trim n
  | OpRecycle => modify g_netbuf_recycle
  end.

Fixpoint run_ops (hf : Z → Z) (ok : Z → bool) (os : list buf_op) : M netbuf unit :=
  match os with
  | [] => mret tt
  | o :: os => run_op hf ok o;; run_ops hf ok os
  end.

Definition spec_op (l : list Z) (o : buf_op) : list Z :=
  match o with
  | OpPut bs => l ++ bs
  | OpPrepend bs => bs ++ l
  | OpPull n => if decide (n ≤ Z.of_nat (length l)) then drop (Z.to_nat n) l else l
  | OpTrim n => take (Z.to_nat n) l
  | OpRecycle => []
  end.

(** bytes an operation may add to the block *)
Definition op_grow (o : buf_op) : Z :=
  match o with OpPut bs | OpPrepend bs => Z.of_nat (length bs) | _ => 0 end.

Definition op_ok (o : buf_op) : Prop :=
  match o with
  | OpPut bs | OpPrepend bs => Forall is_byte bs
  | OpPull n | OpTrim n => 0 ≤ n
  | OpRecycle => True
  end.

Lemma u8_bytes l : Forall is_byte l → u8 <$> l = l.
Proof.
  induction 1 as [|b l Hb _ IH]; [done|]. by rewrite fmap_cons, u8_small, IH.
Qed.

Lemma lay_payload pre pay post : payload (lay pre pay post) = pay.
Proof.
  unfold payload, lay. simpl. rewrite !Nat2Z.id, drop_app_length.
  by rewrite take_app_length.
Qed.

(** the room before the payload, the payload and the room behind it are the block *)
Lemma lay_rooms pre pay post :
  g_netbuf_headroom (lay pre pay post) = Z.of_nat (length pre) ∧
  g_netbuf_tailroom (lay pre pay post) = Z.of_nat (length post).
Proof.
  unfold g_netbuf_headroom, g_netbuf_tailroom, lay. cbn [data tail endp].
  rewrite !length_app. split; [done|lia].
Qed.

Lemma wf_lay b :
  wf b →
  ∃ pre post, b = lay pre (payload b) post ∧
    Z.of_nat (length (pre ++ payload b ++ post)) < 4294967296 ∧
    Forall is_byte (pre ++ payload b ++ post).
Proof.
  intros [[? ?] ? He Hm Hl ? Hb]. destruct b as [m d t e n ts]. simpl in *.
  assert (Hle : (Z.to_nat d + Z.to_nat n ≤ length m)%nat) by lia.
  assert (Hm' : m = take (Z.to_nat d) m ++ take (Z.to_nat n) (drop (Z.to_nat d) m)
              ++ drop (Z.to_nat n) (drop (Z.to_nat d) m)).
  { by rewrite take_drop, take_drop. }
  exists (take (Z.to_nat d) m), (drop (Z.to_nat n) (drop (Z.to_nat d) m)).
  unfold payload, lay. simpl. rewrite <- Hm'.
  rewrite !length_take, length_drop. split_and!; [|lia|done].
  f_equal; lia.
Qed.

Lemma lay_wf pre pay post :
  Z.of_nat (length (pre ++ pay ++ post)) < 4294967296 →
  Forall is_byte (pre ++ pay ++ post) → wf (lay pre pay post).
Proof.
  intros. constructor; simpl; rewrite ?length_app in *; try lia; done.
Qed.

Lemma payload_length b : wf b → Z.of_nat (length (payload b)) = blen b.
Proof.
  intros Hb. destruct (wf_lay b Hb) as (pre & post & -> & _ & _).
  by rewrite lay_payload.
Qed.

Lemma payload_bytes b : wf b → Forall is_byte (payload b).
Proof.
  intros Hb. destruct (wf_lay b Hb) as (pre & post & _ & _ & H).
  by rewrite !Forall_app in H; destruct H as (_ & ? & _).
Qed.

(** The two memory primitives on a laid-out buffer. *)
Lemma splice_mid (pre old post bs : list Z) :
  length bs = length old →
  splice (Z.of_nat (length pre)) bs (pre ++ old ++ post) = pre ++ bs ++ post.
Proof.
  intros H. unfold splice. rewrite Nat2Z.id, take_app_length, H.
  rewrite drop_app_add', drop_app_length by done. done.
Qed.

Lemma poke_mid (pre old post bs : list Z) b :
  mem b = pre ++ old ++ post → length bs = length old → Forall is_byte bs →
  poke (Z.of_nat (length pre)) bs b = Ok (tt, set_mem (pre ++ bs ++ post) b).
Proof.
  intros Hm Hl Hb. unfold poke, get, mbind, M_bind. simpl.
  rewrite decide_True by (rewrite Hm, !length_app; lia).
  rewrite Hm, u8_bytes, splice_mid by done. done.
Qed.

Lemma peeks_mid (pre l post : list Z) b n :
  mem b = pre ++ l ++ post → n = Z.of_nat (length l) → Forall is_byte l →
  peeks (Z.of_nat (length pre)) n b = Ok (l, b).
Proof.
  intros Hm -> Hb. unfold peeks, get, mbind, M_bind. simpl.
  rewrite decide_True by (rewrite Hm, !length_app; lia).
  rewrite Hm, !Nat2Z.id, drop_app_length, take_app_length, u8_bytes; done.
Qed.

Lemma memcpy_in_mid (pre old post src : list Z) n b :
  mem b = pre ++ old ++ post → n = Z.of_nat (length old) →
  n ≤ Z.of_nat (length src) → Forall is_byte src →
  memcpy_in (Z.of_nat (length pre)) src n b
  = Ok (tt, set_mem (pre ++ take (Z.to_nat n) src ++ post) b).
Proof.
  intros Hm -> Hn Hb. unfold memcpy_in. rewrite decide_True by done.
  apply poke_mid with old; [done| |by apply Forall_take].
  rewrite length_take. lia.
Qed.

(** ** The operations on a laid-out buffer *)
Section operations.
Variable heap_fill : Z → Z.
Variable realloc_ok : Z → bool.
Abbreviation put := (g_netbuf_put heap_fill realloc_ok).
Abbreviation push := (g_netbuf_push heap_fill realloc_ok).
Abbreviation realloc := (g_netbuf_realloc heap_fill realloc_ok).

Lemma fill_length a c : a ≤ c → Z.of_nat (length (fill heap_fill a c)) = c - a.
Proof. intros. unfold fill. rewrite length_fmap, length_seq. lia. Qed.

Lemma fill_bytes a c : Forall is_byte (fill heap_fill a c).
Proof.
  unfold fill. apply Forall_forall. intros x (i & -> & _)%list_elem_of_fmap.
  apply u8_range.
Qed.

(** Growing the block appends [n] bytes to the tailroom. *)
Lemma realloc_grow b n :
  Z.of_nat (length (mem b)) ≤ n → realloc_ok n = true →
  realloc n b = Ok (Some tt, set_endp n (set_truesize n
    (set_mem (mem b ++ fill heap_fill (Z.of_nat (length (mem b))) n) b))).
Proof.
  intros Hn Hok. unfold g_netbuf_realloc, get, mbind, M_bind. simpl.
  rewrite Hok. unfold modify, mret, M_ret. rewrite take_ge by lia. done.
Qed.

Lemma put_fit pre pay new rest len :
  len = Z.of_nat (length new) →
  Z.of_nat (length (pre ++ pay ++ new ++ rest)) < 4294967296 →
  put len (lay pre pay (new ++ rest)) =
    Ok (Some (Z.of_nat (length pre + length pay)), lay pre (pay ++ new) rest).
Proof.
  intros -> Hs. rewrite !length_app in Hs.
  unfold g_netbuf_put, get, modify, mbind, M_bind. cbn.
  rewrite decide_False by (rewrite !length_app; lia).
  unfold mret, M_ret, lay, set_tail, set_blen. cbn.
  rewrite u32_small by lia. rewrite <- !app_assoc. do 2 f_equal.
  f_equal; rewrite ?length_app; lia.
Qed.

Lemma put_grow pre pay post len :
  let n := Z.of_nat (length (pre ++ pay ++ post)) in
  Z.of_nat (length post) < len → n + len < 4294967296 →
  Forall is_byte (pre ++ pay ++ post) →
  realloc_ok (n + len) = true →
  put len (lay pre pay post) =
    Ok (Some (Z.of_nat (length pre + length pay)),
        let post' := post ++ fill heap_fill n (n + len) in
        lay pre (pay ++ take (Z.to_nat len) post') (drop (Z.to_nat len) post')).
Proof.
  intros n Hlen Hs Hb Hok. unfold n in *. clear n.
  assert (Hf := fill_length (Z.of_nat (length (pre ++ pay ++ post)))
    (Z.of_nat (length (pre ++ pay ++ post)) + len) ltac:(lia)).
  set (F := fill _ _ _) in *.
  unfold g_netbuf_put, get, modify, mbind, M_bind. cbn.
  rewrite decide_True by (rewrite !length_app; lia).
  rewrite u32_small, realloc_grow by (cbn; done || lia). unfold mret, M_ret. cbn.
  rewrite u32_small by (rewrite !length_app in *; lia).
  f_equal. f_equal; [f_equal; lia|]. unfold set_endp, set_truesize, set_mem. cbn.
  unfold lay. fold F. rewrite !length_app in *.
  f_equal; rewrite ?length_app, ?length_take, ?length_drop, ?length_app; try lia.
  rewrite <- !app_assoc. do 2 f_equal. by rewrite take_drop.
Qed.

(** [g_netbuf_put]: the payload grows by [len] bytes at its end, whether the
    block had room or was reallocated. *)
Lemma put_lay b len :
  wf b → 0 ≤ len → truesize b + len < 4294967296 →
  realloc_ok (truesize b + len) = true →
  ∃ pre new rest b', put len b = Ok (Some (tail b), b') ∧
    b' = lay pre (payload b ++ new) rest ∧ Z.of_nat (length new) = len ∧
    Z.of_nat (length pre) = data b ∧
    Forall is_byte (pre ++ (payload b ++ new) ++ rest) ∧
    truesize b ≤ truesize b' ≤ truesize b + len.
Proof.
  intros Hb Hlen Hs Hok. destruct (wf_lay b Hb) as (pre & post & Heq & Hn & Hbs).
  remember (payload b) as pay. rewrite Heq in *. cbn in *.
  destruct (decide (len ≤ Z.of_nat (length post))) as [Hle|Hgt].
  - rewrite <- (take_drop (Z.to_nat len) post) in Hn, Hbs |- *.
    eexists pre, (take (Z.to_nat len) post), _, _. split_and!.
    + apply put_fit; [rewrite length_take; lia|done].
    + done.
    + rewrite length_take. lia.
    + done.
    + by rewrite <- !app_assoc.
    + cbn. rewrite !length_app. lia.
    + cbn. rewrite !length_app, length_take. lia.
  - assert (Hf := fill_length (Z.of_nat (length (pre ++ pay ++ post)))
      (Z.of_nat (length (pre ++ pay ++ post)) + len) ltac:(lia)).
    eexists pre, _, _, _. split_and!.
    + apply put_grow; try done; lia.
    + done.
    + rewrite length_take, length_app. lia.
    + done.
    + rewrite <- !app_assoc, take_drop, !app_assoc, <- (app_assoc pre).
      apply Forall_app. split; [done|apply fill_bytes].
    + cbn. rewrite <- !app_assoc, take_drop, !app_assoc, (length_app _ (fill _ _ _)).
      rewrite <- !app_assoc. lia.
    + cbn. rewrite <- !app_assoc, take_drop, !app_assoc, (length_app _ (fill _ _ _)).
      rewrite <- !app_assoc. lia.
Qed.

Lemma push_fit pre hdr pay post len :
  len = Z.of_nat (length hdr) →
  Z.of_nat (length (pre ++ hdr ++ pay ++ post)) < 4294967296 →
  push len (lay (pre ++ hdr) pay post) =
    Ok (Some (Z.of_nat (length pre)), lay pre (hdr ++ pay) post).
Proof.
  intros -> Hs. rewrite !length_app in Hs.
  unfold g_netbuf_push, get, modify, mbind, M_bind. cbn.
  rewrite decide_False by (rewrite !length_app; lia).
  unfold mret, M_ret, lay, set_data, set_blen. cbn.
  rewrite u32_small by lia. rewrite <- !app_assoc.
  f_equal. f_equal; f_equal; rewrite ?length_app; lia.
Qed.

Lemma push_grow pre pay post len :
  let n := Z.of_nat (length (pre ++ pay ++ post)) in
  let t := pay ++ post ++ fill heap_fill n (n + len) in
  Z.of_nat (length pre) < len → n + len < 4294967296 →
  Forall is_byte (pre ++ pay ++ post) → realloc_ok (n + len) = true →
  push len (lay pre pay post) =
    Ok (Some (Z.of_nat (length pre)),
        lay pre (take (Z.to_nat len) t ++ pay)
                (drop (Z.to_nat len + length pay) t)).
Proof.
  intros n t Hlen Hs Hb Hok. subst t.
  assert (Hf := fill_length n (n + len) ltac:(lia)).
  set (F := fill _ _ _) in *. set (t := pay ++ post ++ F).
  assert (Ht : length t = (length pay + length post + length F)%nat)
    by (unfold t; rewrite !length_app; lia).
  assert (Hmem : (pre ++ pay ++ post) ++ F
    = (pre ++ take (Z.to_nat len) t)
      ++ take (length pay) (drop (Z.to_nat len) t)
      ++ drop (Z.to_nat len + length pay) t).
  { rewrite <- drop_drop, take_drop, <- !app_assoc, take_drop. done. }
  assert (Hpb : Forall is_byte pay) by (rewrite !Forall_app in Hb; tauto).
  unfold n in *. rewrite !length_app in Hf, Hs.
  unfold g_netbuf_push, get, modify, mbind, M_bind. cbn -[poke peeks].
  rewrite decide_True by lia.
  rewrite u32_small by (rewrite !length_app; lia).
  rewrite realloc_grow by (done || (cbn; rewrite !length_app; lia)).
  cbn -[poke peeks]. fold n. fold F.
  rewrite (peeks_mid pre pay (post ++ F)) by (cbn; by rewrite <- ?app_assoc).
  replace (Z.of_nat (length pre) + len)
    with (Z.of_nat (length (pre ++ take (Z.to_nat len) t)))
    by (rewrite length_app, length_take; lia).
  erewrite poke_mid; [|cbn; exact Hmem|rewrite length_take, length_drop; lia|done].
  unfold mret, M_ret, set_data, set_tail, set_blen, set_mem. cbn.
  rewrite u32_small by lia. f_equal. f_equal; [f_equal; lia|].
  unfold lay, n. rewrite <- !app_assoc.
  f_equal; rewrite ?length_app, ?length_take, ?length_drop, ?length_app; lia.
Qed.

(** [g_netbuf_push]: [len] bytes are exposed in front of the payload, whether
    there was headroom or the block was reallocated and the data moved. *)
Lemma push_lay b len :
  wf b → 0 ≤ len → truesize b + len < 4294967296 →
  realloc_ok (truesize b + len) = true →
  ∃ pre new rest b', push len b = Ok (Some (data b'), b') ∧
    b' = lay pre (new ++ payload b) rest ∧ Z.of_nat (length new) = len ∧
    Forall is_byte (pre ++ (new ++ payload b) ++ rest) ∧
    truesize b ≤ truesize b' ≤ truesize b + len.
Proof.
  intros Hb Hlen Hs Hok. destruct (wf_lay b Hb) as (pre & post & Heq & Hn & Hbs).
  remember (payload b) as pay. rewrite Heq in *. cbn in *.
  destruct (decide (len ≤ Z.of_nat (length pre))) as [Hle|Hgt].
  - set (k := (length pre - Z.to_nat len)%nat).
    rewrite <- (take_drop k pre) in Hn, Hbs |- *.
    exists (take k pre), (drop k pre), post. eexists. split_and!; [|done| | | |].
    + apply push_fit; [rewrite length_drop; lia|by rewrite <- !app_assoc in Hn].
    + rewrite length_drop. lia.
    + by rewrite <- !app_assoc in *.
    + cbn. rewrite !length_app. lia.
    + cbn. rewrite !length_app. lia.
  - pose proof (push_grow pre pay post len ltac:(lia) Hs Hbs Hok) as Hpush.
    set (n := Z.of_nat (length (pre ++ pay ++ post))) in *. cbn in Hpush.
    assert (Hf := fill_length n (n + len) ltac:(lia)).
    assert (HF := fill_bytes n (n + len)). set (F := fill _ _ _) in *.
    rewrite !Forall_app in Hbs. destruct Hbs as (Hp1 & Hp2 & Hp3).
    assert (Hlt : length (pay ++ post ++ F)
      = (length pay + length post + length F)%nat)
      by (rewrite !length_app; lia).
    assert (Ht : Forall is_byte (pay ++ post ++ F)) by (rewrite !Forall_app; done).
    unfold n in *. rewrite !length_app in *.
    eexists pre, _, _, (lay _ _ _). split_and!; [exact Hpush|done| | | |].
    + rewrite length_take, !length_app. lia.
    + rewrite !Forall_app. split_and!; try done;
        [by apply Forall_take|by apply Forall_drop].
    + cbn. rewrite !length_app, length_take, length_drop, !length_app. lia.
    + cbn. rewrite !length_app, length_take, length_drop, !length_app. lia.
Qed.
End operations.

(** ** What the operations do to the payload *)
Section payload.
Variable heap_fill : Z → Z.
Variable realloc_ok : Z → bool.

Lemma bytes_app3 (l k m : list Z) :
  Forall is_byte (l ++ k ++ m) ↔
  Forall is_byte l ∧ Forall is_byte k ∧ Forall is_byte m.
Proof. by rewrite !Forall_app. Qed.

Lemma put_data_spec b src len :
  wf b → Forall is_byte src → 0 ≤ len ≤ Z.of_nat (length src) →
  truesize b + len < 4294967296 → realloc_ok (truesize b + len) = true →
  ∃ b', g_netbuf_put_data heap_fill realloc_ok src len b
          = Ok (Some (tail b), b') ∧
    wf b' ∧ payload b' = payload b ++ take (Z.to_nat len) src ∧
    truesize b ≤ truesize b' ≤ truesize b + len.
Proof.
  intros Hb Hsrc [Hl0 Hl] Hs Hok.
  destruct (put_lay heap_fill realloc_ok b len Hb Hl0 Hs Hok)
    as (pre & new & rest & b' & Hput & -> & Hn & Hpre & Hbs & Ht).
  eexists (lay pre (payload b ++ take (Z.to_nat len) src) rest).
  assert (Hlt : length (take (Z.to_nat len) src) = length new)
    by (rewrite length_take; lia).
  split_and!.
  - unfold g_netbuf_put_data. erewrite bind_ok by exact Hput.
    replace (tail b) with (Z.of_nat (length (pre ++ payload b))).
    2: { pose proof (payload_length b Hb). pose proof (wf_blen b Hb).
         rewrite length_app. lia. }
    erewrite bind_ok.
    2: { apply memcpy_in_mid with (old := new) (post := rest); try done; try lia.
         cbn. by rewrite <- !app_assoc. }
    unfold mret, M_ret, lay, set_mem. cbn. rewrite <- !app_assoc.
    do 2 f_equal. rewrite !length_app, Hlt. done.
  - apply lay_wf.
    + cbn in Ht. rewrite !length_app, Hlt in *. lia.
    + rewrite bytes_app3 in Hbs |- *. rewrite Forall_app in Hbs |- *.
      destruct_and!. split_and!; try done; by apply Forall_take.
  - apply lay_payload.
  - cbn in *. rewrite !length_app, Hlt in *. lia.
  - cbn in *. rewrite !length_app, Hlt in *. lia.
Qed.

Lemma prepend_hdr_spec b hdr len :
  wf b → Forall is_byte hdr → 0 ≤ len ≤ Z.of_nat (length hdr) →
  truesize b + len < 4294967296 → realloc_ok (truesize b + len) = true →
  ∃ b', g_netbuf_prepend_hdr heap_fill realloc_ok hdr len b
          = Ok (Some (data b'), b') ∧
    wf b' ∧ payload b' = take (Z.to_nat len) hdr ++ payload b ∧
    truesize b ≤ truesize b' ≤ truesize b + len.
Proof.
  intros Hb Hsrc [Hl0 Hl] Hs Hok.
  destruct (push_lay heap_fill realloc_ok b len Hb Hl0 Hs Hok)
    as (pre & new & rest & b' & Hpush & -> & Hn & Hbs & Ht).
  eexists (lay pre (take (Z.to_nat len) hdr ++ payload b) rest).
  assert (Hlt : length (take (Z.to_nat len) hdr) = length new)
    by (rewrite length_take; lia).
  split_and!.
  - unfold g_netbuf_prepend_hdr. erewrite bind_ok by exact Hpush. cbn beta iota.
    erewrite bind_ok.
    2: { apply memcpy_in_mid with (old := new) (post := payload b ++ rest);
         try done; try lia. cbn. by rewrite <- !app_assoc. }
    unfold mret, M_ret, lay, set_mem. cbn. rewrite <- !app_assoc.
    do 2 f_equal. rewrite !length_app, Hlt. done.
  - apply lay_wf.
    + cbn in Ht. rewrite !length_app, Hlt in *. lia.
    + rewrite bytes_app3 in Hbs |- *. rewrite Forall_app in Hbs |- *.
      destruct_and!. split_and!; try done; by apply Forall_take.
  - apply lay_payload.
  - cbn in *. rewrite !length_app, Hlt in *. lia.
  - cbn in *. rewrite !length_app, Hlt in *. lia.
Qed.

Lemma pull_spec b len :
  wf b → 0 ≤ len ≤ blen b →
  ∃ b', g_netbuf_pull len b = Ok (Some (data b'), b') ∧ wf b' ∧
    payload b' = drop (Z.to_nat len) (payload b) ∧ truesize b' = truesize b ∧
    mem b' = mem b ∧ data b' = data b + len.
Proof.
  intros Hb [Hl0 Hl]. unfold g_netbuf_pull, get, modify, mbind, M_bind. cbn.
  rewrite decide_False by lia. unfold mret, M_ret.
  exists (set_data (data b + len) (set_blen (u32 (blen b - len)) b)).
  split; [done|].
  destruct Hb. unfold set_data, set_blen, payload. cbn.
  rewrite u32_small by lia. split_and!; try done.
  - constructor; cbn; try done; lia.
  - rewrite skipn_firstn_comm, drop_drop. do 2 f_equal; lia.
Qed.

Lemma pull_too_long b len :
  blen b < len → g_netbuf_pull len b = Ok (None, b).
Proof.
  intros. unfold g_netbuf_pull, get, mbind, M_bind. cbn.
  rewrite decide_True by lia. done.
Qed.

Lemma trim_spec b len :
  wf b → 0 ≤ len →
  ∃ b', g_netbuf_trim len b = Ok (tt, b') ∧ wf b' ∧
    payload b' = take (Z.to_nat len) (payload b) ∧ truesize b' = truesize b.
Proof.
  intros Hb Hl. unfold g_netbuf_trim, get, modify, when, mbind, M_bind. cbn.
  case_bool_decide as Hd; cbn; eexists; (split; [done|]).
  - destruct Hb. unfold set_tail, set_blen, payload. cbn. split_and!; try done.
    + constructor; cbn; try done; lia.
    + rewrite take_take. f_equal. lia.
  - split_and!; try done. symmetry. apply take_ge.
    pose proof (payload_length b Hb). lia.
Qed.

Lemma recycle_spec b :
  wf b → wf (g_netbuf_recycle b) ∧ payload (g_netbuf_recycle b) = [] ∧
  truesize (g_netbuf_recycle b) = truesize b.
Proof.
  intros []. unfold g_netbuf_recycle, payload. cbn. split_and!; try done.
  constructor; cbn; try done; lia.
Qed.

Lemma new_spec len :
  0 ≤ len < 4294967296 →
  wf (g_netbuf_new heap_fill len) ∧ payload (g_netbuf_new heap_fill len) = [].
Proof.
  intros. unfold g_netbuf_new, g_netbuf_recycle, payload. cbn. split; [|done].
  constructor; cbn; try done; try lia;
    [rewrite fill_length; lia|apply fill_bytes].
Qed.
End payload.

(** ** Refinement and failure *)
Section refinement.
Context (hf : Z → Z) (ok : Z → bool).

Lemma run_op_refines o b :
  wf b → op_ok o → truesize b + op_grow o < 4294967296 →
  ok (truesize b + op_grow o) = true →
  ∃ b', run_op hf ok o b = Ok (tt, b') ∧ wf b' ∧
    payload b' = spec_op (payload b) o ∧ truesize b' ≤ truesize b + op_grow o.
Proof.
  intros Hb Ho Hs Hok. pose proof (payload_length b Hb) as Hpl.
  destruct o as [bs|bs|n|n|]; simpl in *.
  - destruct (put_data_spec hf ok b bs (Z.of_nat (length bs)))
      as (b' & Hr & ? & Hp & ?); try done; [lia|].
    exists b'. erewrite bind_ok by exact Hr. split_and!; try done; [|lia].
    by rewrite Hp, Nat2Z.id, take_ge.
  - destruct (prepend_hdr_spec hf ok b bs (Z.of_nat (length bs)))
      as (b' & Hr & ? & Hp & ?); try done; [lia|].
    exists b'. erewrite bind_ok by exact Hr. split_and!; try done; [|lia].
    by rewrite Hp, Nat2Z.id, take_ge.
  - case_decide.
    + destruct (pull_spec b n) as (b' & Hr & ? & Hp & ? & _); try done; [lia|].
      exists b'. erewrite bind_ok by exact Hr. split_and!; try done; lia.
    + exists b. erewrite bind_ok by (apply pull_too_long; lia).
      split_and!; try done; lia.
  - destruct (trim_spec b n) as (b' & ? & ? & ? & ?); try done.
    exists b'. split_and!; try done; lia.
  - destruct (recycle_spec b) as (? & ? & ?); try done.
    eexists. split; [done|]. split_and!; try done; lia.
Qed.

(** C13: any sequence of put, prepend, pull, trim and recycle on a well-formed
    buffer runs without an access outside the block and leaves a well-formed
    buffer whose payload is what the same operations do to a byte string,
    reallocations included, as long as [realloc] succeeds and the block stays
    below 4 GiB. *)
Theorem netbuf_refines_bytes (os : list buf_op) b :
  wf b → Forall op_ok os → (∀ n, ok n = true) →
  truesize b + foldr Z.add 0 (op_grow <$> os) < 4294967296 →
  ∃ b', run_ops hf ok os b = Ok (tt, b') ∧ wf b' ∧
    payload b' = foldl spec_op (payload b) os.
Proof.
  intros Hb Hos Hok. revert b Hb.
  induction Hos as [|o os Ho Hos IH]; intros b Hb Hs; csimpl in *.
  { exists b. by split_and!. }
  assert (0 ≤ foldr Z.add 0 (op_grow <$> os)).
  { clear. induction os as [|o os IH]; csimpl; [lia|]. destruct o; simpl; lia. }
  assert (0 ≤ op_grow o) by (destruct o; simpl; lia).
  destruct (run_op_refines o b) as (b1 & Hr & Hb1 & Hp1 & Ht1); try done; [lia|].
  destruct (IH b1 Hb1 ltac:(lia)) as (b2 & Hr2 & ? & Hp2).
  exists b2. erewrite bind_ok by exact Hr. by rewrite Hp2, Hp1.
Qed.

(** when the block has to grow and [realloc] fails, [g_netbuf_put]
    returns NULL but leaves [tail] past [end] and [len] counted, so the buffer
    is no longer well formed, and [g_netbuf_put_data] writes through NULL. *)
Theorem put_realloc_failure (src : list Z) len b :
  wf b → g_netbuf_tailroom b < len → blen b + len < 4294967296 →
  ok (u32 (truesize b + len)) = false →
  (∃ b', g_netbuf_put hf ok len b = Ok (None, b') ∧ endp b' < tail b' ∧
         blen b' = blen b + len ∧ ¬ wf b') ∧
  g_netbuf_put_data hf ok src len b = Stop NullDeref.
Proof.
  intros Hb Hl Hs Hok. unfold g_netbuf_tailroom in Hl.
  assert (0 ≤ blen b) by (destruct Hb; lia).
  assert (0 ≤ len) by (destruct Hb; lia).
  set (b' := set_blen (blen b + len) (set_tail (tail b + len) b)).
  assert (Hput : g_netbuf_put hf ok len b = Ok (None, b')).
  { unfold g_netbuf_put, get, modify, mbind, M_bind. cbn.
    rewrite decide_True by lia. unfold g_netbuf_realloc, get, mbind, M_bind. cbn.
    rewrite Hok, u32_small by lia. done. }
  split.
  - exists b'. split_and!; try done; [cbn; lia|].
    intros Hw. pose proof (wf_tail _ Hw). cbn in *. lia.
  - unfold g_netbuf_put_data. by erewrite bind_ok by exact Hput.
Qed.
End refinement.

Lemma netbuf_refines_bytes_witness :
  ∃ b', run_ops (λ _, 170) (λ _, true)
      [OpPut [1; 2; 3]; OpPrepend [9; 8; 7]; OpPull 1; OpPut [4; 5]; OpTrim 6]
      (g_netbuf_new (λ _, 170) 4) = Ok (tt, b') ∧ wf b' ∧
    payload b' = [8; 7; 1; 2; 3; 4].
Proof.
  apply (netbuf_refines_bytes (λ _, 170) (λ _, true)
    [OpPut [1; 2; 3]; OpPrepend [9; 8; 7]; OpPull 1; OpPut [4; 5]; OpTrim 6]
    (g_netbuf_new (λ _, 170) 4)).
  - constructor; vm_compute; try (split || done); try done.
    repeat (constructor; [split; done|]). constructor.
  - repeat constructor; done.
  - done.
  - vm_compute. done.
Defined.

Lemma put_realloc_failure_witness :
  g_netbuf_put_data (λ _, 0) (λ _, false) [1; 2; 3] 3 (g_netbuf_new (λ _, 0) 2)
  = Stop NullDeref.
Proof.
  apply (put_realloc_failure (λ _, 0) (λ _, false) [1; 2; 3] 3
    (g_netbuf_new (λ _, 0) 2)); [|by vm_compute..].
  constructor; vm_compute; try (split || done); try done.
  repeat (constructor; [split; done|]). constructor.
Defined.
