(* ===== verification/Frame.v ===== *)
(** * A frame being decoded: the buffer, the line of text, the console

    Every decoder of irdadump takes a [GNetBuf] and a [GString]; it reads bytes
    at [buf->data], strips headers with [g_netbuf_pull] and appends text.  The
    type-length-value loop shared by the IrLAP and IrCOMM parameter decoders is
    here, with its termination and its specification. *)
From Stdlib Require Import String.
From S2P Require Import Prelude CInt Printf NetBuf.

Record frame := mkFrame {
  f_buf : netbuf;
  f_str : string;     (* GString *str *)
  f_out : string;     (* what g_print and printf wrote *)
  f_err : string }.   (* the standard error *)

#[export] Program Instance frame_buf : Lens frame netbuf :=
  {| view := f_buf; put b f := mkFrame b (f_str f) (f_out f) (f_err f) |}.
Solve All Obligations with by intros; destruct_all frame.

(** [buf->data[n]], [memcpy(_, buf->data + n, k)] and a C string at
    [buf->data + n] *)
Definition rd (n : Z) : M frame Z := zoom (b ← get; peek (data b + n)).
Definition rds (n k : Z) : M frame (list Z) := zoom (b ← get; peeks (data b + n) k).
Definition rd_cstr (n : Z) : M frame (list Z) :=
  b ← gets f_buf;
  if decide (0 ≤ data b + n)
  then or_stop OobRead (cstr (u8 <$> drop (Z.to_nat (data b + n)) (mem b)))
  else halt OobRead.
(** [string[i] = v] on a local array *)
Definition aset (a : list Z) (i v : Z) : M frame (list Z) :=
  if decide (0 ≤ i < Z.of_nat (length a)) then mret (<[Z.to_nat i := v]> a)
  else halt OobWrite.

(** [memcpy(string, src, n)], [src] being the bytes read *)
Definition afill (a src : list Z) : M frame (list Z) :=
  if decide (length src ≤ length a)%nat
  then mret (src ++ drop (length src) a) else halt OobWrite.

(** [buf->data[n] = v] *)
Definition wr (n v : Z) : M frame unit := zoom (b ← get; poke (data b + n) [v]).
Definition pull (n : Z) : M frame (option Z) := zoom (g_netbuf_pull (u32 n)).
Definition buf_len : M frame Z := gets (λ f, g_netbuf_get_len (f_buf f)).

Definition say (s : string) (f : frame) : frame :=
  mkFrame (f_buf f) (f_str f +:+ s) (f_out f) (f_err f).
Definition emit (s : string) : M frame unit := modify (say s).
Definition gprint (s : string) : M frame unit :=
  modify (λ f, mkFrame (f_buf f) (f_str f) (f_out f +:+ s) (f_err f)).
(** [fprintf(stderr, ...)] *)
Definition geprint (s : string) : M frame unit :=
  modify (λ f, mkFrame (f_buf f) (f_str f) (f_out f) (f_err f +:+ s)).

(** the buffer after a successful [g_netbuf_pull] *)
Definition pulled (n : Z) (f : frame) : frame :=
  let b := f_buf f in
  mkFrame (set_data (data b + n) (set_blen (blen b - n) b)) (f_str f) (f_out f) (f_err f).

(** ** The parameter loop

    [while (n < clen) { pi = data[n] & 0x7f; pl = data[n+1]; switch (pi) ...;
    n += pl + 2; }], over the switch [h pi pl n]. *)
Fixpoint tlv_walk (h : Z → Z → Z → M frame unit) (fuel : nat) (clen n : Z)
    : M frame unit :=
  if n <? clen then
    match fuel with
    | O => halt OutOfFuel
    | S fuel =>
        pi ← rd n;
        pl ← rd (n + 1);
        h (Z.land pi 127) pl n;;
        tlv_walk h fuel clen (u32 (n + pl + 2))
    end
  else mret tt.

(** Abstract parameter lists: identifier and value, with their encoding. *)
Definition tlv_bytes (p : Z * list Z) : list Z :=
  fst p :: Z.of_nat (length (snd p)) :: snd p.
Definition tlvs_bytes (ps : list (Z * list Z)) : list Z := ps ≫= tlv_bytes.

(** the names of the bits set in [v], in the order of [names] *)
Definition flag_text (v : Z) (names : list (Z * string)) : string :=
  foldr (λ kn s, (if Z.testbit v (fst kn) then snd kn +:+ s else s)%string)
    EmptyString names.

(** A block holding the bytes [l] after two bytes of stripped header, then
    what earlier frames left. *)
Definition test_frame (l : list Z) : frame :=
  mkFrame (mkBuf ([0; 0] ++ l ++ replicate 8 0) 2 (2 + Z.of_nat (length l))
    (2 + Z.of_nat (length l) + 8) (Z.of_nat (length l))
    (2 + Z.of_nat (length l) + 8)) EmptyString EmptyString EmptyString.

(** [l] is what the block holds from [buf->data] on *)
Definition holds (l : list Z) (f : frame) : Prop :=
  let b := f_buf f in
  0 ≤ data b ≤ Z.of_nat (length (mem b)) ∧ (∃ rest, drop (Z.to_nat (data b)) (mem b) = l ++ rest) ∧
  Forall is_byte l.

(** ** Reading a frame *)
Lemma say_say s t f : say t (say s f) = say (s +:+ t) f.
Proof. unfold say. simpl. by rewrite str_app_assoc. Qed.
Lemma test_frame_holds l : Forall is_byte l → holds l (test_frame l).
Proof.
  intros Hl. unfold holds, test_frame. cbn [f_buf data mem]. split.
  - rewrite !length_app. simpl. lia.
  - split; [by exists (replicate 8 0)|done].
Qed.
Lemma say_nil f : say EmptyString f = f.
Proof. destruct f. unfold say. simpl. by rewrite str_app_nil_r. Qed.
Lemma pulled_say n s f : pulled n (say s f) = say s (pulled n f).
Proof. done. Qed.
Lemma pulled_pulled n k f : pulled n (pulled k f) = pulled (k + n) f.
Proof.
  destruct f as [[] ? ?]. unfold pulled, set_data, set_blen. simpl. f_equal. f_equal; lia.
Qed.
Lemma pulled_0 f : pulled 0 f = f.
Proof.
  destruct f as [[] ? ?]. unfold pulled, set_data, set_blen. simpl. f_equal. f_equal; lia.
Qed.
Lemma buf_say s f : f_buf (say s f) = f_buf f.
Proof. done. Qed.
Lemma holds_say l s f : holds l (say s f) ↔ holds l f.
Proof. done. Qed.
Lemma emit_ok s f : emit s f = Ok (tt, say s f).
Proof. done. Qed.

Create Rewrite HintDb frame.
#[export] Hint Rewrite say_say pulled_say buf_say : frame.

Lemma holds_lookup l f n v :
  holds l f → zlookup l n = Some v →
  zlookup (mem (f_buf f)) (data (f_buf f) + n) = Some v ∧ is_byte v.
Proof.
  intros (Hd & [rest Hr] & Hb) Hl. unfold zlookup in Hl. case_decide; [|done].
  split; [|by eapply Forall_lookup_1].
  rewrite zlookup_ge by lia. rewrite Z2Nat.inj_add, <- lookup_drop by lia.
  rewrite Hr, lookup_app_l; [done|]. by apply lookup_lt_Some in Hl.
Qed.

Lemma rd_ok l f n v :
  holds l f → zlookup l n = Some v → rd n f = Ok (v, f).
Proof.
  intros Hh Hl. destruct (holds_lookup _ _ _ _ Hh Hl) as [Hm Hv].
  unfold rd, zoom, peek, get, or_stop, mbind, M_bind. simpl.
  rewrite Hm. simpl. rewrite u8_small by done. by destruct f.
Qed.

Lemma zlookup_app_r (l k : list Z) n :
  Z.of_nat (length l) ≤ n → zlookup (l ++ k) n = zlookup k (n - Z.of_nat (length l)).
Proof.
  intros. rewrite !zlookup_ge by lia. rewrite lookup_app_r by lia. f_equal. lia.
Qed.

Lemma zlookup_app_mid (l k : list Z) v n :
  n = Z.of_nat (length l) → zlookup (l ++ v :: k) n = Some v.
Proof.
  intros ->. rewrite zlookup_app_r by lia. by rewrite Z.sub_diag.
Qed.

Lemma holds_app_l l k f : holds (l ++ k) f → holds l f.
Proof.
  intros (Hd & [rest Hr] & Hb). split; [done|].
  split; [|by apply Forall_app in Hb as []].
  exists (k ++ rest). by rewrite app_assoc.
Qed.

Lemma holds_length l f :
  holds l f → data (f_buf f) + Z.of_nat (length l) ≤ Z.of_nat (length (mem (f_buf f))).
Proof.
  intros (Hd & [rest Hr] & _). pose proof (f_equal length Hr) as Hlen.
  rewrite length_drop, length_app in Hlen. lia.
Qed.

Lemma holds_drop l k f :
  holds (l ++ k) f → ∃ rest,
    drop (Z.to_nat (data (f_buf f) + Z.of_nat (length l))) (mem (f_buf f)) = k ++ rest.
Proof.
  intros (Hd & [rest Hr] & _). exists rest.
  by rewrite Z2Nat.inj_add, <- drop_drop, Hr, Nat2Z.id, <- app_assoc,
    drop_app_length by lia.
Qed.

Lemma holds_app_r l k f :
  holds (l ++ k) f → holds k (pulled (Z.of_nat (length l)) f).
Proof.
  intros H. pose proof (holds_length _ _ H) as Hlen. rewrite length_app in Hlen.
  destruct (holds_drop _ _ _ H) as [rest Hr]. destruct H as (Hd & _ & Hb).
  unfold holds, pulled. simpl. split_and!; [lia|lia|by exists rest|].
  by apply Forall_app in Hb as [].
Qed.

Lemma rds_ok l k m f n j :
  holds (l ++ k ++ m) f → n = Z.of_nat (length l) → j = Z.of_nat (length k) →
  rds n j f = Ok (k, f).
Proof.
  intros H -> ->. pose proof (holds_length _ _ H) as Hlen.
  rewrite !length_app in Hlen. destruct (holds_drop _ _ _ H) as [rest Hr].
  destruct H as (Hd & _ & Hb). rewrite !Forall_app in Hb.
  unfold rds, zoom, peeks, get, mbind, M_bind. simpl.
  rewrite decide_True by lia. simpl.
  rewrite Hr, <- app_assoc, Nat2Z.id, take_app_length, u8_bytes by tauto.
  by destruct f.
Qed.

(** A C string: non-zero bytes, then a zero. *)
Lemma rd_cstr_ok l s m f n :
  holds (l ++ s ++ 0 :: m) f → n = Z.of_nat (length l) → (∀ c, c ∈ s → c ≠ 0) →
  rd_cstr n f = Ok (s, f).
Proof.
  intros H -> Hs. destruct (holds_drop _ _ _ H) as [rest Hr].
  destruct H as (Hd & _ & Hb). rewrite !Forall_app in Hb.
  unfold rd_cstr, gets, mbind, M_bind. rewrite decide_True by lia.
  rewrite Hr, <- app_assoc, fmap_app, u8_bytes by tauto. simpl.
  change (u8 0) with 0. by rewrite cstr_app.
Qed.

Lemma afill_ok a v f : (length v ≤ length a)%nat →
  afill a v f = Ok (v ++ drop (length v) a, f).
Proof. intros. unfold afill. by rewrite decide_True by lia. Qed.
Lemma aset_ok a i v f : 0 ≤ i < Z.of_nat (length a) →
  aset a i v f = Ok (<[Z.to_nat i := v]> a, f).
Proof. intros. unfold aset. by rewrite decide_True by lia. Qed.

(** The idiom [memcpy(string, src, n); string[n] = 0;]. *)
Lemma afill_terminate junk v f :
  (length v < length junk)%nat → ∃ rest,
  (string ← afill junk v; aset string (Z.of_nat (length v)) 0) f
    = Ok (v ++ 0 :: rest, f).
Proof.
  intros Hl. exists (drop (S (length v)) junk).
  erewrite bind_ok by (apply afill_ok; lia).
  rewrite aset_ok by (rewrite length_app, length_drop; lia).
  rewrite Nat2Z.id, insert_app_r_alt, Nat.sub_diag by lia.
  destruct (drop (length v) junk) eqn:E.
  { apply (f_equal length) in E. rewrite length_drop in E. simpl in *. lia. }
  simpl. do 3 f_equal. apply (f_equal (drop 1)) in E. rewrite drop_drop in E.
  rewrite Nat.add_1_r in E. by rewrite E.
Qed.
Lemma afill_overflow junk v f :
  (length junk ≤ length v)%nat →
  (string ← afill junk v; aset string (Z.of_nat (length v)) 0) f = Stop OobWrite.
Proof.
  intros Hl. destruct (decide (length v = length junk)) as [He|].
  - erewrite bind_ok by (apply afill_ok; lia).
    unfold aset. rewrite decide_False; [done|]. rewrite length_app, length_drop. lia.
  - apply bind_stop. unfold afill. rewrite decide_False; [done|lia].
Qed.

(** A zero written after the data, when the block has room for it. *)
Lemma wr_end l f :
  holds l f → data (f_buf f) + Z.of_nat (length l) < Z.of_nat (length (mem (f_buf f))) →
  ∃ f', wr (Z.of_nat (length l)) 0 f = Ok (tt, f') ∧ holds (l ++ [0]) f' ∧
    f_str f' = f_str f ∧ f_out f' = f_out f ∧ blen (f_buf f') = blen (f_buf f) ∧
    data (f_buf f') = data (f_buf f).
Proof.
  intros (Hd & [rest Hr] & Hb) Hroom.
  set (pre := take (Z.to_nat (data (f_buf f))) (mem (f_buf f))).
  assert (Hpre : Z.of_nat (length pre) = data (f_buf f))
    by (unfold pre; rewrite length_take; lia).
  assert (Hmem : mem (f_buf f) = (pre ++ l) ++ rest)
    by (rewrite <- app_assoc, <- Hr; symmetry; apply take_drop).
  destruct rest as [|x rest].
  { rewrite Hmem, !length_app in Hroom. simpl in Hroom. lia. }
  assert (Hw : poke (data (f_buf f) + Z.of_nat (length l)) [0] (f_buf f)
    = Ok (tt, set_mem ((pre ++ l) ++ [0] ++ rest) (f_buf f))).
  { rewrite <- Hpre, <- Nat2Z.inj_add, <- length_app.
    apply (poke_mid (pre ++ l) [x] rest); [done|done|]. by repeat constructor. }
  eexists. split.
  { unfold wr, zoom, get, mbind, M_bind. simpl. rewrite Hw. done. }
  simpl. split_and!; try done. unfold holds. simpl. split_and!.
  - lia.
  - rewrite !length_app. simpl. lia.
  - exists rest. rewrite <- !app_assoc, <- Hpre, Nat2Z.id. by rewrite drop_app_length.
  - apply Forall_app. split; [done|]. by repeat constructor.
Qed.

Lemma wr_full n v f :
  data (f_buf f) + n = Z.of_nat (length (mem (f_buf f))) → wr n v f = Stop OobWrite.
Proof.
  intros Hfull. unfold wr, zoom, poke, get, mbind, M_bind. simpl.
  rewrite decide_False; [done|]. lia.
Qed.

Lemma pull_ok n f :
  0 ≤ n ≤ blen (f_buf f) → blen (f_buf f) < 4294967296 →
  pull n f = Ok (Some (data (f_buf f) + n), pulled n f).
Proof.
  intros Hn Hs. unfold pull, zoom, g_netbuf_pull, get, modify, mbind, M_bind. simpl.
  rewrite u32_small by lia. rewrite decide_False by lia. simpl.
  unfold pulled. rewrite u32_small by lia. done.
Qed.

Lemma pull_short n f :
  blen (f_buf f) < n < 4294967296 → 0 ≤ blen (f_buf f) →
  pull n f = Ok (None, f).
Proof.
  intros Hn Hs. unfold pull, zoom. rewrite u32_small by lia.
  simpl. rewrite pull_too_long by lia. by destruct f.
Qed.

(** A byte of the value of a parameter. *)
Lemma rd_value f pre pi v post k i x :
  holds (pre ++ tlv_bytes (pi, v) ++ post) f →
  v !! i = Some x → k = Z.of_nat (length pre) + 2 + Z.of_nat i →
  rd k f = Ok (x, f).
Proof.
  intros Hh Hv ->. eapply rd_ok; [exact Hh|].
  rewrite zlookup_app_r, zlookup_ge by lia.
  replace (Z.to_nat _) with (2 + i)%nat by lia. simpl.
  rewrite lookup_app_l; [done|]. by apply lookup_lt_Some in Hv.
Qed.

Lemma value_byte f pre pi v post i x :
  holds (pre ++ tlv_bytes (pi, v) ++ post) f → v !! i = Some x → is_byte x.
Proof.
  intros (_ & _ & Hb) Hv. rewrite !Forall_app in Hb. destruct Hb as (_ & Hb & _).
  unfold tlv_bytes in Hb. rewrite !Forall_cons in Hb. simpl in Hb.
  eapply Forall_lookup_1; [apply Hb|exact Hv].
Qed.

Lemma when_emit b s f :
  when b (emit s) f = Ok (tt, say (if b then s else EmptyString) f).
Proof. destruct b; [done|]. simpl. by rewrite say_nil. Qed.

Lemma rd_total k f : rd k f = Stop OobRead ∨ ∃ v, rd k f = Ok (v, f).
Proof.
  unfold rd, zoom, peek, get, or_stop, mbind, M_bind. simpl.
  destruct (zlookup _ _) as [v|]; [right|by left]. exists (u8 v). by destruct f.
Qed.

Lemma rd_byte k f v g : rd k f = Ok (v, g) → is_byte v.
Proof.
  unfold rd, zoom, peek, get, or_stop, mbind, M_bind. simpl.
  destruct (zlookup _ _) as [x|]; [|done]. intros [= <- <-]. apply u8_range.
Qed.

(** ** Termination, and operations that only read and print *)
Lemma term_rd n : terminating (rd n).
Proof. unfold rd, peek. no_fuel. Qed.
Lemma term_rds n k : terminating (rds n k).
Proof. unfold rds, peeks. no_fuel. Qed.
Lemma term_rd_cstr n : terminating (rd_cstr n).
Proof. unfold rd_cstr. no_fuel. Qed.
Lemma term_wr n v : terminating (wr n v).
Proof. unfold wr, poke. no_fuel. Qed.
Lemma term_pull n : terminating (pull n).
Proof. unfold pull, g_netbuf_pull. no_fuel. Qed.
Lemma term_emit s : terminating (emit s).
Proof. done. Qed.
Lemma term_gprint s : terminating (gprint s).
Proof. done. Qed.
Lemma term_geprint s : terminating (geprint s).
Proof. done. Qed.
Lemma term_buf_len : terminating buf_len.
Proof. done. Qed.
#[export] Hint Resolve term_rd term_rds term_rd_cstr term_wr term_pull term_emit
  term_gprint term_geprint term_buf_len : fuel.

(** [m] leaves the buffer as it was. *)
Definition keeps_buf {A} (m : M frame A) : Prop :=
  ∀ f a g, m f = Ok (a, g) → f_buf g = f_buf f.

Create HintDb keeps.
Lemma keeps_ret {A} (a : A) : keeps_buf (mret a).
Proof. by intros f ? g [= _ <-]. Qed.
Lemma keeps_halt {A} w : keeps_buf (halt (A:=A) w).
Proof. done. Qed.
Lemma keeps_bind {A B} (m : M frame A) (k : A → M frame B) :
  keeps_buf m → (∀ a, keeps_buf (k a)) → keeps_buf (m ≫= k).
Proof.
  intros Hm Hk f b g (a & f' & H1 & H2)%bind_ok_inv.
  rewrite (Hk _ _ _ _ H2). eauto.
Qed.
Lemma keeps_or_stop {A} w (o : option A) : keeps_buf (or_stop w o).
Proof. intros f a g. unfold or_stop. destruct o; [|done]. by intros [= _ <-]. Qed.
Lemma keeps_lift {A} (r : res A) : keeps_buf (lift r).
Proof. intros f a g. unfold lift. destruct r; [|done]. by intros [= _ <-]. Qed.
Lemma keeps_emit s : keeps_buf (emit s).
Proof. by intros f a g [= _ <-]. Qed.
Lemma keeps_gprint s : keeps_buf (gprint s).
Proof. by intros f a g [= _ <-]. Qed.
Lemma keeps_geprint s : keeps_buf (geprint s).
Proof. by intros f a g [= _ <-]. Qed.
Lemma keeps_gets {A} (h : frame → A) : keeps_buf (gets h).
Proof. by intros f a g [= _ <-]. Qed.
Lemma keeps_rd n : keeps_buf (rd n).
Proof.
  intros f a g H. destruct (rd_total n f) as [Hs|[v Hs]]; rewrite Hs in H; [done|].
  by injection H as <- <-.
Qed.
Lemma keeps_rds n k : keeps_buf (rds n k).
Proof.
  intros f a g. unfold rds, zoom, peeks, get, mbind, M_bind. simpl.
  case_decide; [|done]. by intros [= _ <-].
Qed.
#[export] Hint Resolve keeps_ret keeps_halt keeps_or_stop keeps_lift keeps_emit
  keeps_gprint keeps_geprint keeps_gets keeps_rd keeps_rds : keeps.

Ltac keeps :=
  repeat match goal with
  | |- ∀ _, keeps_buf _ => intro
  | |- keeps_buf (_ ≫= _) => apply keeps_bind; [|intro]
  | |- keeps_buf (match ?x with _ => _ end) => destruct x
  | |- keeps_buf _ => solve [auto 3 with keeps nocore]
  end.

(** Reads a value byte of the current parameter. *)
Ltac read_value Hh :=
  match goal with
  | |- context [rd (?n + ?k) ≫= _] =>
      let idx := eval cbv in (Z.to_nat (k - 2)) in
      erewrite bind_ok by (eapply rd_value with (i := idx); [exact Hh|reflexivity|lia])
  end.

(** Runs a sequence of [emit]s. *)
Ltac emits :=
  repeat first [erewrite bind_ok by apply emit_ok | erewrite bind_ok by apply when_emit];
  rewrite ?when_emit, ?emit_ok, ?say_say.

(** Splits on whether each [buf->data[k]] is inside the block. *)
Ltac rd_cases :=
  repeat match goal with
  | |- context [(rd ?k ≫= _) ?f] =>
      let Hs := fresh "Hs" in let v := fresh "v" in
      destruct (rd_total k f) as [Hs|[v Hs]];
        [rewrite (bind_stop _ _ _ _ Hs); done | rewrite (bind_ok _ _ _ _ _ Hs)]
  end.

(** ** The parameter loop *)
Section tlv.
Variable h : Z → Z → Z → M frame unit.

(** It ends on any contents: [n] grows by at least two in each round. *)
Lemma tlv_walk_terminates fuel clen n :
  0 ≤ n → clen ≤ 255 → clen - n ≤ Z.of_nat fuel →
  (∀ pi pl k, terminating (h pi pl k)) → terminating (tlv_walk h fuel clen n).
Proof.
  intros Hn Hc Hf Hh. revert n Hn Hf.
  induction fuel as [|fuel IH]; intros n Hn Hf; simpl.
  { by rewrite (proj2 (Z.ltb_ge _ _)) by lia. }
  destruct (n <? clen) eqn:E; [|done]. apply Z.ltb_lt in E.
  apply term_bind; [apply term_rd|intros pi].
  apply term_bind_ok; [apply term_rd|intros pl f g [? ?]%rd_byte].
  revert g. change (terminating (h (Z.land pi 127) pl n;;
    tlv_walk h fuel clen (u32 (n + pl + 2)))).
  apply term_bind; [done|intros []]. rewrite u32_small by lia. apply IH; lia.
Qed.

(** On an encoded parameter list it handles every parameter once, in order:
    given what the switch says of each parameter. *)
Variable ok : Z * list Z → Prop.
Variable text : Z → list Z → string.
Hypothesis h_says : ∀ f pre pi v post,
  holds (pre ++ tlv_bytes (pi, v) ++ post) f → ok (pi, v) →
  h (Z.land pi 127) (Z.of_nat (length v)) (Z.of_nat (length pre)) f
  = Ok (tt, say (text (Z.land pi 127) v) f).

Definition tlvs_text (ps : list (Z * list Z)) : string :=
  foldr (λ p s, text (Z.land (fst p) 127) (snd p) +:+ s)%string EmptyString ps.

Lemma tlv_walk_spec ps fuel pre post f clen n :
  holds (pre ++ tlvs_bytes ps ++ post) f → Forall ok ps →
  n = Z.of_nat (length pre) →
  clen = Z.of_nat (length (pre ++ tlvs_bytes ps)) →
  clen ≤ 255 → clen - n ≤ Z.of_nat fuel →
  tlv_walk h fuel clen n f = Ok (tt, say (tlvs_text ps) f).
Proof.
  intros Hh Hok. revert fuel pre f n Hh.
  induction Hok as [|[pi v] ps Hp Hok IH]; intros fuel pre f n Hh -> Hcl Hc Hf.
  - rewrite app_nil_r in Hcl. destruct fuel; simpl;
      rewrite (proj2 (Z.ltb_ge _ _)) by lia; by rewrite say_nil.
  - assert (Hcl' : clen = Z.of_nat (length pre) + 2 + Z.of_nat (length v)
              + Z.of_nat (length (tlvs_bytes ps))).
    { rewrite Hcl. change (tlvs_bytes ((pi, v) :: ps))
        with (tlv_bytes (pi, v) ++ tlvs_bytes ps).
      rewrite !length_app. simpl. lia. }
    destruct fuel as [|fuel]; [lia|]. simpl.
    rewrite (proj2 (Z.ltb_lt _ _)) by lia.
    change (tlvs_bytes ((pi, v) :: ps))
      with (tlv_bytes (pi, v) ++ tlvs_bytes ps) in Hh.
    rewrite <- app_assoc in Hh.
    erewrite bind_ok; [|eapply rd_ok; [exact Hh|by apply zlookup_app_mid]].
    erewrite bind_ok; [|eapply rd_ok; [exact Hh|]].
    2: { rewrite zlookup_app_r by lia. by replace (_ - _) with 1 by lia. }
    erewrite bind_ok by (by eapply h_says).
    cbn [snd]. rewrite u32_small by lia.
    erewrite IH with (pre := pre ++ tlv_bytes (pi, v)).
    + by rewrite say_say.
    + by rewrite holds_say, <- app_assoc.
    + rewrite length_app. simpl. lia.
    + rewrite !length_app. simpl. lia.
    + done.
    + lia.
Qed.
End tlv.
