(* ===== verification/IrComm.v ===== *)
(** * IrCOMM control parameters: irdadump/ircomm.c

    [parse_ircomm_params] walks a type-length-value list, [parse_ircomm_ttp]
    strips the control-length byte in front of it. *)
From Stdlib Require Import String.
From S2P Require Import Prelude CInt Printf NetBuf Frame.
Local Open Scope string_scope.
Local Open Scope Z_scope.

(** ircomm.h *)
Definition SERVICE_TYPE := 0x00.
Definition PORT_TYPE := 0x01.
Definition DATA_RATE := 0x10.
Definition DATA_FORMAT := 0x11.
Definition FLOW_CONTROL := 0x12.
Definition XON_XOFF_CHAR := 0x13.
Definition DTELINE_STATE := 0x20.
Definition IRCOMM_3_WIRE_RAW := 0x01.
Definition IRCOMM_3_WIRE := 0x02.
Definition IRCOMM_9_WIRE := 0x04.
Definition IRCOMM_CENTRONICS := 0x08.
Definition IRCOMM_VALID_SERVICES := 0x0F.
Definition IRCOMM_SERIAL := 0x01.
Definition IRCOMM_PARALLEL := 0x02.
Definition IRCOMM_VALID_PORT_TYPES := 0x03.

(** [(buf[0] << 24) | (buf[1] << 16) | (buf[2] << 8) | buf[3]] *)
Definition bytes_to_uint (b0 b1 b2 b3 : Z) : Z :=
  u32 (Z.lor (Z.lor (Z.lor (Z.shiftl b0 24) (Z.shiftl b1 16)) (Z.shiftl b2 8)) b3).

(** the [switch (pi)] of [parse_ircomm_params] *)
Definition ircomm_param (pi pl n : Z) : M frame unit :=
  if pi =? SERVICE_TYPE then
    pv_byte ← rd (n + 2);
    emit "Service Type=";;
    when (tst pv_byte IRCOMM_CENTRONICS) (emit "CENTRONICS ");;
    when (tst pv_byte IRCOMM_9_WIRE) (emit "NINE_WIRE ");;
    when (tst pv_byte IRCOMM_3_WIRE) (emit "THREE_WIRE ");;
    when (tst pv_byte IRCOMM_3_WIRE_RAW) (emit "THREE_WIRE_RAW ");;
    when (negb (tst pv_byte IRCOMM_VALID_SERVICES)) (emit "N/A ")
  else if pi =? PORT_TYPE then
    pv_byte ← rd (n + 2);
    emit "Port Type=";;
    when (tst pv_byte IRCOMM_SERIAL) (emit "SERIAL ");;
    when (tst pv_byte IRCOMM_PARALLEL) (emit "PARALLEL ");;
    when (negb (tst pv_byte IRCOMM_VALID_PORT_TYPES)) (emit "N/A ")
  else if pi =? DATA_RATE then
    b0 ← rd (n + 2); b1 ← rd (n + 3); b2 ← rd (n + 4); b3 ← rd (n + 5);
    emit ("Data Rate=" +:+ fmt_d (s32 (bytes_to_uint b0 b1 b2 b3)) +:+ " ")
  else if pi =? DATA_FORMAT then
    v ← rd (n + 2); emit ("Data Format=" +:+ fmt_02x v +:+ " ")
  else if pi =? FLOW_CONTROL then
    v ← rd (n + 2); emit ("Flow Control=" +:+ fmt_02x v +:+ " ")
  else if pi =? XON_XOFF_CHAR then
    v ← rd (n + 2); w ← rd (n + 3);
    emit ("XON/XOFF=" +:+ fmt_02x v +:+ "," +:+ fmt_02x w +:+ " ")
  else if pi =? DTELINE_STATE then
    v ← rd (n + 2); emit ("DTEline State=" +:+ fmt_02x v +:+ " ")
  else mret tt.

Definition parse_ircomm_params (clen : Z) : M frame unit :=
  let clen := u8 clen in
  tlv_walk ircomm_param (Z.to_nat clen) clen 0;;
  pull clen;; mret tt.

Definition parse_ircomm_ttp : M frame unit :=
  len ← buf_len;
  if len =? 0 then mret tt
  else
    clen ← rd 0;
    pull 1;;
    if truth clen then
      emit (nl +:+ tab +:+ "IrCOMM ");;
      parse_ircomm_params clen
    else emit "IrCOMM ".

Definition parse_ircomm_connect : M frame unit := parse_ircomm_ttp.

Definition parse_ircomm_lmp : M frame unit := emit "IrCOMM (IrLPT) ".

(** ** Specification: the text of one parameter *)
Definition service_names : list (Z * string) :=
  [(3, "CENTRONICS "); (2, "NINE_WIRE "); (1, "THREE_WIRE "); (0, "THREE_WIRE_RAW ")].
Definition port_names : list (Z * string) := [(0, "SERIAL "); (1, "PARALLEL ")].

Definition or_na (s : string) : string := if String.eqb s "" then "N/A " else s.

Definition ircomm_text (pi : Z) (v : list Z) : string :=
  match pi, v with
  | 0x00, b :: _ => "Service Type=" +:+ or_na (flag_text b service_names)
  | 0x01, b :: _ => "Port Type=" +:+ or_na (flag_text b port_names)
  | 0x10, a :: b :: c :: d :: _ =>
      "Data Rate=" +:+ fmt_d (s32 (be32 a b c d)) +:+ " "
  | 0x11, b :: _ => "Data Format=" +:+ fmt_02x b +:+ " "
  | 0x12, b :: _ => "Flow Control=" +:+ fmt_02x b +:+ " "
  | 0x13, a :: b :: _ => "XON/XOFF=" +:+ fmt_02x a +:+ "," +:+ fmt_02x b +:+ " "
  | 0x20, b :: _ => "DTEline State=" +:+ fmt_02x b +:+ " "
  | _, _ => ""
  end.

(** the number of value bytes the decoder reads of a parameter *)
Definition ircomm_need (pi : Z) : nat :=
  match pi with
  | 0x00 | 0x01 | 0x11 | 0x12 | 0x20 => 1%nat
  | 0x13 => 2%nat
  | 0x10 => 4%nat
  | _ => 0%nat
  end.

Definition ircomm_ok (p : Z * list Z) : Prop :=
  (ircomm_need (Z.land (fst p) 127) ≤ length (snd p))%nat.

(** ** Proofs *)
Lemma bytes_to_uint_be32 a b c d :
  is_byte a → is_byte b → is_byte c → is_byte d →
  bytes_to_uint a b c d = be32 a b c d.
Proof.
  unfold is_byte. intros. unfold bytes_to_uint.
  assert (H8 : ∀ x y, 0 ≤ y < 256 → Z.lor (Z.shiftl x 8) y = x * 256 + y)
    by (intros; by apply (lor_add_disjoint x y 8)).
  replace (Z.lor (Z.lor (Z.lor (Z.shiftl a 24) (Z.shiftl b 16)) (Z.shiftl c 8)) d)
    with (be32 a b c d); [apply u32_small, be32_range; done|].
  unfold be32.
  replace (Z.shiftl a 24) with (Z.shiftl (Z.shiftl (Z.shiftl a 8) 8) 8)
    by (by rewrite !Z.shiftl_shiftl).
  replace (Z.shiftl b 16) with (Z.shiftl (Z.shiftl b 8) 8)
    by (by rewrite !Z.shiftl_shiftl).
  rewrite <- !Z.shiftl_lor, !H8; lia.
Qed.

Lemma service_text_bits :
  ∀ b, is_byte b →
    String.eqb
      ((if tst b 8 then "CENTRONICS " else "") +:+
       (if tst b 4 then "NINE_WIRE " else "") +:+
       (if tst b 2 then "THREE_WIRE " else "") +:+
       (if tst b 1 then "THREE_WIRE_RAW " else "") +:+
       (if negb (tst b 15) then "N/A " else ""))
      (or_na (flag_text b service_names)) = true.
Proof. by apply byte_forall. Qed.

Lemma port_text_bits :
  ∀ b, is_byte b →
    String.eqb
      ((if tst b 1 then "SERIAL " else "") +:+
       (if tst b 2 then "PARALLEL " else "") +:+
       (if negb (tst b 3) then "N/A " else ""))
      (or_na (flag_text b port_names)) = true.
Proof. by apply byte_forall. Qed.


Lemma ircomm_param_says f pre pi v post :
  holds (pre ++ tlv_bytes (pi, v) ++ post) f → ircomm_ok (pi, v) →
  ircomm_param (Z.land pi 127) (Z.of_nat (length v)) (Z.of_nat (length pre)) f
  = Ok (tt, say (ircomm_text (Z.land pi 127) v) f).
Proof.
  intros Hh Hok. unfold ircomm_ok in Hok. cbn [fst snd] in Hok.
  assert (Hb : ∀ i x, v !! i = Some x → is_byte x) by eauto using value_byte.
  unfold ircomm_param.
  repeat case_match; repeat match goal with
    | H : (Z.land pi 127 =? _) = true |- _ => apply Z.eqb_eq in H; rewrite H in Hok |- *
    end.
  all: try (destruct v as [|b v]; [simpl in Hok; lia|]; repeat read_value Hh).
  - emits. f_equal. f_equal. f_equal. unfold ircomm_text. simpl. f_equal.
    apply String.eqb_eq, service_text_bits. by apply (Hb 0%nat).
  - emits. f_equal. f_equal. f_equal. unfold ircomm_text. simpl. f_equal.
    apply String.eqb_eq, port_text_bits. by apply (Hb 0%nat).
  - do 3 (destruct v as [|? v]; [simpl in Hok; lia|]; repeat read_value Hh).
    rewrite bytes_to_uint_be32; [done| | | |].
    + by apply (Hb 0%nat).
    + by apply (Hb 1%nat).
    + by apply (Hb 2%nat).
    + by apply (Hb 3%nat).
  - done.
  - done.
  - destruct v as [|c v]; [simpl in Hok; lia|]. by read_value Hh.
  - done.
  - repeat match goal with H : (Z.land pi 127 =? _) = false |- _ =>
      apply Z.eqb_neq in H end.
    replace (ircomm_text (Z.land pi 127) v) with "".
    { rewrite say_nil. done. }
    symmetry. clear Hok. revert H H0 H1 H2 H3 H4 H5.
    generalize (Z.land pi 127). intros q ???????.
    unfold ircomm_text. by repeat case_match.
Qed.

(** On a well-formed list of at most 255 bytes of control parameters, the
    decoder prints the text of every parameter, in order, and strips the list
    from the buffer. *)
Lemma parse_ircomm_params_spec (ps : list (Z * list Z)) (rest : list Z) f clen :
  holds (tlvs_bytes ps ++ rest) f → Forall ircomm_ok ps →
  clen = Z.of_nat (length (tlvs_bytes ps)) → clen ≤ 255 →
  clen ≤ blen (f_buf f) < 4294967296 →
  parse_ircomm_params clen f
  = Ok (tt, pulled clen (say (tlvs_text ircomm_text ps) f)).
Proof.
  intros Hh Hok Hcl Hc Hlen. unfold parse_ircomm_params.
  rewrite u8_small by lia.
  erewrite bind_ok.
  2: { eapply (tlv_walk_spec ircomm_param ircomm_ok ircomm_text)
         with (pre := []) (post := rest); try done; [|lia].
       intros. by eapply ircomm_param_says. }
  by erewrite bind_ok by (apply pull_ok; simpl; lia).
Qed.

(** On any contents of the buffer the parameter loop ends. *)
Lemma parse_ircomm_params_terminates clen : terminating (parse_ircomm_params clen).
Proof.
  unfold parse_ircomm_params. pose proof (u8_range clen).
  apply term_bind; [|no_fuel].
  apply tlv_walk_terminates; [lia..|]. intros. unfold ircomm_param. no_fuel.
Qed.
#[export] Hint Resolve parse_ircomm_params_terminates : fuel.

Lemma parse_ircomm_ttp_terminates : terminating parse_ircomm_ttp.
Proof. unfold parse_ircomm_ttp. no_fuel. Qed.
#[export] Hint Resolve parse_ircomm_ttp_terminates : fuel.

(** an IrCOMM frame on TinyTP is a control length, the control parameters
    and the data; the decoder prints the parameters and leaves the data. *)
Theorem parse_ircomm_ttp_spec (ps : list (Z * list Z)) (rest : list Z) f :
  let clen := Z.of_nat (length (tlvs_bytes ps)) in
  holds (clen :: tlvs_bytes ps ++ rest) f → Forall ircomm_ok ps →
  clen + 1 ≤ blen (f_buf f) < 4294967296 →
  parse_ircomm_ttp f
  = Ok (tt, pulled clen (pulled 1
      (say (if clen =? 0 then "IrCOMM "
            else nl +:+ tab +:+ "IrCOMM " +:+ tlvs_text ircomm_text ps) f))).
Proof.
  intros clen Hh Hok Hlen.
  assert (Hc : is_byte clen) by (destruct Hh as (_ & _ & Hb); by inversion Hb).
  unfold parse_ircomm_ttp, buf_len, g_netbuf_get_len.
  unfold gets at 1, mbind at 1, M_bind at 1. rewrite (proj2 (Z.eqb_neq _ _)) by lia.
  erewrite bind_ok by (by eapply rd_ok).
  erewrite bind_ok by (apply pull_ok; lia).
  unfold truth. destruct (Z.eqb_spec clen 0) as [H0|H0]; simpl.
  - rewrite H0. rewrite emit_ok. f_equal. f_equal. unfold say, pulled. simpl.
    f_equal. destruct (f_buf f); unfold set_data, set_blen; simpl. f_equal; lia.
  - erewrite bind_ok by apply emit_ok. unfold is_byte in Hc.
    erewrite parse_ircomm_params_spec with (ps := ps) (rest := rest); try done.
    + by rewrite say_say, pulled_say, !str_app_assoc.
    + rewrite holds_say. by apply (holds_app_r [clen]).
    + lia.
    + simpl. lia.
Qed.

(** ** Witnesses *)

Lemma parse_ircomm_ttp_spec_witness :
  parse_ircomm_ttp (test_frame [3; 1; 1; 2; 72; 105])
  = Ok (tt, pulled 3 (pulled 1 (say
      (nl +:+ tab +:+ "IrCOMM " +:+ "Port Type=PARALLEL ")
      (test_frame [3; 1; 1; 2; 72; 105])))).
Proof.
  apply (parse_ircomm_ttp_spec [(1, [2])] [72; 105]
    (test_frame [3; 1; 1; 2; 72; 105]));
    try done; [|by repeat (constructor; [unfold ircomm_ok; simpl; lia|])].
  apply test_frame_holds. by repeat (constructor; [done|]).
Defined.
