(* ===== verification/LapParams.v ===== *)
(** * IrLAP negotiation parameters and hint bits: irdadump/irlap.c

    The value tables, the bit search [msb_index], [parse_irlap_params] and
    [parse_hints]. *)
From Stdlib Require Import String.
From S2P Require Import Prelude CInt Printf NetBuf Frame.
Local Open Scope string_scope.
Local Open Scope Z_scope.

(** irdadump.h *)
Definition PI_BAUD_RATE := 0x01.
Definition PI_MAX_TURN_TIME := 0x02.
Definition PI_DATA_SIZE := 0x03.
Definition PI_WINDOW_SIZE := 0x04.
Definition PI_ADD_BOFS := 0x05.
Definition PI_MIN_TURN_TIME := 0x06.
Definition PI_LINK_DISC := 0x08.

Definition min_turn_times := [10000; 5000; 1000; 500; 100; 50; 10; 0].
Definition baud_rates :=
  [2400; 9600; 19200; 38400; 57600; 115200; 576000; 1152000; 4000000; 16000000].
Definition data_sizes := [64; 128; 256; 512; 1024; 2048].
Definition add_bofs := [48; 24; 12; 5; 3; 2; 1; 0].
Definition max_turn_times := [500; 250; 100; 50].
Definition link_disc_times := [3; 8; 12; 16; 20; 25; 30; 40].
Definition window_sizes := [1; 2; 3; 4; 5; 6; 7; 0].

(** [array[bit_index]]: outside the table is an out-of-bounds read *)
Definition index_value (bit_index : Z) (array : list Z) : M frame Z :=
  or_stop OobRead (zlookup array bit_index).

(** the loop of [msb_index]: [while (msb) { if (word & msb) break; ... }] *)
Fixpoint msb_loop (fuel : nat) (word msb bit_index : Z) : option Z :=
  match fuel with
  | O => None
  | S fuel =>
      if negb (truth msb) then Some bit_index
      else if tst word msb then Some bit_index
      else msb_loop fuel word (Z.shiftr msb 1) (bit_index - 1)
  end.

Definition msb_index (word : Z) : M frame Z :=
  let word := u16 word in
  word ← (if word =? 0 then
            geprint ("Detected buggy peer, adjust null PV to 0x1!" +:+ nl);;
            mret 0x1
          else mret word);
  or_stop OutOfFuel (msb_loop 17 word 0x8000 15).

Definition byte_value (byte : Z) (array : list Z) : M frame Z :=
  bit_index ← msb_index byte;
  index_value bit_index array.

(** one case of the switch: a value looked up in a table and printed *)
Definition qos_case (pv : Z) (array : list Z) (name units : string) : M frame unit :=
  v ← byte_value pv array;
  emit (name +:+ fmt_d (s32 v) +:+ units).

(** the [switch (pi)] of [parse_irlap_params] *)
Definition irlap_param (pi pl n : Z) : M frame unit :=
  if pi =? PI_BAUD_RATE then
    b0 ← rd (n + 2);
    pv_byte ← (if 2 <=? pl then b1 ← rd (n + 3); mret (Z.lor b0 (Z.shiftl b1 8))
               else mret b0);
    qos_case pv_byte baud_rates "Baud Rate=" "bps "
  else if pi =? PI_MAX_TURN_TIME then
    pv_byte ← rd (n + 2); qos_case pv_byte max_turn_times "Max Turn Time=" "ms "
  else if pi =? PI_DATA_SIZE then
    pv_byte ← rd (n + 2); qos_case pv_byte data_sizes "Data Size=" "B "
  else if pi =? PI_WINDOW_SIZE then
    pv_byte ← rd (n + 2); qos_case pv_byte window_sizes "Window Size=" " "
  else if pi =? PI_ADD_BOFS then
    pv_byte ← rd (n + 2); qos_case pv_byte add_bofs "Add BOFS=" " "
  else if pi =? PI_MIN_TURN_TIME then
    pv_byte ← rd (n + 2); qos_case pv_byte min_turn_times "Min Turn Time=" "us "
  else if pi =? PI_LINK_DISC then
    pv_byte ← rd (n + 2); qos_case pv_byte link_disc_times "Link Disc=" "s "
  else mret tt.

Definition parse_irlap_params (clen : Z) : M frame unit :=
  let clen := u8 clen in
  emit (nl +:+ tab +:+ "LAP QoS: ");;
  tlv_walk irlap_param (Z.to_nat clen) clen 0;;
  pull clen;; mret tt.

(** irda.h *)
Definition HINT_PNP := 0x01.
Definition HINT_PDA := 0x02.
Definition HINT_COMPUTER := 0x04.
Definition HINT_PRINTER := 0x08.
Definition HINT_MODEM := 0x10.
Definition HINT_FAX := 0x20.
Definition HINT_LAN := 0x40.
Definition HINT_TELEPHONY := 0x01.
Definition HINT_FILE_SERVER := 0x02.
Definition HINT_COMM := 0x04.
Definition HINT_OBEX := 0x20.

Definition parse_hints (hint0 hint1 : Z) : M frame unit :=
  emit "[ ";;
  when (tst hint0 HINT_PNP) (emit "PnP ");;
  when (tst hint0 HINT_PDA) (emit "PDA/Palmtop ");;
  when (tst hint0 HINT_COMPUTER) (emit "Computer ");;
  when (tst hint0 HINT_PRINTER) (emit "Printer ");;
  when (tst hint0 HINT_MODEM) (emit "Modem ");;
  when (tst hint0 HINT_FAX) (emit "Fax ");;
  when (tst hint0 HINT_LAN) (emit "LAN Access ");;
  when (tst hint1 HINT_TELEPHONY) (emit "Telephony ");;
  when (tst hint1 HINT_FILE_SERVER) (emit "File Server ");;
  when (tst hint1 HINT_COMM) (emit "IrCOMM ");;
  when (tst hint1 HINT_OBEX) (emit "IrOBEX ");;
  emit "] ".

(** ** Specification *)

(** The negotiated value is the table entry of the highest bit set. *)
Definition highest (bits : Z) (array : list Z) : option Z :=
  zlookup array (Z.log2 bits).

Definition qos_table (pi : Z) : option (list Z * string * string) :=
  match pi with
  | 0x01 => Some (baud_rates, "Baud Rate=", "bps ")
  | 0x02 => Some (max_turn_times, "Max Turn Time=", "ms ")
  | 0x03 => Some (data_sizes, "Data Size=", "B ")
  | 0x04 => Some (window_sizes, "Window Size=", " ")
  | 0x05 => Some (add_bofs, "Add BOFS=", " ")
  | 0x06 => Some (min_turn_times, "Min Turn Time=", "us ")
  | 0x08 => Some (link_disc_times, "Link Disc=", "s ")
  | _ => None
  end.

(** the bit field of a parameter: two bytes for the baud rate, one otherwise *)
Definition qos_bits (pi : Z) (v : list Z) : Z :=
  match v with
  | b0 :: b1 :: _ => if pi =? PI_BAUD_RATE then le16 b0 b1 else b0
  | [b0] => b0
  | [] => 0
  end.

Definition qos_text (pi : Z) (v : list Z) : string :=
  match qos_table pi with
  | Some (array, name, units) =>
      match highest (qos_bits pi v) array with
      | Some x => name +:+ fmt_d x +:+ units
      | None => ""
      end
  | None => ""
  end.

(** A known parameter has a non-zero bit field whose bits the table covers. *)
Definition qos_ok (p : Z * list Z) : Prop :=
  match qos_table (Z.land (fst p) 127) with
  | Some (array, _, _) =>
      let bits := qos_bits (Z.land (fst p) 127) (snd p) in
      0 < bits < 2 ^ Z.of_nat (length array)
  | None => True
  end.

Definition hint_names0 : list (Z * string) :=
  [(0, "PnP "); (1, "PDA/Palmtop "); (2, "Computer "); (3, "Printer ");
   (4, "Modem "); (5, "Fax "); (6, "LAN Access ")].
Definition hint_names1 : list (Z * string) :=
  [(0, "Telephony "); (1, "File Server "); (2, "IrCOMM "); (5, "IrOBEX ")].

Definition hints_text (hint0 hint1 : Z) : string :=
  "[ " +:+ flag_text hint0 hint_names0 +:+ flag_text hint1 hint_names1 +:+ "] ".

(** ** Proofs *)

(** The search stops at the highest bit set. *)
Lemma msb_loop_spec fuel word k :
  0 ≤ k → k < Z.of_nat fuel → 0 < word < 2 ^ (k + 1) →
  msb_loop fuel word (2 ^ k) k = Some (Z.log2 word).
Proof.
  revert k. induction fuel as [|fuel IH]; intros k Hk Hf Hw; [lia|].
  simpl. unfold truth.
  rewrite (proj2 (Z.eqb_neq (2 ^ k) 0)) by (pose proof (Z.pow_pos_nonneg 2 k); lia).
  simpl. rewrite tst_bit by done.
  destruct (Z.testbit word k) eqn:E.
  - f_equal. symmetry. apply Z.log2_unique; [done|].
    split; [|rewrite <- Z.add_1_r; lia].
    destruct (decide (2 ^ k ≤ word)) as [|Hlt]; [done|exfalso].
    rewrite Z.bits_above_log2 in E; [done|lia|].
    apply Z.log2_lt_pow2; lia.
  - assert (Hlt : word < 2 ^ k).
    { destruct (decide (word < 2 ^ k)) as [|Hge]; [done|exfalso].
      assert (Z.log2 word = k) as <-
        by (apply Z.log2_unique; rewrite <- ?Z.add_1_r; lia).
      rewrite Z.bit_log2 in E; [done|lia]. }
    destruct (decide (k = 0)) as [->|]; [change (2 ^ 0) with 1 in Hlt; lia|].
    replace (Z.shiftr (2 ^ k) 1) with (2 ^ (k - 1)).
    2: { by rewrite Z.shiftr_div_pow2, Z.pow_sub_r by lia. }
    apply IH; [lia|lia|]. replace (k - 1 + 1) with k by lia. lia.
Qed.

Lemma msb_index_spec word f :
  0 < word < 65536 → msb_index word f = Ok (Z.log2 word, f).
Proof.
  intros Hw. unfold msb_index. rewrite u16_small by lia.
  rewrite (proj2 (Z.eqb_neq word 0)) by lia.
  rewrite bind_ret_l. unfold or_stop.
  change 0x8000 with (2 ^ 15). by rewrite msb_loop_spec by lia.
Qed.

Lemma qos_case_spec bits array name units f :
  0 < bits < 65536 →
  qos_case bits array name units f =
    match highest bits array with
    | Some v => Ok (tt, say (name +:+ fmt_d (s32 v) +:+ units) f)
    | None => Stop OobRead
    end.
Proof.
  intros Hb. unfold qos_case, byte_value, highest. rewrite bind_assoc.
  erewrite bind_ok by (by apply msb_index_spec). unfold index_value, or_stop.
  unfold mbind, M_bind. by destruct (zlookup _ _).
Qed.

Lemma highest_ok bits array :
  0 < bits < 2 ^ Z.of_nat (length array) → is_Some (highest bits array).
Proof.
  intros [H0 H1]. unfold highest. rewrite zlookup_ge by apply Z.log2_nonneg.
  apply lookup_lt_is_Some. apply Z.log2_lt_pow2 in H1; [|done]. 
  pose proof (Z.log2_nonneg bits). lia.
Qed.

Lemma qos_tables_small pi array name units v bits :
  qos_table pi = Some (array, name, units) → highest bits array = Some v →
  s32 v = v ∧ (length array ≤ 16)%nat.
Proof.
  unfold qos_table, highest. intros Ht Hv.
  assert (Hin : v ∈ array).
  { unfold zlookup in Hv. case_decide; [|done]. by eapply list_elem_of_lookup_2. }
  split.
  - apply s32_small. revert Hin.
    repeat case_match; simplify_eq;
      intros Hin; repeat (apply elem_of_cons in Hin as [->|Hin]; [lia|]);
      by apply elem_of_nil in Hin.
  - repeat case_match; simplify_eq; simpl; lia.
Qed.

Lemma le16_lor b0 b1 : is_byte b0 → Z.lor b0 (Z.shiftl b1 8) = le16 b0 b1.
Proof.
  intros Hb. rewrite Z.lor_comm. by rewrite (lor_add_disjoint b1 b0 8).
Qed.

Lemma qos_case_says pi array name units v f :
  qos_table pi = Some (array, name, units) →
  0 < qos_bits pi v < 2 ^ Z.of_nat (length array) →
  qos_case (qos_bits pi v) array name units f = Ok (tt, say (qos_text pi v) f).
Proof.
  intros Ht Hb. destruct (highest_ok _ _ Hb) as [x Hx].
  destruct (qos_tables_small _ _ _ _ _ _ Ht Hx) as [Hs Hlen].
  assert (2 ^ Z.of_nat (length array) ≤ 2 ^ 16) by (apply Z.pow_le_mono_r; lia).
  change (2 ^ 16) with 65536 in *.
  rewrite qos_case_spec by lia. unfold qos_text. rewrite Ht, Hx. by rewrite Hs.
Qed.

(** the bit field fits a [guint16] *)
Lemma qos_bits_small pi v :
  (∀ i x, v !! i = Some x → is_byte x) → 0 ≤ qos_bits pi v < 65536.
Proof.
  intros Hb. unfold qos_bits. destruct v as [|b0 [|b1 v]].
  - lia.
  - pose proof (Hb 0%nat b0 eq_refl). unfold is_byte in *. lia.
  - pose proof (Hb 0%nat b0 eq_refl). pose proof (Hb 1%nat b1 eq_refl).
    unfold le16, be16, is_byte in *. case_match; lia.
Qed.

(** Splits on the cases of the switch, and rewrites the identifier in [H1] and
    [H2]. *)
Ltac qos_switch H1 H2 :=
  repeat match goal with
  | |- (if Z.land ?pi 127 =? ?k then _ else _) _ = _ =>
      let Hpi := fresh "Hpi" in
      destruct (Z.eqb_spec (Z.land pi 127) k) as [Hpi|?];
        [try rewrite Hpi in H1; try rewrite Hpi in H2; rewrite ?Hpi; clear Hpi|]
  end.

Lemma irlap_param_says f pre pi v post :
  holds (pre ++ tlv_bytes (pi, v) ++ post) f → qos_ok (pi, v) →
  irlap_param (Z.land pi 127) (Z.of_nat (length v)) (Z.of_nat (length pre)) f
  = Ok (tt, say (qos_text (Z.land pi 127) v) f).
Proof.
  intros Hh Hok. unfold qos_ok in Hok. cbn [fst snd] in Hok.
  assert (Hb : ∀ i x, v !! i = Some x → is_byte x) by eauto using value_byte.
  unfold irlap_param.
  qos_switch Hok Hb.
  8: { replace (qos_text (Z.land pi 127) v) with ""; [by rewrite say_nil|].
       symmetry. clear Hok. revert n n0 n1 n2 n3 n4 n5.
       generalize (Z.land pi 127). intros q ???????.
       unfold qos_text, qos_table. by repeat case_match. }
  all: cbn [qos_table PI_BAUD_RATE PI_MAX_TURN_TIME PI_DATA_SIZE PI_WINDOW_SIZE
    PI_ADD_BOFS PI_MIN_TURN_TIME PI_LINK_DISC] in Hok |- *.
  all: destruct v as [|b0 v]; [simpl in Hok; lia|]; read_value Hh.
  2-7: match goal with |- qos_case _ ?a ?n ?u _ = Ok (_, say (qos_text ?p ?w) _) =>
    rewrite <- (qos_case_says p a n u) by done; by destruct v end.
  rewrite <- (qos_case_says 1 baud_rates "Baud Rate=" "bps ") by done.
  destruct v as [|b1 v]; [done|].
  rewrite (proj2 (Z.leb_le _ _)) by (simpl; lia).
  rewrite bind_assoc. read_value Hh. rewrite bind_ret_l.
  by rewrite le16_lor by (by apply (Hb 0%nat)).
Qed.

Lemma qos_case_oob pi array name units nm us v f :
  (∀ i x, v !! i = Some x → is_byte x) →
  qos_table pi = Some (array, name, units) →
  2 ^ Z.of_nat (length array) ≤ qos_bits pi v →
  qos_case (qos_bits pi v) array nm us f = Stop OobRead.
Proof.
  intros Hb Ht Hbig. pose proof (qos_bits_small pi v Hb).
  assert (0 < 2 ^ Z.of_nat (length array)) by (apply Z.pow_pos_nonneg; lia).
  rewrite qos_case_spec by lia. unfold highest.
  rewrite zlookup_ge by apply Z.log2_nonneg.
  rewrite lookup_ge_None_2; [done|].
  apply Z.log2_le_pow2 in Hbig; lia.
Qed.

Lemma irlap_param_oob f pre pi v post array name units :
  holds (pre ++ tlv_bytes (pi, v) ++ post) f →
  qos_table (Z.land pi 127) = Some (array, name, units) →
  2 ^ Z.of_nat (length array) ≤ qos_bits (Z.land pi 127) v →
  irlap_param (Z.land pi 127) (Z.of_nat (length v)) (Z.of_nat (length pre)) f
  = Stop OobRead.
Proof.
  intros Hh Ht Hbig.
  assert (Hb : ∀ i x, v !! i = Some x → is_byte x) by eauto using value_byte.
  assert (Hv : v ≠ []).
  { intros ->. simpl in Hbig.
    assert (0 < 2 ^ Z.of_nat (length array)) by (apply Z.pow_pos_nonneg; lia). lia. }
  unfold irlap_param. qos_switch Ht Hbig.
  8: { exfalso. revert Ht n n0 n1 n2 n3 n4 n5. clear.
       generalize (Z.land pi 127). intros q. unfold qos_table.
       by repeat case_match. }
  all: destruct v as [|b0 v]; [done|]; read_value Hh.
  all: cbv in Ht; simplify_eq.
  2-7: match goal with |- qos_case _ _ ?nm ?us _ = _ =>
    match type of Hbig with _ ≤ qos_bits ?p ?w =>
    rewrite <- (qos_case_oob p _ _ _ nm us w f Hb eq_refl Hbig);
    by destruct v end end.
  rewrite <- (qos_case_oob 1 _ "Baud Rate=" "bps " "Baud Rate=" "bps " _ f Hb eq_refl Hbig).
  destruct v as [|b1 v]; [done|].
  rewrite (proj2 (Z.leb_le _ _)) by (simpl; lia).
  rewrite bind_assoc. read_value Hh. rewrite bind_ret_l.
  by rewrite le16_lor by (by apply (Hb 0%nat)).
Qed.

Lemma msb_index_terminates w : terminating (msb_index w).
Proof.
  intros f. destruct (decide (u16 w = 0)) as [H0|H0].
  - unfold msb_index. rewrite H0. done.
  - pose proof (u16_range w).
    replace (msb_index w f) with (msb_index (u16 w) f)
      by (unfold msb_index; by rewrite (u16_small (u16 w)) by lia).
    by rewrite msb_index_spec by lia.
Qed.
#[export] Hint Resolve msb_index_terminates : fuel.

(** On any contents of the buffer the parameter loop ends. *)
Lemma parse_irlap_params_terminates clen : terminating (parse_irlap_params clen).
Proof.
  unfold parse_irlap_params. pose proof (u8_range clen).
  apply term_bind; [apply term_emit|intros _]. apply term_bind; [|no_fuel].
  apply tlv_walk_terminates; [lia..|]. intros.
  unfold irlap_param, qos_case, byte_value, index_value. no_fuel.
Qed.
#[export] Hint Resolve parse_irlap_params_terminates : fuel.

Lemma parse_hints_terminates h0 h1 : terminating (parse_hints h0 h1).
Proof. unfold parse_hints. no_fuel. Qed.
#[export] Hint Resolve parse_hints_terminates : fuel.

(** On a well-formed list of negotiation parameters the decoder prints, for
    every known parameter in order, the table entry of the highest bit. *)
Lemma parse_irlap_params_spec (ps : list (Z * list Z)) (rest : list Z) f clen :
  holds (tlvs_bytes ps ++ rest) f → Forall qos_ok ps →
  clen = Z.of_nat (length (tlvs_bytes ps)) → clen ≤ 255 →
  clen ≤ blen (f_buf f) < 4294967296 →
  parse_irlap_params clen f
  = Ok (tt, pulled clen (say (nl +:+ tab +:+ "LAP QoS: " +:+ tlvs_text qos_text ps) f)).
Proof.
  intros Hh Hok Hcl Hc Hlen. unfold parse_irlap_params. rewrite u8_small by lia.
  erewrite bind_ok by apply emit_ok.
  erewrite bind_ok.
  2: { eapply (tlv_walk_spec irlap_param qos_ok qos_text)
         with (pre := []) (post := rest); try done; [|lia].
       intros. by eapply irlap_param_says. }
  erewrite bind_ok by (apply pull_ok; simpl; lia).
  by rewrite say_say, !str_app_assoc.
Qed.

Lemma hint0_bits :
  ∀ b, is_byte b →
    String.eqb
      ((if tst b 0x01 then "PnP " else "") +:+
       (if tst b 0x02 then "PDA/Palmtop " else "") +:+
       (if tst b 0x04 then "Computer " else "") +:+
       (if tst b 0x08 then "Printer " else "") +:+
       (if tst b 0x10 then "Modem " else "") +:+
       (if tst b 0x20 then "Fax " else "") +:+
       (if tst b 0x40 then "LAN Access " else ""))
      (flag_text b hint_names0) = true.
Proof. by apply byte_forall. Qed.

Lemma hint1_bits :
  ∀ b, is_byte b →
    String.eqb
      ((if tst b 0x01 then "Telephony " else "") +:+
       (if tst b 0x02 then "File Server " else "") +:+
       (if tst b 0x04 then "IrCOMM " else "") +:+
       (if tst b 0x20 then "IrOBEX " else ""))
      (flag_text b hint_names1) = true.
Proof. by apply byte_forall. Qed.

(** The hint decoder names exactly the service hint bits that are set. *)
Lemma parse_hints_says hint0 hint1 f :
  is_byte hint0 → is_byte hint1 →
  parse_hints hint0 hint1 f = Ok (tt, say (hints_text hint0 hint1) f).
Proof.
  intros H0 H1. unfold parse_hints. emits. do 3 f_equal. unfold hints_text.
  rewrite <- (proj1 (String.eqb_eq _ _) (hint0_bits _ H0)).
  rewrite <- (proj1 (String.eqb_eq _ _) (hint1_bits _ H1)).
  by rewrite !str_app_assoc.
Qed.

(** a negotiation parameter with a bit beyond its table (a maximum
    turn-around time of 16 or more, a data size of 64 or more, ...) makes the
    decoder read outside the table: [index_value] does not check its index. *)
Theorem parse_irlap_params_out_of_table pi v rest array name units f clen :
  holds (tlv_bytes (pi, v) ++ rest) f →
  qos_table (Z.land pi 127) = Some (array, name, units) →
  2 ^ Z.of_nat (length array) ≤ qos_bits (Z.land pi 127) v →
  0 < clen ≤ 255 →
  parse_irlap_params clen f = Stop OobRead.
Proof.
  intros Hh Ht Hbig Hc. unfold parse_irlap_params. rewrite u8_small by lia.
  erewrite bind_ok by apply emit_ok. apply bind_stop.
  destruct (Z.to_nat clen) as [|n] eqn:En; [lia|]. cbn [tlv_walk].
  rewrite (proj2 (Z.ltb_lt _ _)) by lia.
  rewrite <- (holds_say _ (nl +:+ tab +:+ "LAP QoS: ")) in Hh.
  erewrite bind_ok by (eapply rd_ok; [exact Hh|done]).
  erewrite bind_ok by (eapply rd_ok; [exact Hh|done]).
  apply bind_stop.
  by apply (irlap_param_oob _ [] pi v rest array name units).
Qed.

(** ** Witnesses *)

(** A maximum turn-around time of 0x10: the table has four entries. *)
Lemma parse_irlap_params_out_of_table_witness :
  parse_irlap_params 3 (test_frame [2; 1; 16]) = Stop OobRead.
Proof.
  apply (parse_irlap_params_out_of_table 2 [16] [] max_turn_times
    "Max Turn Time=" "ms "); try done.
  apply test_frame_holds. by repeat (constructor; [done|]).
Defined.
