(* ===== verification/Obex.v ===== *)
(** * OBEX: irdadump/obex.c

    The header decoder [parse_obex_header], the header loop
    [parse_obex_headers], and the commands and responses of [parse_obex], with
    the static variable [last_command].  The local array [guint8 string[255]]
    of [parse_obex_header] is a list whose initial contents are a parameter of
    the section. *)
From Stdlib Require Import String.
From S2P Require Import Prelude CInt Printf NetBuf Frame.
Local Open Scope string_scope.
Local Open Scope list_scope.
Local Open Scope Z_scope.

(** obex.h *)
Definition OBEX_CONNECT := 0x00.
Definition OBEX_DISCONNECT := 0x01.
Definition OBEX_PUT := 0x02.
Definition OBEX_GET := 0x03.
Definition OBEX_SETPATH := 0x05.
Definition OBEX_ABORT := 0x7f.
Definition OBEX_CONTINUE := 0x10.
Definition OBEX_SWITCH_PRO := 0x11.
Definition OBEX_SUCCESS := 0x20.
Definition OBEX_CREATED := 0x21.
Definition OBEX_ACCEPTED := 0x22.
Definition OBEX_BAD_REQUEST := 0x40.
Definition OBEX_FORBIDDEN := 0x43.
Definition OBEX_CONFLICT := 0x49.
Definition HEADER_NAME := 0x01.
Definition HEADER_ANAME := 0x31.
Definition HEADER_TYPE := 0x42.
Definition HEADER_LENGTH := 0xc3.
Definition HEADER_DESCRIPTION := 0x05.
Definition HEADER_TARGET := 0x46.
Definition HEADER_BODY := 0x48.
Definition HEADER_BODY_END := 0x49.
Definition HEADER_CONN_ID := 0xcb.
Definition OBEX_HI_MASK := 0xc0.
Definition OBEX_UNICODE := 0x00.
Definition OBEX_BYTE_STREAM := 0x40.
Definition OBEX_BYTE := 0x80.
Definition OBEX_INT := 0xc0.
Definition OBEX_FINAL := 0x80.

(** A frame being decoded, and [static guint8 last_command] *)
Record obex_st := mkObex { o_frame : frame; last_command : Z }.

#[export] Program Instance obex_frame : Lens obex_st frame :=
  {| view := o_frame; put f o := mkObex f (last_command o) |}.
Solve All Obligations with by intros; destruct_all obex_st.

(** [while ((buf2[n] = buf[n*2+1])) n++;], with [buf2 == buf] *)
Fixpoint unicode_loop (fuel : nat) (buf : list Z) (n : Z) : res (list Z) :=
  match fuel with
  | O => Stop OutOfFuel
  | S fuel =>
      match zlookup buf (n * 2 + 1) with
      | None => Stop OobRead
      | Some c =>
          let buf := <[Z.to_nat n := c]> buf in
          if truth c then unicode_loop fuel buf (n + 1) else Ok buf
      end
  end.

Definition unicode_to_char (buf : list Z) : res (list Z) :=
  unicode_loop (S (length buf)) buf 0.

Section obex.
(** what the stack holds where [string] is allocated *)
Variable junk : list Z.

(** [g_string_sprintfa(str, "\"%s\" ", string)] *)
Definition say_quoted (a : list Z) : M frame unit :=
  s ← or_stop OobRead (cstr a);
  emit (dq +:+ str_of_bytes s +:+ dq +:+ " ").

(** [string_len = GINT16_FROM_BE(string_len) - 3], a [guint16] *)
Definition rd_string_len : M frame Z :=
  bs ← rds 1 2;
  match bs with
  | [b0; b1] => mret (u16 (be16 b0 b1 - 3))
  | _ => halt OobRead
  end.

Definition parse_obex_header (istext : bool) : M frame Z :=
  id ← rd 0;
  let hi := Z.land id OBEX_HI_MASK in
  if hi =? OBEX_UNICODE then
    string_len ← rd_string_len;
    string ← (if truth string_len then
                src ← rds 3 string_len;
                string ← afill junk src;
                lift (unicode_to_char string)
              else mret junk);
    string ← aset string string_len 0;
    say_quoted string;;
    mret (3 + (if truth string_len then string_len else 0))
  else if hi =? OBEX_BYTE_STREAM then
    string_len ← rd_string_len;
    (if istext then
       if truth string_len then
         src ← rds 3 string_len;
         string ← afill junk src;
         string ← aset string string_len 0;
         say_quoted string
       else mret tt
     else emit ("[" +:+ fmt_d string_len +:+ " bytes] "));;
    mret (string_len + 3)
  else if hi =? OBEX_BYTE then
    v ← rd 0;
    emit (fmt_d v +:+ " ");;
    mret 2
  else if hi =? OBEX_INT then
    bs ← rds 1 4;
    match bs with
    | [a; b; c; d] => emit (fmt_d (s32 (be32 a b c d)) +:+ " ");; mret 5
    | _ => halt OobRead
    end
  else gprint "******";; mret 0.

(** one round of the loop of [parse_obex_headers], up to [g_netbuf_pull] *)
Definition obex_header_case : M frame Z :=
  id ← rd 0;
  if (id =? HEADER_NAME) || (id =? HEADER_ANAME) then
    emit "Name=";; parse_obex_header true
  else if id =? HEADER_DESCRIPTION then
    emit "Description=";; parse_obex_header false
  else if id =? HEADER_LENGTH then
    emit "Lenght=";; parse_obex_header false
  else if id =? HEADER_TYPE then
    emit "Type=";; parse_obex_header true
  else if id =? HEADER_TARGET then
    emit "Target=";; parse_obex_header true
  else if id =? HEADER_BODY then
    emit "body=";; parse_obex_header false
  else if id =? HEADER_BODY_END then
    emit "body-end=";; parse_obex_header false
  else if id =? HEADER_CONN_ID then
    emit "Connection ID=";; parse_obex_header false
  else
    emit ("custom(0x" +:+ fmt_x id +:+ ")=");; parse_obex_header false.

Fixpoint obex_header_loop (fuel : nat) : M frame unit :=
  n ← buf_len;
  if 0 <? n then
    match fuel with
    | O => halt OutOfFuel
    | S fuel =>
        len ← obex_header_case;
        r ← pull len;
        match r with
        | None => emit "{unterminated} "
        | Some _ => obex_header_loop fuel
        end
    end
  else mret tt.

Definition parse_obex_headers (header_offset : Z) : M frame unit :=
  opcode ← rd 0;
  b1 ← rd 1; b2 ← rd 2;
  let final := Z.land opcode OBEX_FINAL in
  let size := be16 b1 b2 in
  pull header_offset;;
  emit ("final=" +:+ fmt_d (Z.shiftr final 7) +:+ " len=" +:+ fmt_d size +:+ " ");;
  n ← buf_len;
  obex_header_loop (Z.to_nat n).

Definition parse_obex_connect : M frame unit :=
  b1 ← rd 1; b2 ← rd 2;
  let length := be16 b1 b2 in
  if length =? 7 then
    version ← rd 3; flags ← rd 4; m1 ← rd 5; m2 ← rd 6;
    emit ("CONNECT len=" +:+ fmt_d length +:+ " ver="
      +:+ fmt_d (Z.shiftr (Z.land version 0xf0) 4) +:+ "."
      +:+ fmt_d (Z.land version 0x0f) +:+ " flags=" +:+ fmt_d flags
      +:+ " mtu=" +:+ fmt_d (be16 m1 m2) +:+ " ")
  else emit ("CONNECT len=" +:+ fmt_d length +:+ " ").

Definition parse_obex_success (last_cmd : Z) : M frame unit :=
  if last_cmd =? OBEX_CONNECT then
    b1 ← rd 1; b2 ← rd 2; version ← rd 3; flags ← rd 4; m1 ← rd 5; m2 ← rd 6;
    emit ("SUCCESS len=" +:+ fmt_d (be16 b1 b2) +:+ " ver="
      +:+ fmt_d (Z.shiftr (Z.land version 0xf0) 4) +:+ "."
      +:+ fmt_d (Z.land version 0x0f) +:+ " flags=" +:+ fmt_d flags
      +:+ " mtu=" +:+ fmt_d (be16 m1 m2) +:+ " ");;
    parse_obex_headers 7
  else
    emit ("SUCCESS (from 0x" +:+ fmt_x last_cmd +:+ ") ");;
    parse_obex_headers 3.

Definition parse_obex_setpath : M frame unit :=
  flags ← rd 3; constants ← rd 4;
  emit ("SETPATH flags=0x" +:+ fmt_x flags +:+ " constants="
    +:+ fmt_d constants +:+ " ");;
  parse_obex_headers 5.

Definition obex_response (opcode last_cmd : Z) : M frame unit :=
  if opcode =? OBEX_CONTINUE then emit "CONTINUE ";; parse_obex_headers 3
  else if opcode =? OBEX_SWITCH_PRO then emit "SWITCH_PRO "
  else if opcode =? OBEX_SUCCESS then parse_obex_success last_cmd
  else if opcode =? OBEX_CREATED then emit "CREATED "
  else if opcode =? OBEX_ACCEPTED then emit "ACCEPTED "
  else if opcode =? OBEX_BAD_REQUEST then emit "BAD REQUEST "
  else if opcode =? OBEX_FORBIDDEN then emit "FORBIDDEN "
  else if opcode =? OBEX_CONFLICT then emit "CONFLICT "
  else emit ("Unknown response " +:+ fmt_02x opcode +:+ " ").

Definition obex_command (opcode : Z) : M frame unit :=
  if opcode =? OBEX_CONNECT then parse_obex_connect
  else if opcode =? OBEX_PUT then emit "PUT ";; parse_obex_headers 3
  else if opcode =? OBEX_GET then emit "GET ";; parse_obex_headers 3
  else if opcode =? OBEX_DISCONNECT then emit "DISC "
  else if opcode =? OBEX_ABORT then emit "ABORT "
  else if opcode =? OBEX_SETPATH then parse_obex_setpath
  else if (0x04 <? opcode) && (opcode <? 0x10) then emit "RESERVED "
  else if (0x0f <? opcode) && (opcode <? 0x20) then emit "USER_DEFINED "
  else emit ("unknown opcode " +:+ fmt_ax opcode +:+ " ").

Definition parse_obex (cmd : bool) : M obex_st unit :=
  zoom (emit (nl +:+ tab +:+ "OBEX "));;
  len ← zoom buf_len;
  if len =? 0 then mret tt
  else
    b ← zoom (rd 0);
    let opcode := Z.land b 0x7f in
    if negb cmd then
      last_cmd ← gets last_command;
      zoom (obex_response opcode last_cmd)
    else
      modify (λ o, mkObex (o_frame o) opcode);;
      zoom (obex_command opcode).
End obex.

(** ** Specification *)

(** the bytes before the first zero *)
Fixpoint upto0 (l : list Z) : list Z :=
  match l with
  | [] => []
  | b :: l => if b =? 0 then [] else b :: upto0 l
  end.

(** the low bytes of a big-endian UCS-2 string *)
Fixpoint odds (l : list Z) : list Z :=
  match l with
  | _ :: b :: l => b :: odds l
  | _ => []
  end.

(** A header: its identifier and its value. *)
Definition hdr_bytes (h : Z * list Z) : list Z :=
  match Z.land (fst h) OBEX_HI_MASK with
  | 0x00 | 0x40 => fst h :: be16_bytes (3 + Z.of_nat (length (snd h))) ++ snd h
  | _ => fst h :: snd h
  end.
Definition hdrs_bytes (hs : list (Z * list Z)) : list Z := hs ≫= hdr_bytes.

(** name of a header, and whether its value is text *)
Definition hdr_name (id : Z) : string * bool :=
  match id with
  | 0x01 | 0x31 => ("Name=", true)
  | 0x05 => ("Description=", false)
  | 0xc3 => ("Lenght=", false)
  | 0x42 => ("Type=", true)
  | 0x46 => ("Target=", true)
  | 0x48 => ("body=", false)
  | 0x49 => ("body-end=", false)
  | 0xcb => ("Connection ID=", false)
  | _ => ("custom(0x" +:+ fmt_x id +:+ ")=", false)
  end.

Definition quoted (l : list Z) : string := dq +:+ str_of_bytes (upto0 l) +:+ dq +:+ " ".

Definition hdr_value (istext : bool) (h : Z * list Z) : string :=
  let '(id, v) := h in
  match Z.land id OBEX_HI_MASK with
  | 0x00 => quoted (odds v)
  | 0x40 => if istext then match v with [] => "" | _ => quoted v end
            else "[" +:+ fmt_d (Z.of_nat (length v)) +:+ " bytes] "
  | 0x80 => fmt_d id +:+ " "
  | _ => match v with
         | [a; b; c; d] => fmt_d (s32 (be32 a b c d)) +:+ " "
         | _ => ""
         end
  end.

Definition hdr_text (h : Z * list Z) : string :=
  fst (hdr_name (fst h)) +:+ hdr_value (snd (hdr_name (fst h))) h.
Definition hdrs_text (hs : list (Z * list Z)) : string :=
  foldr (λ h s, hdr_text h +:+ s) "" hs.

(** A header the decoder has room for: a text value of at most 254 bytes, a
    UCS-2 string that is empty or ends in a zero, a one-byte or a four-byte
    quantity. *)
Definition hdr_ok (h : Z * list Z) : Prop :=
  let '(id, v) := h in
  match Z.land id OBEX_HI_MASK with
  | 0x00 => (length v ≤ 254)%nat ∧ (v = [] ∨ 0 ∈ odds v)
  | 0x40 => Z.of_nat (length v) ≤ if snd (hdr_name id) then 254 else 65532
  | 0x80 => length v = 1%nat
  | _ => length v = 4%nat
  end.

(** ** Proofs *)
Lemma upto0_in l : ∀ b, b ∈ upto0 l → b ≠ 0.
Proof.
  induction l as [|c l IH]; simpl; intros b Hb; [by apply elem_of_nil in Hb|].
  destruct (Z.eqb_spec c 0); [by apply elem_of_nil in Hb|].
  apply elem_of_cons in Hb as [->|]; auto.
Qed.

Lemma upto0_split l : 0 ∈ l → ∃ r, l = (upto0 l ++ 0 :: r).
Proof.
  induction l as [|c l IH]; simpl; intros H; [by apply elem_of_nil in H|].
  destruct (Z.eqb_spec c 0) as [->|]; [by exists l|].
  apply elem_of_cons in H as [?|[r Hr]%IH]; [done|].
  exists r. simpl. by rewrite Hr at 1.
Qed.

Lemma cstr_upto0 l k : cstr (l ++ 0 :: k) = Some (upto0 l).
Proof.
  induction l as [|b l IH]; simpl; [done|].
  destruct (b =? 0); [done|]. by rewrite IH.
Qed.

Lemma odds_lookup l i : odds l !! i = l !! (2 * i + 1)%nat.
Proof.
  revert l. induction i as [|i IH]; intros [|a [|b l]]; simpl; try done.
  - rewrite IH. by replace (i + S (i + 0) + 1)%nat with (S (2 * i + 1))%nat by lia.
Qed.

(** Each round reads ahead of where it writes, so the copy in place sees the
    original bytes. *)
Lemma unicode_loop_spec l fuel buf n :
  (∀ i c, (l ++ [0]) !! i = Some c → buf !! (2 * (n + i) + 1)%nat = Some c) →
  (∀ c, c ∈ l → c ≠ 0) → (length l < fuel)%nat →
  unicode_loop fuel buf (Z.of_nat n)
  = Ok (take n buf ++ l ++ 0 :: drop (S (n + length l)) buf).
Proof.
  revert fuel buf n. induction l as [|c l IH]; intros fuel buf n Hb Hnz Hf;
    (destruct fuel as [|fuel]; [simpl in Hf; lia|]); simpl.
  - pose proof (Hb 0%nat 0 eq_refl) as H0.
    rewrite zlookup_ge by lia.
    replace (Z.to_nat _) with (2 * (n + 0) + 1)%nat by lia. rewrite H0. simpl.
    rewrite Nat2Z.id, Nat.add_0_r, insert_take_drop; [done|].
    apply lookup_lt_Some in H0. lia.
  - pose proof (Hb 0%nat c eq_refl) as H0.
    rewrite zlookup_ge by lia.
    replace (Z.to_nat _) with (2 * (n + 0) + 1)%nat by lia. rewrite H0.
    unfold truth. rewrite (proj2 (Z.eqb_neq c 0)) by (apply Hnz; left). simpl.
    assert (n < length buf)%nat by (apply lookup_lt_Some in H0; lia).
    rewrite Nat2Z.id. replace (Z.of_nat n + 1) with (Z.of_nat (S n)) by lia.
    rewrite IH; [| |by intros d Hd; apply Hnz; right|simpl in Hf; lia].
    + f_equal. rewrite drop_insert_lt by lia.
      rewrite insert_take_drop, take_app_ge by (rewrite ?length_take; lia).
      rewrite length_take. replace (S n - n `min` length buf)%nat with 1%nat by lia.
      simpl. rewrite <- app_assoc. simpl.
      by replace (n + S (length l))%nat with (S (n + length l)) by lia.
    + intros i d Hi. rewrite list_lookup_insert_ne by lia.
      rewrite <- (Hb (S i) d Hi). f_equal. lia.
Qed.

(** [unicode_to_char] leaves the low bytes, up to their first zero, as a C
    string at the start of the array. *)
Lemma unicode_to_char_spec buf l :
  0 ∈ odds buf → l = upto0 (odds buf) →
  ∃ rest, unicode_to_char buf = Ok (l ++ 0 :: rest) ∧
    (length (l ++ 0 :: rest) = length buf).
Proof.
  intros H0 ->. destruct (upto0_split _ H0) as [r Hr].
  assert (Hl : ∀ i c, (upto0 (odds buf) ++ [0]) !! i = Some c →
    buf !! (2 * (0 + i) + 1)%nat = Some c).
  { intros i c Hi. rewrite <- odds_lookup, Hr.
    change (0 :: r) with ([0] ++ r). rewrite app_assoc.
    by apply lookup_app_l_Some. }
  assert (Hlen : (2 * length (upto0 (odds buf)) + 1 < length buf)%nat).
  { eapply lookup_lt_Some, (Hl (length (upto0 (odds buf))) 0).
    by rewrite lookup_app_r, Nat.sub_diag by lia. }
  unfold unicode_to_char. change 0 with (Z.of_nat 0) at 1.
  rewrite (unicode_loop_spec (upto0 (odds buf)));
    [|done|apply upto0_in|lia].
  eexists; split; [done|]. rewrite length_app. cbn [length].
  rewrite length_drop. lia.
Qed.

Lemma odds_app : ∀ v k : list Z, ∃ r, odds (v ++ k) = (odds v ++ r).
Proof.
  fix IH 1. intros [|a [|b v]] k; simpl.
  - by eexists.
  - by eexists.
  - destruct (IH v k) as [r ->]. by exists r.
Qed.

Lemma upto0_app l k : 0 ∈ l → upto0 (l ++ k) = upto0 l.
Proof.
  induction l as [|c l IH]; simpl; intros H; [by apply elem_of_nil in H|].
  destruct (Z.eqb_spec c 0); [done|].
  apply elem_of_cons in H as [?|?]; [done|]. by rewrite IH.
Qed.

Lemma upto0_length v : 0 ∈ odds v → (length (upto0 (odds v)) < length v)%nat.
Proof.
  intros H. destruct (upto0_split _ H) as [r Hr].
  assert (Hz : odds v !! length (upto0 (odds v)) = Some 0).
  { etrans; [exact (f_equal (λ l, l !! length (upto0 (odds v))) Hr)|]. cbn beta.
    by rewrite lookup_app_r, Nat.sub_diag by lia. }
  rewrite odds_lookup in Hz. apply lookup_lt_Some in Hz. lia.
Qed.

Lemma cstr_insert l rest i :
  (∀ c, c ∈ l → c ≠ 0) → (length l < i)%nat →
  cstr (<[i := 0]> (l ++ 0 :: rest)) = Some l.
Proof.
  intros Hl Hi. rewrite insert_app_r_alt by lia.
  destruct (i - length l)%nat as [|j] eqn:E; [lia|]. simpl. by apply cstr_app.
Qed.

Lemma hdr_bytes_cases h :
  (Z.land (fst h) OBEX_HI_MASK = 0 ∨ Z.land (fst h) OBEX_HI_MASK = 0x40) ∧
    hdr_bytes h = (fst h :: be16_bytes (3 + Z.of_nat (length (snd h))) ++ snd h) ∨
  (Z.land (fst h) OBEX_HI_MASK ≠ 0 ∧ Z.land (fst h) OBEX_HI_MASK ≠ 0x40) ∧
    hdr_bytes h = (fst h :: snd h).
Proof. unfold hdr_bytes. repeat case_match; auto. Qed.

Lemma hi_values id : is_byte id →
  let hi := Z.land id OBEX_HI_MASK in hi = 0 ∨ hi = 0x40 ∨ hi = 0x80 ∨ hi = 0xc0.
Proof.
  intros Hb. pose proof (byte_forall (λ b, (Z.land b OBEX_HI_MASK =? 0) ||
    (Z.land b OBEX_HI_MASK =? 0x40) || (Z.land b OBEX_HI_MASK =? 0x80) ||
    (Z.land b OBEX_HI_MASK =? 0xc0)) eq_refl id Hb) as H. simpl in *.
  rewrite !orb_true_iff, !Z.eqb_eq in H. tauto.
Qed.

Section proofs.
Variable junk : list Z.
Hypothesis junk_size : length junk = 255%nat.

Lemma rd_string_len_ok id n v rest f :
  holds (id :: be16_bytes n ++ v ++ rest) f → 3 ≤ n < 65536 →
  rd_string_len f = Ok (n - 3, f).
Proof.
  intros Hh Hn. unfold rd_string_len.
  erewrite bind_ok by (by apply (rds_ok [id] (be16_bytes n) (v ++ rest))).
  unfold be16_bytes. rewrite be16_of_bytes by lia. by rewrite u16_small by lia.
Qed.

Lemma say_quoted_ok a l f : cstr a = Some l →
  say_quoted a f = Ok (tt, say (dq +:+ str_of_bytes l +:+ dq +:+ " ") f).
Proof. intros H. unfold say_quoted. by rewrite H. Qed.

Lemma unicode_header_ok id v rest f istext :
  holds (hdr_bytes (id, v) ++ rest) f → hdr_ok (id, v) →
  Z.land id OBEX_HI_MASK = 0 →
  parse_obex_header junk istext f
  = Ok (Z.of_nat (length (hdr_bytes (id, v))), say (quoted (odds v)) f).
Proof.
  unfold hdr_ok, hdr_bytes. cbn [fst snd]. intros Hh Hok Hi.
  rewrite Hi in *. destruct Hok as [Hlen Hz].
  unfold parse_obex_header.
  erewrite bind_ok by (by eapply rd_ok). cbn zeta. rewrite Hi.
  rewrite <- app_comm_cons, <- app_assoc in Hh. simpl (0 =? OBEX_UNICODE). cbn iota.
  erewrite bind_ok by (eapply rd_string_len_ok; [exact Hh|lia]).
  replace (3 + Z.of_nat (length v) - 3) with (Z.of_nat (length v)) by lia.
  assert (Hres : Z.of_nat (length (id :: be16_bytes (3 + Z.of_nat (length v)) ++ v))
    = 3 + Z.of_nat (length v)) by (simpl; lia). rewrite Hres.
  destruct Hz as [->|Hz].
  - change (truth _) with false. cbn iota. rewrite bind_ret_l.
    erewrite bind_ok by (apply aset_ok; simpl; lia).
    erewrite bind_ok by (apply (say_quoted_ok _ []); by destruct junk). done.
  - assert (Hv : truth (Z.of_nat (length v)) = true).
    { unfold truth. rewrite (proj2 (Z.eqb_neq _ _)); [done|].
      destruct v; [by apply elem_of_nil in Hz|simpl; lia]. }
    rewrite Hv. rewrite bind_assoc.
    erewrite bind_ok by (by apply (rds_ok (id :: be16_bytes (3 + Z.of_nat (length v))) v rest)).
    rewrite bind_assoc. erewrite bind_ok by (apply (afill_ok junk); lia).
    destruct (odds_app v (drop (length v) junk)) as [r Hr].
    destruct (unicode_to_char_spec (v ++ drop (length v) junk) (upto0 (odds v)))
      as (rest' & Hu & Hl).
    { rewrite Hr. apply elem_of_app. by left. }
    { by rewrite Hr, upto0_app. }
    pose proof (upto0_length _ Hz). rewrite !length_app, length_drop in Hl.
    erewrite bind_ok by (unfold lift; by rewrite Hu).
    erewrite bind_ok by (apply aset_ok; rewrite ?length_app; simpl in *; lia).
    rewrite Nat2Z.id.
    erewrite bind_ok by (apply say_quoted_ok, cstr_insert; [apply upto0_in|lia]).
    done.
Qed.

Lemma stream_header_ok id v rest f :
  holds (hdr_bytes (id, v) ++ rest) f → hdr_ok (id, v) →
  Z.land id OBEX_HI_MASK = 0x40 →
  parse_obex_header junk (snd (hdr_name id)) f
  = Ok (Z.of_nat (length (hdr_bytes (id, v))),
        say (hdr_value (snd (hdr_name id)) (id, v)) f).
Proof.
  unfold hdr_ok, hdr_bytes, hdr_value. cbn [fst snd]. intros Hh Hok Hi.
  rewrite Hi in *. unfold parse_obex_header.
  erewrite bind_ok by (by eapply rd_ok). cbn zeta. rewrite Hi.
  rewrite <- app_comm_cons, <- app_assoc in Hh.
  change (64 =? OBEX_UNICODE) with false. change (64 =? OBEX_BYTE_STREAM) with true.
  cbn iota.
  assert (Hsmall : Z.of_nat (length v) ≤ 65532) by (destruct (snd (hdr_name id)); lia).
  erewrite bind_ok by (eapply rd_string_len_ok; [exact Hh|lia]).
  replace (3 + Z.of_nat (length v) - 3) with (Z.of_nat (length v)) by lia.
  assert (Hres : Z.of_nat (length (id :: be16_bytes (3 + Z.of_nat (length v)) ++ v))
    = Z.of_nat (length v) + 3) by (simpl; lia). rewrite Hres.
  destruct (snd (hdr_name id)); [|by erewrite bind_ok by apply emit_ok].
  destruct v as [|b v].
  - change (truth _) with false. cbn iota. by rewrite bind_ret_l, say_nil.
  - assert (Hv : truth (Z.of_nat (length (b :: v))) = true)
      by (unfold truth; by rewrite (proj2 (Z.eqb_neq _ _)) by (simpl; lia)).
    rewrite Hv, bind_assoc.
    erewrite bind_ok
      by (by apply (rds_ok (id :: be16_bytes (3 + Z.of_nat (length (b :: v)))) (b :: v) rest)).
    rewrite bind_assoc. erewrite bind_ok by (apply (afill_ok junk); lia).
    rewrite bind_assoc.
    erewrite bind_ok by (apply aset_ok; rewrite length_app, length_drop; lia).
    erewrite bind_ok; [done|]. apply say_quoted_ok.
    rewrite Nat2Z.id, insert_app_r_alt, Nat.sub_diag by lia.
    destruct (drop (length (b :: v)) junk) eqn:E.
    { apply (f_equal length) in E. rewrite length_drop in E. simpl in *. lia. }
    apply cstr_upto0.
Qed.

Lemma quantity_header_ok id v rest f istext :
  holds (hdr_bytes (id, v) ++ rest) f → hdr_ok (id, v) →
  Z.land id OBEX_HI_MASK = 0x80 ∨ Z.land id OBEX_HI_MASK = 0xc0 →
  parse_obex_header junk istext f
  = Ok (Z.of_nat (length (hdr_bytes (id, v))), say (hdr_value istext (id, v)) f).
Proof.
  unfold hdr_ok, hdr_bytes, hdr_value. cbn [fst snd].
  intros Hh Hok [Hi|Hi]; rewrite Hi in *; unfold parse_obex_header;
    erewrite bind_ok by (by eapply rd_ok); cbn zeta; rewrite Hi.
  - change (128 =? OBEX_UNICODE) with false. change (128 =? OBEX_BYTE_STREAM) with false.
    change (128 =? OBEX_BYTE) with true. cbn iota.
    erewrite bind_ok by (by eapply rd_ok). erewrite bind_ok by apply emit_ok.
    simpl. by rewrite Hok.
  - destruct v as [|a [|b [|c [|d [|]]]]]; try done.
    change (192 =? OBEX_UNICODE) with false. change (192 =? OBEX_BYTE_STREAM) with false.
    change (192 =? OBEX_BYTE) with false. change (192 =? OBEX_INT) with true. cbn iota.
    erewrite bind_ok by (by apply (rds_ok [id] [a; b; c; d] rest)). done.
Qed.

Lemma obex_header_case_ok h rest f :
  holds (hdr_bytes h ++ rest) f → hdr_ok h →
  obex_header_case junk f
  = Ok (Z.of_nat (length (hdr_bytes h)), say (hdr_text h) f).
Proof.
  destruct h as [id v]. intros Hh Hok.
  assert (H0 : zlookup (hdr_bytes (id, v) ++ rest) 0 = Some id)
    by (unfold hdr_bytes; by repeat case_match).
  assert (Hid : is_byte id) by (by eapply holds_lookup).
  assert (Hp : ∀ g, f_buf g = f_buf f →
    parse_obex_header junk (snd (hdr_name id)) g
    = Ok (Z.of_nat (length (hdr_bytes (id, v))),
          say (hdr_value (snd (hdr_name id)) (id, v)) g)).
  { intros g Hg. assert (Hh' : holds (hdr_bytes (id, v) ++ rest) g)
      by (unfold holds; by rewrite Hg).
    destruct (hi_values id Hid) as [Hi|[Hi|[Hi|Hi]]].
    - etrans; [by eapply unicode_header_ok|]. unfold hdr_value. by rewrite Hi.
    - by eapply stream_header_ok.
    - eapply quantity_header_ok; eauto.
    - eapply quantity_header_ok; eauto. }
  unfold obex_header_case. erewrite bind_ok by (by eapply rd_ok).
  unfold hdr_text. cbn [fst].
  repeat match goal with
  | |- (if ?b then _ else _) _ = _ => destruct b eqn:?
  end.
  all: erewrite bind_ok by apply emit_ok.
  all: rewrite ?orb_true_iff, ?orb_false_iff, ?Z.eqb_eq, ?Z.eqb_neq in *.
  all: match goal with
    | |- parse_obex_header _ ?b (say ?s _) = Ok (_, say (fst (hdr_name ?i) +:+ _) _) =>
      assert (hdr_name i = (s, b)) as Hn
        by (destruct_or?; subst; try done;
            destruct_and?; unfold hdr_name; by repeat case_match);
      rewrite Hn in Hp |- *
    end.
  all: by rewrite Hp, say_say by done.
Qed.

Lemma hdr_bytes_length h : hdr_ok h →
  2 ≤ Z.of_nat (length (hdr_bytes h)).
Proof.
  destruct h as [id v]. unfold hdr_ok, hdr_bytes. simpl.
  repeat case_match; simpl; lia.
Qed.

Lemma obex_header_loop_spec hs : ∀ rest fuel f,
  holds (hdrs_bytes hs ++ rest) f → Forall hdr_ok hs →
  blen (f_buf f) = Z.of_nat (length (hdrs_bytes hs)) →
  blen (f_buf f) < 4294967296 → blen (f_buf f) ≤ Z.of_nat fuel →
  obex_header_loop junk fuel f
  = Ok (tt, pulled (Z.of_nat (length (hdrs_bytes hs))) (say (hdrs_text hs) f)).
Proof.
  induction hs as [|h hs IH]; intros rest fuel f Hh Hok Hl Hs Hf.
  - simpl in *. rewrite pulled_0, say_nil.
    destruct fuel; simpl; unfold buf_len, gets, mbind, M_bind, g_netbuf_get_len;
      by rewrite (proj2 (Z.ltb_ge _ _)) by lia.
  - apply Forall_cons in Hok as [Hh0 Hok].
    change (hdrs_bytes (h :: hs)) with (hdr_bytes h ++ hdrs_bytes hs) in *.
    rewrite length_app in Hl. pose proof (hdr_bytes_length h Hh0).
    destruct fuel as [|fuel]; [lia|]. cbn [obex_header_loop].
    unfold buf_len at 1, gets at 1, mbind at 1, M_bind at 1, g_netbuf_get_len.
    rewrite (proj2 (Z.ltb_lt _ _)) by lia.
    rewrite <- app_assoc in Hh.
    erewrite bind_ok by (eapply obex_header_case_ok; [exact Hh|done]).
    erewrite bind_ok by (apply pull_ok; simpl; lia).
    rewrite pulled_say. erewrite IH.
    + rewrite say_say, pulled_say, pulled_pulled. do 2 f_equal.
      rewrite length_app. by rewrite Nat2Z.inj_add.
    + rewrite holds_say. by eapply holds_app_r.
    + done.
    + simpl. lia.
    + simpl. lia.
    + simpl. lia.
Qed.
End proofs.

(** ** Termination, for any contents of the buffer and of the stack *)
Lemma unicode_loop_fuel fuel buf n :
  (n ≤ length buf)%nat → (length buf < n + fuel)%nat →
  unicode_loop fuel buf (Z.of_nat n) ≠ Stop OutOfFuel.
Proof.
  revert buf n. induction fuel as [|fuel IH]; intros buf n Hn Hf; [lia|]. simpl.
  rewrite zlookup_ge by lia. destruct (buf !! _) as [c|] eqn:E; [|done].
  destruct (truth c); [|done]. apply lookup_lt_Some in E.
  replace (Z.of_nat n + 1) with (Z.of_nat (S n)) by lia.
  apply IH; rewrite length_insert; lia.
Qed.
Lemma unicode_to_char_terminates buf : terminating (S:=frame) (lift (unicode_to_char buf)).
Proof.
  intros f. unfold lift, unicode_to_char.
  pose proof (unicode_loop_fuel (S (length buf)) buf 0 ltac:(lia) ltac:(lia)) as H.
  change (Z.of_nat 0) with 0 in H. destruct (unicode_loop _ _ _); congruence.
Qed.
#[export] Hint Resolve unicode_to_char_terminates : fuel.

Lemma obex_header_case_terminates junk : terminating (obex_header_case junk).
Proof.
  unfold obex_header_case, parse_obex_header, rd_string_len, say_quoted, afill, aset.
  no_fuel.
Qed.

Lemma obex_header_case_keeps junk : keeps_buf (obex_header_case junk).
Proof.
  unfold obex_header_case, parse_obex_header, rd_string_len, say_quoted, afill, aset.
  keeps.
Qed.

(** A header is at least two bytes long. *)
Definition hdr_len_ok (m : M frame Z) : Prop :=
  ∀ f n g, m f = Ok (n, g) → 2 ≤ n < 4294967296.

Lemma hdr_len_bind {A} (m : M frame A) k :
  (∀ a f g, m f = Ok (a, g) → hdr_len_ok (k a)) → hdr_len_ok (m ≫= k).
Proof. intros Hk f n g (a & f' & Hm & H)%bind_ok_inv. by eapply Hk. Qed.

Lemma hdr_len_ret n : 2 ≤ n < 4294967296 → hdr_len_ok (mret n).
Proof. by intros Hn f ? g [= <- _]. Qed.

Lemma rd_string_len_range f n g : rd_string_len f = Ok (n, g) → 0 ≤ n < 65536.
Proof.
  unfold rd_string_len. intros (bs & f' & _ & H)%bind_ok_inv.
  destruct bs as [|a [|b []]]; try done. injection H as <- _. apply u16_range.
Qed.

Lemma parse_obex_header_len junk istext : hdr_len_ok (parse_obex_header junk istext).
Proof.
  unfold parse_obex_header. apply hdr_len_bind. intros id f g Hid%rd_byte.
  destruct (hi_values id Hid) as [Hi|[Hi|[Hi|Hi]]]; rewrite Hi; cbn zeta.
  - change (0 =? OBEX_UNICODE) with true. cbn iota.
    apply hdr_len_bind. intros n f' g' Hn%rd_string_len_range.
    do 3 (apply hdr_len_bind; intros). apply hdr_len_ret. destruct (truth n); lia.
  - change (64 =? OBEX_UNICODE) with false. change (64 =? OBEX_BYTE_STREAM) with true.
    cbn iota. apply hdr_len_bind. intros n f' g' Hn%rd_string_len_range.
    apply hdr_len_bind; intros. apply hdr_len_ret. lia.
  - change (128 =? OBEX_UNICODE) with false. change (128 =? OBEX_BYTE_STREAM) with false.
    change (128 =? OBEX_BYTE) with true. cbn iota.
    do 2 (apply hdr_len_bind; intros). by apply hdr_len_ret.
  - change (192 =? OBEX_UNICODE) with false. change (192 =? OBEX_BYTE_STREAM) with false.
    change (192 =? OBEX_BYTE) with false. change (192 =? OBEX_INT) with true. cbn iota.
    apply hdr_len_bind. intros bs ? ? _. destruct bs as [|a [|b [|c [|d [|]]]]]; try done.
    apply hdr_len_bind; intros. by apply hdr_len_ret.
Qed.

Lemma obex_header_case_len junk : hdr_len_ok (obex_header_case junk).
Proof.
  unfold obex_header_case. apply hdr_len_bind; intros.
  repeat case_match; apply hdr_len_bind; intros; apply parse_obex_header_len.
Qed.

(** Every round strips a header, so the loop ends within [buf->len] rounds. *)
Lemma obex_header_loop_terminates junk fuel f :
  blen (f_buf f) ≤ Z.of_nat fuel → obex_header_loop junk fuel f ≠ Stop OutOfFuel.
Proof.
  revert f. induction fuel as [|fuel IH]; intros f Hf; cbn [obex_header_loop];
    unfold buf_len at 1, gets at 1, mbind at 1, M_bind at 1, g_netbuf_get_len.
  { by rewrite (proj2 (Z.ltb_ge _ _)) by lia. }
  destruct (0 <? _) eqn:E; [|done]. apply Z.ltb_lt in E.
  pose proof (obex_header_case_terminates junk f) as Ht.
  destruct (obex_header_case junk f) as [[n g]|w] eqn:Hc;
    [|rewrite (bind_stop _ _ _ _ Hc); congruence].
  rewrite (bind_ok _ _ _ _ _ Hc). pose proof (obex_header_case_len _ _ _ _ Hc) as Hn.
  apply obex_header_case_keeps in Hc. rewrite <- Hc in *.
  destruct (decide (n ≤ blen (f_buf g))).
  - unfold pull, zoom, g_netbuf_pull, get, modify, mbind, M_bind. simpl.
    rewrite u32_small by lia. rewrite decide_False by lia. simpl.
    apply IH. simpl. unfold u32.
    assert ((blen (f_buf g) - n) mod 2 ^ 32 ≤ blen (f_buf g) - n)
      by (apply Z.mod_le; [lia|done]). lia.
  - by erewrite bind_ok by (apply pull_short; lia).
Qed.

Lemma parse_obex_headers_terminates junk off : terminating (parse_obex_headers junk off).
Proof.
  unfold parse_obex_headers. do 5 (apply term_bind; [no_fuel|intros]).
  intros f. unfold buf_len at 1, gets at 1, mbind at 1, M_bind at 1.
  apply obex_header_loop_terminates. unfold g_netbuf_get_len. lia.
Qed.
#[export] Hint Resolve parse_obex_headers_terminates : fuel.

Lemma parse_obex_terminates junk cmd : terminating (parse_obex junk cmd).
Proof.
  unfold parse_obex, obex_response, obex_command, parse_obex_connect,
    parse_obex_success, parse_obex_setpath. no_fuel.
Qed.
#[export] Hint Resolve parse_obex_terminates : fuel.

(** ** OBEX packets *)

(** The packets, each with its headers; [OtherReq] and [OtherRsp] are those of which the
    decoder prints only the name of the operation. *)
Inductive obex_pdu :=
  | PutReq (hs : list (Z * list Z))
  | GetReq (hs : list (Z * list Z))
  | SetpathReq (flags constants : Z) (hs : list (Z * list Z))
  | ConnectReq (version flags mtu : Z) (hs : list (Z * list Z))
  | ContinueRsp (hs : list (Z * list Z))
  | SuccessRsp (hs : list (Z * list Z))
  | ConnectRsp (version flags mtu : Z) (hs : list (Z * list Z))
  | OtherReq (op : Z) (hs : list (Z * list Z))
  | OtherRsp (op : Z) (hs : list (Z * list Z)).

Definition pdu_headers (p : obex_pdu) : list (Z * list Z) :=
  match p with
  | PutReq hs | GetReq hs | SetpathReq _ _ hs | ConnectReq _ _ _ hs
  | ContinueRsp hs | SuccessRsp hs | ConnectRsp _ _ _ hs | OtherReq _ hs | OtherRsp _ hs => hs
  end.
Definition pdu_cmd (p : obex_pdu) : bool :=
  match p with
  | PutReq _ | GetReq _ | SetpathReq _ _ _ | ConnectReq _ _ _ _ | OtherReq _ _ => true
  | _ => false
  end.
Definition pdu_opcode (p : obex_pdu) : Z :=
  match p with
  | PutReq _ => OBEX_PUT
  | GetReq _ => OBEX_GET
  | SetpathReq _ _ _ => OBEX_SETPATH
  | ConnectReq _ _ _ _ => OBEX_CONNECT
  | ContinueRsp _ => OBEX_CONTINUE
  | SuccessRsp _ | ConnectRsp _ _ _ _ => OBEX_SUCCESS
  | OtherReq op _ | OtherRsp op _ => op
  end.
(** the fields between the packet length and the headers *)
Definition pdu_fields (p : obex_pdu) : list Z :=
  match p with
  | SetpathReq flags constants _ => [flags; constants]
  | ConnectReq version flags mtu _ | ConnectRsp version flags mtu _ =>
      version :: flags :: be16_bytes mtu
  | _ => []
  end.
Definition pdu_size (p : obex_pdu) : Z :=
  3 + Z.of_nat (length (pdu_fields p)) + Z.of_nat (length (hdrs_bytes (pdu_headers p))).
Definition pdu_bytes (final : bool) (p : obex_pdu) : list Z :=
  (pdu_opcode p + 128 * b2z final) :: be16_bytes (pdu_size p)
  ++ pdu_fields p ++ hdrs_bytes (pdu_headers p).

Definition connect_text (name : string) (size version flags mtu : Z) : string :=
  name +:+ " len=" +:+ fmt_d size +:+ " ver="
  +:+ fmt_d (Z.shiftr (Z.land version 0xf0) 4) +:+ "."
  +:+ fmt_d (Z.land version 0x0f) +:+ " flags=" +:+ fmt_d flags
  +:+ " mtu=" +:+ fmt_d mtu +:+ " ".
Definition headers_text (final : bool) (size : Z) (hs : list (Z * list Z)) : string :=
  "final=" +:+ fmt_d (b2z final) +:+ " len=" +:+ fmt_d size +:+ " " +:+ hdrs_text hs.

(** the name of an operation, for the packets of which nothing else is printed *)
Definition request_name (op : Z) : string :=
  if op =? OBEX_DISCONNECT then "DISC "
  else if op =? OBEX_ABORT then "ABORT "
  else if (5 <=? op) && (op <=? 15) then "RESERVED "
  else if (16 <=? op) && (op <=? 31) then "USER_DEFINED "
  else "unknown opcode " +:+ fmt_ax op +:+ " ".
Definition response_name (op : Z) : string :=
  if op =? OBEX_SWITCH_PRO then "SWITCH_PRO "
  else if op =? OBEX_CREATED then "CREATED "
  else if op =? OBEX_ACCEPTED then "ACCEPTED "
  else if op =? OBEX_BAD_REQUEST then "BAD REQUEST "
  else if op =? OBEX_FORBIDDEN then "FORBIDDEN "
  else if op =? OBEX_CONFLICT then "CONFLICT "
  else "Unknown response " +:+ fmt_02x op +:+ " ".

Definition pdu_text (final : bool) (last : Z) (p : obex_pdu) : string :=
  nl +:+ tab +:+ "OBEX " +:+
  match p with
  | PutReq hs => "PUT " +:+ headers_text final (pdu_size p) hs
  | GetReq hs => "GET " +:+ headers_text final (pdu_size p) hs
  | SetpathReq flags constants hs =>
      "SETPATH flags=0x" +:+ fmt_x flags +:+ " constants=" +:+ fmt_d constants
      +:+ " " +:+ headers_text final (pdu_size p) hs
  | ConnectReq version flags mtu hs =>
      if pdu_size p =? 7 then connect_text "CONNECT" 7 version flags mtu
      else "CONNECT len=" +:+ fmt_d (pdu_size p) +:+ " "
  | ContinueRsp hs => "CONTINUE " +:+ headers_text final (pdu_size p) hs
  | SuccessRsp hs =>
      "SUCCESS (from 0x" +:+ fmt_x last +:+ ") " +:+ headers_text final (pdu_size p) hs
  | ConnectRsp version flags mtu hs =>
      connect_text "SUCCESS" (pdu_size p) version flags mtu
      +:+ headers_text final (pdu_size p) hs
  | OtherReq op _ => request_name op
  | OtherRsp op _ => response_name op
  end.

(** what is stripped of the buffer: all of it, or nothing *)
Definition pdu_pulled (p : obex_pdu) : Z :=
  match p with
  | ConnectReq _ _ _ _ | OtherReq _ _ | OtherRsp _ _ => 0
  | _ => pdu_size p
  end.

(** A response to CONNECT follows a CONNECT, another SUCCESS does not. *)
Definition pdu_ok (last : Z) (p : obex_pdu) : Prop :=
  Forall hdr_ok (pdu_headers p) ∧
  match p with
  | ConnectReq _ _ mtu _ => 0 ≤ mtu < 65536
  | ConnectRsp _ _ mtu _ => 0 ≤ mtu < 65536 ∧ last = OBEX_CONNECT
  | SuccessRsp _ => last ≠ OBEX_CONNECT
  | OtherReq op _ => 0 ≤ op < 128 ∧ op ∉ [OBEX_CONNECT; OBEX_PUT; OBEX_GET; OBEX_SETPATH]
  | OtherRsp op _ => 0 ≤ op < 128 ∧ op ∉ [OBEX_CONTINUE; OBEX_SUCCESS]
  | _ => True
  end.

Lemma opcode_final op final :
  0 ≤ op < 128 →
  Z.land (op + 128 * b2z final) 0x7f = op ∧
  Z.land (op + 128 * b2z final) OBEX_FINAL = 128 * b2z final.
Proof.
  intros Hop.
  pose proof (byte_forall (λ b, (Z.land b 0x7f =? b mod 128)
    && (Z.land b OBEX_FINAL =? 128 * (b / 128))) eq_refl
    (op + 128 * b2z final) ltac:(unfold is_byte; destruct final; simpl; lia)) as H.
  apply andb_true_iff in H as [->%Z.eqb_eq ->%Z.eqb_eq].
  destruct final; simpl b2z; split; Z.to_euclidean_division_equations; lia.
Qed.

Section pdus.
Variable junk : list Z.
Hypothesis junk_size : length junk = 255%nat.

Lemma parse_obex_headers_spec op final size extra hs rest f off :
  holds ((op + 128 * b2z final) :: be16_bytes size ++ extra ++ hdrs_bytes hs ++ rest) f →
  0 ≤ op < 128 → 0 ≤ size < 65536 → Forall hdr_ok hs →
  off = 3 + Z.of_nat (length extra) →
  blen (f_buf f) = off + Z.of_nat (length (hdrs_bytes hs)) →
  blen (f_buf f) < 4294967296 →
  parse_obex_headers junk off f
  = Ok (tt, pulled (blen (f_buf f)) (say (headers_text final size hs) f)).
Proof.
  intros Hh Hop Hsz Hok -> Hl Hs. unfold parse_obex_headers.
  do 3 erewrite bind_ok by (by eapply rd_ok).
  rewrite be16_of_bytes by lia. destruct (opcode_final op final Hop) as [_ ->].
  erewrite bind_ok by (apply pull_ok; lia).
  erewrite bind_ok by apply emit_ok.
  unfold buf_len at 1, gets at 1, mbind at 1, M_bind at 1, g_netbuf_get_len.
  rewrite app_comm_cons, app_assoc in Hh.
  erewrite obex_header_loop_spec with (hs := hs); try done.
  - unfold headers_text.
    replace (Z.shiftr (128 * b2z final) 7) with (b2z final) by (by destruct final).
    rewrite <- !pulled_say, say_say, !pulled_say, pulled_pulled, !str_app_assoc.
    do 4 f_equal. lia.
  - rewrite holds_say. replace (3 + Z.of_nat (length extra))
      with (Z.of_nat (length (((op + 128 * b2z final) :: be16_bytes size) ++ extra)))
      by (rewrite length_app; simpl; lia).
    by apply holds_app_r in Hh.
  - simpl. lia.
  - simpl. lia.
  - simpl. lia.
Qed.

(** reads the next fixed field of the packet *)
Ltac field Hh := erewrite bind_ok by (eapply rd_ok; [exact Hh|reflexivity]).
Ltac headers Hh Hl extra :=
  erewrite (parse_obex_headers_spec _ _ _ extra); [|rewrite ?holds_say; exact Hh|..];
    [|done|lia|done|done|rewrite !buf_say, Hl; unfold pdu_size; simpl; lia
     |rewrite !buf_say, Hl; lia].

(** the packets of which only the name is printed *)
Lemma other_command op g :
  op ∉ [OBEX_CONNECT; OBEX_PUT; OBEX_GET; OBEX_SETPATH] →
  obex_command junk op g = emit (request_name op) g.
Proof.
  rewrite !not_elem_of_cons, <- !Z.eqb_neq. intros (N1 & N2 & N3 & N4 & _).
  unfold obex_command, request_name. rewrite N1, N2, N3, N4.
  assert ((0x04 <? op) = (5 <=? op)) as -> by (apply eq_true_iff_eq; rewrite Z.ltb_lt, Z.leb_le; lia).
  assert ((0x0f <? op) = (16 <=? op)) as -> by (apply eq_true_iff_eq; rewrite Z.ltb_lt, Z.leb_le; lia).
  assert ((op <? 0x10) = (op <=? 15)) as -> by (apply eq_true_iff_eq; rewrite Z.ltb_lt, Z.leb_le; lia).
  assert ((op <? 0x20) = (op <=? 31)) as -> by (apply eq_true_iff_eq; rewrite Z.ltb_lt, Z.leb_le; lia).
  by repeat case_match.
Qed.
Lemma other_response op last g :
  op ∉ [OBEX_CONTINUE; OBEX_SUCCESS] → obex_response junk op last g = emit (response_name op) g.
Proof.
  rewrite !not_elem_of_cons, <- !Z.eqb_neq. intros (N1 & N2 & _).
  unfold obex_response, response_name. rewrite N1, N2. by repeat case_match.
Qed.

Lemma obex_pdu_body final last p rest g :
  holds (pdu_bytes final p ++ rest) g → pdu_ok last p → pdu_size p < 65536 →
  blen (f_buf g) = pdu_size p →
  (if pdu_cmd p then obex_command junk (pdu_opcode p)
   else obex_response junk (pdu_opcode p) last) (say (nl +:+ tab +:+ "OBEX ") g)
  = Ok (tt, pulled (pdu_pulled p) (say (pdu_text final last p) g)).
Proof.
  intros Hh [Hok Hp] Hsz Hl. rewrite <- (holds_say _ (nl +:+ tab +:+ "OBEX ")) in Hh.
  assert (0 ≤ pdu_size p) by (unfold pdu_size; lia).
  unfold pdu_bytes in Hh. rewrite <- app_comm_cons, <- !app_assoc in Hh.
  assert (Hsz' : be16 (u8 (pdu_size p / 256)) (u8 (pdu_size p)) = pdu_size p)
    by (apply be16_of_bytes; lia).
  destruct p; cbn [pdu_cmd pdu_opcode pdu_text pdu_pulled pdu_fields pdu_headers] in *.
  - unfold obex_command. cbn. erewrite bind_ok by apply emit_ok. headers Hh Hl (@nil Z).
    rewrite !buf_say, Hl, !say_say. unfold pdu_text. by rewrite !str_app_assoc.
  - unfold obex_command. cbn. erewrite bind_ok by apply emit_ok. headers Hh Hl (@nil Z).
    rewrite !buf_say, Hl, !say_say. unfold pdu_text. by rewrite !str_app_assoc.
  - unfold obex_command, parse_obex_setpath. cbn. do 2 field Hh.
    erewrite bind_ok by apply emit_ok. headers Hh Hl [flags; constants].
    rewrite !buf_say, Hl, !say_say. unfold pdu_text. by rewrite !str_app_assoc.
  - unfold obex_command, parse_obex_connect. cbn [OBEX_CONNECT Z.eqb].
    do 2 field Hh. rewrite Hsz'. cbn zeta.
    destruct (Z.eqb_spec (pdu_size (ConnectReq version flags mtu hs)) 7) as [H7|H7].
    + do 4 field Hh. rewrite be16_of_bytes by tauto. rewrite emit_ok, say_say, pulled_0.
      unfold pdu_text, connect_text. rewrite H7. by rewrite !str_app_assoc.
    + rewrite emit_ok, say_say, pulled_0. unfold pdu_text.
      rewrite (proj2 (Z.eqb_neq _ _)) by done. by rewrite !str_app_assoc.
  - unfold obex_response. cbn. erewrite bind_ok by apply emit_ok. headers Hh Hl (@nil Z).
    rewrite !buf_say, Hl, !say_say. unfold pdu_text. by rewrite !str_app_assoc.
  - unfold obex_response, parse_obex_success. cbn [OBEX_SUCCESS OBEX_CONTINUE OBEX_SWITCH_PRO Z.eqb Pos.eqb].
    rewrite (proj2 (Z.eqb_neq last OBEX_CONNECT)) by done.
    erewrite bind_ok by apply emit_ok. headers Hh Hl (@nil Z).
    rewrite !buf_say, Hl, !say_say. unfold pdu_text. by rewrite !str_app_assoc.
  - destruct Hp as [Hm ->].
    unfold obex_response, parse_obex_success. cbn [OBEX_SUCCESS OBEX_CONTINUE OBEX_SWITCH_PRO Z.eqb Pos.eqb].
    cbn [OBEX_CONNECT Z.eqb]. do 6 field Hh. rewrite Hsz', be16_of_bytes by tauto.
    erewrite bind_ok by apply emit_ok.
    headers Hh Hl (version :: flags :: be16_bytes mtu).
    rewrite !buf_say, Hl, !say_say. unfold pdu_text, connect_text. by rewrite !str_app_assoc.
  - rewrite other_command by tauto. rewrite emit_ok, say_say, pulled_0. unfold pdu_text.
    by rewrite !str_app_assoc.
  - rewrite other_response by tauto. rewrite emit_ok, say_say, pulled_0. unfold pdu_text.
    by rewrite !str_app_assoc.
Qed.

(** An encoded packet, on the whole state of the decoder. *)
Lemma parse_obex_says final p rest o :
  holds (pdu_bytes final p ++ rest) (o_frame o) →
  pdu_ok (last_command o) p → pdu_size p < 65536 →
  blen (f_buf (o_frame o)) = pdu_size p →
  parse_obex junk (pdu_cmd p) o
  = Ok (tt, mkObex (pulled (pdu_pulled p)
                     (say (pdu_text final (last_command o) p) (o_frame o)))
              (if pdu_cmd p then pdu_opcode p else last_command o)).
Proof.
  intros Hh Hok Hsz Hl. unfold parse_obex.
  erewrite bind_ok by (apply zoom_ok; apply emit_ok).
  erewrite bind_ok by (by apply zoom_ok). cbn [view put obex_frame o_frame].
  unfold g_netbuf_get_len. rewrite (proj2 (Z.eqb_neq _ _))
    by (rewrite buf_say, Hl; unfold pdu_size; lia).
  assert (Hhd : zlookup (pdu_bytes final p ++ rest) 0
    = Some (pdu_opcode p + 128 * b2z final)) by done.
  erewrite bind_ok by (apply zoom_ok; eapply rd_ok; [exact Hh|exact Hhd]).
  destruct (opcode_final (pdu_opcode p) final) as [-> _].
  { destruct Hok as [_ Hok]. destruct p; try done; cbn in *; lia. }
  cbn [view put obex_frame o_frame last_command] in *.
  pose proof (obex_pdu_body final (last_command o) p rest (o_frame o) Hh Hok Hsz Hl) as Hb.
  destruct (pdu_cmd p); cbn [negb].
  - erewrite bind_ok by done. by erewrite zoom_ok by exact Hb.
  - erewrite bind_ok by done. by erewrite zoom_ok by exact Hb.
Qed.

End pdus.

(** a header value of 255 bytes or more is copied past the end of
    [string]: the length field of the header is not checked. *)
Theorem parse_obex_header_overflow junk id v rest f :
  length junk = 255%nat →
  holds (id :: be16_bytes (3 + Z.of_nat (length v)) ++ v ++ rest) f →
  Z.land id OBEX_HI_MASK = OBEX_BYTE_STREAM ∧ (255 ≤ length v)%nat ∨
  Z.land id OBEX_HI_MASK = OBEX_UNICODE ∧ (256 ≤ length v)%nat →
  Z.of_nat (length v) ≤ 65532 →
  parse_obex_header junk true f = Stop OobWrite.
Proof.
  intros Hj Hh Hcase Hlen. unfold parse_obex_header.
  erewrite bind_ok by (by eapply rd_ok). cbn zeta.
  assert (Hrd : rd_string_len f = Ok (Z.of_nat (length v), f)).
  { erewrite (rd_string_len_ok junk Hj) by (exact Hh || lia). do 2 f_equal. lia. }
  assert (Hsrc : rds 3 (Z.of_nat (length v)) f = Ok (v, f))
    by (by apply (rds_ok (id :: be16_bytes (3 + Z.of_nat (length v))) v rest)).
  assert (Hv : truth (Z.of_nat (length v)) = true)
    by (unfold truth; by rewrite (proj2 (Z.eqb_neq _ _)) by lia).
  destruct Hcase as [[Hi Hl]|[Hi Hl]]; rewrite Hi.
  - change (OBEX_BYTE_STREAM =? OBEX_UNICODE) with false.
    change (OBEX_BYTE_STREAM =? OBEX_BYTE_STREAM) with true. cbn iota.
    erewrite bind_ok by exact Hrd. rewrite Hv, bind_assoc.
    erewrite bind_ok by exact Hsrc. rewrite bind_assoc.
    destruct (decide (length v ≤ length junk)%nat) as [Hle|Hgt].
    + erewrite bind_ok by (apply (afill_ok junk); lia). rewrite bind_assoc.
      apply bind_stop. unfold aset. rewrite decide_False; [done|].
      rewrite length_app, length_drop. lia.
    + apply bind_stop. unfold afill. by rewrite decide_False.
  - change (OBEX_UNICODE =? OBEX_UNICODE) with true. cbn iota.
    erewrite bind_ok by exact Hrd. rewrite Hv, bind_assoc.
    erewrite bind_ok by exact Hsrc. rewrite bind_assoc.
    apply bind_stop. unfold afill. rewrite decide_False; [done|lia].
Qed.

(** ** Witnesses *)

Definition example_put : obex_pdu :=
  PutReq [(HEADER_NAME, [0; 72; 0; 105; 0; 0]); (HEADER_LENGTH, [0; 0; 0; 5]);
          (HEADER_TYPE, [116; 120; 116; 0]); (HEADER_BODY_END, [1; 2; 3; 4; 5])].


Lemma parse_obex_header_overflow_witness :
  parse_obex_header (replicate 255 0) true
    (test_frame (HEADER_TYPE :: be16_bytes 258 ++ replicate 255 65))
  = Stop OobWrite.
Proof.
  apply (parse_obex_header_overflow (replicate 255 0) HEADER_TYPE (replicate 255 65) []).
  - done.
  - apply test_frame_holds. repeat (constructor; [by vm_compute|]). constructor.
  - left. rewrite length_replicate. split; [done|lia].
  - by rewrite length_replicate.
Defined.
