(* ===== verification/Conn.v ===== *)
(** * The connection table of irdadump: irlap.c and irdadump.h

    [struct ias_query last_ias], [struct lsap_state conn[MAX_CONNECTIONS]] and
    [conn_cache], with [find_connection], [find_free_connection] and
    [garbage_connection].  The table's contract with its client (irlmp.c) is
    the class [TableLaws]: what a lookup, an allocation and a release promise. *)
From Stdlib Require Import String.
From S2P Require Import Prelude CInt.

Definition MAX_CONNECTIONS := 15.
Definition LSAP_ANY := 0xff.

Record ias_query := mkIas {
  ias_lsap_sel : Z;
  ias_ttp : bool;
  ias_obex : bool;
  ias_ircomm : bool;
  ias_irnet : bool }.

Record lsap_state := mkLsap {
  valid : bool;
  ttp : bool;
  obex : bool;
  ircomm : bool;
  irnet : bool;
  saddr : Z;
  daddr : Z;
  slsap_sel : Z;
  dlsap_sel : Z;
  caddr : Z }.

Record conn_st := mkConn {
  conn : list lsap_state;
  conn_cache : Z;
  last_ias : ias_query }.

#[export] Instance lsap_state_eq_dec : EqDecision lsap_state.
Proof. solve_decision. Defined.

(** static storage: everything is zero, and [int conn_cache = -1] *)
Definition no_lsap : lsap_state :=
  mkLsap false false false false false 0 0 0 0 0.
Definition no_ias : ias_query := mkIas 0 false false false false.
Definition conn_start : conn_st :=
  mkConn (replicate 15 no_lsap) (-1) no_ias.

(** [conn[i]] and [conn[i] = e] *)
Definition conn_at (i : Z) : M conn_st lsap_state :=
  st ← get;
  if decide (0 ≤ i) then or_stop OobRead (conn st !! Z.to_nat i) else halt OobRead.
Definition conn_set (i : Z) (e : lsap_state) : M conn_st unit :=
  st ← get;
  if decide (0 ≤ i < Z.of_nat (length (conn st)))
  then modify (λ st, mkConn (<[Z.to_nat i := e]> (conn st)) (conn_cache st) (last_ias st))
  else halt OobWrite.
Definition set_cache (i : Z) : M conn_st Z :=
  modify (λ st, mkConn (conn st) i (last_ias st));; mret i.
Definition set_ias (q : ias_query) : M conn_st unit :=
  modify (λ st, mkConn (conn st) (conn_cache st) q).

(** [conn[i].slsap_sel == slsap_sel && conn[i].dlsap_sel == dlsap_sel] *)
Definition same_pair (slsap dlsap : Z) (e : lsap_state) : bool :=
  (slsap_sel e =? slsap) && (dlsap_sel e =? dlsap).

(** [for (i = 0; i < MAX_CONNECTIONS; i++) if (p(conn[i])) return i;
    return -1;] *)
Fixpoint first_conn (p : lsap_state → bool) (rounds : nat) (i : Z) : M conn_st Z :=
  match rounds with
  | O => mret (-1)
  | S rounds =>
      e ← conn_at i;
      if p e then mret i else first_conn p rounds (i + 1)
  end.

Definition find_connection (slsap dlsap : Z) : M conn_st Z :=
  cache ← gets conn_cache;
  hit ← (if negb (cache =? -1)
         then e ← conn_at cache; mret (same_pair slsap dlsap e)
         else mret false);
  if hit : bool then mret cache
  else
    i ← first_conn (same_pair slsap dlsap) (Z.to_nat MAX_CONNECTIONS) 0;
    set_cache i.

Definition find_free_connection : M conn_st Z :=
  first_conn (λ e, negb (valid e)) (Z.to_nat MAX_CONNECTIONS) 0.

Definition set_valid (v : bool) (e : lsap_state) : lsap_state :=
  mkLsap v (ttp e) (obex e) (ircomm e) (irnet e) (saddr e) (daddr e)
    (slsap_sel e) (dlsap_sel e) (caddr e).

(** the loop of [garbage_connection] *)
Fixpoint garbage_loop (ca : Z) (rounds : nat) (i : Z) : M conn_st unit :=
  match rounds with
  | O => mret tt
  | S rounds =>
      e ← conn_at i;
      (if caddr e =? ca then conn_set i (set_valid false e) else mret tt);;
      garbage_loop ca rounds (i + 1)
  end.
Definition garbage_connection (ca : Z) : M conn_st unit :=
  garbage_loop ca (Z.to_nat MAX_CONNECTIONS) 0.

(** CONNECT in [parse_irlmp]: a free entry takes the pair, the station and
    what the last LM-IAS query was about; -1 when the table is full. *)
Definition open_connection (ca slsap dlsap : Z) : M conn_st Z :=
  i ← find_free_connection;
  if i =? -1 then mret (-1)
  else
    e ← conn_at i;
    q ← gets last_ias;
    conn_set i (mkLsap true (ias_ttp q) (ias_obex q) (ias_ircomm q) (ias_irnet q)
      (saddr e) (daddr e) slsap dlsap ca);;
    mret i.

(** DISCONNECT in [parse_irlmp] *)
Definition close_connection (slsap dlsap : Z) : M conn_st unit :=
  i ← find_connection slsap dlsap;
  if i =? -1 then mret tt
  else e ← conn_at i; conn_set i (set_valid false e).

(** What the decoders do to the table. *)
Inductive table_op :=
  | Query (q : ias_query)
  | Open (ca slsap dlsap : Z)
  | Close (slsap dlsap : Z)
  | Lookup (slsap dlsap : Z)
  | Garbage (ca : Z).

Definition run_table_op (o : table_op) : M conn_st unit :=
  match o with
  | Query q => set_ias q
  | Open ca s d => open_connection ca s d;; mret tt
  | Close s d => close_connection s d
  | Lookup s d => find_connection s d;; mret tt
  | Garbage ca => garbage_connection ca
  end.

Fixpoint run_table (os : list table_op) : M conn_st unit :=
  match os with
  | [] => mret tt
  | o :: os => run_table_op o;; run_table os
  end.

(** ** Specification *)

(** The invariant: the table has its size, and the cache names an entry. *)
Record conn_wf (st : conn_st) : Prop := {
  conn_size : length (conn st) = 15%nat;
  cache_range : -1 ≤ conn_cache st < MAX_CONNECTIONS }.

(** the index of the first entry that satisfies [p], or -1 *)
Definition first_index (p : lsap_state → bool) (l : list lsap_state) : Z :=
  match list_find p l with
  | Some (i, _) => Z.of_nat i
  | None => -1
  end.

(** What the table promises: a lookup finds an entry of the pair and only
    changes the cache; an allocation returns a free entry and changes nothing;
    a release clears the entries of a station. *)
Class TableLaws (find : Z → Z → M conn_st Z) (free : M conn_st Z)
    (release : Z → M conn_st unit) : Prop := {
  find_law slsap dlsap st : conn_wf st → ∃ i,
    find slsap dlsap st = Ok (i, mkConn (conn st) i (last_ias st)) ∧
    -1 ≤ i < MAX_CONNECTIONS ∧
    (i = -1 ↔ Forall (λ e, same_pair slsap dlsap e = false) (conn st)) ∧
    (∀ e, 0 ≤ i → conn st !! Z.to_nat i = Some e → same_pair slsap dlsap e = true);
  free_law st : conn_wf st →
    free st = Ok (first_index (λ e, negb (valid e)) (conn st), st);
  release_law ca st : conn_wf st →
    release ca st = Ok (tt, mkConn
      ((λ e, if caddr e =? ca then set_valid false e else e) <$> conn st)
      (conn_cache st) (last_ias st)) }.

(** ** Proofs *)
Lemma conn_at_ok i e st :
  0 ≤ i → conn st !! Z.to_nat i = Some e → conn_at i st = Ok (e, st).
Proof.
  intros Hi He. unfold conn_at, get, mbind, M_bind. rewrite decide_True by done.
  unfold or_stop. by rewrite He.
Qed.

Lemma conn_set_ok i e st :
  0 ≤ i < Z.of_nat (length (conn st)) →
  conn_set i e st
  = Ok (tt, mkConn (<[Z.to_nat i := e]> (conn st)) (conn_cache st) (last_ias st)).
Proof.
  intros Hi. unfold conn_set, get, mbind, M_bind. by rewrite decide_True by done.
Qed.

Lemma conn_start_wf : conn_wf conn_start.
Proof. split; [done|by unfold MAX_CONNECTIONS; simpl]. Qed.

Lemma conn_set_wf i e st :
  conn_wf st → conn_wf (mkConn (<[i := e]> (conn st)) (conn_cache st) (last_ias st)).
Proof. intros [Hl Hc]. split; simpl; [by rewrite length_insert|done]. Qed.

Lemma first_conn_app p pre l st i :
  conn st = pre ++ l → i = Z.of_nat (length pre) →
  first_conn p (length l) i st
  = Ok (match list_find p l with
        | Some (j, _) => i + Z.of_nat j
        | None => -1
        end, st).
Proof.
  revert pre i. induction l as [|e l IH]; intros pre i Hst ->; cbn [length first_conn].
  { done. }
  erewrite bind_ok.
  2: { apply conn_at_ok; [lia|]. by rewrite Nat2Z.id, Hst, lookup_app_r,
         Nat.sub_diag by lia. }
  simpl. destruct (p e) eqn:Hp.
  - rewrite decide_True by done. unfold mret, M_ret. do 2 f_equal. lia.
  - rewrite decide_False by auto.
    rewrite (IH (pre ++ [e])); [| by rewrite <- app_assoc|rewrite length_app; simpl; lia].
    destruct (list_find _ l) as [[j e']|]; simpl; [|done]. f_equal. f_equal. lia.
Qed.

Lemma first_conn_spec p st :
  length (conn st) = 15%nat →
  first_conn p (Z.to_nat MAX_CONNECTIONS) 0 st = Ok (first_index p (conn st), st).
Proof.
  intros Hl. change (Z.to_nat MAX_CONNECTIONS) with 15%nat. rewrite <- Hl.
  rewrite (first_conn_app p [] (conn st)) by done.
  unfold first_index. by destruct (list_find _ _) as [[]|].
Qed.

Lemma first_index_range p l : length l = 15%nat →
  -1 ≤ first_index p l < MAX_CONNECTIONS.
Proof.
  intros Hl. unfold first_index, MAX_CONNECTIONS.
  destruct (list_find _ _) as [[i e]|] eqn:E; [|lia].
  apply list_find_Some in E as [E _]. apply lookup_lt_Some in E. lia.
Qed.

Lemma first_index_none p l :
  first_index p l = -1 ↔ Forall (λ e, p e = false) l.
Proof.
  unfold first_index. destruct (list_find _ _) as [[i e]|] eqn:E.
  - apply list_find_Some in E as (Hi & Hp & _). split; [lia|].
    intros Hall. rewrite Forall_lookup in Hall. rewrite (Hall _ _ Hi) in Hp. done.
  - apply list_find_None in E. split; [intros _|done].
    eapply Forall_impl; [exact E|]. intros e He. simpl in He. by destruct (p e).
Qed.

Lemma first_index_some p l e :
  0 ≤ first_index p l → l !! Z.to_nat (first_index p l) = Some e → p e = true.
Proof.
  unfold first_index. destruct (list_find _ _) as [[i e']|] eqn:E; [|lia].
  apply list_find_Some in E as (Hi & Hp & _). rewrite Nat2Z.id. intros _ H.
  simplify_eq. by apply Is_true_true.
Qed.

Lemma garbage_loop_app ca pre l st i :
  conn st = pre ++ l → i = Z.of_nat (length pre) →
  garbage_loop ca (length l) i st
  = Ok (tt, mkConn (pre ++ ((λ e, if caddr e =? ca then set_valid false e else e) <$> l))
      (conn_cache st) (last_ias st)).
Proof.
  revert pre i st. induction l as [|e l IH]; intros pre i st Hst ->;
    cbn [length garbage_loop].
  { rewrite fmap_nil, <- Hst. by destruct st. }
  erewrite bind_ok.
  2: { apply conn_at_ok; [lia|]. by rewrite Nat2Z.id, Hst, lookup_app_r,
         Nat.sub_diag by lia. }
  set (e' := if caddr e =? ca then set_valid false e else e).
  assert (Hs : (if caddr e =? ca then conn_set (Z.of_nat (length pre)) (set_valid false e)
    else mret tt) st = Ok (tt, mkConn (pre ++ e' :: l) (conn_cache st) (last_ias st))).
  { subst e'. destruct (caddr e =? ca).
    - rewrite conn_set_ok by (rewrite Hst, length_app; simpl; lia).
      rewrite Nat2Z.id, Hst. by rewrite insert_app_r_alt, Nat.sub_diag by lia.
    - rewrite <- Hst. by destruct st. }
  erewrite bind_ok by exact Hs.
  rewrite (IH (pre ++ [e'])); [|simpl; by rewrite <- app_assoc
    |rewrite length_app; simpl; lia].
  csimpl. by rewrite <- app_assoc.
Qed.

Lemma find_connection_spec slsap dlsap st : conn_wf st →
  find_connection slsap dlsap st
  = (let i := match conn st !! Z.to_nat (conn_cache st) with
             | Some e => if negb (conn_cache st =? -1) && same_pair slsap dlsap e
                         then conn_cache st
                         else first_index (same_pair slsap dlsap) (conn st)
             | None => first_index (same_pair slsap dlsap) (conn st)
             end in Ok (i, mkConn (conn st) i (last_ias st))).
Proof.
  intros [Hl Hc]. unfold find_connection, MAX_CONNECTIONS in *.
  unfold gets at 1, mbind at 1, M_bind at 1.
  destruct (lookup_lt_is_Some_2 (conn st) (Z.to_nat (conn_cache st))) as [e He]; [lia|].
  rewrite He. destruct (Z.eqb_spec (conn_cache st) (-1)) as [H1|H1]; cbn [negb andb].
  - rewrite bind_ret_l.
    erewrite bind_ok by (by apply first_conn_spec). done.
  - rewrite bind_assoc. erewrite bind_ok by (apply conn_at_ok; [lia|done]).
    rewrite bind_ret_l. destruct (same_pair slsap dlsap e); [by destruct st|].
    by erewrite bind_ok by (by apply first_conn_spec).
Qed.

(** The implementation keeps the promises. *)
#[export] Instance irlap_table :
  TableLaws find_connection find_free_connection garbage_connection.
Proof.
  split.
  - intros slsap dlsap st Hwf. rewrite find_connection_spec by done.
    destruct Hwf as [Hl Hc]. eexists. split; [done|].
    pose proof (first_index_range (same_pair slsap dlsap) (conn st) Hl).
    destruct (conn st !! Z.to_nat (conn_cache st)) as [e|] eqn:He.
    + destruct (negb (conn_cache st =? -1) && same_pair slsap dlsap e) eqn:Hb.
      * apply andb_true_iff in Hb as [Hb Hp].
        apply negb_true_iff, Z.eqb_neq in Hb.
        split; [lia|]. split; [|intros e' _ He'; by simplify_eq].
        split; [done|]. intros Hall. rewrite Forall_lookup in Hall.
        by rewrite (Hall _ _ He) in Hp.
      * split; [lia|]. split; [apply first_index_none|apply first_index_some].
    + split; [lia|]. split; [apply first_index_none|apply first_index_some].
  - intros st [Hl _]. by apply first_conn_spec.
  - intros ca st [Hl _]. unfold garbage_connection.
    change (Z.to_nat MAX_CONNECTIONS) with 15%nat. rewrite <- Hl.
    by apply (garbage_loop_app ca []).
Qed.

(** ** The operations of the client, proved from the laws of the table *)
Lemma conn_at_wf i st :
  conn_wf st → 0 ≤ i < MAX_CONNECTIONS →
  ∃ e, conn st !! Z.to_nat i = Some e ∧ conn_at i st = Ok (e, st).
Proof.
  intros [Hl _] Hi. unfold MAX_CONNECTIONS in Hi.
  destruct (lookup_lt_is_Some_2 (conn st) (Z.to_nat i)) as [e He]; [lia|].
  exists e. split; [done|]. apply conn_at_ok; [lia|done].
Qed.

Lemma find_connection_safe slsap dlsap st : conn_wf st → ∃ i,
  find_connection slsap dlsap st = Ok (i, mkConn (conn st) i (last_ias st)) ∧
  -1 ≤ i < MAX_CONNECTIONS.
Proof. intros H. destruct (find_law slsap dlsap st H) as (i & H1 & H2 & _). eauto. Qed.

Lemma find_connection_wf slsap dlsap st i st' :
  conn_wf st → find_connection slsap dlsap st = Ok (i, st') →
  conn_wf st' ∧ -1 ≤ i < MAX_CONNECTIONS.
Proof.
  intros H Hf. destruct (find_connection_safe slsap dlsap st H) as (j & Hj & Hr).
  rewrite Hj in Hf. simplify_eq. split; [|done]. destruct H. by split.
Qed.

Lemma open_connection_spec ca slsap dlsap st :
  conn_wf st →
  open_connection ca slsap dlsap st =
    (let i := first_index (λ e, negb (valid e)) (conn st) in
     if i =? -1 then Ok (-1, st)
     else match conn st !! Z.to_nat i with
          | Some e => let q := last_ias st in
              Ok (i, mkConn (<[Z.to_nat i := mkLsap true (ias_ttp q) (ias_obex q)
                (ias_ircomm q) (ias_irnet q) (saddr e) (daddr e) slsap dlsap ca]> (conn st))
                (conn_cache st) (last_ias st))
          | None => Stop OobRead
          end).
Proof.
  intros Hwf. unfold open_connection. erewrite bind_ok by (by apply free_law).
  pose proof (first_index_range (λ e, negb (valid e)) (conn st) (conn_size _ Hwf)) as Hr.
  cbn zeta. destruct (Z.eqb_spec (first_index (λ e, negb (valid e)) (conn st)) (-1)); [done|].
  destruct (conn_at_wf (first_index (λ e, negb (valid e)) (conn st)) st Hwf)
    as (e & He & Hat); [lia|].
  erewrite bind_ok by exact Hat. rewrite He.
  unfold gets at 1, mbind at 1, M_bind at 1.
  erewrite bind_ok; [done|]. apply conn_set_ok.
  rewrite (conn_size _ Hwf). unfold MAX_CONNECTIONS in Hr. lia.
Qed.

Lemma run_table_op_wf o st :
  conn_wf st → ∃ st', run_table_op o st = Ok (tt, st') ∧ conn_wf st'.
Proof.
  intros Hwf. destruct o as [q|ca s d|s d|s d|ca]; cbn [run_table_op].
  - eexists. split; [done|]. destruct Hwf. by split.
  - pose proof (open_connection_spec ca s d st Hwf) as Ho. cbn zeta in Ho.
    destruct (Z.eqb_spec (first_index (λ e, negb (valid e)) (conn st)) (-1)).
    + erewrite bind_ok by exact Ho. by exists st.
    + destruct (conn_at_wf (first_index (λ e, negb (valid e)) (conn st)) st Hwf)
        as (e & He & _).
      { pose proof (first_index_range (λ e, negb (valid e)) (conn st) (conn_size _ Hwf)). lia. }
      rewrite He in Ho. erewrite bind_ok by exact Ho. eexists. split; [done|].
      by apply conn_set_wf.
  - unfold close_connection.
    destruct (find_connection_safe s d st Hwf) as (i & Hf & Hi).
    destruct (find_connection_wf _ _ _ _ _ Hwf Hf) as [Hwf' _].
    erewrite bind_ok by exact Hf. destruct (Z.eqb_spec i (-1)); [by eexists|].
    destruct (conn_at_wf i _ Hwf') as (e & He & Hat); [lia|].
    erewrite bind_ok by exact Hat. rewrite conn_set_ok.
    2: { rewrite (conn_size _ Hwf'). unfold MAX_CONNECTIONS in Hi. lia. }
    eexists. split; [done|]. by apply (conn_set_wf _ _ _ Hwf').
  - destruct (find_connection_safe s d st Hwf) as (i & Hf & Hi).
    destruct (find_connection_wf _ _ _ _ _ Hwf Hf) as [Hwf' _].
    erewrite bind_ok by exact Hf. eexists. by split.
  - rewrite release_law by done. eexists. split; [done|].
    destruct Hwf as [Hl Hc]. split; simpl; [by rewrite length_fmap|done].
Qed.

(** C20: from the program's start, no sequence of queries, connects,
    disconnects, lookups and garbage collections reads or writes outside the
    table, and the table keeps its 15 entries and a cache that names one. *)
Theorem table_safe (os : list table_op) :
  ∃ st, run_table os conn_start = Ok (tt, st) ∧ conn_wf st.
Proof.
  assert (Hall : ∀ st, conn_wf st → ∃ st', run_table os st = Ok (tt, st') ∧ conn_wf st').
  { induction os as [|o os IH]; intros st Hwf; cbn [run_table]; [eauto|].
    destruct (run_table_op_wf o st Hwf) as (st1 & H1 & Hwf1).
    erewrite bind_ok by exact H1. by apply IH. }
  apply Hall, conn_start_wf.
Qed.

(** C22: as long as at most one entry holds a pair, the cache is transparent:
    [find_connection] returns what the linear search alone would. *)
Theorem find_connection_cache slsap dlsap st :
  conn_wf st →
  (∀ i j e e', conn st !! i = Some e → conn st !! j = Some e' →
    same_pair slsap dlsap e = true → same_pair slsap dlsap e' = true → i = j) →
  find_connection slsap dlsap st
  = (let i := first_index (same_pair slsap dlsap) (conn st) in
     Ok (i, mkConn (conn st) i (last_ias st))).
Proof.
  intros Hwf Huniq. rewrite find_connection_spec by done.
  destruct (conn st !! Z.to_nat (conn_cache st)) as [e|] eqn:He; [|done].
  destruct (negb (conn_cache st =? -1) && same_pair slsap dlsap e) eqn:Hb; [|done].
  apply andb_true_iff in Hb as [Hc Hp]. apply negb_true_iff, Z.eqb_neq in Hc.
  cut (first_index (same_pair slsap dlsap) (conn st) = conn_cache st);
    [by intros ->|].
  unfold first_index. destruct (list_find _ _) as [[j e']|] eqn:E.
  - apply list_find_Some in E as (Hj & Hp' & _).
    rewrite (Huniq j (Z.to_nat (conn_cache st)) e' e) by (try done; by apply Is_true_true).
    destruct Hwf as [_ Hr]. lia.
  - apply list_find_None in E. rewrite Forall_lookup in E.
    specialize (E _ _ He). simpl in E. by rewrite Hp in E.
Qed.

Lemma find_connection_cache_witness :
  let st := mkConn (mkLsap true true true false false 0 0 2 3 7 :: replicate 14 no_lsap)
    0 no_ias in
  find_connection 2 3 st = Ok (0, st).
Proof.
  intros st. apply (find_connection_cache 2 3 st).
  - by split.
  - intros i j e e' Hi Hj He He'.
    assert (Hz : ∀ k x, conn st !! k = Some x → same_pair 2 3 x = true → k = 0%nat).
    { intros [|k] x Hk Hx; [done|exfalso]. simpl in Hk.
      apply (lookup_replicate_1 14) in Hk as [-> _]. done. }
    rewrite (Hz i e), (Hz j e') by done. done.
Defined.

(** the lookup trusts the cache before [valid]: after two connections of a
    station are garbage collected and one of them is opened again, the lookup
    returns the dead entry although a live one holds the pair, and the
    decoders skip the data of the live connection. *)
Theorem stale_cache_hides_connection :
  ∃ os st i e j e',
    run_table os conn_start = Ok (tt, st) ∧
    find_connection 4 5 st = Ok (i, st) ∧
    conn st !! Z.to_nat i = Some e ∧ valid e = false ∧
    conn st !! Z.to_nat j = Some e' ∧ valid e' = true ∧ same_pair 4 5 e' = true.
Proof.
  exists [Query (mkIas 3 true true false false); Open 1 2 3; Open 1 4 5; Lookup 4 5;
          Garbage 1; Open 1 4 5].
  eexists _, 1, _, 0, _. split; [vm_compute; reflexivity|].
  split; [vm_compute; reflexivity|]. split; [reflexivity|]. split; [reflexivity|].
  split; [reflexivity|]. by split.
Qed.
