(* ===== verification/Dump.v ===== *)
(** * The state of irdadump's decoders

    The frame being decoded with the OBEX decoder's [last_command], the
    connection table, and the sequence counters of irlap.c; the configuration
    variables of main.c that the decoders read. *)
From Stdlib Require Import String.
From S2P Require Import Prelude CInt Printf NetBuf Frame Obex Conn.

(** [config_*] of main.c and irdadump.c *)
Record config := mkConfig {
  config_print_irlap : bool;
  config_print_irlmp : bool;
  config_print_lost_frames : bool;
  config_force_ttp : bool }.

(** [int self_nr, self_ns, peer_nr, peer_ns] *)
Record counters := mkCtr {
  self_nr : Z;
  self_ns : Z;
  peer_nr : Z;
  peer_ns : Z }.

Record dump := mkDump {
  d_obex : obex_st;
  d_conn : conn_st;
  d_ctr : counters }.

#[export] Program Instance dump_obex : Lens dump obex_st :=
  {| view := d_obex; put o s := mkDump o (d_conn s) (d_ctr s) |}.
Solve All Obligations with by intros; destruct_all dump.

#[export] Program Instance dump_conn : Lens dump conn_st :=
  {| view := d_conn; put c s := mkDump (d_obex s) c (d_ctr s) |}.
Solve All Obligations with by intros; destruct_all dump.

#[export] Program Instance dump_ctr : Lens dump counters :=
  {| view := d_ctr; put c s := mkDump (d_obex s) (d_conn s) c |}.
Solve All Obligations with by intros; destruct_all dump.

Definition d_frame (s : dump) : frame := o_frame (d_obex s).
Definition with_frame (f : frame) (s : dump) : dump :=
  mkDump (mkObex f (last_command (d_obex s))) (d_conn s) (d_ctr s).
Definition with_conn (c : conn_st) (s : dump) : dump :=
  mkDump (d_obex s) c (d_ctr s).
Definition with_ias (q : ias_query) (s : dump) : dump :=
  with_conn (mkConn (conn (d_conn s)) (conn_cache (d_conn s)) q) s.
Definition with_ctr (c : counters) (s : dump) : dump :=
  mkDump (d_obex s) (d_conn s) c.

#[export] Program Instance dump_frame : Lens dump frame :=
  {| view := d_frame; put := with_frame |}.
Solve All Obligations with by intros; destruct_all dump; destruct_all obex_st.

Definition d_ias (s : dump) : ias_query := last_ias (d_conn s).

(** ** Steps of a decoder on the frame of the state *)
Definition printed (t : string) (s : dump) : dump := with_frame (say t (d_frame s)) s.
Definition stripped (n : Z) (s : dump) : dump := with_frame (pulled n (d_frame s)) s.
Definition at_data (l : list Z) (s : dump) : Prop := holds l (d_frame s).
Definition avail (s : dump) : Z := blen (f_buf (d_frame s)).

Lemma with_frame_frame f s : d_frame (with_frame f s) = f.
Proof. done. Qed.
Lemma with_frame_twice f g s : with_frame f (with_frame g s) = with_frame f s.
Proof. done. Qed.
Lemma printed_printed t u s : printed t (printed u s) = printed (u +:+ t) s.
Proof. unfold printed. by rewrite with_frame_twice, with_frame_frame, say_say. Qed.
Lemma printed_nil s : printed EmptyString s = s.
Proof. unfold printed. rewrite say_nil. by destruct s as [[] ? ?]. Qed.
Lemma stripped_printed n t s : stripped n (printed t s) = printed t (stripped n s).
Proof. done. Qed.
Lemma stripped_stripped n k s : stripped n (stripped k s) = stripped (k + n) s.
Proof. unfold stripped. by rewrite with_frame_twice, with_frame_frame, pulled_pulled. Qed.
Lemma stripped_0 s : stripped 0 s = s.
Proof. unfold stripped. rewrite pulled_0. by destruct s as [[] ? ?]. Qed.
Lemma avail_printed t s : avail (printed t s) = avail s.
Proof. done. Qed.
Lemma avail_stripped n s : avail (stripped n s) = avail s - n.
Proof. done. Qed.
Lemma at_data_printed l t s : at_data l (printed t s) ↔ at_data l s.
Proof. done. Qed.

Create Rewrite HintDb dump.
#[export] Hint Rewrite printed_printed stripped_printed stripped_stripped
  avail_printed avail_stripped : dump.

Lemma zoom_emit t s : zoom (emit t) s = Ok (tt, printed t s).
Proof. done. Qed.
Lemma zoom_rd l n v s :
  at_data l s → zlookup l n = Some v → zoom (rd n) s = Ok (v, s).
Proof.
  intros Hh Hl. erewrite zoom_ok by (by eapply rd_ok). by rewrite put_view.
Qed.
Lemma zoom_rds l k m s n j :
  at_data (l ++ k ++ m) s → n = Z.of_nat (length l) → j = Z.of_nat (length k) →
  zoom (rds n j) s = Ok (k, s).
Proof.
  intros Hh Hn Hj. erewrite zoom_ok by (by eapply rds_ok). by rewrite put_view.
Qed.
Lemma zoom_pull {B} n s (k : option Z → M dump B) :
  0 ≤ n ≤ avail s → avail s < 4294967296 →
  (zoom (pull n) ≫= k) s = k (Some (data (f_buf (d_frame s)) + n)) (stripped n s).
Proof. intros Hn Hs. by erewrite bind_ok by (apply zoom_ok; by apply pull_ok). Qed.
Lemma zoom_pull_short n s :
  avail s < n < 4294967296 → 0 ≤ avail s → zoom (pull n) s = Ok (None, s).
Proof.
  intros Hn Hs. erewrite zoom_ok by (by apply pull_short). by rewrite put_view.
Qed.
Lemma at_data_stripped l k s :
  at_data (l ++ k) s → at_data k (stripped (Z.of_nat (length l)) s).
Proof. apply holds_app_r. Qed.

(** A step on the frame, given as its effect on the frame. *)
Lemma zoom_frame_ok {A} (m : M frame A) (a : A) s s' :
  m (d_frame s) = Ok (a, d_frame s') → s' = with_frame (d_frame s') s →
  zoom m s = Ok (a, s').
Proof. intros H Hs. erewrite zoom_ok by exact H. by rewrite Hs at 2. Qed.
