(* ===== verification/IrLMP.v ===== *)
(** * IrLMP, LM-IAS and TinyTP: irdadump/irlmp.c

    The LM-IAS query decoder, which remembers what a query asked for
    ([last_ias]); the TinyTP headers; [parse_irlmp], which opens and closes
    entries of the connection table and hands data to the upper decoders; and
    [parse_ui_irlmp]. *)
From Stdlib Require Import String.
From S2P Require Import Prelude CInt Printf NetBuf Frame IrComm Obex Conn Dump.
Local Open Scope string_scope.
Local Open Scope list_scope.
Local Open Scope Z_scope.

(** irdadump.h *)
Definition CONNECT_CMD := 0x01.
Definition CONNECT_RSP := 0x81.
Definition DISCONNECT := 0x02.
Definition CONTROL_BIT := 0x80.
Definition LSAP_MASK := 0x7f.
Definition IAP_LST := 0x80.
Definition GET_INFO_BASE := 0x01.
Definition GET_VALUE_BY_CLASS := 0x04.
Definition IAS_SUCCESS := 0x00.
Definition IAS_CLASS_UNKNOWN := 0x01.
Definition IAS_ATTRIB_UNKNOWN := 0x02.
Definition IAS_INTEGER := 1.
Definition IAS_OCT_SEQ := 2.
Definition IAS_STRING := 3.

(** [opcode &= ~IAP_LST] *)
Definition iap_opcode (b : Z) : Z := Z.land b (Z.lxor 0xff IAP_LST).

Section irlmp.
(** what the stack holds where the local [char name[255]], [attr[255]] and
    [string[255]] are allocated, and [guint8 string[255]] of obex.c *)
Variable name_junk attr_junk string_junk obex_junk : list Z.
Variable cfg : config.

(** [memcpy(string, buf->data + n, len); string[len] = 0;], and the C string
    it makes *)
Definition rd_local (junk : list Z) (n len : Z) : M frame (list Z) :=
  src ← rds n len;
  a ← (string ← afill junk src; aset string len 0);
  or_stop OobRead (cstr a).

Definition parse_iriap_command (slsap_sel : Z) : M dump unit :=
  opcode ← zoom (rd 0);
  let opcode := iap_opcode opcode in
  if (opcode =? GET_INFO_BASE) || (opcode =? GET_VALUE_BY_CLASS) then
    name_len ← zoom (rd 1);
    name ← zoom (rd_local name_junk 2 name_len);
    attr_len ← zoom (rd (2 + name_len));
    attr ← zoom (rd_local attr_junk (3 + name_len) attr_len);
    zoom (emit ("GET_VALUE_BY_CLASS: " +:+ dq +:+ str_of_bytes name +:+ dq +:+ " "
      +:+ dq +:+ str_of_bytes attr +:+ dq +:+ " "));;
    zoom (set_ias (mkIas LSAP_ANY (has attr "TinyTP") (has name "OBEX")
      (has name "IrCOMM" || has name "IrLPT") (has name "IrNet")))
  else mret tt.

Definition parse_irias_value : M dump unit :=
  len ← zoom (rds 0 2);
  obj_id ← zoom (rds 2 2);
  type ← zoom (rd 4);
  if type =? IAS_INTEGER then
    bs ← zoom (rds 5 4);
    match bs with
    | [a; b; c; d] =>
        let tmp_cpu32 := be32 a b c d in
        zoom (emit ("Integer: " +:+ fmt_02x tmp_cpu32 +:+ " "));;
        q ← gets d_ias;
        zoom (set_ias (mkIas (u8 tmp_cpu32) (ias_ttp q) (ias_obex q) (ias_ircomm q)
          (ias_irnet q)))
    | _ => halt OobRead
    end
  else if type =? IAS_STRING then
    charset ← zoom (rd 5);
    value_len ← zoom (rd 6);
    string ← zoom (rd_local string_junk 7 value_len);
    zoom (emit ("String: " +:+ str_of_bytes string +:+ " "))
  else if type =? IAS_OCT_SEQ then
    bs ← zoom (rds 5 2);
    match bs with
    | [b0; b1] =>
        let value_len := be16 b0 b1 in
        zoom (pull 7);;
        q ← gets d_ias;
        if ias_ircomm q then
          zoom (emit (nl +:+ tab +:+ "IrCOMM Parameters "));;
          zoom (parse_ircomm_params value_len)
        else zoom (emit "N/A ")
    | _ => halt OobRead
    end
  else zoom (gprint "parse_irias_value() Unknown IAS value type! ").

Definition parse_iriap_response (dlsap_sel : Z) : M dump unit :=
  opcode ← zoom (rd 0);
  rsp ← zoom (rd 1);
  zoom (pull 2);;
  (if iap_opcode opcode =? GET_INFO_BASE then
     zoom (gprint ("parse_iriap_response() Sorry, GET_INFO_BASE not implemented!" +:+ nl))
   else if iap_opcode opcode =? GET_VALUE_BY_CLASS then
     zoom (emit "GET_VALUE_BY_CLASS: ")
   else zoom (gprint ("parse_iriap_response() Sorry, not implemented!" +:+ nl)));;
  if rsp =? IAS_SUCCESS then zoom (emit "Success ");; parse_irias_value
  else if rsp =? IAS_CLASS_UNKNOWN then zoom (emit "No such class ")
  else if rsp =? IAS_ATTRIB_UNKNOWN then zoom (emit "No such attribute ")
  else zoom (emit "Unknown response code ").

Definition parse_irnet : M frame unit := emit "IrNET ".

Definition parse_irttp : M frame unit :=
  b ← rd 0;
  emit ("TTP credits=" +:+ fmt_d (Z.land b 0x7f) +:+ " ");;
  when (tst b 0x80) (emit "More ");;
  pull 1;; mret tt.

Definition parse_irttp_connect : M frame unit :=
  b ← rd 0;
  emit ("TTP credits=" +:+ fmt_d (Z.land b 0x7f) +:+ " ");;
  when (tst b 0x80)
    (plen ← rd 1;
     pi ← rd 2;
     pl ← rd 3;
     bs ← rds 4 2;
     match bs with
     | [b0; b1] =>
         pull plen;;
         emit ("MaxSduSize=" +:+ fmt_d (be16 b0 b1) +:+ " ")
     | _ => halt OobRead
     end);;
  pull 1;; mret tt.

(** what the decoders above a connection print of its connect frame *)
Definition connect_upper (e : lsap_state) : M dump unit :=
  when (ttp e) (zoom parse_irttp_connect);;
  when (ircomm e) (zoom parse_ircomm_connect);;
  when (irnet e) (zoom parse_irnet).

(** ... and of its data: [conn[i].valid && conn[i].ttp], and so on *)
Definition data_upper (cmd : bool) (e : lsap_state) : M dump unit :=
  when (valid e && ttp e) (zoom parse_irttp);;
  when (valid e && obex e) (zoom (parse_obex obex_junk cmd));;
  when (valid e && ircomm e)
    (if ttp e then zoom parse_ircomm_ttp else zoom parse_ircomm_lmp);;
  when (valid e && irnet e) (zoom parse_irnet).

(** [if (type) f(slsap_sel, dlsap_sel); else f(dlsap_sel, slsap_sel);] *)
Definition directed {A} (type : Z) (f : Z → Z → A) (slsap dlsap : Z) : A :=
  if truth type then f slsap dlsap else f dlsap slsap.

Definition irlmp_connect_cmd (ca type slsap dlsap : Z) : M dump unit :=
  zoom (emit "CONN_CMD ");;
  q ← gets d_ias;
  if dlsap =? ias_lsap_sel q then
    i ← zoom (directed type (open_connection ca) slsap dlsap);
    if i =? -1 then zoom (gprint ("No more space for connection!" +:+ nl))
    else e ← zoom (conn_at i); connect_upper e
  else
    when (config_force_ttp cfg && negb (dlsap =? 0)) (zoom parse_irttp_connect).

Definition irlmp_connect_rsp (type slsap dlsap : Z) : M dump unit :=
  zoom (emit "CONN_RSP ");;
  i ← zoom (directed type find_connection slsap dlsap);
  if negb (i =? -1) then e ← zoom (conn_at i); connect_upper e
  else
    when (config_force_ttp cfg && negb (slsap =? 0)) (zoom parse_irttp_connect).

Definition irlmp_disconnect (type slsap dlsap : Z) : M dump unit :=
  zoom (emit "DISC ");;
  zoom (directed type close_connection slsap dlsap).

(** the [switch (ctrl)] *)
Definition irlmp_control (ca type ctrl slsap dlsap : Z) : M dump unit :=
  if ctrl =? CONNECT_CMD then irlmp_connect_cmd ca type slsap dlsap
  else if ctrl =? CONNECT_RSP then irlmp_connect_rsp type slsap dlsap
  else if ctrl =? DISCONNECT then irlmp_disconnect type slsap dlsap
  else mret tt.

Definition irlmp_data (type slsap dlsap : Z) (cmd : bool) : M dump unit :=
  (if dlsap =? 0x00 then parse_iriap_command slsap
   else when (slsap =? 0x00) (parse_iriap_response dlsap));;
  i ← zoom (directed type find_connection slsap dlsap);
  (if negb (i =? -1) then e ← zoom (conn_at i); data_upper cmd e else mret tt);;
  when (negb (dlsap =? 0x00) && negb (slsap =? 0x00) && (i =? -1))
    (when (config_force_ttp cfg) (zoom parse_irttp)).

Definition parse_irlmp (ca type : Z) (cmd : bool) : M dump unit :=
  b ← zoom (rd 0);
  slsap_sel ← zoom (rd 1);
  let ctrl := Z.land b CONTROL_BIT in
  let dlsap_sel := Z.land b LSAP_MASK in
  zoom (pull 2);;
  zoom (emit ("LM slsap=" +:+ fmt_02x slsap_sel +:+ " dlsap=" +:+ fmt_02x dlsap_sel +:+ " "));;
  if truth ctrl then
    ctrl ← zoom (rd 0);
    rsvd ← zoom (rd 1);
    zoom (pull 2);;
    irlmp_control ca type ctrl slsap_sel dlsap_sel
  else irlmp_data type slsap_sel dlsap_sel cmd.

Definition parse_ui_irlmp (type : Z) : M dump unit :=
  b ← zoom (rd 0);
  slsap_sel ← zoom (rd 1);
  let dlsap_sel := Z.land b LSAP_MASK in
  zoom (pull 2);;
  zoom (emit ("LM slsap=" +:+ fmt_02x slsap_sel +:+ " dlsap=" +:+ fmt_02x dlsap_sel +:+ " "));;
  if (slsap_sel =? 0x70) && (dlsap_sel =? 0x70) then
    b ← zoom (rd 0);
    let upid := Z.land b 0x7F in
    zoom (pull 1);;
    zoom (emit (" Ultra-PID=" +:+ fmt_02x upid +:+ " "));;
    if upid =? 0x01 then
      zoom (pull 1);;
      zoom (parse_obex obex_junk true)
    else mret tt
  else mret tt.
End irlmp.

(** ** Specification *)

(** what an LM-IAS query for a class and an attribute is remembered as *)
Definition query_of (name attr : list Z) : ias_query :=
  mkIas LSAP_ANY (has (upto0 attr) "TinyTP") (has (upto0 name) "OBEX")
    (has (upto0 name) "IrCOMM" || has (upto0 name) "IrLPT") (has (upto0 name) "IrNet").
Definition answered (lsap : Z) (q : ias_query) : ias_query :=
  mkIas lsap (ias_ttp q) (ias_obex q) (ias_ircomm q) (ias_irnet q).

Definition lm_text (slsap dlsap : Z) : string :=
  "LM slsap=" +:+ fmt_02x slsap +:+ " dlsap=" +:+ fmt_02x dlsap +:+ " ".
Definition query_text (name attr : list Z) : string :=
  "GET_VALUE_BY_CLASS: " +:+ quoted name +:+ quoted attr.

(** a GetValueByClass query, and its answer with an integer *)
Definition query_bytes (name attr : list Z) : list Z :=
  (IAP_LST + GET_VALUE_BY_CLASS) :: Z.of_nat (length name) :: name
  ++ Z.of_nat (length attr) :: attr.
Definition answer_bytes (obj v : Z) : list Z :=
  [IAP_LST + GET_VALUE_BY_CLASS; IAS_SUCCESS] ++ be16_bytes 1 ++ be16_bytes obj
  ++ [IAS_INTEGER] ++ be32_bytes v.

(** no entry of the table has the pair *)
Definition no_pair (slsap dlsap : Z) (c : conn_st) : Prop :=
  Forall (λ e, same_pair slsap dlsap e = false) (conn c).

(** the entry a connect makes of the remembered query *)
Definition opened (q : ias_query) (ca slsap dlsap : Z) (e : lsap_state) : lsap_state :=
  mkLsap true (ias_ttp q) (ias_obex q) (ias_ircomm q) (ias_irnet q)
    (saddr e) (daddr e) slsap dlsap ca.

(** ** Proofs *)
Lemma with_conn_frame c s : d_frame (with_conn c s) = d_frame s.
Proof. done. Qed.
Lemma printed_with_conn t c s : printed t (with_conn c s) = with_conn c (printed t s).
Proof. done. Qed.
Lemma stripped_with_conn n c s : stripped n (with_conn c s) = with_conn c (stripped n s).
Proof. done. Qed.
Lemma with_conn_twice c c' s : with_conn c (with_conn c' s) = with_conn c s.
Proof. done. Qed.
Lemma at_data_with_conn l c s : at_data l (with_conn c s) ↔ at_data l s.
Proof. done. Qed.
Lemma with_conn_self s : with_conn (d_conn s) s = s.
Proof. by destruct s. Qed.

Lemma rd_local_ok junk pre v post f n :
  length junk = 255%nat → (length v ≤ 254)%nat →
  holds (pre ++ v ++ post) f → n = Z.of_nat (length pre) →
  rd_local junk n (Z.of_nat (length v)) f = Ok (upto0 v, f).
Proof.
  intros Hj Hv Hh Hn. unfold rd_local.
  erewrite bind_ok by (by eapply rds_ok).
  destruct (afill_terminate junk v f) as [rest Hr]; [lia|].
  erewrite bind_ok by exact Hr. unfold or_stop. by rewrite cstr_upto0.
Qed.

Lemma rd_local_overflow junk pre v post f n :
  length junk = 255%nat → (255 ≤ length v)%nat →
  holds (pre ++ v ++ post) f → n = Z.of_nat (length pre) →
  rd_local junk n (Z.of_nat (length v)) f = Stop OobWrite.
Proof.
  intros Hj Hv Hh Hn. unfold rd_local.
  erewrite bind_ok by (by eapply rds_ok).
  apply bind_stop. apply afill_overflow. lia.
Qed.

Lemma zoom_frame_ret {A} (m : M frame A) (a : A) s :
  m (d_frame s) = Ok (a, d_frame s) → zoom m s = Ok (a, s).
Proof. intros H. erewrite zoom_ok by exact H. by destruct s as [[] ? ?]. Qed.

Lemma find_no_pair type s d c :
  conn_wf c → directed type no_pair s d c →
  directed type find_connection s d c
  = Ok (-1, mkConn (conn c) (-1) (last_ias c)).
Proof.
  assert (Hf : ∀ x y, conn_wf c → no_pair x y c →
    find_connection x y c = Ok (-1, mkConn (conn c) (-1) (last_ias c))).
  { intros x y Hwf Hn. destruct (find_law x y c Hwf) as (i & Hi & _ & [_ Hm] & _).
    rewrite Hi. by rewrite (Hm Hn). }
  unfold directed. destruct (truth type); apply Hf.
Qed.

Lemma with_ias_wf q s : conn_wf (d_conn s) → conn_wf (d_conn (with_ias q s)).
Proof. intros [Hl Hc]. by split. Qed.

Lemma no_pair_conn {type x y c c'} :
  directed type no_pair x y c → conn c' = conn c → directed type no_pair x y c'.
Proof.
  unfold directed, no_pair. intros Hp Hc. by destruct (truth type); rewrite Hc.
Qed.

Section specs.
Variable name_junk attr_junk string_junk obex_junk : list Z.
Variable cfg : config.
Hypothesis name_size : length name_junk = 255%nat.
Hypothesis attr_size : length attr_junk = 255%nat.

Local Abbreviation irlmp :=
  (parse_irlmp name_junk attr_junk string_junk obex_junk cfg).
Local Abbreviation data :=
  (irlmp_data name_junk attr_junk string_junk obex_junk cfg).

Lemma parse_iriap_command_spec c name attr rest s :
  at_data (query_bytes name attr ++ rest) s →
  (length name ≤ 254)%nat → (length attr ≤ 254)%nat →
  parse_iriap_command name_junk attr_junk c s
  = Ok (tt, with_ias (query_of name attr) (printed (query_text name attr) s)).
Proof.
  intros Hh Hn Ha. unfold parse_iriap_command, query_bytes in *.
  erewrite bind_ok by (by eapply zoom_rd). cbn zeta.
  change (iap_opcode (IAP_LST + GET_VALUE_BY_CLASS)) with 4.
  change ((4 =? GET_INFO_BASE) || (4 =? GET_VALUE_BY_CLASS)) with true. cbn iota.
  rewrite <- !app_comm_cons, <- app_assoc, <- app_comm_cons in Hh.
  erewrite bind_ok by (by eapply zoom_rd).
  erewrite bind_ok.
  2: { apply zoom_frame_ret. eapply rd_local_ok; [done|done| |].
       - rewrite app_comm_cons, <- (app_nil_l name) in Hh.
         exact (Hh : holds ([132; Z.of_nat (length name)] ++ name ++ _) _).
       - done. }
  erewrite bind_ok.
  2: { eapply zoom_rd; [exact Hh|].
       rewrite (app_comm_cons name _ (Z.of_nat (length name))), app_comm_cons.
       apply zlookup_app_mid. simpl. lia. }
  erewrite bind_ok.
  2: { apply zoom_frame_ret. eapply rd_local_ok; [done|done| |].
       - assert (Hh' : at_data (([132; Z.of_nat (length name)] ++ name
           ++ [Z.of_nat (length attr)]) ++ attr ++ rest) s)
           by (rewrite <- !app_assoc; exact Hh). exact Hh'.
       - rewrite !length_app. simpl. lia. }
  erewrite bind_ok by apply zoom_emit.
  erewrite zoom_ok by done. unfold query_text, quoted. by rewrite !str_app_assoc.
Qed.

Lemma parse_answer_spec c obj v rest s :
  at_data (answer_bytes obj v ++ rest) s → 0 ≤ obj < 65536 → 0 ≤ v < 4294967296 →
  2 ≤ avail s < 4294967296 →
  parse_iriap_response string_junk c s
  = Ok (tt, with_ias (answered (u8 v) (d_ias s)) (stripped 2
      (printed ("GET_VALUE_BY_CLASS: Success Integer: " +:+ fmt_02x v +:+ " ") s))).
Proof.
  intros Hh Ho Hv Hl. unfold parse_iriap_response.
  erewrite bind_ok by (by eapply zoom_rd).
  erewrite bind_ok by (by eapply zoom_rd).
  rewrite zoom_pull by lia.
  change (iap_opcode (IAP_LST + GET_VALUE_BY_CLASS)) with 4.
  change (4 =? GET_INFO_BASE) with false. change (4 =? GET_VALUE_BY_CLASS) with true.
  cbn iota. erewrite bind_ok by apply zoom_emit.
  change (IAS_SUCCESS =? IAS_SUCCESS) with true. cbn iota.
  erewrite bind_ok by apply zoom_emit. unfold parse_irias_value.
  unfold answer_bytes in Hh. rewrite <- !app_assoc in Hh. apply at_data_stripped in Hh.
  apply (at_data_printed _ "GET_VALUE_BY_CLASS: "),
    (at_data_printed _ "Success ") in Hh.
  erewrite bind_ok by (by apply (zoom_rds [] (be16_bytes 1) _ _ _ _ Hh)).
  erewrite bind_ok by (by apply (zoom_rds (be16_bytes 1) (be16_bytes obj) _ _ _ _ Hh)).
  erewrite bind_ok by (by apply (zoom_rd _ 4 IAS_INTEGER _ Hh)).
  change (IAS_INTEGER =? IAS_INTEGER) with true. cbn iota.
  erewrite bind_ok by (by apply (zoom_rds (be16_bytes 1 ++ be16_bytes obj ++ [IAS_INTEGER])
    (be32_bytes v) rest _ _ _ Hh)).
  unfold be32_bytes. rewrite be32_of_bytes by lia.
  erewrite bind_ok by apply zoom_emit. rewrite !printed_printed.
  unfold gets at 1, mbind at 1, M_bind at 1. erewrite zoom_ok by done.
  by rewrite stripped_printed.
Qed.

(** A control frame: its LM header, the opcode and a parameter. *)
Lemma parse_irlmp_control ca type cmd slsap dlsap ctrl rsvd rest s :
  at_data ((dlsap + 128) :: slsap :: ctrl :: rsvd :: rest) s → 0 ≤ dlsap < 128 →
  4 ≤ avail s < 4294967296 →
  irlmp ca type cmd s
  = irlmp_control cfg ca type ctrl slsap dlsap (stripped 4 (printed (lm_text slsap dlsap) s)).
Proof.
  intros Hh Hd Hl. unfold parse_irlmp.
  erewrite bind_ok by (by eapply zoom_rd).
  erewrite bind_ok by (by eapply zoom_rd).
  destruct (opcode_final dlsap true Hd) as [H1 H2]. change (128 * b2z true) with 128 in H1, H2.
  unfold LSAP_MASK, CONTROL_BIT, OBEX_FINAL in *. rewrite H1, H2. cbn zeta.
  rewrite zoom_pull by lia. erewrite bind_ok by apply zoom_emit.
  change (truth 128) with true. cbn iota.
  apply (at_data_stripped [_; _]) in Hh.
  erewrite bind_ok by (eapply zoom_rd; [exact Hh|done]).
  erewrite bind_ok by (eapply zoom_rd; [exact Hh|done]).
  rewrite zoom_pull by (rewrite avail_printed, avail_stripped; lia).
  by rewrite !stripped_printed, stripped_stripped.
Qed.

Lemma parse_irlmp_data ca type cmd slsap dlsap rest s :
  at_data (dlsap :: slsap :: rest) s → 0 ≤ dlsap < 128 →
  2 ≤ avail s < 4294967296 →
  irlmp ca type cmd s
  = data type slsap dlsap cmd (stripped 2 (printed (lm_text slsap dlsap) s)).
Proof.
  intros Hh Hd Hl. unfold parse_irlmp.
  erewrite bind_ok by (by eapply zoom_rd).
  erewrite bind_ok by (by eapply zoom_rd).
  destruct (opcode_final dlsap false Hd) as [H1 H2].
  change (128 * b2z false) with 0 in H1, H2. rewrite Z.add_0_r in H1, H2.
  unfold LSAP_MASK, CONTROL_BIT, OBEX_FINAL in *. rewrite H1, H2. cbn zeta.
  rewrite zoom_pull by lia. by erewrite bind_ok by apply zoom_emit.
Qed.

(** Data that no entry of the table claims: only the table's cache changes. *)
Lemma lookup_nothing {type x y} s :
  conn_wf (d_conn s) → directed type no_pair x y (d_conn s) →
  zoom (directed type find_connection x y) s
  = Ok (-1, with_conn (mkConn (conn (d_conn s)) (-1) (last_ias (d_conn s))) s).
Proof. intros Hwf Hn. by erewrite zoom_ok by (by apply find_no_pair). Qed.

(** The frame of an LM-IAS query. *)
Lemma irlmp_query ca type cmd c name attr rest s :
  at_data (0 :: c :: query_bytes name attr ++ rest) s →
  (length name ≤ 254)%nat → (length attr ≤ 254)%nat →
  2 ≤ avail s < 4294967296 → conn_wf (d_conn s) →
  directed type no_pair c 0 (d_conn s) →
  irlmp ca type cmd s
  = Ok (tt, with_conn (mkConn (conn (d_conn s)) (-1) (query_of name attr))
      (stripped 2 (printed (lm_text c 0 +:+ query_text name attr) s))).
Proof.
  intros Hh Hn Ha Hl Hwf Hp. rewrite (parse_irlmp_data _ _ _ c 0 _ _ Hh) by lia.
  apply (at_data_stripped [_; _]) in Hh.
  unfold irlmp_data. change (0 =? 0) with true. cbn iota.
  erewrite bind_ok by (eapply parse_iriap_command_spec; [exact Hh|done..]).
  erewrite bind_ok by (apply lookup_nothing; [by apply with_ias_wf|by eapply no_pair_conn]).
  change (negb (-1 =? -1)) with false. cbn iota. rewrite bind_ret_l.
  change (negb true && _ && _) with false. unfold when, mret, M_ret.
  do 2 f_equal. unfold with_ias. rewrite with_conn_twice. simpl. f_equal.
  by rewrite stripped_printed, printed_printed.
Qed.

(** The frame of the answer. *)
Lemma irlmp_answer ca type cmd c obj v rest s :
  at_data (c :: 0 :: answer_bytes obj v ++ rest) s → 0 < c < 128 →
  0 ≤ obj < 65536 → 0 ≤ v < 4294967296 →
  4 ≤ avail s < 4294967296 → conn_wf (d_conn s) →
  directed type no_pair 0 c (d_conn s) →
  irlmp ca type cmd s
  = Ok (tt, with_conn (mkConn (conn (d_conn s)) (-1) (answered (u8 v) (d_ias s)))
      (stripped 4 (printed (lm_text 0 c +:+ "GET_VALUE_BY_CLASS: Success Integer: "
        +:+ fmt_02x v +:+ " ") s))).
Proof.
  intros Hh Hc Ho Hv Hl Hwf Hp. rewrite (parse_irlmp_data _ _ _ 0 c _ _ Hh) by lia.
  apply (at_data_stripped [_; _]) in Hh.
  unfold irlmp_data. rewrite (proj2 (Z.eqb_neq c 0)) by lia.
  change (0 =? 0) with true. unfold when at 1. cbn iota.
  erewrite bind_ok by (eapply parse_answer_spec; [exact Hh|done|done|];
    rewrite avail_stripped, avail_printed; lia).
  erewrite bind_ok by (apply lookup_nothing; [by apply with_ias_wf|by eapply no_pair_conn]).
  change (negb (-1 =? -1)) with false. cbn iota. rewrite bind_ret_l.
  change (negb false && negb true && _) with false. unfold when, mret, M_ret.
  do 2 f_equal. unfold with_ias. rewrite with_conn_twice. simpl. f_equal.
  by rewrite !stripped_printed, printed_printed, stripped_stripped.
Qed.

(** The decoders above a connection, on a connect frame that holds at most a
    TinyTP header. *)
Definition conn_text (e : lsap_state) (credit : Z) : string :=
  (if ttp e then "TTP credits=" +:+ fmt_d credit +:+ " " else "")
  +:+ (if irnet e then "IrNET " else "").

Lemma parse_irttp_connect_spec credit rest s :
  at_data (credit :: rest) s → 0 ≤ credit < 128 → 1 ≤ avail s < 4294967296 →
  zoom parse_irttp_connect s
  = Ok (tt, stripped 1 (printed ("TTP credits=" +:+ fmt_d credit +:+ " ") s)).
Proof.
  intros Hh Hc Hl.
  destruct (opcode_final credit false Hc) as [H1 H2].
  change (128 * b2z false) with 0 in H1, H2. rewrite Z.add_0_r in H1, H2.
  unfold OBEX_FINAL in H2.
  apply zoom_frame_ok; [|done]. unfold parse_irttp_connect.
  erewrite bind_ok by (eapply rd_ok; [exact Hh|done]). rewrite H1.
  erewrite bind_ok by apply emit_ok.
  unfold tst. rewrite H2. cbn [Z.eqb negb when]. rewrite bind_ret_l.
  by erewrite bind_ok by (apply pull_ok; unfold avail in Hl; simpl; lia).
Qed.

Lemma connect_upper_spec e credit rest s :
  at_data (credit :: rest) s → 0 ≤ credit < 128 →
  avail s = b2z (ttp e) → avail s < 4294967296 →
  connect_upper e s
  = Ok (tt, stripped (avail s) (printed (conn_text e credit) s)).
Proof.
  intros Hh Hc Ha Hl. unfold connect_upper.
  erewrite (bind_ok _ _ _ _ (stripped (avail s) (printed
    (if ttp e then "TTP credits=" +:+ fmt_d credit +:+ " " else "") s))).
  2: { destruct (ttp e); cbn [when b2z] in *.
       - rewrite Ha. by eapply parse_irttp_connect_spec; [exact Hh|done|lia].
       - by rewrite Ha, printed_nil, stripped_0. }
  erewrite bind_ok.
  2: { destruct (ircomm e); cbn [when]; [|done]. apply zoom_frame_ret.
       unfold parse_ircomm_connect, parse_ircomm_ttp, buf_len, gets, mbind, M_bind.
       by rewrite (proj2 (Z.eqb_eq _ _))
         by (unfold g_netbuf_get_len, avail in *; simpl in *; lia). }
  unfold conn_text. destruct (irnet e); cbn [when].
  - unfold parse_irnet. rewrite zoom_emit. by rewrite !stripped_printed, printed_printed.
  - by rewrite str_app_nil_r.
Qed.

(** The frame of a connect request to the service the last query found. *)
Lemma irlmp_connect ca type cmd c L rsvd credit rest s i e :
  at_data ((L + 128) :: c :: CONNECT_CMD :: rsvd :: credit :: rest) s →
  0 ≤ L < 128 → L = ias_lsap_sel (d_ias s) → 0 ≤ credit < 128 →
  avail s = 4 + b2z (ias_ttp (d_ias s)) → conn_wf (d_conn s) →
  first_index (λ e, negb (valid e)) (conn (d_conn s)) = Z.of_nat i →
  conn (d_conn s) !! i = Some e →
  let e' := directed type (opened (d_ias s) ca) c L e in
  irlmp ca type cmd s
  = Ok (tt, with_conn (mkConn (<[i := e']> (conn (d_conn s)))
                         (conn_cache (d_conn s)) (last_ias (d_conn s)))
      (stripped (avail s) (printed (lm_text c L +:+ "CONN_CMD "
        +:+ conn_text e' credit) s))).
Proof.
  intros Hh HL Hlsap Hc Ha Hwf Hfree He e'.
  assert (Hb : 0 ≤ b2z (ias_ttp (d_ias s)) ≤ 1) by (destruct (ias_ttp (d_ias s)); simpl; lia).
  rewrite (parse_irlmp_control _ _ _ c L CONNECT_CMD rsvd _ _ Hh) by lia.
  apply (at_data_stripped [_; _; _; _]) in Hh.
  unfold irlmp_control. change (CONNECT_CMD =? CONNECT_CMD) with true. cbn iota.
  unfold irlmp_connect_cmd. erewrite bind_ok by apply zoom_emit.
  unfold gets at 1, mbind at 1, M_bind at 1.
  rewrite (proj2 (Z.eqb_eq L _)) by exact Hlsap.
  set (s1 := printed "CONN_CMD " (stripped 4 (printed (lm_text c L) s))).
  set (tab := mkConn (<[i := e']> (conn (d_conn s))) (conn_cache (d_conn s))
    (last_ias (d_conn s))).
  assert (Hopen : ∀ x y, open_connection ca x y (d_conn s)
    = Ok (Z.of_nat i, mkConn (<[i := opened (d_ias s) ca x y e]> (conn (d_conn s)))
        (conn_cache (d_conn s)) (last_ias (d_conn s)))).
  { intros x y. rewrite open_connection_spec by done. rewrite Hfree. cbn zeta.
    rewrite (proj2 (Z.eqb_neq _ _)) by lia. by rewrite Nat2Z.id, He. }
  erewrite (bind_ok _ _ s1 (Z.of_nat i) (with_conn tab s1)).
  2: { unfold tab, e', directed. by destruct (truth type); erewrite zoom_ok by apply Hopen. }
  rewrite (proj2 (Z.eqb_neq (Z.of_nat i) (-1))) by lia.
  assert (Hi : (i < length (conn (d_conn s)))%nat) by (by eapply lookup_lt_Some).
  erewrite (bind_ok _ _ _ e' (with_conn tab s1)).
  2: { erewrite zoom_ok; [done|]. apply conn_at_ok; [lia|]. simpl.
       by rewrite Nat2Z.id, list_lookup_insert_eq by done. }
  erewrite connect_upper_spec; [|exact Hh|done| |].
  - rewrite printed_with_conn, stripped_with_conn. do 2 f_equal. unfold tab. f_equal.
    replace (avail (with_conn _ s1)) with (avail s - 4) by done. unfold s1.
    rewrite !stripped_printed, !printed_printed, stripped_stripped.
    replace (4 + (avail s - 4)) with (avail s) by lia. done.
  - simpl. unfold e', directed. destruct (truth type); simpl; unfold avail in *; simpl; lia.
  - unfold avail in *. simpl. lia.
Qed.

(** Data on a connection: the entry of the pair is found. *)
Lemma lookup_unique {type x y} s j e :
  conn_wf (d_conn s) → conn (d_conn s) !! j = Some e →
  directed type same_pair x y e = true →
  (∀ k e', conn (d_conn s) !! k = Some e' → directed type same_pair x y e' = true → k = j) →
  zoom (directed type find_connection x y) s
  = Ok (Z.of_nat j, with_conn (mkConn (conn (d_conn s)) (Z.of_nat j) (last_ias (d_conn s))) s).
Proof.
  intros Hwf He Hp Hu.
  assert (Hf : ∀ a b, same_pair a b e = true →
    (∀ k e', conn (d_conn s) !! k = Some e' → same_pair a b e' = true → k = j) →
    find_connection a b (d_conn s)
    = Ok (Z.of_nat j, mkConn (conn (d_conn s)) (Z.of_nat j) (last_ias (d_conn s)))).
  { intros a b Hab Huab. destruct (find_law a b (d_conn s) Hwf) as (i & Hi & Hr & Hn & Hs).
    rewrite Hi. cut (i = Z.of_nat j); [by intros ->|].
    destruct (decide (i = -1)) as [Hm|Hm].
    - apply Hn in Hm. rewrite Forall_lookup in Hm. by rewrite (Hm _ _ He) in Hab.
    - destruct (lookup_lt_is_Some_2 (conn (d_conn s)) (Z.to_nat i)) as [e' He'].
      { rewrite (conn_size _ Hwf). unfold MAX_CONNECTIONS in Hr. lia. }
      rewrite <- (Huab _ _ He') by (apply Hs; [lia|done]). lia. }
  unfold directed in *. destruct (truth type); by erewrite zoom_ok by (by apply Hf).
Qed.

Definition ttp_text (b : Z) : string :=
  "TTP credits=" +:+ fmt_d (Z.land b 0x7f) +:+ " " +:+ (if tst b 0x80 then "More " else "").

Lemma parse_irttp_spec b rest s :
  at_data (b :: rest) s → 1 ≤ avail s < 4294967296 →
  zoom parse_irttp s = Ok (tt, stripped 1 (printed (ttp_text b) s)).
Proof.
  intros Hh Hl. apply zoom_frame_ok; [|done]. unfold parse_irttp.
  erewrite bind_ok by (eapply rd_ok; [exact Hh|done]). emits.
  erewrite bind_ok by (apply pull_ok; unfold avail in Hl; simpl; lia).
  unfold ttp_text. by rewrite !str_app_assoc.
Qed.

Lemma irlmp_data_on ca type cmd d c rest s j e :
  at_data (d :: c :: rest) s → 0 < d < 128 → 0 < c → 2 ≤ avail s < 4294967296 →
  conn_wf (d_conn s) → conn (d_conn s) !! j = Some e →
  directed type same_pair c d e = true →
  (∀ k e', conn (d_conn s) !! k = Some e' → directed type same_pair c d e' = true → k = j) →
  irlmp ca type cmd s
  = data_upper obex_junk cmd e (with_conn (mkConn (conn (d_conn s)) (Z.of_nat j)
      (last_ias (d_conn s))) (stripped 2 (printed (lm_text c d) s))).
Proof.
  intros Hh Hd Hc Hl Hwf He Hp Hu.
  rewrite (parse_irlmp_data _ _ _ c d _ _ Hh) by lia.
  unfold irlmp_data. rewrite (proj2 (Z.eqb_neq d 0)), (proj2 (Z.eqb_neq c 0)) by lia.
  cbn [when negb andb]. rewrite bind_ret_l.
  erewrite bind_ok by (eapply lookup_unique; [exact Hwf|exact He|exact Hp|exact Hu]).
  rewrite (proj2 (Z.eqb_neq (Z.of_nat j) (-1))) by lia. cbn [negb].
  rewrite bind_assoc.
  erewrite bind_ok.
  2: { erewrite zoom_ok; [done|]. apply conn_at_ok; [lia|]. simpl. by rewrite Nat2Z.id. }
  cbn [when]. unfold mbind at 1, M_bind at 1.
  match goal with |- match _ ?x with _ => _ end = _ ?y =>
    change x with y; by destruct (data_upper obex_junk cmd e y) as [[[] ?]|] end.
Qed.


(** C6: a service session.  A GetValueByClass query for a class and an
    attribute, its answer with an LSAP selector, and a connect to that selector
    open the first free entry of the table, with the LSAP pair oriented by the
    direction of the connect and with the TinyTP, OBEX, IrCOMM and IrNET flags
    that the names in the query call for.  The frames are decoded one after
    the other, each from a buffer of its own. *)
Theorem ias_session ca t1 t2 t3 cmd1 cmd2 cmd3 c L obj name attr rsvd credit
    r1 r2 r3 s0 s1' s1 s2' s2 i e :
  (* the query, from the client [c] to the LM-IAS *)
  at_data (0 :: c :: query_bytes name attr ++ r1) s0 →
  (length name ≤ 254)%nat → (length attr ≤ 254)%nat → 2 ≤ avail s0 < 4294967296 →
  irlmp ca t1 cmd1 s0 = Ok (tt, s1') →
  (* the answer: an integer, the selector [L] *)
  d_conn s1 = d_conn s1' →
  at_data (c :: 0 :: answer_bytes obj L ++ r2) s1 → 4 ≤ avail s1 < 4294967296 →
  irlmp ca t2 cmd2 s1 = Ok (tt, s2') →
  (* the connect from [c] to [L] *)
  d_conn s2 = d_conn s2' →
  at_data ((L + 128) :: c :: CONNECT_CMD :: rsvd :: credit :: r3) s2 →
  avail s2 = 4 + b2z (ias_ttp (query_of name attr)) → 0 ≤ credit < 128 →
  (* selectors, and a table with a free entry and no stale pair *)
  0 < c < 128 → 0 ≤ L < 128 → 0 ≤ obj < 65536 → conn_wf (d_conn s0) →
  directed t1 no_pair c 0 (d_conn s0) → directed t2 no_pair 0 c (d_conn s0) →
  first_index (λ e, negb (valid e)) (conn (d_conn s0)) = Z.of_nat i →
  conn (d_conn s0) !! i = Some e →
  let q := answered L (query_of name attr) in
  ∃ s3, irlmp ca t3 cmd3 s2 = Ok (tt, s3) ∧
    d_conn s3 = mkConn (<[i := directed t3 (opened q ca) c L e]> (conn (d_conn s0))) (-1) q.
Proof.
  intros H0 Hn Ha Hl0 Hr1 Hc1 H1 Hl1 Hr2 Hc2 H2 Hl2 Hcr Hc HL Ho Hwf Hp1 Hp2 Hfree He q.
  rewrite (irlmp_query _ _ _ c name attr r1 s0) in Hr1 by done. injection Hr1 as <-.
  simpl in Hc1. assert (Hwf1 : conn_wf (d_conn s1)).
  { rewrite Hc1. destruct Hwf. by split. }
  rewrite (irlmp_answer _ _ _ c obj L r2 s1) in Hr2; [|done|lia|done|lia|done|done|].
  2: { eapply no_pair_conn; [exact Hp2|]. by rewrite Hc1. }
  injection Hr2 as <-. unfold d_ias in Hc2. rewrite u8_small in Hc2 by lia.
  rewrite Hc1 in Hc2. simpl in Hc2.
  assert (Hq : d_ias s2 = q) by (unfold d_ias; by rewrite Hc2).
  eexists. split.
  - eapply (irlmp_connect _ _ _ c L rsvd credit r3 s2 i e); try done.
    + by rewrite Hq.
    + by rewrite Hq.
    + rewrite Hc2. destruct Hwf. by split.
    + by rewrite Hc2.
    + by rewrite Hc2.
  - rewrite Hq, Hc2. simpl. by rewrite <- Hq; unfold d_ias; rewrite Hc2.
Qed.
End specs.

(** a class name of 255 bytes (the field allows it) makes the decoder
    write one byte past the end of [char name[255]]. *)
Theorem parse_iriap_command_overflow name_junk attr_junk c op name rest s :
  length name_junk = 255%nat → length name = 255%nat →
  at_data (op :: Z.of_nat (length name) :: name ++ rest) s →
  iap_opcode op = GET_VALUE_BY_CLASS →
  parse_iriap_command name_junk attr_junk c s = Stop OobWrite.
Proof.
  intros Hj Hn Hh Hop. unfold parse_iriap_command.
  erewrite bind_ok by (by eapply zoom_rd). cbn zeta. rewrite Hop.
  change ((GET_VALUE_BY_CLASS =? GET_INFO_BASE)
    || (GET_VALUE_BY_CLASS =? GET_VALUE_BY_CLASS)) with true. cbn iota.
  erewrite bind_ok by (by eapply zoom_rd).
  apply bind_stop, zoom_stop.
  eapply (rd_local_overflow name_junk [op; Z.of_nat (length name)]); [done|lia| |done].
  exact Hh.
Qed.

(** ** Termination *)
Lemma rd_local_terminates junk n len : terminating (rd_local junk n len).
Proof. unfold rd_local, afill, aset. no_fuel. Qed.
#[export] Hint Resolve rd_local_terminates : fuel.

Lemma conn_at_terminates i : terminating (conn_at i).
Proof. unfold conn_at. no_fuel. Qed.
Lemma conn_set_terminates i e : terminating (conn_set i e).
Proof. unfold conn_set. no_fuel. Qed.
#[export] Hint Resolve conn_at_terminates conn_set_terminates : fuel.
Lemma first_conn_terminates p n i : terminating (first_conn p n i).
Proof. revert i. induction n as [|n IH]; intros i; cbn [first_conn]; no_fuel. Qed.
#[export] Hint Resolve first_conn_terminates : fuel.
Lemma find_connection_terminates s d : terminating (find_connection s d).
Proof. unfold find_connection, set_cache. no_fuel. Qed.
#[export] Hint Resolve find_connection_terminates : fuel.
Lemma table_terminates ca s d :
  terminating (open_connection ca s d) ∧ terminating (close_connection s d).
Proof.
  unfold open_connection, close_connection, find_free_connection. split; no_fuel.
Qed.
Lemma garbage_connection_terminates ca : terminating (garbage_connection ca).
Proof.
  unfold garbage_connection. generalize (Z.to_nat MAX_CONNECTIONS) 0.
  intros n. induction n as [|n IH]; intros i; cbn [garbage_loop]; no_fuel.
Qed.
#[export] Hint Resolve garbage_connection_terminates : fuel.
Lemma directed_terminates type s d ca :
  terminating (directed type find_connection s d) ∧
  terminating (directed type (open_connection ca) s d) ∧
  terminating (directed type close_connection s d).
Proof.
  unfold directed. split_and!; destruct (truth type);
    by eauto with fuel || apply table_terminates.
Qed.
#[export] Hint Extern 1 (terminating (directed _ _ _ _)) =>
  solve [apply (directed_terminates _ _ _ 0) | apply directed_terminates] : fuel.
#[export] Hint Extern 1 (terminating (set_ias _)) => done : fuel.

Lemma parse_irlmp_terminates nj aj sj oj cfg ca type cmd :
  terminating (parse_irlmp nj aj sj oj cfg ca type cmd).
Proof.
  unfold parse_irlmp, irlmp_data, irlmp_control, irlmp_connect_cmd, irlmp_connect_rsp,
    irlmp_disconnect, parse_iriap_command, parse_iriap_response, parse_irias_value,
    connect_upper, data_upper, parse_irttp, parse_irttp_connect, parse_irnet,
    parse_ircomm_connect, parse_ircomm_lmp.
  no_fuel.
Qed.
Lemma parse_ui_irlmp_terminates oj type : terminating (parse_ui_irlmp oj type).
Proof. unfold parse_ui_irlmp. no_fuel. Qed.
#[export] Hint Resolve parse_irlmp_terminates parse_ui_irlmp_terminates : fuel.

(** ** Witnesses *)
Definition test_junk : list Z := replicate 255 204.
Definition test_config : config := mkConfig true true true false.
Definition test_dump (l : list Z) (c : conn_st) : dump :=
  mkDump (mkObex (test_frame l) 0xff) c (mkCtr 0 0 0 0).
Definition obex_name : list Z := bytes_of_str "OBEX".
Definition obex_attr : list Z := bytes_of_str "IrDA:TinyTP:LsapSel".

Lemma test_dump_at l c : Forall is_byte l → at_data l (test_dump l c).
Proof. apply test_frame_holds. Qed.

(** decides that a concrete list holds bytes *)
Lemma all_bytes_check l : forallb (λ b, (0 <=? b) && (b <? 256)) l = true → Forall is_byte l.
Proof.
  intros H. rewrite forallb_forall in H. apply Forall_forall. intros b Hb.
  apply list_elem_of_In, H in Hb. unfold is_byte. lia.
Qed.

Definition session_1 := test_dump (0 :: 5 :: query_bytes obex_name obex_attr) conn_start.
Definition session_2 := test_dump (5 :: 0 :: answer_bytes 1 3)
  (mkConn (conn conn_start) (-1) (query_of obex_name obex_attr)).
Definition session_3 := test_dump [3 + 128; 5; CONNECT_CMD; 0; 7]
  (mkConn (conn conn_start) (-1) (answered 3 (query_of obex_name obex_attr))).

Lemma ias_session_witness :
  ∃ s3, parse_irlmp test_junk test_junk test_junk test_junk test_config 1 1 true session_3
    = Ok (tt, s3) ∧
    conn (d_conn s3)
    = mkLsap true true true false false 0 0 5 3 1 :: replicate 14 no_lsap.
Proof.
  edestruct (ias_session test_junk test_junk test_junk test_junk test_config
    eq_refl eq_refl 1 1 0 1 true false true 5 3 1 obex_name obex_attr 0 7 [] [] []
    session_1) with (s1 := session_2) (s2 := session_3) (i := 0%nat) (e := no_lsap)
    as (s3 & H3 & Hc); [..|exists s3; split; [exact H3|rewrite Hc; by vm_compute]].
  - apply test_dump_at. by apply all_bytes_check.
  - by vm_compute; repeat constructor.
  - by vm_compute; repeat constructor.
  - by vm_compute.
  - vm_compute. reflexivity.
  - vm_compute. reflexivity.
  - apply test_dump_at. by apply all_bytes_check.
  - by vm_compute.
  - vm_compute. reflexivity.
  - vm_compute. reflexivity.
  - apply test_dump_at. by apply all_bytes_check.
  - by vm_compute.
  - done.
  - done.
  - done.
  - done.
  - apply conn_start_wf.
  - by repeat constructor.
  - by repeat constructor.
  - reflexivity.
  - reflexivity.
Defined.

(** The packet of the OBEX example, on the connection the session opened. *)
Definition open_table : conn_st :=
  mkConn (mkLsap true true true false false 0 0 5 3 1 :: replicate 14 no_lsap) (-1) no_ias.
Definition obex_data : dump :=
  test_dump (3 :: 5 :: 7 :: pdu_bytes true example_put) open_table.

Lemma open_table_pair k e :
  conn open_table !! k = Some e → same_pair 5 3 e = true → k = 0%nat.
Proof.
  destruct k as [|k]; [done|]. simpl. intros Hk Hp.
  apply (lookup_replicate_1 14) in Hk as [-> _]. done.
Qed.


Lemma parse_iriap_command_overflow_witness :
  parse_iriap_command test_junk test_junk 5
    (test_dump (0x84 :: 255 :: replicate 255 65) conn_start) = Stop OobWrite.
Proof.
  apply (parse_iriap_command_overflow test_junk test_junk 5 0x84 (replicate 255 65) []);
    try done.
  apply test_dump_at. by apply all_bytes_check.
Defined.
