(* ===== verification/IrLAP.v ===== *)
(** * IrLAP frames: irdadump/irlap.c

    One decoder per frame type and the dispatcher [parse_irlap_frame], with the
    sequence counters that report lost and repeated frames. *)
From Stdlib Require Import String.
From S2P Require Import Prelude CInt Printf NetBuf Frame LapParams Obex Conn Dump IrLMP.
Local Open Scope string_scope.
Local Open Scope list_scope.
Local Open Scope Z_scope.

(** irdadump.h *)
Definition SNRM_CMD := 0x83.
Definition DISC_CMD := 0x43.
Definition XID_CMD := 0x2f.
Definition TEST_CMD := 0xe3.
Definition UA_RSP := 0x63.
Definition FRMR_RSP := 0x87.
Definition DM_RSP := 0x0f.
Definition XID_RSP := 0xaf.
Definition RR := 0x01.
Definition REJ := 0x09.
Definition RNR := 0x05.
Definition SREJ := 0x0d.
Definition UI_FRAME := 0x03.
Definition CMD_FRAME := 0x01.
Definition PF_BIT := 0x10.
Definition CBROADCAST := 0xfe.

(** [GINT32_FROM_LE(frame->field)], the field at offset [n] *)
Definition rd_le32 (n : Z) : M frame Z :=
  bs ← rds n 4;
  match bs with
  | [a; b; c; d] => mret (le32 a b c d)
  | _ => halt OobRead
  end.

Definition cmd_name (cmd : Z) : string := if truth cmd then "cmd" else "rsp".
Definition arrow (type : Z) : string := if truth type then ">" else "<".

(** [switch(frame->flags)]: the number of slots *)
Definition xid_slots (flags : Z) : Z :=
  if flags =? 0x00 then 1
  else if flags =? 0x01 then 6
  else if flags =? 0x02 then 8
  else if flags =? 0x03 then 16
  else 0.

Definition parse_xid_frame (command pf type : Z) : M frame unit :=
  saddr ← rd_le32 3;
  daddr ← rd_le32 7;
  flags ← rd 11;
  s ← rd 12;
  let S := xid_slots flags in
  (* [info]: the offset of the device name, with the hint bits *)
  info ← (if (s =? 0xff) || negb (truth command) then
            hint0 ← rd 14;
            r ← (if tst hint0 0x80 then hint1 ← rd 15; mret (17, hint1) else mret (16, 0));
            len ← buf_len;
            wr len 0;;
            mret (Some (fst r, hint0, snd r))
          else mret None);
  (if truth type then
     emit ("xid:" +:+ cmd_name command +:+ " " +:+ fmt_08x saddr +:+ " > "
       +:+ fmt_08x daddr +:+ " S=" +:+ fmt_d S +:+ " ")
   else
     emit ("xid:" +:+ cmd_name command +:+ " " +:+ fmt_08x daddr +:+ " < "
       +:+ fmt_08x saddr +:+ " S=" +:+ fmt_d S +:+ " "));;
  (if s =? 0xff then emit "s=* " else emit ("s=" +:+ fmt_d s +:+ " "));;
  match info with
  | Some (off, hint0, hint1) =>
      name ← rd_cstr off;
      emit (str_of_bytes name +:+ " hint=" +:+ fmt_02x hint0 +:+ fmt_02x hint1 +:+ " ");;
      parse_hints hint0 hint1
  | None => mret tt
  end.

(** [** %d frame(s) lost ** ], when [nr] does not follow [ns] *)
Definition lost_count (ns nr : Z) : Z :=
  if nr <? ns + 1 then ns + 1 - nr else ns + 9 - nr.
Definition say_lost (ns nr : Z) : M frame unit :=
  when (negb (nr =? (ns + 1) mod 8))
    (emit ("** " +:+ fmt_d (lost_count ns nr) +:+ " frame(s) lost ** ")).

(** the [if (config_print_lost_frames)] of [parse_rr_frame] *)
Definition track_nr (type nr : Z) : M dump unit :=
  c ← gets d_ctr;
  if truth type then
    zoom (modify (λ c, mkCtr nr (self_ns c) (peer_nr c) (peer_ns c)));;
    zoom (say_lost (peer_ns c) nr)
  else
    zoom (modify (λ c, mkCtr (self_nr c) (self_ns c) nr (peer_ns c)));;
    zoom (say_lost (self_ns c) nr).

(** ... and of [parse_i_frame], which also follows [ns] *)
Definition track_ns (type ns : Z) : M dump unit :=
  c ← gets d_ctr;
  if truth type then
    zoom (when (negb (ns =? (self_ns c + 1) mod 8)) (emit "** retransmit ** "));;
    zoom (modify (λ c, mkCtr (self_nr c) ns (peer_nr c) (peer_ns c)))
  else
    zoom (when (negb (ns =? (peer_ns c + 1) mod 8)) (emit "** retransmit **"));;
    zoom (modify (λ c, mkCtr (self_nr c) (self_ns c) (peer_nr c) ns)).

(** [prefix:cmd > ca=%02x pf=%d ] with the separator of each frame type *)
Definition lap_text (prefix sep : string) (cmd type ca pf : Z) : string :=
  prefix +:+ cmd_name cmd +:+ sep +:+ arrow type +:+ " ca=" +:+ fmt_02x ca
  +:+ " pf=" +:+ fmt_d pf +:+ " ".
(** ... and with [ca=%#02x] *)
Definition lap_alt_text (prefix : string) (cmd type ca pf : Z) : string :=
  prefix +:+ cmd_name cmd +:+ " " +:+ arrow type +:+ " ca=" +:+ fmt_a02x ca
  +:+ " pf=" +:+ fmt_d pf +:+ " ".

Section irlap.
Variable name_junk attr_junk string_junk obex_junk : list Z.
Variable cfg : config.

Definition parse_i_frame (ca cmd pf type : Z) : M dump unit :=
  b ← zoom (rd 1);
  let nr := Z.shiftr b 5 in
  let ns := Z.land (Z.shiftr b 1) 0x07 in
  zoom (pull 2);;
  zoom (emit (lap_text "i:" "  " cmd type ca pf +:+ "nr=" +:+ fmt_d nr
    +:+ " ns=" +:+ fmt_d ns +:+ " "));;
  when (config_print_irlmp cfg)
    (parse_irlmp name_junk attr_junk string_junk obex_junk cfg ca type (truth cmd));;
  when (config_print_lost_frames cfg) (track_nr type nr;; track_ns type ns).

Definition parse_ui_frame (ca cmd pf type : Z) : M dump unit :=
  zoom (pull 2);;
  zoom (emit (lap_text "ui:" " " cmd type ca pf +:+ " "));;
  when (config_print_irlmp cfg) (parse_ui_irlmp obex_junk type).

(** the arguments of the format are in the order of the code: [ctrl] is
    printed as [pf], [nr] as [ctrl] and [pf] as [nr] *)
Definition parse_frmr_frame (ca cmd pf type : Z) : M frame unit :=
  ctrl ← rd 1;
  b ← rd 2;
  let nr := Z.shiftr b 5 in
  let ns := Z.land (Z.shiftr b 1) 0x07 in
  emit ("frmr:" +:+ cmd_name cmd +:+ "  " +:+ arrow type +:+ " ca=" +:+ fmt_02x ca
    +:+ " pf=" +:+ fmt_d ctrl +:+ " ctrl=" +:+ fmt_02x nr +:+ ", nr=" +:+ fmt_d pf
    +:+ " ns=" +:+ fmt_d ns +:+ " ").

(** the common part of [parse_rr_frame], [parse_rnr_frame], [parse_rej_frame]
    and [parse_srej_frame] *)
Definition supervisory_text (prefix : string) (ca cmd pf type nr : Z) : string :=
  lap_text prefix " " cmd type ca pf +:+ "nr=" +:+ fmt_d nr +:+ " ".

Definition parse_rr_frame (ca cmd pf type : Z) : M dump unit :=
  b ← zoom (rd 1);
  let nr := Z.shiftr b 5 in
  zoom (emit (supervisory_text "rr:" ca cmd pf type nr));;
  when (config_print_lost_frames cfg) (track_nr type nr).

Definition parse_rnr_frame (ca cmd pf type : Z) : M frame unit :=
  b ← rd 1; emit (supervisory_text "rnr:" ca cmd pf type (Z.shiftr b 5)).
Definition parse_rej_frame (ca cmd pf type : Z) : M frame unit :=
  b ← rd 1; emit (supervisory_text "rej:" ca cmd pf type (Z.shiftr b 5)).
Definition parse_srej_frame (ca cmd pf type : Z) : M frame unit :=
  b ← rd 1; emit (supervisory_text "srej:" ca cmd pf type (Z.shiftr b 5)).

(** the addresses in the order of their direction *)
Definition addr_text (type saddr daddr : Z) : string :=
  if truth type then fmt_08x saddr +:+ " > " +:+ fmt_08x daddr +:+ " "
  else fmt_08x daddr +:+ " < " +:+ fmt_08x saddr +:+ " ".

Definition parse_ua_frame (ca cmd pf type : Z) : M frame unit :=
  saddr ← rd_le32 2;
  daddr ← rd_le32 6;
  emit ("ua:" +:+ cmd_name cmd +:+ " ca=" +:+ fmt_02x ca +:+ " pf=" +:+ fmt_d pf
    +:+ " " +:+ addr_text type saddr daddr);;
  pull 10;;
  len ← buf_len;
  when (negb (len =? 0)) (parse_irlap_params len).

Definition parse_disc_frame (ca cmd pf type : Z) : M dump unit :=
  zoom (emit (lap_alt_text "disc:" cmd type ca pf));;
  zoom (garbage_connection ca).

Definition parse_dm_frame (ca cmd pf type : Z) : M frame unit :=
  emit (lap_alt_text "dm:" cmd type ca pf).
Definition parse_rd_frame (ca cmd pf type : Z) : M frame unit :=
  emit (lap_alt_text "rd:" cmd type ca pf).

Definition parse_test_frame (ca cmd pf type : Z) : M frame unit :=
  saddr ← rd_le32 2;
  daddr ← rd_le32 6;
  emit ("test:" +:+ cmd_name cmd +:+ " ca=" +:+ fmt_a02x ca +:+ " pf=" +:+ fmt_d pf
    +:+ " " +:+ fmt_08x saddr +:+ " " +:+ arrow type +:+ " " +:+ fmt_08x daddr +:+ " ").

Definition parse_snrm_frame (ca cmd pf type : Z) : M frame unit :=
  saddr ← rd_le32 2;
  daddr ← rd_le32 6;
  new_caddr ← rd 10;
  emit ("snrm:" +:+ cmd_name cmd +:+ " ca=" +:+ fmt_02x ca +:+ " pf=" +:+ fmt_d pf
    +:+ " " +:+ addr_text type saddr daddr +:+ "new-ca=" +:+ fmt_02x new_caddr +:+ " ");;
  pull 11;;
  len ← buf_len;
  when (negb (len =? 0)) (parse_irlap_params len).

Definition parse_rnrm_frame (ca cmd pf type : Z) : M frame unit :=
  saddr ← rd_le32 2;
  daddr ← rd_le32 6;
  emit ("snrm:" +:+ cmd_name cmd +:+ " ca=" +:+ fmt_02x ca +:+ " pf=" +:+ fmt_d pf
    +:+ " " +:+ fmt_08x saddr +:+ " " +:+ arrow type +:+ " " +:+ fmt_08x daddr +:+ " ").

(** the [switch (ctrl & 0x0f)] of the supervisory frames *)
Definition irlap_supervisory (ca cmd pf ctrl type : Z) : M dump unit :=
  let k := Z.land ctrl 0x0f in
  if k =? RR then parse_rr_frame ca cmd pf type
  else if k =? RNR then zoom (parse_rnr_frame ca cmd pf type)
  else if k =? REJ then zoom (parse_rej_frame ca cmd pf type)
  else if k =? SREJ then zoom (parse_srej_frame ca cmd pf type)
  else zoom (emit ("Unknown S frame " +:+ fmt_02x ctrl +:+ " received!" +:+ nl)).

(** the [switch (ctrl)] of the unnumbered frames *)
Definition irlap_unnumbered (ca cmd pf ctrl type : Z) : M dump unit :=
  if (ctrl =? XID_RSP) || (ctrl =? XID_CMD) then zoom (parse_xid_frame cmd pf type)
  else if ctrl =? SNRM_CMD then
    if truth cmd then zoom (parse_snrm_frame ca cmd pf type)
    else zoom (parse_rnrm_frame ca cmd pf type)
  else if ctrl =? DM_RSP then zoom (parse_dm_frame ca cmd pf type)
  else if ctrl =? DISC_CMD then
    if truth cmd then parse_disc_frame ca cmd pf type
    else zoom (parse_rd_frame ca cmd pf type)
  else if ctrl =? TEST_CMD then zoom (parse_test_frame ca cmd pf type)
  else if ctrl =? UA_RSP then zoom (parse_ua_frame ca cmd pf type)
  else if ctrl =? FRMR_RSP then zoom (parse_frmr_frame ca cmd pf type)
  else if ctrl =? UI_FRAME then parse_ui_frame ca cmd pf type
  else zoom (emit ("Unknown frame " +:+ fmt_02x ctrl +:+ " received!" +:+ nl)).

Definition parse_irlap_frame (type : Z) : M dump unit :=
  b0 ← zoom (rd 0);
  b1 ← zoom (rd 1);
  let cmd := Z.land b0 CMD_FRAME in
  let caddr := Z.land b0 CBROADCAST in
  let pf := Z.shiftr (Z.land b1 PF_BIT) 4 in
  let ctrl := Z.land b1 (Z.lxor 0xff PF_BIT) in
  if tst (Z.lnot ctrl) 0x01 then parse_i_frame caddr cmd pf type
  else if tst (Z.lnot ctrl) 0x02 then irlap_supervisory caddr cmd pf ctrl type
  else irlap_unnumbered caddr cmd pf ctrl type.

(** [memset(&conn, 0, sizeof(struct lsap_state))]: the first entry only *)
Definition irlap_init : M conn_st Z :=
  set_ias no_ias;;
  conn_set 0 no_lsap;;
  mret 1.
End irlap.

(** ** Termination: the whole decoder returns, or stops, on every frame *)
Lemma rd_le32_terminates n : terminating (rd_le32 n).
Proof. unfold rd_le32. no_fuel. Qed.
#[export] Hint Resolve rd_le32_terminates : fuel.

Lemma track_terminates type n :
  terminating (track_nr type n) ∧ terminating (track_ns type n).
Proof. unfold track_nr, track_ns, say_lost. split; no_fuel. Qed.

Lemma parse_i_frame_terminates nj aj sj oj cfg ca cmd pf type :
  terminating (parse_i_frame nj aj sj oj cfg ca cmd pf type).
Proof.
  unfold parse_i_frame. no_fuel; apply track_terminates.
Qed.
Lemma irlap_supervisory_terminates cfg ca cmd pf ctrl type :
  terminating (irlap_supervisory cfg ca cmd pf ctrl type).
Proof.
  unfold irlap_supervisory, parse_rr_frame, parse_rnr_frame, parse_rej_frame,
    parse_srej_frame. no_fuel; apply track_terminates.
Qed.
Lemma parse_xid_frame_terminates command pf type :
  terminating (parse_xid_frame command pf type).
Proof. unfold parse_xid_frame. no_fuel. Qed.
Lemma irlap_unnumbered_terminates oj cfg ca cmd pf ctrl type :
  terminating (irlap_unnumbered oj cfg ca cmd pf ctrl type).
Proof.
  unfold irlap_unnumbered, parse_snrm_frame, parse_rnrm_frame, parse_dm_frame,
    parse_disc_frame, parse_rd_frame, parse_test_frame, parse_ua_frame, parse_frmr_frame,
    parse_ui_frame.
  pose proof parse_xid_frame_terminates. no_fuel.
Qed.

Lemma parse_irlap_frame_ends nj aj sj oj cfg type :
  terminating (parse_irlap_frame nj aj sj oj cfg type).
Proof.
  unfold parse_irlap_frame.
  pose proof parse_i_frame_terminates. pose proof irlap_supervisory_terminates.
  pose proof irlap_unnumbered_terminates. no_fuel.
Qed.
#[export] Hint Resolve parse_irlap_frame_ends : fuel.

(** C11: whatever the bytes of the frame, the stack, the configuration and the
    state left by earlier frames, no loop of the decoders runs for ever: each
    of them ends within the bound that its model allows it. *)
Theorem parse_irlap_frame_terminates nj aj sj oj cfg type s :
  parse_irlap_frame nj aj sj oj cfg type s ≠ Stop OutOfFuel.
Proof. apply parse_irlap_frame_ends. Qed.

(** ** The connection table through a frame *)
(** The invariant of the decoders' state: the table's, and sequence numbers
    between 0 and 7. *)
Definition seq_ok (n : Z) : Prop := 0 ≤ n < 8.
Definition ctr_ok (c : counters) : Prop :=
  seq_ok (self_nr c) ∧ seq_ok (self_ns c) ∧ seq_ok (peer_nr c) ∧ seq_ok (peer_ns c).
Definition dump_wf (s : dump) : Prop := conn_wf (d_conn s) ∧ ctr_ok (d_ctr s).
Definition keeps_table {A} (m : M dump A) : Prop :=
  ∀ s a s', dump_wf s → m s = Ok (a, s') → dump_wf s'.

Create HintDb table.
Lemma table_ret {A} (a : A) : keeps_table (mret a).
Proof. by intros s ? s' Hwf [= _ <-]. Qed.
Lemma table_halt {A} w : keeps_table (halt (A:=A) w).
Proof. by intros s a s' _ [=]. Qed.
Lemma table_gets {A} (f : dump → A) : keeps_table (gets f).
Proof. by intros s a s' Hwf [= _ <-]. Qed.
Lemma table_bind {A B} (m : M dump A) (k : A → M dump B) :
  keeps_table m → (∀ a, keeps_table (k a)) → keeps_table (m ≫= k).
Proof.
  intros Hm Hk s b s' Hwf (a & s1 & H1 & H2)%bind_ok_inv.
  eapply Hk; [|exact H2]. by eapply Hm.
Qed.
Lemma table_bind_ok {A B} (m : M dump A) (Q : A → Prop) (k : A → M dump B) :
  keeps_table m → (∀ s a s', m s = Ok (a, s') → Q a) → (∀ a, Q a → keeps_table (k a)) →
  keeps_table (m ≫= k).
Proof.
  intros Hm HQ Hk s b s' Hwf (a & s1 & H1 & H2)%bind_ok_inv.
  eapply (Hk a (HQ _ _ _ H1)); [|exact H2]. by eapply Hm.
Qed.
Lemma table_when b m : keeps_table m → keeps_table (when b m).
Proof. intros Hm. destruct b; [done|apply table_ret]. Qed.
Lemma table_frame {A} (m : M frame A) : keeps_table (zoom m).
Proof.
  intros s a s' Hwf. unfold zoom. destruct (m _) as [[? ?]|]; [|done].
  by intros [= _ <-].
Qed.
Lemma table_obex {A} (m : M obex_st A) : keeps_table (zoom m).
Proof.
  intros s a s' Hwf. unfold zoom. destruct (m _) as [[? ?]|]; [|done].
  by intros [= _ <-].
Qed.
Lemma table_ctr (f : counters → counters) :
  (∀ c, ctr_ok c → ctr_ok (f c)) → keeps_table (zoom (modify f)).
Proof. intros Hf s a s' [Hwf Hc] [= _ <-]. split; [done|]. by apply Hf. Qed.
Lemma table_conn {A} (m : M conn_st A) :
  (∀ c a c', conn_wf c → m c = Ok (a, c') → conn_wf c') → keeps_table (zoom m).
Proof.
  intros Hm s a s' [Hwf Hc]. unfold zoom. destruct (m _) as [[? c]|] eqn:E; [|done].
  intros [= _ <-]. split; [by eapply Hm|done].
Qed.
Lemma table_op_conn o : keeps_table (zoom (run_table_op o)).
Proof.
  apply table_conn. intros c a c' Hwf H.
  destruct (run_table_op_wf o c Hwf) as (c1 & H1 & Hwf1).
  rewrite H1 in H. by injection H as _ <-.
Qed.
Lemma table_conn_at i : keeps_table (zoom (conn_at i)).
Proof.
  apply table_conn. intros c e c' Hwf. unfold conn_at, get, mbind, M_bind, or_stop.
  case_decide; [|done]. destruct (_ !! _); [|done]. by intros [= _ <-].
Qed.
Lemma table_find type s d : keeps_table (zoom (directed type find_connection s d)).
Proof.
  unfold directed. destruct (truth type); apply table_conn; intros c a c' Hwf H;
    by eapply find_connection_wf.
Qed.
Lemma table_open ca type s d :
  keeps_table (zoom (directed type (open_connection ca) s d)).
Proof.
  assert (Ho : ∀ x y, keeps_table (zoom (open_connection ca x y))).
  { intros x y. apply table_conn. intros c i c' Hwf H.
    destruct (run_table_op_wf (Open ca x y) c Hwf) as (c1 & H1 & Hwf1).
    cbn [run_table_op] in H1. rewrite (bind_ok _ _ _ _ _ H) in H1.
    by injection H1 as <-. }
  unfold directed. by destruct (truth type).
Qed.
Lemma table_close type s d : keeps_table (zoom (directed type close_connection s d)).
Proof.
  unfold directed. destruct (truth type).
  - exact (table_op_conn (Close s d)).
  - exact (table_op_conn (Close d s)).
Qed.
#[export] Hint Resolve table_ret table_halt table_gets table_frame table_obex
  table_conn_at table_find table_open table_close : table.
#[export] Hint Extern 1 (keeps_table (zoom (set_ias ?q))) =>
  exact (table_op_conn (Query q)) : table.
#[export] Hint Extern 1 (keeps_table (zoom (garbage_connection ?ca))) =>
  exact (table_op_conn (Garbage ca)) : table.

Ltac keeps_table :=
  repeat match goal with
  | |- ∀ _, keeps_table _ => intro
  | |- keeps_table (_ ≫= _) => apply table_bind; [|intro]
  | |- keeps_table (when _ _) => apply table_when
  | |- keeps_table (match ?x with _ => _ end) => destruct x
  | |- keeps_table _ => solve [auto 3 with table nocore]
  end.

Lemma parse_irlmp_keeps nj aj sj oj cfg ca type cmd :
  keeps_table (parse_irlmp nj aj sj oj cfg ca type cmd).
Proof.
  unfold parse_irlmp, irlmp_data, irlmp_control, irlmp_connect_cmd, irlmp_connect_rsp,
    irlmp_disconnect, parse_iriap_command, parse_iriap_response, parse_irias_value,
    connect_upper, data_upper.
  keeps_table.
Qed.
#[export] Hint Resolve parse_irlmp_keeps : table.

Lemma rd_seq n s b s' : zoom (rd n) s = Ok (b, s') → is_byte b.
Proof.
  unfold zoom. destruct (rd n (view s)) as [[v f]|] eqn:E; [|done].
  intros [= <- _]. by eapply rd_byte.
Qed.

Lemma seq_of_byte b : is_byte b →
  seq_ok (Z.shiftr b 5) ∧ seq_ok (Z.land (Z.shiftr b 1) 0x07).
Proof.
  intros Hb. pose proof (byte_forall (λ b, (0 <=? Z.shiftr b 5) && (Z.shiftr b 5 <? 8)
    && (0 <=? Z.land (Z.shiftr b 1) 0x07) && (Z.land (Z.shiftr b 1) 0x07 <? 8))
    eq_refl b Hb) as H. cbn beta in H. unfold seq_ok.
  rewrite !andb_true_iff in H. split; lia.
Qed.

Lemma track_keeps type n :
  seq_ok n → keeps_table (track_nr type n) ∧ keeps_table (track_ns type n).
Proof.
  intros Hn. unfold track_nr, track_ns.
  split; (apply table_bind; [apply table_gets|intros c0]); destruct (truth type);
    (apply table_bind; [|intros]); try apply table_frame; apply table_ctr;
    intros c (? & ? & ? & ?); by unfold ctr_ok.
Qed.

Lemma parse_i_frame_keeps nj aj sj oj cfg ca cmd pf type :
  keeps_table (parse_i_frame nj aj sj oj cfg ca cmd pf type).
Proof.
  unfold parse_i_frame. eapply table_bind_ok; [apply table_frame|apply rd_seq|].
  intros b [Hnr Hns]%seq_of_byte. cbn zeta.
  destruct (track_keeps type _ Hnr) as [H1 _]. destruct (track_keeps type _ Hns) as [_ H2].
  keeps_table; done.
Qed.

Lemma parse_rr_frame_keeps cfg ca cmd pf type :
  keeps_table (parse_rr_frame cfg ca cmd pf type).
Proof.
  unfold parse_rr_frame. eapply table_bind_ok; [apply table_frame|apply rd_seq|].
  intros b [Hnr Hns]%seq_of_byte. cbn zeta.
  destruct (track_keeps type _ Hnr) as [H1 _]. keeps_table; done.
Qed.
#[export] Hint Resolve parse_i_frame_keeps parse_rr_frame_keeps : table.

Lemma parse_irlap_frame_keeps nj aj sj oj cfg type :
  keeps_table (parse_irlap_frame nj aj sj oj cfg type).
Proof.
  unfold parse_irlap_frame, irlap_supervisory, irlap_unnumbered,
    parse_disc_frame, parse_ui_frame, parse_ui_irlmp.
  keeps_table.
Qed.

(** The states a run of the program reaches: [irlap_init] on the static
    storage, then frames of any contents, each decoded without undefined
    behaviour. *)
Inductive reach nj aj sj oj cfg : dump → Prop :=
  | reach_init o c :
      irlap_init conn_start = Ok (1, c) →
      reach nj aj sj oj cfg (mkDump o c (mkCtr 0 0 0 0))
  | reach_frame type f s s' :
      reach nj aj sj oj cfg s →
      parse_irlap_frame nj aj sj oj cfg type (with_frame f s) = Ok (tt, s') →
      reach nj aj sj oj cfg s'.

(** C12: in every state that a run reaches, whatever frames it decoded, the
    connection table has its 15 entries, the cache names an entry or none, and
    the sequence counters are between 0 and 7. *)
Theorem reach_wf nj aj sj oj cfg s : reach nj aj sj oj cfg s → dump_wf s.
Proof.
  induction 1 as [o c Hinit|type f s s' _ IH Hstep].
  - vm_compute in Hinit. injection Hinit as <-. split; [by split|].
    by repeat split.
  - eapply parse_irlap_frame_keeps; [|exact Hstep]. exact IH.
Qed.

(** ** Frames and their control field *)

(** A frame after its address byte: the fields that its control byte and its
    fixed part carry. *)
Inductive lap_pdu :=
  | Info (ns nr : Z)
  | ReceiveReady (nr : Z)
  | ReceiveNotReady (nr : Z)
  | Reject (nr : Z)
  | SelectiveReject (nr : Z)
  | Snrm (saddr daddr ncaddr : Z)
  | Rnrm (saddr daddr : Z)
  | Ua (saddr daddr : Z)
  | Test (saddr daddr : Z)
  | Disc
  | Rd
  | Dm
  | Ui
  | Frmr (ns nr : Z).

(** the control byte, the poll/final bit apart, and the fixed part *)
Definition pdu_ctrl (p : lap_pdu) : Z :=
  match p with
  | Info ns nr => nr * 32 + ns * 2
  | ReceiveReady nr => nr * 32 + RR
  | ReceiveNotReady nr => nr * 32 + RNR
  | Reject nr => nr * 32 + REJ
  | SelectiveReject nr => nr * 32 + SREJ
  | Snrm _ _ _ | Rnrm _ _ => SNRM_CMD
  | Ua _ _ => UA_RSP
  | Test _ _ => TEST_CMD
  | Disc | Rd => DISC_CMD
  | Dm => DM_RSP
  | Ui => UI_FRAME
  | Frmr _ _ => FRMR_RSP
  end.
Definition pdu_fixed (p : lap_pdu) : list Z :=
  match p with
  | Snrm saddr daddr ncaddr => le32_bytes saddr ++ le32_bytes daddr ++ [ncaddr]
  | Rnrm saddr daddr | Ua saddr daddr | Test saddr daddr =>
      le32_bytes saddr ++ le32_bytes daddr
  | Frmr ns nr => [nr * 32 + ns * 2]
  | _ => []
  end.
Definition lap_bytes (ca cmd pf : Z) (p : lap_pdu) : list Z :=
  (ca + cmd) :: (pdu_ctrl p + 16 * pf) :: pdu_fixed p.

Definition pdu_valid (cmd : Z) (p : lap_pdu) : Prop :=
  match p with
  | Info ns nr | Frmr ns nr => 0 ≤ ns < 8 ∧ 0 ≤ nr < 8
  | ReceiveReady nr | ReceiveNotReady nr | Reject nr | SelectiveReject nr => 0 ≤ nr < 8
  | Snrm saddr daddr ncaddr =>
      0 ≤ saddr < 4294967296 ∧ 0 ≤ daddr < 4294967296 ∧ cmd = 1
  | Rnrm saddr daddr => 0 ≤ saddr < 4294967296 ∧ 0 ≤ daddr < 4294967296 ∧ cmd = 0
  | Ua saddr daddr | Test saddr daddr => 0 ≤ saddr < 4294967296 ∧ 0 ≤ daddr < 4294967296
  | Disc => cmd = 1
  | Rd => cmd = 0
  | Dm | Ui => True
  end.

(** what is printed of the header *)
Definition lap_pdu_text (ca cmd pf type : Z) (p : lap_pdu) : string :=
  let addressed name t := name +:+ cmd_name cmd +:+ " ca=" +:+ fmt_02x ca +:+ " pf="
    +:+ fmt_d pf +:+ " " +:+ t in
  match p with
  | Info ns nr => lap_text "i:" "  " cmd type ca pf +:+ "nr=" +:+ fmt_d nr
      +:+ " ns=" +:+ fmt_d ns +:+ " "
  | ReceiveReady nr => supervisory_text "rr:" ca cmd pf type nr
  | ReceiveNotReady nr => supervisory_text "rnr:" ca cmd pf type nr
  | Reject nr => supervisory_text "rej:" ca cmd pf type nr
  | SelectiveReject nr => supervisory_text "srej:" ca cmd pf type nr
  | Snrm saddr daddr ncaddr =>
      addressed "snrm:" (addr_text type saddr daddr +:+ "new-ca=" +:+ fmt_02x ncaddr +:+ " ")
  | Rnrm saddr daddr =>
      addressed "snrm:" (fmt_08x saddr +:+ " " +:+ arrow type +:+ " " +:+ fmt_08x daddr +:+ " ")
  | Ua saddr daddr => addressed "ua:" (addr_text type saddr daddr)
  | Test saddr daddr => "test:" +:+ cmd_name cmd +:+ " ca=" +:+ fmt_a02x ca +:+ " pf="
      +:+ fmt_d pf +:+ " " +:+ fmt_08x saddr +:+ " " +:+ arrow type +:+ " "
      +:+ fmt_08x daddr +:+ " "
  | Disc => lap_alt_text "disc:" cmd type ca pf
  | Rd => lap_alt_text "rd:" cmd type ca pf
  | Dm => lap_alt_text "dm:" cmd type ca pf
  | Ui => lap_text "ui:" " " cmd type ca pf +:+ " "
  (* printed as pf, ctrl and nr: the control byte, nr and the poll/final bit *)
  | Frmr ns nr => "frmr:" +:+ cmd_name cmd +:+ "  " +:+ arrow type +:+ " ca=" +:+ fmt_02x ca
      +:+ " pf=" +:+ fmt_d (FRMR_RSP + 16 * pf) +:+ " ctrl=" +:+ fmt_02x nr
      +:+ ", nr=" +:+ fmt_d pf +:+ " ns=" +:+ fmt_d ns +:+ " "
  end.

(** how much of the buffer the header takes *)
Definition lap_pdu_strip (p : lap_pdu) : Z :=
  match p with
  | Info _ _ | Ui => 2
  | Snrm _ _ _ => 11
  | Ua _ _ => 10
  | _ => 0
  end.

(** what follows the header *)
Definition lap_pdu_rest nj aj sj oj cfg (ca cmd type : Z) (p : lap_pdu) : M dump unit :=
  match p with
  | Info ns nr =>
      when (config_print_irlmp cfg) (parse_irlmp nj aj sj oj cfg ca type (truth cmd));;
      when (config_print_lost_frames cfg) (track_nr type nr;; track_ns type ns)
  | ReceiveReady nr => when (config_print_lost_frames cfg) (track_nr type nr)
  | Snrm _ _ _ | Ua _ _ =>
      zoom (len ← buf_len; when (negb (len =? 0)) (parse_irlap_params len))
  | Disc => zoom (garbage_connection ca)
  | Ui => when (config_print_irlmp cfg) (parse_ui_irlmp oj type)
  | _ => mret tt
  end.

Lemma address_byte ca cmd :
  0 ≤ ca < 256 → ca mod 2 = 0 → cmd = 0 ∨ cmd = 1 →
  Z.land (ca + cmd) CMD_FRAME = cmd ∧ Z.land (ca + cmd) CBROADCAST = ca.
Proof.
  intros Hca He Hcmd.
  pose proof (byte_forall (λ b, (Z.land b CMD_FRAME =? b mod 2)
    && (Z.land b CBROADCAST =? 2 * (b / 2))) eq_refl (ca + cmd)
    ltac:(unfold is_byte; Z.to_euclidean_division_equations; lia)) as H.
  apply andb_true_iff in H as [->%Z.eqb_eq ->%Z.eqb_eq].
  split; Z.to_euclidean_division_equations; lia.
Qed.

(** the fields of a control byte, as arithmetic *)
Definition ctrl_facts (b : Z) : bool :=
  (Z.shiftr (Z.land b PF_BIT) 4 =? (b / 16) mod 2)
  && (Z.land b (Z.lxor 0xff PF_BIT) =? b - 16 * ((b / 16) mod 2))
  && (Z.shiftr b 5 =? b / 32) && (Z.land (Z.shiftr b 1) 0x07 =? (b / 2) mod 8)
  && Bool.eqb (tst (Z.lnot b) 0x01) (b mod 2 =? 0)
  && Bool.eqb (tst (Z.lnot b) 0x02) ((b / 2) mod 2 =? 0)
  && (Z.land b 0x0f =? b mod 16).

Lemma ctrl_byte b : is_byte b → ctrl_facts b = true.
Proof. by apply byte_forall. Qed.

Lemma zoom_rd_le32 pre v rest s n :
  at_data (pre ++ le32_bytes v ++ rest) s → n = Z.of_nat (length pre) →
  0 ≤ v < 4294967296 → zoom (rd_le32 n) s = Ok (v, s).
Proof.
  intros Hh Hn Hv. apply zoom_frame_ret. unfold rd_le32.
  erewrite bind_ok by (by apply (rds_ok pre (le32_bytes v) rest)).
  unfold le32_bytes, le32. simpl. by rewrite be32_of_bytes by lia.
Qed.

Lemma pdu_ctrl_byte cmd p :
  pdu_valid cmd p → 0 ≤ pdu_ctrl p ≤ 239 ∧ (pdu_ctrl p / 16) mod 2 = 0.
Proof.
  destruct p; cbn [pdu_valid pdu_ctrl]; unfold RR, RNR, REJ, SREJ; intros H;
    try (by split); Z.to_euclidean_division_equations; lia.
Qed.

Lemma ctrl_split cmd p pf :
  pdu_valid cmd p → pf = 0 ∨ pf = 1 →
  let b := pdu_ctrl p + 16 * pf in
  is_byte b ∧ Z.land b (Z.lxor 0xff PF_BIT) = pdu_ctrl p ∧
  Z.shiftr (Z.land b PF_BIT) 4 = pf.
Proof.
  intros Hv Hpf b. destruct (pdu_ctrl_byte cmd p Hv) as [Hr Hm].
  assert (Hb : is_byte b) by (unfold is_byte, b; lia). split; [done|].
  pose proof (ctrl_byte b Hb) as H. unfold ctrl_facts in H.
  rewrite !andb_true_iff, !Z.eqb_eq in H. destruct H as [[[[[[-> ->] _] _] _] _] _].
  unfold b. Z.to_euclidean_division_equations; lia.
Qed.

(** the class of a frame, as the two tests of the dispatcher *)
Lemma ctrl_class b : is_byte b →
  tst (Z.lnot b) 0x01 = (b mod 2 =? 0) ∧ tst (Z.lnot b) 0x02 = ((b / 2) mod 2 =? 0) ∧
  Z.land b 0x0f = b mod 16.
Proof.
  intros Hb. pose proof (ctrl_byte b Hb) as H. unfold ctrl_facts in H.
  rewrite !andb_true_iff, !Z.eqb_eq, !eqb_true_iff in H. tauto.
Qed.

Lemma ctrl_numbers b : is_byte b →
  Z.shiftr b 5 = b / 32 ∧ Z.land (Z.shiftr b 1) 0x07 = (b / 2) mod 8.
Proof.
  intros Hb. pose proof (ctrl_byte b Hb) as H. unfold ctrl_facts in H.
  rewrite !andb_true_iff, !Z.eqb_eq in H. tauto.
Qed.

Section headers.
Variable nj aj sj oj : list Z.
Variable cfg : config.

(** the dispatcher on a control byte that is known *)
Lemma dispatch ca cmd pf type p rest s :
  at_data (lap_bytes ca cmd pf p ++ rest) s →
  0 ≤ ca < 256 → ca mod 2 = 0 → cmd = 0 ∨ cmd = 1 → pf = 0 ∨ pf = 1 → pdu_valid cmd p →
  parse_irlap_frame nj aj sj oj cfg type s
  = (if (pdu_ctrl p) mod 2 =? 0 then parse_i_frame nj aj sj oj cfg ca cmd pf type
     else if ((pdu_ctrl p) / 2) mod 2 =? 0
     then irlap_supervisory cfg ca cmd pf (pdu_ctrl p) type
     else irlap_unnumbered oj cfg ca cmd pf (pdu_ctrl p) type) s.
Proof.
  intros Hh Hca He Hcmd Hpf Hv. unfold parse_irlap_frame, lap_bytes in *.
  erewrite bind_ok by (by eapply zoom_rd).
  erewrite bind_ok by (by eapply zoom_rd).
  destruct (address_byte ca cmd Hca He Hcmd) as [-> ->].
  destruct (ctrl_split cmd p pf Hv Hpf) as (_ & -> & ->). cbn zeta.
  destruct (pdu_ctrl_byte cmd p Hv) as [Hr _].
  destruct (ctrl_class (pdu_ctrl p)) as (-> & -> & _); [unfold is_byte; lia|].
  by repeat case_match.
Qed.

Lemma info_header ca cmd pf type ns nr rest s :
  at_data (lap_bytes ca cmd pf (Info ns nr) ++ rest) s →
  pf = 0 ∨ pf = 1 → pdu_valid cmd (Info ns nr) → 2 ≤ avail s < 4294967296 →
  parse_i_frame nj aj sj oj cfg ca cmd pf type s
  = lap_pdu_rest nj aj sj oj cfg ca cmd type (Info ns nr)
      (stripped 2 (printed (lap_pdu_text ca cmd pf type (Info ns nr)) s)).
Proof.
  intros Hh Hpf Hv Hl. unfold parse_i_frame.
  destruct (ctrl_split cmd _ pf Hv Hpf) as (Hb & _ & _).
  erewrite bind_ok by (by eapply zoom_rd).
  destruct (ctrl_numbers _ Hb) as [-> ->]. cbn zeta.
  cbn [pdu_valid pdu_ctrl] in *.
  replace ((nr * 32 + ns * 2 + 16 * pf) / 32) with nr
    by (Z.to_euclidean_division_equations; lia).
  replace (((nr * 32 + ns * 2 + 16 * pf) / 2) mod 8) with ns
    by (Z.to_euclidean_division_equations; lia).
  rewrite zoom_pull by lia. by erewrite bind_ok by apply zoom_emit.
Qed.

Lemma supervisory_header ca cmd pf type p nr code rest s :
  at_data (lap_bytes ca cmd pf p ++ rest) s →
  pf = 0 ∨ pf = 1 → 0 ≤ nr < 8 →
  (p, code) ∈ [(ReceiveReady nr, RR); (ReceiveNotReady nr, RNR); (Reject nr, REJ);
               (SelectiveReject nr, SREJ)] →
  irlap_supervisory cfg ca cmd pf (pdu_ctrl p) type s
  = lap_pdu_rest nj aj sj oj cfg ca cmd type p (printed (lap_pdu_text ca cmd pf type p) s).
Proof.
  intros Hh Hpf Hnr Hp.
  assert (Hc : pdu_ctrl p = nr * 32 + code ∧ pdu_valid cmd p ∧
    (code = 1 ∨ code = 5 ∨ code = 9 ∨ code = 13)).
  { rewrite !elem_of_cons, elem_of_nil in Hp.
    destruct Hp as [Hp|[Hp|[Hp|[Hp|[]]]]]; injection Hp as -> ->;
      (split; [done|split; [done|]]); unfold RR, RNR, REJ, SREJ; lia. }
  destruct Hc as (Hc & Hv & Hcode).
  destruct (ctrl_split cmd _ pf Hv Hpf) as (Hb & _ & _).
  destruct (pdu_ctrl_byte cmd p Hv) as [Hr Hm].
  assert (Hbyte : zlookup (lap_bytes ca cmd pf p ++ rest) 1 = Some (pdu_ctrl p + 16 * pf))
    by done.
  unfold irlap_supervisory.
  destruct (ctrl_class (pdu_ctrl p)) as (_ & _ & ->); [unfold is_byte; lia|].
  replace (pdu_ctrl p mod 16) with code by (rewrite Hc; Z.to_euclidean_division_equations; lia).
  destruct (ctrl_numbers _ Hb) as [Hn _].
  replace ((pdu_ctrl p + 16 * pf) / 32) with nr in Hn
    by (rewrite Hc; Z.to_euclidean_division_equations; lia).
  assert (Hrd : zoom (rd 1) s = Ok (pdu_ctrl p + 16 * pf, s)) by (by eapply zoom_rd).
  assert (Hrd' : rd 1 (d_frame s) = Ok (pdu_ctrl p + 16 * pf, d_frame s))
    by (by eapply rd_ok).
  rewrite !elem_of_cons, elem_of_nil in Hp.
  destruct Hp as [Hp|[Hp|[Hp|[Hp|[]]]]]; injection Hp as -> ->; cbn zeta.
  - change (RR =? RR) with true. cbn iota. unfold parse_rr_frame.
    erewrite bind_ok by exact Hrd. rewrite Hn. cbn zeta.
    by erewrite bind_ok by apply zoom_emit.
  - change (RNR =? RR) with false. change (RNR =? RNR) with true. cbn iota.
    unfold parse_rnr_frame. erewrite zoom_ok; [|erewrite bind_ok by exact Hrd'; done].
    by rewrite Hn.
  - change (REJ =? RR) with false. change (REJ =? RNR) with false.
    change (REJ =? REJ) with true. cbn iota.
    unfold parse_rej_frame. erewrite zoom_ok; [|erewrite bind_ok by exact Hrd'; done].
    by rewrite Hn.
  - change (SREJ =? RR) with false. change (SREJ =? RNR) with false.
    change (SREJ =? REJ) with false. change (SREJ =? SREJ) with true. cbn iota.
    unfold parse_srej_frame. erewrite zoom_ok; [|erewrite bind_ok by exact Hrd'; done].
    by rewrite Hn.
Qed.

Lemma rd_le32_at pre v rest f n :
  holds (pre ++ le32_bytes v ++ rest) f → n = Z.of_nat (length pre) →
  0 ≤ v < 4294967296 → rd_le32 n f = Ok (v, f).
Proof.
  intros Hh Hn Hv. unfold rd_le32.
  erewrite bind_ok by (by apply (rds_ok pre (le32_bytes v) rest)).
  unfold le32_bytes, le32. simpl. by rewrite be32_of_bytes by lia.
Qed.

(** the two addresses of a frame *)
Lemma rd_addresses {B} b0 b1 saddr daddr rest f (k : Z → Z → M frame B) :
  holds (b0 :: b1 :: (le32_bytes saddr ++ le32_bytes daddr) ++ rest) f →
  0 ≤ saddr < 4294967296 → 0 ≤ daddr < 4294967296 →
  (x ← rd_le32 2; y ← rd_le32 6; k x y) f = k saddr daddr f.
Proof.
  intros Hh Hs Hd. rewrite <- app_assoc in Hh.
  erewrite bind_ok by (by apply (rd_le32_at [b0; b1] saddr (le32_bytes daddr ++ rest))).
  by erewrite bind_ok
    by (by apply (rd_le32_at (b0 :: b1 :: le32_bytes saddr) daddr rest)).
Qed.

(** a frame whose header ends in negotiation parameters *)
Lemma zoom_pull_rest (m : M frame unit) n t s :
  0 ≤ n ≤ avail s → avail s < 4294967296 →
  zoom (emit t;; pull n;; m) s = zoom m (stripped n (printed t s)).
Proof.
  intros Hn Hl. unfold zoom. erewrite bind_ok by apply emit_ok.
  erewrite bind_ok by (apply pull_ok; unfold avail in *; simpl; lia).
  unfold view, dump_frame. by destruct (m _) as [[? ?]|].
Qed.

(** the numbers in the second octet of a FRMR *)
Lemma frmr_numbers ns nr :
  0 ≤ ns < 8 → 0 ≤ nr < 8 →
  is_byte (nr * 32 + ns * 2) ∧ (nr * 32 + ns * 2) / 32 = nr ∧ ((nr * 32 + ns * 2) / 2) mod 8 = ns.
Proof.
  intros Hs Hr. split; [unfold is_byte; lia|].
  split; Z.to_euclidean_division_equations; lia.
Qed.

Lemma unnumbered_header ca cmd pf type p rest s :
  at_data (lap_bytes ca cmd pf p ++ rest) s → pdu_valid cmd p →
  cmd = 0 ∨ cmd = 1 → lap_pdu_strip p ≤ avail s < 4294967296 →
  match p with
  | Snrm _ _ _ | Rnrm _ _ | Ua _ _ | Test _ _ | Disc | Rd | Dm | Ui | Frmr _ _ => True
  | _ => False
  end →
  irlap_unnumbered oj cfg ca cmd pf (pdu_ctrl p) type s
  = lap_pdu_rest nj aj sj oj cfg ca cmd type p
      (stripped (lap_pdu_strip p) (printed (lap_pdu_text ca cmd pf type p) s)).
Proof.
  intros Hh Hv Hcmd Hl Hp. unfold at_data, lap_bytes in Hh.
  destruct p; try done; cbn [pdu_ctrl lap_pdu_strip pdu_valid pdu_fixed] in *; clear Hp.
  - destruct Hv as (Hs & Hd & ->). unfold irlap_unnumbered. cbn.
    rewrite <- !app_comm_cons, <- !app_assoc in Hh.
    unfold parse_snrm_frame. unfold zoom at 1.
    rewrite (app_assoc (le32_bytes saddr)) in Hh.
    rewrite (rd_addresses _ _ saddr daddr _ _ _ Hh) by done.
    erewrite bind_ok by (eapply rd_ok; [exact Hh|done]).
    change (zoom (emit (lap_pdu_text ca 1 pf type (Snrm saddr daddr ncaddr));; pull 11;;
      len ← buf_len; when (negb (len =? 0)) (parse_irlap_params len)) s
      = lap_pdu_rest nj aj sj oj cfg ca 1 type (Snrm saddr daddr ncaddr)
          (stripped 11 (printed (lap_pdu_text ca 1 pf type (Snrm saddr daddr ncaddr)) s))).
    by rewrite zoom_pull_rest by lia.
  - destruct Hv as (Hs & Hd & ->). unfold irlap_unnumbered. cbn.
    rewrite <- !app_comm_cons in Hh. unfold parse_rnrm_frame. unfold zoom at 1.
    rewrite (rd_addresses _ _ saddr daddr _ _ _ Hh) by done. by rewrite stripped_0.
  - destruct Hv as (Hs & Hd). unfold irlap_unnumbered. cbn.
    rewrite <- !app_comm_cons in Hh. unfold parse_ua_frame. unfold zoom at 1.
    rewrite (rd_addresses _ _ saddr daddr _ _ _ Hh) by done.
    change (zoom (emit (lap_pdu_text ca cmd pf type (Ua saddr daddr));; pull 10;;
      len ← buf_len; when (negb (len =? 0)) (parse_irlap_params len)) s
      = lap_pdu_rest nj aj sj oj cfg ca cmd type (Ua saddr daddr)
          (stripped 10 (printed (lap_pdu_text ca cmd pf type (Ua saddr daddr)) s))).
    by rewrite zoom_pull_rest by lia.
  - destruct Hv as (Hs & Hd). unfold irlap_unnumbered. cbn.
    rewrite <- !app_comm_cons in Hh. unfold parse_test_frame. unfold zoom at 1.
    rewrite (rd_addresses _ _ saddr daddr _ _ _ Hh) by done. by rewrite stripped_0.
  - subst cmd. unfold irlap_unnumbered. cbn. rewrite stripped_0. unfold parse_disc_frame.
    by erewrite bind_ok by apply zoom_emit.
  - subst cmd. unfold irlap_unnumbered. cbn. by rewrite stripped_0.
  - unfold irlap_unnumbered. cbn. by rewrite stripped_0.
  - unfold irlap_unnumbered. cbn. unfold parse_ui_frame.
    rewrite zoom_pull by lia. by erewrite bind_ok by apply zoom_emit.
  - destruct Hv as [Hns Hnr]. unfold irlap_unnumbered. cbn. rewrite stripped_0.
    unfold parse_frmr_frame. unfold zoom at 1.
    erewrite bind_ok by (eapply rd_ok; [exact Hh|done]).
    erewrite bind_ok by (eapply rd_ok; [exact Hh|done]).
    destruct (frmr_numbers ns nr Hns Hnr) as (Hb & E1 & E2).
    destruct (ctrl_numbers _ Hb) as [-> ->]. cbn zeta. by rewrite E1, E2, emit_ok.
Qed.

Lemma supervisory_class n code :
  0 ≤ n < 8 → code = RR ∨ code = RNR ∨ code = REJ ∨ code = SREJ →
  ((n * 32 + code) mod 2 =? 0) = false ∧ (((n * 32 + code) / 2) mod 2 =? 0) = true.
Proof.
  unfold RR, RNR, REJ, SREJ. intros Hn Hc. rewrite Z.eqb_eq, Z.eqb_neq.
  split; Z.to_euclidean_division_equations; lia.
Qed.

(** The decoder on an encoded frame. *)
Lemma frame_header ca cmd pf type p rest s :
  at_data (lap_bytes ca cmd pf p ++ rest) s →
  0 ≤ ca < 256 → ca mod 2 = 0 → cmd = 0 ∨ cmd = 1 → pf = 0 ∨ pf = 1 →
  pdu_valid cmd p → lap_pdu_strip p ≤ avail s < 4294967296 →
  parse_irlap_frame nj aj sj oj cfg type s
  = lap_pdu_rest nj aj sj oj cfg ca cmd type p
      (stripped (lap_pdu_strip p) (printed (lap_pdu_text ca cmd pf type p) s)).
Proof.
  intros Hh Hca He Hcmd Hpf Hv Hl.
  rewrite (dispatch ca cmd pf type p rest) by done.
  destruct p; try (by eapply unnumbered_header); cbn [lap_pdu_strip].
  - cbn [pdu_ctrl]. rewrite (proj2 (Z.eqb_eq ((nr * 32 + ns * 2) mod 2) 0))
      by (Z.to_euclidean_division_equations; lia).
    by eapply info_header.
  - cbn [pdu_ctrl]. destruct (supervisory_class nr RR Hv) as [-> ->]; [auto|].
    rewrite stripped_0. apply (supervisory_header _ _ _ _ (ReceiveReady nr) nr RR rest);
      try done. by left.
  - cbn [pdu_ctrl]. destruct (supervisory_class nr RNR Hv) as [-> ->]; [auto|].
    rewrite stripped_0. apply (supervisory_header _ _ _ _ (ReceiveNotReady nr) nr RNR rest);
      try done. by right; left.
  - cbn [pdu_ctrl]. destruct (supervisory_class nr REJ Hv) as [-> ->]; [auto|].
    rewrite stripped_0. apply (supervisory_header _ _ _ _ (Reject nr) nr REJ rest);
      try done. by right; right; left.
  - cbn [pdu_ctrl]. destruct (supervisory_class nr SREJ Hv) as [-> ->]; [auto|].
    rewrite stripped_0. apply (supervisory_header _ _ _ _ (SelectiveReject nr) nr SREJ rest);
      try done. by right; right; right; left.
Qed.

(** C5: the dispatcher inverts the encoding of a frame, for every frame type but XID (I, RR, RNR,
    REJ, SREJ, SNRM, RNRM, UA, TEST, DISC, RD, DM, UI, FRMR): the decoder of that type runs, with the
    connection address, the command and poll/final bits, the sequence numbers and the device
    addresses that were encoded, and prints them (those of an FRMR under each other's names, and an
    RNRM as snrm).  Of an I, UI, SNRM or UA frame the header, of 2, 2, 11 or 10 bytes, is
    taken off the buffer, and what follows goes to the layer above (when that is configured) or to
    the parameters; a DISC
    forgets the connections of the address; an RR, like an I frame, is compared with the
    sequence counters when that is configured; the other types leave the buffer and the rest
    of the state as they were. *)
Theorem parse_irlap_frame_header ca cmd pf type p rest s :
  at_data (lap_bytes ca cmd pf p ++ rest) s →
  0 ≤ ca < 256 → ca mod 2 = 0 → cmd = 0 ∨ cmd = 1 → pf = 0 ∨ pf = 1 →
  pdu_valid cmd p → lap_pdu_strip p ≤ avail s < 4294967296 →
  parse_irlap_frame nj aj sj oj cfg type s
  = lap_pdu_rest nj aj sj oj cfg ca cmd type p
      (stripped (lap_pdu_strip p) (printed (lap_pdu_text ca cmd pf type p) s)).
Proof. apply frame_header. Qed.

(** C18: SNRM and UA: the addresses, then every negotiation parameter as the
    table value of its highest bit; the whole frame is consumed. *)
Theorem parse_irlap_frame_negotiation ca cmd pf type p ps rest s :
  match p with Snrm _ _ _ | Ua _ _ => True | _ => False end →
  at_data (lap_bytes ca cmd pf p ++ tlvs_bytes ps ++ rest) s →
  0 ≤ ca < 256 → ca mod 2 = 0 → cmd = 0 ∨ cmd = 1 → pf = 0 ∨ pf = 1 → pdu_valid cmd p →
  Forall qos_ok ps → 0 < Z.of_nat (length (tlvs_bytes ps)) ≤ 255 →
  avail s = Z.of_nat (length (lap_bytes ca cmd pf p ++ tlvs_bytes ps)) →
  parse_irlap_frame nj aj sj oj cfg type s
  = Ok (tt, stripped (avail s) (printed (lap_pdu_text ca cmd pf type p
      +:+ nl +:+ tab +:+ "LAP QoS: " +:+ tlvs_text qos_text ps) s)).
Proof.
  intros Hp Hh Hca He Hcmd Hpf Hv Hok Hlen Ha.
  assert (Hl : Z.of_nat (length (lap_bytes ca cmd pf p)) = lap_pdu_strip p)
    by (destruct p; try done; simpl; rewrite !length_app; simpl; lia).
  rewrite length_app, Nat2Z.inj_add, Hl in Ha.
  assert (Hst : lap_pdu_strip p = 11 ∨ lap_pdu_strip p = 10) by (destruct p; auto; done).
  erewrite frame_header by (done || lia).
  apply at_data_stripped in Hh. rewrite Hl in Hh.
  assert (Hrest : lap_pdu_rest nj aj sj oj cfg ca cmd type p
    = zoom (len ← buf_len; when (negb (len =? 0)) (parse_irlap_params len)))
    by (by destruct p).
  rewrite Hrest.
  set (s1 := stripped (lap_pdu_strip p) (printed (lap_pdu_text ca cmd pf type p) s)).
  assert (Hs1 : g_netbuf_get_len (f_buf (d_frame s1)) = Z.of_nat (length (tlvs_bytes ps)))
    by (unfold g_netbuf_get_len, avail in *; simpl; lia).
  erewrite zoom_ok.
  2: { unfold buf_len, gets at 1, mbind at 1, M_bind at 1. cbn [view dump_frame].
       rewrite Hs1. rewrite (proj2 (Z.eqb_neq _ _)) by lia. cbn [negb when].
       eapply parse_irlap_params_spec; [exact Hh|done|done|lia|].
       unfold g_netbuf_get_len in Hs1. rewrite Hs1. lia. }
  do 2 f_equal. rewrite Ha.
  change (stripped (Z.of_nat (length (tlvs_bytes ps))) (printed (nl +:+ tab +:+ "LAP QoS: "
    +:+ tlvs_text qos_text ps) s1) = stripped (lap_pdu_strip p
    + Z.of_nat (length (tlvs_bytes ps))) (printed (lap_pdu_text ca cmd pf type p
    +:+ nl +:+ tab +:+ "LAP QoS: " +:+ tlvs_text qos_text ps) s)).
  unfold s1. by rewrite !stripped_printed, printed_printed, stripped_stripped.
Qed.
End headers.

(** ** Sequence numbers *)

Lemma lost_count_spec ns k :
  0 ≤ ns < 8 → 0 < k < 8 → lost_count ns ((ns + 1 - k) mod 8) = k.
Proof.
  intros Hns Hk. unfold lost_count.
  destruct (Z.ltb_spec ((ns + 1 - k) mod 8) (ns + 1));
    Z.to_euclidean_division_equations; lia.
Qed.

Lemma say_lost_spec ns k f :
  0 ≤ ns < 8 → 0 ≤ k < 8 →
  say_lost ns ((ns + 1 - k) mod 8) f
  = Ok (tt, say (if k =? 0 then ""
                 else "** " +:+ fmt_d k +:+ " frame(s) lost ** ") f).
Proof.
  intros Hns Hk. unfold say_lost. destruct (Z.eqb_spec k 0) as [->|Hk0].
  - rewrite Z.sub_0_r, Z.eqb_refl. cbn [negb when]. by rewrite say_nil.
  - rewrite (proj2 (Z.eqb_neq _ _)) by (Z.to_euclidean_division_equations; lia).
    cbn [negb when]. rewrite lost_count_spec by lia. done.
Qed.

(** the counters that [track_nr] compares with, and what it leaves *)
Definition other_ns (type : Z) (c : counters) : Z :=
  if truth type then peer_ns c else self_ns c.
Definition own_ns (type : Z) (c : counters) : Z :=
  if truth type then self_ns c else peer_ns c.
Definition saw_nr (type nr : Z) (c : counters) : counters :=
  if truth type then mkCtr nr (self_ns c) (peer_nr c) (peer_ns c)
  else mkCtr (self_nr c) (self_ns c) nr (peer_ns c).
Definition saw_ns (type ns : Z) (c : counters) : counters :=
  if truth type then mkCtr (self_nr c) ns (peer_nr c) (peer_ns c)
  else mkCtr (self_nr c) (self_ns c) (peer_nr c) ns.

Lemma track_nr_spec type k s :
  0 ≤ other_ns type (d_ctr s) < 8 → 0 ≤ k < 8 →
  let nr := (other_ns type (d_ctr s) + 1 - k) mod 8 in
  track_nr type nr s
  = Ok (tt, with_ctr (saw_nr type nr (d_ctr s)) (printed (if k =? 0 then ""
        else "** " +:+ fmt_d k +:+ " frame(s) lost ** ") s)).
Proof.
  intros Hns Hk nr. unfold track_nr, other_ns, saw_nr in *.
  unfold gets at 1, mbind at 1, M_bind at 1.
  destruct (truth type); erewrite bind_ok by done;
    by erewrite zoom_ok by (by apply say_lost_spec).
Qed.

Lemma track_ns_spec type s :
  0 ≤ own_ns type (d_ctr s) < 8 →
  let ns := (own_ns type (d_ctr s) + 1) mod 8 in
  track_ns type ns s = Ok (tt, with_ctr (saw_ns type ns (d_ctr s)) s).
Proof.
  intros Hns ns. unfold track_ns, own_ns, saw_ns in *.
  unfold gets at 1, mbind at 1, M_bind at 1. unfold ns.
  destruct (truth type); rewrite Z.eqb_refl; cbn [negb when];
    erewrite bind_ok by apply zoom_ret; done.
Qed.

(** C17: the report of a receive-ready frame: when the station acknowledges
    the frames of the other one up to [k] before the last one seen, for any
    [k] of the window, exactly [k] frames are reported lost, and none when it
    acknowledges them all; sequence numbers wrap modulo 8. *)
Theorem rr_lost_frames nj aj sj oj cfg ca cmd pf type k rest s :
  let nr := (other_ns type (d_ctr s) + 1 - k) mod 8 in
  at_data (lap_bytes ca cmd pf (ReceiveReady nr) ++ rest) s →
  0 ≤ ca < 256 → ca mod 2 = 0 → cmd = 0 ∨ cmd = 1 → pf = 0 ∨ pf = 1 →
  0 ≤ avail s < 4294967296 → config_print_lost_frames cfg = true →
  0 ≤ other_ns type (d_ctr s) < 8 → 0 ≤ k < 8 →
  parse_irlap_frame nj aj sj oj cfg type s
  = Ok (tt, with_ctr (saw_nr type nr (d_ctr s))
      (printed (supervisory_text "rr:" ca cmd pf type nr
        +:+ (if k =? 0 then "" else "** " +:+ fmt_d k +:+ " frame(s) lost ** ")) s)).
Proof.
  intros nr Hh Hca He Hcmd Hpf Ha Hcfg Hns Hk.
  assert (Hnr : 0 ≤ nr < 8) by (apply Z.mod_pos_bound; lia).
  rewrite (frame_header nj aj sj oj cfg ca cmd pf type (ReceiveReady nr) rest) by done.
  cbn [lap_pdu_rest lap_pdu_strip]. rewrite Hcfg. cbn [when]. rewrite stripped_0.
  etrans; [exact (track_nr_spec type k (printed _ s) Hns Hk)|].
  by rewrite printed_printed.
Qed.

(** A session of the dump: the frames in turn, each in its own buffer with an
    empty line, and the lines printed. *)
Fixpoint decode_all nj aj sj oj cfg (fs : list (Z * frame)) : M dump (list string) :=
  match fs with
  | [] => mret []
  | (type, f) :: fs =>
      modify (with_frame f);;
      parse_irlap_frame nj aj sj oj cfg type;;
      line ← gets (λ s, f_str (d_frame s));
      lines ← decode_all nj aj sj oj cfg fs;
      mret (line :: lines)
  end.

(** An exchange of I-frames in which nothing is lost: each station numbers its
    frames in sequence and acknowledges every frame of the other one.  [sn]
    and [pn] are the last numbers sent. *)
Fixpoint exchange (dirs : list Z) (sn pn : Z) : list (Z * lap_pdu) :=
  match dirs with
  | [] => []
  | type :: dirs =>
      if truth type
      then (type, Info ((sn + 1) mod 8) ((pn + 1) mod 8)) :: exchange dirs ((sn + 1) mod 8) pn
      else (type, Info ((pn + 1) mod 8) ((sn + 1) mod 8)) :: exchange dirs sn ((pn + 1) mod 8)
  end.

(** a buffer with an I-frame of station [ca], of any contents above it *)
Definition carries (ca : Z) (tp : Z * lap_pdu) (tf : Z * frame) : Prop :=
  fst tf = fst tp ∧ f_str (snd tf) = "" ∧
  2 ≤ blen (f_buf (snd tf)) < 4294967296 ∧
  ∃ cmd pf rest, (cmd = 0 ∨ cmd = 1) ∧ (pf = 0 ∨ pf = 1) ∧
    holds (lap_bytes ca cmd pf (snd tp) ++ rest) (snd tf).

(** the line of a frame without any report *)
Definition clean_line (ca : Z) (tp : Z * lap_pdu) (line : string) : Prop :=
  ∃ cmd pf, (cmd = 0 ∨ cmd = 1) ∧ (pf = 0 ∨ pf = 1) ∧
    line = lap_pdu_text ca cmd pf (fst tp) (snd tp).

(** *** The layers above do not know the counters *)

(** [r] is [r0], but for the counters *)
Definition but_ctr {A} (P : counters → Prop) (r r0 : res (A * dump)) : Prop :=
  match r0 with
  | Ok (a, s) => ∃ c, r = Ok (a, with_ctr c s) ∧ P c
  | Stop w => r = Stop w
  end.
Definition blind {A} (m : M dump A) : Prop :=
  ∀ s c, but_ctr (λ c', c' = c) (m (with_ctr c s)) (m s).

Lemma blind_ret {A} (a : A) : blind (mret a).
Proof. intros s c. by exists c. Qed.
Lemma blind_halt {A} w : blind (halt (A:=A) w).
Proof. done. Qed.
Lemma blind_bind {A B} (m : M dump A) (k : A → M dump B) :
  blind m → (∀ a, blind (k a)) → blind (m ≫= k).
Proof.
  intros Hm Hk s c. specialize (Hm s c). unfold mbind, M_bind.
  destruct (m s) as [[a s1]|w]; [|by rewrite Hm]. destruct Hm as (? & -> & ->).
  apply Hk.
Qed.
Lemma blind_when b m : blind m → blind (when b m).
Proof. intros Hm. destruct b; [done|apply blind_ret]. Qed.
Lemma blind_ias : blind (gets d_ias).
Proof. intros s c. by exists c. Qed.
Lemma blind_frame {A} (m : M frame A) : blind (zoom m).
Proof.
  intros s c. unfold zoom. change (view (with_ctr c s)) with (d_frame s).
  change (view s) with (d_frame s). destruct (m (d_frame s)) as [[a f]|w]; [by exists c|done].
Qed.
Lemma blind_obex {A} (m : M obex_st A) : blind (zoom m).
Proof.
  intros s c. unfold zoom. change (view (with_ctr c s)) with (d_obex s).
  change (view s) with (d_obex s). destruct (m (d_obex s)) as [[a f]|w]; [by exists c|done].
Qed.
Lemma blind_conn {A} (m : M conn_st A) : blind (zoom m).
Proof.
  intros s c. unfold zoom. change (view (with_ctr c s)) with (d_conn s).
  change (view s) with (d_conn s). destruct (m (d_conn s)) as [[a f]|w]; [by exists c|done].
Qed.

Ltac blind :=
  repeat match goal with
  | |- ∀ _, blind _ => intro
  | |- blind (_ ≫= _) => apply blind_bind; [|intro]
  | |- blind (when _ _) => apply blind_when
  | |- blind (mret _) => apply blind_ret
  | |- blind (halt _) => apply blind_halt
  | |- blind (gets d_ias) => apply blind_ias
  | |- blind (match ?x with _ => _ end) => destruct x
  | |- blind (zoom _) => first [apply blind_frame | apply blind_obex | apply blind_conn]
  end.

Lemma parse_irlmp_blind nj aj sj oj cfg ca type cmd :
  blind (parse_irlmp nj aj sj oj cfg ca type cmd).
Proof.
  unfold parse_irlmp, irlmp_data, irlmp_control, irlmp_connect_cmd, irlmp_connect_rsp,
    irlmp_disconnect, parse_iriap_command, parse_iriap_response, parse_irias_value,
    connect_upper, data_upper. blind.
Qed.

(** the option [config_print_lost_frames] is off *)
Definition no_reports (cfg : config) : config :=
  mkConfig (config_print_irlap cfg) (config_print_irlmp cfg) false (config_force_ttp cfg).

(** a frame that follows: its counters are as expected, and nothing is reported *)
Lemma tracked type s nr ns :
  0 ≤ other_ns type (d_ctr s) < 8 → 0 ≤ own_ns type (d_ctr s) < 8 →
  nr = (other_ns type (d_ctr s) + 1) mod 8 → ns = (own_ns type (d_ctr s) + 1) mod 8 →
  (track_nr type nr;; track_ns type ns) s
  = Ok (tt, with_ctr (saw_ns type ns (saw_nr type nr (d_ctr s))) s).
Proof.
  intros Ho Hw -> ->.
  pose proof (track_nr_spec type 0 s Ho ltac:(lia)) as Ht. cbn zeta in Ht.
  rewrite Z.sub_0_r in Ht. change (0 =? 0) with true in Ht. cbn iota in Ht.
  rewrite printed_nil in Ht. erewrite bind_ok by exact Ht. set (s2 := with_ctr _ s).
  assert (Hown : own_ns type (d_ctr s2) = own_ns type (d_ctr s))
    by (unfold own_ns, s2, saw_nr; simpl; by destruct (truth type)).
  rewrite <- Hown. rewrite track_ns_spec by (by rewrite Hown). by rewrite Hown.
Qed.

Lemma info_frame nj aj sj oj ca cmd pf type ns nr rest s c cfg :
  at_data (lap_bytes ca cmd pf (Info ns nr) ++ rest) s →
  0 ≤ ca < 256 → ca mod 2 = 0 → cmd = 0 ∨ cmd = 1 → pf = 0 ∨ pf = 1 →
  2 ≤ avail s < 4294967296 → config_print_lost_frames cfg = true →
  0 ≤ other_ns type c < 8 → 0 ≤ own_ns type c < 8 →
  nr = (other_ns type c + 1) mod 8 → ns = (own_ns type c + 1) mod 8 →
  let r := parse_irlap_frame nj aj sj oj (no_reports cfg) type s in
  but_ctr (λ c', c' = saw_ns type ns (saw_nr type nr c))
    (parse_irlap_frame nj aj sj oj cfg type (with_ctr c s)) r ∧
  (config_print_irlmp cfg = false →
     r = Ok (tt, stripped 2 (printed (lap_pdu_text ca cmd pf type (Info ns nr)) s))).
Proof.
  intros Hh Hca He Hcmd Hpf Ha Hc Ho Hw Hnr Hns r.
  assert (0 ≤ nr < 8) by (rewrite Hnr; apply Z.mod_pos_bound; lia).
  assert (0 ≤ ns < 8) by (rewrite Hns; apply Z.mod_pos_bound; lia).
  set (s1 := stripped 2 (printed (lap_pdu_text ca cmd pf type (Info ns nr)) s)).
  set (m := when (config_print_irlmp cfg) (parse_irlmp nj aj sj oj cfg ca type (truth cmd))).
  assert (Er : r = (m;; mret tt) s1)
    by by (unfold r; rewrite (frame_header nj aj sj oj _ ca cmd pf type (Info ns nr) rest)).
  rewrite (frame_header nj aj sj oj cfg ca cmd pf type (Info ns nr) rest) by done.
  cbn [lap_pdu_rest lap_pdu_strip]. rewrite Hc. cbn [when]. rewrite Er.
  change (stripped 2 (printed _ (with_ctr c s))) with (with_ctr c s1). fold m.
  assert (Hb : blind m) by apply blind_when, parse_irlmp_blind. specialize (Hb s1 c). split.
  - destruct (m s1) as [[[] s2]|w] eqn:E.
    + destruct Hb as (? & E' & ->).
      rewrite (bind_ok _ _ _ _ _ E), (bind_ok _ _ _ _ _ E'). eexists. split;
        [etrans; [exact (tracked type (with_ctr c s2) nr ns Ho Hw Hnr Hns)|reflexivity]|done].
    + unfold but_ctr in Hb. by rewrite (bind_stop _ _ _ _ E), (bind_stop _ _ _ _ Hb).
  - unfold m. by intros ->.
Qed.

(** the next frame of an exchange *)
Lemma exchange_next type dirs c :
  0 ≤ self_ns c < 8 → 0 ≤ peer_ns c < 8 →
  ∃ ns nr, let c' := saw_ns type ns (saw_nr type nr c) in
    exchange (type :: dirs) (self_ns c) (peer_ns c)
    = (type, Info ns nr) :: exchange dirs (self_ns c') (peer_ns c') ∧
    nr = (other_ns type c + 1) mod 8 ∧ ns = (own_ns type c + 1) mod 8 ∧
    0 ≤ other_ns type c < 8 ∧ 0 ≤ own_ns type c < 8 ∧
    0 ≤ self_ns c' < 8 ∧ 0 ≤ peer_ns c' < 8.
Proof.
  intros Hs Hp. simpl. unfold other_ns, own_ns, saw_ns, saw_nr.
  destruct (truth type); do 2 eexists; simpl;
    (split; [reflexivity|]); (split; [reflexivity|]); (split; [reflexivity|]);
    repeat split; try lia; apply Z.mod_pos_bound; lia.
Qed.

Lemma exchange_from nj aj sj oj cfg ca dirs frames s c :
  Forall2 (carries ca) (exchange dirs (self_ns c) (peer_ns c)) frames →
  0 ≤ ca < 256 → ca mod 2 = 0 → config_print_lost_frames cfg = true →
  0 ≤ self_ns c < 8 → 0 ≤ peer_ns c < 8 →
  but_ctr (λ _, True) (decode_all nj aj sj oj cfg frames (with_ctr c s))
    (decode_all nj aj sj oj (no_reports cfg) frames s) ∧
  (config_print_irlmp cfg = false →
   ∃ lines s', decode_all nj aj sj oj cfg frames (with_ctr c s) = Ok (lines, s') ∧
     Forall2 (clean_line ca) (exchange dirs (self_ns c) (peer_ns c)) lines).
Proof.
  intros Hf Hca He Hc. revert frames s c Hf.
  induction dirs as [|type dirs IH]; intros frames s c Hf Hs Hp.
  { apply Forall2_nil_inv_l in Hf as ->. split; [by exists c|]. intros _. by exists [], (with_ctr c s). }
  destruct (exchange_next type dirs c Hs Hp) as (ns & nr & Hex & Hnr & Hns & Ho & Hw & Hs' & Hp').
  rewrite Hex in Hf |- *. clear Hex. set (c' := saw_ns _ _ _) in *.
  apply Forall2_cons_inv_l in Hf as ([t f] & frames' & Hcar & Hf & ->).
  destruct Hcar as (Ht & Hstr & Hlen & cmd & pf & rest & Hcmd & Hpf & Hh).
  simpl in Ht, Hstr, Hlen, Hh. subst t. cbn [decode_all].
  rewrite !(λ x k, bind_ok (modify (with_frame f)) k x _ _ eq_refl).
  change (with_frame f (with_ctr c s)) with (with_ctr c (with_frame f s)).
  destruct (info_frame nj aj sj oj ca cmd pf type ns nr rest (with_frame f s) c cfg) as [Hr Hq];
    try done. fold c' in Hr.
  destruct (parse_irlap_frame nj aj sj oj (no_reports cfg) type (with_frame f s)) as [[[] s1]|w] eqn:E.
  2: { unfold but_ctr in Hr. rewrite (bind_stop _ _ _ _ E), (bind_stop _ _ _ _ Hr).
       split; [done|]. by intros H%Hq. }
  destruct Hr as (? & Er & ->). rewrite (bind_ok _ _ _ _ _ E), (bind_ok _ _ _ _ _ Er).
  rewrite !(λ x k, bind_ok (gets (λ s, f_str (d_frame s))) k x _ _ eq_refl).
  destruct (IH frames' s1 c' Hf Hs' Hp') as [IH1 IH2]. split.
  - destruct (decode_all _ _ _ _ (no_reports cfg) frames' s1) as [[lines s2]|w] eqn:E2.
    + destruct IH1 as (c2 & E3 & _). rewrite (bind_ok _ _ _ _ _ E2), (bind_ok _ _ _ _ _ E3).
      by exists c2.
    + unfold but_ctr in IH1. by rewrite (bind_stop _ _ _ _ E2), (bind_stop _ _ _ _ IH1).
  - intros Hi. destruct (IH2 Hi) as (lines & s' & E3 & Hl). specialize (Hq Hi). injection Hq as Hq.
    rewrite (bind_ok _ _ _ _ _ E3). eexists _, s'. split; [done|]. constructor; [|done].
    exists cmd, pf. split; [done|]. split; [done|].
    change (f_str (d_frame s1) = lap_pdu_text ca cmd pf type (Info ns nr)). rewrite Hq.
    change (f_str f +:+ lap_pdu_text ca cmd pf type (Info ns nr)
      = lap_pdu_text ca cmd pf type (Info ns nr)). by rewrite Hstr.
Qed.

(** C16: no false alarm: an exchange of I-frames in which nothing is lost, in any interleaving of
    the two directions, that goes on from the sequence numbers that the decoder saw last, is
    decoded with the report of lost frames as without it: the same lines, or the same stop,
    and the same state but for the counters, whatever the frames carry above IrLAP and whether or not
    that is decoded too.  Where it is not (IrLMP is not printed), the lines are those of the frames
    with their sequence numbers, and nothing else. *)
Theorem exchange_is_clean nj aj sj oj cfg ca dirs frames s :
  Forall2 (carries ca) (exchange dirs (self_ns (d_ctr s)) (peer_ns (d_ctr s))) frames →
  0 ≤ ca < 256 → ca mod 2 = 0 → config_print_lost_frames cfg = true →
  0 ≤ self_ns (d_ctr s) < 8 → 0 ≤ peer_ns (d_ctr s) < 8 →
  but_ctr (λ _, True) (decode_all nj aj sj oj cfg frames s)
    (decode_all nj aj sj oj (no_reports cfg) frames s) ∧
  (config_print_irlmp cfg = false →
   ∃ lines s', decode_all nj aj sj oj cfg frames s = Ok (lines, s') ∧
     Forall2 (clean_line ca) (exchange dirs (self_ns (d_ctr s)) (peer_ns (d_ctr s))) lines).
Proof.
  intros Hf Hca He Hc Hs Hp.
  pose proof (exchange_from nj aj sj oj cfg ca dirs frames s (d_ctr s) Hf Hca He Hc Hs Hp) as H.
  by replace (with_ctr (d_ctr s) s) with s in H by (by destruct s).
Qed.

(** ** Discovery *)

(** XID: the discovery frame, its hint bits, character set and device name *)
Definition xid_code (rsp : bool) : Z := if rsp then XID_RSP else XID_CMD.
Definition xid_head (ca cmd pf : Z) (rsp : bool) (ident saddr daddr flags slot version : Z)
    : list Z :=
  [ca + cmd; xid_code rsp + 16 * pf; ident] ++ le32_bytes saddr ++ le32_bytes daddr
  ++ [flags; slot; version].
Definition xid_info (hints : list Z) (charset : Z) (name : list Z) : list Z :=
  hints ++ charset :: name.

(** one hint byte, or two when the first one has the extension bit *)
Definition hints_ok (hints : list Z) : Prop :=
  match hints with
  | [h0] => tst h0 0x80 = false
  | [h0; h1] => tst h0 0x80 = true
  | _ => False
  end.
Definition hint_of (hints : list Z) (i : nat) : Z := default 0 (hints !! i).

Definition xid_text (cmd type saddr daddr flags slot : Z) : string :=
  "xid:" +:+ cmd_name cmd +:+ " " +:+ addr_text type saddr daddr +:+ "S="
  +:+ fmt_d (xid_slots flags) +:+ " "
  +:+ (if slot =? 0xff then "s=* " else "s=" +:+ fmt_d slot +:+ " ").
Definition info_text (hints name : list Z) : string :=
  str_of_bytes name +:+ " hint=" +:+ fmt_02x (hint_of hints 0)
  +:+ fmt_02x (hint_of hints 1) +:+ " " +:+ hints_text (hint_of hints 0) (hint_of hints 1).

Section discovery.
Variable nj aj sj oj : list Z.
Variable cfg : config.

Lemma xid_dispatch ca cmd pf rsp type rest s :
  at_data ((ca + cmd) :: (xid_code rsp + 16 * pf) :: rest) s →
  0 ≤ ca < 256 → ca mod 2 = 0 → cmd = 0 ∨ cmd = 1 → pf = 0 ∨ pf = 1 →
  parse_irlap_frame nj aj sj oj cfg type s = zoom (parse_xid_frame cmd pf type) s.
Proof.
  intros Hh Hca He Hcmd Hpf. unfold parse_irlap_frame.
  erewrite bind_ok by (by eapply zoom_rd).
  erewrite bind_ok by (by eapply zoom_rd).
  destruct (address_byte ca cmd Hca He Hcmd) as [-> ->].
  assert (Hx : Z.land (xid_code rsp + 16 * pf) (Z.lxor 0xff PF_BIT) = xid_code rsp ∧
    Z.shiftr (Z.land (xid_code rsp + 16 * pf) PF_BIT) 4 = pf)
    by (destruct rsp, Hpf as [-> | ->]; by vm_compute).
  destruct Hx as [-> ->]. cbn zeta.
  replace (tst (Z.lnot (xid_code rsp)) 1) with false by (by destruct rsp).
  replace (tst (Z.lnot (xid_code rsp)) 2) with false by (by destruct rsp).
  unfold irlap_unnumbered.
  by replace ((xid_code rsp =? XID_RSP) || (xid_code rsp =? XID_CMD)) with true
    by (by destruct rsp).
Qed.

Lemma xid_fields {B} ca cmd pf rsp ident saddr daddr flags slot version rest f
    (k : Z → Z → Z → Z → M frame B) :
  holds (xid_head ca cmd pf rsp ident saddr daddr flags slot version ++ rest) f →
  0 ≤ saddr < 4294967296 → 0 ≤ daddr < 4294967296 →
  (x ← rd_le32 3; y ← rd_le32 7; fl ← rd 11; sl ← rd 12; k x y fl sl) f
  = k saddr daddr flags slot f.
Proof.
  intros Hh Hs Hd. unfold xid_head in Hh. rewrite <- !app_assoc in Hh.
  erewrite bind_ok by (by eapply (rd_le32_at [_; _; _] saddr)).
  rewrite (app_assoc [_; _; _]) in Hh.
  erewrite bind_ok by (by eapply (rd_le32_at (_ ++ le32_bytes saddr) daddr)).
  erewrite bind_ok by (eapply rd_ok; [exact Hh|done]).
  by erewrite bind_ok by (eapply rd_ok; [exact Hh|done]).
Qed.

(** the device information is found, and terminated *)
Lemma xid_info_step ca cmd pf rsp ident saddr daddr flags slot version hints charset name f :
  let l := xid_head ca cmd pf rsp ident saddr daddr flags slot version
           ++ xid_info hints charset name in
  holds l f → blen (f_buf f) = Z.of_nat (length l) →
  data (f_buf f) + blen (f_buf f) < Z.of_nat (length (mem (f_buf f))) → hints_ok hints →
  ∃ f', (hint0 ← rd 14;
         r ← (if tst hint0 0x80 then hint1 ← rd 15; mret (17, hint1) else mret (16, 0));
         len ← buf_len;
         wr len 0;;
         mret (Some (fst r, hint0, snd r))) f
    = Ok (Some (15 + Z.of_nat (length hints), hint_of hints 0, hint_of hints 1), f') ∧
    holds (l ++ [0]) f' ∧ f_str f' = f_str f ∧ f_out f' = f_out f.
Proof.
  intros l Hh Hlen Hroom Hhints.
  destruct (wr_end l f Hh) as (f' & Hw & Hh' & Hs & Ho & _); [lia|].
  exists f'. split; [|done].
  assert (Hwr : ∀ a : option (Z * Z * Z),
    (len ← buf_len; wr len 0;; mret a) f = Ok (a, f')).
  { intros a. unfold buf_len, gets at 1, mbind at 1, M_bind at 1, g_netbuf_get_len.
    rewrite Hlen. by erewrite bind_ok by exact Hw. }
  destruct hints as [|h0 [|h1 []]]; try done; simpl in Hhints.
  - erewrite bind_ok by (eapply rd_ok; [exact Hh|done]). rewrite Hhints.
    rewrite bind_ret_l. by rewrite Hwr.
  - erewrite bind_ok by (eapply rd_ok; [exact Hh|done]). rewrite Hhints.
    rewrite bind_assoc. erewrite bind_ok by (eapply rd_ok; [exact Hh|done]).
    rewrite bind_ret_l. by rewrite Hwr.
Qed.

(** the parts of the line of a discovery frame *)
Lemma xid_says cmd type saddr daddr flags slot (k : M frame unit) f :
  ((if truth type then
      emit ("xid:" +:+ cmd_name cmd +:+ " " +:+ fmt_08x saddr +:+ " > "
        +:+ fmt_08x daddr +:+ " S=" +:+ fmt_d (xid_slots flags) +:+ " ")
    else
      emit ("xid:" +:+ cmd_name cmd +:+ " " +:+ fmt_08x daddr +:+ " < "
        +:+ fmt_08x saddr +:+ " S=" +:+ fmt_d (xid_slots flags) +:+ " "));;
   (if slot =? 0xff then emit "s=* " else emit ("s=" +:+ fmt_d slot +:+ " "));; k) f
  = k (say (xid_text cmd type saddr daddr flags slot) f).
Proof.
  unfold xid_text, addr_text.
  destruct (truth type); erewrite bind_ok by apply emit_ok;
    (destruct (slot =? 255); erewrite bind_ok by apply emit_ok);
    by rewrite say_say, !str_app_assoc.
Qed.

Lemma xid_name_says h hints charset name g :
  length h = 14%nat → holds ((h ++ xid_info hints charset name) ++ [0]) g →
  (∀ i, is_byte (hint_of hints i)) → (∀ c, c ∈ name → c ≠ 0) →
  (name ← rd_cstr (15 + Z.of_nat (length hints));
   emit (str_of_bytes name +:+ " hint=" +:+ fmt_02x (hint_of hints 0)
     +:+ fmt_02x (hint_of hints 1) +:+ " ");;
   parse_hints (hint_of hints 0) (hint_of hints 1)) g
  = Ok (tt, say (info_text hints name) g).
Proof.
  intros Hh Hg Hhb Hname.
  erewrite bind_ok.
  2: { apply (rd_cstr_ok (h ++ hints ++ [charset]) name []);
         [|rewrite !length_app, Hh; simpl; lia|done].
       unfold xid_info in Hg. rewrite <- !app_assoc in Hg |- *. exact Hg. }
  erewrite bind_ok by apply emit_ok. rewrite parse_hints_says by done.
  rewrite say_say. unfold info_text. by rewrite !str_app_assoc.
Qed.

(** C19: discovery.  The last command of a discovery and every response carry
    the device information: the decoder prints the addresses, the slots, the
    name up to the end of the frame (it is not terminated in the frame), and
    the names of the service hint bits. *)
Theorem parse_xid_discovery ca cmd pf rsp type ident saddr daddr flags slot version
    hints charset name s :
  let l := xid_head ca cmd pf rsp ident saddr daddr flags slot version
           ++ xid_info hints charset name in
  at_data l s → avail s = Z.of_nat (length l) →
  data (f_buf (d_frame s)) + avail s < Z.of_nat (length (mem (f_buf (d_frame s)))) →
  0 ≤ ca < 256 → ca mod 2 = 0 → cmd = 0 ∨ cmd = 1 → pf = 0 ∨ pf = 1 →
  0 ≤ saddr < 4294967296 → 0 ≤ daddr < 4294967296 →
  slot = 0xff ∨ cmd = 0 → hints_ok hints → (∀ c, c ∈ name → c ≠ 0) →
  ∃ f, parse_irlap_frame nj aj sj oj cfg type s = Ok (tt, with_frame f s) ∧
    f_str f = f_str (d_frame s) +:+ xid_text cmd type saddr daddr flags slot
              +:+ info_text hints name ∧
    f_out f = f_out (d_frame s).
Proof.
  intros l Hh Ha Hroom Hca He Hcmd Hpf Hs Hd Hslot Hhints Hname.
  rewrite (xid_dispatch ca cmd pf rsp type (drop 2 l)) by done.
  unfold l in *. unfold parse_xid_frame, zoom.
  rewrite (xid_fields ca cmd pf rsp ident saddr daddr flags slot version _ _ _ Hh) by done.
  cbn zeta.
  replace ((slot =? 255) || negb (truth cmd)) with true.
  2: { symmetry. apply orb_true_iff. destruct Hslot as [-> | ->]; [by left|by right]. }
  destruct (xid_info_step ca cmd pf rsp ident saddr daddr flags slot version hints charset
    name (d_frame s) Hh Ha Hroom Hhints) as (f' & Hstep & Hh' & Hstr & Hout).
  erewrite bind_ok by exact Hstep.
  set (t := xid_text cmd type saddr daddr flags slot).
  assert (Hhb : ∀ i, is_byte (hint_of hints i)).
  { intros i. unfold hint_of. destruct (hints !! i) as [h|] eqn:E; [|done].
    destruct Hh as (_ & _ & Hb). unfold l, xid_info in Hb. rewrite !Forall_app in Hb.
    destruct Hb as (_ & Hb & _). by eapply Forall_lookup_1. }
  set (f2 := say (info_text hints name) (say t f')). exists f2.
  rewrite xid_says. fold t.
  rewrite (xid_name_says (xid_head ca cmd pf rsp ident saddr daddr flags slot version) hints charset
    name) by first [reflexivity | exact Hh' | done].
  split; [done|]. unfold f2, say. simpl.
  split; [|done]. by rewrite Hstr, str_app_assoc.
Qed.
End discovery.

(** a discovery response that fills its block to the last byte: the
    terminating zero of the device name is written one past the end. *)
Theorem parse_xid_full_block nj aj sj oj cfg ca cmd pf rsp type ident saddr daddr flags slot
    version hints charset name s :
  let l := xid_head ca cmd pf rsp ident saddr daddr flags slot version
           ++ xid_info hints charset name in
  at_data l s → avail s = Z.of_nat (length l) →
  data (f_buf (d_frame s)) + avail s = Z.of_nat (length (mem (f_buf (d_frame s)))) →
  0 ≤ ca < 256 → ca mod 2 = 0 → cmd = 0 ∨ cmd = 1 → pf = 0 ∨ pf = 1 →
  0 ≤ saddr < 4294967296 → 0 ≤ daddr < 4294967296 →
  slot = 0xff ∨ cmd = 0 → hints_ok hints →
  parse_irlap_frame nj aj sj oj cfg type s = Stop OobWrite.
Proof.
  intros l Hh Ha Hfull Hca He Hcmd Hpf Hs Hd Hslot Hhints.
  rewrite (xid_dispatch nj aj sj oj cfg ca cmd pf rsp type (drop 2 l)) by done.
  unfold l in *. apply zoom_stop. unfold parse_xid_frame.
  rewrite (xid_fields ca cmd pf rsp ident saddr daddr flags slot version _ _ _ Hh) by done.
  cbn zeta.
  replace ((slot =? 255) || negb (truth cmd)) with true.
  2: { symmetry. apply orb_true_iff. destruct Hslot as [-> | ->]; [by left|by right]. }
  apply bind_stop.
  assert (Hwr : ∀ a : option (Z * Z * Z),
    (len ← buf_len; wr len 0;; mret a) (d_frame s) = Stop OobWrite).
  { intros a. unfold buf_len, gets at 1, mbind at 1, M_bind at 1, g_netbuf_get_len.
    apply bind_stop. by apply wr_full. }
  destruct hints as [|h0 [|h1 []]]; try done; simpl in Hhints.
  - erewrite bind_ok by (eapply rd_ok; [exact Hh|done]). rewrite Hhints.
    rewrite bind_ret_l. by rewrite Hwr.
  - erewrite bind_ok by (eapply rd_ok; [exact Hh|done]). rewrite Hhints.
    rewrite bind_assoc. erewrite bind_ok by (eapply rd_ok; [exact Hh|done]).
    rewrite bind_ret_l. by rewrite Hwr.
Qed.

(** a frame reject: the labels of the line and the values under them
    disagree.  Under [pf=] it prints the control byte, under [ctrl=] the
    rejected [nr], and under [nr=] the poll/final bit. *)
Theorem parse_frmr_labels nj aj sj oj cfg ca cmd pf type ns nr x rest s :
  at_data ((ca + cmd) :: (FRMR_RSP + 16 * pf) :: (nr * 32 + x * 16 + ns * 2) :: rest) s →
  0 ≤ ca < 256 → ca mod 2 = 0 → cmd = 0 ∨ cmd = 1 → pf = 0 ∨ pf = 1 →
  0 ≤ ns < 8 → 0 ≤ nr < 8 → x = 0 ∨ x = 1 →
  parse_irlap_frame nj aj sj oj cfg type s
  = Ok (tt, printed ("frmr:" +:+ cmd_name cmd +:+ "  " +:+ arrow type +:+ " ca="
      +:+ fmt_02x ca +:+ " pf=" +:+ fmt_d (FRMR_RSP + 16 * pf) +:+ " ctrl=" +:+ fmt_02x nr
      +:+ ", nr=" +:+ fmt_d pf +:+ " ns=" +:+ fmt_d ns +:+ " ") s).
Proof.
  intros Hh Hca He Hcmd Hpf Hns Hnr Hx. unfold parse_irlap_frame.
  erewrite bind_ok by (by eapply zoom_rd).
  erewrite bind_ok by (by eapply zoom_rd).
  destruct (address_byte ca cmd Hca He Hcmd) as [-> ->].
  assert (Hc : Z.land (FRMR_RSP + 16 * pf) (Z.lxor 0xff PF_BIT) = FRMR_RSP ∧
    Z.shiftr (Z.land (FRMR_RSP + 16 * pf) PF_BIT) 4 = pf)
    by (destruct Hpf as [-> | ->]; by vm_compute).
  destruct Hc as [-> ->]. cbn zeta.
  change (tst (Z.lnot FRMR_RSP) 1) with false. change (tst (Z.lnot FRMR_RSP) 2) with false.
  cbn iota. unfold irlap_unnumbered. cbn [FRMR_RSP XID_RSP XID_CMD SNRM_CMD DM_RSP DISC_CMD
    TEST_CMD UA_RSP Z.eqb Pos.eqb orb].
  apply zoom_frame_ok; [|done]. unfold parse_frmr_frame.
  erewrite bind_ok by (eapply rd_ok; [exact Hh|done]).
  erewrite bind_ok by (eapply rd_ok; [exact Hh|done]).
  destruct (ctrl_numbers (nr * 32 + x * 16 + ns * 2)) as [-> ->]; [unfold is_byte; lia|].
  replace ((nr * 32 + x * 16 + ns * 2) / 32) with nr
    by (Z.to_euclidean_division_equations; lia).
  replace (((nr * 32 + x * 16 + ns * 2) / 2) mod 8) with ns
    by (Z.to_euclidean_division_equations; lia).
  done.
Qed.

(** ** Witnesses *)
Definition lap_test (l : list Z) (c : counters) : dump :=
  mkDump (mkObex (test_frame l) 0xff) conn_start c.
Local Abbreviation run cfg type s :=
  (parse_irlap_frame test_junk test_junk test_junk test_junk cfg type s).

Lemma lap_test_at l c : forallb (λ b, (0 <=? b) && (b <? 256)) l = true →
  at_data l (lap_test l c).
Proof. intros H. apply test_frame_holds. by apply all_bytes_check. Qed.

Lemma parse_irlap_frame_header_witness :
  run test_config 1 (lap_test (lap_bytes 0x14 1 1 Disc) (mkCtr 0 0 0 0))
  = Ok (tt, mkDump
      (mkObex (say "disc:cmd > ca=0x14 pf=1 " (test_frame (lap_bytes 0x14 1 1 Disc))) 0xff)
      conn_start (mkCtr 0 0 0 0)).
Proof.
  etrans.
  - apply (parse_irlap_frame_header test_junk test_junk test_junk test_junk test_config
      0x14 1 1 1 Disc []); try (by right); try done.
    by apply lap_test_at.
  - by vm_compute.
Defined.

Definition snrm_frame : list Z :=
  lap_bytes 0xfe 1 1 (Snrm 0x12345678 0x9abcdef0 0x14)
  ++ tlvs_bytes [(PI_BAUD_RATE, [0x3f; 0x01]); (PI_MAX_TURN_TIME, [0x01]);
                 (PI_DATA_SIZE, [0x3f]); (PI_WINDOW_SIZE, [0x7f])].

Lemma parse_irlap_frame_negotiation_witness :
  ∃ s, run test_config 1 (lap_test snrm_frame (mkCtr 0 0 0 0)) = Ok (tt, s) ∧
    f_str (d_frame s) = "snrm:cmd ca=fe pf=1 12345678 > 9abcdef0 new-ca=14 " +:+ nl +:+ tab
      +:+ "LAP QoS: Baud Rate=4000000bps Max Turn Time=500ms Data Size=2048B Window Size=7 ".
Proof.
  eexists. split.
  - apply (parse_irlap_frame_negotiation test_junk test_junk test_junk test_junk test_config
      0xfe 1 1 1 (Snrm 0x12345678 0x9abcdef0 0x14)
      [(PI_BAUD_RATE, [0x3f; 0x01]); (PI_MAX_TURN_TIME, [0x01]);
       (PI_DATA_SIZE, [0x3f]); (PI_WINDOW_SIZE, [0x7f])] []); try (by right); try done.
    + rewrite app_nil_r. by apply lap_test_at.
    + by repeat (constructor; [vm_compute; split|]).
  - by vm_compute.
Defined.

Lemma rr_lost_frames_witness :
  ∃ s, run test_config 1 (lap_test (lap_bytes 0x14 1 1 (ReceiveReady 6)) (mkCtr 0 0 0 0))
    = Ok (tt, s) ∧
    f_str (d_frame s) = "rr:cmd > ca=14 pf=1 nr=6 ** 3 frame(s) lost ** ".
Proof.
  eexists. split.
  - apply (rr_lost_frames test_junk test_junk test_junk test_junk test_config
      0x14 1 1 1 3 [] (lap_test (lap_bytes 0x14 1 1 (ReceiveReady 6)) (mkCtr 0 0 0 0)));
      try (by right); try done.
    by apply lap_test_at.
  - by vm_compute.
Defined.

(** the frames carry data on two open selectors of IrLMP, which is printed too *)
Definition exchange_frames : list (Z * frame) :=
  [(1, test_frame (lap_bytes 0x14 1 0 (Info 1 1) ++ [5; 3; 7]));
   (0, test_frame (lap_bytes 0x14 0 1 (Info 1 2) ++ [3; 5; 7]))].

Lemma exchange_is_clean_witness :
  let decode cfg := decode_all test_junk test_junk test_junk test_junk cfg exchange_frames
    (lap_test [] (mkCtr 0 0 0 0)) in
  but_ctr (λ _, True) (decode test_config) (decode (no_reports test_config)) ∧
  (∃ s, decode test_config = Ok (["i:cmd  > ca=14 pf=0 nr=1 ns=1 LM slsap=03 dlsap=05 ";
    "i:rsp  < ca=14 pf=1 nr=2 ns=1 LM slsap=05 dlsap=03 "], s)).
Proof.
  split; [|eexists; by vm_compute].
  apply (exchange_is_clean test_junk test_junk test_junk test_junk test_config 0x14 [1; 0]
    exchange_frames (lap_test [] (mkCtr 0 0 0 0))); try done.
  constructor; [|constructor; [|constructor]].
  - split; [done|]. split; [done|]. split; [done|]. exists 1, 0, [5; 3; 7].
    split; [by right|]. split; [by left|]. by apply (lap_test_at _ (mkCtr 0 0 0 0)).
  - split; [done|]. split; [done|]. split; [done|]. exists 0, 1, [3; 5; 7].
    split; [by left|]. split; [by right|]. by apply (lap_test_at _ (mkCtr 0 0 0 0)).
Defined.

Definition xid_example : list Z :=
  xid_head 0xfe 0 1 true 1 0x00000001 0xffffffff 1 0 0
  ++ xid_info [0x83; 0x24] 0 (bytes_of_str "Palm").

Lemma parse_xid_discovery_witness :
  ∃ f, run test_config 0 (lap_test xid_example (mkCtr 0 0 0 0))
    = Ok (tt, with_frame f (lap_test xid_example (mkCtr 0 0 0 0))) ∧
    f_str f = "xid:rsp ffffffff < 00000001 S=6 s=0 Palm hint=8324 [ PnP PDA/Palmtop IrCOMM IrOBEX ] ".
Proof.
  destruct (parse_xid_discovery test_junk test_junk test_junk test_junk test_config
    0xfe 0 1 true 0 1 0x00000001 0xffffffff 1 0 0 [0x83; 0x24] 0 (bytes_of_str "Palm")
    (lap_test xid_example (mkCtr 0 0 0 0))) as (f & Hf & Ht & _); try (by right); try done;
    [by apply lap_test_at|by left| |].
  - intros c Hc. repeat (apply elem_of_cons in Hc as [->|Hc]; [done|]).
    by apply elem_of_nil in Hc.
  - exists f. split; [exact Hf|]. rewrite Ht. by vm_compute.
Defined.

(** the frame at the very end of its block *)
Definition full_block (l : list Z) : dump :=
  mkDump (mkObex (mkFrame (mkBuf l 0 (Z.of_nat (length l)) (Z.of_nat (length l))
    (Z.of_nat (length l)) (Z.of_nat (length l))) "" "" "") 0xff) conn_start (mkCtr 0 0 0 0).

Lemma parse_xid_full_block_witness :
  run test_config 0 (full_block xid_example) = Stop OobWrite.
Proof.
  apply (parse_xid_full_block test_junk test_junk test_junk test_junk test_config
    0xfe 0 1 true 0 1 0x00000001 0xffffffff 1 0 0 [0x83; 0x24] 0 (bytes_of_str "Palm")
    (full_block xid_example)); try (by right); try done; [|by left].
  split; [simpl; lia|]. split; [by exists []|]. by apply all_bytes_check.
Defined.

Lemma parse_frmr_labels_witness :
  run test_config 0 (lap_test [0x14; 0x97; 0x62] (mkCtr 0 0 0 0))
  = Ok (tt, printed "frmr:rsp  < ca=14 pf=151 ctrl=03, nr=1 ns=1 "
      (lap_test [0x14; 0x97; 0x62] (mkCtr 0 0 0 0))).
Proof.
  etrans.
  - apply (parse_frmr_labels test_junk test_junk test_junk test_junk test_config
      0x14 0 1 0 1 3 0 []); try (by right); try (by left); try done.
    by apply lap_test_at.
  - by vm_compute.
Defined.

Lemma reach_wf_witness :
  dump_wf (lap_test [] (mkCtr 0 0 0 0)).
Proof.
  apply (reach_wf test_junk test_junk test_junk test_junk test_config).
  apply (reach_init _ _ _ _ _ (mkObex (test_frame []) 0xff) conn_start). by vm_compute.
Defined.
