(* ===== verification/Capture.v ===== *)
(** * Capture files: irdadump/capture.c

    The pcap file header, the record of a frame with its Linux cooked header,
    and their reading.  The structures are written as they lie in memory, so
    the byte order of the host is a parameter.  A file is the list of the bytes
    left to read, or of the bytes written so far. *)
From Stdlib Require Import String.
From S2P Require Import Prelude CInt NetBuf.
Local Open Scope list_scope.
Local Open Scope Z_scope.

Definition DLT_LINUX_IRDA := 144.
Definition LINUX_SLL_HOST := 0.
Definition LINUX_SLL_BROADCAST := 1.
Definition LINUX_SLL_MULTICAST := 2.
Definition LINUX_SLL_OTHERHOST := 3.
Definition LINUX_SLL_OUTGOING := 4.
Definition SLL_ADDRLEN := 8.
(** <netpacket/packet.h> *)
Definition PACKET_HOST := 0.
Definition PACKET_BROADCAST := 1.
Definition PACKET_MULTICAST := 2.
Definition PACKET_OTHERHOST := 3.
Definition PACKET_OUTGOING := 4.

Record pcap_hdr := mkPcap {
  magic : Z;
  version_major : Z;
  version_minor : Z;
  thiszone : Z;
  sigfigs : Z;
  snaplen : Z;
  network : Z }.

Definition fileHeader : pcap_hdr :=
  mkPcap 0xa1b2c3d4 2 0 0 0 (2050 + 16) DLT_LINUX_IRDA.

Record pcaprec_hdr := mkRec {
  ts_sec : Z;
  ts_usec : Z;
  incl_len : Z;
  orig_len : Z }.

Record sll_header := mkSll {
  sll_pkttype : Z;
  sll_hatype : Z;
  sll_halen : Z;
  sll_addr : list Z;
  sll_protocol : Z }.

(** <linux/if_packet.h>, the fields that the program reads *)
Record sockaddr_ll := mkFrom {
  from_protocol : Z;
  from_ifindex : Z;
  from_hatype : Z;
  from_pkttype : Z;
  from_halen : Z;
  from_addr : list Z }.

Record timeval := mkTime { tv_sec : Z; tv_usec : Z }.

Record cap_st := mkCap {
  cap_in : list Z;      (* what is left of the file read *)
  cap_out : list Z;     (* what was written *)
  cap_buf : netbuf }.   (* frame_buf *)

#[export] Program Instance cap_netbuf : Lens cap_st netbuf :=
  {| view := cap_buf; put b c := mkCap (cap_in c) (cap_out c) b |}.
Solve All Obligations with by intros; destruct_all cap_st.

Section capture.
Variable e : endian.
(** [write(fd, bs, ...)], given what the file holds: the number of bytes it
    took, or [None] for an error *)
Variable write_result : list Z → list Z → option nat.
(** what the stack holds where [struct sll_header psd_hdr] is allocated *)
Variable addr_junk : list Z.

Definition pcap_bytes (h : pcap_hdr) : list Z :=
  host32_bytes e (magic h) ++ host16_bytes e (version_major h)
  ++ host16_bytes e (version_minor h) ++ host32_bytes e (thiszone h)
  ++ host32_bytes e (sigfigs h) ++ host32_bytes e (snaplen h)
  ++ host32_bytes e (network h).

Definition pcap_of_bytes (l : list Z) : option pcap_hdr :=
  match l with
  | [m0; m1; m2; m3; a0; a1; i0; i1; t0; t1; t2; t3; g0; g1; g2; g3;
     s0; s1; s2; s3; n0; n1; n2; n3] =>
      Some (mkPcap (host32 e m0 m1 m2 m3) (host16 e a0 a1) (host16 e i0 i1)
        (host32 e t0 t1 t2 t3) (host32 e g0 g1 g2 g3) (host32 e s0 s1 s2 s3)
        (host32 e n0 n1 n2 n3))
  | _ => None
  end.

Definition rec_bytes (r : pcaprec_hdr) : list Z :=
  host32_bytes e (ts_sec r) ++ host32_bytes e (ts_usec r)
  ++ host32_bytes e (incl_len r) ++ host32_bytes e (orig_len r).

Definition rec_of_bytes (l : list Z) : option pcaprec_hdr :=
  match l with
  | [a0; a1; a2; a3; b0; b1; b2; b3; c0; c1; c2; c3; d0; d1; d2; d3] =>
      Some (mkRec (host32 e a0 a1 a2 a3) (host32 e b0 b1 b2 b3)
        (host32 e c0 c1 c2 c3) (host32 e d0 d1 d2 d3))
  | _ => None
  end.

Definition sll_bytes (h : sll_header) : list Z :=
  host16_bytes e (sll_pkttype h) ++ host16_bytes e (sll_hatype h)
  ++ host16_bytes e (sll_halen h) ++ sll_addr h ++ host16_bytes e (sll_protocol h).

Definition sll_of_bytes (l : list Z) : option sll_header :=
  match l with
  | [p0; p1; h0; h1; l0; l1; a0; a1; a2; a3; a4; a5; a6; a7; q0; q1] =>
      Some (mkSll (host16 e p0 p1) (host16 e h0 h1) (host16 e l0 l1)
        [a0; a1; a2; a3; a4; a5; a6; a7] (host16 e q0 q1))
  | _ => None
  end.

(** [write(capturefile, bs, n)]: -1 or the number of bytes taken *)
Definition write (bs : list Z) : M cap_st Z :=
  c ← get;
  match write_result (cap_out c) bs with
  | None => mret (-1)
  | Some k =>
      modify (λ c, mkCap (cap_in c) (cap_out c ++ take k bs) (cap_buf c));;
      mret (Z.of_nat k)
  end.

(** [read(capturefile, dst, n)]: what there is, up to [n] bytes *)
Definition read (n : nat) : M cap_st (list Z) :=
  c ← get;
  modify (λ c, mkCap (drop n (cap_in c)) (cap_out c) (cap_buf c));;
  mret (take n (cap_in c)).

Definition capwrite_init : M cap_st Z :=
  r ← write (pcap_bytes fileHeader);
  mret (if r <? 0 then -1 else 0).

Definition capwrite_fillsll (from : sockaddr_ll) : sll_header :=
  mkSll
    (if from_pkttype from =? PACKET_HOST then htons e LINUX_SLL_HOST
     else if from_pkttype from =? PACKET_BROADCAST then htons e LINUX_SLL_BROADCAST
     else if from_pkttype from =? PACKET_MULTICAST then htons e LINUX_SLL_MULTICAST
     else if from_pkttype from =? PACKET_OTHERHOST then htons e LINUX_SLL_OTHERHOST
     else if from_pkttype from =? PACKET_OUTGOING then htons e LINUX_SLL_OUTGOING
     else u16 (-1))
    (htons e (from_hatype from))
    (htons e (from_halen from))
    (let n := Z.to_nat (if SLL_ADDRLEN <? from_halen from then SLL_ADDRLEN
                        else from_halen from) in
     take n (from_addr from) ++ drop n addr_junk)
    (from_protocol from).

Definition capwrite_dump (len : Z) (from : sockaddr_ll) (curr_time : timeval)
    : M cap_st Z :=
  let n := u32 (len + 16) in
  let rec_hdr := mkRec (u32 (tv_sec curr_time)) (u32 (tv_usec curr_time)) n n in
  let psd_hdr := capwrite_fillsll from in
  r1 ← write (rec_bytes rec_hdr);
  if r1 <? 0 then halt (Exited (-1))
  else
    r2 ← write (sll_bytes psd_hdr);
    if r2 <? 0 then halt (Exited (-1))
    else
      bs ← zoom (peeks 0 len);
      r3 ← write bs;
      if r3 <? 0 then halt (Exited (-1)) else mret 0.

Definition capread_check : M cap_st Z :=
  bs ← read 24;
  match pcap_of_bytes bs with
  | None => mret (-1)
  | Some h =>
      mret (if negb (magic h =? magic fileHeader)
               || negb (version_major h =? version_major fileHeader)
               || negb (version_minor h =? version_minor fileHeader)
               || negb (network h =? network fileHeader)
            then -1 else 0)
  end.

(** what [capread_get] stores through its pointers; [None] when it returns -1.
    A negative [*plen] becomes a huge size: the whole rest of the file. *)
Record cap_frame := mkCapFrame {
  cap_len : Z;
  cap_dir : bool;
  cap_prot : Z;
  cap_time : timeval }.

Definition capread_get : M cap_st (option cap_frame) :=
  bs ← read 16;
  match rec_of_bytes bs with
  | None => mret None
  | Some rec_hdr =>
      let plen := s32 (u32 (orig_len rec_hdr - 16)) in
      hs ← read 16;
      match sll_of_bytes hs with
      | None => mret None
      | Some psd_hdr =>
          c ← get;
          data ← read (if plen <? 0 then length (cap_in c) else Z.to_nat plen);
          zoom (poke 0 data);;
          if Z.of_nat (length data) =? plen then
            mret (Some (mkCapFrame plen (negb (sll_pkttype psd_hdr =? LINUX_SLL_HOST))
              (sll_protocol psd_hdr) (mkTime (ts_sec rec_hdr) (ts_usec rec_hdr))))
          else mret None
      end
  end.

(** ** Proofs *)

(** writes that take everything *)
Definition complete_writes : Prop := ∀ out bs, write_result out bs = Some (length bs).

Lemma write_ok bs c :
  complete_writes →
  write bs c = Ok (Z.of_nat (length bs), mkCap (cap_in c) (cap_out c ++ bs) (cap_buf c)).
Proof.
  intros Hw. unfold write, get, modify, mbind, M_bind. rewrite Hw. simpl.
  by rewrite firstn_all.
Qed.

Lemma read_ok n l rest c :
  cap_in c = l ++ rest → n = length l →
  read n c = Ok (l, mkCap rest (cap_out c) (cap_buf c)).
Proof.
  intros Hc ->. unfold read, get, modify, mbind, M_bind. simpl.
  by rewrite Hc, drop_app_length, take_app_length.
Qed.

Lemma host16_of_bytes v : 0 ≤ v < 65536 →
  ∃ a b, host16_bytes e v = [a; b] ∧ host16 e a b = v ∧ is_byte a ∧ is_byte b.
Proof.
  intros Hv. pose proof (be16_of_bytes v Hv).
  assert (H8 : ∀ x, is_byte (u8 x)) by (intros; apply u8_range).
  destruct e; do 2 eexists; (split; [reflexivity|]); (split; [done|]); by split.
Qed.
Lemma host32_of_bytes v : 0 ≤ v < 4294967296 →
  ∃ a b c d, host32_bytes e v = [a; b; c; d] ∧ host32 e a b c d = v.
Proof.
  intros Hv. pose proof (be32_of_bytes v Hv).
  destruct e; do 4 eexists; (split; [reflexivity|]); done.
Qed.

Lemma pcap_of_bytes_bytes h :
  0 ≤ magic h < 4294967296 → 0 ≤ version_major h < 65536 → 0 ≤ version_minor h < 65536 →
  0 ≤ thiszone h < 4294967296 → 0 ≤ sigfigs h < 4294967296 → 0 ≤ snaplen h < 4294967296 →
  0 ≤ network h < 4294967296 →
  pcap_of_bytes (pcap_bytes h) = Some h ∧ length (pcap_bytes h) = 24%nat.
Proof.
  destruct h as [m a i t g s n]. cbn [magic version_major version_minor thiszone sigfigs
    snaplen network]. intros.
  unfold pcap_bytes. cbn [magic version_major version_minor thiszone sigfigs snaplen network].
  destruct (host32_of_bytes m) as (? & ? & ? & ? & -> & <-); [done|].
  destruct (host16_of_bytes a) as (? & ? & -> & <- & _); [done|].
  destruct (host16_of_bytes i) as (? & ? & -> & <- & _); [done|].
  destruct (host32_of_bytes t) as (? & ? & ? & ? & -> & <-); [done|].
  destruct (host32_of_bytes g) as (? & ? & ? & ? & -> & <-); [done|].
  destruct (host32_of_bytes s) as (? & ? & ? & ? & -> & <-); [done|].
  by destruct (host32_of_bytes n) as (? & ? & ? & ? & -> & <-).
Qed.

Lemma rec_of_bytes_bytes r :
  0 ≤ ts_sec r < 4294967296 → 0 ≤ ts_usec r < 4294967296 →
  0 ≤ incl_len r < 4294967296 → 0 ≤ orig_len r < 4294967296 →
  rec_of_bytes (rec_bytes r) = Some r ∧ length (rec_bytes r) = 16%nat.
Proof.
  destruct r as [s u i o]. unfold rec_bytes. cbn [ts_sec ts_usec incl_len orig_len]. intros.
  destruct (host32_of_bytes s) as (? & ? & ? & ? & -> & <-); [done|].
  destruct (host32_of_bytes u) as (? & ? & ? & ? & -> & <-); [done|].
  destruct (host32_of_bytes i) as (? & ? & ? & ? & -> & <-); [done|].
  by destruct (host32_of_bytes o) as (? & ? & ? & ? & -> & <-).
Qed.

Lemma sll_of_bytes_bytes h :
  0 ≤ sll_pkttype h < 65536 → 0 ≤ sll_hatype h < 65536 → 0 ≤ sll_halen h < 65536 →
  length (sll_addr h) = 8%nat → 0 ≤ sll_protocol h < 65536 →
  sll_of_bytes (sll_bytes h) = Some h ∧ length (sll_bytes h) = 16%nat.
Proof.
  destruct h as [p h l a q]. unfold sll_bytes.
  cbn [sll_pkttype sll_hatype sll_halen sll_addr sll_protocol]. intros ??? Ha ?.
  destruct (host16_of_bytes p) as (? & ? & -> & <- & _); [done|].
  destruct (host16_of_bytes h) as (? & ? & -> & <- & _); [done|].
  destruct (host16_of_bytes l) as (? & ? & -> & <- & _); [done|].
  destruct (host16_of_bytes q) as (? & ? & -> & <- & _); [done|].
  by destruct a as [|? [|? [|? [|? [|? [|? [|? [|? [|]]]]]]]]].
Qed.
End capture.

(** ** What is written is what is read *)

(** a capture file is recognised by the host that wrote it and by every
    host of the same byte order, and by no host of the other one. *)
Theorem capread_check_init e1 e2 wr c0 rest :
  complete_writes wr →
  ∃ c1, capwrite_init e1 wr c0 = Ok (0, c1) ∧
    ∀ c2, cap_in c2 = drop (length (cap_out c0)) (cap_out c1) ++ rest →
    ∃ c3, capread_check e2 c2 = Ok (if decide (e1 = e2) then 0 else -1, c3) ∧
      cap_in c3 = rest.
Proof.
  intros Hw. eexists. split.
  { unfold capwrite_init. erewrite bind_ok by (by apply write_ok).
    rewrite (proj2 (Z.ltb_ge _ _)) by lia. done. }
  intros c2. cbn [cap_out]. rewrite drop_app_length. intros Hc2.
  eexists. split.
  - unfold capread_check. erewrite bind_ok by (apply read_ok; [exact Hc2|by destruct e1]).
    by destruct e1, e2.
  - done.
Qed.

Lemma htons_range e v : 0 ≤ htons e v < 65536.
Proof.
  destruct e; unfold htons; [|apply u16_range].
  unfold swap16, le16, be16. pose proof (u8_range (u16 v / 256)).
  pose proof (u8_range (u16 v)). lia.
Qed.

(** an address as the kernel gives it *)
Definition from_ok (from : sockaddr_ll) : Prop :=
  0 ≤ from_protocol from < 65536 ∧ 0 ≤ from_halen from < 256 ∧ length (from_addr from) = 8%nat.

Lemma fillsll_ok e junk from :
  length junk = 8%nat → from_ok from →
  sll_of_bytes e (sll_bytes e (capwrite_fillsll e junk from))
    = Some (capwrite_fillsll e junk from) ∧
  length (sll_bytes e (capwrite_fillsll e junk from)) = 16%nat.
Proof.
  intros Hj (Hp & Hh & Ha). apply sll_of_bytes_bytes; simpl.
  - repeat case_match; try apply htons_range. by apply u16_range.
  - apply htons_range.
  - apply htons_range.
  - rewrite length_app, length_take, length_drop, Ha, Hj. unfold SLL_ADDRLEN.
    case_match; lia.
  - done.
Qed.

(** the direction, of the packet types of the kernel *)
Lemma fillsll_dir e junk from :
  negb (sll_pkttype (capwrite_fillsll e junk from) =? LINUX_SLL_HOST)
  = negb (from_pkttype from =? PACKET_HOST).
Proof.
  simpl. destruct (from_pkttype from =? PACKET_HOST); [by destruct e|].
  repeat case_match; by destruct e.
Qed.

(** the bytes of a record *)
Definition record_bytes (e : endian) (junk : list Z) (l : list Z) (from : sockaddr_ll)
    (tv : timeval) : list Z :=
  let n := Z.of_nat (length l) + 16 in
  rec_bytes e (mkRec (tv_sec tv) (tv_usec tv) n n)
  ++ sll_bytes e (capwrite_fillsll e junk from) ++ l.

Definition time_ok (tv : timeval) : Prop :=
  0 ≤ tv_sec tv < 4294967296 ∧ 0 ≤ tv_usec tv < 4294967296.

Lemma capwrite_dump_ok e wr junk l post from tv c :
  complete_writes wr → mem (cap_buf c) = l ++ post → Forall is_byte l →
  Z.of_nat (length l) < 2147483648 → time_ok tv →
  capwrite_dump e wr junk (Z.of_nat (length l)) from tv c
  = Ok (0, mkCap (cap_in c) (cap_out c ++ record_bytes e junk l from tv) (cap_buf c)).
Proof.
  intros Hw Hm Hb Hl [Hs Hu]. unfold capwrite_dump. rewrite !u32_small by lia.
  erewrite bind_ok by (by apply write_ok). rewrite (proj2 (Z.ltb_ge _ _)) by lia.
  erewrite bind_ok by (by apply write_ok). rewrite (proj2 (Z.ltb_ge _ _)) by lia.
  erewrite bind_ok.
  2: { apply zoom_ok. cbn [view cap_netbuf cap_buf].
       change 0 with (Z.of_nat (length (@nil Z))).
       apply (peeks_mid [] l post); done. }
  erewrite bind_ok by (by apply write_ok). rewrite (proj2 (Z.ltb_ge _ _)) by lia.
  cbn. unfold record_bytes. by rewrite <- !app_assoc.
Qed.

(** up to the copy of the frame *)
Lemma capread_get_headers e junk l from tv rest c :
  length junk = 8%nat → from_ok from →
  cap_in c = record_bytes e junk l from tv ++ rest →
  Z.of_nat (length l) < 2147483648 → time_ok tv →
  capread_get e c
  = (zoom (poke 0 l);;
     mret (Some (mkCapFrame (Z.of_nat (length l)) (negb (from_pkttype from =? PACKET_HOST))
       (from_protocol from) tv))) (mkCap rest (cap_out c) (cap_buf c)).
Proof.
  intros Hj Hfrom Hin Hl [Hs Hu]. unfold record_bytes in Hin.
  rewrite <- !app_assoc in Hin. unfold capread_get.
  destruct (rec_of_bytes_bytes e (mkRec (tv_sec tv) (tv_usec tv) (Z.of_nat (length l) + 16)
    (Z.of_nat (length l) + 16))) as [Hrec Hrl]; cbn [ts_sec ts_usec incl_len orig_len]; try lia.
  destruct (fillsll_ok e junk from Hj Hfrom) as [Hsll Hsl].
  erewrite bind_ok by (by apply read_ok). rewrite Hrec.
  erewrite bind_ok by (by apply read_ok). rewrite Hsll.
  cbn [ts_sec ts_usec orig_len].
  replace (Z.of_nat (length l) + 16 - 16) with (Z.of_nat (length l)) by lia.
  rewrite u32_small, s32_small by lia.
  rewrite (proj2 (Z.ltb_ge _ _)) by lia.
  unfold get at 1, mbind at 1, M_bind at 1.
  erewrite bind_ok by (apply read_ok; [reflexivity|by rewrite Nat2Z.id]).
  rewrite Z.eqb_refl, fillsll_dir. by destruct tv.
Qed.

Lemma capread_get_ok e junk l from tv rest c :
  length junk = 8%nat → from_ok from → Forall is_byte l →
  cap_in c = record_bytes e junk l from tv ++ rest →
  (length l ≤ length (mem (cap_buf c)))%nat →
  Z.of_nat (length l) < 2147483648 → time_ok tv →
  capread_get e c
  = Ok (Some (mkCapFrame (Z.of_nat (length l)) (negb (from_pkttype from =? PACKET_HOST))
                (from_protocol from) tv),
        mkCap rest (cap_out c)
          (set_mem (l ++ drop (length l) (mem (cap_buf c))) (cap_buf c))).
Proof.
  intros Hj Hfrom Hb Hin Hroom Hl Htv.
  erewrite capread_get_headers by done.
  assert (Hp : poke 0 l (cap_buf c)
    = Ok (tt, set_mem (l ++ drop (length l) (mem (cap_buf c))) (cap_buf c))).
  { change 0 with (Z.of_nat (length (@nil Z))).
    apply (poke_mid [] (take (length l) (mem (cap_buf c)))
      (drop (length l) (mem (cap_buf c)))); [by rewrite take_drop| |done].
    by rewrite length_take, Nat.min_l by lia. }
  erewrite bind_ok by (apply zoom_ok; exact Hp). done.
Qed.

(** C23: a captured frame reads back: whatever the frame, its address and its
    time, the record that [capwrite_dump] appends is one that [capread_get]
    reads on a host of the same byte order, with the same bytes, length, time
    and protocol field, and the direction of the frame. *)
Theorem capture_roundtrip e wr junk l post from tv c0 rest :
  complete_writes wr → length junk = 8%nat → from_ok from → time_ok tv →
  mem (cap_buf c0) = l ++ post → Forall is_byte l → Z.of_nat (length l) < 2147483648 →
  ∃ c1, capwrite_dump e wr junk (Z.of_nat (length l)) from tv c0 = Ok (0, c1) ∧
    ∀ c2, cap_in c2 = drop (length (cap_out c0)) (cap_out c1) ++ rest →
     (length l ≤ length (mem (cap_buf c2)))%nat →
     ∃ c3, capread_get e c2
       = Ok (Some (mkCapFrame (Z.of_nat (length l)) (negb (from_pkttype from =? PACKET_HOST))
                     (from_protocol from) tv), c3) ∧
       cap_in c3 = rest ∧ take (length l) (mem (cap_buf c3)) = l.
Proof.
  intros Hw Hj Hfrom Htv Hm Hb Hl. eexists. split; [by eapply capwrite_dump_ok|].
  cbn [cap_out]. rewrite drop_app_length. intros c2 Hin Hroom. eexists.
  split; [by eapply capread_get_ok|]. split; [done|]. simpl. by rewrite take_app_length.
Qed.

(** the length in the record is not checked against the 2050 bytes of
    [frame_buf]: a record of a longer frame makes [read] store past the block. *)
Theorem capread_get_overflow e junk l from tv rest c :
  length junk = 8%nat → from_ok from → Forall is_byte l →
  cap_in c = record_bytes e junk l from tv ++ rest →
  (length (mem (cap_buf c)) < length l)%nat →
  Z.of_nat (length l) < 2147483648 → time_ok tv →
  capread_get e c = Stop OobWrite.
Proof.
  intros Hj Hfrom Hb Hin Hroom Hl Htv.
  erewrite capread_get_headers by done.
  apply bind_stop, zoom_stop. unfold poke, get, mbind, M_bind.
  rewrite decide_False; [done|]. cbn [view cap_netbuf cap_buf]. lia.
Qed.

(** ** Witnesses *)
Definition all_written (_ bs : list Z) : option nat := Some (length bs).
Definition test_junk8 : list Z := [0xde; 0xad; 0xbe; 0xef; 0; 0; 0; 0].
Definition test_from : sockaddr_ll :=
  mkFrom 0x1700 2 783 PACKET_OUTGOING 4 [1; 2; 3; 4; 0; 0; 0; 0].
Definition test_cap (input : list Z) (n : nat) : cap_st :=
  mkCap input [] (lay [] [] (replicate n 0)).

Lemma test_from_ok : from_ok test_from.
Proof. by repeat split. Defined.

Lemma capread_check_init_witness :
  ∃ c1, capwrite_init LittleEndian all_written (test_cap [] 16) = Ok (0, c1) ∧
    ∀ c2, cap_in c2 = drop 0 (cap_out c1) ++ [7] →
    ∃ c3, capread_check BigEndian c2 = Ok (-1, c3) ∧ cap_in c3 = [7].
Proof.
  apply (capread_check_init LittleEndian BigEndian all_written (test_cap [] 16) [7]). done.
Defined.

Lemma capture_roundtrip_witness :
  ∃ c1, capwrite_dump LittleEndian all_written test_junk8 3 test_from (mkTime 10 20)
      (mkCap [] [] (lay [] [0xff; 0x3f; 1] [0; 0])) = Ok (0, c1) ∧
    ∀ c2, cap_in c2 = drop 0 (cap_out c1) ++ [9] →
     (3 ≤ length (mem (cap_buf c2)))%nat →
     ∃ c3, capread_get LittleEndian c2 = Ok (Some (mkCapFrame 3 true 0x1700 (mkTime 10 20)), c3) ∧
       cap_in c3 = [9] ∧ take 3 (mem (cap_buf c3)) = [0xff; 0x3f; 1].
Proof.
  apply (capture_roundtrip LittleEndian all_written test_junk8 [0xff; 0x3f; 1] [0; 0] test_from
    (mkTime 10 20) (mkCap [] [] (lay [] [0xff; 0x3f; 1] [0; 0])) [9]); try done.
  repeat constructor; done.
Defined.

Lemma capread_get_overflow_witness :
  capread_get BigEndian (test_cap (record_bytes BigEndian test_junk8 (replicate 20 1) test_from
    (mkTime 1 2)) 16) = Stop OobWrite.
Proof.
  apply (capread_get_overflow BigEndian test_junk8 (replicate 20 1) test_from (mkTime 1 2) []);
    try done.
  - by repeat constructor.
  - simpl. lia.
Defined.
