(* ===== verification/IrDump.v ===== *)
(** * irdadump: irdadump.c and main.c

    The loop of the program: a frame comes from the packet socket or from a
    capture file, is filtered, printed on one line ([parse_irda_frame]) and
    appended to a capture file; the times; the options. *)
From Stdlib Require Import String Ascii SpecFloat.
From S2P Require Import Prelude CInt Printf CFloat NetBuf Frame Obex Conn Dump IrLMP IrLAP Capture.
Local Open Scope string_scope.
Local Open Scope list_scope.
Local Open Scope Z_scope.

Definition MAX_FRAME_SIZE := 2050.
Definition ETH_P_IRDA := 0x0017.

(** the [config_*] variables *)
Record options := mkOpts {
  config_print_diff : bool;
  config_dump_frame : bool;
  opt_print_irlap : bool;
  opt_print_irlmp : bool;
  opt_print_lost_frames : bool;
  config_snaplen : Z;
  config_dump_bytes : bool;
  config_snapcols : Z;
  opt_force_ttp : bool;
  config_capturewrite : Z;
  config_captureread : Z }.

Definition default_options : options :=
  mkOpts false false true true false 32 false 16 false (-1) (-1).

Definition decoder_config (o : options) : config :=
  mkConfig (opt_print_irlap o) (opt_print_irlmp o) (opt_print_lost_frames o)
    (opt_force_ttp o).

(** The decoders' state with [frame_buf], the times that [curr_time] and
    [prev_time] point to, and the capture files. *)
Record irdump := mkIr {
  ir_dump : dump;
  curr_time : timeval;
  prev_time : timeval;
  ir_in : list Z;
  ir_out : list Z;
  packets : Z }.

#[export] Program Instance ir_dump_lens : Lens irdump dump :=
  {| view := ir_dump;
     put d s := mkIr d (curr_time s) (prev_time s) (ir_in s) (ir_out s) (packets s) |}.
Solve All Obligations with by intros; destruct_all irdump.

Definition ir_frame (s : irdump) : frame := d_frame (ir_dump s).
Definition with_ir_frame (f : frame) (s : irdump) : irdump :=
  mkIr (with_frame f (ir_dump s)) (curr_time s) (prev_time s) (ir_in s) (ir_out s) (packets s).

#[export] Program Instance ir_frame_lens : Lens irdump frame :=
  {| view := ir_frame; put := with_ir_frame |}.
Solve All Obligations with
  by intros; destruct_all irdump; destruct_all dump; destruct_all obex_st.

Definition ir_buf (s : irdump) : netbuf := f_buf (ir_frame s).
Definition with_ir_buf (b : netbuf) (s : irdump) : irdump :=
  with_ir_frame (mkFrame b (f_str (ir_frame s)) (f_out (ir_frame s)) (f_err (ir_frame s))) s.

#[export] Program Instance ir_buf_lens : Lens irdump netbuf :=
  {| view := ir_buf; put := with_ir_buf |}.
Solve All Obligations with
  by intros; destruct_all irdump; destruct_all dump; destruct_all obex_st;
     destruct_all frame.

#[export] Program Instance ir_cap_lens : Lens irdump cap_st :=
  {| view s := mkCap (ir_in s) (ir_out s) (ir_buf s);
     put c s := let s := with_ir_buf (cap_buf c) s in
       mkIr (ir_dump s) (curr_time s) (prev_time s) (cap_in c) (cap_out c) (packets s) |}.
Solve All Obligations with
  by intros; destruct_all irdump; destruct_all dump; destruct_all obex_st;
     destruct_all frame; destruct_all cap_st.

(** ** The times *)
Definition print_time (timev : timeval) : M frame unit :=
  let s := Z.rem (tv_sec timev) 86400 in
  let s := if s <? 0 then s + 86400 else s in
  emit (fmt_02d (Z.quot s 3600) +:+ ":" +:+ fmt_02d (Z.quot (Z.rem s 3600) 60) +:+ ":"
    +:+ fmt_02d (Z.rem s 60) +:+ "." +:+ fmt_06u (u32 (tv_usec timev)) +:+ " ").

(** [((float) sec * 1000000 + usec) / 1000.0], assigned to a [float] *)
Definition diff_ms (sec usec : Z) : spec_float :=
  float_of_double (SFdiv 53 1024
    (SFadd 24 128 (SFmul 24 128 (float_of_Z sec) (float_of_Z 1000000)) (float_of_Z usec))
    (double_of_Z 1000)).

(** [%07.2f] *)
Definition fmt_07_2f (x : spec_float) : string :=
  let digits h := fmt_u (h / 100) +:+ "." +:+ fmt_02d (h mod 100) in
  match x with
  | S754_zero s => if s then "-000.00" else "0000.00"
  | S754_finite true m e => "-" +:+ pad0 6 (digits (hundredths m e))
  | S754_finite false m e => pad0 7 (digits (hundredths m e))
  | S754_infinity s => if s then "   -inf" else "    inf"
  | S754_nan => "    nan"
  end.

(** [*timev] and [*prev_timev] are changed in place: the first one borrows a
    second, the second one becomes the difference. *)
Definition diff_times (timev prev_timev : timeval) : timeval * timeval :=
  let timev := if tv_usec timev <? tv_usec prev_timev
               then mkTime (tv_sec timev - 1) (tv_usec timev + 1000000) else timev in
  (timev, mkTime (tv_sec timev - tv_sec prev_timev) (tv_usec timev - tv_usec prev_timev)).

Definition print_diff_time : M irdump unit :=
  s ← get;
  let '(timev, prev_timev) := diff_times (curr_time s) (prev_time s) in
  modify (λ s, mkIr (ir_dump s) timev prev_timev (ir_in s) (ir_out s) (packets s));;
  zoom (emit ("(" +:+ fmt_07_2f (diff_ms (tv_sec prev_timev) (tv_usec prev_timev))
    +:+ " ms) ")).

(** the exchange of the two pointers *)
Definition swap_times : M irdump unit :=
  modify (λ s, mkIr (ir_dump s) (prev_time s) (curr_time s) (ir_in s) (ir_out s) (packets s)).

(** ** Byte dumps *)

(** [for (i = 0; i < maxlen; i++) { ... frame_buf->head[i] ... }] *)
Fixpoint for_head (rounds : nat) (i : Z) (body : Z → Z → string) : M irdump unit :=
  match rounds with
  | O => mret tt
  | S rounds =>
      b ← zoom (peek i);
      zoom (emit (body i b));;
      for_head rounds (i + 1) body
  end.

Definition printable (b : Z) : Z :=
  let c := s8 b in if (c <? 32) || (126 <? c) then 46 else c.

Section irdadump.
Variable name_junk attr_junk string_junk obex_junk : list Z.
Variable heap_fill : Z → Z.
Variable realloc_ok : Z → bool.
Variable e : endian.
Variable write_result : list Z → list Z → option nat.
Variable addr_junk : list Z.
Variable opts : options.
Variable ifindex : Z.

Definition parse_irda_frame (type len : Z) : M irdump unit :=
  t ← gets curr_time;
  zoom (print_time t);;
  when (config_print_diff opts) (print_diff_time;; swap_times);;
  when (opt_print_irlap opts)
    (zoom (parse_irlap_frame name_junk attr_junk string_junk obex_junk
      (decoder_config opts) type));;
  zoom (emit ("(" +:+ fmt_d len +:+ ") "));;
  let maxlen := if len <? config_snaplen opts then len else config_snaplen opts in
  when (config_dump_frame opts)
    (zoom (emit (nl +:+ tab));;
     for_head (Z.to_nat maxlen) 0 (λ _ b, fmt_02x b);;
     zoom (emit (nl +:+ tab));;
     for_head (Z.to_nat maxlen) 0 (λ _ b, " " +:+ char1 (printable b)));;
  when (config_dump_bytes opts)
    (for_head (Z.to_nat maxlen) 0 (λ i b,
      (if Z.rem i (config_snapcols opts) =? 0 then nl +:+ tab else "")
      +:+ fmt_02x b +:+ " ")).

(** a frame of the packet socket: its bytes, its address, and its time
    ([None] when the ioctl fails) *)
Record packet := mkPacket {
  p_data : list Z;
  p_from : sockaddr_ll;
  p_stamp : option timeval }.

Definition set_curr (t : timeval) : M irdump unit :=
  modify (λ s, mkIr (ir_dump s) t (prev_time s) (ir_in s) (ir_out s) (packets s)).

(** [irdadump_loop] with [config_captureread >= 0] *)
Definition irdadump_read : M irdump Z :=
  r ← zoom (capread_get e);
  match r with
  | None => halt (Exited (-1))
  | Some f =>
      set_curr (cap_time f);;
      if negb (cap_prot f =? ETH_P_IRDA) then mret (-1)
      else if cap_len f =? 0 then mret (-1)
      else
        zoom (g_netbuf_put heap_fill realloc_ok (u32 (cap_len f)));;
        parse_irda_frame (b2z (cap_dir f)) (cap_len f);;
        mret 0
  end.

(** [received]: what [recvfrom] returns; [None] is an error *)
Definition irdadump_loop (received : option packet) : M irdump Z :=
  zoom (modify g_netbuf_recycle);;
  if 0 <=? config_captureread opts then irdadump_read
  else
    match received with
    | None => halt (Exited (-1))
    | Some p =>
        let data := take (Z.to_nat MAX_FRAME_SIZE) (p_data p) in
        let len := Z.of_nat (length data) in
        zoom (b ← get; poke (NetBuf.data b) data);;
        if negb (from_protocol (p_from p) =? ntohs e ETH_P_IRDA) then mret (-1)
        else if truth ifindex && negb (from_ifindex (p_from p) =? ifindex) then mret (-1)
        else if len =? 0 then mret (-1)
        else
          zoom (g_netbuf_put heap_fill realloc_ok (u32 len));;
          match p_stamp p with
          | None => halt (Exited (-1))
          | Some t =>
              set_curr t;;
              parse_irda_frame (from_pkttype (p_from p)) len;;
              t ← gets curr_time;
              when (0 <=? config_capturewrite opts)
                (zoom (capwrite_dump e write_result addr_junk len (p_from p) t);; mret tt);;
              mret 0
          end
    end.

(** one round of the loop of [main]: [puts(line->str)] and
    [g_string_truncate(line, 0)] for a frame that was not filtered away *)
Definition main_round (received : option packet) : M irdump unit :=
  r ← irdadump_loop received;
  if r =? -1 then mret tt
  else
    modify (λ s, mkIr (ir_dump s) (curr_time s) (prev_time s) (ir_in s) (ir_out s)
      (packets s + 1));;
    zoom (modify (λ f, mkFrame (f_buf f) "" (f_out f +:+ f_str f +:+ nl) (f_err f))).

(** what [main] does once the capture file is open *)
Definition start_capture : M irdump unit :=
  r ← zoom (capwrite_init e write_result);
  if r <? 0 then halt (Exited (-1)) else mret tt.
Definition start_replay : M irdump unit :=
  r ← zoom (capread_check e);
  if r <? 0 then halt (Exited (-1)) else mret tt.

(** [while (1)], over the frames that the socket delivers *)
Fixpoint main_live (ps : list packet) : M irdump unit :=
  match ps with
  | [] => mret tt
  | p :: ps => main_round (Some p);; main_live ps
  end.

(** ... and over a capture file: it ends by [exit] *)
Fixpoint main_read (fuel : nat) : M irdump unit :=
  match fuel with
  | O => halt OutOfFuel
  | S fuel => main_round None;; main_read fuel
  end.

(** the rounds of [while (1)] until a signal comes, for what the socket holds in each
    round: the status, when a round ended by [exit], and the state.  What a round that
    exits printed before is not kept: it prints nothing but messages of the decoder *)
Fixpoint rounds (rs : list (option packet)) (s : irdump) : res (option Z * irdump) :=
  match rs with
  | [] => Ok (None, s)
  | r :: rs =>
      match main_round r s with
      | Ok (_, s') => rounds rs s'
      | Stop (Exited c) => Ok (Some c, s)
      | Stop w => Stop w
      end
  end.
End irdadump.

(** ** Options *)

(** [atoi]: white space, an optional sign, digits *)
Fixpoint atoi_digits (s : string) (acc : Z) : Z :=
  match s with
  | String c s =>
      let d := ord c - 48 in
      if (0 <=? d) && (d <=? 9) then atoi_digits s (acc * 10 + d) else acc
  | EmptyString => acc
  end.
Fixpoint atoi (s : string) : Z :=
  match s with
  | String c t =>
      if (ord c =? 32) || ((9 <=? ord c) && (ord c <=? 13)) then atoi t
      else if ord c =? 45 then - atoi_digits t 0
      else if ord c =? 43 then atoi_digits t 0
      else atoi_digits s 0
  | EmptyString => 0
  end.

(** the variables that the options of [main] set *)
Record settings := mkSet {
  set_opts : options;
  set_ifdev : option string;
  set_write : option string;
  set_read : option string }.

Definition upd_opts (f : options → options) (s : settings) : settings :=
  mkSet (f (set_opts s)) (set_ifdev s) (set_write s) (set_read s).

(** One round of the [getopt] loop: the option letter and its argument.  The
    cases without [break] run into the next one. *)
Definition set_force (s : settings) : settings :=
  upd_opts (λ o, mkOpts (config_print_diff o) (config_dump_frame o) (opt_print_irlap o)
    (opt_print_irlmp o) (opt_print_lost_frames o) (config_snaplen o) (config_dump_bytes o)
    (config_snapcols o) true (config_capturewrite o) (config_captureread o)) s.
Definition set_snaplen (n : Z) (s : settings) : settings :=
  upd_opts (λ o, mkOpts (config_print_diff o) (config_dump_frame o) (opt_print_irlap o)
    (opt_print_irlmp o) (opt_print_lost_frames o) n (config_dump_bytes o)
    (config_snapcols o) (opt_force_ttp o) (config_capturewrite o) (config_captureread o)) s.

Definition option_case (c : ascii) (optarg : string) : M settings unit :=
  if Ascii.eqb c "b" then modify (upd_opts (λ o, mkOpts (config_print_diff o)
    (config_dump_frame o) (opt_print_irlap o) (opt_print_irlmp o) (opt_print_lost_frames o)
    (config_snaplen o) true (config_snapcols o) (opt_force_ttp o) (config_capturewrite o)
    (config_captureread o)))
  else if Ascii.eqb c "c" then
    let n := atoi optarg in
    modify (upd_opts (λ o, mkOpts (config_print_diff o) (config_dump_frame o)
      (opt_print_irlap o) (opt_print_irlmp o) (opt_print_lost_frames o) (config_snaplen o)
      (config_dump_bytes o) (if n <=? 0 then 16 else n) (opt_force_ttp o)
      (config_capturewrite o) (config_captureread o)))
  else if Ascii.eqb c "d" then modify (upd_opts (λ o, mkOpts true (config_dump_frame o)
    (opt_print_irlap o) (opt_print_irlmp o) (opt_print_lost_frames o) (config_snaplen o)
    (config_dump_bytes o) (config_snapcols o) (opt_force_ttp o) (config_capturewrite o)
    (config_captureread o)))
  else if Ascii.eqb c "i" then
    modify (λ s, mkSet (set_opts s) (Some optarg) (set_write s) (set_read s))
  else if Ascii.eqb c "l" then mret tt
  else if Ascii.eqb c "p" then modify (upd_opts (λ o, mkOpts (config_print_diff o)
    (config_dump_frame o) false (opt_print_irlmp o) (opt_print_lost_frames o)
    (config_snaplen o) (config_dump_bytes o) (config_snapcols o) (opt_force_ttp o)
    (config_capturewrite o) (config_captureread o)))
  else if Ascii.eqb c "r" then
    modify (λ s, mkSet (set_opts s) (set_ifdev s) (set_write s) (Some optarg))
  else if Ascii.eqb c "s" then
    let n := atoi optarg in
    modify (set_snaplen (if n <=? 0 then 2050 else n));;
    modify set_force                        (* no break: case 't' *)
  else if Ascii.eqb c "t" then modify set_force
  else if Ascii.eqb c "v" then halt (Exited 0)
  else if Ascii.eqb c "w" then
    modify (λ s, mkSet (set_opts s) (set_ifdev s) (Some optarg) (set_read s))
  else if Ascii.eqb c "x" then modify (upd_opts (λ o, mkOpts (config_print_diff o) true
    (opt_print_irlap o) (opt_print_irlmp o) (opt_print_lost_frames o) (config_snaplen o)
    (config_dump_bytes o) (config_snapcols o) (opt_force_ttp o) (config_capturewrite o)
    (config_captureread o)))
  else if Ascii.eqb c "?" then halt (Exited 1)
  else mret tt.

(** the options that [getopt] returns, in order *)
Fixpoint parse_options (args : list (ascii * string)) : M settings unit :=
  match args with
  | [] => mret tt
  | (c, optarg) :: args => option_case c optarg;; parse_options args
  end.

Definition start_settings : settings := mkSet default_options None None None.

(** ** Times *)
Definition instant (t : timeval) : Z := tv_sec t * 1000000 + tv_usec t.

Lemma c_modulo_day n :
  (let s := Z.rem n 86400 in if s <? 0 then s + 86400 else s) = n mod 86400.
Proof.
  cbn zeta. destruct (Z.ltb_spec (Z.rem n 86400) 0);
    Z.to_euclidean_division_equations; lia.
Qed.

(** the time of day of a frame, also for a negative [tv_sec]: the hours,
    minutes and seconds printed are those of [tv_sec] within its day. *)
Theorem print_time_spec tv f :
  0 ≤ tv_usec tv < 4294967296 →
  ∃ h m s, print_time tv f = Ok (tt, say (fmt_02d h +:+ ":" +:+ fmt_02d m +:+ ":"
      +:+ fmt_02d s +:+ "." +:+ fmt_06u (tv_usec tv) +:+ " ") f) ∧
    0 ≤ h < 24 ∧ 0 ≤ m < 60 ∧ 0 ≤ s < 60 ∧
    h * 3600 + m * 60 + s = tv_sec tv mod 86400.
Proof.
  intros Hu. unfold print_time. pose proof (c_modulo_day (tv_sec tv)) as Hd.
  cbn zeta in Hd |- *. rewrite Hd, u32_small by done.
  assert (0 ≤ tv_sec tv mod 86400 < 86400) by (apply Z.mod_pos_bound; lia).
  eexists _, _, _. split; [done|].
  Z.to_euclidean_division_equations; lia.
Qed.

(** with [-d], [prev_time] becomes the time elapsed since the previous
    frame, to the microsecond, whichever fraction is larger, and the instant of
    the frame is kept (the second is borrowed in place). *)
Theorem diff_times_elapsed t p :
  let '(t', d) := diff_times t p in
  instant d = instant t - instant p ∧ instant t' = instant t ∧
  (0 ≤ tv_usec t < 1000000 → 0 ≤ tv_usec p < 1000000 → 0 ≤ tv_usec d < 1000000).
Proof.
  unfold diff_times, instant.
  destruct (Z.ltb_spec (tv_usec t) (tv_usec p)); simpl; lia.
Qed.

(** the float arithmetic and the format, on some differences *)
Example diff_ms_examples :
  fmt_07_2f (diff_ms 0 1500) = "0001.50" ∧ fmt_07_2f (diff_ms 1 0) = "1000.00" ∧
  fmt_07_2f (diff_ms 0 0) = "0000.00" ∧ fmt_07_2f (diff_ms (-1) 999000) = "-001.00" ∧
  fmt_07_2f (diff_ms 100 123456) = "100123.45" ∧ fmt_07_2f (diff_ms 0 999999) = "1000.00".
Proof. by vm_compute. Qed.

(** ** The options *)
Definition forces_ttp (args : list (ascii * string)) : bool :=
  existsb (λ a, Ascii.eqb a.1 "s" || Ascii.eqb a.1 "t") args.

(** what the options leave sound: [maxlen] and [i % config_snapcols] *)
Definition limits_ok (s : settings) : Prop :=
  0 < config_snaplen (set_opts s) ∧ 0 < config_snapcols (set_opts s).

Lemma option_case_ok c optarg s s' :
  option_case c optarg s = Ok (tt, s') →
  (limits_ok s → limits_ok s') ∧
  opt_force_ttp (set_opts s')
    = opt_force_ttp (set_opts s) || (Ascii.eqb c "s" || Ascii.eqb c "t").
Proof.
  assert (Hn : ∀ n d, 0 < d → 0 < if n <=? 0 then d else n)
    by (intros n d ?; destruct (Z.leb_spec n 0); lia).
  unfold option_case, limits_ok.
  repeat match goal with
  | |- context [Ascii.eqb c ?x] =>
      let E := fresh in destruct (Ascii.eqb c x) eqn:E;
      [apply Ascii.eqb_eq in E as ->|]
  end; intros [= <-]; simpl; rewrite ?orb_true_r, ?orb_false_r;
    (split; [|done]); intros [? ?]; split; try done; by apply Hn.
Qed.

(** whatever the options, the limits of the byte dumps stay positive (the
    number of columns is a divisor); and [-s], which should only set how many
    bytes are dumped, also forces TinyTP, as [-t] does. *)
Theorem parse_options_limits args s' :
  parse_options args start_settings = Ok (tt, s') →
  limits_ok s' ∧ opt_force_ttp (set_opts s') = forces_ttp args.
Proof.
  assert (H : ∀ s, parse_options args s = Ok (tt, s') → limits_ok s →
    limits_ok s' ∧ opt_force_ttp (set_opts s') = opt_force_ttp (set_opts s) || forces_ttp args).
  { induction args as [|[c optarg] args IH]; intros s; simpl.
    - intros [= <-]. by rewrite orb_false_r.
    - intros ([] & s1 & H1 & H2)%bind_ok_inv Hs.
      apply option_case_ok in H1 as [Hl Hf]. destruct (IH s1 H2 (Hl Hs)) as [? Hf'].
      split; [done|]. rewrite Hf', Hf. by rewrite <- orb_assoc. }
  intros Hp. by apply (H start_settings).
Qed.

(** ** Reading a capture file ends *)
Definition keeps_in {A} (m : M irdump A) : Prop :=
  ∀ s a s', m s = Ok (a, s') → ir_in s' = ir_in s.

Lemma in_ret {A} (a : A) : keeps_in (mret a).
Proof. by intros s b s' [= <- <-]. Qed.
Lemma in_halt {A} w : keeps_in (halt (A:=A) w).
Proof. by intros s b s' [=]. Qed.
Lemma in_get {A} (f : irdump → A) : keeps_in (gets f).
Proof. by intros s b s' [= <- <-]. Qed.
Lemma in_gets : keeps_in get.
Proof. by intros s b s' [= <- <-]. Qed.
Lemma in_modify f : (∀ s, ir_in (f s) = ir_in s) → keeps_in (modify f).
Proof. intros Hf s b s' [= <- <-]. apply Hf. Qed.
Lemma in_bind {A B} (m : M irdump A) (k : A → M irdump B) :
  keeps_in m → (∀ a, keeps_in (k a)) → keeps_in (m ≫= k).
Proof.
  intros Hm Hk s b s' (a & s1 & H1 & H2)%bind_ok_inv.
  by rewrite (Hk a s1 b s' H2), (Hm s a s1 H1).
Qed.
Lemma in_zoom {F A} `{!Lens irdump F} (m : M F A) :
  (∀ f s, ir_in (put f s) = ir_in s) → keeps_in (zoom m).
Proof.
  intros Hp s b s'. unfold zoom. destruct (m (view s)) as [[a f]|]; intros [= <- <-].
  apply Hp.
Qed.

Ltac same_in :=
  repeat match goal with
  | |- ∀ _, keeps_in _ => intro
  | |- keeps_in (_ ≫= _) => apply in_bind; [|intro]
  | |- keeps_in (when ?b _) => destruct b; [unfold when|apply in_ret]
  | |- keeps_in (zoom _) => by apply in_zoom
  | |- keeps_in (mret _) => apply in_ret
  | |- keeps_in (halt _) => apply in_halt
  | |- keeps_in (gets _) => apply in_get
  | |- keeps_in get => apply in_gets
  | |- keeps_in (modify _) => by apply in_modify
  | |- keeps_in (match ?x with _ => _ end) => destruct x
  | H : _ |- keeps_in _ => apply H
  end.

Lemma for_head_keeps n i body : keeps_in (for_head n i body).
Proof. revert i. induction n; intros i; simpl; same_in. Qed.

Lemma for_head_ends n i body : terminating (for_head n i body).
Proof. revert i. induction n; intros i; simpl; [no_fuel|]. unfold peek. by no_fuel. Qed.
#[export] Hint Resolve for_head_ends : fuel.

Section reading.
Variable nj aj sj oj : list Z.
Variable hf : Z → Z.
Variable ok : Z → bool.
Variable e : endian.
Variable opts : options.

Lemma parse_irda_frame_keeps type len :
  keeps_in (parse_irda_frame nj aj sj oj opts type len).
Proof.
  pose proof for_head_keeps. unfold parse_irda_frame, print_diff_time, swap_times. same_in.
Qed.

Lemma parse_irda_frame_ends type len :
  terminating (parse_irda_frame nj aj sj oj opts type len).
Proof. unfold parse_irda_frame, print_diff_time, swap_times, print_time. no_fuel. Qed.

Lemma capread_get_consumes c f c' :
  capread_get e c = Ok (Some f, c') → (length (cap_in c') < length (cap_in c))%nat.
Proof.
  intros (bs & c1 & H1 & H)%bind_ok_inv. injection H1 as <- <-.
  destruct (rec_of_bytes e _) as [r|] eqn:Er; [|done].
  assert (Hl : (0 < length (cap_in c))%nat) by (destruct (cap_in c); [done|simpl; lia]).
  apply bind_ok_inv in H as (hs & c2 & H2 & H). injection H2 as <- <-.
  destruct (sll_of_bytes e _); [|done].
  apply bind_ok_inv in H as (? & ? & Hg & H). injection Hg as <- <-.
  apply bind_ok_inv in H as (data & c3 & H3 & H). injection H3 as <- <-.
  apply bind_ok_inv in H as ([] & c4 & H4 & H). unfold zoom in H4.
  destruct (poke _ _ _) as [[[] b]|]; [|done]. injection H4 as <-.
  destruct (_ =? _); [|done]. injection H as <- <-.
  simpl. rewrite !length_drop. lia.
Qed.

Lemma capread_get_ends : terminating (capread_get e).
Proof. unfold capread_get, read, poke. no_fuel. Qed.

Lemma g_netbuf_put_ends n : terminating (g_netbuf_put hf ok n).
Proof. unfold g_netbuf_put, g_netbuf_realloc. no_fuel. Qed.

Lemma irdadump_read_ends : terminating (irdadump_read nj aj sj oj hf ok e opts).
Proof.
  pose proof capread_get_ends. pose proof g_netbuf_put_ends.
  pose proof parse_irda_frame_ends. unfold irdadump_read, set_curr. no_fuel; auto.
Qed.

Lemma irdadump_read_consumes s r s' :
  irdadump_read nj aj sj oj hf ok e opts s = Ok (r, s') →
  (length (ir_in s') < length (ir_in s))%nat.
Proof.
  intros (o & s1 & H1 & H)%bind_ok_inv. destruct o as [f|]; [|done].
  assert (Hc : (length (ir_in s1) < length (ir_in s))%nat).
  { unfold zoom in H1. destruct (capread_get e (view s)) as [[o c]|] eqn:E; [|done].
    injection H1 as -> <-. by apply capread_get_consumes in E. }
  enough (ir_in s' = ir_in s1) as -> by done.
  revert H. clear. revert s1 r s'.
  match goal with |- context [?m _ = Ok _] => change (keeps_in m) end.
  pose proof parse_irda_frame_keeps. unfold set_curr. same_in.
Qed.

Variable wr : list Z → list Z → option nat.
Variable junk : list Z.
Variable ifindex : Z.
Hypothesis reading : 0 ≤ config_captureread opts.

Lemma main_round_read s :
  match main_round nj aj sj oj hf ok e wr junk opts ifindex None s with
  | Ok (_, s') => (length (ir_in s') < length (ir_in s))%nat
  | Stop w => w ≠ OutOfFuel
  end.
Proof.
  set (s0 := put (g_netbuf_recycle (view s)) s). pose proof (irdadump_read_ends s0) as Hend.
  assert (Hl : irdadump_loop nj aj sj oj hf ok e wr junk opts ifindex None s
    = irdadump_read nj aj sj oj hf ok e opts s0)
    by (unfold irdadump_loop; by rewrite (proj2 (Z.leb_le _ _) reading)).
  unfold main_round, mbind at 1, M_bind at 1. rewrite Hl.
  destruct (irdadump_read _ _ _ _ _ _ _ _ s0) as [[r s1]|w] eqn:E;
    [|cbn; congruence].
  apply irdadump_read_consumes in E. change (length (ir_in s1) < length (ir_in s))%nat in E.
  by destruct (r =? -1).
Qed.
End reading.

(** C25: with [-r], whatever the bytes of the capture file, the program ends:
    every round of the loop of [main] takes bytes from the file or stops, at
    the end of the file at the latest. *)
Theorem main_read_ends nj aj sj oj hf ok e wr junk opts ifindex fuel s :
  0 ≤ config_captureread opts → (length (ir_in s) < fuel)%nat →
  ∃ w, main_read nj aj sj oj hf ok e wr junk opts ifindex fuel s = Stop w ∧ w ≠ OutOfFuel.
Proof.
  intros Hr. revert s. induction fuel as [|fuel IH]; intros s Hf; [lia|]. simpl.
  pose proof (main_round_read nj aj sj oj hf ok e opts wr junk ifindex Hr s) as H.
  unfold mbind at 1, M_bind at 1.
  destruct (main_round _ _ _ _ _ _ _ _ _ _ _ _ _) as [[[] s1]|w]; [|by eauto].
  apply IH. lia.
Qed.

(** ** Witnesses *)
Lemma print_time_spec_witness :
  ∃ h m s, print_time (mkTime (-1) 5) (test_frame []) = Ok (tt, say (fmt_02d h +:+ ":"
      +:+ fmt_02d m +:+ ":" +:+ fmt_02d s +:+ "." +:+ fmt_06u 5 +:+ " ") (test_frame [])) ∧
    0 ≤ h < 24 ∧ 0 ≤ m < 60 ∧ 0 ≤ s < 60 ∧ h * 3600 + m * 60 + s = (-1) mod 86400.
Proof. apply (print_time_spec (mkTime (-1) 5)). by split. Defined.

Lemma diff_times_elapsed_witness :
  let '(t', d) := diff_times (mkTime 10 5) (mkTime 9 900000) in
  instant d = 100005 ∧ instant t' = 10000005 ∧
  (0 ≤ 5 < 1000000 → 0 ≤ 900000 < 1000000 → 0 ≤ tv_usec d < 1000000).
Proof. apply (diff_times_elapsed (mkTime 10 5) (mkTime 9 900000)). Defined.

Lemma parse_options_limits_witness :
  ∃ s', parse_options [("x"%char, ""); ("s"%char, "64"); ("c"%char, "-3")] start_settings
    = Ok (tt, s') ∧
    limits_ok s' ∧ opt_force_ttp (set_opts s') = true.
Proof.
  eexists. split; [vm_compute; reflexivity|].
  apply (parse_options_limits [("x"%char, ""); ("s"%char, "64"); ("c"%char, "-3")]).
  by vm_compute.
Defined.

Lemma main_read_ends_witness :
  let s := mkIr (mkDump (mkObex (test_frame []) 0xff) conn_start (mkCtr 0 0 0 0))
    (mkTime 0 0) (mkTime 0 0) [1; 2; 3] [] 0 in
  ∃ w, main_read test_junk test_junk test_junk test_junk (λ _, 0) (λ _, true) LittleEndian
    all_written test_junk8 (mkOpts false false true true false 32 false 16 false (-1) 3) 0 4 s
    = Stop w ∧ w ≠ OutOfFuel.
Proof. intros s. apply main_read_ends; [done|simpl; lia]. Defined.
