(* ===== verification/Replay.v ===== *)
(** * A capture file replayed (irdadump/irdadump.c, capture.c)

    The composition of the two ways a frame comes in: what is printed of the frames
    of a socket while they are captured, and what is printed of the capture file.
    The decoders strip headers and write one byte after the frame, but leave the
    frame in the block for the capture. *)
From Stdlib Require Import String Ascii.
From S2P Require Import Prelude CInt Printf NetBuf Frame IrComm LapParams Obex Conn Dump.
From S2P Require Import IrLMP IrLAP Capture IrDump.
Local Open Scope string_scope.
Local Open Scope list_scope.
Local Open Scope Z_scope.

(** ** The decoders keep the frame

    [l] is the frame at the head of a block of [n] bytes; what is left to decode
    is its end. *)
Section framed.
Variable n : Z.
Variable l : list Z.

Definition framed (b : netbuf) : Prop :=
  (∃ post, mem b = l ++ post) ∧ Z.of_nat (length (mem b)) = n ∧ endp b = n ∧ truesize b = n ∧
  0 ≤ data b ∧ 0 ≤ blen b < 4294967296 ∧ data b + blen b = Z.of_nat (length l).

Definition keeps {S A} `{!Lens S frame} (m : M S A) : Prop :=
  ∀ s a s', framed (f_buf (view s)) → m s = Ok (a, s') → framed (f_buf (view s')).

Section rules.
Context {S : Type} `{!Lens S frame} {A B : Type}.

Lemma kf_ret (a : A) : keeps (S:=S) (mret a).
Proof. by intros s b s' H [= _ <-]. Qed.
Lemma kf_halt w : keeps (S:=S) (A:=A) (halt w).
Proof. by intros s b s' H [=]. Qed.
Lemma kf_get : keeps (S:=S) get.
Proof. by intros s b s' H [= _ <-]. Qed.
Lemma kf_gets (f : S → A) : keeps (gets f).
Proof. by intros s b s' H [= _ <-]. Qed.
Lemma kf_bind (m : M S A) (k : A → M S B) :
  keeps m → (∀ a, keeps (k a)) → keeps (m ≫= k).
Proof. intros Hm Hk s b s' H (a & s1 & H1 & H2)%bind_ok_inv. eapply Hk; [|done]. by eapply Hm. Qed.
Lemma kf_or_stop w (o : option A) : keeps (S:=S) (or_stop w o).
Proof. destruct o; [apply kf_ret|apply kf_halt]. Qed.
Lemma kf_lift (r : res A) : keeps (S:=S) (lift r).
Proof. destruct r; [apply kf_ret|apply kf_halt]. Qed.
Lemma kf_frame (m : M frame A) : keeps m → keeps (S:=S) (zoom m).
Proof.
  intros Hm s a s' H. unfold zoom. destruct (m (view s)) as [[x f]|] eqn:E; [|done].
  intros [= <- <-]. rewrite view_put. exact (Hm _ _ _ H E).
Qed.
End rules.
Lemma kf_when {S} `{!Lens S frame} b (m : M S unit) : keeps m → keeps (when b m).
Proof. intros Hm. destruct b; [done|apply kf_ret]. Qed.

(** state that is not the frame *)
Lemma kf_obex {A} (m : M obex_st A) : keeps m → keeps (S:=dump) (zoom m).
Proof.
  intros Hm s a s' H. unfold zoom. destruct (m (view s)) as [[x o]|] eqn:E; [|done].
  intros [= <- <-]. by eapply (Hm (view s)).
Qed.
Lemma kf_conn {A} (m : M conn_st A) : keeps (S:=dump) (zoom m).
Proof. intros s a s' H. unfold zoom. destruct (m (view s)) as [[x o]|]; [|done]. by intros [= <- <-]. Qed.
Lemma kf_ctr {A} (m : M counters A) : keeps (S:=dump) (zoom m).
Proof. intros s a s' H. unfold zoom. destruct (m (view s)) as [[x o]|]; [|done]. by intros [= <- <-]. Qed.
Lemma kf_obex_modify f : (∀ o : obex_st, o_frame (f o) = o_frame o) → keeps (modify f).
Proof. intros Hf s a s' H [= _ <-]. cbn. by rewrite Hf. Qed.

(** the frame: reads, text *)
Lemma kf_buf {A} (m : M netbuf A) :
  (∀ b a b', framed b → m b = Ok (a, b') → framed b') → keeps (S:=frame) (zoom m).
Proof.
  intros Hm s a s' H. unfold zoom. destruct (m (view s)) as [[x b]|] eqn:E; [|done].
  intros [= <- <-]. by eapply Hm.
Qed.
Lemma kf_rd k : keeps (rd k).
Proof.
  apply kf_buf. intros b a b' Hb. unfold peek, get, or_stop, mbind, M_bind.
  destruct (zlookup _ _); [|done]. by intros [= _ <-].
Qed.
Lemma kf_rds k j : keeps (rds k j).
Proof.
  apply kf_buf. intros b a b' Hb. unfold peeks, get, mbind, M_bind.
  case_decide; [|done]. by intros [= _ <-].
Qed.
Lemma kf_rd_cstr k : keeps (rd_cstr k).
Proof.
  apply kf_bind; [apply kf_gets|]. intros b. case_decide; [apply kf_or_stop|apply kf_halt].
Qed.
Lemma kf_emit t : keeps (emit t).
Proof. by intros s a s' H [= _ <-]. Qed.
Lemma kf_gprint t : keeps (gprint t).
Proof. by intros s a s' H [= _ <-]. Qed.
Lemma kf_geprint t : keeps (geprint t).
Proof. by intros s a s' H [= _ <-]. Qed.
Lemma kf_buf_len : keeps buf_len.
Proof. apply kf_gets. Qed.
Lemma kf_aset a i v : keeps (aset a i v).
Proof. unfold aset. case_decide; [apply kf_ret|apply kf_halt]. Qed.
Lemma kf_afill a v : keeps (afill a v).
Proof. unfold afill. case_decide; [apply kf_ret|apply kf_halt]. Qed.

Lemma kf_pull k : keeps (pull k).
Proof.
  apply kf_buf. intros b a b' Hb. unfold g_netbuf_pull, get, mbind, M_bind.
  case_decide as Hk; [by intros [= _ <-]|]. intros [= _ <-].
  pose proof (u32_range k). destruct Hb as (H1 & H2 & H3 & H4 & H5 & H6 & H7).
  unfold framed. cbn. rewrite (u32_small (blen b - u32 k)) by lia.
  repeat split; try done; lia.
Qed.

(** the zero after the frame: [buf->data[buf->len] = 0] *)
Lemma kf_wr_end {A} (k : M frame A) : keeps k → keeps (len ← buf_len; wr len 0;; k).
Proof.
  intros Hk s a s' Hs (len & s1 & H1 & H)%bind_ok_inv. injection H1 as <- <-.
  apply bind_ok_inv in H as ([] & s2 & H2 & H). eapply Hk; [|exact H]. clear H Hk.
  revert H2. unfold wr, zoom, poke, get, modify, mbind, M_bind, g_netbuf_get_len. cbn.
  destruct Hs as ((post & H1) & H2 & H3 & H4 & H5 & H6 & H7). cbn in *.
  case_decide as Hin; [|done]. intros [= <-]. unfold framed. cbn.
  rewrite H7 in *. unfold splice. rewrite Nat2Z.id, H1 in *.
  rewrite take_app_length. split; [by eexists|].
  rewrite !length_app in *. cbn. rewrite length_drop, length_app. split; [|by repeat split; lia].
  cbn in Hin. lia.
Qed.

Create HintDb kf.
Hint Resolve kf_ret kf_halt kf_get kf_gets kf_or_stop kf_lift kf_conn kf_ctr kf_rd kf_rds
  kf_rd_cstr kf_emit kf_gprint kf_geprint kf_buf_len kf_aset kf_afill kf_pull : kf.

Ltac kf :=
  repeat match goal with
  | |- ∀ _, keeps _ => intro
  | |- keeps (buf_len ≫= λ len, wr len 0;; _) => apply kf_wr_end
  | |- keeps (_ ≫= _) => apply kf_bind; [|intro]
  | |- keeps (when _ _) => apply kf_when
  | |- keeps (match ?x with _ => _ end) => destruct x
  | |- keeps _ => solve [auto 3 with kf nocore]
  | |- keeps (zoom _) => apply kf_frame
  end.

Lemma kf_tlv h fuel clen k :
  (∀ pi pl j, keeps (h pi pl j)) → keeps (tlv_walk h fuel clen k).
Proof. intros Hh. revert k. induction fuel; intros k; cbn [tlv_walk]; kf. Qed.

Lemma kf_irlap_params clen : keeps (parse_irlap_params clen).
Proof.
  unfold parse_irlap_params. kf. apply kf_tlv. intros pi pl j.
  unfold irlap_param, qos_case, byte_value, msb_index, index_value. kf.
Qed.
Lemma kf_hints h0 h1 : keeps (parse_hints h0 h1).
Proof. unfold parse_hints. kf. Qed.
Lemma kf_ircomm_params clen : keeps (parse_ircomm_params clen).
Proof. unfold parse_ircomm_params. kf. apply kf_tlv. intros pi pl j. unfold ircomm_param. kf. Qed.
Hint Resolve kf_irlap_params kf_hints kf_ircomm_params : kf.
Lemma kf_ircomm_ttp : keeps parse_ircomm_ttp.
Proof. unfold parse_ircomm_ttp. kf. Qed.
Hint Resolve kf_ircomm_ttp : kf.

Lemma kf_obex_header junk istext : keeps (parse_obex_header junk istext).
Proof. unfold parse_obex_header, rd_string_len, say_quoted. kf. Qed.
Hint Resolve kf_obex_header : kf.
Lemma kf_obex_loop junk fuel : keeps (obex_header_loop junk fuel).
Proof.
  induction fuel; cbn [obex_header_loop]; unfold obex_header_case; kf.
Qed.
Hint Resolve kf_obex_loop : kf.
Lemma kf_parse_obex junk cmd : keeps (parse_obex junk cmd).
Proof.
  apply kf_bind; [kf|intros _]. apply kf_bind; [kf|intros len]. destruct (len =? 0); [kf|].
  unfold obex_response, obex_command, parse_obex_success, parse_obex_setpath,
    parse_obex_headers, parse_obex_connect. kf. by apply kf_obex_modify.
Qed.
Hint Resolve kf_parse_obex : kf.

Lemma kf_directed {A} type (f : Z → Z → M conn_st A) x y : keeps (S:=dump) (zoom (directed type f x y)).
Proof. unfold directed. destruct (truth type); apply kf_conn. Qed.
Hint Resolve kf_directed : kf.

(** a decoder of OBEX within the whole state *)
Ltac kd :=
  repeat match goal with
  | |- keeps (zoom (parse_obex _ _)) => apply kf_obex, kf_parse_obex
  | |- _ => progress kf
  end.

Lemma kf_irttp : keeps parse_irttp ∧ keeps parse_irttp_connect.
Proof. unfold parse_irttp, parse_irttp_connect. split; kf. Qed.
Lemma kf_data_upper oj cmd e : keeps (data_upper oj cmd e).
Proof.
  destruct kf_irttp. unfold data_upper, parse_ircomm_lmp, parse_irnet. kd.
Qed.
Lemma kf_connect_upper e : keeps (connect_upper e).
Proof. destruct kf_irttp. unfold connect_upper, parse_ircomm_connect, parse_irnet. kd. Qed.
Hint Resolve kf_data_upper kf_connect_upper : kf.

Lemma kf_iriap nj aj sj x :
  keeps (parse_iriap_command nj aj x) ∧ keeps (parse_iriap_response sj x).
Proof.
  unfold parse_iriap_command, parse_iriap_response, parse_irias_value, rd_local. split; kd.
Qed.

Lemma kf_irlmp nj aj sj oj cfg ca type cmd :
  keeps (parse_irlmp nj aj sj oj cfg ca type cmd).
Proof.
  destruct kf_irttp. pose proof (kf_iriap nj aj sj) as Hi.
  unfold parse_irlmp, irlmp_data, irlmp_control, irlmp_connect_cmd, irlmp_connect_rsp,
    irlmp_disconnect. kd; apply Hi.
Qed.
Lemma kf_ui_irlmp oj type : keeps (parse_ui_irlmp oj type).
Proof. unfold parse_ui_irlmp. kd. Qed.
Hint Resolve kf_irlmp kf_ui_irlmp : kf.

Lemma kf_xid command pf type : keeps (parse_xid_frame command pf type).
Proof. unfold parse_xid_frame, rd_le32. kf. Qed.
Hint Resolve kf_xid : kf.

Lemma kf_irlap nj aj sj oj cfg type : keeps (parse_irlap_frame nj aj sj oj cfg type).
Proof.
  unfold parse_irlap_frame, parse_i_frame, irlap_supervisory, irlap_unnumbered, parse_rr_frame,
    parse_rnr_frame, parse_rej_frame, parse_srej_frame, parse_snrm_frame, parse_rnrm_frame,
    parse_dm_frame, parse_disc_frame, parse_rd_frame, parse_test_frame, parse_ua_frame,
    parse_frmr_frame, parse_ui_frame, track_nr, track_ns, say_lost, rd_le32. kd.
Qed.
End framed.

(** ** Only the direction of a packet is used *)
Lemma irlap_type nj aj sj oj cfg t1 t2 :
  truth t1 = truth t2 →
  parse_irlap_frame nj aj sj oj cfg t1 = parse_irlap_frame nj aj sj oj cfg t2.
Proof.
  intros E.
  unfold parse_irlap_frame, parse_i_frame, irlap_supervisory, irlap_unnumbered, parse_rr_frame,
    parse_rnr_frame, parse_rej_frame, parse_srej_frame, parse_snrm_frame, parse_rnrm_frame,
    parse_dm_frame, parse_disc_frame, parse_rd_frame, parse_test_frame, parse_ua_frame,
    parse_frmr_frame, parse_ui_frame, parse_xid_frame, parse_ui_irlmp, supervisory_text, lap_text,
    lap_alt_text, addr_text, arrow, track_nr, track_ns,
    parse_irlmp, irlmp_data, irlmp_control, irlmp_connect_cmd, irlmp_connect_rsp,
    irlmp_disconnect, directed.
  by rewrite E.
Qed.

(** ** What is printed of a frame depends on its time and on the decoders' state *)
Definition alike (s r : irdump) : Prop := ir_dump s = ir_dump r ∧ curr_time s = curr_time r.
Definition same_files (s s' : irdump) : Prop :=
  curr_time s' = curr_time s ∧ ir_in s' = ir_in s ∧ ir_out s' = ir_out s ∧ packets s' = packets s.

Definition local {A} (m : M irdump A) : Prop := ∀ s r, alike s r →
  match m s, m r with
  | Ok (a, s'), Ok (b, r') => a = b ∧ alike s' r' ∧ same_files s s' ∧ same_files r r'
  | Stop w, Stop w' => w = w'
  | _, _ => False
  end.

Lemma local_ret {A} (a : A) : local (mret a).
Proof. intros s r H. by repeat split; try apply H. Qed.
Lemma local_bind {A B} (m : M irdump A) (k : A → M irdump B) :
  local m → (∀ a, local (k a)) → local (m ≫= k).
Proof.
  intros Hm Hk s r H. specialize (Hm s r H). unfold mbind, M_bind.
  destruct (m s) as [[a s1]|], (m r) as [[b r1]|]; try done.
  destruct Hm as (-> & H1 & (E1 & E2 & E3 & E4) & (F1 & F2 & F3 & F4)).
  specialize (Hk b s1 r1 H1).
  destruct (k b s1) as [[c s2]|], (k b r1) as [[d r2]|]; try done.
  destruct Hk as (-> & H2 & (G1 & G2 & G3 & G4) & (I1 & I2 & I3 & I4)).
  split; [done|]. split; [done|]. unfold same_files. split; repeat split; congruence.
Qed.
Lemma local_when b m : local m → local (when b m).
Proof. intros Hm. destruct b; [done|apply local_ret]. Qed.
Lemma local_dump {A} (m : M dump A) : local (zoom m).
Proof.
  intros s r [H1 H2]. unfold zoom. cbn. rewrite H1. by destruct (m (ir_dump r)) as [[a d]|].
Qed.
Lemma local_frame {A} (m : M frame A) : local (zoom m).
Proof.
  intros s r [H1 H2]. unfold zoom. cbn. unfold ir_frame, alike. rewrite H1.
  destruct (m (d_frame (ir_dump r))) as [[a d]|]; [|done]. cbn. by rewrite H1.
Qed.
Lemma local_buf {A} (m : M netbuf A) : local (zoom m).
Proof.
  intros s r [H1 H2]. unfold zoom. cbn. unfold ir_buf, ir_frame, alike. rewrite H1.
  destruct (m _) as [[a d]|]; [|done]. cbn. unfold ir_frame. by rewrite H1.
Qed.
Lemma local_time : local (gets curr_time).
Proof. intros s r [H1 H2]. by repeat split. Qed.
Lemma local_for_head k i body : local (for_head k i body).
Proof.
  revert i. induction k as [|k IH]; intros i; cbn [for_head]; [apply local_ret|].
  apply local_bind; [apply local_buf|intros b]. apply local_bind; [apply local_frame|intros []].
  apply IH.
Qed.

Section lockstep.
Variable nj aj sj oj : list Z.
Variable opts : options.
Hypothesis no_diff : config_print_diff opts = false.
#[local] Abbreviation show := (parse_irda_frame nj aj sj oj).

Lemma local_show type len : local (show opts type len).
Proof.
  pose proof local_for_head. unfold parse_irda_frame. rewrite no_diff.
  repeat first [apply local_ret | apply local_dump | apply local_frame | apply local_time
    | apply local_for_head | apply local_when | apply local_bind; [|intros ?]].
Qed.

(** ... and on the direction only *)
Lemma show_type t1 t2 len s : truth t1 = truth t2 → show opts t1 len s = show opts t2 len s.
Proof. intros E. unfold parse_irda_frame. by rewrite (irlap_type _ _ _ _ _ _ _ E). Qed.

(** the files that the options name make no difference *)
Lemma show_files w r type len s :
  show (mkOpts (config_print_diff opts) (config_dump_frame opts) (opt_print_irlap opts)
    (opt_print_irlmp opts) (opt_print_lost_frames opts) (config_snaplen opts)
    (config_dump_bytes opts) (config_snapcols opts) (opt_force_ttp opts) w r) type len s
  = show opts type len s.
Proof. done. Qed.

Lemma kf_show n l type len : keeps (S:=irdump) n l (show opts type len).
Proof.
  assert (∀ k i body, keeps (S:=irdump) n l (for_head k i body)) as Hh.
  { induction k as [|k IH]; intros i body; cbn [for_head]; [apply kf_ret|].
    apply kf_bind; [|intros b; apply kf_bind; [apply kf_frame, kf_emit|intros; apply IH]].
    intros s a s' H. unfold zoom, peek, get, or_stop, mbind, M_bind. cbn.
    destruct (zlookup _ _); [|done]. cbn. intros [= _ <-]. exact H. }
  unfold parse_irda_frame. rewrite no_diff.
  assert (keeps (S:=irdump) n l (zoom (parse_irlap_frame nj aj sj oj (decoder_config opts) type)))
    as Hd.
  { intros s a s' H. unfold zoom. cbn.
    destruct (parse_irlap_frame _ _ _ _ _ _ _) as [[x d]|] eqn:E; [|done]. intros [= _ <-].
    by apply (kf_irlap n l nj aj sj oj (decoder_config opts) type _ _ _ H) in E. }
  repeat first [apply kf_ret | apply kf_gets | apply Hd | apply Hh | apply kf_when
    | apply kf_bind; [|intros ?] | apply kf_frame, kf_emit].
Qed.
End lockstep.

(** ** A frame at the head of the block *)
Section rounds.
Variable nj aj sj oj : list Z.
Variable hf : Z → Z.
Variable ok : Z → bool.
Variable e : endian.
Variable wr : list Z → list Z → option nat.
Variable junk : list Z.
Variable ifindex : Z.
Variable opts : options.
Hypothesis no_diff : config_print_diff opts = false.
Hypothesis writes : complete_writes wr.
Hypothesis junk_length : length junk = 8%nat.
(** the size of the block: [main] allocates MAX_FRAME_SIZE bytes *)
Variable n : Z.
Hypothesis block_size : MAX_FRAME_SIZE ≤ n < 4294967296.

#[local] Abbreviation show := (parse_irda_frame nj aj sj oj opts).
#[local] Abbreviation len l := (Z.of_nat (length l)).

Definition ready (s : irdump) : Prop :=
  Z.of_nat (length (mem (ir_buf s))) = n ∧ truesize (ir_buf s) = n.

(** the block with the frame [l], and the time of the frame *)
Definition arrived (l : list Z) (t : timeval) (s : irdump) : irdump :=
  let s := with_ir_buf (mkBuf (l ++ drop (length l) (mem (ir_buf s))) 0 (len l) n (len l) n) s in
  mkIr (ir_dump s) t (prev_time s) (ir_in s) (ir_out s) (packets s).

Definition frame_ok (l : list Z) : Prop :=
  (0 < length l)%nat ∧ len l ≤ MAX_FRAME_SIZE ∧ Forall is_byte l.

Lemma poke_start l b :
  frame_ok l → len (mem b) = n → 
  poke 0 l b = Ok (tt, set_mem (l ++ drop (length l) (mem b)) b).
Proof.
  intros (H0 & Hl & Hb) Hn. change 0 with (len (@nil Z)).
  apply (poke_mid [] (take (length l) (mem b)) (drop (length l) (mem b)));
    [by rewrite take_drop| |done]. rewrite length_take. lia.
Qed.

Lemma put_all l b :
  frame_ok l → tail b = 0 → blen b = 0 → endp b = n →
  g_netbuf_put hf ok (u32 (len l)) b = Ok (Some 0, set_blen (len l) (set_tail (len l) b)).
Proof.
  intros (H0 & Hl & Hb) Ht Hbl He. unfold MAX_FRAME_SIZE in *.
  unfold g_netbuf_put, get, modify, mbind, M_bind. cbn.
  rewrite Ht, Hbl, He, (u32_small (len l)) by lia. rewrite decide_False by lia.
  rewrite u32_small by lia. done.
Qed.

Lemma arrived_framed l t s :
  frame_ok l → ready s → framed n l (ir_buf (arrived l t s)).
Proof.
  intros (H0 & Hl & Hb) [Hn Ht]. unfold MAX_FRAME_SIZE in *.
  split; [by eexists|]. cbn. rewrite length_app, length_drop. repeat split; lia.
Qed.

Lemma arrived_alike l t s r : ir_dump s = ir_dump r → alike (arrived l t s) (arrived l t r).
Proof. intros H. unfold alike, arrived, ir_buf, ir_frame. cbn. unfold ir_frame. by rewrite H. Qed.

(** what the packet socket and the kernel guarantee, and the filter lets through *)
Definition accepted (p : packet) (t : timeval) : Prop :=
  frame_ok (p_data p) ∧ from_protocol (p_from p) = ntohs e ETH_P_IRDA ∧
  (ifindex = 0 ∨ from_ifindex (p_from p) = ifindex) ∧ from_ok (p_from p) ∧
  p_stamp p = Some t ∧ time_ok t.

(** the state once the bytes of the frame are in the recycled block *)
Definition copied (l : list Z) (s : irdump) : irdump :=
  with_ir_buf (mkBuf (l ++ drop (length l) (mem (ir_buf s))) 0 0 n 0 n) s.

Lemma recycled s : ready s →
  zoom (modify g_netbuf_recycle) s
  = Ok (tt, with_ir_buf (mkBuf (mem (ir_buf s)) 0 0 n 0 n) s).
Proof.
  intros [_ Ht].
  change (zoom (modify g_netbuf_recycle) s)
    with (Ok (A:=unit * irdump) (tt, with_ir_buf (g_netbuf_recycle (ir_buf s)) s)).
  unfold g_netbuf_recycle, set_endp, set_blen, set_tail, set_data. cbn [truesize mem].
  by rewrite Ht.
Qed.

Lemma copied_put l t s (k : M irdump Z) :
  frame_ok l →
  (zoom (g_netbuf_put hf ok (u32 (len l)));; set_curr t;; k) (copied l s)
  = k (arrived l t s).
Proof.
  intros Hl. erewrite bind_ok by (apply zoom_ok; by apply put_all). done.
Qed.

Lemma loop_live p t s :
  config_captureread opts < 0 → ready s → accepted p t →
  irdadump_loop nj aj sj oj hf ok e wr junk opts ifindex (Some p) s
  = (show (from_pkttype (p_from p)) (len (p_data p));;
     t ← gets curr_time;
     when (0 <=? config_capturewrite opts)
       (zoom (capwrite_dump e wr junk (len (p_data p)) (p_from p) t);; mret tt);;
     mret 0) (arrived (p_data p) t s).
Proof.
  intros Hr Hs (Hl & Hp & Hi & _ & Ht & _). unfold irdadump_loop.
  erewrite bind_ok by by apply recycled. rewrite (proj2 (Z.leb_gt _ _)) by done.
  destruct (Hl) as (H0 & Hmax & Hb).
  assert (take (Z.to_nat MAX_FRAME_SIZE) (p_data p) = p_data p) as ->
    by (apply firstn_all2; lia).
  cbv zeta. rewrite Hp, Z.eqb_refl. cbn [negb].
  assert ((truth ifindex && negb (from_ifindex (p_from p) =? ifindex)) = false) as ->.
  { destruct Hi as [Hi|Hi]; rewrite Hi; [done|]. by rewrite Z.eqb_refl, andb_false_r. }
  rewrite (proj2 (Z.eqb_neq (len (p_data p)) 0)) by lia. rewrite Ht.
  erewrite bind_ok.
  2: { apply zoom_ok. apply (poke_start (p_data p) (mkBuf (mem (ir_buf s)) 0 0 n 0 n) Hl).
       apply Hs. }
  change (put _ _) with (copied (p_data p) s).
  by rewrite copied_put.
Qed.

(** what is left of the capture file *)
Definition with_in (rest : list Z) (s : irdump) : irdump :=
  mkIr (ir_dump s) (curr_time s) (prev_time s) rest (ir_out s) (packets s).
Definition with_time (t : timeval) (s : irdump) : irdump :=
  mkIr (ir_dump s) t (prev_time s) (ir_in s) (ir_out s) (packets s).

Lemma loop_read l from t rest s :
  0 ≤ config_captureread opts → ready s → frame_ok l → from_ok from → time_ok t →
  ir_in s = record_bytes e junk l from t ++ rest →
  irdadump_loop nj aj sj oj hf ok e wr junk opts ifindex None s
  = if from_protocol from =? ETH_P_IRDA
    then (show (b2z (negb (from_pkttype from =? PACKET_HOST))) (len l);; mret 0)
      (arrived l t (with_in rest s))
    else Ok (-1, with_time t (copied l (with_in rest s))).
Proof.
  intros Hr Hs Hl Hf Ht Hin. unfold irdadump_loop.
  erewrite bind_ok by by apply recycled. rewrite (proj2 (Z.leb_le _ _)) by done.
  destruct (Hl) as (H0 & Hmax & Hb). unfold MAX_FRAME_SIZE in *. unfold irdadump_read.
  erewrite bind_ok.
  2: { apply zoom_ok. apply (capread_get_ok e junk l from t rest); try done; [|lia].
       cbn. destruct Hs as [Hn _]. lia. }
  cbn [cap_prot cap_len cap_time cap_dir].
  change (put _ _) with (copied l (with_in rest s)).
  rewrite (proj2 (Z.eqb_neq (len l) 0)) by lia.
  destruct (from_protocol from =? ETH_P_IRDA); [|done]. cbn [negb].
  match goal with |- context [set_curr t ≫= ?k] =>
    change ((set_curr t ≫= k) (copied l (with_in rest s)))
      with ((zoom (g_netbuf_put hf ok (u32 (len l)));;
        (show (b2z (negb (from_pkttype from =? PACKET_HOST))) (len l);; mret 0))
        (with_time t (copied l (with_in rest s)))) end.
  erewrite bind_ok by (apply zoom_ok; by apply put_all). done.
Qed.
End rounds.

(** ** The two programs side by side *)
Section replay.
Variable nj aj sj oj : list Z.
Variable hf : Z → Z.
Variable ok : Z → bool.
Variable e : endian.
Variable wr : list Z → list Z → option nat.
Variable junk : list Z.
Variable ifindex : Z.
Variable opts : options.
Hypothesis no_diff : config_print_diff opts = false.
Hypothesis live : config_captureread opts < 0.
Hypothesis capturing : 0 ≤ config_capturewrite opts.
Hypothesis writes : complete_writes wr.
Hypothesis junk_length : length junk = 8%nat.
Variable n : Z.
Hypothesis block_size : MAX_FRAME_SIZE ≤ n < 4294967296.

(** the same options with [-r] for [-w] *)
Definition reading : options :=
  mkOpts (config_print_diff opts) (config_dump_frame opts) (opt_print_irlap opts)
    (opt_print_irlmp opts) (opt_print_lost_frames opts) (config_snaplen opts)
    (config_dump_bytes opts) (config_snapcols opts) (opt_force_ttp opts) (-1) 0.

#[local] Abbreviation show := (parse_irda_frame nj aj sj oj).
#[local] Abbreviation round := (main_round nj aj sj oj hf ok e wr junk).
#[local] Abbreviation ready := (ready n).

(** the end of a round that displayed its frame *)
Definition displayed (s : irdump) : irdump :=
  let f := ir_frame s in
  with_ir_frame (mkFrame (f_buf f) "" (f_out f +:+ f_str f +:+ nl) (f_err f))
    (mkIr (ir_dump s) (curr_time s) (prev_time s) (ir_in s) (ir_out s) (packets s + 1)).

Lemma displayed_dump s r : ir_dump s = ir_dump r → ir_dump (displayed s) = ir_dump (displayed r).
Proof. intros H. unfold displayed, with_ir_frame, ir_frame. cbn. by rewrite H. Qed.

Lemma ready_framed l s : framed n l (ir_buf s) → ready s.
Proof. intros (_ & H1 & _ & H2 & _). by split. Qed.

(** the state after the frame was displayed and written to the capture file *)
Definition recorded (bs : list Z) (s : irdump) : irdump :=
  mkIr (ir_dump s) (curr_time s) (prev_time s) (ir_in s) (ir_out s ++ bs) (packets s).

Lemma captured l from t s :
  framed n l (ir_buf s) → frame_ok l → time_ok t →
  zoom (capwrite_dump e wr junk (Z.of_nat (length l)) from t) s
  = Ok (0, recorded (record_bytes e junk l from t) s).
Proof.
  intros ((post & Hm) & _) (H0 & Hl & Hb) Ht. unfold MAX_FRAME_SIZE in Hl.
  erewrite zoom_ok.
  2: { apply (capwrite_dump_ok e wr junk l post from t); [exact writes|exact Hm|done|lia|done]. }
  f_equal. f_equal. by destruct s as [[[[b ? ?] ?] ? ?] ? ? ? ? ?].
Qed.

Lemma round_live p t s s' :
  ready s → accepted e ifindex p t →
  round opts ifindex (Some p) s = Ok (tt, s') →
  ∃ s1, show opts (from_pkttype (p_from p)) (Z.of_nat (length (p_data p)))
      (arrived n (p_data p) t s) = Ok (tt, s1) ∧
    ir_dump s' = ir_dump (displayed s1) ∧ packets s' = packets s + 1 ∧
    ir_out s' = ir_out s ++ record_bytes e junk (p_data p) (p_from p) t ∧ ready s'.
Proof.
  intros Hs Ha Hm. pose proof Ha as (Hl & _ & _ & Hf & _ & Ht).
  unfold main_round in Hm. apply bind_ok_inv in Hm as (r & s2 & H2 & Hm).
  rewrite (loop_live nj aj sj oj hf ok e wr junk ifindex opts junk_length n block_size p t s live Hs Ha) in H2.
  apply bind_ok_inv in H2 as ([] & s1 & H1 & H2). exists s1. split; [exact H1|].
  pose proof (kf_show nj aj sj oj opts no_diff n (p_data p) _ _ _ _ _
    (arrived_framed junk junk_length n block_size (p_data p) t s Hl Hs) H1) as Hk.
  pose proof (local_show nj aj sj oj opts no_diff (from_pkttype (p_from p))
    (Z.of_nat (length (p_data p))) (arrived n (p_data p) t s) (arrived n (p_data p) t s)) as Hloc.
  rewrite H1 in Hloc. destruct Hloc as (_ & _ & (E1 & E2 & E3 & E4) & _); [by split|].
  apply bind_ok_inv in H2 as (t' & s1' & Hg & H2). injection Hg as <- <-.
  rewrite (proj2 (Z.leb_le _ _) capturing), E1 in H2. cbn [when curr_time arrived] in H2.
  rewrite !bind_assoc in H2. erewrite bind_ok in H2 by (by apply captured).
  injection H2 as <- <-. injection Hm as <-. apply ready_framed in Hk.
  cbn [packets recorded displayed ir_out] in *. rewrite E3, E4. by repeat split; try apply Hk.
Qed.

(** *** The same round with [-r]

    [k]: the option that names the interface, which is not used *)
Variable k : Z.
#[local] Abbreviation record p t := (record_bytes e junk (p_data p) (p_from p) t).

(** what the reader has in common with the program that captured *)
Definition follows (s r : irdump) : Prop :=
  match e with
  | BigEndian => ir_dump r = ir_dump s
  | LittleEndian => ready r
  end.
(** ... and what a round, or a run, adds to it *)
Definition repeats (s s' r r' : irdump) : Prop :=
  match e with
  | BigEndian => ir_dump r' = ir_dump s' ∧ packets r' - packets r = packets s' - packets s
  | LittleEndian => ready r' ∧ f_out (ir_frame r') = f_out (ir_frame r) ∧ packets r' = packets r
  end.

Lemma repeats_trans s s1 s2 r r1 r2 :
  repeats s s1 r r1 → repeats s1 s2 r1 r2 → repeats s s2 r r2.
Proof.
  unfold repeats. destruct e; [|intros [? ?] [? ?]; split; [done|lia]].
  intros (? & ? & ?) (? & ? & ?). split; [done|split; congruence].
Qed.
Lemma repeats_follows s s' r r' : repeats s s' r r' → follows s' r'.
Proof. unfold repeats, follows. destruct e; tauto. Qed.

Lemma follows_ready s r : ready s → follows s r → ready r.
Proof.
  unfold follows. destruct e; [done|]. intros Hs E. unfold Replay.ready, ir_buf, ir_frame.
  by rewrite E.
Qed.

Lemma copied_ready l t rest s :
  frame_ok l → ready s → ready (with_time t (copied n l (with_in rest s))).
Proof.
  intros (H0 & Hl & _) [Hn Ht]. unfold MAX_FRAME_SIZE in *. split; [|done].
  change (ir_buf _) with (mkBuf (l ++ drop (length l) (mem (ir_buf s))) 0 0 n 0 n).
  cbn [mem]. rewrite length_app, length_drop. lia.
Qed.

Lemma truth_dir ty : truth (b2z (negb (ty =? PACKET_HOST))) = truth ty.
Proof. unfold truth, PACKET_HOST. by destruct (ty =? 0). Qed.

Lemma round_read p t s r rest s' :
  ready s → follows s r → accepted e ifindex p t →
  round opts ifindex (Some p) s = Ok (tt, s') → ir_in r = record p t ++ rest →
  ∃ r', round reading k None r = Ok (tt, r') ∧ ir_in r' = rest ∧ repeats s s' r r'.
Proof.
  intros Hs Hr Ha Hm Hin. pose proof (follows_ready _ _ Hs Hr) as Hrr.
  apply (round_live p t s s' Hs Ha) in Hm as (s1 & H1 & Hd & Hp & _).
  destruct Ha as (Hl & Hpr & _ & Hf & _ & Ht). unfold main_round.
  pose proof (loop_read nj aj sj oj hf ok e wr junk k reading junk_length n block_size
    (p_data p) (p_from p) t rest r) as Hloop.
  specialize (Hloop (Z.le_refl 0) Hrr Hl Hf Ht Hin). rewrite Hpr in Hloop.
  unfold mbind at 1, M_bind at 1. rewrite Hloop. clear Hloop. unfold repeats, follows in *.
  destruct e; cbn [ntohs].
  { change (swap16 (u16 ETH_P_IRDA) =? ETH_P_IRDA) with false. cbv iota.
    eexists. split; [reflexivity|]. split; [done|]. split; [|by split].
    by apply copied_ready. }
  change (swap16 (u16 ETH_P_IRDA) =? ETH_P_IRDA) with true. cbv iota.
  pose proof (local_show nj aj sj oj opts no_diff (from_pkttype (p_from p))
    (Z.of_nat (length (p_data p))) _ _ (arrived_alike n (p_data p) t _ (with_in rest r) (eq_sym Hr)))
    as Hsh.
  rewrite H1 in Hsh.
  rewrite <- (show_type nj aj sj oj opts (b2z (negb (from_pkttype (p_from p) =? PACKET_HOST)))
    (from_pkttype (p_from p))) in Hsh by apply truth_dir.
  destruct (show opts _ _ (arrived n (p_data p) t (with_in rest r))) as [[[] r1]|] eqn:E1;
    [|done]. destruct Hsh as (_ & [Hdump _] & (_ & _ & _ & P1) & (_ & I2 & _ & P2)).
  exists (displayed r1). split; [|split; [exact I2|split]].
  - unfold reading. erewrite bind_ok by (rewrite show_files; exact E1). done.
  - rewrite Hd. symmetry. by apply displayed_dump.
  - cbn [packets displayed arrived with_ir_frame with_in] in *. rewrite Hp. cbn in P2. lia.
Qed.

(** ** A whole session *)
#[local] Abbreviation run_live := (main_live nj aj sj oj hf ok e wr junk opts ifindex).
#[local] Abbreviation run_read := (main_read nj aj sj oj hf ok e wr junk reading k).
#[local] Abbreviation run_rounds := (rounds nj aj sj oj hf ok e wr junk reading k).

(** with [-r] the socket is not looked at *)
Lemma round_none x r : round reading k x r = round reading k None r.
Proof. done. Qed.

Fixpoint records (ps : list packet) (ts : list timeval) : list Z :=
  match ps, ts with
  | p :: ps, t :: ts => record p t ++ records ps ts
  | _, _ => []
  end.

(** what a session captured *)
Lemma live_records ps ts s s' :
  ready s → Forall2 (accepted e ifindex) ps ts → run_live ps s = Ok (tt, s') →
  ir_out s' = ir_out s ++ records ps ts.
Proof.
  intros Hs Hf. revert s Hs. induction Hf as [|p t ps ts Ha Hf IH]; intros s Hs Hm;
    cbn [main_live records] in *.
  - injection Hm as <-. by rewrite app_nil_r.
  - apply bind_ok_inv in Hm as ([] & s1 & H1 & Hm).
    apply (round_live p t s s1 Hs Ha) in H1 as (_ & _ & _ & _ & Ho & Hs1).
    by rewrite (IH s1 Hs1 Hm), Ho, app_assoc.
Qed.

(** ... and what the reader shows of it *)
Lemma records_read ps ts s s' r rest :
  ready s → follows s r → Forall2 (accepted e ifindex) ps ts →
  run_live ps s = Ok (tt, s') → ir_in r = records ps ts ++ rest →
  ∃ r', (∀ fuel, run_read (length ps + fuel) r = run_read fuel r') ∧
    (∀ l rs, length l = length ps → run_rounds (l ++ rs) r = run_rounds rs r') ∧
    ir_in r' = rest ∧ repeats s s' r r'.
Proof.
  intros Hs Hr Hf. revert s r Hs Hr. induction Hf as [|p t ps ts Ha Hf IH];
    intros s r Hs Hr Hm Hin; cbn [main_live records length] in *.
  - injection Hm as <-. exists r. split; [done|].
    split; [by intros [] rs Hl|]. split; [done|]. unfold repeats, follows in *. destruct e; split; try done; lia.
  - apply bind_ok_inv in Hm as ([] & s1 & H1 & Hm). rewrite <- app_assoc in Hin.
    destruct (round_read p t s r _ s1 Hs Hr Ha H1 Hin) as (r1 & Hr1 & Hi1 & Hs1).
    apply (round_live p t s s1 Hs Ha) in H1 as (_ & _ & _ & _ & _ & Hready).
    destruct (IH s1 r1 Hready (repeats_follows _ _ _ _ Hs1) Hm Hi1)
      as (r' & Hr' & Hn' & Hi' & Hs').
    exists r'. split; [|split; [|split; [done|by eapply repeats_trans]]].
    + intros fuel. cbn [Nat.add main_read]. by erewrite bind_ok by exact Hr1.
    + intros [|x l] rs [=Hl]. cbn [app rounds]. rewrite round_none by done.
      rewrite Hr1. by apply Hn'.
Qed.

(** the end of the file is the end of the program *)
Lemma round_at_end r : ir_in r = [] → round reading k None r = Stop (Exited (-1)).
Proof.
  intros Hin. unfold main_round. apply bind_stop.
  unfold irdadump_loop. erewrite bind_ok by done. cbn [reading config_captureread].
  unfold irdadump_read, zoom, mbind, M_bind, capread_get. cbn. by rewrite Hin.
Qed.
Lemma end_of_file r fuel : ir_in r = [] → run_read (S fuel) r = Stop (Exited (-1)).
Proof. intros Hin. cbn [main_read]. by apply bind_stop, round_at_end. Qed.

(** the file header, and its check *)
Lemma start_capture_ok s :
  start_capture e wr s = Ok (tt, recorded (pcap_bytes e fileHeader) s).
Proof.
  unfold start_capture, capwrite_init. erewrite bind_ok.
  2: { apply zoom_ok. erewrite bind_ok by (by apply write_ok).
       rewrite (proj2 (Z.ltb_ge _ _)) by lia. reflexivity. }
  cbn. by destruct s as [[[[b ? ?] ?] ? ?] ? ? ? ? ?].
Qed.
Lemma start_replay_ok s rest :
  ir_in s = pcap_bytes e fileHeader ++ rest → start_replay e s = Ok (tt, with_in rest s).
Proof.
  intros Hin. unfold start_replay, capread_check. erewrite bind_ok.
  2: { apply zoom_ok. erewrite bind_ok by (apply read_ok; [exact Hin|by destruct e]).
       instantiate (1 := mkCap rest (ir_out s) (ir_buf s)). instantiate (1 := 0). by destruct e. }
  cbn. by destruct s as [[[[b ? ?] ?] ? ?] ? ? ? ? ?].
Qed.

(** A session with [-w] and the reading of its file with [-r].  Whatever the
    frames that the socket delivered: when the session ran, the program that
    reads the file and started in the same state accepts the file header, takes
    each record in one round and then exits at the end of the file.  Where the
    host is big-endian it has printed the same text as the session and counted
    the same frames.  Where the host is little-endian it has printed nothing
    at all: the protocol of the record is compared without [ntohs]. *)
Theorem replay_shows ps ts s s' r :
  ready s → Forall2 (accepted e ifindex) ps ts → ir_out s = [] →
  (start_capture e wr;; run_live ps) s = Ok (tt, s') →
  ir_dump r = ir_dump s → ir_in r = ir_out s' →
  ∃ r', (∀ fuel, (start_replay e;; run_read (length ps + fuel)) r = run_read fuel r') ∧
    (∀ fuel, run_read (S fuel) r' = Stop (Exited (-1))) ∧
    match e with
    | BigEndian => f_out (ir_frame r') = f_out (ir_frame s') ∧
        packets r' - packets r = packets s' - packets s
    | LittleEndian => f_out (ir_frame r') = f_out (ir_frame r) ∧ packets r' = packets r
    end.
Proof.
  intros Hs Hf Ho Hrun Hr Hin. erewrite bind_ok in Hrun by apply start_capture_ok.
  set (s0 := recorded _ s) in Hrun. assert (Hs0 : ready s0) by exact Hs.
  rewrite (live_records ps ts s0 s' Hs0 Hf Hrun) in Hin. cbn [s0 recorded ir_out] in Hin.
  rewrite Ho in Hin. cbn [app] in Hin. apply start_replay_ok in Hin as Hstart.
  assert (Hfol : follows s0 (with_in (records ps ts) r)).
  { unfold follows. destruct e; [|exact Hr]. unfold Replay.ready, ir_buf, ir_frame in *.
    cbn. by rewrite Hr. }
  destruct (records_read ps ts s0 s' (with_in (records ps ts) r) [] Hs0 Hfol Hf Hrun)
    as (r' & Hread & _ & Hend & Hshow); [by rewrite app_nil_r|].
  exists r'. split; [intros fuel; by erewrite bind_ok by exact Hstart|].
  split; [intros fuel; by apply end_of_file|]. unfold repeats in Hshow. destruct e.
  - destruct Hshow as (_ & H1 & H2). by split.
  - destruct Hshow as [H1 H2]. split; [|exact H2]. unfold ir_frame. by rewrite H1.
Qed.
End replay.

(** ** Witness *)
Definition capture_opts : options :=
  mkOpts false true true true false 32 false 16 false 3 (-1).
Definition idle : irdump :=
  mkIr (mkDump (mkObex (mkFrame (mkBuf (replicate 2050 0) 0 0 2050 0 2050) "" "" "") 0xff)
    conn_start (mkCtr 0 0 0 0)) (mkTime 0 0) (mkTime 0 0) [] [] 0.
Definition from_dev (e : endian) : sockaddr_ll :=
  mkFrom (htons e ETH_P_IRDA) 3 783 PACKET_HOST 4 [1; 2; 3; 4; 0; 0; 0; 0].
Definition heard (e : endian) : list packet :=
  [mkPacket [0xff; 0x3f; 1; 1; 2; 3; 4; 0xff; 0xff; 0xff; 0xff; 1; 0; 0] (from_dev e)
     (Some (mkTime 10 5));
   mkPacket [0x10; 0x11] (from_dev e) (Some (mkTime 11 7))].
#[local] Abbreviation session e :=
  (start_capture e all_written;;
   main_live test_junk test_junk test_junk test_junk (λ _, 0) (λ _, true) e all_written
     test_junk8 capture_opts 0 (heard e)).
#[local] Abbreviation reader e fuel :=
  (main_read test_junk test_junk test_junk test_junk (λ _, 0) (λ _, true) e all_written
    test_junk8 (reading capture_opts) 0 fuel).

Lemma heard_accepted e : Forall2 (accepted e 0) (heard e) [mkTime 10 5; mkTime 11 7].
Proof.
  repeat constructor; try done; try (simpl; lia); try (by destruct e); by left.
Defined.

Lemma capture_opts_live : config_captureread capture_opts < 0.
Proof. done. Qed.
Lemma capture_opts_write : 0 ≤ config_capturewrite capture_opts.
Proof. done. Qed.
Lemma block_fits : MAX_FRAME_SIZE ≤ 2050 < 4294967296.
Proof. by unfold MAX_FRAME_SIZE. Qed.
Lemma all_written_complete : complete_writes all_written.
Proof. done. Qed.
Lemma idle_ready : ready 2050 idle.
Proof. by vm_compute. Qed.

Lemma session_ok e : ∃ s', session e idle = Ok (tt, s').
Proof. destruct e; eexists; vm_compute; reflexivity. Qed.

Lemma replay_shows_witness :
  match session BigEndian idle, session LittleEndian idle with
  | Ok (_, s1), Ok (_, s2) =>
      (∃ r', (∀ fuel, (start_replay BigEndian;; reader BigEndian (length (heard BigEndian) + fuel)) (with_in (ir_out s1) idle)
          = reader BigEndian fuel r') ∧
        (∀ fuel, reader BigEndian (S fuel) r' = Stop (Exited (-1))) ∧
        f_out (ir_frame r') = f_out (ir_frame s1) ∧ packets r' - packets idle = packets s1 - packets idle) ∧
      (∃ r', (∀ fuel, (start_replay LittleEndian;; reader LittleEndian (length (heard LittleEndian) + fuel))
          (with_in (ir_out s2) idle) = reader LittleEndian fuel r') ∧
        (∀ fuel, reader LittleEndian (S fuel) r' = Stop (Exited (-1))) ∧
        f_out (ir_frame r') = f_out (ir_frame idle) ∧ packets r' = packets idle)
  | _, _ => False
  end.
Proof.
  destruct (session_ok BigEndian) as [s1 E1], (session_ok LittleEndian) as [s2 E2].
  rewrite E1, E2. unfold reader, session in *. split.
  - apply (replay_shows test_junk test_junk test_junk test_junk (λ _, 0) (λ _, true) BigEndian
      all_written test_junk8 0 capture_opts eq_refl capture_opts_live capture_opts_write
      all_written_complete eq_refl 2050 block_fits 0 (heard BigEndian) [mkTime 10 5; mkTime 11 7] idle s1
      (with_in (ir_out s1) idle));
      [apply idle_ready | apply heard_accepted | reflexivity | exact E1
      | reflexivity | reflexivity].
  - apply (replay_shows test_junk test_junk test_junk test_junk (λ _, 0) (λ _, true) LittleEndian
      all_written test_junk8 0 capture_opts eq_refl capture_opts_live capture_opts_write
      all_written_complete eq_refl 2050 block_fits 0 (heard LittleEndian) [mkTime 10 5; mkTime 11 7] idle s2
      (with_in (ir_out s2) idle));
      [apply idle_ready | apply heard_accepted | reflexivity | exact E2
      | reflexivity | reflexivity].
Defined.
