(* ===== verification/CLib.v ===== *)
(** * Functions of the C library that the programs call: [strtoul], [fgets], strings *)
From Stdlib Require Import String Ascii.
From S2P Require Import Prelude CInt Printf.
Local Open Scope string_scope.
Local Open Scope list_scope.
Local Open Scope Z_scope.

Definition is_space (c : ascii) : bool :=
  (ord c =? 32) || ((9 <=? ord c) && (ord c <=? 13)).

(** the value of a digit or letter; 99 for any other character *)
Definition digit_of (c : ascii) : Z :=
  let n := ord c in
  if (48 <=? n) && (n <=? 57) then n - 48
  else if (97 <=? n) && (n <=? 122) then n - 87
  else if (65 <=? n) && (n <=? 90) then n - 55
  else 99.

(** the digits of [base] at the head of a string, and the rest of it *)
Fixpoint scan (base acc : Z) (s : string) : Z * string :=
  match s with
  | String c t => if digit_of c <? base then scan base (acc * base + digit_of c) t else (acc, s)
  | EmptyString => (acc, s)
  end.

Fixpoint skip_space (s : string) : string :=
  match s with
  | String c t => if is_space c then skip_space t else s
  | EmptyString => s
  end.

(** base 0: the prefix chooses the base.  The result is [None] without digits. *)
Definition scan_number (s : string) : option (Z * string) :=
  match s with
  | String "0" (String x (String c t)) =>
      if (Ascii.eqb x "x" || Ascii.eqb x "X") && (digit_of c <? 16)
      then Some (scan 16 0 (String c t)) else Some (scan 8 0 s)
  | String "0" _ => Some (scan 8 0 s)
  | String c _ => if digit_of c <? 10 then Some (scan 10 0 s) else None
  | EmptyString => None
  end.

(** [strtoul(s, &end, 0)]: the value and what [end] points to *)
Definition strtoul (ulong_max : Z) (s : string) : Z * string :=
  let t := skip_space s in
  let '(neg, t) := match t with
    | String "-" t => (true, t)
    | String "+" t => (false, t)
    | t => (false, t)
    end in
  match scan_number t with
  | None => (0, s)
  | Some (v, rest) =>
      if ulong_max <? v then (ulong_max, rest)
      else ((if neg then (ulong_max + 1 - v) mod (ulong_max + 1) else v), rest)
  end.

(** [strtoul(s, &end, 16)] *)
Definition strtoul16 (ulong_max : Z) (s : string) : Z * string :=
  let t := skip_space s in
  let '(neg, t) := match t with
    | String "-" t => (true, t)
    | String "+" t => (false, t)
    | t => (false, t)
    end in
  let t := match t with
    | String "0" (String x (String c r)) =>
        if (Ascii.eqb x "x" || Ascii.eqb x "X") && (digit_of c <? 16) then String c r else t
    | t => t
    end in
  match t with
  | String c _ =>
      if digit_of c <? 16 then
        let '(v, rest) := scan 16 0 t in
        if ulong_max <? v then (ulong_max, rest)
        else ((if neg then (ulong_max + 1 - v) mod (ulong_max + 1) else v), rest)
      else (0, s)
  | EmptyString => (0, s)
  end.

Example strtoul_examples :
  strtoul 0xffffffff "0x3f8" = (0x3f8, "") ∧ strtoul 0xffffffff " 017z" = (15, "z") ∧
  strtoul 0xffffffff "-1" = (0xffffffff, "") ∧ strtoul 0xffffffff "0x" = (0, "x") ∧
  strtoul 0xffffffff "port" = (0, "port") ∧ strtoul 0xffffffff "0" = (0, "").
Proof. by vm_compute. Qed.

(** ** What [printf] prints, [strtoul] reads *)
Lemma digit_of_digit d : 0 ≤ d < 16 → digit_of (digit d) = d.
Proof.
  intros Hd.
  pose proof (byte_forall (λ b, (16 <=? b) || (digit_of (digit b) =? b))) as H.
  specialize (H ltac:(by vm_compute) d). unfold is_byte in H.
  rewrite orb_true_iff, Z.leb_le, Z.eqb_eq in H. lia.
Qed.

Lemma scan_digits fuel base n acc :
  2 ≤ base ≤ 16 → 0 ≤ n < 2 ^ Z.of_nat fuel →
  scan base 0 (digits fuel base n acc) = scan base n acc.
Proof.
  intros Hb. revert n acc. induction fuel as [|fuel IH]; intros n acc Hn; simpl.
  - change (2 ^ Z.of_nat 0) with 1 in Hn. by replace n with 0 by lia.
  - destruct (Z.ltb_spec n base) as [E|E].
    + simpl. rewrite Z.mod_small, digit_of_digit by lia.
      by rewrite (proj2 (Z.ltb_lt _ _)) by lia.
    + pose proof (Z.mod_pos_bound n base). rewrite Nat2Z.inj_succ, Z.pow_succ_r in Hn by lia.
      rewrite IH.
      * simpl. rewrite digit_of_digit, (proj2 (Z.ltb_lt _ _)) by lia.
        f_equal. pose proof (Z.div_mod n base). lia.
      * split; [apply Z.div_pos; lia|]. apply Z.div_lt_upper_bound; [lia|]. nia.
Qed.

(** the first digit, of a number that is not 0 *)
Lemma digits_head fuel base n acc :
  2 ≤ base ≤ 16 → 0 < n < 2 ^ Z.of_nat fuel →
  ∃ d t, digits fuel base n acc = String (digit d) t ∧ 1 ≤ d < base.
Proof.
  intros Hb. revert n acc. induction fuel as [|fuel IH]; intros n acc Hn; simpl.
  - change (2 ^ Z.of_nat 0) with 1 in Hn. lia.
  - destruct (Z.ltb_spec n base) as [E|E].
    + exists n, acc. rewrite Z.mod_small by lia. split; [done|lia].
    + rewrite Nat2Z.inj_succ, Z.pow_succ_r in Hn by lia. apply IH.
      split; [apply Z.div_str_pos; lia|]. apply Z.div_lt_upper_bound; [lia|]. nia.
Qed.

Lemma fmt_base_head base n :
  2 ≤ base ≤ 16 → 0 < n → ∃ d t, fmt_base base n = String (digit d) t ∧ 1 ≤ d < base.
Proof.
  intros Hb Hn. apply digits_head; [done|]. split; [done|]. apply log2_fuel. lia.
Qed.
Lemma scan_fmt_base base n :
  2 ≤ base ≤ 16 → 0 ≤ n → scan base 0 (fmt_base base n) = (n, EmptyString).
Proof.
  intros Hb Hn. unfold fmt_base. rewrite scan_digits; [done|done|].
  split; [done|]. by apply log2_fuel.
Qed.

(** no digit is a space, a sign or the letter x, and only 0 is printed as 0 *)
Definition plain_digit (d : Z) : bool :=
  let c := digit d in
  negb (is_space c) && negb (Ascii.eqb c "-") && negb (Ascii.eqb c "+")
  && (Bool.eqb (Ascii.eqb c "0") (d =? 0)).
Lemma digit_plain d : 0 ≤ d < 16 → plain_digit d = true.
Proof.
  intros Hd. pose proof (byte_forall (λ b, (16 <=? b) || plain_digit b)) as H.
  specialize (H ltac:(by vm_compute) d). unfold is_byte in H.
  rewrite orb_true_iff, Z.leb_le in H. destruct H; [lia|lia|done].
Qed.

Lemma strtoul_dec ulong_max n :
  0 ≤ n ≤ ulong_max → strtoul ulong_max (fmt_u n) = (n, EmptyString).
Proof.
  intros Hn. destruct (decide (n = 0)) as [->|Hz].
  { destruct ulong_max; [done|done|lia]. }
  destruct (fmt_base_head 10 n) as (d & t & E & Hd); [lia|lia|].
  pose proof (scan_fmt_base 10 n) as Hs. unfold fmt_u. rewrite E in *.
  assert (Hscan : scan_number (String (digit d) t) = Some (n, EmptyString)).
  { rewrite <- Hs by lia.
    assert (d = 1 ∨ d = 2 ∨ d = 3 ∨ d = 4 ∨ d = 5 ∨ d = 6 ∨ d = 7 ∨ d = 8 ∨ d = 9) as Hc by lia.
    by repeat destruct Hc as [->|Hc]; try subst. }
  assert (Ht : strtoul ulong_max (String (digit d) t)
    = match scan_number (String (digit d) t) with
      | None => (0, String (digit d) t)
      | Some (v, rest) => if ulong_max <? v then (ulong_max, rest) else (v, rest)
      end).
  { assert (d = 1 ∨ d = 2 ∨ d = 3 ∨ d = 4 ∨ d = 5 ∨ d = 6 ∨ d = 7 ∨ d = 8 ∨ d = 9) as Hc by lia.
    by repeat destruct Hc as [->|Hc]; try subst. }
  rewrite Ht, Hscan. by rewrite (proj2 (Z.ltb_ge ulong_max n)) by lia.
Qed.

Lemma strtoul_hex ulong_max n :
  0 ≤ n ≤ ulong_max → strtoul ulong_max ("0x" +:+ fmt_x n) = (n, EmptyString).
Proof.
  intros Hn. destruct (decide (n = 0)) as [->|Hz].
  { destruct ulong_max; [done|done|lia]. }
  destruct (fmt_base_head 16 n) as (d & t & E & Hd); [lia|lia|].
  pose proof (scan_fmt_base 16 n) as Hs. unfold fmt_x. rewrite E in *.
  unfold strtoul. simpl. rewrite digit_of_digit, (proj2 (Z.ltb_lt _ _)) by lia.
  simpl in Hs. rewrite digit_of_digit, (proj2 (Z.ltb_lt d 16)) in Hs by lia.
  cbn [andb orb]. rewrite Hs by lia. by rewrite (proj2 (Z.ltb_ge ulong_max n)) by lia.
Qed.

Lemma strtoul16_hex ulong_max n :
  0 ≤ n ≤ ulong_max → strtoul16 ulong_max ("0x" +:+ fmt_x n) = (n, EmptyString).
Proof.
  intros Hn. destruct (decide (n = 0)) as [->|Hz].
  { destruct ulong_max; [done|done|lia]. }
  destruct (fmt_base_head 16 n) as (d & t & E & Hd); [lia|lia|].
  pose proof (scan_fmt_base 16 n) as Hs. unfold fmt_x. rewrite E in *.
  unfold strtoul16. simpl. rewrite digit_of_digit, (proj2 (Z.ltb_lt _ _)) by lia.
  cbn [andb orb]. rewrite digit_of_digit, (proj2 (Z.ltb_lt _ _)) by lia.
  rewrite Hs by lia. by rewrite (proj2 (Z.ltb_ge ulong_max n)) by lia.
Qed.

(** ** C strings *)
Fixpoint str_take (n : nat) (s : string) : string :=
  match n, s with
  | S n, String c s => String c (str_take n s)
  | _, _ => ""
  end.

Lemma str_take_all n s : (String.length s ≤ n)%nat → str_take n s = s.
Proof.
  revert n. induction s as [|c s IH]; intros [|n] Hl; simpl in *; try done; try lia.
  by rewrite IH by lia.
Qed.

(** [strncmp(a, b, strlen(a)) == 0] *)
Fixpoint starts_with (a b : string) : bool :=
  match a, b with
  | EmptyString, _ => true
  | String c a, String d b => Ascii.eqb c d && starts_with a b
  | _, EmptyString => false
  end.

Definition is_digit (c : ascii) : bool := (48 <=? ord c) && (ord c <=? 57).

(** the characters before the first [c], and whether there is one *)
Fixpoint str_before (c : ascii) (s : string) : option string :=
  match s with
  | EmptyString => None
  | String d s => if Ascii.eqb d c then Some "" else String d <$> str_before c s
  end.

(** [strtok(s, c)]: the first token *)
Fixpoint first_token (c : ascii) (s : string) : option string :=
  match s with
  | EmptyString => None
  | String d t => if Ascii.eqb d c then first_token c t
                  else Some (default s (str_before c s))
  end.

(** [fgets(buff, n, fh)]: at most [n - 1] characters, up to a newline *)
Fixpoint fgets_line (n : nat) (s : string) : string * string :=
  match n, s with
  | S n, String c s =>
      if Ascii.eqb c "010" then (String c "", s)
      else let '(l, r) := fgets_line n s in (String c l, r)
  | _, _ => ("", s)
  end.
Definition fgets (n : nat) (s : string) : option (string * string) :=
  match s with
  | EmptyString => None
  | _ => Some (fgets_line (n - 1) s)
  end.

(** an array that holds [s] as a C string: up to the first null character *)
Fixpoint c_str (s : string) : string :=
  match s with
  | EmptyString => ""
  | String c s => if ord c =? 0 then "" else String c (c_str s)
  end.

(** [s[strlen(s) - 1] = 0] *)
Fixpoint drop_last (s : string) : string :=
  match s with
  | EmptyString => ""
  | String _ EmptyString => ""
  | String c s => String c (drop_last s)
  end.

(** every character satisfies [p] *)
Fixpoint str_all (p : ascii → bool) (s : string) : bool :=
  match s with
  | EmptyString => true
  | String c s => p c && str_all p s
  end.
Definition not_nul (c : ascii) : bool := negb (ord c =? 0).
Definition not_newline (c : ascii) : bool := negb (Ascii.eqb c "010").

Lemma str_all_app p s t : str_all p (s +:+ t) = str_all p s && str_all p t.
Proof. induction s; [done|]. rewrite str_app_cons. cbn. by rewrite IHs, andb_assoc. Qed.

Lemma str_length_app s t : String.length (s +:+ t) = (String.length s + String.length t)%nat.
Proof. induction s; [done|]. rewrite str_app_cons. cbn. by rewrite IHs. Qed.

Lemma c_str_all s : str_all not_nul s = true → c_str s = s.
Proof.
  induction s as [|c s IH]; [done|]. cbn. unfold not_nul at 1.
  destruct (ord c =? 0); [done|]. intros H. by rewrite IH.
Qed.

Lemma drop_last_snoc s c : drop_last (s +:+ String c "") = s.
Proof.
  induction s as [|d s IH]; [done|]. rewrite str_app_cons. cbn. rewrite IH.
  by destruct s; [|rewrite str_app_cons].
Qed.

Lemma fgets_line_app n s l r : fgets_line n s = (l, r) → s = l +:+ r.
Proof.
  revert s l r. induction n as [|n IH]; intros [|c s] l r; cbn; [by intros [= <- <-]..|].
  destruct (Ascii.eqb_spec c "010") as [->|]; [by intros [= <- <-]|].
  destruct (fgets_line n s) as [l' r'] eqn:E. intros [= <- <-].
  rewrite str_app_cons. f_equal. by apply IH.
Qed.

(** something is read, unless the file ends *)
Lemma fgets_some n s :
  (2 ≤ n)%nat → s ≠ "" →
  ∃ c l r, fgets n s = Some (String c l, r) ∧ s = String c l +:+ r.
Proof.
  intros Hn Hs. destruct s as [|c s]; [done|]. unfold fgets.
  destruct (fgets_line (n - 1) (String c s)) as [l r] eqn:E.
  pose proof (fgets_line_app _ _ _ _ E) as Happ.
  destruct n as [|[|n]]; [lia..|]. cbn in E.
  destruct (Ascii.eqb c "010").
  - injection E as <- <-. eauto.
  - destruct (fgets_line n s). injection E as <- <-. eauto.
Qed.

(** a line that fits is read up to its newline *)
Lemma fgets_whole n l s :
  str_all not_newline l = true → (String.length l + 2 ≤ n)%nat →
  fgets n (l +:+ nl +:+ s) = Some (l +:+ nl, s).
Proof.
  intros Hl Hn.
  assert (fgets_line (n - 1) (l +:+ nl +:+ s) = (l +:+ nl, s)) as E.
  { assert (Hm : (String.length l < n - 1)%nat) by lia. revert Hm. generalize (n - 1)%nat as m.
    clear Hn n. induction l as [|c l IH]; intros m Hm.
    - by destruct m; [lia|].
    - destruct m as [|m]; [lia|]. rewrite str_app_cons. cbn in Hl |- *.
      apply andb_true_iff in Hl as [Hc Hl]. unfold not_newline in Hc.
      destruct (Ascii.eqb c "010"); [done|]. cbn in Hm. rewrite IH; [done|done|lia]. }
  unfold fgets. rewrite E. by destruct l.
Qed.

(** ** Texts: a newline after each line *)
Definition text (ls : list string) : string := foldr (λ l f, l +:+ nl +:+ f) "" ls.

Lemma length_text ls : (length ls ≤ String.length (text ls))%nat.
Proof.
  induction ls as [|l ls IH]; [done|]. cbn. fold (text ls).
  rewrite !str_length_app. cbn. lia.
Qed.

(** ** Numbers within a text *)
Lemma skip_space_none s :
  (∀ c t, s = String c t → is_space c = false) → skip_space s = s.
Proof. destruct s as [|c s]; [done|]. intros H. cbn. by rewrite (H c s). Qed.

Lemma digits_app fuel base n acc r : digits fuel base n acc +:+ r = digits fuel base n (acc +:+ r).
Proof.
  revert n acc. induction fuel as [|fuel IH]; intros n acc; cbn [digits]; [done|].
  destruct (n <? base); [done|]. by rewrite IH.
Qed.
Lemma scan_fmt_app base n r :
  2 ≤ base ≤ 16 → 0 ≤ n → scan base n r = (n, r) → scan base 0 (fmt_base base n +:+ r) = (n, r).
Proof.
  intros Hb Hn Hr. unfold fmt_base. rewrite digits_app, str_app_nil_l, scan_digits; [done|done|].
  split; [done|]. by apply log2_fuel.
Qed.

Lemma digits_all p fuel base n acc :
  0 < base → (∀ d, 0 ≤ d < base → p (digit d) = true) → str_all p acc = true →
  str_all p (digits fuel base n acc) = true.
Proof.
  intros Hb Hp. revert n acc. induction fuel as [|fuel IH]; intros n acc Ha; cbn [digits]; [done|].
  assert (str_all p (String (digit (n mod base)) acc) = true).
  { cbn. rewrite Ha, Hp; [done|]. by apply Z.mod_pos_bound. }
  destruct (n <? base); [done|]. by apply IH.
Qed.
Lemma digit_not_nul d : 0 ≤ d < 16 → not_nul (digit d) = true.
Proof.
  intros Hd. pose proof (byte_forall (λ b, (16 <=? b) || not_nul (digit b))) as H.
  specialize (H ltac:(by vm_compute) d). unfold is_byte in H.
  rewrite orb_true_iff, Z.leb_le in H. destruct H; [lia|lia|done].
Qed.
Lemma fmt_u_not_nul n : str_all not_nul (fmt_u n) = true.
Proof. apply digits_all; [lia| |done]. intros d Hd. apply digit_not_nul. lia. Qed.

Lemma digits_length fuel base n acc k :
  2 ≤ base → 0 ≤ n < base ^ Z.of_nat (S k) →
  (String.length (digits fuel base n acc) ≤ S k + String.length acc)%nat.
Proof.
  intros Hb. revert n acc k. induction fuel as [|fuel IH]; intros n acc k Hn; cbn [digits]; [lia|].
  destruct (Z.ltb_spec n base) as [E|E]; [cbn; lia|].
  destruct k as [|k]; [rewrite Z.pow_1_r in Hn; lia|].
  rewrite Nat2Z.inj_succ, Z.pow_succ_r in Hn by lia.
  specialize (IH (n / base) (String (digit (n mod base)) acc) k). cbn [String.length] in IH.
  enough (0 ≤ n / base < base ^ Z.of_nat (S k)) by lia.
  split; [apply Z.div_pos; lia|]. apply Z.div_lt_upper_bound; lia.
Qed.
Lemma fmt_u_length n : 0 ≤ n < 2 ^ 32 → (String.length (fmt_u n) ≤ 10)%nat.
Proof. intros Hn. apply (digits_length _ 10 n "" 9); lia. Qed.

(** a string in memory, with its terminator *)
Lemma cstr_of_str s k :
  str_all not_nul s = true → cstr (bytes_of_str s ++ 0 :: k) = Some (bytes_of_str s).
Proof.
  intros Hs. apply cstr_app. induction s as [|c s IH]; intros b Hb; [by apply elem_of_nil in Hb|].
  cbn in Hs. apply andb_true_iff in Hs as [Hc Hs]. apply elem_of_cons in Hb as [->|Hb]; [|by apply IH].
  unfold not_nul in Hc. by apply negb_true_iff, Z.eqb_neq in Hc.
Qed.
Lemma bytes_of_str_length s : length (bytes_of_str s) = String.length s.
Proof. induction s; simpl; [done|by rewrite IHs]. Qed.

(** ** Conversions of [scanf] *)
Section scanf.
Variable ulong_max : Z.

Definition signed (s : string) : bool * string :=
  match skip_space s with
  | String "-" t => (true, t)
  | String "+" t => (false, t)
  | t => (false, t)
  end.
(** a conversion [%u]: [None] where there is no number *)
Definition scan_u (s : string) : option (Z * string) :=
  let '(neg, t) := signed s in
  match t with
  | String c _ =>
      if is_digit c then
        let '(v, rest) := scan 10 0 t in
        Some (u32 (if ulong_max <? v then ulong_max else if neg then - v else v), rest)
      else None
  | EmptyString => None
  end.
(** [%d], stored in an [unsigned int]; [atoi] *)
Definition scan_d (s : string) : option (Z * string) :=
  let '(neg, t) := signed s in
  let long_max := ulong_max / 2 in
  match t with
  | String c _ =>
      if is_digit c then
        let '(v, rest) := scan 10 0 t in
        Some (u32 (if neg then Z.max (- v) (- long_max - 1) else Z.min v long_max), rest)
      else None
  | EmptyString => None
  end.
Definition atoi (s : string) : Z :=
  match scan_d s with Some (v, _) => s32 v | None => 0 end.
(** [%X]: hexadecimal digits, with [0x] or without *)
Definition scan_x (s : string) : option (Z * string) :=
  let '(neg, t) := signed s in
  let t := match t with
    | String "0" (String x r) => if Ascii.eqb x "x" || Ascii.eqb x "X" then r else t
    | t => t
    end in
  match t with
  | String c _ =>
      if digit_of c <? 16 then
        let '(v, rest) := scan 16 0 t in
        Some (u32 (if ulong_max <? v then ulong_max else if neg then - v else v), rest)
      else None
  | EmptyString => None
  end.
End scanf.

(** *** What is printed is read by [%d] and [atoi] *)
Lemma skip_space_pad pad s : str_all is_space pad = true → skip_space (pad +:+ s) = skip_space s.
Proof.
  induction pad as [|c pad IH]; [done|]. rewrite str_app_cons. cbn.
  destruct (is_space c); [|done]. by intros H; apply IH.
Qed.

Section printed.
Variable ulong_max : Z.
Hypothesis ulong : 2 ^ 32 - 1 ≤ ulong_max.

Lemma scan_d_printed pad n r :
  str_all is_space pad = true → 0 ≤ n < 2 ^ 31 → (∀ c t, r = String c t → digit_of c = 99) →
  scan_d ulong_max (pad +:+ fmt_u n +:+ r) = Some (n, r).
Proof.
  intros Hp Hn Hr.
  assert (Hd : ∃ d t, fmt_u n = String (digit d) t ∧ 0 ≤ d < 10).
  { destruct (decide (n = 0)) as [->|]; [by exists 0, ""|].
    destruct (fmt_base_head 10 n) as (d & t & E & H); [lia|lia|]. exists d, t. split; [done|lia]. }
  destruct Hd as (d & t & E & Hd).
  assert (Hscan : scan 10 0 (fmt_u n +:+ r) = (n, r)).
  { apply scan_fmt_app; [lia|lia|]. destruct r as [|c' r]; [done|]. cbn. by rewrite (Hr c' r). }
  assert (Hplain : is_space (digit d) = false ∧ Ascii.eqb (digit d) "-" = false ∧
    Ascii.eqb (digit d) "+" = false ∧ is_digit (digit d) = true).
  { assert (d = 0 ∨ d = 1 ∨ d = 2 ∨ d = 3 ∨ d = 4 ∨ d = 5 ∨ d = 6 ∨ d = 7 ∨ d = 8 ∨ d = 9)
      as Hc by lia. by repeat destruct Hc as [->|Hc]; try subst. }
  destruct Hplain as (P1 & P2 & P3 & P4).
  assert (Hsig : signed (pad +:+ fmt_u n +:+ r) = (false, fmt_u n +:+ r)).
  { unfold signed. rewrite skip_space_pad by done. rewrite E, str_app_cons. cbn [skip_space].
    rewrite P1. destruct (digit d) as [[] [] [] [] [] [] [] []]; done. }
  unfold scan_d. rewrite Hsig. rewrite E, str_app_cons in *. rewrite P4, Hscan.
  rewrite Z.min_l by (apply Z.div_le_lower_bound; lia). by rewrite u32_small by lia.
Qed.
Lemma atoi_printed n : 0 ≤ n < 2 ^ 31 → atoi ulong_max (fmt_u n) = n.
Proof.
  intros Hn. unfold atoi. pose proof (scan_d_printed "" n "" ltac:(done) Hn ltac:(done)) as H.
  rewrite str_app_nil_l, str_app_nil_r in H. rewrite H. apply s32_small. lia.
Qed.
End printed.
