(* ===== verification/PortIO.v ===== *)
(** * Programs that drive a chip by I/O ports

    [inb] and [outb] on a device that is a parameter ([PortDev]): what a port
    answers is the hardware's business.  The state keeps the log of the accesses,
    so that a theorem can say what a program does to any hardware; what it does
    to a chip that works as documented is said with [ConfigPort], the laws of a
    pair of index and data ports. *)
From Stdlib Require Import String.
From S2P Require Import Prelude CInt Printf.
Local Open Scope string_scope.
Local Open Scope list_scope.
Local Open Scope Z_scope.

(** [dev_in port], [dev_out value port] *)
Class PortDev (D : Type) := {
  dev_in : Z → D → Z * D;
  dev_out : Z → Z → D → D }.

(** the PCI configuration registers of a device (bus, device, function), read and
    written through a library *)
Record pci_addr := mkPci { pci_bus : Z; pci_dev : Z; pci_func : Z }.
Class PciDev (D : Type) := {
  pci_byte_in : pci_addr → Z → D → Z * D;
  pci_word_in : pci_addr → Z → D → Z * D;
  pci_byte_out : pci_addr → Z → Z → D → D;
  pci_word_out : pci_addr → Z → Z → D → D }.

Inductive event :=
  | In (port : Z) (v : Z)
  | Out (v : Z) (port : Z).

Record io (D : Type) := mkIo {
  dev : D;
  io_log : list event;
  io_out : string;
  io_err : string;
  io_sys : string }.   (* the system log *)
Arguments mkIo {D} _ _ _ _ _.
Arguments dev {D} _.
Arguments io_log {D} _.
Arguments io_out {D} _.
Arguments io_err {D} _.
Arguments io_sys {D} _.

Section portio.
Context {D : Type} `{!PortDev D}.

Definition inb (port : Z) : M (io D) Z := λ s,
  let '(v, d) := dev_in (u16 port) (dev s) in
  Ok (u8 v, mkIo d (io_log s ++ [In (u16 port) (u8 v)]) (io_out s) (io_err s) (io_sys s)).
Definition outb (v port : Z) : M (io D) unit :=
  modify (λ s, mkIo (dev_out (u8 v) (u16 port) (dev s))
    (io_log s ++ [Out (u8 v) (u16 port)]) (io_out s) (io_err s) (io_sys s)).
Definition printf (t : string) : M (io D) unit :=
  modify (λ s, mkIo (dev s) (io_log s) (io_out s +:+ t) (io_err s) (io_sys s)).
Definition syslog (t : string) : M (io D) unit :=
  modify (λ s, mkIo (dev s) (io_log s) (io_out s) (io_err s) (io_sys s +:+ t +:+ nl)).
Definition eprintf (t : string) : M (io D) unit :=
  modify (λ s, mkIo (dev s) (io_log s) (io_out s) (io_err s +:+ t) (io_sys s)).
End portio.

Section pci.
Context {D : Type} `{!PciDev D}.

Definition pci_access {A} (f : D → A * D) : M (io D) A := λ s,
  let '(v, d) := f (dev s) in Ok (v, mkIo d (io_log s) (io_out s) (io_err s) (io_sys s)).
Definition pci_read_byte (a : pci_addr) (r : Z) : M (io D) Z :=
  v ← pci_access (pci_byte_in a r); mret (u8 v).
Definition pci_read_word (a : pci_addr) (r : Z) : M (io D) Z :=
  v ← pci_access (pci_word_in a r); mret (u16 v).
Definition pci_write_byte (a : pci_addr) (r v : Z) : M (io D) unit :=
  pci_access (λ d, (tt, pci_byte_out a r (u8 v) d)).
Definition pci_write_word (a : pci_addr) (r v : Z) : M (io D) unit :=
  pci_access (λ d, (tt, pci_word_out a r (u16 v) d)).
End pci.

(** ** What a program does to any hardware *)

(** [m] returns on every hardware, and its accesses satisfy [Q] *)
Definition emits {D A} (Q : event → Prop) (m : M (io D) A) : Prop :=
  ∀ s, ∃ a s' evs, m s = Ok (a, s') ∧ io_log s' = io_log s ++ evs ∧ Forall Q evs.

Section emits.
Context {D : Type} `{!PortDev D} (Q : event → Prop).

Lemma emits_ret {A} (a : A) : emits (D:=D) Q (mret a).
Proof. intros s. exists a, s, []. by rewrite app_nil_r. Qed.
Lemma emits_bind {A B} (m : M (io D) A) (k : A → M (io D) B) :
  emits Q m → (∀ a, emits Q (k a)) → emits Q (m ≫= k).
Proof.
  intros Hm Hk s. destruct (Hm s) as (a & s1 & e1 & H1 & L1 & F1).
  destruct (Hk a s1) as (b & s2 & e2 & H2 & L2 & F2).
  exists b, s2, (e1 ++ e2). split; [by erewrite bind_ok by exact H1|].
  rewrite L2, L1, app_assoc. split; [done|]. by apply Forall_app.
Qed.
Lemma emits_when b (m : M (io D) unit) : emits Q m → emits Q (when b m).
Proof. destruct b; [done|]. intros _. apply emits_ret. Qed.
Lemma emits_modify (f : io D → io D) :
  (∀ s, io_log (f s) = io_log s) → emits Q (modify f).
Proof.
  intros Hf s. exists tt, (f s), []. by rewrite app_nil_r.
Qed.
Lemma emits_gets {A} (f : io D → A) : emits Q (gets f).
Proof. intros s. exists (f s), s, []. by rewrite app_nil_r. Qed.
Lemma emits_printf t : emits (D:=D) Q (printf t).
Proof. by apply emits_modify. Qed.
Lemma emits_syslog t : emits (D:=D) Q (syslog t).
Proof. by apply emits_modify. Qed.
Lemma emits_eprintf t : emits (D:=D) Q (eprintf t).
Proof. by apply emits_modify. Qed.
Lemma emits_inb p : (∀ v, is_byte v → Q (In (u16 p) v)) → emits (D:=D) Q (inb p).
Proof.
  intros HQ s. unfold inb. destruct (dev_in (u16 p) (dev s)) as [v d].
  eexists _, _, [_]. split; [done|]. split; [done|].
  constructor; [|done]. apply HQ, u8_range.
Qed.
Lemma emits_outb v p : Q (Out (u8 v) (u16 p)) → emits (D:=D) Q (outb v p).
Proof. intros HQ s. eexists _, _, [_]. split; [done|]. split; [done|]. by constructor. Qed.
Lemma emits_pci `{!PciDev D} {A} (f : D → A * D) : emits (D:=D) Q (pci_access f).
Proof.
  intros s. unfold pci_access. destruct (f (dev s)) as [v d].
  eexists _, _, []. rewrite app_nil_r. by repeat split.
Qed.
Lemma emits_pci_byte `{!PciDev D} a r : emits (D:=D) Q (pci_read_byte a r).
Proof. apply emits_bind; [apply emits_pci|intros; apply emits_ret]. Qed.
Lemma emits_pci_word `{!PciDev D} a r : emits (D:=D) Q (pci_read_word a r).
Proof. apply emits_bind; [apply emits_pci|intros; apply emits_ret]. Qed.
End emits.

Lemma emits_weaken {D A} (P Q : event → Prop) (m : M (io D) A) :
  (∀ x, P x → Q x) → emits P m → emits Q m.
Proof.
  intros Hpq Hm s. destruct (Hm s) as (a & s' & evs & H1 & H2 & H3).
  exists a, s', evs. split; [done|]. split; [done|]. by eapply Forall_impl.
Qed.

Create HintDb ports.
#[export] Hint Resolve emits_ret emits_printf emits_eprintf emits_syslog
  emits_gets   emits_pci emits_pci_byte emits_pci_word : ports.
#[export] Hint Unfold pci_write_byte pci_write_word : ports.

Ltac ports :=
  repeat match goal with
  | |- ∀ _, emits _ _ => intro
  | |- emits _ (_ ≫= _) => apply emits_bind; [|intro]
  | |- emits _ (when _ _) => apply emits_when
  | |- emits _ (match ?x with _ => _ end) => destruct x
  | |- emits _ (inb _) => apply emits_inb; intros
  | |- emits _ (outb _ _) => apply emits_outb
  | |- emits _ _ => solve [auto 3 with ports nocore]
  end.

(** ** A chip configured by an index port and a data port

    In the configuration state, a byte sent to the index port selects a register
    (but the [keys] that open and end the state), and the data port gives and takes its
    value; [latch r old v] is what register [r] keeps of a byte [v]. *)
Class ConfigPort (D : Type) `{!PortDev D} (idx dat : Z) (keys : list Z)
    (latch : Z → Z → Z → Z) := {
  opened : D → Prop;
  selected : D → Z;
  reg : D → Z → Z;
  cfg_index d v : opened d → is_byte v → v ∉ keys →
    let d' := dev_out v idx d in
    opened d' ∧ selected d' = v ∧ ∀ r, reg d' r = reg d r;
  cfg_read d : opened d → dev_in dat d = (reg d (selected d), d);
  cfg_byte d r : opened d → is_byte (reg d r);
  cfg_write d v : opened d → is_byte v →
    let d' := dev_out v dat d in
    opened d' ∧ selected d' = selected d ∧
    ∀ r, reg d' r = if r =? selected d then latch r (reg d r) v else reg d r }.

Section config.
Context {D : Type} `{!PortDev D} (idx dat : Z) (keys : list Z) (latch : Z → Z → Z → Z)
  `{!ConfigPort D idx dat keys latch}.
Hypothesis idx_port : 0 ≤ idx < 65536.
Hypothesis dat_port : 0 ≤ dat < 65536.
#[local] Abbreviation Opened := (opened (idx:=idx) (dat:=dat) (keys:=keys) (latch:=latch)).
#[local] Abbreviation Reg := (reg (idx:=idx) (dat:=dat) (keys:=keys) (latch:=latch)).
#[local] Abbreviation Selected := (selected (idx:=idx) (dat:=dat) (keys:=keys) (latch:=latch)).

(** the chip is in the configuration state and its registers hold [R] *)
Definition configured (R : Z → Z) (s : io D) : Prop :=
  Opened (dev s) ∧ ∀ r, Reg (dev s) r = R r.
(** ... and register [r] is selected *)
Definition at_reg (r : Z) (R : Z → Z) (s : io D) : Prop :=
  configured R s ∧ Selected (dev s) = r.
Definition same_text (s s' : io D) : Prop :=
  io_out s' = io_out s ∧ io_err s' = io_err s ∧ io_sys s' = io_sys s.

Lemma configured_byte R s r : configured R s → is_byte (R r).
Proof. intros [Ho <-]. by apply cfg_byte. Qed.

Lemma select_reg {B} r (k : unit → M (io D) B) R s :
  configured R s → is_byte r → r ∉ keys →
  ∃ s', at_reg r R s' ∧ same_text s s' ∧ (outb r idx ≫= k) s = k tt s'.
Proof.
  intros [Ho HR] Hr Hk. destruct (cfg_index _ r Ho Hr Hk) as (Ho' & Hs & Hr').
  assert (E : outb r idx s = Ok (tt, mkIo (dev_out r idx (dev s))
    (io_log s ++ [Out r idx]) (io_out s) (io_err s) (io_sys s))).
  { unfold outb, modify. by rewrite (u8_small r), (u16_small idx) by done. }
  eexists. split; [|split; [|by erewrite bind_ok by exact E]]; [|done].
  split; [|done]. split; [done|]. intros x. simpl. by rewrite Hr'.
Qed.

Lemma read_reg {B} r (k : Z → M (io D) B) R s :
  at_reg r R s → ∃ s', at_reg r R s' ∧ same_text s s' ∧ (inb dat ≫= k) s = k (R r) s'.
Proof.
  intros [[Ho HR] Hs]. pose proof (cfg_byte (dev s) r Ho) as Hb.
  assert (E : inb dat s = Ok (R r, mkIo (dev s)
    (io_log s ++ [In dat (R r)]) (io_out s) (io_err s) (io_sys s))).
  { unfold inb. rewrite (u16_small dat) by done. rewrite (cfg_read _ Ho), Hs, HR in *.
    by rewrite u8_small by done. }
  eexists. split; [|split; [|erewrite bind_ok by exact E; reflexivity]]; done.
Qed.

Lemma write_reg {B} v r (k : unit → M (io D) B) R s :
  at_reg r R s →
  ∃ s', at_reg r (λ x, if x =? r then latch x (R x) (u8 v) else R x) s' ∧
    same_text s s' ∧ (outb v dat ≫= k) s = k tt s'.
Proof.
  intros [[Ho HR] Hs]. destruct (cfg_write _ (u8 v) Ho) as (Ho' & Hs' & Hr');
    [apply u8_range|].
  assert (E : outb v dat s = Ok (tt, mkIo (dev_out (u8 v) dat (dev s))
    (io_log s ++ [Out (u8 v) dat]) (io_out s) (io_err s) (io_sys s))).
  { unfold outb, modify. by rewrite (u16_small dat) by done. }
  eexists. split; [|split; [|by erewrite bind_ok by exact E]]; [|done].
  split; [|simpl; by rewrite Hs']. split; [done|]. intros x. simpl. rewrite Hr', Hs.
  by rewrite HR.
Qed.

Lemma at_configured r R s : at_reg r R s → configured R s.
Proof. by intros []. Qed.

Lemma same_text_trans s s1 s2 : same_text s s1 → same_text s1 s2 → same_text s s2.
Proof. intros (E1 & E2 & E3) (F1 & F2 & F3). unfold same_text. by rewrite F1, F2, F3. Qed.

(** the idiom [outb(reg, idx); v = inb(dat);] *)
Lemma get_reg {B} r (k : Z → M (io D) B) R s :
  configured R s → is_byte r → r ∉ keys →
  ∃ s', at_reg r R s' ∧ same_text s s' ∧
    (outb r idx ≫= λ _, inb dat ≫= k) s = k (R r) s'.
Proof.
  intros Hc Hr Hk.
  destruct (select_reg r (λ _, inb dat ≫= k) R s Hc Hr Hk) as (s1 & H1 & T1 & ->).
  destruct (read_reg r k R s1 H1) as (s2 & H2 & T2 & ->).
  exists s2. split; [done|]. split; [|done]. by eapply same_text_trans.
Qed.

Lemma print_reg {B} t (k : unit → M (io D) B) R s :
  configured R s →
  ∃ s', configured R s' ∧ io_out s' = io_out s +:+ t ∧ io_err s' = io_err s ∧
    io_sys s' = io_sys s ∧
    (printf t ≫= k) s = k tt s'.
Proof.
  intros Hc. exists (mkIo (dev s) (io_log s) (io_out s +:+ t) (io_err s) (io_sys s)).
  split; [exact Hc|]. by repeat split.
Qed.
End config.

(** one access of a program on a configured chip; [tac] proves that a register
    is a byte and not a key *)
Ltac cfg_step idx dat keys latch tac :=
  rewrite ?bind_assoc;
  match goal with
  | H : at_reg idx dat keys latch _ _ ?s |- context [(outb _ idx ≫= _) ?s] =>
      apply at_configured in H
  | _ => idtac
  end;
  match goal with
  | H : configured idx dat keys latch ?R ?s |- context [(outb ?r idx ≫= ?k) ?s] =>
      destruct (select_reg idx dat keys latch ltac:(lia) r k R s H)
        as (? & ? & ? & ->); [first [done | tac]..|]
  | H : at_reg idx dat keys latch ?r ?R ?s |- context [(inb dat ≫= ?k) ?s] =>
      destruct (read_reg idx dat keys latch ltac:(lia) r k R s H) as (? & ? & ? & ->)
  | H : at_reg idx dat keys latch ?r ?R ?s |- context [(outb ?v dat ≫= ?k) ?s] =>
      destruct (write_reg idx dat keys latch ltac:(lia) v r k R s H) as (? & ? & ? & ->)
  end; cbv beta.

Ltac cfg_print idx dat keys latch :=
  rewrite ?bind_assoc;
  match goal with
  | H : at_reg idx dat keys latch _ _ ?s |- context [(printf _ ≫= _) ?s] =>
      apply at_configured in H
  | _ => idtac
  end;
  match goal with
  | H : configured idx dat keys latch ?R ?s |- context [(printf ?t ≫= ?k) ?s] =>
      destruct (print_reg idx dat keys latch t k R s H) as (? & ? & ? & ? & ? & ->)
  end; cbv beta.

(** ... and what the accesses of a proof printed: nothing *)
Ltac cfg_text :=
  repeat match goal with H : same_text _ _ |- _ => destruct H as (? & ? & ?) end;
  rewrite ?str_app_assoc; congruence.

(** ... when the registers keep what is written to them *)
Section keep.
Context {D : Type} `{!PortDev D} (idx dat : Z) (keys : list Z) (latch : Z → Z → Z → Z)
  `{!ConfigPort D idx dat keys latch}.
Hypothesis idx_port : 0 ≤ idx < 65536.
Hypothesis dat_port : 0 ≤ dat < 65536.
Hypothesis keep : ∀ r old v, latch r old v = v.

Definition with_reg (r v : Z) (R : Z → Z) : Z → Z := λ x, if x =? r then v else R x.

Lemma write_keep {B} v r (k : unit → M (io D) B) R s :
  at_reg idx dat keys latch r R s →
  ∃ s', at_reg idx dat keys latch r (with_reg r (u8 v) R) s' ∧ same_text s s' ∧
    (outb v dat ≫= k) s = k tt s'.
Proof.
  intros H. destruct (write_reg idx dat keys latch dat_port v r k R s H)
    as (s2 & [[Ho HR] Hs] & T2 & ->).
  exists s2. split; [|done]. split; [|done]. split; [done|]. intros x. rewrite HR.
  unfold with_reg. destruct (x =? r); [apply keep|done].
Qed.

Lemma set_reg_step {B} r v (k : unit → M (io D) B) R s :
  configured idx dat keys latch R s → is_byte r → r ∉ keys →
  ∃ s', at_reg idx dat keys latch r (with_reg r (u8 v) R) s' ∧ same_text s s' ∧
    (outb r idx;; outb v dat ≫= k) s = k tt s'.
Proof.
  intros Hc Hr Hk.
  destruct (select_reg idx dat keys latch idx_port r
    (λ _, outb v dat ≫= k) R s Hc Hr Hk) as (s1 & H1 & T1 & ->).
  destruct (write_keep v r k R s1 H1) as (s2 & H2 & T2 & ->).
  exists s2. split; [done|]. split; [|done]. by eapply same_text_trans.
Qed.

(** read a register, change it, write it back *)
Definition change_at (r : Z) (f : Z → Z) : M (io D) unit :=
  outb r idx;; b ← inb dat; outb (f b) dat.

Lemma change_step {B} r f (k : unit → M (io D) B) R s :
  configured idx dat keys latch R s → is_byte r → r ∉ keys →
  ∃ s', configured idx dat keys latch (with_reg r (u8 (f (R r))) R) s' ∧ same_text s s' ∧
    (change_at r f ≫= k) s = k tt s'.
Proof.
  intros Hc Hr Hk. unfold change_at. rewrite !bind_assoc.
  destruct (select_reg idx dat keys latch idx_port r (λ _, (inb dat ≫= λ b, outb (f b) dat) ≫= k)
    R s Hc Hr Hk) as (s1 & H1 & T1 & ->).
  rewrite bind_assoc.
  destruct (read_reg idx dat keys latch dat_port r (λ b, outb (f b) dat ≫= k) R s1 H1)
    as (s2 & H2 & T2 & ->).
  destruct (write_keep (f (R r)) r k R s2 H2) as (s3 & H3 & T3 & ->).
  exists s3. split; [by eapply at_configured|]. split; [|done].
  eapply same_text_trans; [exact T1|]. by eapply same_text_trans.
Qed.
End keep.

(** [outb(reg, idx); outb(v, dat)]: [tac] proves that the register is a byte and not a key *)
Ltac set_reg idx dat keys latch keep tac H s1 C1 T1 :=
  match type of H with
  | configured _ _ _ _ ?R ?s =>
      match goal with
      | |- context [(outb ?r idx ≫= λ _, outb ?v dat ≫= ?k) s] =>
          destruct (set_reg_step idx dat keys latch ltac:(lia) ltac:(lia) keep r v k R s H)
            as (s1 & C1 & T1 & ->);
          [done|tac|apply at_configured in C1]
      end
  end.

(** ... and whose configuration state is entered and left with a key *)
Class ConfigKeys (D : Type) `{!PortDev D} (idx dat : Z) (keys : list Z)
    (latch : Z → Z → Z → Z) `{!ConfigPort D idx dat keys latch} (key_in key_out : Z) := {
  closed : D → Prop;
  key_opens d : closed d →
    opened (dev_out key_in idx d) ∧ ∀ r, reg (dev_out key_in idx d) r = reg d r;
  key_closes d : opened d →
    closed (dev_out key_out idx d) ∧ ∀ r, reg (dev_out key_out idx d) r = reg d r }.

Section sessions.
Context {D : Type} `{!PortDev D} (idx dat : Z) (keys : list Z) (latch : Z → Z → Z → Z)
  `{!ConfigPort D idx dat keys latch} (key_in key_out : Z)
  `{!ConfigKeys D idx dat keys latch key_in key_out}.
Hypothesis idx_port : 0 ≤ idx < 65536.
Hypothesis keys_ok : is_byte key_in ∧ is_byte key_out.

(** the chip is out of the configuration state and its registers hold [R] *)
Definition at_rest (R : Z → Z) (s : io D) : Prop :=
  closed (dev s) ∧ ∀ r, reg (idx:=idx) (dat:=dat) (keys:=keys) (latch:=latch) (dev s) r = R r.

Lemma open_chip {B} (k : unit → M (io D) B) R s :
  at_rest R s →
  ∃ s', configured idx dat keys latch R s' ∧ same_text s s' ∧ (outb key_in idx ≫= k) s = k tt s'.
Proof.
  intros [Hc HR]. destruct (key_opens _ Hc) as [Ho Hr].
  exists (mkIo (dev_out key_in idx (dev s)) (io_log s ++ [Out key_in idx]) (io_out s)
    (io_err s) (io_sys s)).
  split; [split; [exact Ho|]|split; [done|]].
  - intros r. cbn. by rewrite Hr.
  - unfold outb, modify, mbind, M_bind.
    by rewrite u8_small, u16_small by first [apply idx_port | apply keys_ok].
Qed.

Lemma close_chip {B} (k : unit → M (io D) B) R s :
  configured idx dat keys latch R s →
  ∃ s', at_rest R s' ∧ same_text s s' ∧ (outb key_out idx ≫= k) s = k tt s'.
Proof.
  intros [Ho HR]. destruct (key_closes _ Ho) as [Hc Hr].
  exists (mkIo (dev_out key_out idx (dev s)) (io_log s ++ [Out key_out idx]) (io_out s)
    (io_err s) (io_sys s)).
  split; [split; [exact Hc|]|split; [done|]].
  - intros r. cbn. by rewrite Hr.
  - unfold outb, modify, mbind, M_bind.
    by rewrite u8_small, u16_small by first [apply idx_port | apply keys_ok].
Qed.

(** a message of the log changes nothing of the chip *)
Lemma syslog_step {B} t (k : unit → M (io D) B) s :
  (syslog t ≫= k) s
  = k tt (mkIo (dev s) (io_log s) (io_out s) (io_err s) (io_sys s +:+ t +:+ nl)).
Proof. done. Qed.
End sessions.

(** ** A PCI device whose byte registers keep what is written *)
Class PciConfig (D : Type) `{!PciDev D} (a : pci_addr) := {
  pci_reg : D → Z → Z;
  pci_reg_byte d r : is_byte (pci_reg d r);
  pci_reg_read d r : pci_byte_in a r d = (pci_reg d r, d);
  pci_reg_write d r v x : is_byte v →
    pci_reg (pci_byte_out a r v d) x = if x =? r then v else pci_reg d x }.

(** ** A chip for the examples: a set of registers behind a pair of ports *)
Record chip := mkChip {
  chip_base : Z;
  chip_open : bool;
  chip_sel : Z;
  chip_regs : Z → Z }.

Definition chip_reg (c : chip) (r : Z) : Z := u8 (chip_regs c r).

(** absent ports read 0xff; [0x55] opens the configuration, [0xaa] ends it *)
#[export] Instance chip_ports : PortDev chip := {|
  dev_in p c :=
    (if chip_open c && (p =? chip_base c + 1) then chip_reg c (chip_sel c)
     else if p =? chip_base c then chip_sel c else 0xff, c);
  dev_out v p c :=
    if p =? chip_base c then
      if v =? 0x55 then mkChip (chip_base c) true (chip_sel c) (chip_regs c)
      else if v =? 0xaa then mkChip (chip_base c) false (chip_sel c) (chip_regs c)
      else mkChip (chip_base c) (chip_open c) v (chip_regs c)
    else if chip_open c && (p =? chip_base c + 1) then
      mkChip (chip_base c) true (chip_sel c)
        (λ r, if r =? chip_sel c then v else chip_regs c r)
    else c |}.

(** every register keeps every bit *)
#[export] Program Instance chip_config (b : Z) :
  ConfigPort chip b (b + 1) [0x55; 0xaa] (λ _ _ v, v) :=
  {| opened c := chip_open c = true ∧ chip_base c = b;
     selected := chip_sel;
     reg := chip_reg |}.
Next Obligation.
  intros b [cb co cs cr] v [Ho Hb] _ Hv. simpl in *. subst. rewrite Z.eqb_refl.
  apply not_elem_of_cons in Hv as [H1 Hv]. apply not_elem_of_cons in Hv as [H2 _].
  by rewrite (proj2 (Z.eqb_neq _ _) H1), (proj2 (Z.eqb_neq _ _) H2).
Qed.
Next Obligation.
  intros b [cb co cs cr] [Ho Hb]. simpl in *. subst. by rewrite Z.eqb_refl.
Qed.
Next Obligation. intros b c r _. apply u8_range. Qed.
Next Obligation.
  intros b [cb co cs cr] v [Ho Hb] Hv. simpl in *. subst.
  rewrite (proj2 (Z.eqb_neq _ _)) by lia. rewrite Z.eqb_refl. split; [done|]. split; [done|].
  intros r. unfold chip_reg. simpl. destruct (r =? cs); [|done]. by rewrite u8_small.
Qed.

(** ... and 0x55 and 0xaa are its keys *)
#[export] Program Instance chip_keys (b : Z) :
  ConfigKeys chip b (b + 1) [0x55; 0xaa] (λ _ _ v, v) 0x55 0xaa :=
  {| closed c := chip_open c = false ∧ chip_base c = b |}.
Next Obligation.
  intros b [cb co cs cr] [Ho Hb]. simpl in *. subst. by rewrite Z.eqb_refl.
Qed.
Next Obligation.
  intros b [cb co cs cr] [Ho Hb]. simpl in *. subst. by rewrite Z.eqb_refl.
Qed.

Definition start_io {D} (d : D) : io D := mkIo d [] "" "" "".

(** a machine without hardware: every port reads 0xff *)
#[export] Instance no_hardware : PortDev unit :=
  {| dev_in _ d := (0xff, d); dev_out _ _ d := d |}.

(** a board with such a chip and a bridge, whose registers keep what is written *)
Record board := mkBoard { board_chip : chip; board_words : Z → Z }.
#[export] Instance board_ports : PortDev board := {|
  dev_in p b := let '(v, c) := dev_in p (board_chip b) in (v, mkBoard c (board_words b));
  dev_out v p b := mkBoard (dev_out v p (board_chip b)) (board_words b) |}.
#[export] Instance board_pci : PciDev board := {|
  pci_byte_in _ r b := (u8 (board_words b r), b);
  pci_word_in _ r b := (u16 (board_words b r), b);
  pci_byte_out _ r v b := mkBoard (board_chip b)
    (λ x, if x =? r then 256 * (board_words b x / 256) + v else board_words b x);
  pci_word_out _ r v b := mkBoard (board_chip b) (λ x, if x =? r then v else board_words b x) |}.

(** its byte registers keep what is written *)
#[export] Program Instance board_config (a : pci_addr) : PciConfig board a :=
  {| pci_reg b r := u8 (board_words b r) |}.
Next Obligation. intros. apply u8_range. Qed.
Next Obligation. done. Qed.
Next Obligation.
  intros a b r v x Hv. simpl. destruct (x =? r); [|done].
  unfold u8. rewrite Z.mul_comm, Z.add_comm, Z_mod_plus_full. by apply u8_small.
Qed.

(** 0x55 and 0xaa are not registers of the chips *)
Lemma chip_keys_ok r : r < 0x30 → r ∉ [0x55; 0xaa].
Proof. intros H. rewrite !elem_of_cons, elem_of_nil. lia. Defined.
