(* ===== verification/ChipInfo.v ===== *)
(** * findchip: what a probe reports (findchip/findchip.h, findchip/findchip.c)

    [chip_info], the line printed for it, and the loops of the probes. *)
From Stdlib Require Import String.
From S2P Require Import Prelude CInt Printf PortIO.
Local Open Scope string_scope.
Local Open Scope list_scope.
Local Open Scope Z_scope.

Record chip_info := mkInfo {
  manufacturer : string;
  info_name : string;
  chip_id : Z;
  revision : Z;
  cfg_base : Z;
  sir_base : Z;
  fir_base : Z;
  irq : Z;
  dma : Z;
  uart_comp : Z;
  enabled : Z;
  suspended : Z;
  delay : Z }.

Definition yes_no (v : Z) : string := if truth v then "yes" else "no".

Definition info_text (verbose : bool) (i : chip_info) : string :=
  let x v := "0x" +:+ fmt_x (u32 v) in
  if verbose then
    "Found " +:+ manufacturer i +:+ " " +:+ info_name i +:+ " Controller at "
    +:+ x (cfg_base i) +:+ ", DevID=0x" +:+ fmt_02x (u32 (chip_id i)) +:+ ", Rev. "
    +:+ fmt_d (revision i) +:+ nl
    +:+ "    SIR Base " +:+ x (sir_base i) +:+ ", FIR Base " +:+ x (fir_base i) +:+ nl
    +:+ "    IRQ = " +:+ fmt_d (irq i) +:+ ", DMA = " +:+ fmt_d (dma i) +:+ nl
    +:+ "    Enabled: " +:+ yes_no (enabled i) +:+ ", Suspended: "
    +:+ yes_no (suspended i) +:+ nl
    +:+ "    UART compatible: " +:+ yes_no (uart_comp i) +:+ nl
    +:+ "    Half duplex delay = " +:+ fmt_d (delay i) +:+ " us" +:+ nl
  else
    manufacturer i +:+ "," +:+ info_name i +:+ "," +:+ fmt_d (chip_id i) +:+ "."
    +:+ fmt_d (revision i) +:+ "," +:+ x (cfg_base i) +:+ "," +:+ x (sir_base i) +:+ ","
    +:+ x (fir_base i) +:+ "," +:+ fmt_d (irq i) +:+ "," +:+ fmt_d (dma i) +:+ ","
    +:+ fmt_d (enabled i) +:+ "," +:+ fmt_d (suspended i) +:+ "," +:+ fmt_d (uart_comp i)
    +:+ nl.

Section info.
Context {D : Type} `{!PortDev D}.

Definition print_info (verbose : bool) (i : chip_info) : M (io D) unit :=
  printf (info_text verbose i).

(** [#define DEBUG(args...) (debug ? printf(args) : 0)] *)
Definition DEBUG (debug : bool) (t : string) : M (io D) unit := when debug (printf t).

(** [for (p = table; p->name; p++)] *)
Fixpoint for_each {A} (l : list A) (body : A → M (io D) unit) : M (io D) unit :=
  match l with
  | [] => mret tt
  | a :: l => body a;; for_each l body
  end.
End info.

Section probes.
Context {D : Type} `{!PortDev D} (Q : event → Prop).

Lemma emits_print_info verbose i : emits (D:=D) Q (print_info verbose i).
Proof. apply emits_printf. Qed.
Lemma emits_DEBUG debug t : emits (D:=D) Q (DEBUG debug t).
Proof. apply emits_when, emits_printf. Qed.
Lemma emits_for_each {A} (l : list A) body :
  Forall (λ a, emits (D:=D) Q (body a)) l → emits (D:=D) Q (for_each l body).
Proof. induction 1; simpl; [apply emits_ret|]. by apply emits_bind. Qed.
End probes.
#[export] Hint Resolve emits_print_info emits_DEBUG : ports.

(** the debug messages change no register *)
Section quiet.
Context {D : Type} `{!PortDev D} (idx dat : Z) (keys : list Z) (latch : Z → Z → Z → Z)
  `{!ConfigPort D idx dat keys latch}.

Lemma quiet_DEBUG {B} t (k : unit → M (io D) B) s : (DEBUG false t ≫= k) s = k tt s.
Proof. done. Qed.

Lemma print_info_ok verbose i R s :
  configured idx dat keys latch R s →
  ∃ s', print_info verbose i s = Ok (tt, s') ∧ configured idx dat keys latch R s' ∧
    io_out s' = io_out s +:+ info_text verbose i.
Proof. intros H. by eexists. Qed.
End quiet.
