(* ===== verification/FindNsc.v ===== *)
(** * findchip: National Semiconductor chips (findchip/nsc.c) *)
From Stdlib Require Import String.
From S2P Require Import Prelude CInt Printf PortIO ChipInfo.
Local Open Scope string_scope.
Local Open Scope list_scope.
Local Open Scope Z_scope.

Definition MANUFACTURER := "NSC".

(** Config registers for the '108 *)
Definition CFG_BAIC := 0x00.
Definition CFG_CSRT := 0x01.
Definition CFG_MCTL := 0x02.
(** Config registers for the '338 *)
Definition CFG_FER := 0x00.
Definition CFG_FAR := 0x01.
Definition CFG_PTR := 0x02.
Definition CFG_PNP0 := 0x1b.
Definition CFG_PNP1 := 0x1c.
Definition CFG_PNP3 := 0x4f.

Inductive nsc_probe := probe_108 | probe_338.

Record nsc_chip := mkNsc {
  nsc_name : string;
  nsc_cfg : list Z;
  cid_index : Z;
  cid_value : Z;
  cid_mask : Z;
  nsc_fun : option nsc_probe }.

Definition nsc_chips : list nsc_chip := [
  mkNsc "PC87108" [0x150; 0x398; 0xea] 0x05 0x10 0xf0 (Some probe_108);
  mkNsc "PC87338" [0x398; 0x15c; 0x2e] 0x08 0xb0 0xf0 (Some probe_338)].

Section nsc.
Context {D : Type} `{!PortDev D}.
Variable verbose debug : bool.

Definition nsc_probe_108 (chip : nsc_chip) (cfg_base chip_id revision : Z)
    : M (io D) unit :=
  outb CFG_BAIC cfg_base;;
  reg ← inb (cfg_base + 1);
  let sir_base := match Z.land reg 0x03 with
    | 0 => 0x3e8 | 1 => 0x2e8 | 2 => 0x3f8 | 3 => 0x2f8 | _ => 0 end in
  outb CFG_CSRT cfg_base;;
  reg ← inb (cfg_base + 1);
  let irq := match Z.land reg 0x07 with
    | 0 => -1 | 1 => 3 | 2 => 4 | 3 => 5 | 4 => 7 | 5 => 9 | 6 => 11 | 7 => 15
    | _ => 0 end in
  let dma := match Z.land (Z.shiftr reg 3) 0x03 with
    | 0 => -1 | 1 => 0 | 2 => 1 | 3 => 3 | _ => 0 end in
  outb CFG_MCTL cfg_base;;
  reg ← inb (cfg_base + 1);
  print_info verbose (mkInfo MANUFACTURER (nsc_name chip) chip_id revision cfg_base
    sir_base sir_base irq dma 1 (Z.land reg 0x01)
    (b2z (negb (truth (Z.land (Z.shiftr reg 1) 0x01)))) 0).

Definition legacy_base (reg : Z) : Z :=
  let com := match Z.land (Z.shiftr reg 4) 0x03 with 2 => 3 | 3 => 4 | _ => 0 end in
  let sir_base := match Z.land (Z.shiftr reg 4) 0x03 with
    | 0 => 0x3f8 | 1 => 0x2f8 | _ => 0 end in
  if truth com then
    match Z.land (Z.shiftr reg 6) 0x03 with
    | 0 => if com =? 3 then 0x3e8 else 0x2e8
    | 1 => if com =? 3 then 0x338 else 0x238
    | 2 => if com =? 3 then 0x2e8 else 0x2e0
    | 3 => if com =? 3 then 0x220 else 0x228
    | _ => sir_base
    end
  else sir_base.

(** the end of [nsc_probe_338], from the PnP registers on *)
Definition nsc_338_tail (chip : nsc_chip) (cfg_base chip_id revision enabled sir_base : Z)
    : M (io D) unit :=
  outb CFG_PNP1 cfg_base;;
  reg ← inb (cfg_base + 1);
  let irq := Z.shiftr reg 4 in
  outb CFG_PNP3 cfg_base;;
  reg ← inb (cfg_base + 1);
  let dma := Z.land reg 0x07 - 1 in
  outb CFG_PTR cfg_base;;
  reg ← inb (cfg_base + 1);
  print_info verbose (mkInfo MANUFACTURER (nsc_name chip) chip_id revision cfg_base
    sir_base sir_base irq dma 1 enabled (Z.land reg 0x01) 0).

Definition nsc_probe_338 (chip : nsc_chip) (cfg_base chip_id revision : Z)
    : M (io D) unit :=
  outb CFG_FER cfg_base;;
  reg ← inb (cfg_base + 1);
  let enabled := Z.land (Z.shiftr reg 2) 0x01 in
  outb CFG_PNP0 cfg_base;;
  reg ← inb (cfg_base + 1);
  let pnp := Z.land (Z.shiftr reg 4) 0x01 in
  sir_base ← (if truth pnp then
      DEBUG debug ("Chip is in PnP mode" +:+ nl);;
      outb 0x46 cfg_base;;
      r ← inb (cfg_base + 1);
      let reg := Z.shiftl (Z.land r 0xfe) 2 in
      outb 0x47 cfg_base;;
      r ← inb (cfg_base + 1);
      mret (Z.lor reg (Z.shiftl (Z.land r 0xfc) 8))
    else
      DEBUG debug ("Chip is in Legacy mode" +:+ nl);;
      outb CFG_FAR cfg_base;;
      reg ← inb (cfg_base + 1);
      printf ("reg=0x" +:+ pad0 3 (fmt_x reg) +:+ nl);;
      mret (legacy_base reg));
  nsc_338_tail chip cfg_base chip_id revision enabled sir_base.

Definition run_nsc_probe (p : nsc_probe) :=
  match p with probe_108 => nsc_probe_108 | probe_338 => nsc_probe_338 end.

(** one of the three configuration registers of a chip *)
Definition nsc_try (chip : nsc_chip) (cfg_base : Z) : M (io D) unit :=
  if negb (truth cfg_base) then mret tt
  else
    index ← inb cfg_base;
    if index =? 0xff then
      DEBUG debug ("no chip at 0x" +:+ pad0 3 (fmt_x cfg_base) +:+ nl)
    else
      outb (cid_index chip) cfg_base;;
      id ← inb (cfg_base + 1);
      if Z.land id (cid_mask chip) =? cid_value chip then
        DEBUG debug ("Found " +:+ nsc_name chip +:+ " chip, revision="
          +:+ fmt_d (Z.land id (Z.lnot (cid_mask chip))) +:+ nl);;
        match nsc_fun chip with
        | None => mret tt
        | Some p => run_nsc_probe p chip cfg_base (Z.shiftr (Z.land id (cid_mask chip)) 4)
            (Z.land id (Z.lnot (cid_mask chip)))
        end
      else DEBUG debug ("Wrong chip id=0x" +:+ fmt_02x id +:+ nl).

Definition probe_nsc : M (io D) Z :=
  for_each nsc_chips (λ chip,
    DEBUG debug ("Probing for " +:+ nsc_name chip +:+ " ..." +:+ nl);;
    for_each (nsc_cfg chip) (nsc_try chip));;
  mret 0.
End nsc.

(** ** The probe changes nothing *)

Definition nsc_bases : list Z := [0x150; 0x398; 0xea; 0x15c; 0x2e].
Definition index_only (ev : event) : Prop :=
  match ev with
  | In p _ => p ∈ nsc_bases ∨ p - 1 ∈ nsc_bases
  | Out _ p => p ∈ nsc_bases
  end.

Section safety.
Context {D : Type} `{!PortDev D}.

Lemma nsc_access v d : d ∈ nsc_bases →
  index_only (Out (u8 v) (u16 d)) ∧
  (∀ v, is_byte v → index_only (In (u16 (d + 1)) v) ∧ index_only (In (u16 d) v)).
Proof.
  intros H. assert (0 ≤ d < 60000).
  { unfold nsc_bases in H. rewrite !elem_of_cons, elem_of_nil in H. lia. }
  rewrite !u16_small by lia. split; [done|]. intros w _. split; [right|by left].
  by replace (d + 1 - 1) with d by lia.
Qed.

Lemma nsc_try_safe verbose debug chip d :
  d ∈ nsc_bases → emits (D:=D) index_only (nsc_try verbose debug chip d).
Proof.
  intros Hd. unfold nsc_try, run_nsc_probe. destruct (nsc_fun chip) as [[]|];
    unfold nsc_probe_108, nsc_probe_338, nsc_338_tail;
  ports; first [by apply (proj1 (nsc_access _ d Hd))
    | by apply (proj2 (nsc_access 0 d Hd))].
Qed.

Lemma probe_nsc_safe verbose debug : emits (D:=D) index_only (probe_nsc verbose debug).
Proof.
  unfold probe_nsc. apply emits_bind; [|intros; apply emits_ret].
  apply emits_for_each. unfold nsc_chips.
  repeat constructor; (apply emits_bind; [ports|intros _; apply emits_for_each]);
    repeat constructor; apply nsc_try_safe; unfold nsc_bases; set_solver.
Qed.
End safety.

(** C33: probing for NSC chips is harmless on every machine: whatever answers
    at the ports, the probe returns, reads only the five documented index ports
    and their data ports, and writes only index ports, so that it changes no
    configuration register. *)
Theorem probe_nsc_read_only {D} `{!PortDev D} verbose debug :
  emits (D:=D) index_only (probe_nsc verbose debug).
Proof. apply probe_nsc_safe. Qed.

(** Where nothing answers, it prints nothing and writes to no port. *)
Theorem probe_nsc_absent {D} `{!PortDev D} verbose (s : io D) :
  (∀ p d, p ∈ nsc_bases → dev_in p d = (0xff, d)) →
  ∃ evs, probe_nsc verbose false s
    = Ok (0, mkIo (dev s) (io_log s ++ evs) (io_out s) (io_err s) (io_sys s)) ∧
    Forall (λ ev, ∃ p v, ev = In p v) evs.
Proof.
  intros Habs. destruct s as [d log o er sy].
  assert (Htry : ∀ chip b log, b ∈ nsc_bases → nsc_try verbose false chip b (mkIo d log o er sy)
    = Ok (tt, mkIo d (log ++ [In b 0xff]) o er sy)).
  { intros chip b lg Hb. assert (Hr : 0 < b < 65536).
    { unfold nsc_bases in Hb. rewrite !elem_of_cons, elem_of_nil in Hb. lia. }
    unfold nsc_try, truth. rewrite (proj2 (Z.eqb_neq b 0)) by lia. simpl.
    unfold mbind, M_bind, inb. simpl. rewrite u16_small by lia. by rewrite Habs. }
  eexists. split.
  - unfold probe_nsc, nsc_chips. cbn -[nsc_try nsc_bases].
    unfold mbind, M_bind, DEBUG, when, mret, M_ret. cbn -[nsc_try nsc_bases].
    rewrite !Htry by (unfold nsc_bases; set_solver). cbn. by rewrite <- !app_assoc.
  - simpl. repeat constructor; eauto.
Qed.

(** ** What is printed is what the registers say *)
Section decode.
Context {D : Type} `{!PortDev D} (idx : Z) (keys : list Z) (latch : Z → Z → Z → Z)
  `{!ConfigPort D idx (idx + 1) keys latch}.
Hypothesis ports : 0 ≤ idx < 65535.
Hypothesis no_keys : ∀ r, r < 0x50 → r ∉ keys.
Variable verbose : bool.

Definition bases_108 : list Z := [0x3e8; 0x2e8; 0x3f8; 0x2f8].
Definition irqs_108 : list Z := [-1; 3; 4; 5; 7; 9; 11; 15].
Definition dmas_108 : list Z := [-1; 0; 1; 3].
Definition entry (l : list Z) (i : Z) : Z := default 0 (l !! Z.to_nat i).

Definition info_108 (chip : nsc_chip) (id rev : Z) (R : Z → Z) : chip_info :=
  let base := entry bases_108 (R CFG_BAIC mod 4) in
  mkInfo MANUFACTURER (nsc_name chip) id rev idx base base
    (entry irqs_108 (R CFG_CSRT mod 8)) (entry dmas_108 (R CFG_CSRT / 8 mod 4)) 1
    (R CFG_MCTL mod 2) (1 - R CFG_MCTL / 2 mod 2) 0.

Lemma decode_108 b : is_byte b →
  (match Z.land b 0x03 with 0 => 0x3e8 | 1 => 0x2e8 | 2 => 0x3f8 | 3 => 0x2f8 | _ => 0 end
   = entry bases_108 (b mod 4)) ∧
  (match Z.land b 0x07 with
    | 0 => -1 | 1 => 3 | 2 => 4 | 3 => 5 | 4 => 7 | 5 => 9 | 6 => 11 | 7 => 15
    | _ => 0 end = entry irqs_108 (b mod 8)) ∧
  (match Z.land (Z.shiftr b 3) 0x03 with 0 => -1 | 1 => 0 | 2 => 1 | 3 => 3 | _ => 0 end
   = entry dmas_108 (b / 8 mod 4)) ∧
  Z.land b 0x01 = b mod 2 ∧
  b2z (negb (truth (Z.land (Z.shiftr b 1) 0x01))) = 1 - b / 2 mod 2.
Proof.
  intros Hb. repeat split; revert b Hb; apply byte_eq; by vm_compute.
Qed.

(** the line printed for a PC87108 shows the address, the interrupt, the
    DMA channel and the mode that its registers select. *)
Theorem nsc_probe_108_decodes chip id rev R (s : io D) :
  configured idx (idx + 1) keys latch R s →
  ∃ s', nsc_probe_108 verbose chip idx id rev s = Ok (tt, s') ∧
    configured idx (idx + 1) keys latch R s' ∧
    io_out s' = io_out s +:+ info_text verbose (info_108 chip id rev R).
Proof.
  intros Hc. unfold nsc_probe_108, info_108.
  pose proof (configured_byte _ _ _ _ R s) as Hb.
  do 3 (match goal with
  | |- context [(outb ?r idx ≫= (λ _, inb (idx + 1) ≫= ?k)) ?s] =>
      destruct (get_reg idx (idx + 1) keys latch ltac:(lia) ltac:(lia) r k R s)
        as (? & [? _] & [? _] & ->);
      [done|done|by apply no_keys|]
  end).
  destruct (decode_108 (R CFG_BAIC)) as (-> & _); [by apply Hb|].
  destruct (decode_108 (R CFG_CSRT)) as (_ & -> & -> & _); [by apply Hb|].
  destruct (decode_108 (R CFG_MCTL)) as (_ & _ & _ & -> & ->); [by apply Hb|].
  edestruct (print_info_ok idx (idx + 1) keys latch) as (s' & E & Hc' & Ho); [done|].
  exists s'. split; [exact E|]. split; [done|]. rewrite Ho. congruence.
Qed.

Definition com3_bases : list Z := [0x3e8; 0x338; 0x2e8; 0x220].
Definition com4_bases : list Z := [0x2e8; 0x238; 0x2e0; 0x228].
Definition legacy_spec (far : Z) : Z :=
  let k := far / 64 mod 4 in
  entry [0x3f8; 0x2f8; entry com3_bases k; entry com4_bases k] (far / 16 mod 4).
Definition pnp_spec (lo hi : Z) : Z := lo / 2 mod 128 * 8 + hi / 4 mod 64 * 1024.
Definition pnp_338 (R : Z → Z) : bool := R CFG_PNP0 / 16 mod 2 =? 1.

Definition info_338 (chip : nsc_chip) (id rev : Z) (R : Z → Z) : chip_info :=
  let base := if pnp_338 R then pnp_spec (R 0x46) (R 0x47) else legacy_spec (R CFG_FAR) in
  mkInfo MANUFACTURER (nsc_name chip) id rev idx base base
    (R CFG_PNP1 / 16) (R CFG_PNP3 mod 8 - 1) 1 (R CFG_FER / 4 mod 2) (R CFG_PTR mod 2) 0.

Lemma decode_338 b : is_byte b →
  legacy_base b = legacy_spec b ∧ Z.land (Z.shiftr b 2) 0x01 = b / 4 mod 2 ∧
  Z.land (Z.shiftr b 4) 0x01 = b / 16 mod 2 ∧ Z.shiftr b 4 = b / 16 ∧
  Z.land b 0x07 - 1 = b mod 8 - 1 ∧ Z.land b 0x01 = b mod 2 ∧
  Z.shiftl (Z.land b 0xfe) 2 = b / 2 mod 128 * 8 ∧
  Z.shiftl (Z.land b 0xfc) 8 = b / 4 mod 64 * 1024.
Proof.
  intros Hb. repeat split; revert b Hb; apply byte_eq; by vm_compute.
Qed.

Lemma pnp_parts lo hi :
  Z.lor (lo / 2 mod 128 * 8) (hi / 4 mod 64 * 1024) = pnp_spec lo hi.
Proof.
  unfold pnp_spec. rewrite Z.lor_comm, Z.add_comm.
  change 1024 with (2 ^ 10). rewrite <- (Z.shiftl_mul_pow2 _ 10) by lia.
  rewrite lor_add_disjoint, ?Z.shiftl_mul_pow2; try lia.
  Z.to_euclidean_division_equations; lia.
Qed.

(** the line printed for a PC87338 shows what its registers select, in
    Plug-and-Play mode (any 16-bit address that is a multiple of 8) and in legacy
    mode (the ten addresses of the function address register). *)
Theorem nsc_probe_338_decodes chip id rev R (s : io D) :
  configured idx (idx + 1) keys latch R s →
  ∃ s', nsc_probe_338 verbose false chip idx id rev s = Ok (tt, s') ∧
    configured idx (idx + 1) keys latch R s' ∧
    io_out s' = io_out s
      +:+ (if pnp_338 R then "" else "reg=0x" +:+ pad0 3 (fmt_x (R CFG_FAR)) +:+ nl)
      +:+ info_text verbose (info_338 chip id rev R).
Proof.
  intros Hc. unfold nsc_probe_338, info_338.
  pose proof (λ r, decode_338 (R r) (configured_byte _ _ _ _ R s r Hc)) as Hd.
  assert (Hd1 : ∀ r, Z.land (Z.shiftr (R r) 4) 0x01 = R r / 16 mod 2) by (intros; apply Hd).
  do 4 cfg_step idx (idx + 1) keys latch ltac:(by apply no_keys).
  rewrite Hd1. unfold pnp_338, truth.
  assert (Hm : R CFG_PNP0 / 16 mod 2 = 0 ∨ R CFG_PNP0 / 16 mod 2 = 1)
    by (pose proof (Z.mod_pos_bound (R CFG_PNP0 / 16) 2); lia).
  assert (Htail : ∀ base s4, configured idx (idx + 1) keys latch R s4 →
    ∃ s', nsc_338_tail verbose chip idx id rev (Z.land (Z.shiftr (R CFG_FER) 2) 0x01) base s4
        = Ok (tt, s') ∧
      configured idx (idx + 1) keys latch R s' ∧
      io_out s' = io_out s4 +:+ info_text verbose (mkInfo MANUFACTURER (nsc_name chip) id rev
        idx base base (R CFG_PNP1 / 16) (R CFG_PNP3 mod 8 - 1) 1 (R CFG_FER / 4 mod 2)
        (R CFG_PTR mod 2) 0)).
  { intros base s4 Hc4. unfold nsc_338_tail.
    do 6 cfg_step idx (idx + 1) keys latch ltac:(by apply no_keys).
    destruct (Hd CFG_FER) as (_ & -> & _). destruct (Hd CFG_PNP1) as (_ & _ & _ & -> & _).
    destruct (Hd CFG_PNP3) as (_ & _ & _ & _ & -> & _).
    destruct (Hd CFG_PTR) as (_ & _ & _ & _ & _ & -> & _).
    eexists. split; [done|]. split; [by eapply at_configured|]. simpl.
    f_equal. cfg_text. }
  destruct Hm as [-> | ->]; cbn [Z.eqb negb]; rewrite ?bind_assoc, quiet_DEBUG.
  - do 2 cfg_step idx (idx + 1) keys latch ltac:(by apply no_keys).
    cfg_print idx (idx + 1) keys latch. rewrite bind_ret_l.
    edestruct Htail as (s' & E & Hc' & Ho'); [eassumption|].
    exists s'. split; [exact E|]. split; [done|]. rewrite Ho'.
    destruct (Hd CFG_FAR) as (-> & _). rewrite <- str_app_assoc. f_equal. cfg_text.
  - do 4 cfg_step idx (idx + 1) keys latch ltac:(by apply no_keys).
    rewrite bind_ret_l. edestruct Htail as (s' & E & Hc' & Ho');
      [by eapply at_configured|].
    exists s'. split; [exact E|]. split; [done|]. rewrite Ho'.
    destruct (Hd 0x46) as (_ & _ & _ & _ & _ & _ & -> & _).
    destruct (Hd 0x47) as (_ & _ & _ & _ & _ & _ & _ & ->).
    rewrite pnp_parts. simpl. f_equal. cfg_text.
Qed.
End decode.

(** ** Examples *)
Definition nsc_regs (r : Z) : Z :=
  if r =? CFG_BAIC then 2 else if r =? CFG_CSRT then 0x1b else if r =? CFG_MCTL then 3
  else if r =? 5 then 0x12 else 0.
Definition nsc_338_regs (r : Z) : Z :=
  if r =? 8 then 0xb3 else if r =? CFG_FER then 4 else if r =? CFG_PNP0 then 0x10
  else if r =? 0x46 then 0xbe else if r =? CFG_PNP1 then 0x30 else if r =? CFG_PNP3 then 2
  else 0.

(** a whole probe, on a machine with one chip *)
Example probe_nsc_examples :
  (∃ s, probe_nsc false false (start_io (mkChip 0x398 true 0 nsc_regs)) = Ok (0, s) ∧
    io_out s = "NSC,PC87108,1.2,0x398,0x3f8,0x3f8,5,3,1,0,1" +:+ nl) ∧
  (∃ s, probe_nsc false false (start_io (mkChip 0x2e true 0 nsc_338_regs)) = Ok (0, s) ∧
    io_out s = "NSC,PC87338,11.3,0x2e,0x2f8,0x2f8,3,1,1,0,1" +:+ nl).
Proof. split; eexists; (split; [vm_compute; reflexivity|by vm_compute]). Qed.

(** the keys of the example chip are not registers of these chips *)
Lemma example_keys r : r < 0x50 → r ∉ [0x55; 0xaa].
Proof. intros H. rewrite !elem_of_cons, elem_of_nil. lia. Defined.

Lemma probe_nsc_absent_witness :
  ∃ evs, probe_nsc false false (start_io tt) = Ok (0, mkIo tt ([] ++ evs) "" "" "") ∧
    Forall (λ ev, ∃ p v, ev = In p v) evs.
Proof. by apply (probe_nsc_absent false (start_io tt)). Defined.

Lemma nsc_probe_108_decodes_witness :
  let s := start_io (mkChip 0x398 true 0 nsc_regs) in
  ∃ s', nsc_probe_108 false (mkNsc "PC87108" [] 5 16 240 None) 0x398 1 2 s = Ok (tt, s') ∧
    configured 0x398 0x399 [0x55; 0xaa] (λ _ _ v, v) (chip_reg (dev s)) s' ∧
    io_out s' = "" +:+ info_text false (mkInfo "NSC" "PC87108" 1 2 0x398 0x3f8 0x3f8 5 3 1 1 0 0).
Proof.
  intros s.
  apply (nsc_probe_108_decodes 0x398 [0x55; 0xaa] (λ _ _ v, v) ltac:(lia) example_keys false
    (mkNsc "PC87108" [] 5 16 240 None) 1 2 (chip_reg (dev s)) s).
  by repeat split.
Defined.

Lemma nsc_probe_338_decodes_witness :
  let s := start_io (mkChip 0x2e true 0 nsc_338_regs) in
  ∃ s', nsc_probe_338 false false (mkNsc "PC87338" [] 8 0xb0 240 None) 0x2e 11 3 s
      = Ok (tt, s') ∧
    configured 0x2e 0x2f [0x55; 0xaa] (λ _ _ v, v) (chip_reg (dev s)) s' ∧
    io_out s' = "" +:+ "" +:+ info_text false
      (mkInfo "NSC" "PC87338" 11 3 0x2e 0x2f8 0x2f8 3 1 1 1 0 0).
Proof.
  intros s.
  apply (nsc_probe_338_decodes 0x2e [0x55; 0xaa] (λ _ _ v, v) ltac:(lia) example_keys false
    (mkNsc "PC87338" [] 8 0xb0 240 None) 11 3 (chip_reg (dev s)) s).
  by repeat split.
Defined.
