(* ===== verification/FindSmc.v ===== *)
(** * findchip: SMC chips (findchip/smc.c) *)
From Stdlib Require Import String.
From S2P Require Import Prelude CInt Printf PortIO ChipInfo.
Local Open Scope string_scope.
Local Open Scope list_scope.
Local Open Scope Z_scope.

Definition IRCC_MASTER := 0x07.
Definition IRCC_CHIP_ID := 0x02.
Definition IRCC_VERSION := 0x03.
Definition SMC_DISCONF := 0xAA.
Definition CR02 := 0x02.
Definition CR25 := 0x25.
Definition CR28 := 0x28.
Definition CR2B := 0x2b.
Definition CR2C := 0x2c.
Definition CR2D := 0x2d.

Inductive smc_probe := probe_69_fun | probe_58_fun.

Record smc_chip_info_t := mkSmc {
  smc_name : string;
  smc_cfg : list Z;
  entr1 : Z;
  entr2 : Z;
  smc_cid_index : Z;
  smc_cid_value : Z;
  smc_fun : smc_probe }.

Definition smc_chips : list smc_chip_info_t := [
  mkSmc "FDC37C669" [0x3f0; 0x370] 0x55 0x55 0x0d 0x03 probe_69_fun;
  mkSmc "FDC37C669FR" [0x3f0; 0x370] 0x55 0x55 0x0d 0x04 probe_69_fun;
  mkSmc "FDC37N869" [0x3f0; 0x370] 0x55 0x00 0x0d 0x29 probe_69_fun;
  mkSmc "FDC37C93xFR" [0x3f0; 0x370] 0x55 0x55 0x20 0x03 probe_58_fun;
  mkSmc "FDC37N957FR" [0x3f0; 0x370] 0x55 0x55 0x20 0x07 probe_58_fun;
  mkSmc "FDC37N958FR" [0x3f0; 0x370] 0x55 0x55 0x20 0x09 probe_58_fun].

Section smc.
Context {D : Type} `{!PortDev D}.
Variable verbose debug : bool.

Definition register_bank (port bank : Z) : M (io D) unit :=
  b ← inb (port + IRCC_MASTER);
  outb (Z.lor (Z.land b 0xF0) (Z.land bank 0x07)) (port + IRCC_MASTER).

(** the registers of the infrared block, at [fir] *)
Definition fir_info (delay_reg confreg fir : Z) : M (io D) (Z * Z * Z) :=
  if truth fir then
    outb delay_reg confreg;;
    delay ← inb (confreg + 1);
    register_bank fir 3;;
    chip_id ← inb (fir + IRCC_CHIP_ID);
    revision ← inb (fir + IRCC_VERSION);
    mret (delay, Z.land chip_id 0x0f, revision)
  else mret (0, 0, 0).

Definition probe_69 (name : string) (confreg : Z) : M (io D) Z :=
  outb CR25 confreg;;
  sir_base ← inb (confreg + 1);
  let sir_base := Z.shiftl sir_base 2 in
  outb CR2C confreg;;
  dma ← inb (confreg + 1);
  outb CR28 confreg;;
  irq ← inb (confreg + 1);
  let irq := Z.land irq 0x0F in
  outb CR2B confreg;;
  fir ← inb (confreg + 1);
  let fir := Z.shiftl fir 3 in
  r ← fir_info CR2D confreg fir;
  outb CR02 confreg;;
  enb ← inb (confreg + 1);
  let enb := Z.land enb 0x80 in
  print_info verbose (mkInfo "SMC" name (r.1.2) (r.2) confreg sir_base fir irq dma 1 enb 0
    (r.1.1));;
  mret fir.

Definition probe_58 (name : string) (confreg : Z) : M (io D) Z :=
  outb 0x07 confreg;;
  outb 0x05 (confreg + 1);;
  outb 0x60 confreg;;
  hi ← inb (confreg + 1);
  outb 0x61 confreg;;
  lo ← inb (confreg + 1);
  let sir_base := Z.lor (Z.shiftl hi 8) lo in
  outb 0x74 confreg;;
  dma ← inb (confreg + 1);
  outb 0x70 confreg;;
  irq ← inb (confreg + 1);
  let irq := Z.land irq 0x0F in
  outb 0x62 confreg;;
  hi ← inb (confreg + 1);
  outb 0x63 confreg;;
  lo ← inb (confreg + 1);
  let fir := Z.lor (Z.shiftl hi 8) lo in
  r ← fir_info 0xf2 confreg fir;
  outb 0x22 confreg;;
  enb ← inb (confreg + 1);
  let enb := Z.land enb 0x20 in
  print_info verbose (mkInfo "SMC" name (r.1.2) (r.2) confreg sir_base fir irq dma 1 enb 0
    (r.1.1));;
  mret fir.

Definition run_smc_probe (p : smc_probe) :=
  match p with probe_69_fun => probe_69 | probe_58_fun => probe_58 end.

(** one configuration port of one chip; [fir] is 0 until a chip is found *)
Definition smc_try (chp : smc_chip_info_t) (cfg fir : Z) : M (io D) Z :=
  outb (entr1 chp) cfg;;
  when (truth (entr2 chp)) (outb (entr2 chp) cfg);;
  outb (smc_cid_index chp) cfg;;
  devid ← inb (cfg + 1);
  fir ← (if devid =? smc_cid_value chp then run_smc_probe (smc_fun chp) (smc_name chp) cfg
         else DEBUG debug ("Wrong chip id=0x" +:+ fmt_02x devid +:+ nl);; mret fir);
  outb SMC_DISCONF cfg;;
  mret fir.

Fixpoint smc_cfgs (chp : smc_chip_info_t) (cfgs : list Z) (fir : Z) : M (io D) Z :=
  match cfgs with
  | [] => mret fir
  | cfg :: cfgs =>
      if fir =? 0 then fir ← smc_try chp cfg fir; smc_cfgs chp cfgs fir else mret fir
  end.

Fixpoint smc_search (chips : list smc_chip_info_t) (fir : Z) : M (io D) Z :=
  match chips with
  | [] => mret fir
  | chp :: chips =>
      if fir =? 0 then
        DEBUG debug ("Probing for " +:+ smc_name chp +:+ " ..." +:+ nl);;
        fir ← smc_cfgs chp (smc_cfg chp) fir;
        smc_search chips fir
      else mret fir
  end.

Definition probe_smc : M (io D) Z := smc_search smc_chips 0;; mret 0.
End smc.

(** ** Every configuration is closed

    A session with the chip [chp] at the port [cfg]: it opens with the key of
    the chip and ends with the byte that leaves the configuration state. *)
Record session := mkSession {
  ses_chip : smc_chip_info_t;
  ses_cfg : Z;
  ses_events : list event }.

Definition session_ok (x : session) : Prop :=
  ∃ mid, ses_events x
    = Out (entr1 (ses_chip x)) (ses_cfg x) :: mid ++ [Out SMC_DISCONF (ses_cfg x)].

Definition all_events (xs : list session) : list event := xs ≫= ses_events.

(** the attempts of the two loops, in order *)
Definition attempts_of (chp : smc_chip_info_t) : list (smc_chip_info_t * Z) :=
  (λ cfg, (chp, cfg)) <$> smc_cfg chp.
Definition smc_attempts : list (smc_chip_info_t * Z) := smc_chips ≫= attempts_of.
Definition attempt (x : session) : smc_chip_info_t * Z := (ses_chip x, ses_cfg x).

Section sessions.
Context {D : Type} `{!PortDev D}.
Variable verbose debug : bool.

(** [m] runs on every hardware, in sessions that are some first ones of [l];
    all of them when it returns 0 *)
Definition in_sessions (m : M (io D) Z) (l : list (smc_chip_info_t * Z)) : Prop :=
  ∀ s, ∃ fir s' xs, m s = Ok (fir, s') ∧ io_log s' = io_log s ++ all_events xs ∧
    Forall session_ok xs ∧ attempt <$> xs `prefix_of` l ∧
    (fir = 0 → attempt <$> xs = l).

Lemma emits_smc_probe chp cfg fir devid :
  emits (D:=D) (λ _, True)
    (if devid =? smc_cid_value chp then run_smc_probe verbose (smc_fun chp) (smc_name chp) cfg
     else DEBUG debug ("Wrong chip id=0x" +:+ fmt_02x devid +:+ nl);; mret fir).
Proof.
  unfold run_smc_probe. destruct (smc_fun chp);
    unfold probe_69, probe_58, fir_info, register_bank; by ports.
Qed.

Lemma smc_try_session chp cfg fir :
  0 ≤ entr1 chp < 256 → 0 ≤ cfg < 65536 →
  in_sessions (smc_try verbose debug chp cfg fir) [(chp, cfg)].
Proof.
  intros Hk Hc s. unfold smc_try. erewrite bind_ok by reflexivity.
  destruct (emits_when (λ _, True) (truth (entr2 chp)) (outb (entr2 chp) cfg)
    (emits_outb _ _ _ I) (mkIo (dev_out (u8 (entr1 chp)) (u16 cfg) (dev s))
      (io_log s ++ [Out (u8 (entr1 chp)) (u16 cfg)]) (io_out s) (io_err s) (io_sys s)))
    as ([] & s2 & e2 & E2 & L2 & _).
  erewrite bind_ok by exact E2.
  destruct (emits_outb (λ _, True) (smc_cid_index chp) cfg I s2) as ([] & s3 & e3 & E3 & L3 & _).
  erewrite bind_ok by exact E3.
  destruct (emits_inb (λ _, True) (cfg + 1) (λ _ _, I) s3) as (devid & s4 & e4 & E4 & L4 & _).
  erewrite bind_ok by exact E4.
  destruct (emits_smc_probe chp cfg fir devid s4) as (f & s5 & e5 & E5 & L5 & _).
  erewrite bind_ok by exact E5. erewrite bind_ok by reflexivity.
  eexists f, _, [mkSession chp cfg (Out (entr1 chp) cfg :: (e2 ++ e3 ++ e4 ++ e5)
    ++ [Out SMC_DISCONF cfg])].
  split; [reflexivity|]. split; [|split; [|by split]].
  - simpl. rewrite L5, L4, L3, L2. simpl. rewrite (u8_small (entr1 chp)), u16_small by done.
    unfold all_events. simpl. by rewrite <- !app_assoc.
  - constructor; [|done]. by eexists.
Qed.

Lemma in_sessions_ret l fir : (fir = 0 → l = []) → in_sessions (mret fir) l.
Proof.
  intros Hl s. exists fir, s, []. rewrite app_nil_r. split; [done|]. split; [done|].
  split; [done|]. split; [apply prefix_nil|]. intros H. by rewrite Hl.
Qed.

Lemma in_sessions_bind m k l1 l2 :
  in_sessions m l1 → in_sessions (k 0) l2 →
  (∀ fir s, fir ≠ 0 → k fir s = Ok (fir, s)) → in_sessions (m ≫= k) (l1 ++ l2).
Proof.
  intros Hm Hk Hn s. destruct (Hm s) as (fir & s1 & xs & E1 & L1 & F1 & P1 & Z1).
  erewrite bind_ok by exact E1. destruct (decide (fir = 0)) as [->|Hf].
  - destruct (Hk s1) as (fir & s2 & ys & E2 & L2 & F2 & P2 & Z2).
    exists fir, s2, (xs ++ ys). split; [done|].
    unfold all_events in *. rewrite L2, L1, bind_app, app_assoc. split; [done|].
    split; [by apply Forall_app|]. rewrite fmap_app, Z1 by done. split.
    + by apply prefix_app.
    + intros H. by rewrite Z2.
  - exists fir, s1, xs. rewrite Hn by done. split; [done|]. split; [done|]. split; [done|].
    split; [by apply prefix_app_r|done].
Qed.

Lemma smc_cfgs_sessions chp cfgs :
  0 ≤ entr1 chp < 256 → Forall (λ c, 0 ≤ c < 65536) cfgs →
  in_sessions (smc_cfgs verbose debug chp cfgs 0) ((λ c, (chp, c)) <$> cfgs).
Proof.
  intros Hk Hc. induction Hc as [|c cfgs Hc Hcs IH]; simpl; [by apply in_sessions_ret|].
  apply (in_sessions_bind _ _ [(chp, c)]); [by apply smc_try_session|done|].
  intros fir s Hf. destruct cfgs; simpl; [done|]. by rewrite (proj2 (Z.eqb_neq _ _) Hf).
Qed.

Lemma in_sessions_debug t m l : in_sessions m l → in_sessions (DEBUG debug t;; m) l.
Proof.
  intros Hm s. unfold DEBUG, when. destruct debug; [|apply Hm].
  erewrite bind_ok by reflexivity.
  apply (Hm (mkIo (dev s) (io_log s) (io_out s +:+ t) (io_err s) (io_sys s))).
Qed.

Lemma smc_search_sessions chips :
  Forall (λ c, 0 ≤ entr1 c < 256 ∧ Forall (λ p, 0 ≤ p < 65536) (smc_cfg c)) chips →
  in_sessions (smc_search verbose debug chips 0) (chips ≫= attempts_of).
Proof.
  induction 1 as [|c chips [Hk Hc] Hcs IH]; simpl; [by apply in_sessions_ret|].
  apply in_sessions_debug, in_sessions_bind; [by apply smc_cfgs_sessions|done|].
  intros fir s Hf. destruct chips; simpl; [done|]. by rewrite (proj2 (Z.eqb_neq _ _) Hf).
Qed.
End sessions.

(** on every machine the SMC probe returns, having tried chips and ports in
    the order of the table, and it leaves no chip in the configuration state:
    each attempt opens with the key of its chip and ends with the closing byte
    at the same port. *)
Theorem probe_smc_sessions {D} `{!PortDev D} verbose debug (s : io D) :
  ∃ s' xs, probe_smc verbose debug s = Ok (0, s') ∧
    io_log s' = io_log s ++ all_events xs ∧ Forall session_ok xs ∧
    attempt <$> xs `prefix_of` smc_attempts.
Proof.
  destruct (smc_search_sessions verbose debug smc_chips) with (s := s)
    as (fir & s' & xs & E & L & F & P & _).
  { unfold smc_chips. repeat constructor; simpl; lia. }
  exists s', xs. split; [|done]. unfold probe_smc. by erewrite bind_ok by exact E.
Qed.

(** ** What is printed is what the registers say *)

(** A chip [chp] at the port [cfg], whose infrared block is at the port [fir]: its keys open the
    configuration and [SMC_DISCONF] ends it; the block answers at its own ports, and in bank 3, which is
    chosen with its master register, it gives its number and its version. *)
Class SmcChip (D : Type) `{!PortDev D} (cfg : Z) (keys : list Z) (latch : Z → Z → Z → Z)
    `{!ConfigPort D cfg (cfg + 1) keys latch} (chp : smc_chip_info_t) (fir id version : Z) := {
  smc_closed : D → Prop;
  smc_enters d : smc_closed d →
    let d1 := dev_out (entr1 chp) cfg d in
    let d2 := if truth (entr2 chp) then dev_out (entr2 chp) cfg d1 else d1 in
    opened d2 ∧ ∀ r, reg d2 r = reg d r;
  smc_leaves d : opened d →
    smc_closed (dev_out SMC_DISCONF cfg d) ∧ ∀ r, reg (dev_out SMC_DISCONF cfg d) r = reg d r;
  fir_read : D → Z → Z;
  fir_in d k : fir ≠ 0 → opened d → 0 ≤ k < 8 → dev_in (fir + k) d = (fir_read d k, d);
  fir_master d v : fir ≠ 0 → opened d → is_byte v →
    let d' := dev_out v (fir + IRCC_MASTER) d in
    opened d' ∧ (∀ r, reg d' r = reg d r) ∧
    (Z.land v 0x07 = 3 → fir_read d' IRCC_CHIP_ID = id ∧ fir_read d' IRCC_VERSION = version) }.

Section report.
Context {D : Type} `{!PortDev D} (cfg : Z) (keys : list Z) (latch : Z → Z → Z → Z)
  `{!ConfigPort D cfg (cfg + 1) keys latch} (chp : smc_chip_info_t) (fir id version : Z)
  `{!SmcChip D cfg keys latch chp fir id version}.
Hypothesis cfg_ok : 0 ≤ cfg < 65535.
Hypothesis no_keys : ∀ r, r < 0x50 → r ∉ keys.
Hypothesis bytes_ok : is_byte (entr1 chp) ∧ is_byte (entr2 chp) ∧ is_byte id ∧ is_byte version.
Variable verbose : bool.
#[local] Abbreviation conf := (configured cfg (cfg + 1) keys latch).

(** the line for the registers [R]: without an address of the block there is no more to read *)
Definition info_69 (name : string) (R : Z → Z) : chip_info :=
  let on v := if R CR2B =? 0 then 0 else v in
  mkInfo "SMC" name (on (id mod 16)) (on version) cfg (4 * R CR25) (8 * R CR2B)
    (R CR28 mod 16) (R CR2C) 1 (Z.land (R CR02) 0x80) 0 (on (R CR2D)).

Ltac smc := cfg_step cfg (cfg + 1) keys latch ltac:(by apply no_keys).

(** the ports of the block *)
Lemma fir_in_step {B} k (f : Z → M (io D) B) R s :
  fir ≠ 0 → 0 < fir < 0x1000 → 0 ≤ k < 8 → conf R s →
  ∃ s', conf R s' ∧ same_text s s' ∧ dev s' = dev s ∧
    (inb (fir + k) ≫= f) s = f (u8 (fir_read (dev s) k)) s'.
Proof.
  intros Hz Hf Hk Hc. eexists (mkIo (dev s) _ _ _ _). split; [exact Hc|]. split; [by repeat split|].
  split; [done|]. unfold inb, mbind, M_bind. rewrite u16_small by lia.
  by rewrite fir_in by first [done | apply Hc].
Qed.
Lemma fir_out_step {B} v (f : unit → M (io D) B) R s :
  fir ≠ 0 → 0 < fir < 0x1000 → conf R s → is_byte v → Z.land v 0x07 = 3 →
  ∃ s', conf R s' ∧ same_text s s' ∧
    fir_read (dev s') IRCC_CHIP_ID = id ∧ fir_read (dev s') IRCC_VERSION = version ∧
    (outb v (fir + IRCC_MASTER) ≫= f) s = f tt s'.
Proof.
  intros Hz Hf [Ho HR] Hv H3. destruct (fir_master (dev s) v Hz Ho Hv) as (Ho' & Hr & Hb).
  destruct (Hb H3) as [Hid Hver].
  eexists (mkIo (dev_out v (fir + IRCC_MASTER) (dev s)) _ _ _ _).
  split; [split; [exact Ho'|intros r; cbn; by rewrite Hr]|]. split; [by repeat split|].
  split; [exact Hid|]. split; [exact Hver|].
  unfold outb, modify, mbind, M_bind. by rewrite u8_small, u16_small by (unfold IRCC_MASTER; done || lia).
Qed.

Definition bank_byte (b : Z) : Z := Z.lor (Z.land b 0xF0) (Z.land 3 0x07).
Lemma bank_3 b : is_byte b → is_byte (bank_byte b) ∧ Z.land (bank_byte b) 0x07 = 3.
Proof.
  intros Hb. pose proof (byte_forall (λ b, (0 <=? bank_byte b) && (bank_byte b <? 256)
    && (Z.land (bank_byte b) 0x07 =? 3)) ltac:(by vm_compute) b Hb) as H.
  apply andb_true_iff in H as [H H3%Z.eqb_eq]. apply andb_true_iff in H as [H1 H2].
  apply Z.leb_le in H1. apply Z.ltb_lt in H2. split; [unfold is_byte; lia|exact H3].
Qed.

(** reading the block, when the registers give it an address *)
Lemma fir_info_ok {B} (f : Z * Z * Z → M (io D) B) R s :
  conf R s → fir = 8 * R CR2B →
  ∃ s', conf R s' ∧ same_text s s' ∧
    (fir_info CR2D cfg fir ≫= f) s
    = f (if R CR2B =? 0 then (0, 0, 0) else (R CR2D, id mod 16, version)) s'.
Proof.
  intros Hc Hfir. pose proof (configured_byte _ _ _ _ R s CR2B Hc) as Hb. unfold is_byte in Hb.
  destruct bytes_ok as (_ & _ & Hid & Hver). unfold fir_info, truth.
  destruct (Z.eqb_spec (R CR2B) 0) as [E|E].
  { rewrite Hfir, E. exists s. split; [exact Hc|]. split; [by repeat split|done]. }
  rewrite (proj2 (Z.eqb_neq fir 0)) by lia. cbn [negb]. smc. smc.
  match goal with H : at_reg _ _ _ _ _ _ ?s2 |- _ => apply at_configured in H end.
  unfold register_bank. rewrite !bind_assoc.
  match goal with H : conf R ?s2 |- context [(inb (fir + IRCC_MASTER) ≫= ?k) ?s2] =>
    destruct (fir_in_step IRCC_MASTER k R s2) as (s3 & C3 & T3 & _ & ->);
      [lia|lia|by unfold IRCC_MASTER|exact H|] end.
  set (b := u8 _). destruct (bank_3 b) as [B1 B2]; [apply u8_range|].
  match goal with |- context [(outb _ (fir + IRCC_MASTER) ≫= ?k) s3] =>
    destruct (fir_out_step (bank_byte b) k R s3) as (s4 & C4 & T4 & I4 & V4 & E4);
      [lia|lia|exact C3|exact B1|exact B2|] end.
  unfold bank_byte in E4. rewrite E4. rewrite !bind_assoc.
  match goal with |- context [(inb (fir + IRCC_CHIP_ID) ≫= ?k) s4] =>
    destruct (fir_in_step IRCC_CHIP_ID k R s4) as (s5 & C5 & T5 & D5 & ->);
      [lia|lia|by unfold IRCC_CHIP_ID|exact C4|] end.
  rewrite !bind_assoc.
  match goal with |- context [(inb (fir + IRCC_VERSION) ≫= ?k) s5] =>
    destruct (fir_in_step IRCC_VERSION k R s5) as (s6 & C6 & T6 & _ & ->);
      [lia|lia|by unfold IRCC_VERSION|exact C5|] end.
  rewrite D5, I4, V4, !u8_small by done. rewrite bind_ret_l.
  exists s6. split; [exact C6|]. split.
  - repeat (eapply same_text_trans; [eassumption|]). by repeat split.
  - change 0x0f with (Z.ones 4). rewrite Z.land_ones by lia. done.
Qed.

Lemma probe_69_ok {B} name (f : Z → M (io D) B) R s :
  conf R s → fir = 8 * R CR2B →
  ∃ s', conf R s' ∧ io_out s' = io_out s +:+ info_text verbose (info_69 name R) ∧
    (probe_69 verbose name cfg ≫= f) s = f fir s'.
Proof.
  intros Hc Hfir. unfold probe_69. do 8 smc.
  match goal with H : at_reg _ _ _ _ _ _ ?s2 |- _ => apply at_configured in H end.
  rewrite !Z.shiftl_mul_pow2 by lia. change (2 ^ 3) with 8. change (2 ^ 2) with 4.
  rewrite (Z.mul_comm _ 8), <- Hfir, !bind_assoc.
  match goal with H : conf R ?s2 |- context [(fir_info _ _ _ ≫= ?k) ?s2] =>
    destruct (fir_info_ok k R s2 H Hfir) as (s3 & C3 & T3 & ->) end.
  cbv beta. do 2 smc. match goal with H : at_reg _ _ _ _ _ _ ?s2 |- _ => apply at_configured in H end.
  rewrite !bind_assoc. unfold print_info.
  match goal with H : conf R ?s2 |- context [(printf ?t ≫= ?k) ?s2] =>
    destruct (print_reg cfg (cfg + 1) keys latch t k R s2 H) as (s4 & C4 & O4 & _ & _ & ->) end.
  exists s4. split; [exact C4|]. split; [|done]. rewrite O4. unfold info_69.
  change 0x0F with (Z.ones 4). rewrite Z.land_ones, (Z.mul_comm (R CR25)) by lia. rewrite <- Hfir.
  destruct (R CR2B =? 0); cbn [fst snd]; f_equal; cfg_text.
Qed.

(** the chip is out of the configuration state and its registers hold [R] *)
Definition smc_rest (R : Z → Z) (s : io D) : Prop :=
  smc_closed (dev s) ∧ ∀ r, reg (idx:=cfg) (dat:=cfg + 1) (keys:=keys) (latch:=latch) (dev s) r = R r.

Lemma enter_smc {B} (f : unit → M (io D) B) R s :
  smc_rest R s →
  ∃ s', conf R s' ∧ same_text s s' ∧
    (outb (entr1 chp) cfg;; (when (truth (entr2 chp)) (outb (entr2 chp) cfg) ≫= f)) s = f tt s'.
Proof.
  intros [Hc HR]. destruct (smc_enters _ Hc) as [Ho Hr]. destruct bytes_ok as (B1 & B2 & _).
  unfold outb, modify, mbind, M_bind. rewrite (u8_small (entr1 chp)), (u16_small cfg) by (done || lia).
  destruct (truth (entr2 chp)); cbn [when].
  - rewrite (u8_small (entr2 chp)) by done. eexists. split; [|split; [|reflexivity]].
    + split; [exact Ho|]. intros r. cbn [dev]. by rewrite Hr.
    + by repeat split.
  - eexists. split; [|split; [|reflexivity]].
    + split; [exact Ho|]. intros r. cbn [dev]. by rewrite Hr.
    + by repeat split.
Qed.
Lemma leave_smc {B} (f : unit → M (io D) B) R s :
  conf R s →
  ∃ s', smc_rest R s' ∧ same_text s s' ∧ (outb SMC_DISCONF cfg ≫= f) s = f tt s'.
Proof.
  intros [Ho HR]. destruct (smc_leaves _ Ho) as [Hc Hr].
  eexists (mkIo (dev_out SMC_DISCONF cfg (dev s)) _ _ _ _). split; [|split; [by repeat split|]].
  - split; [exact Hc|]. intros r. cbn [dev]. by rewrite Hr.
  - unfold outb, modify, mbind, M_bind. rewrite u8_small, (u16_small cfg) by (done || lia). done.
Qed.

(** C32: A chip of the family 69 that answers with its number is reported with what its registers say:
    the address of the serial port (CR25 times 4), of the infrared block (CR2B times 8), the interrupt,
    the DMA channel, the number and the version that the block gives in bank 3; when CR2B
    is 0 the block is not asked.  The chip is then out of its configuration, its registers as before. *)
Theorem smc_chip_reported R (s : io D) :
  smc_fun chp = probe_69_fun → is_byte (smc_cid_index chp) → smc_cid_index chp < 0x50 →
  smc_rest R s → R (smc_cid_index chp) = smc_cid_value chp → fir = 8 * R CR2B →
  ∃ s', smc_try verbose false chp cfg 0 s = Ok (fir, s') ∧ smc_rest R s' ∧
    io_out s' = io_out s +:+ info_text verbose (info_69 (smc_name chp) R).
Proof.
  intros Hfun Hb Hlow Hrest Hid Hfir. unfold smc_try, run_smc_probe. rewrite Hfun.
  match goal with |- context [(outb (entr1 chp) cfg ≫= λ _, when ?b ?m ≫= ?k) s] =>
    destruct (enter_smc k R s Hrest) as (s1 & C1 & T1 & ->) end.
  smc. smc. rewrite Hid, Z.eqb_refl.
  match goal with H : at_reg _ _ _ _ _ _ ?s2 |- _ => apply at_configured in H;
    match goal with |- context [(probe_69 _ ?n _ ≫= ?k) s2] =>
      destruct (probe_69_ok n k R s2 H Hfir) as (s3 & C3 & O3 & ->) end end.
  match goal with |- context [(outb SMC_DISCONF cfg ≫= ?k) s3] =>
    destruct (leave_smc k R s3 C3) as (s4 & C4 & T4 & ->) end.
  exists s4. split; [done|]. split; [exact C4|].
  destruct T4 as (-> & _). rewrite O3. f_equal. cfg_text.
Qed.
End report.

(** ** Examples *)
Definition smc_669_regs (r : Z) : Z :=
  if r =? 0x0d then 3 else if r =? CR25 then 0xbe else if r =? CR2B then 0x26
  else if r =? CR28 then 0x43 else if r =? CR2C then 1 else if r =? CR02 then 0x88 else 0.

Example probe_smc_example :
  ∃ s, probe_smc false false (start_io (mkChip 0x3f0 false 0 smc_669_regs)) = Ok (0, s) ∧
    io_out s = "SMC,FDC37C669,15.255,0x3f0,0x2f8,0x130,3,1,128,0,1" +:+ nl ∧
    chip_open (dev s) = false.
Proof. eexists. split; [vm_compute; reflexivity|]. by vm_compute. Qed.

(** the chip of the examples is such a chip; its block answers 0xff *)
Definition FDC37C669 : smc_chip_info_t := mkSmc "FDC37C669" [0x3f0; 0x370] 0x55 0x55 0x0d 0x03 probe_69_fun.
#[export] Program Instance chip_smc :
  SmcChip chip 0x3f0 [0x55; 0xaa] (λ _ _ v, v) FDC37C669 0x130 0xff 0xff :=
  {| smc_closed c := chip_open c = false ∧ chip_base c = 0x3f0; fir_read _ _ := 0xff |}.
Next Obligation. intros [cb co cs cr] [Ho Hb]. cbn in *. by subst. Qed.
Next Obligation. intros [cb co cs cr] [Ho Hb]. cbn in *. by subst. Qed.
Next Obligation.
  intros [cb co cs cr] k _ [Ho Hb] Hk. cbn [chip_base chip_open] in Ho, Hb. subst. unfold dev_in.
  cbn [chip_ports chip_base chip_open andb].
  rewrite (proj2 (Z.eqb_neq _ (0x3f0 + 1))), (proj2 (Z.eqb_neq _ 0x3f0)) by lia. done.
Qed.
Next Obligation.
  intros [cb co cs cr] v _ [Ho Hb] Hv. cbn [chip_base chip_open] in Ho, Hb. subst.
  split; [done|]. split; [done|]. done.
Qed.

Lemma low_regs r : r < 0x50 → r ∉ [0x55; 0xaa].
Proof. intros H. rewrite !elem_of_cons, elem_of_nil. lia. Defined.

Lemma smc_chip_reported_witness :
  let s := start_io (mkChip 0x3f0 false 0 smc_669_regs) in
  let R := chip_reg (dev s) in
  ∃ s', smc_try false false FDC37C669 0x3f0 0 s = Ok (0x130, s') ∧
    smc_rest 0x3f0 [0x55; 0xaa] (λ _ _ v, v) FDC37C669 0x130 0xff 0xff R s' ∧
    io_out s' = "" +:+ info_text false (info_69 0x3f0 0xff 0xff "FDC37C669" R).
Proof.
  intros s R.
  apply (smc_chip_reported 0x3f0 [0x55; 0xaa] (λ _ _ v, v) FDC37C669 0x130 0xff 0xff ltac:(lia)
    low_regs ltac:(done) false R s); done.
Defined.
