(* ===== verification/FindWinbond.v ===== *)
(** * findchip: Winbond chips (findchip/winbond.c) *)
From Stdlib Require Import String.
From S2P Require Import Prelude CInt Printf PortIO ChipInfo.
Local Open Scope string_scope.
Local Open Scope list_scope.
Local Open Scope Z_scope.

Definition MANUFACTURER := "WINBOND".
Definition CR07 := 0x07.
Definition CR09 := 0x09.
Definition CR0B := 0x0B.
Definition CR0C := 0x0C.
Definition CR0D := 0x0D.
Definition CR16 := 0x16.
Definition CR20 := 0x20.
Definition CR21 := 0x21.
Definition CR25 := 0x25.
Definition CR26 := 0x26.
Definition CR28 := 0x28.
Definition CR2A := 0x2A.
Definition CR2C := 0x2C.
Definition CR60 := 0x60.
Definition CR61 := 0x61.
Definition CR70 := 0x70.
Definition CR74 := 0x74.
Definition CR75 := 0x75.
Definition CRF0 := 0xF0.
Definition W83977_DEVICE_ID := 0x97.
Definition W83877_HEFRAS_MASK := 0x01.
Definition W83877_HEFERE_MASK := 0x20.
Definition W83977_HEFRAS_MASK := 0x40.
Definition CHIPID := 0x0F.
Definition IRTXDRQSEL := 0xF0.
Definition IRRXDRQSEL := 0x0F.
Definition URBIQS := 0x0F.
Definition URBAD := 0xFE.
Definition TXW4C := 0x40.
Definition RXW4C := 0x20.
Definition RXW4C_977 := 0x08.
Definition TXW4C_977 := 0x04.
Definition ENBKIRSL := 0x10.
Definition URIRSEL := 0x08.
Definition HDUPLX := 0x08.
Definition IRMODE := 0x07.
Definition ENBNKSEL := 0x08.
Definition ENBNKSEL_977 := 0x01.
Definition W83877_HEFRAS_INDEX := CR16.
Definition W83877_HEFERE_INDEX := CR0C.
Definition W83977_HEFRAS_INDEX := CR26.
Definition NOT_EXIST := -1.

Inductive fir_support_t := FIR_SUPPORT | NO_FIR_SUPPORT.
Inductive chip_type_t := W83977_PNP | W83977 | W83877.

Record winbond_chip := mkWinbond {
  wb_name : string;
  wb_chip_id : Z;
  fir_support : fir_support_t }.

Record winbond_efer := mkEfer {
  chip_type : chip_type_t;
  efer_addr : Z;
  writes : nat;
  start_flag : Z;
  end_flag : Z;
  efir_addr : Z;
  efdr_addr : Z;
  hefras_index : Z;
  hefras_mask : Z;
  hefras : Z;
  hefere_index : Z;
  hefere_mask : Z;
  hefere : Z }.

Definition winbond_chips : list winbond_chip := [
  mkWinbond "W83977TF" 0x73 NO_FIR_SUPPORT;
  mkWinbond "W83977ATF" 0x74 FIR_SUPPORT;
  mkWinbond "W83877AF" 0x0b FIR_SUPPORT;
  mkWinbond "W83877TF" 0x0c NO_FIR_SUPPORT;
  mkWinbond "W83877ATF" 0x0d FIR_SUPPORT].

Definition efers : list winbond_efer := [
  mkEfer W83977 0x3F0 2 0x87 0xAA 0x3F0 0x3F1
    W83977_HEFRAS_INDEX W83977_HEFRAS_MASK 0 NOT_EXIST 0 0;
  mkEfer W83977 0x370 2 0x87 0xAA 0x370 0x371
    W83977_HEFRAS_INDEX W83977_HEFRAS_MASK 1 NOT_EXIST 0 0;
  mkEfer W83877 0x250 1 0x88 0x88 0x251 0x252
    W83877_HEFRAS_INDEX W83877_HEFRAS_MASK 0 W83877_HEFERE_INDEX W83877_HEFERE_MASK 0;
  mkEfer W83877 0x250 1 0x89 0x89 0x251 0x252
    W83877_HEFRAS_INDEX W83877_HEFRAS_MASK 0 W83877_HEFERE_INDEX W83877_HEFERE_MASK 1;
  mkEfer W83877 0x3F0 2 0x86 0xAA 0x3F0 0x3F1
    W83877_HEFRAS_INDEX W83877_HEFRAS_MASK 1 W83877_HEFERE_INDEX W83877_HEFERE_MASK 0;
  mkEfer W83877 0x3F0 2 0x87 0xAA 0x3F0 0x3F1
    W83877_HEFRAS_INDEX W83877_HEFRAS_MASK 1 W83877_HEFERE_INDEX W83877_HEFERE_MASK 1].

(** the search in the table of chips; [None] is its end *)
Definition find_winbond (id : Z) : option winbond_chip :=
  head (filter (λ c, wb_chip_id c = id) winbond_chips).

Definition no_fir (c : winbond_chip) : bool :=
  match fir_support c with FIR_SUPPORT => false | NO_FIR_SUPPORT => true end.

Section winbond.
Context {D : Type} `{!PortDev D}.
Variable verbose debug : bool.
(** what the stack holds where [struct chip_info info] is allocated: it is not
    cleared *)
Variable info_junk : chip_info.

Definition get_cr (r : Z) (e : winbond_efer) : M (io D) Z :=
  outb r (efir_addr e);;
  inb (efdr_addr e).

Definition say_delay (set : bool) (way : string) : M (io D) unit :=
  DEBUG debug (" " +:+ way +:+ " Turn around delay(4 char time) is "
    +:+ (if set then "enabled" else "disabled") +:+ nl).

Definition w83977_read_info (e : winbond_efer) : M (io D) Z :=
  devid ← get_cr CR20 e;
  revision ← get_cr CR21 e;
  DEBUG debug ("chip id = 0x" +:+ fmt_02x devid +:+ ", revision = 0x" +:+ fmt_02x revision
    +:+ nl);;
  if negb (devid =? W83977_DEVICE_ID) then
    DEBUG debug ("Wrong device ID = 0x" +:+ fmt_02x devid +:+ nl);; mret 0
  else match find_winbond revision with
  | None =>
      DEBUG debug ("Device Revision is 0x" +:+ fmt_02x revision
        +:+ " :no known chip was detected." +:+ nl);; mret 0
  | Some chipinfo =>
      DEBUG debug ("Device Revision 0x" +:+ fmt_02x devid +:+ " : " +:+ wb_name chipinfo
        +:+ " is detected!" +:+ nl);;
      when (no_fir chipinfo) (DEBUG debug "this chip does not have FIR block.n");;
      outb CR07 (efir_addr e);;
      outb 0x06 (efdr_addr e);;
      rxdma ← get_cr CR74 e;
      rxdma ← (if 3 <? rxdma then DEBUG debug (" RX DMA is inactive" +:+ nl);; mret (-1)
               else mret rxdma);
      txdma ← get_cr CR75 e;
      when (3 <? txdma) (DEBUG debug (" TX DMA is inactive, or single DMA mode" +:+ nl));;
      irq ← get_cr CR70 e;
      hi ← get_cr CR60 e;
      lo ← get_cr CR61 e;
      let sir_base := Z.lor (Z.shiftl hi 8) (Z.land lo 0xff) in
      misc ← get_cr CRF0 e;
      say_delay (tst misc TXW4C_977) "RX->TX";;
      say_delay (tst misc RXW4C_977) "TX->RX";;
      enabled ← (if tst misc ENBNKSEL_977 then
          DEBUG debug (" Bank selection si enabled." +:+ nl);; mret 1
        else
          DEBUG debug (" Bank selection is disabled(CRF0 = 0x" +:+ fmt_02x misc +:+ ")."
            +:+ nl);; mret 0);
      print_info verbose (mkInfo MANUFACTURER (wb_name chipinfo) devid revision (efer_addr e)
        sir_base sir_base (Z.land irq 0x0f) rxdma 1 enabled 0 (delay info_junk));;
      mret 1
  end.

(** the mode bits of CR0D; the result is whether infrared is disabled *)
Definition ir_mode (misc : Z) : M (io D) bool :=
  let mode := Z.land misc IRMODE in
  if (mode =? 0) || (mode =? 1) then
    DEBUG debug (" IR support are disabled. bad." +:+ nl);; mret true
  else if mode =? 2 then
    DEBUG debug (" Configured for IrDA. (SIR pulse width = 1.6us)" +:+ nl);; mret false
  else if mode =? 3 then
    DEBUG debug (" Configured for IrDA. (SIR pulse width = 3/16)" +:+ nl);; mret false
  else
    DEBUG debug (" Configured for ASK-IR(0x" +:+ fmt_02x mode +:+ "). " +:+ nl);; mret true.

(** what the bits of CR0C, CR0D and CR2C disable *)
Definition w83877_disabled (e : winbond_efer) : M (io D) bool :=
  misc ← get_cr CR0C e;
  d1 ← (if tst misc ENBKIRSL then
      DEBUG debug (" Config Registers for IR functions are activated. good." +:+ nl);;
      mret false
    else
      DEBUG debug (" Config Registers for IR functions are inactivated(CR0C = 0x"
        +:+ fmt_02x misc +:+ ")." +:+ nl);; mret true);
  d2 ← (if tst misc URIRSEL then DEBUG debug (" UART B is IR mode. " +:+ nl);; mret d1
    else
      DEBUG debug (" UART B is not IR mode(CR0C = 0x" +:+ fmt_02x misc +:+ "). " +:+ nl);;
      mret true);
  misc ← get_cr CR0D e;
  DEBUG debug (if tst misc HDUPLX then " Configured for Half-Duplex" +:+ nl
    else " Configured for Full-Duplex" +:+ nl);;
  m ← ir_mode misc;
  misc ← get_cr CR2C e;
  if tst misc ENBNKSEL then
    DEBUG debug (" Bank selection is enabled. " +:+ nl);; mret (d2 || m)
  else
    DEBUG debug (" Bank selection is disabled(CR2C = 0x" +:+ fmt_02x misc +:+ ")" +:+ nl);;
    mret true.

Definition w83877_read_info (e : winbond_efer) : M (io D) Z :=
  b ← get_cr CR09 e;
  let chipid := Z.land b CHIPID in
  match find_winbond chipid with
  | None =>
      DEBUG debug ("chip ID is 0x" +:+ fmt_02x chipid +:+ " : no known chip was detected."
        +:+ nl);; mret 0
  | Some chipinfo =>
      DEBUG debug ("chip ID is 0x" +:+ fmt_02x chipid +:+ " : " +:+ wb_name chipinfo
        +:+ " is detected!" +:+ nl);;
      when (no_fir chipinfo) (DEBUG debug "this chip does not have FIR block.n");;
      b ← get_cr CR2A e;
      let txdma := Z.shiftr (Z.land b IRTXDRQSEL) 4 in
      let rxdma := Z.land b IRRXDRQSEL in
      DEBUG debug (" RX DMA = " +:+ fmt_d rxdma +:+ ", TX DMA = " +:+ fmt_d txdma +:+ nl);;
      dma ← (if txdma =? rxdma then mret txdma
             else
               when (truth txdma) (DEBUG debug (" -- Configured for Dual DMA mode" +:+ nl));;
               mret (dma info_junk));
      when (dma =? 0) (DEBUG debug ("  -- DMA is disabled." +:+ nl));;
      irq ← get_cr CR28 e;
      base ← get_cr CR25 e;
      let sir_base := Z.shiftl (Z.land base URBAD) 2 in
      misc ← get_cr CR0B e;
      say_delay (tst misc TXW4C) "RX->TX";;
      say_delay (tst misc RXW4C) "TX->RX";;
      disabled ← w83877_disabled e;
      print_info verbose (mkInfo MANUFACTURER (wb_name chipinfo) chipid (-1) (efer_addr e)
        sir_base sir_base (Z.land irq URBIQS) dma 1 (if disabled : bool then 0 else 1) 0
        (delay info_junk));;
      mret 1
  end.

(** a bit of a register against the entry of the table; no register, no check *)
Definition hef_check (what : string) (e : winbond_efer) (index mask bit : Z) : M (io D) bool :=
  if 0 <=? index then
    v ← get_cr index e;
    DEBUG debug (what +:+ " = 0x" +:+ fmt_02x v +:+ " " +:+ nl);;
    mret (b2z (tst v mask) =? bit)
  else mret true.

Fixpoint knock (n : nat) (e : winbond_efer) : M (io D) unit :=
  match n with
  | O => mret tt
  | S n => outb (start_flag e) (efer_addr e);; knock n e
  end.

(** one entry of the table *)
Definition try_efer (e : winbond_efer) : M (io D) Z :=
  DEBUG debug ("Probing for EFER at 0x" +:+ pad0 4 (fmt_x (efer_addr e)) +:+ " ..." +:+ nl);;
  knock (writes e) e;;
  found ← (
    ok ← hef_check "hefras" e (hefras_index e) (hefras_mask e) (hefras e);
    if negb ok then mret 0
    else
      ok ← hef_check "hefere" e (hefere_index e) (hefere_mask e) (hefere e);
      if negb ok then mret 0
      else
        DEBUG debug ("EFER seems to be probed at 0x" +:+ pad0 4 (fmt_x (efer_addr e))
          +:+ nl);;
        match chip_type e with
        | W83877 => w83877_read_info e
        | W83977 => w83977_read_info e
        | W83977_PNP => DEBUG debug "BUG in the source code.. :(";; mret 0
        end);
  outb (end_flag e) (efer_addr e);;
  mret found.

Fixpoint search_efers (es : list winbond_efer) : M (io D) Z :=
  match es with
  | [] => DEBUG debug ("Couldn't find Winbond superI/O chip." +:+ nl);; mret 0
  | e :: es =>
      if negb (truth (efer_addr e)) then
        DEBUG debug ("Couldn't find Winbond superI/O chip." +:+ nl);; mret 0
      else
        found ← try_efer e;
        if truth found then mret 0 else search_efers es
  end.

Definition probe_winbond : M (io D) Z := search_efers efers.
End winbond.

(** ** What the probe writes, on every machine *)
Definition winbond_safe (ev : event) : Prop :=
  match ev with
  | In _ _ => True
  | Out v p => p ∈ [0x3F0; 0x370; 0x250; 0x251] ∨ (v = 6 ∧ p ∈ [0x3F1; 0x371])
  end.

(** the ports of an entry of the table *)
Definition efer_ok (e : winbond_efer) : Prop :=
  u16 (efer_addr e) ∈ [0x3F0; 0x370; 0x250; 0x251] ∧
  u16 (efir_addr e) ∈ [0x3F0; 0x370; 0x250; 0x251] ∧
  (chip_type e = W83977 → u16 (efdr_addr e) ∈ [0x3F1; 0x371]).

Section safety.
Context {D : Type} `{!PortDev D}.
Variable verbose debug : bool.
Variable info_junk : chip_info.

Lemma emits_get_cr r e : efer_ok e → emits (D:=D) winbond_safe (get_cr r e).
Proof. intros (_ & H & _). unfold get_cr. ports; [by left|done]. Qed.

Lemma emits_w83877 e : efer_ok e →
  emits (D:=D) winbond_safe (w83877_read_info verbose debug info_junk e).
Proof.
  intros He. pose proof (λ r, emits_get_cr r e He).
  unfold w83877_read_info, w83877_disabled, ir_mode, say_delay. ports; by auto.
Qed.

Lemma emits_w83977 e : efer_ok e → chip_type e = W83977 →
  emits (D:=D) winbond_safe (w83977_read_info verbose debug info_junk e).
Proof.
  intros He Ht. pose proof (λ r, emits_get_cr r e He). destruct He as (_ & Hi & Hd).
  unfold w83977_read_info, say_delay. ports; try done; try by auto.
  - by left.
  - right. auto.
Qed.

Lemma emits_try_efer e : efer_ok e →
  emits (D:=D) winbond_safe (try_efer verbose debug info_junk e).
Proof.
  intros He. pose proof (λ r, emits_get_cr r e He) as Hg. pose proof (emits_w83877 e He).
  pose proof (emits_w83977 e He).
  assert (Hk : ∀ n, emits (D:=D) winbond_safe (knock n e)).
  { intros n. induction n as [|n IH]; simpl; ports. left. apply He. }
  unfold try_efer, hef_check. destruct (chip_type e) eqn:Ht; ports; try done; try by auto;
    left; apply He.
Qed.

Lemma emits_search es : Forall efer_ok es →
  emits (D:=D) winbond_safe (search_efers verbose debug info_junk es).
Proof.
  induction 1 as [|e es He Hes IH]; simpl; [ports|].
  pose proof (emits_try_efer e He). ports; done.
Qed.

Lemma emits_probe : emits (D:=D) winbond_safe (probe_winbond verbose debug info_junk).
Proof.
  apply emits_search. unfold efers, efer_ok.
  repeat constructor; simpl; rewrite ?u16_small by lia; try done; intros [=];
    set_solver.
Qed.
End safety.

(** on every machine the Winbond probe returns, and all it writes is
    addresses and keys to the index ports, and, to a data port, only the number 6
    that selects the logical device: no configuration is changed. *)
Theorem probe_winbond_safe {D} `{!PortDev D} verbose debug info_junk :
  emits (D:=D) winbond_safe (probe_winbond verbose debug info_junk).
Proof. apply emits_probe. Qed.

(** ** What is printed for a W83877 *)
Section decode.
Context {D : Type} `{!PortDev D} (e : winbond_efer) (keys : list Z)
  (latch : Z → Z → Z → Z) `{!ConfigPort D (efir_addr e) (efdr_addr e) keys latch}.
Hypothesis ports_ok : 0 ≤ efir_addr e < 65536 ∧ 0 ≤ efdr_addr e < 65536.
Hypothesis no_keys : ∀ r, r < 0x30 → r ∉ keys.
Variable verbose : bool.
Variable info_junk : chip_info.
#[local] Abbreviation conf := (configured (efir_addr e) (efdr_addr e) keys latch).

(** infrared is on when CR0C enables its registers and selects it for UART B,
    CR0D selects one of the two IrDA modes, and CR2C the bank selection *)
Definition w83877_on (R : Z → Z) : bool :=
  Z.testbit (R CR0C) 4 && Z.testbit (R CR0C) 3
  && ((R CR0D mod 8 =? 2) || (R CR0D mod 8 =? 3)) && Z.testbit (R CR2C) 3.

Definition info_877 (c : winbond_chip) (R : Z → Z) : chip_info :=
  let base := R CR25 / 2 * 8 in
  mkInfo MANUFACTURER (wb_name c) (R CR09 mod 16) (-1) (efer_addr e) base base
    (R CR28 mod 16)
    (if R CR2A / 16 =? R CR2A mod 16 then R CR2A / 16 else dma info_junk)
    1 (b2z (w83877_on R)) 0 (delay info_junk).

Lemma decode_877 b : is_byte b →
  Z.land b CHIPID = b mod 16 ∧ Z.land b URBIQS = b mod 16 ∧ Z.land b IRRXDRQSEL = b mod 16 ∧
  Z.shiftr (Z.land b IRTXDRQSEL) 4 = b / 16 ∧ Z.shiftl (Z.land b URBAD) 2 = b / 2 * 8 ∧
  Z.land b IRMODE = b mod 8.
Proof. intros Hb. repeat split; revert b Hb; apply byte_eq; by vm_compute. Qed.

Lemma get_cr_step {B} r (k : Z → M (io D) B) R s :
  conf R s → is_byte r → r ∉ keys →
  ∃ s', conf R s' ∧ same_text s s' ∧ (get_cr r e ≫= k) s = k (R r) s'.
Proof.
  intros Hc Hr Hk. destruct ports_ok. unfold get_cr. rewrite bind_assoc.
  destruct (get_reg (efir_addr e) (efdr_addr e) keys latch ltac:(done) ltac:(done) r k R s)
    as (s' & H1 & H2 & H3); [done..|].
  exists s'. split; [by eapply at_configured|]. done.
Qed.

Ltac cr :=
  rewrite ?bind_assoc;
  match goal with
  | H : configured _ _ _ _ ?R ?s |- context [(get_cr ?r e ≫= ?k) ?s] =>
      destruct (get_cr_step r k R s H) as (? & ? & ? & ->); [done|by apply no_keys|]
  end; cbv beta.

Lemma ir_mode_off misc s :
  ir_mode (D:=D) false misc s
  = Ok (negb ((Z.land misc IRMODE =? 2) || (Z.land misc IRMODE =? 3)), s).
Proof.
  unfold ir_mode. assert (H : 0 ≤ Z.land misc IRMODE ≤ 7) by (apply land_range; done).
  set (m := Z.land misc IRMODE) in *.
  assert (m = 0 ∨ m = 1 ∨ m = 2 ∨ m = 3 ∨ 3 < m) as [-> |[-> |[-> |[-> |Hm]]]] by lia;
    try done.
  repeat rewrite (proj2 (Z.eqb_neq m _)) by lia. done.
Qed.

Lemma w83877_disabled_ok R s :
  conf R s →
  ∃ s', w83877_disabled false e s = Ok (negb (w83877_on R), s') ∧ conf R s' ∧ same_text s s'.
Proof.
  intros Hc. unfold w83877_disabled, w83877_on.
  change ENBKIRSL with (2 ^ 4). change URIRSEL with (2 ^ 3). change ENBNKSEL with (2 ^ 3).
  cr. rewrite !tst_bit by lia.
  assert (Hd : ∀ (b : bool) (t u : string) (v w : bool) s0,
    (if b then DEBUG (D:=D) false t;; mret v else DEBUG false u;; mret w) s0
    = Ok (if b then v else w, s0)) by (by intros [] ????).
  erewrite bind_ok by apply Hd. erewrite bind_ok by apply Hd. cr. rewrite quiet_DEBUG.
  erewrite bind_ok by apply ir_mode_off. cr. rewrite tst_bit by lia. rewrite Hd.
  destruct (decode_877 (R CR0D)) as (_ & _ & _ & _ & _ & ->).
  { by apply (configured_byte _ _ _ _ R s). }
  eexists. split; [|split; [eassumption|]].
  - by destruct (Z.testbit (R CR0C) 4), (Z.testbit (R CR0C) 3), (R CR0D mod 8 =? 2),
      (R CR0D mod 8 =? 3), (Z.testbit (R CR2C) 3).
  - repeat split; cfg_text.
Qed.

(** the line printed for a W83877 shows what its registers select; only
    when it uses different DMA channels for the two directions, the channel
    printed (and the delay, always) is whatever was on the stack. *)
Theorem w83877_decodes c R (s : io D) :
  conf R s → find_winbond (R CR09 mod 16) = Some c →
  ∃ s', w83877_read_info verbose false info_junk e s = Ok (1, s') ∧ conf R s' ∧
    io_out s' = io_out s +:+ info_text verbose (info_877 c R).
Proof.
  intros Hc Hf. unfold w83877_read_info, say_delay.
  pose proof (λ r, decode_877 (R r) (configured_byte _ _ _ _ R s r Hc)) as Hd.
  cr. destruct (Hd CR09) as (-> & _). rewrite Hf. rewrite quiet_DEBUG.
  assert (Hw : ∀ b t (k : unit → M (io D) Z) s0,
    (when b (DEBUG false t) ≫= k) s0 = k tt s0) by (by intros [] ???).
  rewrite Hw. cr. rewrite quiet_DEBUG.
  destruct (Hd CR2A) as (_ & _ & -> & -> & _).
  match goal with |- context [(if ?b then mret ?v else ?m) ≫= ?k] =>
    assert (Hdma : ∀ s0, (if b then mret v else m) s0 = Ok (if b then v else dma info_junk, s0))
      by (intros; by destruct b, (truth v)) end.
  erewrite bind_ok by apply Hdma. rewrite Hw. do 3 cr. rewrite !quiet_DEBUG.
  edestruct w83877_disabled_ok as (s7 & E7 & C7 & T7); [eassumption|].
  erewrite bind_ok by exact E7.
  destruct (Hd CR28) as (_ & -> & _). destruct (Hd CR25) as (_ & _ & _ & _ & -> & _).
  eexists. split; [reflexivity|]. split; [exact C7|]. simpl.
  replace (if negb (w83877_on R) then 0 else 1) with (b2z (w83877_on R))
    by (by destruct (w83877_on R)).
  f_equal. cfg_text.
Qed.
End decode.

(** ** Examples *)
(** a W83877ATF with DMA 3 for reception and 1 for transmission *)
Definition w877_regs (r : Z) : Z :=
  if r =? CR09 then 0x5d else if r =? CR2A then 0x13 else if r =? CR28 then 0x43
  else if r =? CR25 then 0xbe else if r =? CR0C then 0x18 else if r =? CR0D then 0x03
  else if r =? CR2C then 0x08 else 0.
Definition efer_877 : winbond_efer :=
  mkEfer W83877 0x250 1 0x88 0x88 0x251 0x252
    W83877_HEFRAS_INDEX W83877_HEFRAS_MASK 0 W83877_HEFERE_INDEX W83877_HEFERE_MASK 0.
Definition stack_info : chip_info := mkInfo "" "" 0 0 0 0 0 0 0x7fff 0 0 0 (-559038737).

Example probe_winbond_example :
  ∃ s, probe_winbond false false stack_info (start_io (mkChip 0x251 true 0 w877_regs))
      = Ok (0, s) ∧
    io_out s = "WINBOND,W83877ATF,13.-1,0x250,0x2f8,0x2f8,3,32767,1,0,1" +:+ nl.
Proof. eexists. split; [vm_compute; reflexivity|]. by vm_compute. Qed.

Lemma low_keys r : r < 0x30 → r ∉ [0x55; 0xaa].
Proof. intros H. rewrite !elem_of_cons, elem_of_nil. lia. Defined.

Lemma w83877_decodes_witness :
  let s := start_io (mkChip 0x251 true 0 w877_regs) in
  ∃ s', w83877_read_info true false stack_info efer_877 s = Ok (1, s') ∧
    configured 0x251 0x252 [0x55; 0xaa] (λ _ _ v, v) (chip_reg (dev s)) s' ∧
    io_out s' = "" +:+ info_text true (mkInfo "WINBOND" "W83877ATF" 13 (-1) 0x250 0x2f8 0x2f8
      3 0x7fff 1 1 0 (-559038737)).
Proof.
  intros s.
  refine (w83877_decodes (ConfigPort0 := chip_config 0x251) efer_877 [0x55; 0xaa]
    (λ _ _ v, v) ltac:(simpl; lia) low_keys true stack_info
    (mkWinbond "W83877ATF" 0x0d FIR_SUPPORT) (chip_reg (dev s)) s _ eq_refl).
  by repeat split.
Defined.
