(* ===== verification/FindChip.v ===== *)
(** * findchip: the program (findchip/findchip.c) *)
From Stdlib Require Import String Ascii.
From S2P Require Import Prelude CInt Printf PortIO ChipInfo FindNsc FindSmc FindWinbond.
Local Open Scope string_scope.
Local Open Scope list_scope.
Local Open Scope Z_scope.

Inductive chipset := SMC | NSC | WINBOND.
Definition chipset_name (c : chipset) : string :=
  match c with SMC => "SMC" | NSC => "NSC" | WINBOND => "WINBOND" end.
Definition allchips : list chipset := [SMC; NSC; WINBOND].

(** [tolower] in the C locale, and [strcasecmp(s, t) == 0] *)
Definition to_lower (c : ascii) : ascii :=
  if (65 <=? ord c) && (ord c <=? 90) then chr (ord c + 32) else c.
Fixpoint strcaseeq (s t : string) : bool :=
  match s, t with
  | EmptyString, EmptyString => true
  | String a s, String b t => Ascii.eqb (to_lower a) (to_lower b) && strcaseeq s t
  | _, _ => false
  end.

Record find_opts := mkFind { verbose : bool; debug : bool }.

Section findchip.
Context {D : Type} `{!PortDev D}.
Variable info_junk : chip_info.
(** [ioperm(0, 0x3ff, 1)] *)
Variable ioperm_fails : bool.

Definition probe_func (o : find_opts) (c : chipset) : M (io D) unit :=
  match c with
  | SMC => probe_smc (verbose o) (debug o);; mret tt
  | NSC => probe_nsc (verbose o) (debug o);; mret tt
  | WINBOND => probe_winbond (verbose o) (debug o) info_junk;; mret tt
  end.

Definition list_chips : M (io D) unit :=
  for_each allchips (λ c, printf (chipset_name c +:+ nl)).

(** the [getopt] loop, over the letters that it returns *)
Fixpoint find_options (cs : list ascii) (o : find_opts) : M (io D) find_opts :=
  match cs with
  | [] => mret o
  | c :: cs =>
      if Ascii.eqb c "v" then find_options cs (mkFind true (debug o))
      else if Ascii.eqb c "d" then find_options cs (mkFind (verbose o) true)
      else if Ascii.eqb c "h" then
        eprintf ("Usage: findchip [-d] [-v] [-l] [chip1 ...  chipN]" +:+ nl +:+ nl
          +:+ "-d     Enable debug output" +:+ nl +:+ "-v     Be verbose" +:+ nl
          +:+ "-l     List supported chipsets" +:+ nl
          +:+ "-h     Print help (this message)" +:+ nl);;
        halt (Exited 0)
      else if Ascii.eqb c "l" then list_chips;; halt (Exited 0)
      else find_options cs o
  end.

(** one round of the loop on the chips named: [None] is the end of [argv] *)
Definition probe_named (o : find_opts) (arg : option string) : M (io D) unit :=
  for_each allchips (λ c,
    when (match arg with None => true | Some a => strcaseeq a (chipset_name c) end)
      (probe_func o c)).

(** [do { ... } while (++optind < argc)]: at least one round *)
Definition probe_args (o : find_opts) (args : list string) : M (io D) unit :=
  match args with
  | [] => probe_named o None
  | _ => for_each args (λ a, probe_named o (Some a))
  end.

Definition findchip (cs : list ascii) (args : list string) : M (io D) Z :=
  o ← find_options cs (mkFind false false);
  if ioperm_fails then halt (Exited 0) else probe_args o args;; mret 0.
End findchip.

(** ** Which probes run *)

(** the chip sets that the arguments name, in the order of the arguments *)
Definition named (a : string) : list chipset :=
  filter (λ c, strcaseeq a (chipset_name c) = true) allchips.
Definition requested (args : list string) : list chipset :=
  match args with [] => allchips | _ => args ≫= named end.

Section runs.
Context {D : Type} `{!PortDev D}.

Lemma for_each_when {A} (l : list A) (p : A → bool) (m : A → M (io D) unit) s :
  for_each l (λ a, when (p a) (m a)) s = for_each (filter (λ a, p a = true) l) m s.
Proof.
  revert s. induction l as [|a l IH]; intros s; [done|].
  rewrite filter_cons. simpl. destruct (p a) eqn:E; simpl.
  - unfold mbind, M_bind. destruct (m a s) as [[[] s1]|]; [apply IH|done].
  - apply IH.
Qed.

Lemma for_each_app {A} (l k : list A) (m : A → M (io D) unit) s :
  for_each (l ++ k) m s = (for_each l m;; for_each k m) s.
Proof.
  revert s. induction l as [|a l IH]; intros s; [done|]. simpl. unfold mbind, M_bind.
  destruct (m a s) as [[[] s1]|]; [|done]. rewrite IH. done.
Qed.

Lemma for_each_named o junk args s :
  for_each args (λ a, probe_named (D:=D) junk o (Some a)) s
  = for_each (args ≫= named) (probe_func junk o) s.
Proof.
  revert s. induction args as [|a args IH]; intros s; [done|].
  rewrite bind_cons, for_each_app. simpl. unfold mbind, M_bind.
  unfold probe_named at 1. rewrite for_each_when. fold (named a).
  destruct (for_each (named a) _ s) as [[[] s1]|]; [|done]. apply IH.
Qed.

Lemma probe_func_runs o junk c : emits (D:=D) (λ _, True) (probe_func junk o c).
Proof.
  unfold probe_func. destruct c; (apply emits_bind; [|intros; apply emits_ret]).
  - apply emits_bind; [|intros; apply emits_ret]. intros s.
    destruct (smc_search_sessions (verbose o) (debug o) smc_chips) with (s := s)
      as (fir & s' & xs & E & L & _); [unfold smc_chips; repeat constructor; simpl; lia|].
    exists fir, s', (all_events xs). split; [exact E|]. split; [exact L|].
    by apply Forall_true.
  - by apply (emits_weaken index_only), probe_nsc_safe.
  - by apply (emits_weaken winbond_safe), emits_probe.
Qed.

Lemma probes_run o junk cs : emits (D:=D) (λ _, True) (for_each cs (probe_func junk o)).
Proof. apply emits_for_each. apply Forall_forall. intros c _. apply probe_func_runs. Qed.
End runs.

(** findchip returns 0 on every machine, having run, in order, the probes of
    the chip sets its arguments name, in any case of letters: all three of them
    when there is no argument, and none for a name it does not know. *)
Theorem findchip_runs {D} `{!PortDev D} junk (cs : list ascii) args (s : io D) :
  Forall (λ c, c ≠ "h"%char ∧ c ≠ "l"%char) cs →
  ∃ o s', findchip junk false cs args s = Ok (0, s') ∧
    for_each (requested args) (probe_func junk o) s = Ok (tt, s').
Proof.
  intros Hcs. unfold findchip.
  assert (Ho : ∀ o, ∃ o', find_options cs o s = Ok (o', s)).
  { induction Hcs as [|c cs [Hh Hl] Hcs IH]; intros o; simpl; [by eexists|].
    destruct (Ascii.eqb_spec c "v"); [apply IH|]. destruct (Ascii.eqb_spec c "d"); [apply IH|].
    destruct (Ascii.eqb_spec c "h"); [done|]. destruct (Ascii.eqb_spec c "l"); [done|].
    apply IH. }
  destruct (Ho (mkFind false false)) as (o & E). exists o.
  destruct (probes_run o junk (requested args) s) as ([] & s' & _ & Er & _).
  exists s'. split; [|done]. erewrite bind_ok by exact E.
  assert (Hp : probe_args junk o args s = Ok (tt, s')); [|by erewrite bind_ok by exact Hp].
  unfold probe_args, requested in *. destruct args as [|a args]; [exact Er|].
  by rewrite for_each_named.
Qed.

Lemma findchip_runs_witness :
  ∃ o s', findchip stack_info false ["v"%char] ["nsc"; "intel"] (start_io tt) = Ok (0, s') ∧
    for_each (requested ["nsc"; "intel"]) (probe_func stack_info o) (start_io tt)
    = Ok (tt, s').
Proof. apply findchip_runs. by repeat constructor. Defined.
