(* ===== verification/GFindChip.v ===== *)
(** * gfindchip: a window that shows what findchip prints (findchip/gfindchip.c)

    The toolkit is modelled by what the program gives it: the labels attached to the
    table, the menu, the dialogs, the callbacks.  The array [button] of [main] keeps its
    size.  What findchip prints is the text of [popen]. *)
From Stdlib Require Import String Ascii.
From S2P Require Import Prelude CInt Printf CLib PortIO ChipInfo FindNsc FindSmc FindWinbond FindChip.
Local Open Scope string_scope.
Local Open Scope list_scope.
Local Open Scope Z_scope.

(** a label in the cells from [left] to [right] and from [top] to [bottom] *)
Record cell := mkCell { cell_text : string; left : Z; right : Z; top : Z; bottom : Z }.
(** a dialog with its only button; the number tells the dialogs apart *)
Record dialog := mkDialog { dialog_id : nat; dialog_title : string; dialog_body : string }.
Inductive callback := No_callback | Main_quit | About.
Record menu_entry := mkMenu {
  path : string;
  accelerator : option string;
  menu_callback : callback;
  item_type : option string }.

Record gui := mkGui {
  window_title : option string;
  menubar : list menu_entry;
  button : list (option string);
  table : list cell;
  dialogs : list dialog;
  made : nat;
  visible : bool }.

(** the start of [main]: [GtkWidget *button[16]] *)
Definition start_gui : gui := mkGui None [] (replicate 16 None) [] [] 0 false.

Definition set_window t (g : gui) : gui :=
  mkGui (Some t) (menubar g) (button g) (table g) (dialogs g) (made g) (visible g).
Definition set_menubar m (g : gui) : gui :=
  mkGui (window_title g) m (button g) (table g) (dialogs g) (made g) (visible g).
Definition set_button b (g : gui) : gui :=
  mkGui (window_title g) (menubar g) b (table g) (dialogs g) (made g) (visible g).
Definition attach c (g : gui) : gui :=
  mkGui (window_title g) (menubar g) (button g) (table g ++ [c]) (dialogs g) (made g) (visible g).
Definition set_dialogs d n (g : gui) : gui :=
  mkGui (window_title g) (menubar g) (button g) (table g) d n (visible g).
Definition set_visible v (g : gui) : gui :=
  mkGui (window_title g) (menubar g) (button g) (table g) (dialogs g) (made g) v.

(** ** Dialogs and menus *)
Definition show_dialog (title body : string) : M gui unit :=
  modify (λ g, set_dialogs (dialogs g ++ [mkDialog (made g) title body]) (S (made g)) g).
(** [gtk_widget_destroy(data)] *)
Definition dialog_close_cb (d : nat) : M gui unit :=
  modify (λ g, set_dialogs (filter (λ x, dialog_id x ≠ d) (dialogs g)) (made g) g).

Definition about_text : string := String.concat nl
  ["gFindChip 0.01"; "";
   "Copyright (c) 2000 Jonathan Hudson <jrhudson@bigfoot.com>,";
   "Copyright (c) 2000 Dag Brattli <dagb@cs.uit.no>,";
   "All Rights Reserved."; "";
   "This program is free software; you can redistribute it and/or modify";
   "it under the terms of the GNU General Public License as published by";
   "the Free Software Foundation; either version 2 of the License, or";
   "(at your option) any later version."; "";
   "This program is distributed in the hope that it will be useful,";
   "but WITHOUT ANY WARRANTY; without even the implied warranty of";
   "MERCHANTABILITY or FITNESS FOR A PARTICULAR PURPOSE.  See the";
   "GNU General Public License for more details."; "";
   "You should have received a copy of the GNU General Public License";
   "along with this program; if not, write to the Free Software";
   "Foundation, Inc., 59 Temple Place - Suite 330, Boston, MA 02111-1307,";
   "USA."].
Definition about : M gui unit := show_dialog "About gFindChip 0.01" about_text.

Definition menu_items : list menu_entry :=
  [mkMenu "/_File" None No_callback (Some "<Branch>");
   mkMenu "/File/Quit" (Some "<control>Q") Main_quit None;
   mkMenu "/_Help" None No_callback (Some "<LastBranch>");
   mkMenu "/_Help/About" None About None].
Definition get_main_menu : M gui unit := modify (set_menubar menu_items).

(** ** Labels *)
(** [button[n] = gtk_label_new(label)], and the label put in the table at [x], [y] *)
Definition put_label (n x y : Z) (label : string) : M gui unit :=
  b ← gets button;
  if (0 <=? n) && (n <? Z.of_nat (length b)) then
    modify (set_button (<[Z.to_nat n := Some label]> b));;
    modify (attach (mkCell label x (x + 1) y (y + 1)))
  else halt OobWrite.

Definition MakeResultLabel (i : Z) (label : string) : M gui unit :=
  let x := 2 * (Z.rem i 3) in
  let y := Z.quot i 3 in
  let n := i * 2 + 1 in
  put_label n (x + 1) y label.

Definition labels : list string :=
  ["Chip:"; "Model:"; "Version:"; "Control I/O:"; "SIR I/O:"; "FIR I/O:"; "IRQ:"; "DMA:"].
Fixpoint static_labels (i : Z) (l : list string) : M gui unit :=
  match l with
  | [] => mret tt
  | t :: l =>
      let x := 2 * (Z.rem i 3) in
      let y := Z.quot i 3 in
      let n := i * 2 in
      put_label n x y t;;
      static_labels (i + 1) l
  end.
Definition MakeStaticLabels : M gui unit := static_labels 0 labels.

(** ** The line of findchip *)
(** [strchr(s, c)]: what is before the character and what is after it *)
Fixpoint cut (c : ascii) (s : string) : option (string * string) :=
  match s with
  | EmptyString => None
  | String d t =>
      if Ascii.eqb d c then Some ("", t)
      else match cut c t with
           | None => None
           | Some (a, b) => Some (String d a, b)
           end
  end.

(** [for (i = 0, p1 = buf; (p2 = strchr(p1, ',')); i++)]: the number of the last field,
    and the field *)
Fixpoint field_loop (fuel : nat) (i : Z) (p1 : string) : M gui (Z * string) :=
  match fuel with
  | O => halt OutOfFuel
  | S fuel =>
      match cut "," p1 with
      | None => mret (i, p1)
      | Some (field, rest) =>
          when (negb (String.eqb field "")) (MakeResultLabel i field);;
          field_loop fuel (i + 1) rest
      end
  end.

(** [*p0 = 0], with [p0 = strchr(buf, '\n')], and the fields *)
Definition show_line (buf : string) : M gui Z :=
  match cut "010" buf with
  | None => halt NullDeref
  | Some (line, _) =>
      '(i, p1) ← field_loop (S (String.length line)) 0 line;
      when (negb (String.eqb p1 "")) (MakeResultLabel i p1);;
      mret i
  end.

(** what the user does while [gtk_main] runs *)
Inductive user_event :=
  | Select (item : nat)
  | Clicked (close : nat)
  | Destroyed.

(** [gtk_main]: the events up to the first that ends it; [false] while it waits for more *)
Fixpoint gtk_main (es : list user_event) : M gui bool :=
  match es with
  | [] => mret false
  | e :: es =>
      quit ← match e with
             | Destroyed => mret true
             | Clicked d => dialog_close_cb d;; mret false
             | Select k =>
                 match menu_callback <$> (menu_items !! k) with
                 | Some Main_quit => mret true
                 | Some About => about;; mret false
                 | _ => mret false
                 end
             end;
      if quit : bool then mret true else gtk_main es
  end.

(** [popened] is what the pipe gives, [None] where [popen] fails *)
Definition main (popened : option string) (es : list user_event) : M gui bool :=
  modify (set_window "gFindChip");;
  get_main_menu;;
  MakeStaticLabels;;
  i ← match popened with
      | None => mret 0
      | Some t =>
          match fgets 128 t with
          | None => mret 0
          | Some (buf, _) => show_line (c_str buf)
          end
      end;
  when (i =? 0) (show_dialog "gFindChip" "Unable to find any known IR chip");;
  modify (set_visible true);;
  gtk_main es.

(** ** What the window shows *)
(** the fields of a line, one after the other *)
Fixpoint label_fields (i : Z) (fs : list string) : M gui unit :=
  match fs with
  | [] => mret tt
  | f :: fs => when (negb (String.eqb f "")) (MakeResultLabel i f);; label_fields (i + 1) fs
  end.
(** three pairs of cells in a row: field [i] is at the right of its name *)
Definition name_cell (i : Z) (t : string) : cell :=
  mkCell t (2 * (i mod 3)) (2 * (i mod 3) + 1) (i / 3) (i / 3 + 1).
Definition value_cell (i : Z) (t : string) : cell :=
  mkCell t (2 * (i mod 3) + 1) (2 * (i mod 3) + 2) (i / 3) (i / 3 + 1).
Fixpoint value_cells (i : Z) (fs : list string) : list cell :=
  match fs with
  | [] => []
  | f :: fs => (if String.eqb f "" then [] else [value_cell i f]) ++ value_cells (i + 1) fs
  end.
Definition name_cells : list cell := imap (λ i t, name_cell (Z.of_nat i) t) labels.
(** a field holds no comma, and ends before a newline or a null character *)
Definition field_char (c : ascii) : bool :=
  not_nul c && not_newline c && negb (Ascii.eqb c ",").
Definition clean (f : string) : bool := str_all field_char f.
Definition line_of (fs : list string) : string := String.concat "," fs.

(** [g] with labels added *)
Definition labelled b cs (g : gui) : gui :=
  mkGui (window_title g) (menubar g) b (table g ++ cs) (dialogs g) (made g) (visible g).

Lemma put_label_ok n x y t g :
  0 ≤ n < Z.of_nat (length (button g)) →
  put_label n x y t g
  = Ok (tt, labelled (<[Z.to_nat n := Some t]> (button g)) [mkCell t x (x + 1) y (y + 1)] g).
Proof.
  intros Hn. unfold put_label. rewrite (bind_ok _ _ g (button g) g) by done.
  rewrite (proj2 (Z.leb_le 0 n)) by lia. rewrite (proj2 (Z.ltb_lt _ _)) by lia. done.
Qed.
Lemma put_label_stop n x y t g :
  Z.of_nat (length (button g)) ≤ n → put_label n x y t g = Stop OobWrite.
Proof.
  intros Hn. unfold put_label. rewrite (bind_ok _ _ g (button g) g) by done.
  rewrite (proj2 (Z.ltb_ge _ _)) by done. by rewrite andb_false_r.
Qed.

Lemma result_label_ok i t g :
  0 ≤ i < 8 → length (button g) = 16%nat →
  ∃ b, length b = 16%nat ∧ MakeResultLabel i t g = Ok (tt, labelled b [value_cell i t] g).
Proof.
  intros Hi Hb. unfold MakeResultLabel. eexists. split; cycle 1.
  - rewrite put_label_ok by lia. rewrite Z.rem_mod_nonneg, Z.quot_div_nonneg by lia.
    unfold value_cell. by rewrite <- Z.add_assoc.
  - by rewrite length_insert.
Qed.
Lemma result_label_stop i t g :
  8 ≤ i → length (button g) = 16%nat → MakeResultLabel i t g = Stop OobWrite.
Proof. intros Hi Hb. apply put_label_stop. lia. Qed.

Lemma labelled_labelled b cs b' cs' g : labelled b' cs' (labelled b cs g) = labelled b' (cs ++ cs') g.
Proof. unfold labelled. cbn. by rewrite app_assoc. Qed.
Lemma labelled_nil g : labelled (button g) [] g = g.
Proof. unfold labelled. rewrite app_nil_r. by destruct g. Qed.

Lemma label_fields_ok i fs g :
  0 ≤ i → i + Z.of_nat (length fs) ≤ 8 → length (button g) = 16%nat →
  ∃ b, length b = 16%nat ∧ label_fields i fs g = Ok (tt, labelled b (value_cells i fs) g).
Proof.
  revert i g. induction fs as [|f fs IH]; intros i g Hi Hl Hb.
  { exists (button g). by rewrite labelled_nil. }
  cbn [length] in Hl. cbn [label_fields value_cells]. destruct (String.eqb f ""); cbn [negb when app].
  - cbn [mbind M_bind mret M_ret]. apply IH; [lia..|done].
  - destruct (result_label_ok i f g) as (b & Hb1 & E); [lia|done|].
    erewrite bind_ok by exact E.
    destruct (IH (i + 1) (labelled b [value_cell i f] g)) as (b2 & Hb2 & E2); [lia..|done|].
    exists b2. split; [done|]. by rewrite E2, labelled_labelled.
Qed.

Lemma label_fields_app i l k g :
  label_fields i (l ++ k) g = (label_fields i l;; label_fields (i + Z.of_nat (length l)) k) g.
Proof.
  revert i g. induction l as [|f l IH]; intros i g; cbn [app length].
  { cbn. by rewrite Z.add_0_r. }
  cbn [label_fields]. rewrite bind_assoc. unfold mbind, M_bind.
  destruct (when _ _ g) as [[[] g1]|]; [|done]. rewrite IH.
  by replace (i + 1 + Z.of_nat (length l)) with (i + Z.of_nat (S (length l))) by lia.
Qed.

(** a ninth field is beyond the array *)
Lemma label_fields_stop l x k g :
  length l = 8%nat → x ≠ "" → length (button g) = 16%nat →
  label_fields 0 (l ++ x :: k) g = Stop OobWrite.
Proof.
  intros Hl Hx Hb. rewrite label_fields_app.
  destruct (label_fields_ok 0 l g) as (b & Hb1 & E); [lia..|done|].
  erewrite bind_ok by exact E. cbn [label_fields].
  apply String.eqb_neq in Hx. rewrite Hx. cbn [negb when].
  by rewrite (bind_stop _ _ _ OobWrite) by (apply result_label_stop; [lia|done]).
Qed.

Lemma cut_app c a b :
  str_all (λ x, negb (Ascii.eqb x c)) a = true → cut c (a +:+ String c b) = Some (a, b).
Proof.
  induction a as [|d a IH]; cbn [str_all]; intros H.
  - rewrite str_app_nil_l. cbn [cut]. by rewrite Ascii.eqb_refl.
  - apply andb_true_iff in H as [Hd Ha]. rewrite str_app_cons. cbn.
    apply negb_true_iff in Hd. by rewrite Hd, (IH Ha).
Qed.
Lemma cut_none c a : str_all (λ x, negb (Ascii.eqb x c)) a = true → cut c a = None.
Proof.
  induction a as [|d a IH]; cbn; [done|]. intros [Hd Ha]%andb_true_iff.
  apply negb_true_iff in Hd. by rewrite Hd, IH.
Qed.
Lemma str_all_impl (p q : ascii → bool) s :
  (∀ c, p c = true → q c = true) → str_all p s = true → str_all q s = true.
Proof. intros H. induction s; cbn; [done|]. rewrite !andb_true_iff. intros [Hc Hs]. auto. Qed.
Lemma clean_comma f : clean f = true → str_all (λ x, negb (Ascii.eqb x ",")) f = true.
Proof. apply str_all_impl. intros c. unfold field_char. intros H. by apply andb_true_iff in H as [_ ->]. Qed.

Lemma line_of_cons f fs : fs ≠ [] → line_of (f :: fs) = f +:+ "," +:+ line_of fs.
Proof. by destruct fs. Qed.

Lemma field_loop_fields fuel i f fs (k : Z * string → M gui Z) g :
  Forall (λ x, clean x = true) (f :: fs) → (length fs < fuel)%nat →
  ∃ l x, f :: fs = l ++ [x] ∧
    (field_loop fuel i (line_of (f :: fs)) ≫= k) g
    = (label_fields i l;; k (i + Z.of_nat (length fs), x)) g.
Proof.
  revert fuel i f g. induction fs as [|f2 fs IH]; intros fuel i f g Hc Hf.
  - exists [], f. split; [done|]. destruct fuel as [|fuel]; [lia|]. cbn [field_loop].
    pose proof (Forall_inv Hc) as Hc1. change (line_of [f]) with f. rewrite cut_none by by apply clean_comma.
    cbn [length label_fields]. by rewrite Z.add_0_r.
  - destruct fuel as [|fuel]; [lia|]. cbn [length] in Hf. pose proof (Forall_inv Hc) as Hc1. pose proof (Forall_inv_tail Hc) as Hc2. cbn in Hc1.
    destruct (IH fuel (i + 1) f2 g) as (l & x & Hx & _); [done|lia|].
    exists (f :: l), x. split; [by rewrite Hx|].
    rewrite line_of_cons by done. cbn [field_loop].
    change ("," +:+ line_of (f2 :: fs)) with (String "," (line_of (f2 :: fs))).
    rewrite cut_app by by apply clean_comma. cbn [label_fields].
    rewrite !bind_assoc. destruct (when (negb (String.eqb f "")) (MakeResultLabel i f) g)
      as [[[] g1]|] eqn:E; [|by rewrite !(bind_stop _ _ _ _ E)]. rewrite !(bind_ok _ _ _ _ _ E).
    destruct (IH fuel (i + 1) f2 g1) as (l' & x' & Hx' & ->); [done|lia|].
    rewrite Hx in Hx'. apply app_inj_tail in Hx' as [<- <-]. cbn [length].
    by replace (i + 1 + Z.of_nat (length fs)) with (i + Z.of_nat (S (length fs))) by lia.
Qed.

Lemma str_all_concat p f fs :
  p ","%char = true → Forall (λ x, str_all p x = true) (f :: fs) →
  str_all p (line_of (f :: fs)) = true.
Proof.
  intros Hp. revert f. induction fs as [|f2 fs IH]; intros f Hf.
  - exact (Forall_inv Hf).
  - rewrite line_of_cons by done. rewrite !str_all_app, (Forall_inv Hf), IH.
    + cbn. by rewrite Hp.
    + exact (Forall_inv_tail Hf).
Qed.
Lemma clean_line (p : ascii → bool) f fs :
  p ","%char = true → (∀ c, field_char c = true → p c = true) →
  Forall (λ x, clean x = true) (f :: fs) → str_all p (line_of (f :: fs)) = true.
Proof.
  intros Hp Hc Hf. apply str_all_concat; [done|]. eapply Forall_impl; [exact Hf|].
  intros x. by apply str_all_impl.
Qed.
Lemma field_chars c : field_char c = true → not_nul c = true ∧ not_newline c = true.
Proof. unfold field_char. rewrite !andb_true_iff. tauto. Qed.

Lemma line_length f fs : (length fs ≤ String.length (line_of (f :: fs)))%nat.
Proof.
  revert f. induction fs as [|f2 fs IH]; intros f; [cbn; lia|].
  rewrite line_of_cons by done. rewrite !str_length_app. specialize (IH f2). change (String.length ",") with 1%nat. cbn [length]. lia.
Qed.

Lemma show_line_fields f fs rest g :
  Forall (λ x, clean x = true) (f :: fs) →
  show_line (line_of (f :: fs) +:+ nl +:+ rest) g
  = (label_fields 0 (f :: fs);; mret (Z.of_nat (length fs))) g.
Proof.
  intros Hc. unfold show_line. change (nl +:+ rest) with (String "010" rest).
  rewrite cut_app by (apply clean_line; [done|intros c H; by apply field_chars|done]).
  set (k := λ '(i, p1), when (negb (String.eqb p1 "")) (MakeResultLabel i p1);; mret i).
  destruct (field_loop_fields (S (String.length (line_of (f :: fs)))) 0 f fs k g) as (l & x & E & H).
  { done. }
  { pose proof (line_length f fs). lia. }
  etransitivity; [exact H|].
  rewrite E. subst k. cbn beta iota.
  assert (Hl : length fs = length l).
  { apply (f_equal length) in E. rewrite length_app in E. cbn in E. lia. }
  unfold mbind at 3, M_bind at 3. rewrite label_fields_app. unfold mbind, M_bind.
  destruct (label_fields 0 l g) as [[[] g1]|]; [|done]. rewrite <- Hl. cbn [label_fields Z.add].
  unfold mbind, M_bind, mret, M_ret. by destruct (when _ _ g1) as [[[] g2]|].
Qed.

(** the window before the line is read *)
Lemma static_ok :
  ∃ b, length b = 16%nat ∧
    MakeStaticLabels (mkGui (Some "gFindChip") menu_items (replicate 16 None) [] [] 0 false)
    = Ok (tt, mkGui (Some "gFindChip") menu_items b name_cells [] 0 false).
Proof. eexists. split; cycle 1; [vm_compute; reflexivity|done]. Qed.

Lemma main_line f fs rest es :
  Forall (λ x, clean x = true) (f :: fs) → (String.length (line_of (f :: fs)) ≤ 126)%nat →
  ∃ b, length b = 16%nat ∧
    main (Some (line_of (f :: fs) +:+ nl +:+ rest)) es start_gui
    = (label_fields 0 (f :: fs);;
       when (Z.of_nat (length fs) =? 0) (show_dialog "gFindChip" "Unable to find any known IR chip");;
       modify (set_visible true);; gtk_main es)
        (mkGui (Some "gFindChip") menu_items b name_cells [] 0 false).
Proof.
  intros Hc Hl. destruct static_ok as (b & Hb & E). exists b. split; [done|].
  assert (Hn : ∀ c, field_char c = true → not_newline c = true) by (intros; by apply field_chars).
  assert (H0 : ∀ c, field_char c = true → not_nul c = true) by (intros; by apply field_chars).
  unfold main. rewrite fgets_whole by (try lia; by apply clean_line).
  rewrite c_str_all by (rewrite str_all_app, clean_line by done; done).
  rewrite <- (str_app_nil_r nl).
  transitivity ((MakeStaticLabels;;
      i ← show_line (line_of (f :: fs) +:+ nl +:+ "");
      when (i =? 0) (show_dialog "gFindChip" "Unable to find any known IR chip");;
      modify (set_visible true);; gtk_main es)
    (mkGui (Some "gFindChip") menu_items (replicate 16 None) [] [] 0 false)); [done|].
  rewrite (bind_ok _ _ _ _ _ E).
  set (g0 := mkGui (Some "gFindChip") menu_items b name_cells [] 0 false).
  pose proof (show_line_fields f fs "" g0 Hc) as Hs.
  destruct (label_fields 0 (f :: fs) g0) as [[[] g1]|w] eqn:El.
  - rewrite (bind_ok _ _ _ _ _ El) in Hs. by rewrite (bind_ok _ _ _ _ _ Hs), (bind_ok _ _ _ _ _ El).
  - rewrite (bind_stop _ _ _ _ El) in Hs. by rewrite (bind_stop _ _ _ _ Hs), (bind_stop _ _ _ _ El).
Qed.

(** C34: The window shows the fields of the first line that findchip prints: when there are at
    most eight of them (in at most 126 characters), each field that is not empty is put at
    the right of the name of its number, three pairs in a row; a line of a single field is
    also said to be no known chip, in a dialog.  The window then waits for the user. *)
Theorem gfindchip_shows f fs rest :
  Forall (λ x, clean x = true) (f :: fs) → (length fs < 8)%nat →
  (String.length (line_of (f :: fs)) ≤ 126)%nat →
  ∃ g, main (Some (line_of (f :: fs) +:+ nl +:+ rest)) [] start_gui = Ok (false, g) ∧
    table g = name_cells ++ value_cells 0 (f :: fs) ∧ visible g = true ∧
    menubar g = menu_items ∧
    dialogs g = (if decide (fs = []) then
                   [mkDialog 0 "gFindChip" "Unable to find any known IR chip"] else []).
Proof.
  intros Hc Hf Hl. destruct (main_line f fs rest [] Hc Hl) as (b & Hb & E).
  destruct (label_fields_ok 0 (f :: fs) (mkGui (Some "gFindChip") menu_items b name_cells [] 0 false))
    as (b2 & Hb2 & E2); [done|cbn [length]; lia|done|].
  rewrite (bind_ok _ _ _ _ _ E2) in E. rewrite E. destruct fs; by eexists.
Qed.

(** ** It ends on any text *)
Lemma cut_length c s a b : cut c s = Some (a, b) → (String.length b < String.length s)%nat.
Proof.
  revert a. induction s as [|d s IH]; intros a; [done|]. cbn [cut String.length].
  destruct (Ascii.eqb d c); [intros [= _ ->]; lia|].
  destruct (cut c s) as [[a' b']|]; [|done]. intros [= _ <-].
  specialize (IH a' eq_refl). lia.
Qed.
Lemma put_label_ends n x y t g : put_label n x y t g ≠ Stop OutOfFuel.
Proof. unfold put_label, mbind, M_bind. cbn [gets]. by destruct (_ && _). Qed.
Lemma field_ends b i t g : when b (MakeResultLabel i t) g ≠ Stop OutOfFuel.
Proof. destruct b; [apply put_label_ends|done]. Qed.
Lemma field_loop_ends fuel i p1 g :
  (String.length p1 < fuel)%nat → field_loop fuel i p1 g ≠ Stop OutOfFuel.
Proof.
  revert i p1 g. induction fuel as [|fuel IH]; intros i p1 g Hf; [lia|]. cbn [field_loop].
  destruct (cut "," p1) as [[field rest]|] eqn:E; [|done]. apply cut_length in E.
  unfold mbind at 1, M_bind at 1. pose proof (field_ends (negb (String.eqb field "")) i field g) as H.
  destruct (when _ _ g) as [[[] g1]|w]; [apply IH; lia|congruence].
Qed.
Lemma show_line_ends buf g : show_line buf g ≠ Stop OutOfFuel.
Proof.
  unfold show_line. destruct (cut _ buf) as [[line rest]|]; [|done].
  unfold mbind at 1, M_bind at 1.
  pose proof (field_loop_ends (S (String.length line)) 0 line g ltac:(lia)) as H.
  destruct (field_loop _ 0 line g) as [[[i p1] g1]|w]; [|congruence].
  unfold mbind, M_bind. pose proof (field_ends (negb (String.eqb p1 "")) i p1 g1) as H1.
  destruct (when _ _ g1) as [[[] g2]|w]; [done|congruence].
Qed.
Lemma gtk_main_ends es g : gtk_main es g ≠ Stop OutOfFuel.
Proof.
  revert g. induction es as [|e es IH]; intros g; [done|].
  destruct e as [k|d|]; cbn [gtk_main]; [|apply IH|done].
  destruct (menu_callback <$> menu_items !! k) as [[]|]; [apply IH|done|apply IH|apply IH].
Qed.

(** whatever the pipe gives and the user does, the program does not loop on the text; what
    it writes beyond its array, or through a null pointer, is the only other way to stop *)
Theorem gfindchip_ends out es : main out es start_gui ≠ Stop OutOfFuel.
Proof.
  destruct static_ok as (b & _ & E). unfold main.
  match goal with |- (_ ≫= λ _, get_main_menu ≫= λ _, MakeStaticLabels ≫= ?k) _ ≠ _ =>
    change ((MakeStaticLabels ≫= k)
      (mkGui (Some "gFindChip") menu_items (replicate 16 None) [] [] 0 false) ≠ Stop OutOfFuel) end.
  rewrite (bind_ok _ _ _ _ _ E).
  set (g0 := mkGui _ _ b _ _ _ _).
  match goal with |- (?m ≫= ?k) g0 ≠ _ => assert (Hm : m g0 ≠ Stop OutOfFuel) end.
  { destruct out as [t|]; [|done]. destruct (fgets 128 t) as [[buf r]|]; [apply show_line_ends|done]. }
  unfold mbind at 1, M_bind at 1. match goal with |- match ?r with _ => _ end ≠ _ => destruct r as [[i g1]|w] end;
    [|congruence].
  destruct (i =? 0); apply gtk_main_ends.
Qed.

(** ** The fields of a chip *)
Definition info_fields (i : chip_info) : list string :=
  let x v := "0x" +:+ fmt_x (u32 v) in
  [manufacturer i; info_name i; fmt_d (chip_id i) +:+ "." +:+ fmt_d (revision i);
   x (cfg_base i); x (sir_base i); x (fir_base i); fmt_d (irq i); fmt_d (dma i);
   fmt_d (enabled i); fmt_d (suspended i); fmt_d (uart_comp i)].

Lemma info_text_fields i : info_text false i = line_of (info_fields i) +:+ nl.
Proof.
  unfold info_text, info_fields. cbn [line_of String.concat].
  repeat (rewrite str_app_assoc || unfold line_of || rewrite !line_of_cons by done). done.
Qed.

Lemma clean_app a b : clean (a +:+ b) = clean a && clean b.
Proof. apply str_all_app. Qed.
Lemma digit_clean d : 0 ≤ d < 16 → field_char (digit d) = true.
Proof.
  intros Hd. pose proof (byte_forall (λ b, (16 <=? b) || field_char (digit b))) as H.
  specialize (H ltac:(by vm_compute) d). unfold is_byte in H.
  rewrite orb_true_iff, Z.leb_le in H. destruct H; [lia|lia|done].
Qed.
Lemma fmt_base_clean base n : 0 < base ≤ 16 → clean (fmt_base base n) = true.
Proof.
  intros Hb. apply digits_all; [lia| |done]. intros d Hd. apply digit_clean. lia.
Qed.
Lemma fmt_d_clean n : clean (fmt_d n) = true.
Proof.
  unfold fmt_d. destruct (n <? 0); [|by apply fmt_base_clean].
  by rewrite clean_app, (fmt_base_clean 10 (- n)).
Qed.
Lemma fmt_d_some n : fmt_d n ≠ "".
Proof.
  unfold fmt_d. destruct (Z.ltb_spec n 0); [done|]. intros E.
  destruct (decide (n = 0)) as [->|]; [done|].
  destruct (fmt_base_head 10 n) as (d & t & E2 & _); [lia|lia|]. by rewrite E in E2.
Qed.

Lemma info_fields_clean i :
  clean (manufacturer i) = true → clean (info_name i) = true →
  Forall (λ x, clean x = true) (info_fields i).
Proof.
  intros Hm Hn. unfold info_fields.
  assert (Hx : ∀ v, clean ("0x" +:+ fmt_x (u32 v)) = true).
  { intros v. rewrite clean_app. by apply fmt_base_clean. }
  assert (Hr : clean (fmt_d (chip_id i) +:+ "." +:+ fmt_d (revision i)) = true).
  { by rewrite !clean_app, !fmt_d_clean. }
  repeat constructor; auto using fmt_d_clean.
Qed.

(** C35: The line of information that findchip prints for a chip has eleven fields, and the array of the
    labels has room for eight: when this line is the first that gfindchip reads, gfindchip writes
    beyond its array, whatever the numbers in it, provided that it fits the buffer (127
    characters with its newline) and that the names of the maker and of the chip
    have no comma, newline or NUL.  (For a chip in legacy mode findchip prints a register first: then
    that line is the one that is read.) *)
Theorem gfindchip_overflow i rest es :
  clean (manufacturer i) = true → clean (info_name i) = true →
  (String.length (info_text false i) ≤ 127)%nat →
  main (Some (info_text false i +:+ rest)) es start_gui = Stop OobWrite.
Proof.
  intros Hm Hn Hl. pose proof (info_fields_clean i Hm Hn) as Hc.
  rewrite info_text_fields, str_length_app in Hl. rewrite info_text_fields, str_app_assoc.
  change (String.length nl) with 1%nat in Hl.
  destruct (main_line _ _ rest es Hc) as (b & Hb & E); [unfold info_fields in *; lia|].
  etransitivity; [exact E|]. apply bind_stop.
  apply (label_fields_stop (take 8 (info_fields i))); [done|apply fmt_d_some|exact Hb].
Qed.

(** ** Examples *)
Definition smc_board : chip := mkChip 0x3f0 false 0 smc_669_regs.
(** the same PC87338 as in FindNsc, in legacy mode *)
Definition legacy_board : chip :=
  mkChip 0x2e true 0 (λ r, if r =? CFG_PNP0 then 0 else if r =? CFG_FAR then 0x10 else nsc_338_regs r).
Definition smc_info : chip_info :=
  mkInfo "SMC" "FDC37C669" 15 255 0x3f0 0x2f8 0x130 3 1 1 128 0 0.

(** findchip on a board with a chip, and the window on what it prints: the array is
    overflowed; on a chip in legacy mode, findchip first prints a register, which is shown as the name of a chip
    that is said not to be known; a line that does not fit has no newline in the buffer *)
Example gfindchip_examples :
  (∃ s, findchip stack_info false [] [] (start_io smc_board) = Ok (0, s) ∧
     main (Some (io_out s)) [] start_gui = Stop OobWrite) ∧
  (∃ s g, findchip stack_info false [] [] (start_io legacy_board) = Ok (0, s) ∧
     main (Some (io_out s)) [] start_gui = Ok (false, g) ∧
     table g = name_cells ++ [value_cell 0 "reg=0x010"] ∧
     dialogs g = [mkDialog 0 "gFindChip" "Unable to find any known IR chip"]) ∧
  main (Some (String.concat "" (replicate 100 "ab"))) [] start_gui = Stop NullDeref ∧
  (∃ g, main None [Select 3; Clicked 0; Clicked 1; Select 1; Destroyed] start_gui = Ok (true, g) ∧
     dialogs g = []).
Proof.
  split; [|split; [|split]].
  - eexists. split; vm_compute; reflexivity.
  - eexists _, _. split; [vm_compute; reflexivity|]. split; [vm_compute; reflexivity|]. by vm_compute.
  - by vm_compute.
  - eexists. split; vm_compute; reflexivity.
Qed.

Lemma gfindchip_shows_witness :
  ∃ g, main (Some (line_of ["NSC"; "PC87108"; ""; "0x398"] +:+ nl +:+ "")) [] start_gui
      = Ok (false, g) ∧
    table g = name_cells ++ [value_cell 0 "NSC"; value_cell 1 "PC87108"; value_cell 3 "0x398"] ∧
    dialogs g = [].
Proof.
  destruct (gfindchip_shows "NSC" ["PC87108"; ""; "0x398"] "") as (g & H1 & H2 & _ & _ & H3).
  - by repeat constructor.
  - cbn. lia.
  - vm_compute. lia.
  - exists g. split; [exact H1|]. split; [exact H2|exact H3].
Defined.

Lemma gfindchip_overflow_witness :
  (∃ s, findchip stack_info false [] [] (start_io smc_board) = Ok (0, s) ∧
     io_out s = info_text false smc_info +:+ "") ∧
  main (Some (info_text false smc_info +:+ "")) [] start_gui = Stop OobWrite.
Proof.
  split; [eexists; split; vm_compute; reflexivity|].
  apply gfindchip_overflow; [reflexivity|reflexivity|vm_compute; lia].
Defined.
