(* ===== verification/SmcInit.v ===== *)
(** * smcinit: set-up of the SMSC LPC47N2xx (smcinit/smcinit.c) *)
From Stdlib Require Import String Ascii.
From S2P Require Import Prelude CInt Printf CLib PortIO.
Local Open Scope string_scope.
Local Open Scope list_scope.
Local Open Scope Z_scope.

Definition PROGNAME := "smcinit".
Definition AUTHOR := "Thomas Pinz".
Definition AUTHOR_EMAIL := "<tom_p (at) gmx.net>".
Definition SIR_IO := 0x3f8.
Definition FIR_IO := 0x130.
Definition FIR_IRQ := 3.
Definition FIR_DMA := 3.
Definition BUS_LPC := 0x00.
Definition LPC_DEV := 0x1f.
Definition LPC_FUNC := 0x00.
Definition VID := 0x00.
Definition DID := 0x02.
Definition PCI_DMA_C := 0x90.
Definition COM_DEC := 0xe0.
Definition LPC_EN := 0xe6.
Definition GEN2_DEC := 0xec.
Definition possible_cfgbase : list Z := [0x2e; 0x4e].

(** the table of the options: name, with an argument or not, letter, help *)
Definition options : list (string * bool * string * string) := [
  ("version", false, "V", tab +:+ tab +:+ tab +:+ "show program version");
  ("help", false, "h", tab +:+ tab +:+ tab +:+ "show this help");
  ("verbose", false, "v", tab +:+ tab +:+ tab +:+ "be verbose, show the compiled-in settings.");
  ("sirio", true, "s", tab +:+ tab +:+ "set the SIR I/O port");
  ("firio", true, "f", tab +:+ tab +:+ "set the FIR I/O port");
  ("firirq", true, "i", tab +:+ tab +:+ "set the FIR IRQ line");
  ("firdma", true, "d", tab +:+ tab +:+ "set the FIR DMA channel");
  ("tty", true, "t", tab +:+ tab +:+ "specify the serial tty to unbind from serial driver")].

(** the variables of [main]; the device name is the argument, however long *)
Record smc_args := mkArgs {
  verbose : bool;
  sir_io : Z;
  fir_io : Z;
  fir_irq : Z;
  fir_dma : Z;
  tty_device : string }.

Definition default_args : smc_args := mkArgs false SIR_IO FIR_IO FIR_IRQ FIR_DMA "".

(** what the serial driver answers to [unbind_from_serial] *)
Record serial := mkSerial {
  can_open : bool;
  can_get : bool;
  can_set : bool }.

Section smcinit.
Context {D : Type} `{!PortDev D} `{!PciDev D}.
(** the version number that the build puts into config.h *)
Variable VERSION : string.
Variable ulong_max : Z.
Variable uid : Z.
Variable tty : serial.
(** [ret_val], which has no initial value *)
Variable ret_junk : Z.

Definition print_version : M (io D) unit := printf (PROGNAME +:+ " " +:+ VERSION +:+ nl).

Fixpoint print_options (os : list (string * bool * string * string)) : M (io D) unit :=
  match os with
  | [] => mret tt
  | (name, arg, c, help) :: os =>
      printf ("-" +:+ c +:+ ", --" +:+ name +:+ (if arg : bool then "=VALUE" else ""));;
      printf (help +:+ nl);;
      print_options os
  end.

Definition print_usage : M (io D) unit :=
  printf (PROGNAME +:+ " " +:+ VERSION +:+ " " +:+ AUTHOR +:+ nl +:+ "Usage: " +:+ PROGNAME
    +:+ " [options]" +:+ nl +:+ "Options:" +:+ nl);;
  print_options options;;
  printf ("Report suggestions and bugs to: " +:+ AUTHOR +:+ " " +:+ AUTHOR_EMAIL +:+ nl).

Definition print_settings (a : smc_args) : M (io D) unit :=
  print_version;;
  printf nl;;
  printf ("SIR ioport: 0x" +:+ fmt_x (sir_io a) +:+ nl);;
  printf ("FIR ioport: 0x" +:+ fmt_x (fir_io a) +:+ nl);;
  printf ("FIR interupt: " +:+ fmt_d (s32 (fir_irq a)) +:+ nl);;
  printf ("FIR DMA: " +:+ fmt_d (s32 (fir_dma a)) +:+ nl);;
  printf nl.

Definition die {A} (message : string) : M (io D) A :=
  eprintf (PROGNAME +:+ ": " +:+ message +:+ nl);;
  halt (Exited 1).

Definition unbind_from_serial : M (io D) Z :=
  if negb (can_open tty) then halt (Exited 201)
  else if negb (can_get tty) then halt (Exited 1)
  else if negb (can_set tty) then halt (Exited 1)
  else mret 0.

(** ** [set_smc] *)

(** the bridge: is it a known one, and its decoding of the serial ports and DMA *)
Definition lpc : pci_addr := mkPci BUS_LPC LPC_DEV LPC_FUNC.
Definition set_bridge (verbose : bool) : M (io D) bool :=
  vid ← pci_read_word lpc VID;
  if negb (vid =? 0x8086) then
    eprintf (PROGNAME +:+ " IO hub vendor " +:+ fmt_x vid +:+ " not intel (0x8086)" +:+ nl);;
    mret false
  else
    when verbose (printf ("Detected IO hub vendor id: 0x" +:+ fmt_x vid +:+ nl));;
    did ← pci_read_word lpc DID;
    if negb (did =? 0x24cc) && negb (did =? 0x248c) then
      eprintf (PROGNAME +:+ " IO hub device " +:+ fmt_x did
        +:+ " not 82801CAM (0x248c or 0x24cc)" +:+ nl);;
      mret false
    else
      when verbose (printf ("Detected IO hub device id: 0x" +:+ fmt_x did +:+ nl));;
      pci_write_byte lpc COM_DEC 0x10;;
      twobyte ← pci_read_word lpc LPC_EN;
      pci_write_word lpc LPC_EN (Z.lor (Z.land twobyte 0xfffd) 0x0001);;
      _ ← pci_read_word lpc PCI_DMA_C;
      pci_write_word lpc PCI_DMA_C 0xc0c0;;
      pci_write_word lpc GEN2_DEC 0x131;;
      mret true.

(** the search for the configuration port; [i] is the last identification read *)
Fixpoint find_base (bases : list Z) (i : Z) : M (io D) (option Z * Z) :=
  match bases with
  | [] => mret (None, i)
  | b :: bases =>
      outb 0x55 b;;
      outb 0x0d b;;
      i ← inb (b + 1);
      if (i =? 0x5a) || (i =? 0x7a) then mret (Some b, i) else find_base bases i
  end.

(** a register is written and read back: the name and the format of the messages *)
Definition read_back (verbose : bool) (base v : Z) (what : string) (text : Z → string)
    : M (io D) bool :=
  i ← inb (base + 1);
  when verbose (printf (what +:+ tab +:+ " write: 0x" +:+ text v +:+ " " +:+ tab
    +:+ " read: 0x" +:+ text i +:+ " " +:+ nl));;
  mret (i =? v).

Definition sorry (what : string) : M (io D) Z :=
  eprintf ("Sorry, " +:+ what +:+ " could not be written. " +:+ nl);;
  mret 1.

(** [outb(r, base); i = inb(base + 1); outb(f(i), base + 1)] *)
Definition change_reg (base r : Z) (f : Z → Z) : M (io D) unit :=
  outb r base;;
  i ← inb (base + 1);
  outb (f i) (base + 1).

Definition last_settings (base : Z) : M (io D) unit :=
  change_reg base 0x0C (λ i, Z.lor (Z.land i 0xC7) 0x88);;
  change_reg base 0x07 (λ i, Z.lor i 0x20);;
  change_reg base 0x0a (λ i, Z.lor i 0x40);;
  change_reg base 0x02 (λ _, 0x80);;
  change_reg base 0x00 (λ i, Z.lor i 0x80).

(** the registers of the chip found at [base] *)
Definition program_smc (base sir_io fir_io fir_irq fir_dma : Z) (verbose : bool)
    : M (io D) Z :=
  let local_sir_io := Z.shiftr (Z.land sir_io 0xFF8) 2 in
  let local_fir_io := Z.shiftr (Z.land fir_io 0xFF8) 3 in
  outb 0x24 base;;
  outb 0x00 (base + 1);;
  outb 0x25 base;;
  outb local_sir_io (base + 1);;
  ok ← read_back verbose base local_sir_io "SIR ioport register " fmt_x;
  if negb ok then sorry "SIR ioport"
  else
    outb 0x28 base;;
    i ← inb (base + 1);
    outb (Z.lor (Z.land i 0x00) fir_irq) (base + 1);;
    ok ← read_back verbose base fir_irq "FIR interrupt register" fmt_d;
    if negb ok then sorry "FIR interrupt"
    else
      outb 0x2B base;;
      outb local_fir_io (base + 1);;
      ok ← read_back verbose base local_fir_io "FIR ioport register" fmt_x;
      if negb ok then sorry "FIR ioport"
      else
        outb 0x2C base;;
        outb fir_dma (base + 1);;
        ok ← read_back verbose base fir_dma "FIR dma register" (λ v, fmt_x (u32 v));
        if negb ok then sorry "FIR dma"
        else
          last_settings base;;
          outb 0xaa base;;
          when verbose (printf nl;;
            printf ("Initialization of the SMC 47Nxxx succeeded" +:+ nl));;
          mret 0.

Definition set_smc (a : smc_args) : M (io D) Z :=
  if negb (uid =? 0) then
    eprintf (PROGNAME +:+ " can only be used by root" +:+ nl);; halt (Exited 1)
  else
    known ← set_bridge (verbose a);
    if negb known then mret 1
    else
      r ← find_base possible_cfgbase 0;
      match r with
      | (Some base, i) =>
          when (verbose a) (
            printf ("Detected smc_base: 0x" +:+ fmt_x base +:+ " " +:+ nl +:+ " " +:+ nl);;
            printf ("Detected Chip id: 0x" +:+ fmt_x i +:+ " " +:+ nl +:+ " " +:+ nl));;
          program_smc base (s32 (sir_io a)) (s32 (fir_io a)) (s32 (fir_irq a))
            (s32 (fir_dma a)) (verbose a)
      | (None, i) =>
          eprintf (PROGNAME +:+ " id:" +:+ fmt_x i
            +:+ " not SMC 47Nxxx (should be 0x5a or 0x7a)" +:+ nl);;
          mret 1
      end.

(** ** [main] *)
Definition number (optarg what : string) : M (io D) Z :=
  let '(v, rest) := strtoul ulong_max optarg in
  if (match optarg with EmptyString => true | _ => false end)
     || (match rest with EmptyString => false | _ => true end)
  then die ("Cannot convert " +:+ what +:+ " to number")
  else mret (u32 v).

Definition option_case (c : ascii) (optarg : string) (a : smc_args) : M (io D) smc_args :=
  if Ascii.eqb c "V" then print_version;; halt (Exited 0)
  else if Ascii.eqb c "h" then print_usage;; halt (Exited 0)
  else if Ascii.eqb c "v" then
    mret (mkArgs true (sir_io a) (fir_io a) (fir_irq a) (fir_dma a) (tty_device a))
  else if Ascii.eqb c "t" then
    mret (mkArgs (verbose a) (sir_io a) (fir_io a) (fir_irq a) (fir_dma a) optarg)
  else if Ascii.eqb c "s" then
    n ← number optarg "SIR I/O";
    mret (mkArgs (verbose a) n (fir_io a) (fir_irq a) (fir_dma a) (tty_device a))
  else if Ascii.eqb c "f" then
    n ← number optarg "FIR I/O";
    mret (mkArgs (verbose a) (sir_io a) n (fir_irq a) (fir_dma a) (tty_device a))
  else if Ascii.eqb c "i" then
    n ← number optarg "FIR IRQ";
    mret (mkArgs (verbose a) (sir_io a) (fir_io a) n (fir_dma a) (tty_device a))
  else if Ascii.eqb c "d" then
    n ← number optarg "FIR DMA";
    mret (mkArgs (verbose a) (sir_io a) (fir_io a) (fir_irq a) n (tty_device a))
  else mret a.

Fixpoint parse_args (l : list (ascii * string)) (a : smc_args) : M (io D) smc_args :=
  match l with
  | [] => mret a
  | (c, optarg) :: l => a ← option_case c optarg a; parse_args l a
  end.

Definition smcinit (l : list (ascii * string)) : M (io D) Z :=
  a ← parse_args l default_args;
  when (verbose a) (print_settings a);;
  ret_val ← (match tty_device a with
             | EmptyString => mret ret_junk
             | _ => unbind_from_serial
             end);
  r ← set_smc a;
  mret (s32 (ret_val + r)).
End smcinit.

(** ** The registers of the chip *)
Section program.
Context {D : Type} `{!PortDev D} (base : Z) (keys : list Z) (latch : Z → Z → Z → Z)
  `{!ConfigPort D base (base + 1) keys latch}.
Hypothesis base_ok : 0 ≤ base < 65535.
Hypothesis no_keys : ∀ r, r < 0x30 → r ∉ keys.
(** the registers keep what is written to them *)
Hypothesis keep : ∀ r old v, latch r old v = v.
#[local] Abbreviation conf := (configured base (base + 1) keys latch).

Ltac smc := cfg_step base (base + 1) keys latch ltac:(by apply no_keys).

Lemma read_back_ok {B} r v what text (k : bool → M (io D) B) R s :
  at_reg base (base + 1) keys latch r R s →
  ∃ s', conf R s' ∧ same_text s s' ∧
    (read_back false base v what text ≫= k) s = k (R r =? v) s'.
Proof.
  intros H. unfold read_back. rewrite bind_assoc.
  destruct (read_reg base (base + 1) keys latch ltac:(lia) r
    (λ i, (when false (printf (what +:+ tab +:+ " write: 0x" +:+ text v +:+ " " +:+ tab
      +:+ " read: 0x" +:+ text i +:+ " " +:+ nl));; mret (i =? v)) ≫= k) R s H)
    as (s2 & H2 & T2 & ->).
  exists s2. split; [by eapply at_configured|done].
Qed.

Lemma change_reg_ok r f R s :
  conf R s → is_byte r → r ∉ keys →
  ∃ s', change_reg base r f s = Ok (tt, s') ∧ conf (with_reg r (u8 (f (R r))) R) s' ∧
    same_text s s'.
Proof.
  intros Hc Hr Hk.
  destruct (change_step base (base + 1) keys latch ltac:(lia) ltac:(lia) keep r f
    (λ _, mret tt) R s Hc Hr Hk) as (s1 & C1 & T1 & E).
  exists s1. split; [|by split]. change (change_at base (base + 1) r f s = Ok (tt, s1)).
  unfold mbind, M_bind in E. destruct (change_at _ _ _ _ s) as [[[] ?]|]; [exact E|done].
Qed.

(** write a register and read it back: what it takes is a byte *)
Lemma write_checked {B} r v what text (k : bool → M (io D) B) R s :
  conf R s → is_byte r → r ∉ keys →
  ∃ s', conf (with_reg r (u8 v) R) s' ∧ same_text s s' ∧
    (outb r base;; outb v (base + 1);; read_back false base v what text ≫= k) s
    = k (u8 v =? v) s'.
Proof.
  intros Hc Hr Hk.
  destruct (set_reg_step base (base + 1) keys latch ltac:(lia) ltac:(lia) keep r v (λ _, read_back false base v what text ≫= k)
    R s Hc Hr Hk)
    as (s1 & H1 & T1 & ->).
  destruct (read_back_ok r v what text k _ s1 H1) as (s2 & H2 & T2 & ->).
  exists s2. split; [done|]. split; [by eapply same_text_trans|].
  assert (with_reg r (u8 v) R r = u8 v) as -> by (unfold with_reg; by rewrite Z.eqb_refl).
  done.
Qed.

(** the registers after a successful set-up *)
Definition smc_regs (sir fir irq dma : Z) (R : Z → Z) : Z → Z :=
  let R := with_reg 0x2C dma (with_reg 0x2B fir (with_reg 0x28 irq
    (with_reg 0x25 sir (with_reg 0x24 0 R)))) in
  let R := with_reg 0x0C (u8 (Z.lor (Z.land (R 0x0C) 0xC7) 0x88)) R in
  let R := with_reg 0x07 (u8 (Z.lor (R 0x07) 0x20)) R in
  let R := with_reg 0x0a (u8 (Z.lor (R 0x0a) 0x40)) R in
  let R := with_reg 0x02 0x80 R in
  with_reg 0x00 (u8 (Z.lor (R 0x00) 0x80)) R.

Lemma last_settings_ok R s :
  conf R s →
  ∃ s', last_settings base s = Ok (tt, s') ∧
    conf (let R := with_reg 0x0C (u8 (Z.lor (Z.land (R 0x0C) 0xC7) 0x88)) R in
          let R := with_reg 0x07 (u8 (Z.lor (R 0x07) 0x20)) R in
          let R := with_reg 0x0a (u8 (Z.lor (R 0x0a) 0x40)) R in
          let R := with_reg 0x02 0x80 R in
          with_reg 0x00 (u8 (Z.lor (R 0x00) 0x80)) R) s' ∧ same_text s s'.
Proof.
  intros Hc. unfold last_settings.
  destruct (change_reg_ok 0x0C (λ i, Z.lor (Z.land i 0xC7) 0x88) R s Hc)
    as (s1 & E1 & C1 & T1); [done|by apply no_keys|]. erewrite bind_ok by exact E1.
  edestruct (change_reg_ok 0x07 (λ i, Z.lor i 0x20)) as (s2 & E2 & C2 & T2);
    [exact C1|done|by apply no_keys|]. erewrite bind_ok by exact E2.
  edestruct (change_reg_ok 0x0a (λ i, Z.lor i 0x40)) as (s3 & E3 & C3 & T3);
    [exact C2|done|by apply no_keys|]. erewrite bind_ok by exact E3.
  edestruct (change_reg_ok 0x02 (λ _, 0x80)) as (s4 & E4 & C4 & T4);
    [exact C3|done|by apply no_keys|]. erewrite bind_ok by exact E4.
  edestruct (change_reg_ok 0x00 (λ i, Z.lor i 0x80)) as (s5 & E5 & C5 & T5);
    [exact C4|done|by apply no_keys|].
  exists s5. split; [exact E5|]. split; [exact C5|].
  repeat split; cfg_text.
Qed.

Lemma port_fields k : 0 ≤ k < 256 →
  Z.shiftr (Z.land (8 * k) 0xFF8) 2 = 2 * k ∧ Z.shiftr (Z.land (8 * k) 0xFF8) 3 = k.
Proof.
  intros Hk. change (is_byte k) in Hk.
  split; revert k Hk;
    [apply (byte_eq (λ k, Z.shiftr (Z.land (8 * k) 0xFF8) 2) (λ k, 2 * k))
    |apply (byte_eq (λ k, Z.shiftr (Z.land (8 * k) 0xFF8) 3) (λ k, k))]; by vm_compute.
Qed.

Ltac checked H s1 C1 T1 :=
  match type of H with
  | configured _ _ _ _ ?R ?s =>
      match goal with
      | |- context [(outb ?r base ≫= λ _, outb ?v (base + 1) ≫= λ _,
            read_back false base ?v ?what ?text ≫= ?k) s] =>
          destruct (write_checked r v what text k R s H) as (s1 & C1 & T1 & ->);
          [done|by apply no_keys|]
      end
  end.

(** on a chip that keeps what is written to it, the set-up succeeds for
    every SIR port below 0x400 and FIR port below 0x800 that are multiples of 8, and
    every interrupt and channel that fit in a byte; the registers then hold those
    settings (the ports divided by 4 and by 8), the first UART is off, the mode
    bits are set and every other register and bit is as it was; and the
    configuration state is left. *)
Theorem program_smc_ok i j irq dma R (s : io D) :
  conf R s → 0 ≤ i < 128 → 0 ≤ j < 256 → is_byte irq → is_byte dma →
  ∃ s1 s', program_smc base (8 * i) (8 * j) irq dma false s = Ok (0, s') ∧
    conf (smc_regs (2 * i) j irq dma R) s1 ∧ dev s' = dev_out 0xaa base (dev s1) ∧
    same_text s s'.
Proof.
  intros Hc Hi Hj Hq Hd. unfold program_smc.
  destruct (port_fields i) as [-> _]; [lia|]. destruct (port_fields j) as [_ ->]; [lia|].
  cbv zeta.
  set_reg base (base + 1) keys latch keep ltac:(by apply no_keys) Hc s1 C1 T1. checked C1 s2 C2 T2.
  rewrite (u8_small (2 * i)), Z.eqb_refl by lia. cbn [negb].
  smc. smc.
  match goal with
  | H : at_reg _ _ _ _ 0x28 ?R2 ?s2 |- context [(outb ?v (base + 1) ≫= ?k) ?s2] =>
      destruct (write_keep base (base + 1) keys latch ltac:(lia) keep v 0x28 k R2 s2 H) as (s4 & H4 & T4 & ->)
  end.
  rewrite Z.land_0_r, Z.lor_0_l, (u8_small irq) in * by done.
  match goal with
  | |- context [(read_back false base irq ?w ?t ≫= ?k) s4] =>
      destruct (read_back_ok 0x28 irq w t k _ s4 H4) as (s5 & C5 & T5 & ->)
  end.
  unfold with_reg at 1. rewrite !Z.eqb_refl. cbn [negb].
  checked C5 s6 C6 T6. rewrite (u8_small j), Z.eqb_refl in * by lia. cbn [negb].
  checked C6 s7 C7 T7. rewrite (u8_small dma), Z.eqb_refl in * by done. cbn [negb].
  destruct (last_settings_ok _ s7 C7) as (s8 & E8 & C8 & T8).
  erewrite bind_ok by exact E8. rewrite (u8_small (2 * i)) in C8 by lia.
  exists s8. eexists. split; [reflexivity|]. split; [exact C8|]. split; [|repeat split; simpl; cfg_text].
  simpl. by rewrite u16_small by lia.
Qed.
End program.

(** ** Refusals *)
Section refusal.
Context {D : Type} `{!PortDev D} (base : Z) (keys : list Z) (latch : Z → Z → Z → Z)
  `{!ConfigPort D base (base + 1) keys latch}.
Hypothesis base_ok : 0 ≤ base < 65535.
Hypothesis no_keys : ∀ r, r < 0x30 → r ∉ keys.
#[local] Abbreviation conf := (configured base (base + 1) keys latch).

Definition ports_12 : list Z := Z.of_nat <$> seq 0 4096.
Lemma port_too_high sir : 0x400 ≤ sir < 0x1000 → 256 ≤ Z.shiftr (Z.land sir 0xFF8) 2.
Proof.
  intros Hs.
  assert (H : forallb (λ x, (x <? 0x400) || (256 <=? Z.shiftr (Z.land x 0xFF8) 2)) ports_12 = true)
    by by vm_compute.
  rewrite forallb_forall in H. specialize (H sir). rewrite orb_true_iff, Z.ltb_lt, Z.leb_le in H.
  destruct H; try lia. apply list_elem_of_In. unfold ports_12. apply list_elem_of_fmap.
  exists (Z.to_nat sir). rewrite elem_of_seq. lia.
Qed.

(** whatever the chip keeps, a SIR port of 0x400 or more (CR25 has no bits
    for it) is refused: the program returns 1.  It returns at once: the first UART
    may be off, no other register is written but CR25, and the chip is left in
    the configuration state. *)
Theorem program_smc_refused sir fir irq dma R (s : io D) :
  conf R s → 0x400 ≤ sir < 0x1000 →
  ∃ R' s', program_smc base sir fir irq dma false s = Ok (1, s') ∧ conf R' s' ∧
    (∀ r, r ≠ 0x24 → r ≠ 0x25 → R' r = R r) ∧ io_out s' = io_out s ∧
    io_err s' = io_err s +:+ "Sorry, SIR ioport could not be written. " +:+ nl.
Proof.
  intros Hc Hsir. unfold program_smc, read_back, sorry. pose proof (port_too_high sir Hsir).
  cbv zeta.
  do 5 cfg_step base (base + 1) keys latch ltac:(by apply no_keys).
  match goal with
  | H : at_reg _ _ _ _ 0x25 ?R1 ?s1 |- context [Z.eqb ?a ?b] =>
      pose proof (configured_byte base (base + 1) keys latch R1 s1 0x25
        (at_configured _ _ _ _ _ _ _ H)) as Hb;
      change (is_byte a) in Hb; exists R1;
      rewrite (proj2 (Z.eqb_neq a b)) by (unfold is_byte in Hb; lia)
  end.
  eexists. split; [reflexivity|]. split; [by eapply at_configured|].
  split; [|simpl; split; [cfg_text|f_equal; cfg_text]].
  intros r N1 N2. by rewrite (proj2 (Z.eqb_neq _ _) N1), (proj2 (Z.eqb_neq _ _) N2).
Qed.
End refusal.

(** ** Options *)

(** what the program prints of its settings, it accepts: a number printed
    in decimal, or in hexadecimal after 0x, is read back by the options; and a
    number followed by anything else ends the program with status 1. *)
Theorem number_roundtrip {D} ulong_max n what (s : io D) :
  0xffffffff ≤ ulong_max → 0 ≤ n < 2 ^ 32 →
  number ulong_max ("0x" +:+ fmt_x n) what s = Ok (n, s) ∧
  number ulong_max (fmt_u n) what s = Ok (n, s) ∧
  ∀ t c u, strtoul ulong_max t = (n, String c u) → number ulong_max t what s = Stop (Exited 1).
Proof.
  intros Hm Hn. unfold number. rewrite strtoul_hex, strtoul_dec by lia.
  rewrite u32_small by lia. split; [done|]. split.
  - destruct (decide (n = 0)) as [->|]; [done|].
    destruct (fmt_base_head 10 n) as (d & t & E & _); [lia|lia|]. unfold fmt_u. by rewrite E.
  - intros t c u ->. by destruct t.
Qed.

(** ** Examples *)
(** the bridge of a Satellite 5100 with an LPC47N227 at 0x2e *)
Definition satellite : board :=
  mkBoard (mkChip 0x2e false 0 (λ r, if r =? 0x0d then 0x5a else 0xff))
    (λ r, if r =? VID then 0x8086 else if r =? DID then 0x248c else 0xffff).

Example smcinit_example :
  ∃ s, smcinit "0.4" 0xffffffff 0 (mkSerial true true true) 7
      [("s"%char, "0x2f8"); ("i"%char, "3"); ("t"%char, "/dev/ttyS1")] (start_io satellite)
    = Ok (0, s) ∧ io_err s = "" ∧ chip_open (board_chip (dev s)) = false ∧
    map (chip_reg (board_chip (dev s))) [0x24; 0x25; 0x28; 0x2b; 0x2c; 0x0c; 0x02]
      = [0; 0xbe; 3; 0x26; 3; 0xcf; 0x80] ∧
    map (board_words (dev s)) [COM_DEC; LPC_EN; PCI_DMA_C; GEN2_DEC]
      = [0xff10; 0xfffd; 0xc0c0; 0x131].
Proof. eexists. split; [vm_compute; reflexivity|]. by vm_compute. Qed.

(** ... and without [-t], the status is what the stack held: 7 *)
Example smcinit_status :
  ∃ s, smcinit "0.4" 0xffffffff 0 (mkSerial true true true) 7 [] (start_io satellite)
    = Ok (7, s) ∧ io_err s = "".
Proof. eexists. split; [vm_compute; reflexivity|]. by vm_compute. Qed.

Lemma program_smc_ok_witness :
  let s := start_io (mkChip 0x2e true 0 (λ _, 0xff)) in
  ∃ s1 s', program_smc 0x2e 0x2f8 0x130 3 3 false s = Ok (0, s') ∧
    configured 0x2e 0x2f [0x55; 0xaa] (λ _ _ v, v)
      (smc_regs 0xbe 0x26 3 3 (chip_reg (dev s))) s1 ∧
    dev s' = dev_out 0xaa 0x2e (dev s1) ∧ same_text s s'.
Proof.
  intros s.
  apply (program_smc_ok 0x2e [0x55; 0xaa] (λ _ _ v, v) ltac:(lia) chip_keys_ok
    (λ _ _ _, eq_refl) 0x5f 0x26 3 3 (chip_reg (dev s)) s);
    [by repeat split|lia|lia|done|done].
Defined.

Lemma program_smc_refused_witness :
  let s := start_io (mkChip 0x4e true 0 (λ _, 0xff)) in
  ∃ R' s', program_smc 0x4e 0x6f8 0x130 3 3 false s = Ok (1, s') ∧
    configured 0x4e 0x4f [0x55; 0xaa] (λ _ _ v, v) R' s' ∧
    (∀ r, r ≠ 0x24 → r ≠ 0x25 → R' r = chip_reg (dev s) r) ∧ io_out s' = "" ∧
    io_err s' = "" +:+ "Sorry, SIR ioport could not be written. " +:+ nl.
Proof.
  intros s.
  apply (program_smc_refused 0x4e [0x55; 0xaa] (λ _ _ v, v) ltac:(lia) chip_keys_ok
    0x6f8 0x130 3 3 (chip_reg (dev s)) s); [by repeat split|lia].
Defined.

Lemma number_roundtrip_witness :
  number 0xffffffff "0x2f8" "SIR I/O" (start_io tt) = Ok (0x2f8, start_io tt) ∧
  number 0xffffffff "760" "SIR I/O" (start_io tt) = Ok (0x2f8, start_io tt) ∧
  ∀ t c u, strtoul 0xffffffff t = (0x2f8, String c u) →
    number 0xffffffff t "SIR I/O" (start_io tt) = Stop (Exited 1).
Proof. by apply (number_roundtrip 0xffffffff 0x2f8 "SIR I/O" (start_io tt)). Defined.
