(* ===== verification/IrKbd.v ===== *)
(** * irkbd: driver of a Tekram IR-660 keyboard and mouse (tekram/irkbd.c)

    The driver is two signal handlers over one structure: [SIGIO] brings a frame
    of subframes, [SIGALRM] polls the device; [main] connects and waits.  The
    socket, the fifo and the console are parameters: what [recv] returned, whether
    a [send], a [write] or an [ioctl] worked.  [kbd_step] takes the signals between any two statements of
    the loop of [main]; a handler, and the call that connects, is one step. *)
From Stdlib Require Import String.
From S2P Require Import Prelude CInt Printf.
Local Open Scope string_scope.
Local Open Scope list_scope.
Local Open Scope Z_scope.

Definition IRKBD_CMD_INIT_KBD := 0xfe.
Definition IRKBD_CMD_INIT_MOUSE := 0xff.
Definition IRKBD_CMD_ENABLE := 0x41.
Definition IRKBD_RSP_KBDOK := 0x11.
Definition IRKBD_RSP_KBDERR := 0x12.
Definition IRKBD_RSP_MSOK := 0x21.
Definition IRKBD_RSP_MSERR := 0x22.
Definition IRKBD_RSP_LEDOK := 0x31.
Definition IRKBD_RSP_KBDSPEEDOK := 0x33.
Definition IRKBD_RSP_RSPN41 := 0x41.
Definition IRKBD_RATE := 15000.
Definition IRKBD_IDLE_RATE := 100000.
Definition IRKBD_TIMEOUT := 1.
Definition SUBFRAME_MASK := 0xc0.
Definition SUBFRAME_MOUSE := 0x80.
Definition SUBFRAME_MOUSE2 := 0xc0.
Definition SUBFRAME_KEYBOARD := 0x40.
Definition SUBFRAME_RESPONSE := 0x00.
Definition IRKBD_BUF_SIZE := 4096.
Definition MAX_DEVICES := 10.

Inductive kbd_state :=
  | IRKBD_IDLE
  | IRKBD_INIT_KBD
  | IRKBD_INIT_MOUSE
  | IRKBD_READY
  | IRKBD_POLLING.

#[export] Instance kbd_state_eq_dec : EqDecision kbd_state.
Proof. solve_decision. Defined.

(** [struct irkbd_cb] and [power_save], with what went out: the fifo of the mouse,
    the console, the socket.  [watchdog_timer] is [None] when it is not running:
    its [it_interval] is 0. *)
Record irkbd_cb := mkKbd {
  state : kbd_state;
  connected : bool;
  saddr : Z;
  daddr : Z;
  mtu_tx : Z;
  watchdog_timer : option (Z * Z);
  frame : list Z;
  power_save : Z;
  to_fifo : list Z;
  to_console : list Z;
  sent : list Z;
  k_out : string }.

Definition set_state v k := mkKbd v (connected k) (saddr k) (daddr k) (mtu_tx k)
  (watchdog_timer k) (frame k) (power_save k) (to_fifo k) (to_console k) (sent k) (k_out k).
Definition set_connected v k := mkKbd (state k) v (saddr k) (daddr k) (mtu_tx k)
  (watchdog_timer k) (frame k) (power_save k) (to_fifo k) (to_console k) (sent k) (k_out k).
Definition set_addrs s d k := mkKbd (state k) (connected k) s d (mtu_tx k)
  (watchdog_timer k) (frame k) (power_save k) (to_fifo k) (to_console k) (sent k) (k_out k).
Definition set_mtu v k := mkKbd (state k) (connected k) (saddr k) (daddr k) v
  (watchdog_timer k) (frame k) (power_save k) (to_fifo k) (to_console k) (sent k) (k_out k).
Definition set_timer v k := mkKbd (state k) (connected k) (saddr k) (daddr k) (mtu_tx k)
  v (frame k) (power_save k) (to_fifo k) (to_console k) (sent k) (k_out k).
Definition set_frame v k := mkKbd (state k) (connected k) (saddr k) (daddr k) (mtu_tx k)
  (watchdog_timer k) v (power_save k) (to_fifo k) (to_console k) (sent k) (k_out k).
Definition set_power v k := mkKbd (state k) (connected k) (saddr k) (daddr k) (mtu_tx k)
  (watchdog_timer k) (frame k) v (to_fifo k) (to_console k) (sent k) (k_out k).
Definition set_fifo v k := mkKbd (state k) (connected k) (saddr k) (daddr k) (mtu_tx k)
  (watchdog_timer k) (frame k) (power_save k) v (to_console k) (sent k) (k_out k).
Definition set_console v k := mkKbd (state k) (connected k) (saddr k) (daddr k) (mtu_tx k)
  (watchdog_timer k) (frame k) (power_save k) (to_fifo k) v (sent k) (k_out k).
Definition set_sent v k := mkKbd (state k) (connected k) (saddr k) (daddr k) (mtu_tx k)
  (watchdog_timer k) (frame k) (power_save k) (to_fifo k) (to_console k) v (k_out k).
Definition set_out v k := mkKbd (state k) (connected k) (saddr k) (daddr k) (mtu_tx k)
  (watchdog_timer k) (frame k) (power_save k) (to_fifo k) (to_console k) (sent k) v.

Definition put_out (t : string) : M irkbd_cb unit := modify (λ k, set_out (k_out k +:+ t) k).

(** a device that the discovery found *)
Record irda_device := mkDevice { dev_info : string; dev_daddr : Z; dev_saddr : Z }.

(** what the system calls of a connection answer *)
Record world := mkWorld {
  devices : option (list irda_device);   (* IRLMP_ENUMDEVICES *)
  set_sdu_ok : bool;
  connect_ok : bool;
  get_sdu : option Z }.

Section irkbd.
Variable send_ok : bool.
(** does the fifo take one more byte; does the console take a character *)
Variable fifo_takes : list Z → bool.

Definition irkbd_start_watchdog_timer (sec usec : Z) : M irkbd_cb unit :=
  modify (set_timer (Some (sec, usec))).

Fixpoint discover_loop (l : list irda_device) : M irkbd_cb Z :=
  match l with
  | [] => put_out ("Hmm, didn't find any! retry?" +:+ nl);; mret (-1)
  | d :: l =>
      put_out ("  name:  " +:+ dev_info d +:+ nl);;
      put_out ("  daddr: " +:+ fmt_08x (dev_daddr d) +:+ nl);;
      put_out ("  saddr: " +:+ fmt_08x (dev_saddr d) +:+ nl);;
      put_out nl;;
      modify (set_addrs (dev_saddr d) (dev_daddr d));;
      if String.eqb (dev_info d) "IR-660" then
        put_out ("This one looks good!" +:+ nl);; mret 0
      else discover_loop l
  end.

Definition irkbd_discover_devices (w : world) : M irkbd_cb Z :=
  match devices w with
  | None => halt (Exited (-1))
  | Some l =>
      put_out ("Discovered: (list len=" +:+ fmt_d (Z.of_nat (length l)) +:+ ")" +:+ nl);;
      discover_loop l
  end.

Definition irkbd_connect_request (w : world) : M irkbd_cb Z :=
  ret ← irkbd_discover_devices w;
  if ret =? -1 then mret (-1)
  else if negb (set_sdu_ok w) then halt (Exited (-1))
  else if negb (connect_ok w) then mret (-1)
  else match get_sdu w with
  | None => halt (Exited (-1))
  | Some mtu => modify (set_mtu mtu);; modify (set_connected true);; mret 0
  end.

(** the three commands that are asked for send themselves *)
Definition irkbd_data_request (cmd : Z) : M irkbd_cb unit :=
  modify (λ k, set_sent (sent k ++ [cmd]) k);;
  when (negb send_ok) (put_out ("Disconnected2!" +:+ nl)).

Definition irkbd_handle_response (rsp : Z) : M irkbd_cb unit :=
  if rsp =? IRKBD_RSP_RSPN41 then
    k ← get;
    modify (set_power (s32 (power_save k + 1)));;
    if 100 <? power_save k then irkbd_start_watchdog_timer 0 IRKBD_IDLE_RATE
    else irkbd_start_watchdog_timer 0 IRKBD_RATE
  else if rsp =? IRKBD_RSP_KBDOK then
    put_out ("OK!" +:+ nl);;
    modify (set_state IRKBD_INIT_MOUSE);;
    irkbd_start_watchdog_timer 0 IRKBD_RATE
  else if rsp =? IRKBD_RSP_KBDERR then
    put_out ("Error!" +:+ nl);;
    modify (set_state IRKBD_INIT_MOUSE);;
    irkbd_start_watchdog_timer 0 IRKBD_RATE
  else if rsp =? IRKBD_RSP_MSOK then
    put_out ("OK!" +:+ nl);;
    modify (set_state IRKBD_READY);;
    irkbd_start_watchdog_timer 0 100000
  else if rsp =? IRKBD_RSP_MSERR then
    put_out ("Error!" +:+ nl);;
    modify (set_state IRKBD_READY);;
    irkbd_start_watchdog_timer 0 100000
  else if (rsp =? IRKBD_RSP_LEDOK) || (rsp =? IRKBD_RSP_KBDSPEEDOK) then mret tt
  else put_out ("irkbd_handle_response(), unknown response " +:+ fmt_02x rsp +:+ nl).

Definition irkbd_handle_mouse (scancode : Z) : M irkbd_cb unit :=
  modify (λ k, if fifo_takes (to_fifo k) then set_fifo (to_fifo k ++ [scancode]) k else k).

Definition handle_scancode (scancode : Z) : M irkbd_cb unit :=
  modify (λ k, set_console (to_console k ++ [scancode]) k).

(** [frame[n]] *)
Definition frame_at (n : Z) : M irkbd_cb Z :=
  k ← get; or_stop OobRead (zlookup (frame k) n).

(** [for (i = 0; i < count; i++) f(frame[n++]);] and the new [n] *)
Fixpoint each_byte (count : nat) (n : Z) (f : Z → M irkbd_cb unit) : M irkbd_cb Z :=
  match count with
  | O => mret n
  | S count => b ← frame_at n; f b;; each_byte count (n + 1) f
  end.

Definition restart_poll : M irkbd_cb unit :=
  modify (set_power 0);; irkbd_start_watchdog_timer 0 IRKBD_RATE.

(** [while (len > 0)], [len] an unsigned char *)
Fixpoint frame_loop (fuel : nat) (len n : Z) : M irkbd_cb unit :=
  if 0 <? len then
    match fuel with
    | O => halt OutOfFuel
    | S fuel =>
        b ← frame_at n;
        let sublen := Z.land b (Z.lnot SUBFRAME_MASK) in
        let subtype := Z.land b SUBFRAME_MASK in
        let n := n + 1 in
        let len := u8 (len - 1) in
        if (subtype =? SUBFRAME_MOUSE) || (subtype =? SUBFRAME_MOUSE2) then
          n ← each_byte (Z.to_nat (sublen * 3)) n irkbd_handle_mouse;
          restart_poll;;
          frame_loop fuel (u8 (len - sublen * 3)) n
        else if subtype =? SUBFRAME_KEYBOARD then
          put_out ("Test!" +:+ nl);;
          n ← each_byte (Z.to_nat sublen) n handle_scancode;
          restart_poll;;
          frame_loop fuel (u8 (len - sublen)) n
        else if subtype =? SUBFRAME_RESPONSE then
          n ← each_byte (Z.to_nat sublen) n irkbd_handle_response;
          frame_loop fuel (u8 (len - sublen)) n
        else
          put_out ("Test2" +:+ nl);;
          frame_loop fuel (u8 (len - sublen)) n
    end
  else mret tt.

(** [received]: the bytes that [recv] gave, [None] for an error; the end of the
    connection is the empty list.  In both cases the old frame is parsed. *)
Definition irkbd_data_indication (received : option (list Z)) : M irkbd_cb unit :=
  (match received with
   | None | Some [] =>
       put_out ("Disconnected!" +:+ nl);;
       modify (set_connected false)
   | Some l =>
       let l := take 2048 l in
       modify (λ k, set_frame (l ++ drop (length l) (frame k)) k)
   end);;
  len ← frame_at 0;
  frame_loop 4097 len 1.

Definition irkbd_watchdog_timer_expired : M irkbd_cb unit :=
  k ← get;
  match state k with
  | IRKBD_POLLING =>
      irkbd_data_request IRKBD_CMD_ENABLE;;
      irkbd_start_watchdog_timer IRKBD_TIMEOUT 0
  | IRKBD_IDLE => mret tt
  | IRKBD_INIT_KBD =>
      put_out "Initializing keyboard: ";;
      irkbd_data_request IRKBD_CMD_INIT_KBD
  | IRKBD_INIT_MOUSE =>
      put_out "Initializing mouse: ";;
      irkbd_data_request IRKBD_CMD_INIT_MOUSE
  | IRKBD_READY =>
      put_out ("Running ..." +:+ nl);;
      irkbd_data_request IRKBD_CMD_ENABLE;;
      modify (set_state IRKBD_POLLING)
  end.

(** the loop of [main]: a try to connect, and what follows when it succeeds *)
Definition main_connect (w : world) : M irkbd_cb bool :=
  err ← irkbd_connect_request w;
  if truth err then mret false
  else
    modify (set_state IRKBD_INIT_KBD);;
    modify (set_state IRKBD_INIT_MOUSE);;
    irkbd_start_watchdog_timer IRKBD_TIMEOUT 0;;
    mret true.

(** [SIGALRM]: the timer has run out, it runs once *)
Definition alarm : M irkbd_cb unit :=
  modify (set_timer None);; irkbd_watchdog_timer_expired.
End irkbd.

(** ** What a frame means *)
Inductive subframe :=
  | Mouse (second : bool) (l : list Z)
  | Keys (l : list Z)
  | Responses (l : list Z).

Definition sub_data (x : subframe) : list Z :=
  match x with Mouse _ l | Keys l | Responses l => l end.
Definition sub_count (x : subframe) : Z :=
  match x with
  | Mouse _ l => Z.of_nat (length l) / 3
  | Keys l | Responses l => Z.of_nat (length l)
  end.
Definition sub_type (x : subframe) : Z :=
  match x with
  | Mouse second _ => if second then SUBFRAME_MOUSE2 else SUBFRAME_MOUSE
  | Keys _ => SUBFRAME_KEYBOARD
  | Responses _ => SUBFRAME_RESPONSE
  end.
Definition sub_ok (x : subframe) : Prop :=
  sub_count x < 64 ∧
  match x with Mouse _ l => Z.of_nat (length l) mod 3 = 0 | _ => True end.

Definition sub_bytes (x : subframe) : list Z := sub_type x + sub_count x :: sub_data x.
Definition subs_bytes (xs : list subframe) : list Z := xs ≫= sub_bytes.
Definition frame_bytes (xs : list subframe) : list Z :=
  Z.of_nat (length (subs_bytes xs)) :: subs_bytes xs.

Section meaning.
Variable fifo_takes : list Z → bool.

Fixpoint run_bytes (l : list Z) (f : Z → M irkbd_cb unit) : M irkbd_cb unit :=
  match l with
  | [] => mret tt
  | b :: l => f b;; run_bytes l f
  end.
Definition run_sub (x : subframe) : M irkbd_cb unit :=
  match x with
  | Mouse _ l => run_bytes l (irkbd_handle_mouse fifo_takes);; restart_poll
  | Keys l => put_out ("Test!" +:+ nl);; run_bytes l handle_scancode;; restart_poll
  | Responses l => run_bytes l irkbd_handle_response
  end.
Fixpoint run_subs (xs : list subframe) : M irkbd_cb unit :=
  match xs with
  | [] => mret tt
  | x :: xs => run_sub x;; run_subs xs
  end.

(** a handler returns, and keeps the frame *)
Definition quiet {A} (m : M irkbd_cb A) : Prop :=
  ∀ k, ∃ a k', m k = Ok (a, k') ∧ frame k' = frame k.

Lemma quiet_ret {A} (a : A) : quiet (mret a).
Proof. intros k. by eexists _, _. Qed.
Lemma quiet_modify f : (∀ k, frame (f k) = frame k) → quiet (modify f).
Proof. intros Hf k. eexists _, _. by split. Qed.
Lemma quiet_get : quiet get.
Proof. intros k. by eexists _, _. Qed.
Lemma quiet_bind {A B} (m : M irkbd_cb A) (c : A → M irkbd_cb B) :
  quiet m → (∀ a, quiet (c a)) → quiet (m ≫= c).
Proof.
  intros Hm Hc k. destruct (Hm k) as (a & k1 & E1 & F1). destruct (Hc a k1) as (b & k2 & E2 & F2).
  exists b, k2. split; [by erewrite bind_ok by exact E1|congruence].
Qed.

Ltac quiet :=
  repeat match goal with
  | |- quiet (_ ≫= _) => apply quiet_bind; [|intro]
  | |- quiet (modify _) => by apply quiet_modify
  | |- quiet (mret _) => apply quiet_ret
  | |- quiet get => apply quiet_get
  | |- quiet (match ?x with _ => _ end) => destruct x
  end.

Lemma quiet_mouse b : quiet (irkbd_handle_mouse fifo_takes b).
Proof. apply quiet_modify. intros k. by destruct (fifo_takes _). Qed.
Lemma quiet_key b : quiet (handle_scancode b).
Proof. unfold handle_scancode. quiet. Qed.
Lemma quiet_response b : quiet (irkbd_handle_response b).
Proof. unfold irkbd_handle_response, irkbd_start_watchdog_timer, put_out. quiet. Qed.
Lemma quiet_restart : quiet restart_poll.
Proof. unfold restart_poll, irkbd_start_watchdog_timer. quiet. Qed.
Lemma quiet_out t : quiet (put_out t).
Proof. unfold put_out. quiet. Qed.
Lemma quiet_bytes l f : (∀ b, quiet (f b)) → quiet (run_bytes l f).
Proof. intros Hf. induction l; simpl; quiet; [apply Hf|done]. Qed.

Lemma frame_at_ok pre b post k n :
  frame k = pre ++ b :: post → n = Z.of_nat (length pre) → frame_at n k = Ok (b, k).
Proof.
  intros Hf ->. unfold frame_at, mbind, M_bind, get, or_stop.
  rewrite Hf, zlookup_ge by lia. by rewrite Nat2Z.id, list_lookup_middle.
Qed.

Lemma each_byte_ok pre l post f k n :
  (∀ b, quiet (f b)) → frame k = pre ++ l ++ post → n = Z.of_nat (length pre) →
  each_byte (length l) n f k
  = (run_bytes l f;; mret (n + Z.of_nat (length l))) k.
Proof.
  intros Hq. revert pre k n. induction l as [|b l IH]; intros pre k n Hf Hn; simpl.
  - by rewrite Z.add_0_r.
  - erewrite bind_ok by (by eapply frame_at_ok).
    destruct (Hq b k) as ([] & k1 & E1 & F1).
    rewrite bind_assoc. rewrite !(bind_ok _ _ _ _ _ E1).
    rewrite (IH (pre ++ [b])).
    + unfold mbind, M_bind. destruct (run_bytes l f k1) as [[[] k2]|]; [|done].
      unfold mret, M_ret. do 2 f_equal. lia.
    + rewrite F1, Hf. by rewrite <- app_assoc.
    + rewrite length_app. simpl. lia.
Qed.

Lemma each_byte_bind pre l post f k n (c : Z → M irkbd_cb unit) :
  (∀ b, quiet (f b)) → frame k = pre ++ l ++ post → n = Z.of_nat (length pre) →
  (each_byte (length l) n f ≫= c) k = (run_bytes l f;; c (n + Z.of_nat (length l))) k.
Proof.
  intros Hq Hf Hn. unfold mbind at 1, M_bind at 1. rewrite (each_byte_ok pre l post f k n Hq Hf Hn).
  unfold mbind, M_bind. by destruct (run_bytes _ _ _) as [[[] ?]|].
Qed.

Lemma header_split x : sub_ok x →
  Z.land (sub_type x + sub_count x) (Z.lnot SUBFRAME_MASK) = sub_count x ∧
  Z.land (sub_type x + sub_count x) SUBFRAME_MASK = sub_type x.
Proof.
  intros [Hc _]. assert (Hp : 0 ≤ sub_count x).
  { destruct x; simpl; try lia. apply Z.div_pos; lia. }
  assert (Hbyte : ∀ c, 0 ≤ c < 64 → ∀ ty, ty ∈ [0x00; 0x40; 0x80; 0xc0] →
    Z.land (ty + c) (Z.lnot SUBFRAME_MASK) = c ∧ Z.land (ty + c) SUBFRAME_MASK = ty).
  { intros c Hr ty Hty.
    pose proof (byte_forall (λ c, (64 <=? c) || forallb (λ ty,
      (Z.land (ty + c) (Z.lnot SUBFRAME_MASK) =? c) && (Z.land (ty + c) SUBFRAME_MASK =? ty))
      [0x00; 0x40; 0x80; 0xc0])) as H.
    specialize (H ltac:(by vm_compute) c). unfold is_byte in H.
    rewrite orb_true_iff, Z.leb_le, forallb_forall in H.
    destruct H as [?|H]; [lia|lia|]. apply list_elem_of_In, H in Hty.
    rewrite andb_true_iff, !Z.eqb_eq in Hty. done. }
  apply Hbyte; [lia|]. clear. destruct x as [[]| |]; simpl; set_solver.
Qed.

Lemma sub_bytes_length x : sub_ok x →
  Z.of_nat (length (sub_bytes x)) = 1 + Z.of_nat (length (sub_data x)) ∧
  Z.of_nat (length (sub_data x)) = (match x with Mouse _ _ => sub_count x * 3
                                    | _ => sub_count x end).
Proof.
  intros [_ Hm]. split; [simpl; lia|]. destruct x; simpl in *; try lia.
  Z.to_euclidean_division_equations; lia.
Qed.

Lemma mouse_type (second : bool) :
  ((if second then SUBFRAME_MOUSE2 else SUBFRAME_MOUSE) =? SUBFRAME_MOUSE)
    || ((if second then SUBFRAME_MOUSE2 else SUBFRAME_MOUSE) =? SUBFRAME_MOUSE2) = true.
Proof. by destruct second. Qed.

(** the data of a subframe, byte by byte *)
Lemma each_sub x pre rest k f (c : Z → M irkbd_cb unit) :
  (∀ b, quiet (f b)) → frame k = pre ++ sub_bytes x ++ rest →
  (each_byte (length (sub_data x)) (Z.of_nat (length pre) + 1) f ≫= c) k
  = (run_bytes (sub_data x) f;; c (Z.of_nat (length pre) + 1 + Z.of_nat (length (sub_data x)))) k.
Proof.
  intros Hq Hf. unfold sub_bytes in Hf. simpl in Hf.
  apply (each_byte_bind (pre ++ [sub_type x + sub_count x]) _ rest);
    [done | rewrite Hf; by rewrite <- app_assoc | rewrite length_app; simpl; lia].
Qed.

(** one subframe: the loop handles it and goes on behind it *)
Lemma sub_step x pre rest fuel k n len m tail :
  sub_ok x → frame k = pre ++ sub_bytes x ++ rest → n = Z.of_nat (length pre) →
  len = 1 + Z.of_nat (length (sub_data x)) + m → 0 ≤ m → len < 256 →
  (∀ k1, frame k1 = frame k →
    frame_loop fifo_takes fuel m (n + 1 + Z.of_nat (length (sub_data x))) k1 = tail k1) →
  frame_loop fifo_takes (S fuel) len n k = (run_sub x;; tail) k.
Proof.
  intros Hx Hf Hn Hl Hm H256 Hrest.
  destruct (sub_bytes_length x Hx) as [Hsb Hsd]. destruct (header_split x Hx) as [Hc Ht].
  assert (Hnext : ∀ f k1 (c : Z → M irkbd_cb unit), (∀ b, quiet (f b)) → frame k1 = frame k →
    (each_byte (length (sub_data x)) (n + 1) f ≫= c) k1
    = (run_bytes (sub_data x) f;; c (n + 1 + Z.of_nat (length (sub_data x)))) k1).
  { intros f k1 c Hq F1. subst n. apply (each_sub x pre rest); [done|by rewrite F1]. }
  unfold sub_bytes in Hf. simpl in Hf.
  cbn [frame_loop]. rewrite (proj2 (Z.ltb_lt _ _)) by lia.
  erewrite bind_ok by (by eapply frame_at_ok). rewrite Hc, Ht. cbv zeta.
  rewrite (u8_small (len - 1)) by lia.
  assert (Hend : ∀ k1 c, frame k1 = frame k → c = Z.of_nat (length (sub_data x)) →
    frame_loop fifo_takes fuel (u8 (len - 1 - c)) (n + 1 + Z.of_nat (length (sub_data x))) k1
    = tail k1).
  { intros k1 c F1 ->. rewrite u8_small by lia. rewrite <- Hrest by done. f_equal. lia. }
  assert (Hlast : ∀ k1 c, frame k1 = frame k → c = Z.of_nat (length (sub_data x)) →
    (restart_poll;; frame_loop fifo_takes fuel (u8 (len - 1 - c))
       (n + 1 + Z.of_nat (length (sub_data x)))) k1
    = (restart_poll;; tail) k1).
  { intros k1 c F1 ->. destruct (quiet_restart k1) as ([] & k2 & E2 & F2).
    rewrite !(bind_ok _ _ _ _ _ E2). apply Hend; [congruence|done]. }
  destruct x as [second l|l|l]; cbn [sub_type sub_data run_sub] in *.
  - rewrite mouse_type, <- Hsd, Nat2Z.id, (Hnext _ _ _ quiet_mouse) by done.
    destruct (quiet_bytes l _ quiet_mouse k) as ([] & k1 & E1 & F1).
    rewrite !bind_assoc, !(bind_ok _ _ _ _ _ E1). by apply Hlast.
  - change (SUBFRAME_KEYBOARD =? SUBFRAME_KEYBOARD) with true.
    change ((SUBFRAME_KEYBOARD =? SUBFRAME_MOUSE) || (SUBFRAME_KEYBOARD =? SUBFRAME_MOUSE2))
      with false. cbv iota.
    destruct (quiet_out ("Test!" +:+ nl) k) as ([] & k0 & E0 & F0).
    rewrite !bind_assoc, !(bind_ok _ _ _ _ _ E0).
    rewrite <- Hsd, Nat2Z.id, (Hnext _ _ _ quiet_key) by done.
    destruct (quiet_bytes l _ quiet_key k0) as ([] & k1 & E1 & F1).
    rewrite !bind_assoc, !(bind_ok _ _ _ _ _ E1). apply Hlast; [congruence|done].
  - change (SUBFRAME_RESPONSE =? SUBFRAME_KEYBOARD) with false.
    change (SUBFRAME_RESPONSE =? SUBFRAME_RESPONSE) with true.
    change ((SUBFRAME_RESPONSE =? SUBFRAME_MOUSE) || (SUBFRAME_RESPONSE =? SUBFRAME_MOUSE2))
      with false. cbv iota.
    rewrite <- Hsd, Nat2Z.id, (Hnext _ _ _ quiet_response) by done.
    destruct (quiet_bytes l _ quiet_response k) as ([] & k1 & E1 & F1).
    rewrite !(bind_ok _ _ _ _ _ E1). by apply Hend.
Qed.

Lemma frame_loop_ok xs fuel pre post k len n :
  Forall sub_ok xs → frame k = pre ++ subs_bytes xs ++ post → n = Z.of_nat (length pre) →
  len = Z.of_nat (length (subs_bytes xs)) → len < 256 → (length xs < fuel)%nat →
  frame_loop fifo_takes fuel len n k = run_subs xs k.
Proof.
  intros Hok. revert fuel pre k len n.
  induction Hok as [|x xs Hx Hok IH]; intros fuel pre k len n Hf Hn Hl H256 Hfu.
  { simpl in Hl. subst len. by destruct fuel. }
  destruct fuel as [|fuel]; [simpl in Hfu; lia|]. destruct (sub_bytes_length x Hx) as [Hsb Hsd].
  unfold subs_bytes in Hf, Hl. rewrite bind_cons in Hf, Hl. fold (subs_bytes xs) in Hf, Hl.
  rewrite length_app in Hl. rewrite <- app_assoc in Hf.
  apply (sub_step x pre (subs_bytes xs ++ post) _ _ _ _ (Z.of_nat (length (subs_bytes xs))));
    [done|done|done|lia|lia|done|].
  intros k1 F1. apply (IH _ (pre ++ sub_bytes x)); [|rewrite length_app; lia|done|lia|].
  - by rewrite F1, Hf, <- app_assoc.
  - simpl in Hfu. lia.
Qed.

Lemma subs_fewer xs : (length xs ≤ length (subs_bytes xs))%nat.
Proof.
  induction xs as [|x xs IH]; [done|]. unfold subs_bytes in *. rewrite bind_cons, length_app.
  simpl. lia.
Qed.

(** the parsing of a frame that is in the buffer *)
Lemma parse_frame_ok xs post k :
  Forall sub_ok xs → (length (subs_bytes xs) < 256)%nat → frame k = frame_bytes xs ++ post →
  (len ← frame_at 0; frame_loop fifo_takes 4097 len 1) k = run_subs xs k.
Proof.
  intros Hok Hlen Hf. erewrite bind_ok by (by eapply (frame_at_ok []); [exact Hf|]).
  pose proof (subs_fewer xs).
  apply (frame_loop_ok xs _ [Z.of_nat (length (subs_bytes xs))] post); try done; lia.
Qed.
End meaning.

(** *** What the subframes do *)

(** the bytes of the mouse and of the keyboard, in order *)
Definition mouse_bytes (xs : list subframe) : list Z :=
  xs ≫= λ x, match x with Mouse _ l => l | _ => [] end.
Definition key_bytes (xs : list subframe) : list Z :=
  xs ≫= λ x, match x with Keys l => l | _ => [] end.
(** a fifo keeps the bytes for which it has room *)
Definition fifo_after (fifo_takes : list Z → bool) (q l : list Z) : list Z :=
  foldl (λ q b, if fifo_takes q then q ++ [b] else q) q l.

(** the state, the count of idle answers and the timer after a response *)
Definition response_effect (p : kbd_state * Z * option (Z * Z)) (rsp : Z) :=
  let '(st, n, t) := p in
  match rsp with
  | 0x41 => (st, s32 (n + 1), Some (0, if 100 <? n then 100000 else 15000))
  | 0x11 | 0x12 => (IRKBD_INIT_MOUSE, n, Some (0, 15000))
  | 0x21 | 0x22 => (IRKBD_READY, n, Some (0, 100000))
  | _ => p
  end.
Definition sub_effect (p : kbd_state * Z * option (Z * Z)) (x : subframe) :=
  match x with
  | Mouse _ _ | Keys _ => (fst (fst p), 0, Some (0, 15000))
  | Responses l => foldl response_effect p l
  end.
Definition control (k : irkbd_cb) : kbd_state * Z * option (Z * Z) :=
  (state k, power_save k, watchdog_timer k).

(** what the handling of a frame does not touch *)
Definition untouched (k : irkbd_cb) :=
  (frame k, sent k, connected k, (saddr k, daddr k, mtu_tx k)).

(** from [k] to [k'] exactly this happened, and some text was printed *)
Definition effect (k k' : irkbd_cb) p (fifo console : list Z) : Prop :=
  control k' = p ∧ to_fifo k' = fifo ∧ to_console k' = console ∧ untouched k' = untouched k.

Lemma effect_trans k1 k2 k3 p q f g c d :
  effect k1 k2 p f c → effect k2 k3 q g d → effect k1 k3 q g d.
Proof. intros (_ & _ & _ & R1) (P & F & C & R2). repeat split; congruence. Qed.

Section effects.
Variable fifo_takes : list Z → bool.

Lemma run_mouse l k : ∃ k', run_bytes l (irkbd_handle_mouse fifo_takes) k = Ok (tt, k') ∧
  effect k k' (control k) (fifo_after fifo_takes (to_fifo k) l) (to_console k).
Proof.
  revert k. induction l as [|b l IH]; intros k; [by exists k|]. cbn [run_bytes fifo_after foldl].
  erewrite bind_ok by reflexivity. set (k1 := if fifo_takes _ then _ else _).
  assert (H1 : effect k k1 (control k) (if fifo_takes (to_fifo k) then to_fifo k ++ [b] else to_fifo k)
    (to_console k)) by (unfold k1; by destruct (fifo_takes (to_fifo k))).
  destruct (IH k1) as (k' & E & H). exists k'. split; [exact E|].
  pose proof H1 as (P1 & F1 & C1 & _). rewrite P1, F1, C1 in H.
  by eapply effect_trans; [exact H1|].
Qed.
Lemma run_keys l k : ∃ k', run_bytes l handle_scancode k = Ok (tt, k') ∧
  effect k k' (control k) (to_fifo k) (to_console k ++ l).
Proof.
  revert k. induction l as [|b l IH]; intros k.
  { exists k. split; [done|]. by rewrite app_nil_r. }
  cbn [run_bytes]. erewrite bind_ok by reflexivity.
  destruct (IH (set_console (to_console k ++ [b]) k)) as (k' & E & H). exists k'.
  split; [exact E|]. cbn [to_console set_console] in H. by rewrite <- app_assoc in H.
Qed.

Lemma handle_response rsp k : ∃ k', irkbd_handle_response rsp k = Ok (tt, k') ∧
  effect k k' (response_effect (control k) rsp) (to_fifo k) (to_console k).
Proof.
  unfold irkbd_handle_response, put_out, irkbd_start_watchdog_timer.
  destruct (Z.eqb_spec rsp IRKBD_RSP_RSPN41) as [->|N1].
  { unfold mbind, M_bind, get, modify. destruct (100 <? power_save k) eqn:E;
      (eexists; split; [reflexivity|]); unfold effect, control; cbn; by rewrite E. }
  destruct (Z.eqb_spec rsp IRKBD_RSP_KBDOK) as [->|N2]; [by eexists|].
  destruct (Z.eqb_spec rsp IRKBD_RSP_KBDERR) as [->|N3]; [by eexists|].
  destruct (Z.eqb_spec rsp IRKBD_RSP_MSOK) as [->|N4]; [by eexists|].
  destruct (Z.eqb_spec rsp IRKBD_RSP_MSERR) as [->|N5]; [by eexists|].
  assert (response_effect (control k) rsp = control k) as ->.
  { unfold control, response_effect. repeat case_match; done. }
  destruct (_ || _); by eexists.
Qed.
Lemma run_responses l k : ∃ k', run_bytes l irkbd_handle_response k = Ok (tt, k') ∧
  effect k k' (foldl response_effect (control k) l) (to_fifo k) (to_console k).
Proof.
  revert k. induction l as [|b l IH]; intros k; [by exists k|]. cbn [run_bytes foldl].
  destruct (handle_response b k) as (k1 & E1 & H1). erewrite bind_ok by exact E1.
  destruct (IH k1) as (k' & E & H). exists k'. split; [exact E|].
  pose proof H1 as (P1 & F1 & C1 & _). rewrite P1, F1, C1 in H.
  by eapply effect_trans; [exact H1|].
Qed.

Lemma run_sub_effect x k : ∃ k', run_sub fifo_takes x k = Ok (tt, k') ∧
  effect k k' (sub_effect (control k) x) (fifo_after fifo_takes (to_fifo k) (mouse_bytes [x]))
    (to_console k ++ key_bytes [x]).
Proof.
  unfold mouse_bytes, key_bytes. destruct x as [second l|l|l]; cbn; rewrite ?app_nil_r.
  - destruct (run_mouse l k) as (k1 & E1 & H1). erewrite bind_ok by exact E1.
    eexists. split; [reflexivity|]. destruct H1 as (P1 & R1). unfold control in P1.
    injection P1 as S1 _ _. split; [|exact R1]. unfold control. cbn. by rewrite S1.
  - erewrite bind_ok by reflexivity.
    destruct (run_keys l (set_out (k_out k +:+ "Test!" +:+ nl) k)) as (k1 & E1 & H1).
    erewrite bind_ok by exact E1. eexists. split; [reflexivity|].
    destruct H1 as (P1 & R1). unfold control in P1. injection P1 as S1 _ _.
    split; [|exact R1]. unfold control. cbn. by rewrite S1.
  - destruct (run_responses l k) as (k1 & E1 & H1). eauto.
Qed.

Lemma run_subs_effect xs k : ∃ k', run_subs fifo_takes xs k = Ok (tt, k') ∧
  effect k k' (foldl sub_effect (control k) xs)
    (fifo_after fifo_takes (to_fifo k) (mouse_bytes xs)) (to_console k ++ key_bytes xs).
Proof.
  revert k. induction xs as [|x xs IH]; intros k.
  { exists k. split; [done|]. by rewrite app_nil_r. }
  cbn [run_subs foldl]. destruct (run_sub_effect x k) as (k1 & E1 & H1).
  erewrite bind_ok by exact E1. destruct (IH k1) as (k' & E & H). exists k'. split; [exact E|].
  pose proof H1 as (P1 & F1 & C1 & _). rewrite P1, F1, C1 in H.
  unfold mouse_bytes, key_bytes in *. cbn in H |- *. rewrite !app_nil_r in H.
  unfold fifo_after in *. rewrite foldl_app, app_assoc.
  by eapply effect_trans; [exact H1|].
Qed.
End effects.


(** when the connection ends or fails, the frame received before is handled
    once more: its mouse records and keys are injected twice. *)
Theorem irkbd_recv_error_replays fifo_takes received xs post k :
  received = None ∨ received = Some [] →
  Forall sub_ok xs → (length (subs_bytes xs) < 256)%nat → frame k = frame_bytes xs ++ post →
  irkbd_data_indication fifo_takes received k
  = run_subs fifo_takes xs
      (set_connected false (set_out (k_out k +:+ "Disconnected!" +:+ nl) k)).
Proof.
  intros Hr Hok Hlen Hf. unfold irkbd_data_indication.
  assert (E : (match received with
    | None | Some [] => put_out ("Disconnected!" +:+ nl);; modify (set_connected false)
    | Some l => let l := take 2048 l in
        modify (λ k, set_frame (l ++ drop (length l) (frame k)) k)
    end) k = Ok (tt, set_connected false (set_out (k_out k +:+ "Disconnected!" +:+ nl) k)))
    by (by destruct Hr as [-> | ->]).
  erewrite bind_ok by exact E. by eapply parse_frame_ok.
Qed.

(** ** Every frame ends *)
Section ends.
Variable fifo_takes : list Z → bool.

Lemma frame_at_some n k b : zlookup (frame k) n = Some b → frame_at n k = Ok (b, k).
Proof. unfold frame_at, mbind, M_bind, get, or_stop. by intros ->. Qed.
Lemma frame_at_none n k : zlookup (frame k) n = None → frame_at n k = Stop OobRead.
Proof. unfold frame_at, mbind, M_bind, get, or_stop. by intros ->. Qed.

Lemma each_byte_any f c n k :
  (∀ b, quiet (f b)) → 0 ≤ n ≤ Z.of_nat (length (frame k)) →
  match each_byte c n f k with
  | Ok (n', k') => n ≤ n' ≤ Z.of_nat (length (frame k)) ∧ frame k' = frame k
  | Stop w => w = OobRead
  end.
Proof.
  intros Hq. revert n k. induction c as [|c IH]; intros n k Hn; cbn [each_byte].
  { split; [lia|done]. }
  unfold frame_at, mbind, M_bind, get, or_stop.
  destruct (zlookup (frame k) n) as [b|] eqn:E; [|done].
  rewrite zlookup_ge in E by lia. apply lookup_lt_Some in E.
  destruct (Hq b k) as ([] & k1 & -> & F1). specialize (IH (n + 1) k1).
  rewrite F1 in IH. specialize (IH ltac:(lia)).
  destruct (each_byte c (n + 1) f k1) as [[n' k']|w]; [|done].
  destruct IH as [? ->]. split; [lia|done].
Qed.

Lemma each_byte_ends f c n k (m : Z → M irkbd_cb unit) :
  (∀ b, quiet (f b)) → 0 ≤ n ≤ Z.of_nat (length (frame k)) →
  (∀ n' k', n ≤ n' ≤ Z.of_nat (length (frame k)) → frame k' = frame k →
    m n' k' ≠ Stop OutOfFuel) →
  (each_byte c n f ≫= m) k ≠ Stop OutOfFuel.
Proof.
  intros Hq Hn Hm. pose proof (each_byte_any f c n k Hq Hn) as H. unfold mbind, M_bind.
  destruct (each_byte c n f k) as [[n' k']|w]; [|by subst].
  destruct H as [? Hf]. by apply Hm.
Qed.

Lemma quiet_ends {A} (m : M irkbd_cb A) (c : A → M irkbd_cb unit) k :
  quiet m → (∀ a k', frame k' = frame k → c a k' ≠ Stop OutOfFuel) →
  (m ≫= c) k ≠ Stop OutOfFuel.
Proof.
  intros Hm Hc. destruct (Hm k) as (a & k1 & E & F). erewrite bind_ok by exact E. by apply Hc.
Qed.

Lemma frame_loop_ends fuel len n k :
  length (frame k) = 4096%nat → 0 ≤ n ≤ 4096 → 4096 < n + Z.of_nat fuel →
  frame_loop fifo_takes fuel len n k ≠ Stop OutOfFuel.
Proof.
  revert len n k. induction fuel as [|fuel IH]; intros len n k Hk Hn Hf; [lia|].
  cbn [frame_loop]. destruct (0 <? len); [|done].
  destruct (zlookup (frame k) n) as [b|] eqn:E.
  2: { by rewrite (bind_stop _ _ _ _ (frame_at_none n k E)). }
  rewrite (bind_ok _ _ _ _ _ (frame_at_some n k b E)).
  rewrite zlookup_ge in E by lia. apply lookup_lt_Some in E. cbv zeta.
  assert (Hrest : ∀ len' n' k', n + 1 ≤ n' ≤ 4096 → frame k' = frame k →
    frame_loop fifo_takes fuel len' n' k' ≠ Stop OutOfFuel).
  { intros len' n' k' Hn' Hfr. apply IH; [congruence|lia|lia]. }
  destruct (_ || _); [|destruct (_ =? _); [|destruct (_ =? _)]].
  - apply each_byte_ends; [apply quiet_mouse|lia|]. intros n' k' Hn' F.
    apply quiet_ends; [apply quiet_restart|]. intros _ k2 F2.
    apply Hrest; [lia|congruence].
  - apply quiet_ends; [apply quiet_out|]. intros _ k0 F0.
    apply each_byte_ends; [apply quiet_key|rewrite F0; lia|]. intros n' k' Hn' F.
    apply quiet_ends; [apply quiet_restart|]. intros _ k2 F2.
    rewrite F0 in Hn'. apply Hrest; [lia|congruence].
  - apply each_byte_ends; [apply quiet_response|lia|]. intros n' k' Hn' F.
    apply Hrest; [lia|congruence].
  - apply quiet_ends; [apply quiet_out|]. intros _ k2 F2. apply Hrest; [lia|congruence].
Qed.
End ends.

(** the signal handler of the data ends on every frame, also when the length
    byte, which is decremented modulo 256, never meets the end of the subframes:
    either it returns, or it has read past the 4096 bytes of the buffer. *)
Theorem irkbd_data_indication_ends fifo_takes received k :
  length (frame k) = 4096%nat →
  match irkbd_data_indication fifo_takes received k with
  | Ok _ => True
  | Stop w => w ≠ OutOfFuel
  end.
Proof.
  intros Hk. unfold irkbd_data_indication.
  assert (Hfirst : ∃ k1, (match received with
    | None | Some [] => put_out ("Disconnected!" +:+ nl);; modify (set_connected false)
    | Some l => let l := take 2048 l in
        modify (λ k, set_frame (l ++ drop (length l) (frame k)) k)
    end) k = Ok (tt, k1) ∧ length (frame k1) = 4096%nat).
  { destruct received as [[|b l]|]; eexists;
      (split; [unfold put_out, mbind, M_bind, modify; cbv beta zeta; reflexivity|]);
      try done.
    cbn [frame set_frame]. rewrite length_app, length_take, length_drop. lia. }
  destruct Hfirst as (k1 & E1 & L1). erewrite bind_ok by exact E1.
  enough (H : (len ← frame_at 0; frame_loop fifo_takes 4097 len 1) k1 ≠ Stop OutOfFuel)
    by (destruct ((frame_at 0 ≫= _) k1) as [?|w]; [done|congruence]).
  unfold frame_at, mbind, M_bind, get, or_stop. destruct (zlookup _ _); [|done].
  by apply frame_loop_ends.
Qed.

(** ** The state machine *)
Definition irkbd_init : irkbd_cb :=
  mkKbd IRKBD_IDLE false 0 0 0 None (replicate 4096 0) 0 [] [] [] "".

(** where [main] is in its loop: at the call that connects, at each of the two
    assignments of the state, at the start of the timer, at the wait *)
Inductive main_at := AtConnect | AtInitKbd | AtInitMouse | AtTimer | AtWait.

(** a statement of [main]; or, wherever [main] is, a signal: a frame (or the end of the
    connection), the timer *)
Inductive kbd_step (fifo_takes : list Z → bool) : main_at * irkbd_cb → main_at * irkbd_cb → Prop :=
  | step_connect w err k k' :
      irkbd_connect_request w k = Ok (err, k') →
      kbd_step fifo_takes (AtConnect, k) (if truth err then AtConnect else AtInitKbd, k')
  | step_init_kbd k :
      kbd_step fifo_takes (AtInitKbd, k) (AtInitMouse, set_state IRKBD_INIT_KBD k)
  | step_init_mouse k :
      kbd_step fifo_takes (AtInitMouse, k) (AtTimer, set_state IRKBD_INIT_MOUSE k)
  | step_timer k k' :
      irkbd_start_watchdog_timer IRKBD_TIMEOUT 0 k = Ok (tt, k') →
      kbd_step fifo_takes (AtTimer, k) (AtWait, k')
  | step_lost k :
      connected k = false →
      kbd_step fifo_takes (AtWait, k) (AtConnect, set_out (k_out k +:+ "Disconnected!" +:+ nl) k)
  | step_data p received k k' :
      irkbd_data_indication fifo_takes received k = Ok (tt, k') →
      kbd_step fifo_takes (p, k) (p, k')
  | step_alarm p send_ok t k k' :
      watchdog_timer k = Some t → alarm send_ok k = Ok (tt, k') →
      kbd_step fifo_takes (p, k) (p, k').

(** without a signal between them, the statements are [main_connect] *)
Lemma main_steps ft w k k' :
  main_connect w k = Ok (true, k') → rtc (kbd_step ft) (AtConnect, k) (AtWait, k').
Proof.
  unfold main_connect. intros (err & k1 & E1 & H)%bind_ok_inv.
  destruct (truth err) eqn:Et; [by injection H|]. injection H as <-.
  eapply rtc_l; [by eapply step_connect|]. rewrite Et.
  eapply rtc_l; [apply step_init_kbd|]. eapply rtc_l; [apply step_init_mouse|].
  by apply rtc_once, step_timer.
Qed.

Definition kbd_inv_at (p : main_at) (k : irkbd_cb) : Prop :=
  (state k = IRKBD_INIT_KBD → p = AtInitMouse) ∧
  (state k = IRKBD_READY → watchdog_timer k ≠ None) ∧ length (frame k) = 4096%nat.
Abbreviation kbd_inv := (kbd_inv_at AtWait).

Definition keeps_inv_at (p : main_at) {A} (m : M irkbd_cb A) : Prop :=
  ∀ k a k', kbd_inv_at p k → m k = Ok (a, k') → kbd_inv_at p k'.
Abbreviation keeps_inv := (keeps_inv_at AtWait).

Section keeps.
Context {p : main_at}.
#[local] Abbreviation keeps := (keeps_inv_at p).

Lemma inv_ret {A} (a : A) : keeps (mret a).
Proof. by intros k b k' Hk [= <- <-]. Qed.
Lemma inv_halt {A} w : keeps (halt (A:=A) w).
Proof. by intros k b k' Hk [=]. Qed.
Lemma inv_bind {A B} (m : M irkbd_cb A) (c : A → M irkbd_cb B) :
  keeps m → (∀ a, keeps (c a)) → keeps (m ≫= c).
Proof.
  intros Hm Hc k b k' Hk (a & k1 & H1 & H2)%bind_ok_inv. eapply Hc; [|exact H2].
  by eapply Hm.
Qed.
Lemma inv_get : keeps get.
Proof. by intros k b k' Hk [= <- <-]. Qed.
Lemma inv_modify f : (∀ k, kbd_inv_at p k → kbd_inv_at p (f k)) → keeps (modify f).
Proof. intros Hf k b k' Hk [= <- <-]. by apply Hf. Qed.
Lemma inv_or_stop {A} w (o : option A) : keeps (or_stop w o).
Proof. intros k b k' Hk. destruct o; by intros [= <- <-]. Qed.

Ltac keeps_inv :=
  repeat match goal with
  | |- ∀ _, keeps_inv_at _ _ => intro
  | |- keeps_inv_at _ (_ ≫= _) => apply inv_bind; [|intro]
  | |- keeps_inv_at _ (mret _) => apply inv_ret
  | |- keeps_inv_at _ (halt _) => apply inv_halt
  | |- keeps_inv_at _ get => apply inv_get
  | |- keeps_inv_at _ (or_stop _ _) => apply inv_or_stop
  | |- keeps_inv_at _ (when ?b _) => destruct b; unfold when
  | |- keeps_inv_at _ (modify _) =>
      apply inv_modify; intros ? (? & ? & ?); unfold kbd_inv_at; simpl; by auto
  | |- keeps_inv_at _ (match ?x with _ => _ end) => destruct x
  | H : _ |- keeps_inv_at _ _ => apply H
  end.

Lemma inv_response rsp : keeps (irkbd_handle_response rsp).
Proof.
  assert (Hset : ∀ st t, st ≠ IRKBD_INIT_KBD →
    keeps (modify (set_state st);; irkbd_start_watchdog_timer 0 t)).
  { intros st t Hst k a k' (? & ? & ?) [= <- <-]. by repeat split. }
  assert (Hout : ∀ x, keeps (put_out x)) by (unfold put_out; keeps_inv).
  unfold irkbd_handle_response.
  repeat match goal with |- keeps_inv_at _ (if ?b then _ else _) => destruct b end;
    first [apply Hout | apply inv_ret
      | apply inv_bind; [apply Hout|intros _; by apply Hset]
      | unfold irkbd_start_watchdog_timer; keeps_inv].
Qed.
Lemma inv_mouse ft b : keeps (irkbd_handle_mouse ft b).
Proof. apply inv_modify. intros k Hk. by destruct (ft _). Qed.
Lemma inv_key b : keeps (handle_scancode b).
Proof. unfold handle_scancode. keeps_inv. Qed.
Lemma inv_each c n f : (∀ b, keeps (f b)) → keeps (each_byte c n f).
Proof. intros Hf. revert n. induction c; intros n; simpl; unfold frame_at; keeps_inv. Qed.

Lemma inv_loop ft fuel len n : keeps (frame_loop ft fuel len n).
Proof.
  pose proof (λ c n, inv_each c n _ (inv_mouse ft)). pose proof (λ c n, inv_each c n _ inv_key).
  pose proof (λ c n, inv_each c n _ inv_response).
  revert len n. induction fuel as [|fuel IH]; intros len n; simpl;
    unfold frame_at, restart_poll, put_out, irkbd_start_watchdog_timer; keeps_inv.
Qed.

Lemma inv_data ft received : keeps (irkbd_data_indication ft received).
Proof.
  pose proof inv_loop. unfold irkbd_data_indication, put_out, frame_at.
  apply inv_bind; [|keeps_inv]. destruct received as [[|b l]|]; keeps_inv.
  apply inv_modify. intros k (? & ? & ?). split; [done|]. split; [done|]. cbn [frame set_frame].
  rewrite length_app, length_take, length_drop. lia.
Qed.

Lemma inv_connect w : keeps (irkbd_connect_request w).
Proof.
  assert (Hd : ∀ l, keeps (discover_loop l)).
  { induction l; simpl; unfold put_out; keeps_inv. }
  unfold irkbd_connect_request, irkbd_discover_devices, put_out. keeps_inv.
Qed.

Lemma inv_alarm so t k k' :
  kbd_inv_at p k → watchdog_timer k = Some t → alarm so k = Ok (tt, k') → kbd_inv_at p k'.
Proof.
  intros (H1 & H2 & H3) Ht Ha. unfold alarm, irkbd_watchdog_timer_expired,
    irkbd_data_request, put_out, irkbd_start_watchdog_timer in Ha.
  destruct k as [st]; simpl in *. destruct st, so; cbn in Ha; injection Ha as <-;
    by repeat split.
Qed.
Lemma inv_main_connect w : keeps (main_connect w).
Proof.
  intros k b k' H0 Hm. unfold main_connect in Hm. apply bind_ok_inv in Hm as (err & k4 & H4 & Hm).
  apply (inv_connect w) in H4; [|done]. destruct (truth err); [by injection Hm as <- <-|].
  injection Hm as <- <-. destruct H4 as (? & ? & ?). by repeat split.
Qed.

(** away from its state the keyboard is not asked to be initialised *)
Lemma alarm_asks so k k' :
  state k ≠ IRKBD_INIT_KBD → alarm so k = Ok (tt, k') →
  ∃ l, sent k' = sent k ++ l ∧ IRKBD_CMD_INIT_KBD ∉ l.
Proof.
  intros Hs Ha. unfold alarm, irkbd_watchdog_timer_expired,
    irkbd_data_request, put_out, irkbd_start_watchdog_timer in Ha.
  destruct k as [st]; simpl in *.
  destruct st, so; cbn in Ha; try done; injection Ha as <-; cbn; eexists;
    (split; [(symmetry; apply app_nil_r) || reflexivity|]);
    rewrite ?elem_of_cons; by intros ?%elem_of_nil || intros [?|?%elem_of_nil].
Qed.
Lemma at_elsewhere q k : kbd_inv_at p k → p ≠ AtInitMouse → kbd_inv_at q k.
Proof. intros (H1 & H2 & H3) Hp. split; [by intros ->%H1|done]. Qed.
End keeps.

(** C38: in every state that the driver reaches, from any connections, frames and time-outs,
    with the signals between any two statements of the loop of [main] (the call that connects
    and each handler of a signal are taken whole): the state for the initialisation of
    the keyboard lasts only from its assignment to the next statement, so that the
    keyboard is asked to be initialised only by an alarm that comes just there; in the
    state "ready", in which the driver waits to ask for the first poll, the timer runs; and
    the buffer has its 4096 bytes. *)
Theorem kbd_reachable ft p k :
  rtc (kbd_step ft) (AtConnect, irkbd_init) (p, k) →
  (state k = IRKBD_INIT_KBD → p = AtInitMouse) ∧
  (p ≠ AtInitMouse → ∀ so k', alarm so k = Ok (tt, k') →
     ∃ l, sent k' = sent k ++ l ∧ IRKBD_CMD_INIT_KBD ∉ l) ∧
  (state k = IRKBD_READY → watchdog_timer k ≠ None) ∧ length (frame k) = 4096%nat.
Proof.
  intros Hr. enough (H : kbd_inv_at p k).
  { pose proof H as (H1 & H2 & H3). split; [done|]. split; [|done].
    intros Hp so k' Ha. apply (alarm_asks so k k'); [|done]. by intros E%H1. }
  change (kbd_inv_at (p, k).1 (p, k).2). remember (AtConnect, irkbd_init) as x0 eqn:E0.
  assert (H0 : kbd_inv_at x0.1 x0.2) by (by subst). clear E0.
  induction Hr as [x|x1 x2 x3 Hs _ IH]; [done|]. apply IH. clear IH.
  destruct Hs as [w err k1 k2 Hc|k1|k1|k1 k2 Ht|k1 Hc|q r k1 k2 Hd|q so t k1 k2 Ht Ha]; cbn in *.
  - eapply at_elsewhere; [by eapply inv_connect|done].
  - destruct H0 as (H1 & H2 & H3). by repeat split.
  - destruct H0 as (H1 & H2 & H3). by repeat split.
  - injection Ht as <-. destruct H0 as (H1 & H2 & H3). split; [|by split]. by intros ?%H1.
  - destruct H0 as (H1 & H2 & H3). split; [|by split]. by intros ?%H1.
  - by eapply inv_data.
  - by eapply inv_alarm.
Qed.

(** ** Polling goes on *)
Definition answer (rsp : Z) : option (list Z) := Some (frame_bytes [Responses [rsp]]).

(** the timer runs out: it must be running *)
Definition timer_out : M irkbd_cb unit :=
  k ← get;
  match watchdog_timer k with
  | None => halt (Exited 0)
  | Some _ => alarm true
  end.

Fixpoint answered_polls (ft : list Z → bool) (n : nat) : M irkbd_cb unit :=
  match n with
  | O => mret tt
  | S n =>
      irkbd_data_indication ft (answer IRKBD_RSP_RSPN41);;
      timer_out;;
      answered_polls ft n
  end.

Lemma answer_ok ft rsp k :
  length (frame k) = 4096%nat → 0 ≤ rsp < 256 →
  irkbd_data_indication ft (answer rsp) k
  = irkbd_handle_response rsp (set_frame ([2; 1; rsp] ++ drop 3 (frame k)) k).
Proof.
  intros Hk Hr. unfold irkbd_data_indication, answer.
  erewrite bind_ok by reflexivity.
  rewrite (parse_frame_ok ft [Responses [rsp]] (drop 3 (frame k))); [|by repeat constructor..].
  set (k1 := set_frame ([2; 1; rsp] ++ drop 3 (frame k)) k).
  match goal with |- run_subs _ _ ?x = _ => change x with k1 end.
  destruct (quiet_response rsp k1) as ([] & k' & E & _). rewrite E.
  cbn [run_subs run_sub run_bytes]. rewrite !bind_assoc.
  by rewrite (bind_ok _ _ _ _ _ E).
Qed.

Lemma response_poll k :
  ∃ t, irkbd_handle_response IRKBD_RSP_RSPN41 k
    = Ok (tt, set_timer (Some (0, t)) (set_power (s32 (power_save k + 1)) k)).
Proof.
  unfold irkbd_handle_response. change (IRKBD_RSP_RSPN41 =? IRKBD_RSP_RSPN41) with true.
  unfold mbind, M_bind, get, modify. destruct (100 <? _); by eexists.
Qed.

Lemma timer_polling t k :
  state k = IRKBD_POLLING → watchdog_timer k = Some t →
  timer_out k = Ok (tt, set_timer (Some (IRKBD_TIMEOUT, 0))
    (set_sent (sent k ++ [IRKBD_CMD_ENABLE]) k)).
Proof. destruct k. simpl. by intros -> ->. Qed.

Lemma poll_ok ft k :
  state k = IRKBD_POLLING → length (frame k) = 4096%nat →
  ∃ k', (irkbd_data_indication ft (answer IRKBD_RSP_RSPN41);; timer_out) k = Ok (tt, k') ∧
    state k' = IRKBD_POLLING ∧ length (frame k') = 4096%nat ∧
    watchdog_timer k' = Some (IRKBD_TIMEOUT, 0) ∧ sent k' = sent k ++ [IRKBD_CMD_ENABLE].
Proof.
  intros Hst Hk. set (k1 := set_frame ([2; 1; IRKBD_RSP_RSPN41] ++ drop 3 (frame k)) k).
  destruct (response_poll k1) as [t E1].
  assert (E2 : irkbd_data_indication ft (answer IRKBD_RSP_RSPN41) k
    = Ok (tt, set_timer (Some (0, t)) (set_power (s32 (power_save k1 + 1)) k1)))
    by (by rewrite answer_ok).
  rewrite (bind_ok _ _ _ _ _ E2). rewrite (timer_polling (0, t)) by done.
  eexists. split; [reflexivity|]. split; [done|]. split; [|done].
  cbn [frame set_timer set_sent set_power k1 set_frame]. rewrite length_app, length_drop.
  cbn [length]. lia.
Qed.

Lemma answered_polls_ok ft n k :
  state k = IRKBD_POLLING → length (frame k) = 4096%nat →
  ∃ k', answered_polls ft n k = Ok (tt, k') ∧ state k' = IRKBD_POLLING ∧
    ((0 < n)%nat → watchdog_timer k' = Some (IRKBD_TIMEOUT, 0)) ∧
    sent k' = sent k ++ replicate n IRKBD_CMD_ENABLE.
Proof.
  revert k. induction n as [|n IH]; intros k Hst Hk; cbn [answered_polls].
  { exists k. rewrite app_nil_r. by repeat split; try lia. }
  destruct (poll_ok ft k Hst Hk) as (k1 & E1 & S1 & L1 & T1 & P1).
  destruct (IH k1 S1 L1) as (k' & E' & S' & T' & P').
  exists k'. split; [|split; [done|split]].
  - rewrite <- E'. revert E1. unfold mbind, M_bind.
    destruct (irkbd_data_indication _ _ _) as [[[] k0]|]; [|done]. by intros ->.
  - intros _. destruct n; [|by apply T'; lia]. simpl in E'. by injection E' as <-.
  - rewrite P', P1, <- app_assoc. done.
Qed.

(** C39: a device that answers is polled for ever: once connected, whatever
    number [n] of polls it has answered, the driver has sent the set-up of the mouse
    and then [n + 1] polls, each of them when a running timer ran out, it is in the
    polling state, and after the first answer the timer runs again: the next poll
    comes, at the latest after the time-out, even without an answer. *)
Theorem kbd_keeps_polling ft w n k0 k :
  irkbd_connect_request w k0 = Ok (0, k) → length (frame k) = 4096%nat →
  ∃ k', (main_connect w;; timer_out;; irkbd_data_indication ft (answer IRKBD_RSP_MSOK);;
         timer_out;; answered_polls ft n) k0 = Ok (tt, k') ∧
    state k' = IRKBD_POLLING ∧
    ((0 < n)%nat → watchdog_timer k' = Some (IRKBD_TIMEOUT, 0)) ∧
    sent k' = sent k ++ IRKBD_CMD_INIT_MOUSE :: replicate (S n) IRKBD_CMD_ENABLE.
Proof.
  intros Hc Hk. unfold main_connect. rewrite bind_assoc, (bind_ok _ _ _ _ _ Hc). cbv beta.
  change (truth 0) with false. cbv iota.
  set (k1 := set_timer (Some (IRKBD_TIMEOUT, 0)) (set_state IRKBD_INIT_MOUSE k)).
  set (k2 := set_sent (sent k ++ [IRKBD_CMD_INIT_MOUSE])
    (set_out (k_out k +:+ "Initializing mouse: ") (set_timer None k1))).
  assert (E2 : timer_out k1 = Ok (tt, k2)) by done.
  set (k3 := set_timer (Some (0, 100000)) (set_state IRKBD_READY
    (set_out (k_out k2 +:+ "OK!" +:+ nl)
      (set_frame ([2; 1; IRKBD_RSP_MSOK] ++ drop 3 (frame k2)) k2)))).
  assert (E3 : irkbd_data_indication ft (answer IRKBD_RSP_MSOK) k2 = Ok (tt, k3))
    by (by rewrite answer_ok).
  set (k4 := set_state IRKBD_POLLING (set_sent (sent k3 ++ [IRKBD_CMD_ENABLE])
    (set_out (k_out k3 +:+ "Running ..." +:+ nl) (set_timer None k3)))).
  assert (E4 : timer_out k3 = Ok (tt, k4)) by done.
  destruct (answered_polls_ok ft n k4) as (k' & E' & S' & T' & P'); [done| |].
  { cbn [frame k4 k3 k2 k1 set_state set_sent set_out set_timer set_frame].
    rewrite length_app, length_drop. cbn [length]. lia. }
  exists k'. split.
  - change ((timer_out;; irkbd_data_indication ft (answer IRKBD_RSP_MSOK);; timer_out;;
      answered_polls ft n) k1 = Ok (tt, k')).
    by rewrite (bind_ok _ _ _ _ _ E2), (bind_ok _ _ _ _ _ E3), (bind_ok _ _ _ _ _ E4).
  - split; [done|]. split; [done|]. rewrite P'.
    cbn [sent k4 k3 k2 k1 set_state set_sent set_out set_timer set_frame].
    by rewrite <- !app_assoc.
Qed.

(** ** Witnesses *)
Definition ir660 : world :=
  mkWorld (Some [mkDevice "phone" 1 2; mkDevice "IR-660" 0xcafe 7]) true true (Some 2042).
Definition example_subs : list subframe :=
  [Mouse false [1; 2; 3; 4; 5; 6]; Keys [0x1e]; Responses [IRKBD_RSP_RSPN41]].


Lemma irkbd_recv_error_replays_witness :
  let k := set_frame (frame_bytes example_subs ++ [0]) irkbd_init in
  irkbd_data_indication (λ _, true) None k
  = run_subs (λ _, true) example_subs
      (set_connected false (set_out ("" +:+ "Disconnected!" +:+ nl) k)).
Proof.
  intros k. apply (irkbd_recv_error_replays (λ _, true) None example_subs [0] k);
    [by left|by repeat constructor|simpl; lia|done].
Defined.

Lemma irkbd_data_indication_ends_witness :
  match irkbd_data_indication (λ _, true) (Some [1; 0x7f]) irkbd_init with
  | Ok _ => True
  | Stop w => w ≠ OutOfFuel
  end.
Proof. by apply (irkbd_data_indication_ends (λ _, true) (Some [1; 0x7f]) irkbd_init). Defined.

Lemma kbd_reachable_witness :
  ∃ k, main_connect ir660 irkbd_init = Ok (true, k) ∧ length (frame k) = 4096%nat.
Proof.
  eexists. split; [reflexivity|]. eapply (kbd_reachable (λ _, true) AtWait).
  by apply (main_steps _ ir660).
Defined.

(** the connection is lost and made again while the timer runs, and it runs out between
    the two assignments: the keyboard is asked *)
Definition after {A} (m : M irkbd_cb A) (k : irkbd_cb) : irkbd_cb :=
  match m k with Ok (_, k') => k' | Stop _ => k end.
Definition race : list irkbd_cb :=
  let k1 := after (main_connect ir660) irkbd_init in
  let k2 := after (irkbd_data_indication (λ _, true) None) k1 in
  let k3 := set_out (k_out k2 +:+ "Disconnected!" +:+ nl) k2 in
  let k4 := after (irkbd_connect_request ir660) k3 in
  let k5 := set_state IRKBD_INIT_KBD k4 in
  [k1; k2; k3; k4; k5; after (alarm true) k5].
Definition race_at (n : nat) : irkbd_cb := default irkbd_init (race !! n).

Example keyboard_race :
  rtc (kbd_step (λ _, true)) (AtConnect, irkbd_init) (AtInitMouse, race_at 5) ∧
  sent (race_at 5) = [IRKBD_CMD_INIT_KBD].
Proof.
  split; [|by vm_compute]. transitivity (AtWait, race_at 0).
  { apply (main_steps _ ir660). by vm_compute. }
  apply rtc_l with (AtWait, race_at 1); [apply (step_data _ _ None); by vm_compute|].
  assert (race_at 2 = set_out (k_out (race_at 1) +:+ "Disconnected!" +:+ nl) (race_at 1)) as E2
    by by vm_compute.
  assert (race_at 4 = set_state IRKBD_INIT_KBD (race_at 3)) as E4 by by vm_compute.
  apply rtc_l with (AtConnect, race_at 2).
  { rewrite E2. apply step_lost. by vm_compute. }
  apply rtc_l with (AtInitKbd, race_at 3); [apply (step_connect _ ir660 0); by vm_compute|].
  apply rtc_l with (AtInitMouse, race_at 4).
  { rewrite E4. apply step_init_kbd. }
  apply rtc_once, (step_alarm _ _ true (IRKBD_TIMEOUT, 0)); by vm_compute.
Qed.

Definition connected_kbd : irkbd_cb :=
  match irkbd_connect_request ir660 irkbd_init with
  | Ok (_, k) => k
  | Stop _ => irkbd_init
  end.

Lemma kbd_keeps_polling_witness :
  ∃ k', (main_connect ir660;; timer_out;;
         irkbd_data_indication (λ _, true) (answer IRKBD_RSP_MSOK);;
         timer_out;; answered_polls (λ _, true) 2) irkbd_init = Ok (tt, k') ∧
    state k' = IRKBD_POLLING ∧
    ((0 < 2)%nat → watchdog_timer k' = Some (IRKBD_TIMEOUT, 0)) ∧
    sent k' = [] ++ IRKBD_CMD_INIT_MOUSE :: replicate 3 IRKBD_CMD_ENABLE.
Proof.
  by apply (kbd_keeps_polling (λ _, true) ir660 2 irkbd_init connected_kbd).
Defined.
