(* ===== verification/Tosh1800.v ===== *)
(** * tosh1800-smcinit: the ALi M1533 bridge and the LPC47N227
    (smcinit/tosh1800-smcinit.c) *)
From Stdlib Require Import String Ascii.
From S2P Require Import Prelude CInt Printf CLib PortIO.
Local Open Scope string_scope.
Local Open Scope list_scope.
Local Open Scope Z_scope.

Definition PROGNAME := "tosh1800-smcinit".
Definition AUTHOR := "Daniele Peri".
Definition AUTHOR_EMAIL := "<peri@csai.unipa.it>".
Definition LPC47N227_CFGACCESSKEY := 0x55.
Definition LPC47N227_CFGEXITKEY := 0xaa.
Definition LPC47N227_FDCPOWERVALIDCONF_REG := 0x00.
Definition LPC47N227_VALID_MASK := 0x80.
Definition LPC47N227_UART12POWER_REG := 0x02.
Definition LPC47N227_UART2POWERDOWN_MASK := 0x80.
Definition LPC47N227_APMBOOTDRIVE_REG := 0x07.
Definition LPC47N227_UART2AUTOPWRDOWN_MASK := 0x20.
Definition LPC47N227_UARTMODE0C_REG := 0x0c.
Definition LPC47N227_UART2MODE_MASK := 0x38.
Definition LPC47N227_UART2MODE_VAL_COM := 0x00.
Definition LPC47N227_UART2MODE_VAL_IRDA := 0x08.
Definition LPC47N227_DEVICEID_REG := 0x0d.
Definition LPC47N227_DEVICEID_DEFVAL := 0x5a.
Definition LPC47N227_REVISIONID_REG := 0x0e.
Definition LPC47N227_UART2BASEADDR_REG := 0x25.
Definition LPC47N227_UARTIRQSELECT_REG := 0x28.
Definition LPC47N227_UART2IRQSELECT_MASK := 0x0f.
Definition LPC47N227_UART1IRQSELECT_MASK := 0xf0.
Definition LPC47N227_FIRBASEADDR_REG := 0x2b.
Definition LPC47N227_FIRDMASELECT_REG := 0x2c.
Definition LPC47N227_FIRDMASELECT_MASK := 0x0f.
Definition DEF_CFGBASE := 0x2e.
Definition DEF_SIRBASE := 0x2e8.
Definition DEF_FIRBASE := 0x2f8.
Definition DEF_DMA := 0x03.
Definition DEF_IRQ := 0x07.
Definition DEF_ISABRIDGE_VENDOR_ID := 0x10b9.
Definition DEF_ISABRIDGE_DEVICE_ID := 0x1533.
Definition ACTION_CONFIG_ALI1533_PORTS_DECODING := 1.
Definition ACTION_INIT_SMC_IRCC := 2.
Definition ACTION_PRINT_ALI1533_CONFIGURATION := 4.
Definition DEF_ACTIONS := Z.lor ACTION_CONFIG_ALI1533_PORTS_DECODING ACTION_INIT_SMC_IRCC.

Record port_decoding_access_info := mkPort {
  port : Z;
  port_reg : Z;
  or_mask : Z }.

(** the entries before the one with port 0 *)
Definition ali1533_ports : list port_decoding_access_info := [
  mkPort 0x130 0xb0 0x80;
  mkPort 0x178 0xb0 0x80;
  mkPort 0x3f8 0xb4 0x80;
  mkPort 0x2f8 0xb4 0x30;
  mkPort 0x2e8 0xb4 0x08].

Record smc_chip_model := mkModel {
  model_name : string;
  version_id : Z }.

(** every entry has the configuration function [configure_47N227_smc_ircc] *)
Definition smc_chips : list smc_chip_model := [mkModel "LPC47N227" 0x5a].

(** the table of the options: name, with an argument or not, letter, help *)
Definition options : list (string * bool * string * string) := [
  ("skip-decoding-cfg", false, "a", tab +:+ "skip ISA bridge decoding configuration");
  ("skip-smc-ircc-cfg", false, "b", tab +:+ "skip SMC-IRCC configuration");
  ("vendor", true, "v", tab +:+ "look for the specified ISA bridge PCI vendor id");
  ("device", true, "x", tab +:+ "look for the specified ISA bridge PCI device id");
  ("cfgbase", true, "c", tab +:+ "set SMC-IRCC IO cfgbase address");
  ("sirbase", true, "s", tab +:+ "set SMC-IRCC IO sirbase address");
  ("firbase", true, "f", tab +:+ "set SMC-IRCC IO firbase address");
  ("dma", true, "m", tab +:+ tab +:+ "set SMC-IRCC DMA channel");
  ("irq", true, "i", tab +:+ tab +:+ "set SMC-IRCC IRQ");
  ("print", false, "p", tab +:+ tab +:+ "print ISA bridge configuration");
  ("version", false, "V", tab +:+ tab +:+ "show program version");
  ("help", false, "h", tab +:+ tab +:+ "show this help")].

(** the variables of [main] *)
Record tosh_args := mkTosh {
  cfgbase : Z;
  sirbase : Z;
  firbase : Z;
  dma : Z;
  irq : Z;
  isabridge_vendor_id : Z;
  isabridge_device_id : Z;
  actions : Z }.

Definition default_args : tosh_args :=
  mkTosh DEF_CFGBASE DEF_SIRBASE DEF_FIRBASE DEF_DMA DEF_IRQ DEF_ISABRIDGE_VENDOR_ID
    DEF_ISABRIDGE_DEVICE_ID DEF_ACTIONS.

Definition find_ali1533_port_access_info (p : Z) : option port_decoding_access_info :=
  head (filter (λ i, port i = p) ali1533_ports).

Definition find_smc_chip_model (v : Z) : option smc_chip_model :=
  head (filter (λ m, version_id m = v) smc_chips).

Section tosh1800.
Context {D : Type} `{!PortDev D} `{!PciDev D}.
(** config.h, and the text of [errno] for [%m] and [strerror] *)
Variable VERSION errno_text : string.
Variable ulong_max : Z.
Variable uid : Z.
(** the result of [ioperm(cfgbase, 2, 1)] *)
Variable ioperm_fails : bool.
(** the PCI library: an access, the devices on the buses, and the filter *)
Variable pci_alloc_ok : bool.
Variable pci_devices : list pci_addr.
Variable pci_filter_match : Z → Z → pci_addr → bool.

(** ** The bridge *)
Fixpoint print_ports (a : pci_addr) (l : list port_decoding_access_info) : M (io D) unit :=
  match l with
  | [] => mret tt
  | p :: l =>
      onebyte ← pci_read_byte a (port_reg p);
      printf ("port 0x" +:+ fmt_x (port p) +:+ " "
        +:+ (if tst onebyte (or_mask p) then "enabled" else "disabled") +:+ nl);;
      print_ports a l
  end.

Definition print_ali1533_port_status (a : pci_addr) : M (io D) unit :=
  printf ("ALi 1533 Decoding status:" +:+ nl);;
  print_ports a ali1533_ports.

Definition set_ali1533_port (a : pci_addr) (p decode : Z) : M (io D) Z :=
  match find_ali1533_port_access_info p with
  | None => mret (-1)
  | Some info =>
      previousval ← pci_read_byte a (port_reg info);
      let and_mask := u8 (Z.lnot (or_mask info)) in
      let onebyte := Z.land previousval and_mask in
      let onebyte := if truth decode then Z.lor onebyte (or_mask info) else onebyte in
      pci_write_byte a (port_reg info) onebyte;;
      mret (if tst previousval (or_mask info) then 1 else 0)
  end.

Definition find_pci_device (vendor device : Z) : option pci_addr :=
  head (filter (λ a, pci_filter_match vendor device a = true) pci_devices).

Fixpoint enable_ports (a : pci_addr) (ports : list Z) : M (io D) unit :=
  match ports with
  | [] => mret tt
  | p :: ports =>
      port_previous_mode ← set_ali1533_port a p 1;
      (if port_previous_mode =? 1
       then syslog ("port 0x" +:+ fmt_x (u32 p) +:+ " was already enabled")
       else syslog ("enabled decoding of port 0x" +:+ fmt_x (u32 p)));;
      enable_ports a ports
  end.

Definition configure_ali1533_smc_ports_decoding (vendor_id device_id firbase sirbase : Z)
    (print : bool) : M (io D) Z :=
  if negb pci_alloc_ok then mret 0
  else
    let ids := "PCI device 0x" +:+ fmt_x (u32 vendor_id) +:+ ":0x" +:+ fmt_x (u32 device_id) in
    match find_pci_device vendor_id device_id with
    | Some a =>
        (if print then print_ali1533_port_status a
         else
           syslog (ids +:+ " found at " +:+ fmt_02x (pci_bus a) +:+ ":" +:+ fmt_02x (pci_dev a)
             +:+ ":" +:+ fmt_02x (pci_func a) +:+ ". Configuring:");;
           enable_ports a [sirbase; firbase]);;
        syslog (ids +:+ ". Configuration ended");;
        mret 1
    | None => syslog (ids +:+ " not found");; mret 0
    end.

(** ** The chip *)

(** [outb(r, cfgbase); onebyte = inb(cfgbase + 1); outb(f(onebyte), cfgbase + 1)] *)
Definition change_reg (cfgbase r : Z) (f : Z → Z) : M (io D) unit :=
  outb r cfgbase;;
  onebyte ← inb (cfgbase + 1);
  outb (f onebyte) (cfgbase + 1).

Definition ioperm_error : M (io D) Z :=
  syslog ("failed to obtain ioperm for cfgbase " +:+ errno_text);;
  eprintf (PROGNAME +:+ ": failed to obtain ioperm for cfgbase: " +:+ errno_text +:+ nl);;
  mret 0.

Definition configure_47N227_smc_ircc (cfgbase sirbase firbase dma irq : Z) : M (io D) Z :=
  if ioperm_fails then ioperm_error
  else
    outb LPC47N227_CFGACCESSKEY cfgbase;;
    outb LPC47N227_UART2BASEADDR_REG cfgbase;;
    outb (u8 (Z.shiftr sirbase 2)) (cfgbase + 1);;
    outb LPC47N227_FIRBASEADDR_REG cfgbase;;
    outb (u8 (Z.shiftr firbase 3)) (cfgbase + 1);;
    outb LPC47N227_FIRDMASELECT_REG cfgbase;;
    outb (Z.land dma LPC47N227_FIRDMASELECT_MASK) (cfgbase + 1);;
    change_reg cfgbase LPC47N227_UARTIRQSELECT_REG (λ b,
      Z.lor (Z.land b LPC47N227_UART1IRQSELECT_MASK)
        (Z.land irq LPC47N227_UART2IRQSELECT_MASK));;
    syslog ("set sirbase=0x" +:+ fmt_x (u32 sirbase) +:+ ", firbase=0x" +:+ fmt_x (u32 firbase)
      +:+ ", dma=" +:+ fmt_d dma +:+ ", irq=" +:+ fmt_d irq);;
    (* onebyte &= ~MASK | IRDA: the "or" comes before the "and" *)
    change_reg cfgbase LPC47N227_UARTMODE0C_REG (λ b,
      u8 (Z.land b (Z.lor (Z.lnot LPC47N227_UART2MODE_MASK) LPC47N227_UART2MODE_VAL_IRDA)));;
    change_reg cfgbase LPC47N227_APMBOOTDRIVE_REG (λ b,
      Z.lor b LPC47N227_UART2AUTOPWRDOWN_MASK);;
    change_reg cfgbase LPC47N227_UART12POWER_REG (λ b,
      Z.lor b LPC47N227_UART2POWERDOWN_MASK);;
    syslog "set UART 2 IR mode to IrDA, auto powerdown on and powered up";;
    change_reg cfgbase LPC47N227_FDCPOWERVALIDCONF_REG (λ b, Z.lor b LPC47N227_VALID_MASK);;
    outb LPC47N227_CFGEXITKEY cfgbase;;
    mret 1.

Definition configure_smc_ircc (cfgbase sirbase firbase dma irq : Z) : M (io D) Z :=
  if ioperm_fails then ioperm_error
  else
    outb LPC47N227_CFGACCESSKEY cfgbase;;
    outb LPC47N227_DEVICEID_REG cfgbase;;
    v ← inb (cfgbase + 1);
    outb LPC47N227_REVISIONID_REG cfgbase;;
    revision_id ← inb (cfgbase + 1);
    outb LPC47N227_CFGEXITKEY cfgbase;;
    match find_smc_chip_model v with
    | Some m =>
        let chip := model_name m +:+ " chip (ver 0x" +:+ fmt_x v +:+ ", rev 0x"
          +:+ fmt_x revision_id +:+ ")" in
        syslog (chip +:+ " found. Configuring:");;
        retval ← configure_47N227_smc_ircc cfgbase sirbase firbase dma irq;
        syslog (chip +:+ " configuration " +:+ (if truth retval then "" else "un")
          +:+ "successfully ended");;
        mret 1
    | None => syslog ("Unknown chip version 0x" +:+ fmt_x v);; mret 0
    end.

(** ** [main] *)
Definition print_version : M (io D) unit := printf (PROGNAME +:+ " " +:+ VERSION +:+ nl).

Fixpoint print_options (os : list (string * bool * string * string)) : M (io D) unit :=
  match os with
  | [] => mret tt
  | (name, arg, c, help) :: os =>
      printf ("-" +:+ c +:+ ", --" +:+ name +:+ (if arg : bool then "=VALUE" else ""));;
      printf (help +:+ nl);;
      print_options os
  end.

Definition print_usage : M (io D) unit :=
  printf (PROGNAME +:+ " " +:+ VERSION +:+ " " +:+ AUTHOR +:+ nl +:+ "Usage: " +:+ PROGNAME
    +:+ " [options]" +:+ nl +:+ "Options:" +:+ nl);;
  print_options options;;
  printf ("Report suggestions and bugs to: " +:+ AUTHOR +:+ " " +:+ AUTHOR_EMAIL +:+ nl).

(** [strtoul(optarg, NULL, 0)], stored into an int *)
Definition number (optarg : string) : Z := s32 (strtoul ulong_max optarg).1.

Definition option_case (c : ascii) (optarg : string) (a : tosh_args) : M (io D) tosh_args :=
  let n := number optarg in
  let set_actions v := mkTosh (cfgbase a) (sirbase a) (firbase a) (dma a) (irq a)
    (isabridge_vendor_id a) (isabridge_device_id a) v in
  if Ascii.eqb c "a" then
    mret (set_actions (Z.land (actions a) (Z.lnot ACTION_CONFIG_ALI1533_PORTS_DECODING)))
  else if Ascii.eqb c "b" then
    mret (set_actions (Z.land (actions a) (Z.lnot ACTION_INIT_SMC_IRCC)))
  else if Ascii.eqb c "p" then
    mret (set_actions (Z.lor (actions a) ACTION_PRINT_ALI1533_CONFIGURATION))
  else if Ascii.eqb c "v" then
    mret (mkTosh (cfgbase a) (sirbase a) (firbase a) (dma a) (irq a) n
      (isabridge_device_id a) (actions a))
  else if Ascii.eqb c "x" then
    mret (mkTosh (cfgbase a) (sirbase a) (firbase a) (dma a) (irq a) (isabridge_vendor_id a)
      n (actions a))
  else if Ascii.eqb c "c" then
    mret (mkTosh n (sirbase a) (firbase a) (dma a) (irq a) (isabridge_vendor_id a)
      (isabridge_device_id a) (actions a))
  else if Ascii.eqb c "s" then
    mret (mkTosh (cfgbase a) n (firbase a) (dma a) (irq a) (isabridge_vendor_id a)
      (isabridge_device_id a) (actions a))
  else if Ascii.eqb c "f" then
    mret (mkTosh (cfgbase a) (sirbase a) n (dma a) (irq a) (isabridge_vendor_id a)
      (isabridge_device_id a) (actions a))
  else if Ascii.eqb c "m" then
    mret (mkTosh (cfgbase a) (sirbase a) (firbase a) n (irq a) (isabridge_vendor_id a)
      (isabridge_device_id a) (actions a))
  else if Ascii.eqb c "i" then
    mret (mkTosh (cfgbase a) (sirbase a) (firbase a) (dma a) n (isabridge_vendor_id a)
      (isabridge_device_id a) (actions a))
  else if Ascii.eqb c "V" then print_version;; halt (Exited 0)
  else if Ascii.eqb c "h" then print_usage;; halt (Exited 0)
  else mret a.

Fixpoint parse_args (l : list (ascii * string)) (a : tosh_args) : M (io D) tosh_args :=
  match l with
  | [] => mret a
  | (c, optarg) :: l => a ← option_case c optarg a; parse_args l a
  end.

(** the result is the status of [exit(!retval)] *)
Definition tosh1800 (l : list (ascii * string)) : M (io D) Z :=
  a ← parse_args l default_args;
  if negb (uid =? 0) then
    eprintf (PROGNAME +:+ " can only be used by root" +:+ nl);; halt (Exited 1)
  else
    when (tst (actions a) (Z.lor ACTION_INIT_SMC_IRCC ACTION_CONFIG_ALI1533_PORTS_DECODING))
      (syslog (PROGNAME +:+ " " +:+ VERSION +:+ " " +:+ AUTHOR));;
    retval ← (if tst (actions a) ACTION_INIT_SMC_IRCC
              then configure_smc_ircc (cfgbase a) (sirbase a) (firbase a) (dma a) (irq a)
              else mret 0);
    retval ← (if tst (actions a) ACTION_CONFIG_ALI1533_PORTS_DECODING && truth retval
              then configure_ali1533_smc_ports_decoding (isabridge_vendor_id a)
                (isabridge_device_id a) (firbase a) (sirbase a)
                (tst (actions a) ACTION_PRINT_ALI1533_CONFIGURATION)
              else mret retval);
    mret (b2z (negb (truth retval))).
End tosh1800.

(** ** The bridge *)
Section bridge.
Context {D : Type} `{!PciDev D} (a : pci_addr) `{!PciConfig D a}.
#[local] Abbreviation bit s i := (tst (pci_reg (dev s) (port_reg i)) (or_mask i)).

Lemma read_pci {B} r (k : Z → M (io D) B) s :
  (pci_read_byte a r ≫= k) s = k (pci_reg (dev s) r) s.
Proof.
  unfold pci_read_byte, pci_access, mbind, M_bind, mret, M_ret. rewrite pci_reg_read.
  rewrite u8_small by apply pci_reg_byte. by destruct s.
Qed.

Lemma ali_entry p i : find_ali1533_port_access_info p = Some i →
  port i = p ∧ i ∈ ali1533_ports.
Proof.
  unfold find_ali1533_port_access_info. intros H.
  assert (Hin : i ∈ filter (λ i, port i = p) ali1533_ports).
  { destruct (filter _ _); [done|]. injection H as ->. by left. }
  by apply list_elem_of_filter in Hin.
Qed.

(** the bits of a mask, set or cleared: the register, and the bits around them *)
Lemma mask_bits m old dec :
  m ∈ [0x80; 0x30; 0x08] → is_byte old →
  let v := if truth dec then Z.lor (Z.land old (u8 (Z.lnot m))) m
           else Z.land old (u8 (Z.lnot m)) in
  is_byte v ∧ tst v m = truth dec ∧
  Z.land v (u8 (Z.lnot m)) = Z.land old (u8 (Z.lnot m)) ∧
  Z.land v m = (if truth dec then m else 0).
Proof.
  intros Hm Hb.
  pose proof (byte_forall (λ b, forallb (λ m, forallb (λ d : bool,
    let v := if d then Z.lor (Z.land b (u8 (Z.lnot m))) m else Z.land b (u8 (Z.lnot m)) in
    (0 <=? v) && (v <? 256) && Bool.eqb (tst v m) d
    && (Z.land v (u8 (Z.lnot m)) =? Z.land b (u8 (Z.lnot m)))
    && (Z.land v m =? if d then m else 0)) [true; false]) [0x80; 0x30; 0x08])) as H.
  specialize (H ltac:(by vm_compute) old Hb). rewrite forallb_forall in H.
  apply list_elem_of_In, H in Hm. rewrite forallb_forall in Hm.
  specialize (Hm (truth dec)). cbv zeta in *.
  rewrite !andb_true_iff, Z.leb_le, Z.ltb_lt, eqb_true_iff, !Z.eqb_eq in Hm.
  destruct Hm as ((((? & ?) & ?) & ?) & ?); [destruct (truth dec); simpl; auto|].
  done.
Qed.

(** [set_ali1533_port] on a port of the table tells whether any of its bits
    was set, sets all of them or clears all of them, and changes no other bit of
    the bridge; a port that is not in the table changes nothing and gives -1. *)
Theorem set_ali1533_port_spec p decode (s : io D) :
  match find_ali1533_port_access_info p with
  | Some i =>
      ∃ s', set_ali1533_port a p decode s = Ok (b2z (bit s i), s') ∧
        Z.land (pci_reg (dev s') (port_reg i)) (or_mask i)
          = (if truth decode then or_mask i else 0) ∧
        Z.land (pci_reg (dev s') (port_reg i)) (u8 (Z.lnot (or_mask i)))
          = Z.land (pci_reg (dev s) (port_reg i)) (u8 (Z.lnot (or_mask i))) ∧
        ∀ r, r ≠ port_reg i → pci_reg (dev s') r = pci_reg (dev s) r
  | None => set_ali1533_port a p decode s = Ok (-1, s)
  end.
Proof.
  unfold set_ali1533_port.
  destruct (find_ali1533_port_access_info p) as [i|] eqn:Ei; [|done].
  apply ali_entry in Ei as [_ Hi]. rewrite read_pci.
  destruct (mask_bits (or_mask i) (pci_reg (dev s) (port_reg i)) decode) as (Hb & _ & H3 & H4);
    [|apply pci_reg_byte|].
  { apply (list_elem_of_fmap_2 or_mask) in Hi. cbn in Hi.
    repeat setoid_rewrite elem_of_cons in Hi. rewrite !elem_of_cons. tauto. }
  cbv zeta in *. eexists. split; [|split; [|split]].
  - unfold pci_write_byte, pci_access, mbind, M_bind, mret, M_ret. cbn.
    by destruct (tst _ _).
  - cbn. rewrite u8_small, pci_reg_write, Z.eqb_refl by done. exact H4.
  - cbn. rewrite u8_small, pci_reg_write, Z.eqb_refl by done. exact H3.
  - intros r Hr. cbn. rewrite u8_small, pci_reg_write by done.
    by rewrite (proj2 (Z.eqb_neq _ _) Hr).
Qed.
End bridge.

(** ** The chip *)
Section chip.
Context {D : Type} `{!PortDev D} (base : Z) (keys : list Z) (latch : Z → Z → Z → Z)
  `{!ConfigPort D base (base + 1) keys latch}
  `{!ConfigKeys D base (base + 1) keys latch LPC47N227_CFGACCESSKEY LPC47N227_CFGEXITKEY}.
Hypothesis base_ok : 0 ≤ base < 65535.
Hypothesis no_keys : ∀ r, r < 0x30 → r ∉ keys.
(** the registers keep what is written to them *)
Hypothesis keep : ∀ r old v, latch r old v = v.
Variable errno_text : string.
#[local] Abbreviation rest := (at_rest base (base + 1) keys latch LPC47N227_CFGACCESSKEY LPC47N227_CFGEXITKEY).
#[local] Abbreviation conf := (configured base (base + 1) keys latch).

(** the registers after the set-up *)
Definition ircc_regs (sir fir dma irq : Z) (R : Z → Z) : Z → Z :=
  let R := with_reg 0x2c (Z.land dma 0x0f) (with_reg 0x2b (u8 (Z.shiftr fir 3))
    (with_reg 0x25 (u8 (Z.shiftr sir 2)) R)) in
  let R := with_reg 0x28 (u8 (Z.lor (Z.land (R 0x28) 0xf0) (Z.land irq 0x0f))) R in
  let R := with_reg 0x0c (u8 (Z.land (R 0x0c) (Z.lnot 0x30))) R in
  let R := with_reg 0x07 (u8 (Z.lor (R 0x07) 0x20)) R in
  let R := with_reg 0x02 (u8 (Z.lor (R 0x02) 0x80)) R in
  with_reg 0x00 (u8 (Z.lor (R 0x00) 0x80)) R.

Ltac tosh_set H s1 C1 T1 :=
  set_reg base (base + 1) keys latch keep ltac:(by apply no_keys) H s1 C1 T1.
Ltac tosh_change H s1 C1 T1 :=
  match type of H with
  | configured _ _ _ _ ?R ?s =>
      match goal with
      | |- context [(change_reg base ?r ?f ≫= ?k) s] =>
          destruct (change_step base (base + 1) keys latch ltac:(lia) ltac:(lia) keep r f k R s H)
            as (s1 & C1 & T1 & E);
          [done|by apply no_keys|];
          change (change_at base (base + 1) r f) with (change_reg base r f) in E;
          rewrite E; clear E
      end
  end.

Ltac tosh_open H s1 C1 T1 :=
  match type of H with
  | at_rest _ _ _ _ _ _ ?R ?s =>
      match goal with
      | |- context [(outb _ base ≫= ?k) s] =>
          destruct (open_chip base (base + 1) keys latch LPC47N227_CFGACCESSKEY
            LPC47N227_CFGEXITKEY ltac:(lia) ltac:(done) k R s H) as (s1 & C1 & T1 & ->)
      end
  end.
Ltac tosh_close H s1 C1 T1 :=
  match type of H with
  | configured _ _ _ _ ?R ?s =>
      match goal with
      | |- context [(outb _ base ≫= ?k) s] =>
          destruct (close_chip base (base + 1) keys latch LPC47N227_CFGACCESSKEY
            LPC47N227_CFGEXITKEY ltac:(lia) ltac:(done) k R s H) as (s1 & C1 & T1 & ->)
      end
  end.

Lemma conf_log t R s :
  conf R s → conf R (mkIo (dev s) (io_log s) (io_out s) (io_err s) (io_sys s +:+ t +:+ nl)).
Proof. done. Qed.

Lemma configure_47N227_ok sir fir dma irq R (s : io D) :
  rest R s →
  ∃ s', configure_47N227_smc_ircc errno_text false base sir fir dma irq s = Ok (1, s') ∧
    rest (ircc_regs sir fir dma irq R) s' ∧ io_out s' = io_out s ∧ io_err s' = io_err s.
Proof.
  intros Hr. unfold configure_47N227_smc_ircc.
  tosh_open Hr s0 C0 T0.
  tosh_set C0 s1 C1 T1. tosh_set C1 s2 C2 T2. tosh_set C2 s3 C3 T3.
  tosh_change C3 s4 C4 T4.
  rewrite syslog_step. apply (conf_log ("set sirbase=0x" +:+ fmt_x (u32 sir)
    +:+ ", firbase=0x" +:+ fmt_x (u32 fir) +:+ ", dma=" +:+ fmt_d dma +:+ ", irq=" +:+ fmt_d irq))
    in C4.
  tosh_change C4 s5 C5 T5. tosh_change C5 s6 C6 T6. tosh_change C6 s7 C7 T7.
  rewrite syslog_step. apply (conf_log
    "set UART 2 IR mode to IrDA, auto powerdown on and powered up") in C7.
  tosh_change C7 s' C8 T8. tosh_close C8 s9 C9 T9.
  exists s9. split; [done|].
  rewrite !u8_u8, (u8_small (Z.land dma _)) in C9
    by (pose proof (land_range dma 15 ltac:(done)) as Hd;
      change 15 with LPC47N227_FIRDMASELECT_MASK in Hd; unfold LPC47N227_FIRDMASELECT_MASK in *; lia).
  split; [exact C9|]. clear -T0 T1 T2 T3 T4 T5 T6 T7 T8 T9.
  unfold same_text in *. simpl in *. intuition congruence.
Qed.

Lemma configure_smc_ircc_ok sir fir dma irq R (s : io D) :
  rest R s →
  ∃ s', configure_smc_ircc errno_text false base sir fir dma irq s
      = Ok (b2z (R 0x0d =? 0x5a), s') ∧
    rest (if R 0x0d =? 0x5a then ircc_regs sir fir dma irq R else R) s' ∧
    io_out s' = io_out s ∧ io_err s' = io_err s ∧
    (R 0x0d ≠ 0x5a →
      io_sys s' = io_sys s +:+ "Unknown chip version 0x" +:+ fmt_x (R 0x0d) +:+ nl).
Proof.
  intros Hr. unfold configure_smc_ircc.
  tosh_open Hr s0 C0 T0.
  match goal with |- context [(outb ?r base ≫= λ _, inb _ ≫= ?k) s0] =>
    destruct (get_reg base (base + 1) keys latch ltac:(lia) ltac:(lia) r k R s0 C0)
      as (s1 & A1 & T1 & ->); [done|by apply no_keys|] end.
  apply at_configured in A1.
  match goal with |- context [(outb ?r base ≫= λ _, inb _ ≫= ?k) s1] =>
    destruct (get_reg base (base + 1) keys latch ltac:(lia) ltac:(lia) r k R s1 A1)
      as (s2 & A2 & T2 & ->); [done|by apply no_keys|] end.
  apply at_configured in A2. tosh_close A2 s3 C3 T3.
  unfold find_smc_chip_model, smc_chips, LPC47N227_DEVICEID_REG.
  rewrite filter_cons, filter_nil. cbn [version_id].
  destruct (R 0x0d =? 0x5a) eqn:E; [apply Z.eqb_eq in E|apply Z.eqb_neq in E].
  - rewrite decide_True by done. cbn [head]. rewrite syslog_step.
    match goal with |- context [(configure_47N227_smc_ircc _ _ _ _ _ _ _ ≫= _) ?s] =>
      destruct (configure_47N227_ok sir fir dma irq R s C3) as (s4 & E4 & C4 & T4) end.
    erewrite bind_ok by exact E4. eexists. split; [reflexivity|]. split; [exact C4|].
    unfold same_text in *. simpl in *. intuition congruence.
  - rewrite decide_False by done. cbn [head]. rewrite syslog_step.
    eexists. split; [reflexivity|]. split; [exact C3|].
    unfold same_text in *. cbn [io_out io_err io_sys]. rewrite !str_app_assoc.
    intuition congruence.
Qed.

(** on a chip that is not in its configuration state and keeps what is written
    to it, [configure_smc_ircc] asks for the device: an LPC47N227 gets all the
    settings of the options (SIR port divided by 4, FIR port by 8, channel and
    interrupt cut to four bits), with the other bits of the shared registers kept
    and the UART powered; any other device keeps every register and is reported as
    unknown with result 0.  In both cases the configuration state is left. *)
Theorem configure_smc_ircc_spec sir fir dma irq R (s : io D) :
  rest R s →
  ∃ s', configure_smc_ircc errno_text false base sir fir dma irq s
      = Ok (b2z (R 0x0d =? 0x5a), s') ∧
    rest (if R 0x0d =? 0x5a then ircc_regs sir fir dma irq R else R) s' ∧
    io_out s' = io_out s ∧ io_err s' = io_err s ∧
    (R 0x0d ≠ 0x5a →
      io_sys s' = io_sys s +:+ "Unknown chip version 0x" +:+ fmt_x (R 0x0d) +:+ nl).
Proof. apply configure_smc_ircc_ok. Qed.

(** the set-up says that the second UART is in IrDA mode, but it only keeps
    the bit that selects it: [onebyte &= ~MASK | IRDA] masks the mode and sets
    nothing.  A chip in standard COM mode stays in it; and the other two bits of
    the mode are cleared. *)
Theorem ircc_mode_kept sir fir dma irq R (s : io D) :
  rest R s → R 0x0d = LPC47N227_DEVICEID_DEFVAL →
  ∃ R' s', configure_smc_ircc errno_text false base sir fir dma irq s = Ok (1, s') ∧
    rest R' s' ∧
    Z.land (R' LPC47N227_UARTMODE0C_REG) LPC47N227_UART2MODE_MASK
      = Z.land (R LPC47N227_UARTMODE0C_REG) LPC47N227_UART2MODE_VAL_IRDA.
Proof.
  intros Hr Hid. destruct (configure_smc_ircc_ok sir fir dma irq R s Hr)
    as (s' & E & C & _). rewrite Hid in *. cbn in E.
  eexists _, s'. split; [exact E|]. split; [exact C|]. cbn.
  change (R LPC47N227_UARTMODE0C_REG) with (R 12). unfold u8.
  change 256 with (2 ^ 8). rewrite <- Z.land_ones by done. rewrite <- !Z.land_assoc. done.
Qed.
End chip.

(** ** The program *)
Section program.
Context {D : Type} `{!PortDev D} `{!PciDev D}.
Variable VERSION errno_text : string.
Variable ulong_max : Z.
Variable ioperm_fails pci_alloc_ok : bool.
Variable pci_devices : list pci_addr.
Variable pci_filter_match : Z → Z → pci_addr → bool.
#[local] Abbreviation run uid :=
  (tosh1800 VERSION errno_text ulong_max uid ioperm_fails pci_alloc_ok pci_devices pci_filter_match).

(** an option that does not end the program *)
Definition goes_on (o : ascii * string) : Prop := o.1 ≠ "V"%char ∧ o.1 ≠ "h"%char.

Lemma parse_args_init l a (s : io D) :
  Forall goes_on l →
  ∃ a', parse_args VERSION ulong_max l a s = Ok (a', s) ∧
    tst (actions a') ACTION_INIT_SMC_IRCC
      = tst (actions a) ACTION_INIT_SMC_IRCC && negb (existsb (λ o, Ascii.eqb o.1 "b") l).
Proof.
  intros Hl. revert a. induction Hl as [|[c o] l [H1 H2] _ IH]; intros a.
  { exists a. by rewrite andb_true_r. }
  cbn [parse_args existsb fst] in *.
  assert (∃ a1, option_case VERSION ulong_max c o a s = Ok (a1, s) ∧
    tst (actions a1) ACTION_INIT_SMC_IRCC
      = tst (actions a) ACTION_INIT_SMC_IRCC && negb (Ascii.eqb c "b")) as (a1 & E1 & T1).
  { unfold option_case. cbv zeta.
    repeat match goal with
    | |- context [Ascii.eqb c ?x] => destruct (Ascii.eqb_spec c x) as [?|?]; [subst c|]
    end; try done; eexists; (split; [reflexivity|]); cbn [actions negb];
    rewrite ?andb_true_r, ?andb_false_r; try done; change ACTION_INIT_SMC_IRCC with (2 ^ 1);
    rewrite !tst_bit, ?Z.land_spec, ?Z.lor_spec by done;
    destruct (Z.testbit (actions a) 1); reflexivity. }
  destruct (IH a1) as (a' & E2 & T2). exists a'. erewrite bind_ok by exact E1. split; [exact E2|].
  rewrite T2, T1, negb_orb. by rewrite andb_assoc.
Qed.

(** with the option that skips the chip, the bridge is skipped too, since the
    result of the chip's set-up starts at 0: the program ends with status 1, having
    read and written nothing, whatever the hardware and the other options. *)
Theorem tosh1800_skips_bridge l (s : io D) :
  Forall goes_on l → existsb (λ o, Ascii.eqb o.1 "b") l = true →
  ∃ s', run 0 l s = Ok (1, s') ∧ dev s' = dev s ∧ io_log s' = io_log s ∧
    io_out s' = io_out s ∧ io_err s' = io_err s.
Proof.
  intros Hl Hb. unfold tosh1800.
  destruct (parse_args_init l default_args s Hl) as (a & E & T).
  rewrite Hb, andb_false_r in T. erewrite bind_ok by exact E. cbn [Z.eqb negb].
  rewrite T. unfold when.
  destruct (tst (actions a) (Z.lor _ _)), (tst (actions a) ACTION_CONFIG_ALI1533_PORTS_DECODING);
    eexists; split; try reflexivity; done.
Qed.
End program.

(** ** Examples *)
(** the set-up as the tool runs without options on a Satellite 1800: the chip is in
    COM mode and stays in it *)
Definition satellite1800 : io board :=
  start_io (mkBoard (mkChip 0x2e false 0 (λ r, if r =? 0x0d then 0x5a else 0x00)) (λ _, 0)).

Example tosh1800_run :
  ∃ s, tosh1800 "0.4" "" 0xffffffff 0 false true [mkPci 0 7 0] (λ v d _, (v =? 0x10b9) && (d =? 0x1533))
      [] satellite1800 = Ok (0, s) ∧
    map (chip_reg (board_chip (dev s))) [0x25; 0x2b; 0x2c; 0x28; 0x0c; 0x07; 0x02; 0x00]
      = [0xba; 0x5f; 3; 7; 0; 0x20; 0x80; 0x80] ∧
    map (board_words (dev s)) [0xb0; 0xb4] = [0; 0x38].
Proof. eexists. split; [vm_compute; reflexivity|]. by vm_compute. Qed.

Lemma configure_smc_ircc_spec_witness :
  let s := start_io (mkChip 0x2e false 0 (λ r, if r =? 0x0d then 0x5a else 0x00)) in
  let R := chip_reg (dev s) in
  ∃ s', configure_smc_ircc "" false 0x2e 0x2e8 0x2f8 3 7 s = Ok (b2z (R 0x0d =? 0x5a), s') ∧
    at_rest 0x2e 0x2f [0x55; 0xaa] (λ _ _ v, v) 0x55 0xaa
      (if R 0x0d =? 0x5a then ircc_regs 0x2e8 0x2f8 3 7 R else R) s' ∧
    io_out s' = io_out s ∧ io_err s' = io_err s ∧
    (R 0x0d ≠ 0x5a →
      io_sys s' = io_sys s +:+ "Unknown chip version 0x" +:+ fmt_x (R 0x0d) +:+ nl).
Proof.
  intros s R.
  apply (configure_smc_ircc_spec 0x2e [0x55; 0xaa] (λ _ _ v, v) ltac:(lia) chip_keys_ok
    (λ _ _ _, eq_refl) "" 0x2e8 0x2f8 3 7 R s). by repeat split.
Defined.

Lemma ircc_mode_kept_witness :
  let s := start_io (mkChip 0x2e false 0 (λ r, if r =? 0x0d then 0x5a else 0x00)) in
  let R := chip_reg (dev s) in
  ∃ R' s', configure_smc_ircc "" false 0x2e 0x2e8 0x2f8 3 7 s = Ok (1, s') ∧
    at_rest 0x2e 0x2f [0x55; 0xaa] (λ _ _ v, v) 0x55 0xaa R' s' ∧
    Z.land (R' LPC47N227_UARTMODE0C_REG) LPC47N227_UART2MODE_MASK
      = Z.land (R LPC47N227_UARTMODE0C_REG) LPC47N227_UART2MODE_VAL_IRDA.
Proof.
  intros s R.
  apply (ircc_mode_kept 0x2e [0x55; 0xaa] (λ _ _ v, v) ltac:(lia) chip_keys_ok
    (λ _ _ _, eq_refl) "" 0x2e8 0x2f8 3 7 R s); by repeat split.
Defined.

Lemma tosh1800_skips_bridge_witness :
  ∃ s', tosh1800 "0.4" "" 0xffffffff 0 false true [mkPci 0 7 0] (λ _ _ _, true)
      [("b"%char, ""); ("s"%char, "0x3f8")] satellite1800 = Ok (1, s') ∧
    dev s' = dev satellite1800 ∧ io_log s' = [] ∧ io_out s' = "" ∧ io_err s' = "".
Proof.
  apply (tosh1800_skips_bridge "0.4" "" 0xffffffff false true [mkPci 0 7 0] (λ _ _ _, true)
    [("b"%char, ""); ("s"%char, "0x3f8")] satellite1800); [|done].
  by repeat constructor.
Defined.
