(* ===== verification/Tosh2450.v ===== *)
(** * tosh2450-smcinit: set-up of a Toshiba Satellite 2450
    (smcinit/tosh2450-smcinit.c)

    A fixed sequence of settings for the bridge, an Intel 82801DB, and for the SMC
    47N227 behind it, each after a look at what is there. *)
From Stdlib Require Import String.
From S2P Require Import Prelude CInt Printf PortIO.
Local Open Scope string_scope.
Local Open Scope list_scope.
Local Open Scope Z_scope.

Definition BUS_LPC := 0x00.
Definition LPC_DEV := 0x1f.
Definition LPC_FUNC := 0x00.
Definition VID := 0x00.
Definition INTEL_VID := 0x8086.
Definition DID := 0x02.
Definition i82801DB_LPC_DID := 0x24C0.
Definition PCI_DMA_C := 0x90.
Definition COM_DEC := 0xe0.
Definition LPC_EN := 0xe6.
Definition GEN2_DEC := 0xec.
Definition SMC_BASE := 0x2e.

Section tosh2450.
Context {D : Type} `{!PortDev D} `{!PciDev D}.

(** the chip: [Some i] is an identification that is not that of the 47N227 *)
Definition set_chip : M (io D) (option Z) :=
  outb 0x55 SMC_BASE;;
  outb 0x0d SMC_BASE;;
  i ← inb (SMC_BASE + 1);
  if i =? 0x5a then
    outb 0x24 SMC_BASE;; outb 0x00 (SMC_BASE + 1);;
    outb 0x25 SMC_BASE;; outb 0xFE (SMC_BASE + 1);;
    change_at SMC_BASE (SMC_BASE + 1) 0x28 (λ i, Z.lor (Z.land i 0x00) 0x07);;
    outb 0x2B SMC_BASE;; outb 0x26 (SMC_BASE + 1);;
    outb 0x2C SMC_BASE;; outb 0x01 (SMC_BASE + 1);;
    change_at SMC_BASE (SMC_BASE + 1) 0x0C (λ i, Z.lor (Z.land i 0xC7) 0x88);;
    change_at SMC_BASE (SMC_BASE + 1) 0x07 (λ i, Z.lor i 0x20);;
    change_at SMC_BASE (SMC_BASE + 1) 0x0a (λ i, Z.lor i 0x40);;
    change_at SMC_BASE (SMC_BASE + 1) 0x02 (λ _, 0x80);;
    change_at SMC_BASE (SMC_BASE + 1) 0x00 (λ i, Z.lor i 0x80);;
    outb 0xaa SMC_BASE;;
    mret None
  else mret (Some i).

Definition lpc : pci_addr := mkPci BUS_LPC LPC_DEV LPC_FUNC.

(** the bridge: its decoding of the ports and its DMA channel *)
Definition set_bridge : M (io D) unit :=
  pci_write_byte lpc COM_DEC 0x10;;
  twobyte ← pci_read_word lpc LPC_EN;
  pci_write_word lpc LPC_EN (Z.lor (Z.land twobyte 0xfffd) 0x0001);;
  twobyte ← pci_read_word lpc PCI_DMA_C;
  pci_write_word lpc PCI_DMA_C (Z.lor twobyte 0xc00c);;
  pci_write_word lpc GEN2_DEC 0x131.

Definition main : M (io D) Z :=
  twobyte ← pci_read_word lpc VID;
  if negb (twobyte =? INTEL_VID) then
    eprintf ("tosh2450-smcinit IO hub vendor " +:+ fmt_x twobyte +:+ " not Intel ("
      +:+ fmt_x INTEL_VID +:+ ")" +:+ nl);;
    mret 1
  else
    twobyte ← pci_read_word lpc DID;
    if twobyte =? i82801DB_LPC_DID then
      eprintf ("tosh2450-smcinit Found IO hub device 82801DB (" +:+ fmt_x i82801DB_LPC_DID
        +:+ ")" +:+ nl);;
      set_bridge;;
      r ← set_chip;
      match r with
      | None => mret 0
      | Some i =>
          eprintf ("tosh2450-smcinit " +:+ fmt_x i +:+ " not SMC 47N227 (0x5a)." +:+ nl);;
          mret 1
      end
    else
      eprintf ("tosh2450-smcinit IO hub device " +:+ fmt_x twobyte +:+ " not supported." +:+ nl);;
      mret 1.
End tosh2450.

(** ** What the machine ends up with *)

(** A bridge and a chip that do not meet: the words of the bridge keep what is
    written to them, at even addresses they do not overlap, a byte is written to
    the low half of its word and leaves the high half; the ports of the chip do not touch them, and they do
    not touch a chip that is at rest. *)
Class Bridge (D : Type) `{!PortDev D, !PciDev D} (a : pci_addr) (idx dat : Z) (keys : list Z)
    (latch : Z → Z → Z → Z) `{!ConfigPort D idx dat keys latch} (key_in key_out : Z)
    `{!ConfigKeys D idx dat keys latch key_in key_out} := {
  word : D → Z → Z;
  word_range d r : 0 ≤ word d r < 65536;
  word_in d r : pci_word_in a r d = (word d r, d);
  word_out d r v x : 0 ≤ v < 65536 → Z.even r = true → Z.even x = true →
    word (pci_word_out a r v d) x = if x =? r then v else word d x;
  byte_out d r v x : is_byte v → Z.even r = true → Z.even x = true →
    word (pci_byte_out a r v d) x
    = if x =? r then 256 * (word d x / 256) + v else word d x;
  word_out_rest d r v : closed d →
    closed (pci_word_out a r v d) ∧ ∀ x, reg (pci_word_out a r v d) x = reg d x;
  byte_out_rest d r v : closed d →
    closed (pci_byte_out a r v d) ∧ ∀ x, reg (pci_byte_out a r v d) x = reg d x;
  port_in_word d p x : word (snd (dev_in p d)) x = word d x;
  port_out_word d p v x : word (dev_out v p d) x = word d x }.

(** the registers of the chip after the set-up *)
Definition smc_settings (R : Z → Z) : Z → Z :=
  let R := with_reg 0x2C 0x01 (with_reg 0x2B 0x26 (with_reg 0x28 0x07
    (with_reg 0x25 0xFE (with_reg 0x24 0x00 R)))) in
  let R := with_reg 0x0C (u8 (Z.lor (Z.land (R 0x0C) 0xC7) 0x88)) R in
  let R := with_reg 0x07 (u8 (Z.lor (R 0x07) 0x20)) R in
  let R := with_reg 0x0a (u8 (Z.lor (R 0x0a) 0x40)) R in
  let R := with_reg 0x02 0x80 R in
  with_reg 0x00 (u8 (Z.lor (R 0x00) 0x80)) R.

Section machine.
Context {D : Type} `{!PortDev D, !PciDev D} (keys : list Z) (latch : Z → Z → Z → Z)
  `{!ConfigPort D SMC_BASE (SMC_BASE + 1) keys latch}
  `{!ConfigKeys D SMC_BASE (SMC_BASE + 1) keys latch 0x55 0xaa}
  `{!Bridge D lpc SMC_BASE (SMC_BASE + 1) keys latch 0x55 0xaa}.
Hypothesis no_keys : ∀ r, r < 0x30 → r ∉ keys.
Hypothesis keep : ∀ r old v, latch r old v = v.
#[local] Abbreviation rest := (at_rest SMC_BASE (SMC_BASE + 1) keys latch 0x55 0xaa).
#[local] Abbreviation conf := (configured SMC_BASE (SMC_BASE + 1) keys latch).
#[local] Abbreviation words s := (word (a:=lpc) (dev s)).

Ltac base := first [lia | unfold SMC_BASE; lia].

(** *** The chip *)
Ltac write H s1 C1 T1 :=
  match type of H with
  | configured _ _ _ _ ?R ?s0 =>
      match goal with
      | |- context [(outb ?r SMC_BASE ≫= λ _, outb ?v (SMC_BASE + 1) ≫= ?k) s0] =>
          destruct (set_reg_step SMC_BASE (SMC_BASE + 1) keys latch ltac:(base) ltac:(base) keep
            r v k R s0 H) as (s1 & C1 & T1 & ->);
          [done|by apply no_keys|apply at_configured in C1]
      | |- context [(change_at _ _ ?r ?f ≫= ?k) s0] =>
          destruct (change_step SMC_BASE (SMC_BASE + 1) keys latch ltac:(base) ltac:(base) keep
            r f k R s0 H) as (s1 & C1 & T1 & ->);
          [done|by apply no_keys|]
      end
  end.

Lemma set_chip_ok R (s : io D) : rest R s → R 0x0d = 0x5a →
  ∃ s', set_chip s = Ok (None, s') ∧ rest (smc_settings R) s' ∧ same_text s s'.
Proof.
  intros Hc Hid. unfold set_chip.
  edestruct (open_chip SMC_BASE (SMC_BASE + 1) keys latch 0x55 0xaa) as (s1 & C1 & T1 & ->);
    [base|done|exact Hc|].
  edestruct (get_reg SMC_BASE (SMC_BASE + 1) keys latch) as (s2 & C2 & T2 & ->);
    [base..|exact C1|done|by apply no_keys|].
  rewrite Hid. cbn [Z.eqb Pos.eqb]. apply at_configured in C2.
  write C2 s3 C3 T3. write C3 s4 C4 T4. write C4 s5 C5 T5. write C5 s6 C6 T6.
  write C6 s7 C7 T7. write C7 s11 Ce Te. write Ce s9 C9 T9. write C9 s12 Ca Ta.
  write Ca s13 Cb Tb. write Cb s14 Cc Tc.
  edestruct (close_chip SMC_BASE (SMC_BASE + 1) keys latch 0x55 0xaa) as (s15 & Cd & Td & ->);
    [base|done|exact Cc|].
  exists s15. split; [done|]. split; [|repeat split; cfg_text].
  rewrite Z.land_0_r in Cd. exact Cd.
Qed.

Lemma set_chip_other R (s : io D) : rest R s → R 0x0d ≠ 0x5a →
  ∃ s', set_chip s = Ok (Some (R 0x0d), s') ∧ conf R s' ∧ same_text s s'.
Proof.
  intros Hc Hid. unfold set_chip.
  edestruct (open_chip SMC_BASE (SMC_BASE + 1) keys latch 0x55 0xaa) as (s1 & C1 & T1 & ->);
    [base|done|exact Hc|].
  edestruct (get_reg SMC_BASE (SMC_BASE + 1) keys latch) as (s2 & C2 & T2 & ->);
    [base..|exact C1|done|by apply no_keys|].
  rewrite (proj2 (Z.eqb_neq _ _) Hid). exists s2. split; [done|].
  split; [by eapply at_configured|]. by eapply same_text_trans.
Qed.

(** its ports leave the bridge alone *)
Definition keeps_words {A} (m : M (io D) A) : Prop :=
  ∀ s a s', m s = Ok (a, s') → ∀ x, words s' x = words s x.
Lemma words_ret {A} (a : A) : keeps_words (mret a).
Proof. by intros s ? s' [= _ <-]. Qed.
Lemma words_bind {A B} (m : M (io D) A) (k : A → M (io D) B) :
  keeps_words m → (∀ a, keeps_words (k a)) → keeps_words (m ≫= k).
Proof.
  intros Hm Hk s b s' E x. unfold mbind, M_bind in E.
  destruct (m s) as [[a s1]|] eqn:E1; [|done]. by rewrite (Hk _ _ _ _ E), (Hm _ _ _ E1).
Qed.
Lemma words_outb v p : keeps_words (outb v p).
Proof. intros s [] s' [= <-] x. apply port_out_word. Qed.
Lemma words_inb p : keeps_words (inb p).
Proof.
  intros s v s' E x. unfold inb in E. pose proof (port_in_word (dev s) (u16 p) x) as Hw.
  destruct (dev_in (u16 p) (dev s)) as [? d]. by injection E as _ <-.
Qed.
Lemma set_chip_keeps : keeps_words set_chip.
Proof.
  unfold set_chip, change_at.
  repeat first [apply words_outb | apply words_inb | apply words_ret
    | apply words_bind; [|intros] | case_match].
Qed.

(** *** The bridge *)
Definition bridge_settings (W W' : Z → Z) : Prop :=
  W' COM_DEC = 256 * (W COM_DEC / 256) + 0x10 ∧
  W' LPC_EN = Z.lor (Z.land (W LPC_EN) 0xfffd) 0x0001 ∧
  W' PCI_DMA_C = Z.lor (W PCI_DMA_C) 0xc00c ∧ W' GEN2_DEC = 0x131 ∧
  ∀ x, Z.even x = true → x ∉ [COM_DEC; LPC_EN; PCI_DMA_C; GEN2_DEC] → W' x = W x.

Lemma read_word {B} r (k : Z → M (io D) B) s :
  (pci_read_word lpc r ≫= k) s = k (words s r) s.
Proof.
  unfold pci_read_word, pci_access, mbind, M_bind. rewrite word_in.
  rewrite u16_small by apply word_range. by destruct s.
Qed.

Lemma write_word {B} r v (k : unit → M (io D) B) R s :
  rest R s → Z.even r = true →
  ∃ s', (pci_write_word lpc r v ≫= k) s = k tt s' ∧ rest R s' ∧ same_text s s' ∧
    io_log s' = io_log s ∧
    ∀ x, Z.even x = true → words s' x = if x =? r then u16 v else words s x.
Proof.
  intros [Hc HR] Hr.
  exists (mkIo (pci_word_out lpc r (u16 v) (dev s)) (io_log s) (io_out s) (io_err s) (io_sys s)).
  split; [done|]. destruct (word_out_rest (dev s) r (u16 v) Hc) as [Hc' Hr'].
  split; [split; [done|]; intros y; cbn; by rewrite Hr'|]. split; [done|]. split; [done|].
  intros x Hx. apply word_out; [apply u16_range|done|done].
Qed.

Lemma write_byte {B} r v (k : unit → M (io D) B) R s :
  rest R s → Z.even r = true →
  ∃ s', (pci_write_byte lpc r v ≫= k) s = k tt s' ∧ rest R s' ∧ same_text s s' ∧
    io_log s' = io_log s ∧ ∀ x, Z.even x = true →
    words s' x = if x =? r then 256 * (words s x / 256) + u8 v else words s x.
Proof.
  intros [Hc HR] Hr.
  exists (mkIo (pci_byte_out lpc r (u8 v) (dev s)) (io_log s) (io_out s) (io_err s) (io_sys s)).
  split; [done|]. destruct (byte_out_rest (dev s) r (u8 v) Hc) as [Hc' Hr'].
  split; [split; [done|]; intros y; cbn; by rewrite Hr'|]. split; [done|]. split; [done|].
  intros x Hx. apply byte_out; [apply u8_range|done|done].
Qed.

Ltac bridge H s1 E C T L W :=
  rewrite ?bind_assoc, ?read_word, ?bind_assoc;
  match goal with
  | |- context [(pci_write_byte lpc ?r ?v ≫= ?k) _] =>
      destruct (write_byte r v k _ _ H eq_refl) as (s1 & E & C & T & L & W)
  | |- context [(pci_write_word lpc ?r ?v ≫= ?k) _] =>
      destruct (write_word r v k _ _ H eq_refl) as (s1 & E & C & T & L & W)
  end; rewrite E; clear E.

Lemma word_log2 x : 0 ≤ x → x < 65536 ↔ Z.log2 x < 16.
Proof.
  intros Hx. destruct (decide (x = 0)) as [->|]; [done|]. apply (Z.log2_lt_pow2 x 16). lia.
Qed.
Lemma or_word a b : 0 ≤ a < 65536 → 0 ≤ b < 65536 → u16 (Z.lor a b) = Z.lor a b.
Proof.
  intros [Ha Ha'] [Hb Hb']. assert (0 ≤ Z.lor a b) by (apply Z.lor_nonneg; lia).
  apply u16_small. split; [done|]. rewrite word_log2 in * by done.
  rewrite Z.log2_lor by lia. lia.
Qed.
Lemma and_word a b : 0 ≤ a < 65536 → 0 ≤ b → 0 ≤ Z.land a b < 65536.
Proof.
  intros [Ha Ha'] Hb. assert (0 ≤ Z.land a b) by (apply Z.land_nonneg; lia).
  split; [done|]. rewrite word_log2 in * by done.
  pose proof (Z.log2_land a b Ha Hb). lia.
Qed.

Lemma set_bridge_ok {B} (k : unit → M (io D) B) R (s : io D) : rest R s →
  ∃ s', (set_bridge ≫= k) s = k tt s' ∧ rest R s' ∧ bridge_settings (words s) (words s') ∧
    same_text s s' ∧ io_log s' = io_log s.
Proof.
  intros Hc. unfold set_bridge.
  bridge Hc s1 E C1 T1 L1 W1. bridge C1 s2 E C2 T2 L2 W2. bridge C2 s3 E C3 T3 L3 W3.
  bridge C3 s4 E C4 T4 L4 W4.
  exists s4. split; [done|]. split; [done|].
  split; [|split; [repeat split; cfg_text|congruence]].
  unfold bridge_settings. rewrite !W4, !W3, !W2 by done. cbn.
  rewrite (W1 COM_DEC eq_refl), (W1 LPC_EN eq_refl), (W1 PCI_DMA_C eq_refl). cbn.
  rewrite !or_word by first [done | apply word_range | apply and_word; [apply word_range|done]].
  split; [done|]. split; [done|]. split; [done|]. split; [done|].
  intros x Hx Hn. rewrite !not_elem_of_cons in Hn. destruct Hn as (N1 & N2 & N3 & N4 & _).
  rewrite <- Z.eqb_neq in N1, N2, N3, N4. pose proof (W1 x Hx) as E4. rewrite N1 in E4.
  by rewrite W4, N4, W3, N3, W2, N2 by done.
Qed.

#[local] Abbreviation found := ("tosh2450-smcinit Found IO hub device 82801DB (24c0)" +:+ nl).

(** C31: On a Satellite 2450 (an Intel bridge 82801DB and, at 0x2e, a chip at rest that answers
    0x5a), the program ends with 0 and says which bridge it found.  Of the bridge: the low byte
    of COM_DEC is 0x10 (COMA at 0x3f8) and its high byte is as it was; in LPC_EN bit 0 (COMA) is
    set, bit 1 (COMB) cleared, and no other bit changed; in the DMA word the bits 0xc00c are set
    and no other changed; GEN2_DEC, written whole, is 0x131 (a second range at 0x130); every
    other word at an even address is as it was.  Of the chip: the registers 0x24, 0x25, 0x28,
    0x2B, 0x2C and 0x02 are written whole (no first UART, the second at 0x3f8, interrupt 7 for it
    and none for the first, the FIR port at 0x130, channel 1, power), in 0x0C the mode bits
    become HPSIR at high speed, one bit is set in each of 0x07, 0x0a and 0x00, with the other bits as
    they were; every other register is as it was; and the chip is at rest again. *)
Theorem tosh2450_ok R (s : io D) :
  rest R s → R 0x0d = 0x5a → words s VID = INTEL_VID → words s DID = i82801DB_LPC_DID →
  ∃ s', main s = Ok (0, s') ∧ rest (smc_settings R) s' ∧
    bridge_settings (words s) (words s') ∧
    io_out s' = io_out s ∧ io_err s' = io_err s +:+ found.
Proof.
  intros Hc Hid Hv Hd. unfold main. rewrite read_word, Hv. cbn [negb Z.eqb INTEL_VID Pos.eqb].
  rewrite read_word, Hd. cbn [Z.eqb i82801DB_LPC_DID Pos.eqb].
  erewrite bind_ok by reflexivity.
  match goal with |- context [(set_bridge ≫= ?k) ?s1] =>
    destruct (set_bridge_ok k R s1 Hc) as (s2 & -> & C2 & W2 & T2 & _) end.
  destruct (set_chip_ok R s2 C2 Hid) as (s3 & E3 & C3 & T3).
  erewrite bind_ok by exact E3. exists s3. split; [done|]. split; [done|].
  destruct T2 as (T2 & U2 & _), T3 as (T3 & U3 & _). rewrite T3, T2, U3, U2. cbn [io_out io_err].
  split; [|split; [done|by vm_compute]].
  destruct W2 as (B1 & B2 & B3 & B4 & B5). unfold bridge_settings.
  rewrite !(set_chip_keeps _ _ _ E3). do 4 (split; [done|]).
  intros x Hx Hn. rewrite (set_chip_keeps _ _ _ E3). by apply B5.
Qed.

(** On another machine it ends with 1: an unknown bridge is told
    and nothing is touched, not even a port is read; behind a known bridge an unknown chip is told,
    no register of it is written, but the bridge has its new settings and the
    chip is left in the configuration state. *)
Theorem tosh2450_refused R (s : io D) :
  rest R s →
  words s VID ≠ INTEL_VID ∨ words s DID ≠ i82801DB_LPC_DID ∨ R 0x0d ≠ 0x5a →
  ∃ s', main s = Ok (1, s') ∧ io_out s' = io_out s ∧
    (if (words s VID =? INTEL_VID) && (words s DID =? i82801DB_LPC_DID) then
       conf R s' ∧ bridge_settings (words s) (words s') ∧
       io_err s' = io_err s +:+ found +:+ "tosh2450-smcinit " +:+ fmt_x (R 0x0d)
         +:+ " not SMC 47N227 (0x5a)." +:+ nl
     else dev s' = dev s ∧ io_log s' = io_log s ∧
       io_err s' = io_err s +:+ "tosh2450-smcinit IO hub "
         +:+ (if words s VID =? INTEL_VID
              then "device " +:+ fmt_x (words s DID) +:+ " not supported."
              else "vendor " +:+ fmt_x (words s VID) +:+ " not Intel (8086)") +:+ nl).
Proof.
  intros Hc Hother. unfold main. rewrite read_word.
  destruct (words s VID =? INTEL_VID) eqn:Ev; cbn [negb andb].
  2: { eexists. split; [reflexivity|]. cbn [io_out io_err dev io_log]. split; [done|].
       split; [done|]. split; [done|]. rewrite !str_app_assoc. reflexivity. }
  rewrite read_word. destruct (words s DID =? i82801DB_LPC_DID) eqn:Ed; cbn [andb].
  2: { eexists. split; [reflexivity|]. cbn [io_out io_err dev io_log]. split; [done|].
       split; [done|]. split; [done|]. rewrite !str_app_assoc. reflexivity. }
  assert (R 0x0d ≠ 0x5a) as Hid by (apply Z.eqb_eq in Ev, Ed; tauto).
  erewrite bind_ok by reflexivity.
  match goal with |- context [(set_bridge ≫= ?k) ?s1] =>
    destruct (set_bridge_ok k R s1 Hc) as (s2 & -> & C2 & W2 & T2 & _) end.
  destruct (set_chip_other R s2 C2 Hid) as (s3 & E3 & C3 & T3).
  erewrite bind_ok by exact E3. eexists. split; [reflexivity|]. cbn [io_out io_err dev].
  destruct T2 as (T2 & U2 & _), T3 as (T3 & U3 & _). rewrite T3, T2, U3, U2. cbn [io_out io_err].
  split; [done|]. split; [exact C3|]. split; [|rewrite !str_app_assoc; reflexivity].
  destruct W2 as (B1 & B2 & B3 & B4 & B5). unfold bridge_settings. cbn [dev].
  rewrite !(set_chip_keeps _ _ _ E3). do 4 (split; [done|]).
  intros x Hx Hn. rewrite (set_chip_keeps _ _ _ E3). by apply B5.
Qed.
End machine.

(** ** A Satellite 2450 *)
#[export] Program Instance board_chip_config (b : Z) :
  ConfigPort board b (b + 1) [0x55; 0xaa] (λ _ _ v, v) :=
  {| opened d := chip_open (board_chip d) = true ∧ chip_base (board_chip d) = b;
     selected d := chip_sel (board_chip d);
     reg d := chip_reg (board_chip d) |}.
Next Obligation. intros b [c w] v. apply (cfg_index (ConfigPort := chip_config b) c v). Qed.
Next Obligation.
  intros b [c w] Ho. cbn [dev_in board_ports board_chip].
  by rewrite (cfg_read (ConfigPort := chip_config b) c Ho).
Qed.
Next Obligation. intros b [c w] r _. apply u8_range. Qed.
Next Obligation. intros b [c w] v. apply (cfg_write (ConfigPort := chip_config b) c v). Qed.

#[export] Program Instance board_chip_keys (b : Z) :
  ConfigKeys board b (b + 1) [0x55; 0xaa] (λ _ _ v, v) 0x55 0xaa :=
  {| closed d := chip_open (board_chip d) = false ∧ chip_base (board_chip d) = b |}.
Next Obligation. intros b [c w]. apply (key_opens (ConfigKeys := chip_keys b) c). Qed.
Next Obligation. intros b [c w]. apply (key_closes (ConfigKeys := chip_keys b) c). Qed.

#[export] Program Instance board_bridge (b : Z) (a : pci_addr) :
  Bridge board a b (b + 1) [0x55; 0xaa] (λ _ _ v, v) 0x55 0xaa :=
  {| word d r := u16 (board_words d r) |}.
Next Obligation. intros. apply u16_range. Qed.
Next Obligation. done. Qed.
Next Obligation.
  intros b a d r v x Hv _ _. cbn. destruct (x =? r); [by apply u16_small|done].
Qed.
Next Obligation.
  intros b a d r v x Hv _ _. cbn. destruct (x =? r); [|done].
  unfold is_byte in Hv. unfold u16. pose proof (Z.mod_pos_bound (board_words d x) 65536 ltac:(lia)).
  Z.to_euclidean_division_equations; lia.
Qed.
Next Obligation. done. Qed.
Next Obligation. done. Qed.
Next Obligation.
  intros b a [c w] p x. cbn [dev_in board_ports board_chip board_words].
  by destruct (dev_in p c).
Qed.
Next Obligation. done. Qed.

Definition satellite2450 (did chip_id : Z) : board :=
  mkBoard (mkChip SMC_BASE false 0 (λ r, if r =? 0x0d then chip_id else 0x38))
    (λ r, if r =? VID then INTEL_VID else if r =? DID then did else 0x3a52).
Abbreviation at_rest_2450 :=
  (at_rest SMC_BASE (SMC_BASE + 1) [0x55; 0xaa] (λ _ _ v, v) 0x55 0xaa).

(** the settings of a whole run *)
Example tosh2450_example :
  ∃ s, main (start_io (satellite2450 0x24c0 0x5a)) = Ok (0, s) ∧
    map (chip_reg (board_chip (dev s))) [0x24; 0x25; 0x28; 0x2b; 0x2c; 0x0c; 0x07; 0x0a; 0x02; 0x00]
    = [0; 0xfe; 7; 0x26; 1; 0x88; 0x38; 0x78; 0x80; 0xb8] ∧
    map (board_words (dev s)) [COM_DEC; LPC_EN; PCI_DMA_C; GEN2_DEC]
    = [0x3a10; 0x3a51; 0xfa5e; 0x131].
Proof. eexists. split; [vm_compute; reflexivity|]. by vm_compute. Qed.

Lemma tosh2450_ok_witness :
  let b := satellite2450 0x24c0 0x5a in
  ∃ s', main (start_io b) = Ok (0, s') ∧
    at_rest_2450 (smc_settings (chip_reg (board_chip b))) s' ∧
    bridge_settings (λ r, u16 (board_words b r)) (λ r, u16 (board_words (dev s') r)) ∧
    io_out s' = "" ∧
    io_err s' = "" +:+ "tosh2450-smcinit Found IO hub device 82801DB (24c0)" +:+ nl.
Proof.
  intros b.
  destruct (tosh2450_ok [0x55; 0xaa] (λ _ _ v, v) chip_keys_ok (λ _ _ _, eq_refl)
    (chip_reg (board_chip b)) (start_io b)) as (s' & H1 & H2 & H3 & H4); [done..|].
  exists s'. split; [exact H1|]. split; [exact H2|]. split; [exact H3|exact H4].
Defined.

Lemma tosh2450_refused_witness :
  let b := satellite2450 0x2440 0x5a in
  ∃ s', main (start_io b) = Ok (1, s') ∧ io_out s' = "" ∧
    dev s' = b ∧ io_log s' = [] ∧
    io_err s' = "tosh2450-smcinit IO hub device 2440 not supported." +:+ nl.
Proof.
  intros b.
  destruct (tosh2450_refused [0x55; 0xaa] (λ _ _ v, v) chip_keys_ok
    (chip_reg (board_chip b)) (start_io b)) as (s' & H1 & H2 & H3); [done|by right; left|].
  exists s'. split; [exact H1|]. split; [exact H2|exact H3].
Defined.
