(* ===== verification/SmcInitMain.v ===== *)
(** * smcinit from its command line to the machine (smcinit/smcinit.c)

    The bridge, the search for the chip, its registers and its way out of the
    configuration state, for the settings typed as options: [smcinit_session], on the machine of
    Tosh2450 ([Bridge]), whose chip is at the first of the ports that are searched. *)
From Stdlib Require Import String Ascii.
From S2P Require Import Prelude CInt Printf CLib PortIO SmcInit Tosh2450.
Local Open Scope string_scope.
Local Open Scope list_scope.
Local Open Scope Z_scope.

(** the words of the bridge after the set-up *)
Definition bridge_set (W W' : Z → Z) : Prop :=
  W' COM_DEC = 256 * (W COM_DEC / 256) + 0x10 ∧
  W' LPC_EN = Z.lor (Z.land (W LPC_EN) 0xfffd) 0x0001 ∧
  W' PCI_DMA_C = 0xc0c0 ∧ W' GEN2_DEC = 0x131 ∧
  ∀ x, Z.even x = true → x ∉ [COM_DEC; LPC_EN; PCI_DMA_C; GEN2_DEC] → W' x = W x.

(** [-s], [-f], [-i], [-d], [-t], as typed *)
Definition typed (tty : string) (sir fir irq dma : Z) : list (ascii * string) :=
  [("s"%char, "0x" +:+ fmt_x sir); ("f"%char, "0x" +:+ fmt_x fir);
   ("i"%char, fmt_u irq); ("d"%char, fmt_u dma); ("t"%char, tty)].

Lemma typed_args {D} version ulong_max tty sir fir irq dma (s : io D) :
  0xffffffff ≤ ulong_max → 0 ≤ sir < 2 ^ 32 → 0 ≤ fir < 2 ^ 32 → 0 ≤ irq < 2 ^ 32 →
  0 ≤ dma < 2 ^ 32 →
  SmcInit.parse_args version ulong_max (typed tty sir fir irq dma) SmcInit.default_args s
  = Ok (mkArgs false sir fir irq dma tty, s).
Proof.
  intros Hm H1 H2 H3 H4. unfold typed.
  assert (Hx : ∀ n what, 0 ≤ n < 2 ^ 32 → number ulong_max ("0x" +:+ fmt_x n) what s = Ok (n, s)).
  { intros n what Hn. by apply number_roundtrip. }
  assert (Hd : ∀ n what, 0 ≤ n < 2 ^ 32 → number ulong_max (fmt_u n) what s = Ok (n, s)).
  { intros n what Hn. by apply number_roundtrip. }
  cbn [SmcInit.parse_args]. unfold SmcInit.option_case. cbn [Ascii.eqb Bool.eqb].
  do 2 erewrite bind_ok by (erewrite bind_ok by (apply Hx; lia); reflexivity).
  do 2 erewrite bind_ok by (erewrite bind_ok by (apply Hd; lia); reflexivity).
  done.
Qed.

Section session.
Context {D : Type} `{!PortDev D, !PciDev D} (keys : list Z) (latch : Z → Z → Z → Z)
  `{!ConfigPort D SMC_BASE (SMC_BASE + 1) keys latch}
  `{!ConfigKeys D SMC_BASE (SMC_BASE + 1) keys latch 0x55 0xaa}
  `{!Bridge D lpc SMC_BASE (SMC_BASE + 1) keys latch 0x55 0xaa}.
Hypothesis no_keys : ∀ r, r < 0x30 → r ∉ keys.
Hypothesis keep : ∀ r old v, latch r old v = v.
#[local] Abbreviation rest := (at_rest SMC_BASE (SMC_BASE + 1) keys latch 0x55 0xaa).
#[local] Abbreviation conf := (configured SMC_BASE (SMC_BASE + 1) keys latch).
#[local] Abbreviation words s := (word (a:=lpc) (dev s)).
#[local] Abbreviation keeps_words := (Tosh2450.keeps_words keys latch).

Lemma set_bridge_done R (s : io D) :
  rest R s → words s VID = 0x8086 → words s DID = 0x24cc ∨ words s DID = 0x248c →
  ∃ s', SmcInit.set_bridge false s = Ok (true, s') ∧ rest R s' ∧
    bridge_set (words s) (words s') ∧ same_text s s'.
Proof.
  intros Hc Hv Hd. unfold SmcInit.set_bridge. change SmcInit.lpc with lpc.
  change SmcInit.VID with VID. change SmcInit.DID with DID. change SmcInit.COM_DEC with COM_DEC.
  change SmcInit.LPC_EN with LPC_EN. change SmcInit.PCI_DMA_C with PCI_DMA_C.
  change SmcInit.GEN2_DEC with GEN2_DEC.
  rewrite (read_word keys latch), Hv. cbn [negb Z.eqb Pos.eqb when].
  rewrite bind_ret_l, (read_word keys latch).
  assert (Hk : negb (words s DID =? 0x24cc) && negb (words s DID =? 0x248c) = false)
    by (destruct Hd as [-> | ->]; done).
  rewrite Hk. cbn [when]. rewrite bind_ret_l.
  match goal with |- context [(pci_write_byte lpc ?r ?v ≫= ?k) _] =>
    destruct (write_byte keys latch r v k R s Hc eq_refl) as (s1 & -> & C1 & T1 & _ & W1) end.
  rewrite (read_word keys latch).
  match goal with |- context [(pci_write_word lpc ?r ?v ≫= ?k) _] =>
    destruct (write_word keys latch r v k R s1 C1 eq_refl) as (s2 & -> & C2 & T2 & _ & W2) end.
  rewrite (read_word keys latch).
  match goal with |- context [(pci_write_word lpc ?r ?v ≫= ?k) _] =>
    destruct (write_word keys latch r v k R s2 C2 eq_refl) as (s3 & -> & C3 & T3 & _ & W3) end.
  match goal with |- context [(pci_write_word lpc ?r ?v ≫= ?k) _] =>
    destruct (write_word keys latch r v k R s3 C3 eq_refl) as (s4 & -> & C4 & T4 & _ & W4) end.
  exists s4. split; [done|]. split; [exact C4|]. split; [|repeat split; cfg_text].
  unfold bridge_set. rewrite !W4, !W3, !W2 by done. cbn.
  rewrite (W1 COM_DEC eq_refl), (W1 LPC_EN eq_refl). cbn.
  rewrite or_word by first [done | apply and_word; [apply word_range|done]].
  do 4 (split; [done|]).
  intros x Hx Hn. rewrite !not_elem_of_cons in Hn. destruct Hn as (N1 & N2 & N3 & N4 & _).
  rewrite <- Z.eqb_neq in N1, N2, N3, N4. pose proof (W1 x Hx) as E4. rewrite N1 in E4.
  by rewrite W4, N4, W3, N3, W2, N2 by done.
Qed.

(** the search, and the registers of the chip *)
Lemma find_base_ok R (s : io D) :
  rest R s → R 0x0d = 0x5a ∨ R 0x0d = 0x7a →
  ∃ s', find_base possible_cfgbase 0 s = Ok ((Some SMC_BASE, R 0x0d), s') ∧ conf R s' ∧
    same_text s s'.
Proof.
  intros Hc Hid. unfold possible_cfgbase. cbn [find_base]. change 0x2e with SMC_BASE.
  edestruct (open_chip SMC_BASE (SMC_BASE + 1) keys latch 0x55 0xaa) as (s1 & C1 & T1 & ->);
    [done|done|exact Hc|].
  edestruct (get_reg SMC_BASE (SMC_BASE + 1) keys latch) as (s2 & C2 & T2 & ->);
    [done|done|exact C1|done|by apply no_keys|].
  exists s2. split; [by destruct Hid as [-> | ->]|].
  split; [by eapply at_configured|repeat split; cfg_text].
Qed.

Lemma program_done sir fir irq dma R (s : io D) :
  conf R s → 0 ≤ sir < 128 → 0 ≤ fir < 256 → is_byte irq → is_byte dma →
  ∃ s', program_smc SMC_BASE (8 * sir) (8 * fir) irq dma false s = Ok (0, s') ∧
    rest (smc_regs (2 * sir) fir irq dma R) s' ∧ same_text s s'.
Proof.
  intros Hc Hs Hf Hi Hd.
  destruct (program_smc_ok SMC_BASE keys latch ltac:(done) no_keys keep sir fir irq dma R s Hc
    Hs Hf Hi Hd) as (s1 & s2 & E & [Ho HR] & Hdev & T).
  exists s2. split; [exact E|]. split; [|exact T].
  destruct (key_closes _ Ho) as [Hcl Hr].
  split; [by rewrite Hdev|]. intros r. rewrite Hdev, Hr. apply HR.
Qed.

Ltac keeps :=
  repeat first [apply words_outb | apply words_inb | apply words_ret
    | apply words_bind; [|intros] | case_match].
Lemma words_text (f : io D → io D) : (∀ s, dev (f s) = dev s) → keeps_words (modify f).
Proof. intros Hf s [] s' [= <-] x. by rewrite Hf. Qed.
Lemma read_back_keeps base v what text : keeps_words (read_back false base v what text).
Proof. unfold read_back. cbn [when]. keeps. Qed.
Lemma sorry_keeps what : keeps_words (sorry what).
Proof. unfold sorry. apply words_bind; [by apply words_text|intros; apply words_ret]. Qed.
Lemma settings_keep base : keeps_words (last_settings base).
Proof. unfold last_settings, SmcInit.change_reg. keeps. Qed.
Lemma program_keeps base a b c d : keeps_words (program_smc base a b c d false).
Proof.
  unfold program_smc. cbn [when].
  repeat first [apply read_back_keeps | apply sorry_keeps | apply settings_keep
    | apply words_outb | apply words_inb | apply words_ret
    | apply words_bind; [|intros] | case_match].
Qed.
Lemma find_keeps bs i : keeps_words (find_base bs i).
Proof. revert i. induction bs as [|b bs IH]; intros i; cbn [find_base]; keeps. apply IH. Qed.

(** C26: [smcinit] with its settings typed as options (the two ports in hexadecimal, multiples of
    8 below 0x400 and 0x800, the interrupt and the channel in decimal, below 256), run by root on a
    machine whose bridge it knows, with a chip that answers 0x5a or 0x7a at rest at 0x2e and the
    tty given up by its driver: it ends with 0 and prints nothing.  The chip: its registers of the
    second UART, the FIR port, the interrupt (0x28) and the channel hold what was typed, written
    whole, as is 0x02 (0x80); 0x24 is 0; in 0x0C the mode bits become HPSIR at high speed, one bit is set in each
    of 0x07, 0x0a and 0x00, with the other bits as they were; every other register is as it
    was, and the chip is at rest again.  The bridge gets the same settings whatever was typed: COMA
    at 0x3f8 in the low byte of COM_DEC, COMA enabled and COMB not in LPC_EN, 0xc0c0 as the whole
    DMA word, 0x131 as GEN2_DEC (a range at 0x130); so it decodes the typed ports only when they
    are 0x3f8 and 0x130.  The high byte of COM_DEC, the other bits of LPC_EN and every other
    word are as they were. *)
Theorem smcinit_session version ulong_max junk tty sir fir irq dma R (s : io D) :
  0xffffffff ≤ ulong_max → tty ≠ "" →
  0 ≤ sir < 128 → 0 ≤ fir < 256 → is_byte irq → is_byte dma →
  rest R s → R 0x0d = 0x5a ∨ R 0x0d = 0x7a →
  words s VID = 0x8086 → words s DID = 0x24cc ∨ words s DID = 0x248c →
  ∃ s', smcinit version ulong_max 0 (mkSerial true true true) junk
      (typed tty (8 * sir) (8 * fir) irq dma) s = Ok (0, s') ∧
    rest (smc_regs (2 * sir) fir irq dma R) s' ∧ bridge_set (words s) (words s') ∧
    same_text s s'.
Proof.
  intros Hm Htty Hs Hf Hi Hd Hc Hid Hv Hdid. unfold is_byte in Hi, Hd. unfold smcinit.
  erewrite bind_ok by (apply typed_args; lia). cbn [SmcInit.verbose when tty_device].
  rewrite bind_ret_l. destruct tty as [|c tty]; [done|].
  erewrite bind_ok by reflexivity.
  destruct (set_bridge_done R s Hc Hv Hdid) as (s1 & E1 & C1 & W1 & T1).
  destruct (find_base_ok R s1 C1 Hid) as (s2 & E2 & C2 & T2).
  destruct (program_done sir fir irq dma R s2 C2 Hs Hf Hi Hd) as (s3 & E3 & C3 & T3).
  assert (Hset : set_smc 0 (mkArgs false (8 * sir) (8 * fir) irq dma (String c tty)) s = Ok (0, s3)).
  { unfold set_smc. cbn [negb Z.eqb]. erewrite bind_ok by exact E1. cbn [negb].
    erewrite bind_ok by exact E2. cbn [SmcInit.verbose when SmcInit.sir_io SmcInit.fir_io fir_irq fir_dma].
    rewrite bind_ret_l, !s32_small by lia. exact E3. }
  erewrite bind_ok by exact Hset. exists s3. split; [done|]. split; [exact C3|].
  split; [|repeat split; cfg_text].
  destruct W1 as (B1 & B2 & B3 & B4 & B5).
  assert (Hw : ∀ x, words s3 x = words s1 x).
  { intros x. rewrite (program_keeps _ _ _ _ _ _ _ _ E3). apply (find_keeps _ _ _ _ _ E2). }
  unfold bridge_set. rewrite !Hw. do 4 (split; [done|]). intros x Hx Hn. rewrite Hw. by apply B5.
Qed.
End session.

(** the machine of [smcinit_example], and the ports of the first serial lines *)
Lemma smcinit_session_witness :
  ∃ s', smcinit "0.4" 0xffffffff 0 (mkSerial true true true) 7
      (typed "/dev/ttyS1" 0x2f8 0x130 3 1) (start_io satellite) = Ok (0, s') ∧
    at_rest_2450 (smc_regs 0xbe 0x26 3 1 (chip_reg (board_chip satellite))) s' ∧
    bridge_set (λ r, u16 (board_words satellite r)) (λ r, u16 (board_words (dev s') r)) ∧
    same_text (start_io satellite) s'.
Proof.
  destruct (smcinit_session [0x55; 0xaa] (λ _ _ v, v) chip_keys_ok (λ _ _ _, eq_refl) "0.4"
    0xffffffff 7 "/dev/ttyS1" 0x5f 0x26 3 1 (chip_reg (board_chip satellite)) (start_io satellite))
    as (s' & H1 & H2 & H3 & H4); [lia|done|lia|lia|done|done|done|by left|done|by right|].
  exists s'. split; [exact H1|]. split; [exact H2|]. split; [exact H3|exact H4].
Defined.
