(* ===== verification/Tosh1800Main.v ===== *)
(** * tosh1800-smcinit from its command line to the machine (smcinit/tosh1800-smcinit.c)

    The chip and then the bridge, for the settings typed as options: [tosh1800_session]. *)
From Stdlib Require Import String Ascii.
From S2P Require Import Prelude CInt Printf CLib PortIO SmcInit Tosh1800 Tosh2450.
Local Open Scope string_scope.
Local Open Scope list_scope.
Local Open Scope Z_scope.

(** A bridge and a chip that do not meet: the ports of the chip leave the registers of the bridge as
    they are, and the bridge leaves alone a chip that is at rest. *)
Class Apart (D : Type) `{!PortDev D, !PciDev D} (a : pci_addr) `{!PciConfig D a}
    (idx dat : Z) (keys : list Z) (latch : Z → Z → Z → Z) `{!ConfigPort D idx dat keys latch}
    (key_in key_out : Z) `{!ConfigKeys D idx dat keys latch key_in key_out} := {
  port_in_pci p d r : pci_reg (a:=a) (snd (dev_in p d)) r = pci_reg (a:=a) d r;
  port_out_pci v p d r : pci_reg (a:=a) (dev_out v p d) r = pci_reg (a:=a) d r;
  pci_out_rest r v d : closed d →
    closed (pci_byte_out a r v d) ∧ ∀ x, reg (pci_byte_out a r v d) x = reg d x }.

(** the registers of the bridge [W] with the decoding of the port [p], when it has a bit for it *)
Definition enabled_port (p : Z) (W : Z → Z) : Z → Z := λ r,
  match find_ali1533_port_access_info p with
  | Some i => if r =? port_reg i then Z.lor (W r) (or_mask i) else W r
  | None => W r
  end.

(** [-s], [-f], [-m], [-i], as typed *)
Definition typed_1800 (sir fir dma irq : Z) : list (ascii * string) :=
  [("s"%char, "0x" +:+ fmt_x sir); ("f"%char, "0x" +:+ fmt_x fir);
   ("m"%char, fmt_u dma); ("i"%char, fmt_u irq)].

Lemma typed_1800_args {D} version ulong_max sir fir dma irq (s : io D) :
  0xffffffff ≤ ulong_max → 0 ≤ sir < 2 ^ 31 → 0 ≤ fir < 2 ^ 31 → 0 ≤ dma < 2 ^ 31 →
  0 ≤ irq < 2 ^ 31 →
  Tosh1800.parse_args version ulong_max (typed_1800 sir fir dma irq) Tosh1800.default_args s
  = Ok (mkTosh DEF_CFGBASE sir fir dma irq DEF_ISABRIDGE_VENDOR_ID DEF_ISABRIDGE_DEVICE_ID
          DEF_ACTIONS, s).
Proof.
  intros Hm H1 H2 H3 H4. unfold typed_1800.
  assert (Hx : ∀ n, 0 ≤ n < 2 ^ 31 → Tosh1800.number ulong_max ("0x" +:+ fmt_x n) = n).
  { intros n Hn. unfold Tosh1800.number. rewrite strtoul_hex by lia. apply s32_small. lia. }
  assert (Hd : ∀ n, 0 ≤ n < 2 ^ 31 → Tosh1800.number ulong_max (fmt_u n) = n).
  { intros n Hn. unfold Tosh1800.number. rewrite strtoul_dec by lia. apply s32_small. lia. }
  cbn [Tosh1800.parse_args]. unfold Tosh1800.option_case. cbn [Ascii.eqb Bool.eqb].
  do 4 erewrite bind_ok by reflexivity. by rewrite !Hx, !Hd.
Qed.

Lemma set_bits m b : m ∈ [0x80; 0x30; 0x08] → is_byte b →
  Z.lor (Z.land b (u8 (Z.lnot m))) m = Z.lor b m ∧ is_byte (Z.lor b m).
Proof.
  intros Hm Hb.
  pose proof (byte_forall (λ b, forallb (λ m,
    (Z.lor (Z.land b (u8 (Z.lnot m))) m =? Z.lor b m) && (0 <=? Z.lor b m) && (Z.lor b m <? 256))
    [0x80; 0x30; 0x08]) ltac:(by vm_compute) b Hb) as H.
  rewrite forallb_forall in H. apply list_elem_of_In, H in Hm.
  rewrite !andb_true_iff, Z.eqb_eq, Z.leb_le, Z.ltb_lt in Hm. unfold is_byte. tauto.
Qed.
Lemma mask_of p i : find_ali1533_port_access_info p = Some i → or_mask i ∈ [0x80; 0x30; 0x08].
Proof.
  intros H. apply ali_entry in H as [_ Hi]. apply (list_elem_of_fmap_2 or_mask) in Hi. cbn in Hi.
  repeat setoid_rewrite elem_of_cons in Hi. rewrite !elem_of_cons. tauto.
Qed.

Section session.
Context {D : Type} `{!PortDev D, !PciDev D} (keys : list Z) (latch : Z → Z → Z → Z)
  `{!ConfigPort D DEF_CFGBASE (DEF_CFGBASE + 1) keys latch}
  `{!ConfigKeys D DEF_CFGBASE (DEF_CFGBASE + 1) keys latch LPC47N227_CFGACCESSKEY LPC47N227_CFGEXITKEY}
  (a : pci_addr) `{!PciConfig D a}
  `{!Apart D a DEF_CFGBASE (DEF_CFGBASE + 1) keys latch LPC47N227_CFGACCESSKEY LPC47N227_CFGEXITKEY}.
Hypothesis no_keys : ∀ r, r < 0x30 → r ∉ keys.
Hypothesis keep : ∀ r old v, latch r old v = v.
#[local] Abbreviation rest := (at_rest DEF_CFGBASE (DEF_CFGBASE + 1) keys latch
  LPC47N227_CFGACCESSKEY LPC47N227_CFGEXITKEY).
#[local] Abbreviation pci s := (pci_reg (a:=a) (dev s)).

(** *** The bridge *)
(** one port enabled *)
Lemma enable_port_ok p R (s : io D) :
  rest R s →
  ∃ v s', set_ali1533_port a p 1 s = Ok (v, s') ∧ rest R s' ∧
    (∀ r, pci s' r = enabled_port p (pci s) r) ∧ same_text s s'.
Proof.
  intros [Hc HR]. unfold set_ali1533_port, enabled_port.
  destruct (find_ali1533_port_access_info p) as [i|] eqn:E; [|by exists (-1), s].
  rewrite (read_pci a). cbn [truth negb Z.eqb].
  destruct (set_bits (or_mask i) (pci s (port_reg i))) as [-> Hb];
    [by eapply mask_of|apply pci_reg_byte|].
  set (v := Z.lor _ _) in *.
  exists (if tst (pci s (port_reg i)) (or_mask i) then 1 else 0).
  exists (mkIo (pci_byte_out a (port_reg i) (u8 v) (dev s)) (io_log s) (io_out s) (io_err s) (io_sys s)).
  split; [done|]. destruct (pci_out_rest (port_reg i) (u8 v) (dev s) Hc) as [Hc' Hr].
  split; [split; [exact Hc'|]; intros x; cbn [dev]; by rewrite Hr|]. split; [|by repeat split].
  intros r. cbn [dev]. rewrite pci_reg_write by apply u8_range. rewrite u8_small by exact Hb.
  destruct (Z.eqb_spec r (port_reg i)) as [->|]; done.
Qed.

(** ... and the messages of the log change nothing that the theorems are about *)
Definition unlogged (s s' : io D) : Prop :=
  dev s' = dev s ∧ io_out s' = io_out s ∧ io_err s' = io_err s.
Lemma syslog_ok t (s : io D) : ∃ s', syslog t s = Ok (tt, s') ∧ unlogged s s'.
Proof. by eexists. Qed.
Lemma rest_log R s s' : unlogged s s' → rest R s → rest R s'.
Proof. intros (E & _) H. unfold at_rest. by rewrite E. Qed.

Lemma enable_ports_ok ports R (s : io D) :
  rest R s →
  ∃ s', enable_ports a ports s = Ok (tt, s') ∧ rest R s' ∧
    (∀ r, pci s' r = foldl (λ W p, enabled_port p W) (pci s) ports r) ∧
    io_out s' = io_out s ∧ io_err s' = io_err s.
Proof.
  revert s. induction ports as [|p ports IH]; intros s Hr; [by exists s|].
  cbn [enable_ports foldl].
  destruct (enable_port_ok p R s Hr) as (v & s1 & E1 & R1 & P1 & (O1 & X1 & _)).
  erewrite bind_ok by exact E1.
  match goal with |- context [(?m ≫= _) s1] =>
    assert (∃ s2, m s1 = Ok (tt, s2) ∧ unlogged s1 s2) as (s2 & E2 & U2) end.
  { destruct (v =? 1); apply syslog_ok. }
  erewrite bind_ok by exact E2.
  destruct (IH s2 (rest_log _ _ _ U2 R1)) as (s3 & E3 & R3 & P3 & O3 & X3).
  destruct U2 as (D2 & O2 & X2). exists s3. split; [exact E3|]. split; [exact R3|].
  split; [|split; congruence].
  intros r. rewrite P3, D2. clear -P1. revert r.
  assert (Hext : ∀ ps W W', (∀ r, W r = W' r) →
    ∀ r, foldl (λ W p, enabled_port p W) W ps r = foldl (λ W p, enabled_port p W) W' ps r).
  { induction ps as [|q ps IHp]; intros W W' H r; [apply H|]. cbn [foldl]. apply IHp.
    intros x. unfold enabled_port. by destruct (find_ali1533_port_access_info q); rewrite H. }
  by apply Hext.
Qed.

(** *** The chip leaves the bridge alone *)
Definition keeps_pci {A} (m : M (io D) A) : Prop := ∀ s x s', m s = Ok (x, s') → ∀ r, pci s' r = pci s r.
Lemma pci_ret {A} (x : A) : keeps_pci (mret x).
Proof. by intros s ? s' [= _ <-]. Qed.
Lemma pci_bind {A B} (m : M (io D) A) (k : A → M (io D) B) :
  keeps_pci m → (∀ x, keeps_pci (k x)) → keeps_pci (m ≫= k).
Proof.
  intros Hm Hk s b s' E r. unfold mbind, M_bind in E.
  destruct (m s) as [[x s1]|] eqn:E1; [|done]. by rewrite (Hk _ _ _ _ E), (Hm _ _ _ E1).
Qed.
Lemma pci_outb v p : keeps_pci (outb v p).
Proof. intros s [] s' [= <-] r. apply port_out_pci. Qed.
Lemma pci_inb p : keeps_pci (inb p).
Proof.
  intros s v s' E r. unfold inb in E. pose proof (port_in_pci (u16 p) (dev s) r) as Hw.
  destruct (dev_in (u16 p) (dev s)) as [? d]. by injection E as _ <-.
Qed.
Lemma pci_syslog t : keeps_pci (syslog t).
Proof. by intros s [] s' [= <-] r. Qed.
Lemma pci_eprintf t : keeps_pci (eprintf t).
Proof. by intros s [] s' [= <-] r. Qed.
Lemma chip_keeps e f base sir fir dma irq : keeps_pci (configure_smc_ircc e f base sir fir dma irq).
Proof.
  unfold configure_smc_ircc, configure_47N227_smc_ircc, Tosh1800.change_reg, ioperm_error.
  repeat first [apply pci_outb | apply pci_inb | apply pci_ret | apply pci_syslog | apply pci_eprintf
    | apply pci_bind; [|intros] | case_match].
Qed.

(** the bridge, found and set *)
Lemma bridge_ok devices filter_match fir sir R (s : io D) :
  find_pci_device devices filter_match DEF_ISABRIDGE_VENDOR_ID DEF_ISABRIDGE_DEVICE_ID = Some a →
  rest R s →
  ∃ s', configure_ali1533_smc_ports_decoding true devices filter_match DEF_ISABRIDGE_VENDOR_ID
      DEF_ISABRIDGE_DEVICE_ID fir sir false s = Ok (1, s') ∧ rest R s' ∧
    (∀ r, pci s' r = enabled_port fir (enabled_port sir (pci s)) r) ∧
    io_out s' = io_out s ∧ io_err s' = io_err s.
Proof.
  intros Hfind Hr. unfold configure_ali1533_smc_ports_decoding. rewrite Hfind. cbn [negb].
  rewrite bind_assoc.
  match goal with |- context [(syslog ?t ≫= _) s] => destruct (syslog_ok t s) as (s1 & E1 & U1) end.
  erewrite bind_ok by exact E1.
  destruct (enable_ports_ok [sir; fir] R s1 (rest_log _ _ _ U1 Hr)) as (s2 & E2 & R2 & P2 & O2 & X2).
  erewrite bind_ok by exact E2.
  match goal with |- context [(syslog ?t ≫= _) s2] => destruct (syslog_ok t s2) as (s3 & E3 & U3) end.
  erewrite bind_ok by exact E3. exists s3. split; [done|]. split; [by eapply rest_log|].
  destruct U1 as (D1 & O1 & X1), U3 as (D3 & O3 & X3).
  split; [|split; congruence]. intros r. rewrite D3, P2. cbn [foldl]. unfold enabled_port. by rewrite D1.
Qed.

(** C30: [tosh1800-smcinit] with its settings typed as options (the ports in hexadecimal, the
    channel and the interrupt in decimal), run by root where the PCI library finds the
    bridge and the chip is at rest: it ends with 0 and prints nothing; the chip has these settings and is at rest again;
    of the bridge the bits that decode the two ports are set, of those ports that it can decode, and
    every other bit is as it was. *)
Theorem tosh1800_session version errno ulong_max devices filter_match sir fir dma irq R (s : io D) :
  0xffffffff ≤ ulong_max → 0 ≤ sir < 2 ^ 31 → 0 ≤ fir < 2 ^ 31 → 0 ≤ dma < 2 ^ 31 →
  0 ≤ irq < 2 ^ 31 →
  find_pci_device devices filter_match DEF_ISABRIDGE_VENDOR_ID DEF_ISABRIDGE_DEVICE_ID = Some a →
  rest R s → R 0x0d = 0x5a →
  ∃ s', tosh1800 version errno ulong_max 0 false true devices filter_match
      (typed_1800 sir fir dma irq) s = Ok (0, s') ∧
    rest (ircc_regs sir fir dma irq R) s' ∧
    (∀ r, pci s' r = enabled_port fir (enabled_port sir (pci s)) r) ∧
    io_out s' = io_out s ∧ io_err s' = io_err s.
Proof.
  intros Hm H1 H2 H3 H4 Hfind Hr Hid. unfold tosh1800.
  erewrite bind_ok by (apply typed_1800_args; lia).
  cbn [negb Z.eqb actions cfgbase sirbase firbase Tosh1800.dma Tosh1800.irq isabridge_vendor_id
    isabridge_device_id].
  change (tst DEF_ACTIONS (Z.lor ACTION_INIT_SMC_IRCC ACTION_CONFIG_ALI1533_PORTS_DECODING)) with true.
  change (tst DEF_ACTIONS ACTION_INIT_SMC_IRCC) with true.
  change (tst DEF_ACTIONS ACTION_CONFIG_ALI1533_PORTS_DECODING) with true.
  change (tst DEF_ACTIONS ACTION_PRINT_ALI1533_CONFIGURATION) with false. cbn [when andb].
  match goal with |- context [syslog ?t ≫= _] => destruct (syslog_ok t s) as (s1 & E1 & U1) end.
  erewrite bind_ok by exact E1.
  destruct (configure_smc_ircc_ok DEF_CFGBASE keys latch ltac:(done) no_keys keep errno sir fir dma
    irq R s1 (rest_log _ _ _ U1 Hr)) as (s2 & E2 & R2 & O2 & X2 & _).
  rewrite Hid in E2, R2. cbn [Z.eqb Pos.eqb b2z] in E2, R2.
  pose proof (chip_keeps _ _ _ _ _ _ _ _ _ _ E2) as K2.
  erewrite bind_ok by exact E2. cbn [truth negb Z.eqb].
  destruct (bridge_ok devices filter_match fir sir _ s2 Hfind R2) as (s3 & E3 & R3 & P3 & O3 & X3).
  erewrite bind_ok by exact E3. destruct U1 as (D1 & O1 & X1).
  exists s3. split; [done|]. split; [exact R3|].
  split; [|split; congruence].
  intros r. rewrite P3. unfold enabled_port.
  destruct (find_ali1533_port_access_info fir), (find_ali1533_port_access_info sir);
    by rewrite !K2, D1.
Qed.
End session.

(** ** A Satellite 1800 *)
#[export] Program Instance board_apart (b : Z) (a : pci_addr) :
  Apart board a b (b + 1) [0x55; 0xaa] (λ _ _ v, v) 0x55 0xaa.
Next Obligation. intros b a p [c w] r. cbn [dev_in board_ports board_chip]. by destruct (dev_in p c). Qed.
Next Obligation. done. Qed.
Next Obligation. done. Qed.

Lemma tosh1800_session_witness :
  let a := mkPci 0 7 0 in
  let R := chip_reg (board_chip (dev satellite1800)) in
  ∃ s', tosh1800 "0.4" "" 0xffffffff 0 false true [a] (λ v d _, (v =? 0x10b9) && (d =? 0x1533))
      (typed_1800 0x2f8 0x130 3 7) satellite1800 = Ok (0, s') ∧
    at_rest 0x2e 0x2f [0x55; 0xaa] (λ _ _ v, v) 0x55 0xaa (ircc_regs 0x2f8 0x130 3 7 R) s' ∧
    (∀ r, u8 (board_words (dev s') r)
      = enabled_port 0x130 (enabled_port 0x2f8 (λ r, u8 (board_words (dev satellite1800) r))) r) ∧
    io_out s' = "" ∧ io_err s' = "".
Proof.
  intros a R.
  destruct (tosh1800_session [0x55; 0xaa] (λ _ _ v, v) a chip_keys_ok (λ _ _ _, eq_refl) "0.4" ""
    0xffffffff [a] (λ v d _, (v =? 0x10b9) && (d =? 0x1533)) 0x2f8 0x130 3 7 R satellite1800)
    as (s' & E1 & E2 & E3 & E4 & E5); [lia..|done|by repeat split|done|].
  exists s'. split; [exact E1|]. split; [exact E2|]. split; [exact E3|]. split; [exact E4|exact E5].
Defined.
