(* ===== verification/SmcCopies.v ===== *)
(** * The set-up programs of irda-utils/smcinit/

    smcinit.c, tosh1800-smcinit.c and tosh2450-smcinit.c of irda-utils are the
    programs of smcinit/ once more: each function is the one of smcinit/ at the parameters below, the version number
    is that of their own smcinit.h, [pci_get_dev] takes the domain as an argument more,
    [find_pci_device] of smcinit.c, which is not called, is compiled out, and
    [ret_val] of its [main] has an initial value. *)
From Stdlib Require Import String Ascii.
From S2P Require Import Prelude CInt Printf CLib PortIO SmcInit Tosh1800 Tosh2450.
Local Open Scope string_scope.
Local Open Scope list_scope.
Local Open Scope Z_scope.

Definition utils_version := "0.5cvs".

Section programs.
Context {D : Type} `{!PortDev D} `{!PciDev D}.
Variable ulong_max uid : Z.
Variable tty : serial.

(** *** smcinit.c *)
Definition utils_print_version : M (io D) unit := SmcInit.print_version utils_version.
Definition utils_print_usage : M (io D) unit := SmcInit.print_usage utils_version.
Definition utils_print_settings (a : smc_args) : M (io D) unit :=
  SmcInit.print_settings utils_version a.
Definition utils_unbind_from_serial : M (io D) Z := unbind_from_serial tty.
Definition utils_set_smc (a : smc_args) : M (io D) Z := set_smc uid a.
Definition utils_smcinit (l : list (ascii * string)) : M (io D) Z :=
  smcinit utils_version ulong_max uid tty 0 l.

(** *** tosh1800-smcinit.c *)
Definition utils_ports : list port_decoding_access_info := ali1533_ports.
Definition utils_models : list smc_chip_model := Tosh1800.smc_chips.
Definition utils_find_port (p : Z) : option port_decoding_access_info :=
  find_ali1533_port_access_info p.
Definition utils_find_model (v : Z) : option smc_chip_model := find_smc_chip_model v.
Definition utils_print_ports (a : pci_addr) : M (io D) unit := print_ali1533_port_status a.
Definition utils_set_port (a : pci_addr) (p decode : Z) : M (io D) Z := set_ali1533_port a p decode.
Definition utils_find_device (pci_devices : list pci_addr)
    (pci_filter_match : Z → Z → pci_addr → bool) (vendor device : Z) : option pci_addr :=
  find_pci_device pci_devices pci_filter_match vendor device.
Definition utils_configure_bridge (pci_alloc_ok : bool) (pci_devices : list pci_addr)
    (pci_filter_match : Z → Z → pci_addr → bool) (vendor device fir sir : Z) (print : bool)
    : M (io D) Z :=
  configure_ali1533_smc_ports_decoding pci_alloc_ok pci_devices pci_filter_match vendor device
    fir sir print.
Definition utils_configure_47N227 (errno_text : string) (ioperm_fails : bool)
    (cfg sir fir dma irq : Z) : M (io D) Z :=
  configure_47N227_smc_ircc errno_text ioperm_fails cfg sir fir dma irq.
Definition utils_configure_chip (errno_text : string) (ioperm_fails : bool)
    (cfg sir fir dma irq : Z) : M (io D) Z :=
  configure_smc_ircc errno_text ioperm_fails cfg sir fir dma irq.
Definition utils_1800_version : M (io D) unit := Tosh1800.print_version utils_version.
Definition utils_1800_usage : M (io D) unit := Tosh1800.print_usage utils_version.
Definition utils_tosh1800 (errno_text : string) (ioperm_fails pci_alloc_ok : bool)
    (pci_devices : list pci_addr) (pci_filter_match : Z → Z → pci_addr → bool)
    (l : list (ascii * string)) : M (io D) Z :=
  tosh1800 utils_version errno_text ulong_max uid ioperm_fails pci_alloc_ok pci_devices
    pci_filter_match l.

Definition utils_tosh2450 : M (io D) Z := Tosh2450.main.

Lemma s32_add_s32 a b : s32 (a + s32 b) = s32 (a + b).
Proof.
  unfold s32. f_equal.
  replace (a + ((b + 2 ^ 31) mod 2 ^ 32 - 2 ^ 31) + 2 ^ 31) with (a + (b + 2 ^ 31) mod 2 ^ 32)
    by lia. rewrite Zplus_mod_idemp_r. f_equal. lia.
Qed.

(** with the same version number the two programs smcinit do the same to the
    machine, print the same and end in the same cases.  Their statuses are equal with [-t]; without it the
    one of smcinit/ adds to it what was on its stack, where the one of
    irda-utils adds nothing. *)
Theorem smcinit_copies junk l (s : io D) :
  match utils_smcinit l s, smcinit utils_version ulong_max uid tty junk l s with
  | Ok (r, s1), Ok (r', s2) =>
      s1 = s2 ∧ ∃ a s0, SmcInit.parse_args utils_version ulong_max l SmcInit.default_args s = Ok (a, s0) ∧
        r' = if String.eqb (tty_device a) "" then s32 (junk + r) else r
  | Stop w, Stop w' => w = w'
  | _, _ => False
  end.
Proof.
  unfold utils_smcinit, smcinit, mbind, M_bind.
  destruct (SmcInit.parse_args utils_version ulong_max l _ s) as [[a s0]|] eqn:E; [|done].
  destruct (when _ _ s0) as [[[] s1]|]; [|done].
  destruct (tty_device a) as [|tc ts] eqn:Et.
  - cbn [mret M_ret]. destruct (set_smc uid a s1) as [[r s2]|]; [|done]. cbn.
    split; [done|]. exists a, s0. split; [done|]. rewrite Et, Z.add_0_l. cbn. by rewrite s32_add_s32.
  - destruct (unbind_from_serial tty s1) as [[r0 s2]|]; [|done].
    destruct (set_smc uid a s2) as [[r s3]|]; [|done]. cbn.
    split; [done|]. exists a, s0. by rewrite Et.
Qed.
End programs.

(** with the settings of the machine of [smcinit_status], the status is 0 *)
Example utils_status :
  ∃ s, utils_smcinit 0xffffffff 0 (mkSerial true true true) [] (start_io satellite) = Ok (0, s).
Proof. eexists. vm_compute. reflexivity. Qed.
