(* ===== verification/Proc.v ===== *)
(** * Programs that end with [exit] and leave the system in some state

    [M] forgets the state of a program that stops.  Where what a program leaves
    behind matters, its code is over [P]: it gives a value, or ends with a status,
    and in both cases gives its last state.  [wp] is the weakest precondition of a
    run: undefined behaviour and lack of fuel are excluded. *)
From S2P Require Import Prelude CInt.

Definition P (S A : Type) : Type := M S (Z + A).

Section proc.
Context {S : Type}.

#[export] Instance P_ret : MRet (P S) := λ A a s, Ok (inr a, s).
#[export] Instance P_bind : MBind (P S) := λ A B k m s,
  match m s with
  | Ok (inr a, s') => k a s'
  | Ok (inl c, s') => Ok (inl c, s')
  | Stop w => Stop w
  end.

(** [exit(code)]: the status that the parent gets is a byte *)
Definition exit {A} (code : Z) : P S A := λ s, Ok (inl (u8 code), s).
Definition stopped {A} (w : stop) : P S A := λ _, Stop w.
Definition pget {A} (f : S → A) : P S A := λ s, Ok (inr (f s), s).
Definition pset (f : S → S) : P S unit := λ s, Ok (inr tt, f s).
Definition pwhen (b : bool) (m : P S unit) : P S unit := if b then m else mret tt.

Definition wp {A} (m : P S A) (Q : A → S → Prop) (E : Z → S → Prop) (s : S) : Prop :=
  match m s with
  | Ok (inr a, s') => Q a s'
  | Ok (inl c, s') => E c s'
  | Stop _ => False
  end.

Section rules.
Context {A B : Type}.
Implicit Types (Q : B → S → Prop) (E : Z → S → Prop) (s : S).

Lemma wp_bind (m : P S A) (k : A → P S B) Q E s :
  wp m (λ a, wp (k a) Q E) E s → wp (m ≫= k) Q E s.
Proof. unfold wp, mbind, P_bind. by destruct (m s) as [[[c|a] s']|]. Qed.
Lemma wp_ret (a : B) Q E s : Q a s → wp (mret a) Q E s.
Proof. done. Qed.
Lemma wp_exit c Q E s : E (u8 c) s → wp (exit c) Q E s.
Proof. done. Qed.
Lemma wp_get (f : S → B) Q E s : Q (f s) s → wp (pget f) Q E s.
Proof. done. Qed.
Lemma wp_mono (m : P S B) Q Q' E E' s :
  wp m Q E s → (∀ a s', Q a s' → Q' a s') → (∀ c s', E c s' → E' c s') → wp m Q' E' s.
Proof. unfold wp. destruct (m s) as [[[c|a] s']|]; naive_solver. Qed.
End rules.

(** running a program step by step *)
Lemma p_bind_ok {A B} (m : P S A) (k : A → P S B) s a s' :
  m s = Ok (inr a, s') → (m ≫= k) s = k a s'.
Proof. unfold mbind, P_bind. by intros ->. Qed.
Lemma p_bind_exit {A B} (m : P S A) (k : A → P S B) s c s' :
  m s = Ok (inl c, s') → (m ≫= k) s = Ok (inl c, s').
Proof. unfold mbind, P_bind. by intros ->. Qed.
Lemma p_bind_stop {A B} (m : P S A) (k : A → P S B) s w :
  m s = Stop w → (m ≫= k) s = Stop w.
Proof. unfold mbind, P_bind. by intros ->. Qed.
Lemma p_bind_inv {A B} (m : P S A) (k : A → P S B) s b s' :
  (m ≫= k) s = Ok (inr b, s') → ∃ a s1, m s = Ok (inr a, s1) ∧ k a s1 = Ok (inr b, s').
Proof. unfold mbind, P_bind. destruct (m s) as [[[c|a] s1]|]; naive_solver. Qed.
Lemma p_bind_assoc {A B C} (m : P S A) (k : A → P S B) (h : B → P S C) s :
  ((m ≫= k) ≫= h) s = (m ≫= λ a, k a ≫= h) s.
Proof. unfold mbind, P_bind. by destruct (m s) as [[[c|a] s']|]. Qed.

Lemma wp_set (f : S → S) Q E s : Q tt (f s) → wp (pset f) Q E s.
Proof. done. Qed.
Lemma wp_when (b : bool) m Q E s :
  (b = true → wp m Q E s) → (b = false → Q tt s) → wp (pwhen b m) Q E s.
Proof. destruct b; [auto|]. intros _ H. by apply H. Qed.
End proc.

(** ** Programs whose loops have enough fuel in every state *)
Definition ends {S A} (m : P S A) : Prop := ∀ s, m s ≠ Stop OutOfFuel.

Section ends.
Context {S A B : Type}.
Lemma ends_ret (a : A) : ends (S:=S) (mret a).
Proof. by intros s. Qed.
Lemma ends_get (f : S → A) : ends (pget f).
Proof. by intros s. Qed.
Lemma ends_set (f : S → S) : ends (pset f).
Proof. by intros s. Qed.
Lemma ends_exit c : ends (S:=S) (exit (A:=A) c).
Proof. by intros s. Qed.
Lemma ends_stopped w : w ≠ OutOfFuel → ends (S:=S) (stopped (A:=A) w).
Proof. by intros Hw s [=]. Qed.
Lemma ends_bind (m : P S A) (k : A → P S B) :
  ends m → (∀ a, ends (k a)) → ends (m ≫= k).
Proof.
  intros Hm Hk s. unfold mbind, P_bind. specialize (Hm s). destruct (m s) as [[[c|a] s']|w]; [done|apply Hk|].
  congruence.
Qed.
Lemma ends_bind_at (m : P S A) (k : A → P S B) s :
  m s ≠ Stop OutOfFuel → (∀ a, ends (k a)) → (m ≫= k) s ≠ Stop OutOfFuel.
Proof.
  intros Hm Hk. unfold mbind, P_bind. destruct (m s) as [[[c|a] s']|w]; [done|apply Hk|congruence].
Qed.
Lemma ends_when b (m : P S unit) : ends m → ends (pwhen b m).
Proof. intros Hm. by destruct b. Qed.
End ends.

Create HintDb ends.
#[export] Hint Resolve ends_ret ends_get ends_set ends_exit ends_when : ends.

Ltac ends_step :=
  match goal with
  | |- ∀ _, ends _ => intro
  | |- ends (_ ≫= _) => apply ends_bind
  | |- ends (match ?x with _ => _ end) => destruct x
  | |- ends (stopped _) => by apply ends_stopped
  | |- ends (pwhen _ _) => apply ends_when
  | |- ends _ => solve [auto with ends nocore]
  end.

(** the structure of a program; the goals left are its branches and its calls *)
Ltac wp_step :=
  match goal with
  | |- wp (_ ≫= _) _ _ _ => apply wp_bind
  | |- wp (mret _) _ _ _ => apply wp_ret
  | |- wp (exit _) _ _ _ => apply wp_exit
  | |- wp (pget _) _ _ _ => apply wp_get
  | |- wp (pset _) _ _ _ => apply wp_set
  | |- wp (pwhen _ _) _ _ _ => apply wp_when; intros
  end; cbv beta.
Ltac wps := repeat wp_step.
