(* ===== verification/IrDumpMain.v ===== *)
(** * irdadump from its command line to its exit (irdadump/main.c)

    The options, the capture files by name, the socket, the rounds until a signal
    comes, and [cleanup].  [replay_session]: what [irdadump -w file] showed is what
    [irdadump -r file] shows, where the host is big-endian.

    The signal comes between two rounds, where the program waits.  [w_err] holds what
    [main] and the opening of the files write; the message of a round that ends by
    [exit] is left out, and so is a record of which such a round wrote a part. *)
From Stdlib Require Import String Ascii.
From S2P Require Import Prelude CInt Printf NetBuf Frame Obex Conn Dump IrLAP Capture IrDump.
From S2P Require Import IrLMP Replay Proc.
Local Open Scope string_scope.
Local Open Scope list_scope.
Local Open Scope Z_scope.

Definition VERSION := "0.9.17 (19.02.2006) Dag Brattli/Jean Tourrilhes".

(** the two streams, and the files by name *)
Record world := mkWorld {
  w_out : string;
  w_err : string;
  w_files : gmap string (list Z) }.

Definition start_world (fs : gmap string (list Z)) : world := mkWorld "" "" fs.
Definition out (t : string) : P world unit :=
  pset (λ w, mkWorld (w_out w +:+ t) (w_err w) (w_files w)).
Definition err (t : string) : P world unit :=
  pset (λ w, mkWorld (w_out w) (w_err w +:+ t) (w_files w)).
Definition set_file (name : string) (l : list Z) : P world unit :=
  pset (λ w, mkWorld (w_out w) (w_err w) (<[name := l]> (w_files w))).

(** a part of [irdadump] that does not print: its [exit] is that of the program *)
Definition call {S A} (m : M S A) (s : S) : P world (A * S) :=
  match m s with
  | Ok x => mret x
  | Stop (Exited c) => exit c
  | Stop w => stopped w
  end.

Section main.
Variable name_junk attr_junk string_junk obex_junk : list Z.
Variable heap_fill : Z → Z.
Variable realloc_ok : Z → bool.
Variable e : endian.
Variable write_result : list Z → list Z → option nat.
Variable addr_junk : list Z.
(** the name of the program, and the text of [errno] *)
Variable argv0 errno_text : string.
(** the system: which files can be created, the descriptors that [open] and [socket]
    give, the index of an interface, the time *)
Variable can_create : string → bool.
Variable fd_write fd_read fd_socket : Z.
Variable ifindex_of : string → option Z.
Variable start_time : timeval.

(** ** Options *)
Definition usage : string :=
  "Usage: " +:+ argv0 +:+ " [-d] [-x] [-b] [-s <n>] [-c <n>] [-p] [-i device] [-o log]" +:+ nl
  +:+ tab +:+ "-d" +:+ tab +:+ "Print diffs" +:+ nl
  +:+ tab +:+ "-l" +:+ tab +:+ "Set line buffering on output file." +:+ nl
  +:+ tab +:+ "-s <n>" +:+ tab +:+ "Set snaplen for -x & -b" +:+ nl
  +:+ tab +:+ "-x" +:+ tab +:+ "Dump frame (bytes + ascii)" +:+ nl
  +:+ tab +:+ "-b" +:+ tab +:+ "Dump bytes in columns" +:+ nl
  +:+ tab +:+ "-c <n>" +:+ tab +:+ "Set number of colums for -b" +:+ nl
  +:+ tab +:+ "-p <n>" +:+ tab +:+ "Disable parsing/decoding" +:+ nl
  +:+ tab +:+ "-i device" +:+ tab +:+ "IrDA port to listen on" +:+ nl
  +:+ tab +:+ "-w log" +:+ tab +:+ "Writes out raw capture file" +:+ nl
  +:+ tab +:+ "-r log" +:+ tab +:+ "Read from raw capture file" +:+ nl.

(** what an option prints, on the two streams *)
Definition option_text (c : ascii) (optarg : string) : P world unit :=
  if Ascii.eqb c "i" then out ("Using interface: " +:+ optarg +:+ nl)
  else if Ascii.eqb c "v" then out ("Version: " +:+ VERSION +:+ nl)
  else if Ascii.eqb c "?" then err usage
  else mret tt.

(** the loop of [getopt] *)
Fixpoint get_options (args : list (ascii * string)) (st : settings) : P world settings :=
  match args with
  | [] => mret st
  | (c, optarg) :: args =>
      option_text c optarg;;
      x ← call (option_case c optarg) st;
      get_options args x.2
  end.

(** ** Files *)
Definition perror (s : string) : P world unit := err (s +:+ ": " +:+ errno_text +:+ nl).

Definition capwrite_open (name : string) : P world Z :=
  if can_create name then set_file name [];; mret fd_write
  else perror "Opening capture file";; mret (-1).
(** the descriptor, and what the file holds *)
Definition capread_open (name : string) : P world (Z * list Z) :=
  f ← pget (λ w, w_files w !! name);
  match f with
  | Some l => mret (fd_read, l)
  | None => perror "Opening capture file";; mret (-1, [])
  end.

(** [if(writefilename != NULL)] *)
Definition open_write (name : option string) (s : irdump) : P world (Z * irdump) :=
  match name with
  | None => mret (-1, s)
  | Some name =>
      fd ← capwrite_open name;
      if fd <? 0 then exit fd
      else
        x ← call (start_capture e write_result) s;
        set_file name (ir_out x.2);;
        mret (fd, x.2)
  end.
(** [if(readfilename != NULL)] *)
Definition open_read (name : option string) (s : irdump) : P world (Z * irdump) :=
  match name with
  | None => mret (-1, s)
  | Some name =>
      f ← capread_open name;
      if f.1 <? 0 then exit f.1
      else
        x ← call (start_replay e) (with_in f.2 s);
        mret (f.1, x.2)
  end.

Definition with_captures (w r : Z) (o : options) : options :=
  mkOpts (config_print_diff o) (config_dump_frame o) (opt_print_irlap o) (opt_print_irlmp o)
    (opt_print_lost_frames o) (config_snaplen o) (config_dump_bytes o) (config_snapcols o)
    (opt_force_ttp o) w r.

(** the variables before [irdadump_init]: zero, and there is no buffer *)
Definition no_buffer : netbuf := mkBuf [] 0 0 0 0 0.
Definition blank : irdump :=
  mkIr (mkDump (mkObex (mkFrame no_buffer "" "" "") 0xff) conn_start (mkCtr 0 0 0 0))
    (mkTime 0 0) (mkTime 0 0) [] [] 0.

Definition set_prev (t : timeval) : M irdump unit :=
  modify (λ s, mkIr (ir_dump s) (curr_time s) t (ir_in s) (ir_out s) (packets s)).

(** the descriptor of the socket, and [ifindex] *)
Definition irdadump_init (ifdev : option string) (s : irdump) : P world (Z * Z * irdump) :=
  x ← call (zoom (zoom irlap_init);; set_prev start_time) s;
  if fd_socket <? 0 then mret (fd_socket, 0, x.2)
  else
    k ← match ifdev with
        | None => mret 0
        | Some d =>
            match ifindex_of d with
            | None => perror "ioctl";; exit (-1)
            | Some n => mret n
            end
        end;
    mret (fd_socket, k, with_ir_buf (g_netbuf_new heap_fill MAX_FRAME_SIZE) x.2).

(** what was printed and captured reaches the streams and the file *)
Definition flush (name : option string) (s : irdump) : P world unit :=
  out (f_out (ir_frame s));;
  err (f_err (ir_frame s));;
  match name with
  | Some name => set_file name (ir_out s)
  | None => mret tt
  end.

(** [main], until a signal comes; [rs]: what the socket holds in each round *)
Definition monitor (args : list (ascii * string)) (rs : list (option packet))
    : P world irdump :=
  st ← get_options args start_settings;
  w ← open_write (set_write st) blank;
  r ← open_read (set_read st) w.2;
  i ← irdadump_init (set_ifdev st) r.2;
  let '(fd, ifindex, s) := i in
  if fd <? 0 then perror argv0;; exit fd
  else
    match rounds name_junk attr_junk string_junk obex_junk heap_fill realloc_ok e
      write_result addr_junk (with_captures w.1 r.1 (set_opts st)) ifindex rs s with
    | Ok (None, s) => flush (set_write st) s;; mret s
    | Ok (Some c, s) => flush (set_write st) s;; exit c
    | Stop w => stopped w
    end.

(** the handler of the signals *)
Definition cleanup (s : irdump) : P world unit :=
  out (nl +:+ fmt_d (packets s) +:+ " packets received by filter" +:+ nl);;
  exit 0.

Definition main (args : list (ascii * string)) (rs : list (option packet)) : P world unit :=
  monitor args rs ≫= cleanup.
End main.

(** ** The options that both programs have *)
Definition named (w r : option string) (st : settings) : settings :=
  mkSet (set_opts st) (set_ifdev st) w r.

(** options without [-w] and [-r] *)
Definition no_files (args : list (ascii * string)) : bool :=
  forallb (λ a, negb (Ascii.eqb a.1 "w" || Ascii.eqb a.1 "r")) args.

Lemma option_case_named w r c x st st' :
  Ascii.eqb c "w" || Ascii.eqb c "r" = false → option_case c x st = Ok (tt, st') →
  option_case c x (named w r st) = Ok (tt, named w r st').
Proof.
  intros [Ew Er]%orb_false_iff. unfold option_case. rewrite Er, Ew.
  repeat match goal with |- context [if Ascii.eqb c ?y then _ else _] =>
    destruct (Ascii.eqb c y) end; by intros [= <-].
Qed.

(** what is printed of options that do not end the program *)
Fixpoint interfaces (args : list (ascii * string)) : string :=
  match args with
  | [] => ""
  | (c, x) :: args =>
      (if Ascii.eqb c "i" then "Using interface: " +:+ x +:+ nl else "") +:+ interfaces args
  end.

Lemma option_text_ok argv0 c x st st' w :
  option_case c x st = Ok (tt, st') →
  option_text argv0 c x w = Ok (inr tt, mkWorld (w_out w +:+ interfaces [(c, x)]) (w_err w)
    (w_files w)).
Proof.
  unfold option_text. cbn [interfaces].
  destruct (Ascii.eqb_spec c "i") as [->|_]; [intros _; by rewrite str_app_nil_r|].
  destruct (Ascii.eqb_spec c "v") as [->|_]; [done|].
  destruct (Ascii.eqb_spec c "?") as [->|_]; [done|].
  intros _. destruct w. cbn. by rewrite str_app_nil_r.
Qed.

Lemma call_ok {S A} (m : M S A) (s : S) a s' (w : world) :
  m s = Ok (a, s') → call m s w = Ok (inr (a, s'), w).
Proof. unfold call. by intros ->. Qed.
Lemma call_inv {S A} (m : M S A) (s : S) x (w w' : world) :
  call m s w = Ok (inr x, w') → m s = Ok x ∧ w' = w.
Proof. unfold call. destruct (m s) as [y|[]]; try done. by intros [= -> ->]. Qed.

Lemma get_options_named argv0 w r args st st' W :
  no_files args = true → parse_options args st = Ok (tt, st') →
  get_options argv0 args (named w r st) W
  = Ok (inr (named w r st'), mkWorld (w_out W +:+ interfaces args) (w_err W) (w_files W)).
Proof.
  revert st W. induction args as [|[c x] args IH]; intros st W Hn Hp.
  - injection Hp as <-. destruct W. cbn. by rewrite str_app_nil_r.
  - change (negb (Ascii.eqb c "w" || Ascii.eqb c "r") && no_files args = true) in Hn.
    apply andb_true_iff in Hn as [Hc Hn]. apply negb_true_iff in Hc.
    cbn [parse_options] in Hp. apply bind_ok_inv in Hp as ([] & st1 & H1 & Hp).
    apply (option_case_named w r) in H1 as H1'; [|done]. cbn [get_options].
    erewrite p_bind_ok by (eapply option_text_ok; exact H1).
    erewrite p_bind_ok by (apply call_ok; exact H1').
    rewrite (IH st1 _ Hn Hp). cbn [w_out w_err w_files interfaces].
    by rewrite str_app_nil_r, str_app_assoc.
Qed.

(** ** A session and its replay *)
Section session.
Variable nj aj sj oj : list Z.
Variable hf : Z → Z.
Variable ok : Z → bool.
Variable e : endian.
Variable wr : list Z → list Z → option nat.
Variable junk : list Z.
Variable argv0 errno_text : string.
Variable can_create : string → bool.
Variable fd_write fd_read fd_socket : Z.
Variable ifindex_of : string → option Z.
Variable start_time : timeval.
Hypothesis writes : complete_writes wr.
Hypothesis junk_length : length junk = 8%nat.
Hypothesis opened : 0 ≤ fd_write ∧ 0 ≤ fd_read ∧ 0 ≤ fd_socket.

#[local] Abbreviation monitor' := (monitor nj aj sj oj hf ok e wr junk argv0 errno_text
  can_create fd_write fd_read fd_socket ifindex_of start_time).
#[local] Abbreviation main' := (main nj aj sj oj hf ok e wr junk argv0 errno_text
  can_create fd_write fd_read fd_socket ifindex_of start_time).
#[local] Abbreviation init := (irdadump_init hf errno_text fd_socket ifindex_of start_time).
#[local] Abbreviation run := (rounds nj aj sj oj hf ok e wr junk).

Definition index_for (ifdev : option string) : option Z :=
  match ifdev with
  | None => Some 0
  | Some d => ifindex_of d
  end.

(** the state when the rounds start *)
Definition begun (s : irdump) : irdump :=
  mkIr (mkDump (mkObex (mkFrame (g_netbuf_new hf MAX_FRAME_SIZE) "" "" "") 0xff) conn_start
    (mkCtr 0 0 0 0)) (mkTime 0 0) start_time (ir_in s) (ir_out s) 0.

Lemma init_ok ifdev k s W :
  index_for ifdev = Some k → ir_dump s = ir_dump blank → curr_time s = mkTime 0 0 →
  packets s = 0 → init ifdev s W = Ok (inr (fd_socket, k, begun s), W).
Proof.
  intros Hk Hd Hc Hp. destruct s as [d c p i o n]. cbn in Hd, Hc, Hp. subst d c n.
  unfold irdadump_init. erewrite p_bind_ok by (apply call_ok; reflexivity).
  rewrite (proj2 (Z.ltb_ge _ _)) by lia.
  destruct ifdev as [d|]; cbn [index_for] in Hk; [rewrite Hk|injection Hk as <-]; done.
Qed.

Lemma begun_ready s : ready 2050 (begun s).
Proof. by split. Qed.

(** the rounds of a session that no round ended *)
Lemma rounds_live o k ps s s' :
  run o k (Some <$> ps) s = Ok (None, s') →
  main_live nj aj sj oj hf ok e wr junk o k ps s = Ok (tt, s').
Proof.
  revert s. induction ps as [|p ps IH]; intros s; cbn [fmap list_fmap rounds main_live];
    [by intros [= <-]|].
  destruct (main_round _ _ _ _ _ _ _ _ _ _ _ _ s) as [[[] s1]|[]] eqn:E; try done.
  intros H. erewrite bind_ok by exact E. by apply IH.
Qed.

(** the descriptor of the capture file makes no difference *)
Lemma rounds_fd o k rs s :
  run (with_captures (-1) fd_read o) k rs s = run (reading o) k rs s.
Proof.
  assert (Hl : ∀ x s, irdadump_loop nj aj sj oj hf ok e wr junk
      (with_captures (-1) fd_read o) k x s
    = irdadump_loop nj aj sj oj hf ok e wr junk (reading o) k x s).
  { intros x s0. unfold irdadump_loop. cbn [with_captures reading config_captureread].
    by rewrite (proj2 (Z.leb_le _ _)) by lia. }
  revert s. induction rs as [|x rs IH]; intros s; cbn [rounds]; [done|].
  unfold main_round, mbind, M_bind. rewrite Hl. destruct (irdadump_loop _ _ _ _ _ _ _ _ _ _ _ _ _)
    as [[r s1]|]; [|done].
  by destruct (_ =? _); cbn; rewrite IH.
Qed.

(** [irdadump -w F args], up to the signal *)
Lemma live_run F args ps fs st k s W1 :
  no_files args = true → parse_options args start_settings = Ok (tt, st) →
  index_for (set_ifdev st) = Some k →
  monitor' (("w"%char, F) :: args) (Some <$> ps) (start_world fs) = Ok (inr s, W1) →
  main_live nj aj sj oj hf ok e wr junk (with_captures fd_write (-1) (set_opts st)) k ps
    (begun (recorded (pcap_bytes e fileHeader) blank)) = Ok (tt, s) ∧
  w_out W1 = interfaces args +:+ f_out (ir_frame s) ∧ w_files W1 !! F = Some (ir_out s).
Proof.
  intros Hn Hp Hk. unfold monitor. cbn [get_options]. intros Hm.
  erewrite p_bind_ok in Hm.
  2: { erewrite p_bind_ok by reflexivity. erewrite p_bind_ok by (apply call_ok; reflexivity).
       exact (get_options_named argv0 (Some F) None args start_settings st _ Hn Hp). }
  apply p_bind_inv in Hm as ([fd s1] & W2 & Hw & Hm).
  cbn [open_write named set_write] in Hw. unfold capwrite_open in Hw.
  destruct (can_create F); [|done].
  erewrite p_bind_ok in Hw by reflexivity. rewrite (proj2 (Z.ltb_ge _ _)) in Hw by lia.
  erewrite p_bind_ok in Hw by (apply call_ok; by apply (start_capture_ok e wr junk)).
  injection Hw as <- <- <-.
  erewrite p_bind_ok in Hm by reflexivity. cbn [fst snd] in Hm.
  erewrite p_bind_ok in Hm by (by apply init_ok). cbv iota beta in Hm.
  rewrite (proj2 (Z.ltb_ge _ _)) in Hm by lia.
  cbn [set_opts named set_write] in Hm.
  destruct (run _ _ _ _) as [[[c|] s2]|] eqn:E; try done.
  injection Hm as <- <-. split; [by apply rounds_live|]. split; [done|].
  by apply lookup_insert_eq.
Qed.

(** [irdadump -r F args] *)
Lemma read_run F args rs fs l st k :
  no_files args = true → parse_options args start_settings = Ok (tt, st) →
  index_for (set_ifdev st) = Some k → fs !! F = Some (pcap_bytes e fileHeader ++ l) →
  monitor' (("r"%char, F) :: args) rs (start_world fs)
  = match run (reading (set_opts st)) k rs (begun (with_in l blank)) with
    | Ok (o, r) =>
        Ok (match o with None => inr r | Some c => inl (u8 c) end,
            mkWorld (interfaces args +:+ f_out (ir_frame r)) (f_err (ir_frame r)) fs)
    | Stop w => Stop w
    end.
Proof.
  intros Hn Hp Hk Hf. unfold monitor. cbn [get_options].
  erewrite p_bind_ok.
  2: { erewrite p_bind_ok by reflexivity. erewrite p_bind_ok by (apply call_ok; reflexivity).
       exact (get_options_named argv0 None (Some F) args start_settings st _ Hn Hp). }
  erewrite p_bind_ok by reflexivity.
  cbn [open_read named set_read]. unfold capread_open. rewrite p_bind_assoc.
  cbn [snd].
  erewrite p_bind_ok.
  2: { erewrite p_bind_ok by reflexivity. cbn [w_files start_world]. rewrite Hf. reflexivity. }
  cbn [fst snd]. rewrite (proj2 (Z.ltb_ge _ _)) by lia.
  rewrite p_bind_assoc.
  erewrite p_bind_ok by (apply call_ok; by apply start_replay_ok).
  erewrite p_bind_ok by reflexivity. cbn [fst snd].
  erewrite p_bind_ok by (by apply init_ok). cbv iota beta.
  rewrite (proj2 (Z.ltb_ge _ _)) by lia.
  cbn [set_opts named set_write]. rewrite rounds_fd.
  change (begun (with_in l _)) with (begun (with_in l blank)).
  destruct (run _ _ _ _) as [[[c|] r]|]; try done.
Qed.

(** C1: a session of [irdadump -w F] and its replay by [irdadump -r F], from the
    command lines to the exits, with the same other options (which parse, without [-d], [-w]
    and [-r]).  Let the two files and the socket open, the interface exist, and every write to the
    file be whole; let every frame that the socket delivered until a signal came
    pass the filter of the program (IrDA protocol, the interface that was asked for if one was) and
    be as the kernel gives them (1 to MAX_FRAME_SIZE bytes, an address of 8 bytes, a time of
    two 32-bit numbers); and let the session not stop at one of them.  Whatever these frames contain: the reader
    accepts the file and takes one record in each round; a signal after the last one finds it with
    the same text on the standard output and the same count of frames where the host
    is big-endian; without a signal it exits there with the status 255.  Where the
    host is little-endian it shows no frame at all: the protocol of the record is
    compared without [ntohs]. *)
Theorem replay_session F args ps ts fs st k s W1 :
  no_files args = true → parse_options args start_settings = Ok (tt, st) →
  config_print_diff (set_opts st) = false →
  index_for (set_ifdev st) = Some k → Forall2 (accepted e k) ps ts →
  monitor' (("w"%char, F) :: args) (Some <$> ps) (start_world fs) = Ok (inr s, W1) →
  ∃ r W2,
    monitor' (("r"%char, F) :: args) (replicate (length ps) None) (start_world (w_files W1))
    = Ok (inr r, W2) ∧
    (∀ more, main' (("r"%char, F) :: args) (replicate (length ps) None ++ None :: more)
      (start_world (w_files W1)) = Ok (inl 255, W2)) ∧
    w_files W2 = w_files W1 ∧
    match e with
    | BigEndian => w_out W2 = w_out W1 ∧ packets r = packets s
    | LittleEndian => w_out W2 = interfaces args ∧ packets r = 0
    end.
Proof.
  intros Hn Hp Hd Hk Hf Hm.
  destruct (live_run F args ps fs st k s W1 Hn Hp Hk Hm) as (Hlive & Ho & HF).
  set (o := with_captures fd_write (-1) (set_opts st)) in Hlive.
  set (s0 := begun _) in Hlive.
  assert (Hw : config_captureread o < 0 ∧ 0 ≤ config_capturewrite o) by (cbn; lia).
  assert (Hb : MAX_FRAME_SIZE ≤ 2050 < 4294967296) by (by unfold MAX_FRAME_SIZE).
  pose proof (live_records nj aj sj oj hf ok e wr junk k o Hd (proj1 Hw) (proj2 Hw) writes
    junk_length 2050 Hb ps ts s0 s (begun_ready _) Hf Hlive) as Hrec.
  cbn [s0 begun recorded ir_out blank app] in Hrec. rewrite Hrec in HF.
  set (l := records e junk ps ts) in *. set (r0 := begun (with_in l blank)).
  assert (Hfol : follows e 2050 s0 r0) by (unfold follows; destruct e; done).
  destruct (records_read nj aj sj oj hf ok e wr junk k o Hd (proj1 Hw) (proj2 Hw) writes
    junk_length 2050 Hb k ps ts s0 s r0 [] (begun_ready _) Hfol Hf Hlive)
    as (r & _ & Hrun & Hin & Hrep); [by rewrite app_nil_r|].
  change (reading o) with (reading (set_opts st)) in Hrun.
  exists r. eexists. split; [|split; [|split]].
  - rewrite (read_run F args _ _ l st k Hn Hp Hk HF). fold r0.
    rewrite <- (app_nil_r (replicate _ _)).
    rewrite (Hrun (replicate (length ps) None) []) by apply length_replicate. reflexivity.
  - intros more. unfold main, mbind, P_bind.
    rewrite (read_run F args _ _ l st k Hn Hp Hk HF). fold r0.
    rewrite (Hrun (replicate (length ps) None) (None :: more)) by apply length_replicate.
    pose proof (round_at_end nj aj sj oj hf ok e wr junk o k r Hin) as Hend.
    change (reading o) with (reading (set_opts st)) in Hend. cbn [rounds]. by rewrite Hend.
  - done.
  - cbn [w_out]. rewrite Ho. unfold repeats in Hrep. destruct e.
    + destruct Hrep as (_ & E1 & E2). rewrite E1, E2. by rewrite str_app_nil_r.
    + destruct Hrep as [E1 E2]. unfold ir_frame. rewrite E1. split; [done|].
      change (packets s0) with 0 in E2. change (packets r0) with 0 in E2. lia.
Qed.
End session.

(** ** Witness *)
#[local] Abbreviation program e := (monitor test_junk test_junk test_junk test_junk
  (λ _, 0) (λ _, true) e all_written test_junk8 "irdadump" "" (λ _, true) 3 3 4 (λ _, None)
  (mkTime 0 0)).

Lemma three_open : 0 ≤ 3 ∧ 0 ≤ 3 ∧ 0 ≤ 4.
Proof. done. Qed.

Lemma program_runs : ∃ s W1, program BigEndian [("w"%char, "log"); ("x"%char, "")]
  (Some <$> heard BigEndian) (start_world ∅) = Ok (inr s, W1).
Proof. eexists _, _. vm_compute. reflexivity. Qed.

Lemma replay_session_witness :
  match program BigEndian [("w"%char, "log"); ("x"%char, "")] (Some <$> heard BigEndian) (start_world ∅) with
  | Ok (inr s, W1) =>
      ∃ r W2, program BigEndian [("r"%char, "log"); ("x"%char, "")]
        (replicate (length (heard BigEndian)) None) (start_world (w_files W1)) = Ok (inr r, W2) ∧
      w_out W2 = w_out W1 ∧ packets r = packets s
  | _ => False
  end.
Proof.
  destruct program_runs as (s & W1 & E). rewrite E.
  destruct (replay_session test_junk test_junk test_junk test_junk (λ _, 0) (λ _, true) BigEndian
    all_written test_junk8 "irdadump" "" (λ _, true) 3 3 4 (λ _, None) (mkTime 0 0)
    all_written_complete eq_refl three_open "log" [("x"%char, "")] (heard BigEndian)
    [mkTime 10 5; mkTime 11 7] ∅ _ 0 s W1 eq_refl eq_refl eq_refl eq_refl (heard_accepted BigEndian) E)
    as (r & W2 & H1 & _ & _ & H2). exists r, W2. split; [exact H1|exact H2].
Defined.
