(* ===== verification/IrKbdMain.v ===== *)
(** * irkbd: its start and the loop of [main] (tekram/irkbd.c)

    [irkbd_init] opens the socket, the fifo and the console; [main] connects, waits
    while the signal handlers work, and connects again.  [main_safe]: the
    invariant of the handlers holds throughout, however the signals fall. *)
From Stdlib Require Import String.
From S2P Require Import Prelude CInt Printf IrKbd Proc.
Local Open Scope string_scope.
Local Open Scope list_scope.
Local Open Scope Z_scope.

Definition FIFO_NAME := "/dev/irkbd".

(** ** [irkbd_init] *)

(** what the start leaves: messages, and the fifo *)
Record host := mkHost { h_err : string; h_fifo : bool }.
(** the descriptors of [struct irkbd_cb]; a field that is not set is 0 *)
Record descriptors := mkFds { kbd_sock : Z; kbd_fifo : Z; kbd_fd : Z }.

Section init.
(** the system: what [socket], [open] of the fifo and of the console return, whether
    the socket can notify, whether the fifo can be made; the text of [errno] *)
Variable socket_fd fifo_fd console_fd : Z.
Variable async_ok can_mknod : bool.
Variable errno_text : string.

Definition perror (s : string) : P host unit :=
  pset (λ h, mkHost (h_err h +:+ s +:+ ": " +:+ errno_text +:+ nl) (h_fifo h)).

(** [EEXIST] is as good *)
Definition make_fifo : P host unit :=
  there ← pget h_fifo;
  if there : bool then mret tt
  else if can_mknod then pset (λ h, mkHost (h_err h) true)
  else perror "mknod";; exit (-1).

Definition open_devices : P host descriptors :=
  if socket_fd <? 0 then perror "socket";; exit (-1)
  else if negb async_ok then perror "fcntl";; exit (-1)
  else
    make_fifo;;
    if fifo_fd <? 0 then perror "open";; exit (-1)
    else if console_fd <? 0 then mret (mkFds socket_fd fifo_fd 0)
    else mret (mkFds socket_fd fifo_fd console_fd).

Definition opened (h : host) (d : descriptors) (h' : host) : Prop :=
  kbd_sock d = socket_fd ∧ 0 ≤ kbd_sock d ∧ kbd_fifo d = fifo_fd ∧ 0 ≤ kbd_fifo d ∧
  kbd_fd d = Z.max 0 console_fd ∧ h' = mkHost (h_err h) true.
Definition refused (h : host) (c : Z) (h' : host) : Prop :=
  c = 255 ∧ (h_fifo h = true → h_fifo h' = true) ∧ ∃ s,
    s ∈ ["socket"; "fcntl"; "mknod"; "open"] ∧
    h_err h' = h_err h +:+ s +:+ ": " +:+ errno_text +:+ nl.

(** the driver starts with the socket and the fifo, and the fifo is there, or it
    ends with the status 255 and one message; a console that cannot be opened does
    not keep it from starting: the keys then go to the descriptor 0 *)
Theorem open_devices_spec h : wp open_devices (opened h) (refused h) h.
Proof.
  assert (Hp : ∀ s h0, s ∈ ["socket"; "fcntl"; "mknod"; "open"] → h_err h0 = h_err h →
    (h_fifo h = true → h_fifo h0 = true) → wp (perror s;; exit (-1)) (opened h) (refused h) h0).
  { intros s h0 Hs He Hf. unfold perror. wps. split; [done|]. split; [done|].
    exists s. cbn. by rewrite He. }
  unfold open_devices. destruct (Z.ltb_spec socket_fd 0); [apply Hp; try done; set_solver|].
  destruct async_ok; cbn [negb]; [|apply Hp; try done; set_solver].
  apply wp_bind. unfold make_fifo. destruct h as [er ff]. wps. cbn [h_fifo].
  destruct ff; [apply wp_ret|destruct can_mknod; [apply wp_set|]].
  1, 2: destruct (Z.ltb_spec fifo_fd 0); [apply Hp; try done; set_solver|];
    destruct (Z.ltb_spec console_fd 0); apply wp_ret; repeat split; cbn; try done; lia.
  apply Hp; try done; set_solver.
Qed.
End init.

(** ** [main] *)

(** a signal: data (or the end of the connection) on the socket, or the timer *)
Inductive signal :=
  | SIGIO (received : option (list Z))
  | SIGALRM (send_ok : bool).

Section main.
Variable fifo_takes : list Z → bool.

(** the timer sends its signal only where it runs *)
Definition handle (g : signal) : M irkbd_cb unit :=
  match g with
  | SIGIO received => irkbd_data_indication fifo_takes received
  | SIGALRM send_ok =>
      k ← get;
      match watchdog_timer k with
      | None => mret tt
      | Some _ => alarm send_ok
      end
  end.

Fixpoint handle_all (gs : list signal) : M irkbd_cb unit :=
  match gs with
  | [] => mret tt
  | g :: gs => handle g;; handle_all gs
  end.

(** [while (self->connected) sleep(1);] and the signals that are left when it ends;
    [None] when it has not ended *)
Fixpoint wait_connected (gs : list signal) : M irkbd_cb (option (list signal)) :=
  k ← get;
  if connected k then
    match gs with
    | [] => mret None
    | g :: gs => handle g;; wait_connected gs
    end
  else mret (Some gs).

(** one round of the loop: a try to connect and the signals that come until the next
    one; [false] when the round has not ended *)
Definition main_loop_round (w : world) (gs : list signal) : M irkbd_cb bool :=
  ok ← main_connect w;
  if ok : bool then
    r ← wait_connected gs;
    match r with
    | None => mret false
    | Some gs => put_out ("Disconnected!" +:+ nl);; handle_all gs;; mret true
    end
  else handle_all gs;; mret true.          (* sleep(5) *)

Fixpoint main_loop (l : list (world * list signal)) : M irkbd_cb unit :=
  match l with
  | [] => mret tt
  | (w, gs) :: l =>
      ended ← main_loop_round w gs;
      if ended : bool then main_loop l else mret tt
  end.

(** *** What holds throughout *)
Lemma inv_handle g : keeps_inv (handle g).
Proof.
  destruct g as [r|so]; [apply inv_data|]. cbn [handle]. intros k [] k' Hk H.
  apply bind_ok_inv in H as (k0 & k1 & Hg & H). injection Hg as <- <-.
  destruct (watchdog_timer k) as [t|] eqn:Et; [by eapply inv_alarm|by injection H as <-].
Qed.
Lemma inv_handle_all gs : keeps_inv (handle_all gs).
Proof. induction gs; cbn [handle_all]; [apply inv_ret|apply inv_bind; [apply inv_handle|done]]. Qed.
Lemma inv_put_out t : keeps_inv (put_out t).
Proof. by apply inv_modify. Qed.
Lemma inv_wait gs : keeps_inv (wait_connected gs).
Proof.
  induction gs as [|g gs IH]; cbn [wait_connected]; (apply inv_bind; [apply inv_get|intros k]);
    destruct (connected k); try apply inv_ret. apply inv_bind; [apply inv_handle|done].
Qed.
(** enough fuel, from states of the invariant *)
Definition ends_inv {A} (m : M irkbd_cb A) : Prop := ∀ k, kbd_inv k → m k ≠ Stop OutOfFuel.

Lemma ends_inv_bind {A B} (m : M irkbd_cb A) (c : A → M irkbd_cb B) :
  keeps_inv m → ends_inv m → (∀ a, ends_inv (c a)) → ends_inv (m ≫= c).
Proof.
  intros Hi Hm Hc k Hk. specialize (Hm k Hk). unfold mbind, M_bind.
  destruct (m k) as [[a k1]|w] eqn:E; [|congruence]. apply Hc. by eapply Hi.
Qed.
Lemma ends_inv_ret {A} (a : A) : ends_inv (mret a).
Proof. by intros k _. Qed.

Lemma ends_inv_connect w : ends_inv (main_connect w).
Proof.
  assert (Hd : ∀ l k, ∃ r k', discover_loop l k = Ok (r, k')).
  { induction l as [|d l IH]; intros k; [by eexists _, _|]. cbn [discover_loop].
    unfold put_out, mbind, M_bind, modify. destruct (String.eqb _ _); [by eexists _, _|apply IH]. }
  intros k _. unfold main_connect, irkbd_connect_request, irkbd_discover_devices.
  destruct (devices w) as [l|]; [|done]. unfold put_out, mbind, M_bind, modify.
  match goal with |- context [discover_loop l ?x] => destruct (Hd l x) as (r & k' & ->) end.
  destruct (r =? -1); [done|]. destruct (set_sdu_ok w); [|done]. cbn [negb].
  destruct (connect_ok w); [|done]. cbn [negb]. by destruct (get_sdu w).
Qed.
Lemma ends_handle g : ends_inv (handle g).
Proof.
  intros k Hk. destruct g as [r|so]; cbn [handle].
  - pose proof (irkbd_data_indication_ends fifo_takes r k) as H. destruct Hk as (_ & _ & Hk).
    specialize (H Hk). destruct (irkbd_data_indication _ _ _); congruence.
  - unfold mbind, M_bind, get. destruct (watchdog_timer k); [|done].
    unfold alarm, irkbd_watchdog_timer_expired, irkbd_data_request, put_out,
      irkbd_start_watchdog_timer. destruct k as [st]. by destruct st, so.
Qed.
Lemma ends_handle_all gs : ends_inv (handle_all gs).
Proof.
  induction gs; cbn [handle_all]; [apply ends_inv_ret|].
  apply ends_inv_bind; [apply inv_handle|apply ends_handle|done].
Qed.
Lemma ends_inv_wait gs : ends_inv (wait_connected gs).
Proof.
  induction gs as [|g gs IH]; cbn [wait_connected];
    (apply ends_inv_bind; [apply inv_get|by intros k|intros k]); destruct (connected k);
    try apply ends_inv_ret. by apply ends_inv_bind; [apply inv_handle|apply ends_handle|].
Qed.
Lemma inv_round w gs : keeps_inv (main_loop_round w gs).
Proof.
  unfold main_loop_round. apply inv_bind; [apply inv_main_connect|intros []].
  - apply inv_bind; [apply inv_wait|intros [gs'|]; [|apply inv_ret]].
    apply inv_bind; [apply inv_put_out|intros _].
    apply inv_bind; [apply inv_handle_all|intros _; apply inv_ret].
  - apply inv_bind; [apply inv_handle_all|intros _; apply inv_ret].
Qed.
Lemma ends_round w gs : ends_inv (main_loop_round w gs).
Proof.
  unfold main_loop_round. apply ends_inv_bind; [apply inv_main_connect|apply ends_inv_connect|].
  intros []; [apply ends_inv_bind; [apply inv_wait|apply ends_inv_wait|intros [gs'|]]|].
  - apply ends_inv_bind; [apply inv_put_out|by intros k|intros _].
    apply ends_inv_bind; [apply inv_handle_all|apply ends_handle_all|intros _; apply ends_inv_ret].
  - apply ends_inv_ret.
  - apply ends_inv_bind; [apply inv_handle_all|apply ends_handle_all|intros _; apply ends_inv_ret].
Qed.

(** the loop of [main], from the start, for every sequence of connections, of
    frames of any content and of timers: the invariant of the handlers holds where it
    is (the keyboard is never asked to initialise, a ready driver has its timer
    running), and where it stopped it was by an [exit] or a read past the
    frame: no handler loops for ever. *)
Theorem main_safe l :
  match main_loop l irkbd_init with
  | Ok (_, k) => kbd_inv k
  | Stop w => w ≠ OutOfFuel
  end.
Proof.
  assert (Hi : ∀ l, keeps_inv (main_loop l) ∧ ends_inv (main_loop l)).
  { clear. induction l as [|[w gs] l [IH1 IH2]]; cbn [main_loop].
    - split; [apply inv_ret|apply ends_inv_ret].
    - split.
      + apply inv_bind; [apply inv_round|]. intros []; [exact IH1|apply inv_ret].
      + apply ends_inv_bind; [apply inv_round|apply ends_round|].
        intros []; [exact IH2|apply ends_inv_ret]. }
  destruct (Hi l) as [H1 H2]. assert (H0 : kbd_inv irkbd_init) by done.
  specialize (H2 _ H0). destruct (main_loop l irkbd_init) as [[[] k]|w] eqn:E; [|congruence].
  by eapply H1.
Qed.
End main.

(** a session: a device found, the mouse initialised, a key, and the end of the link *)
Example main_loop_example :
  match main_loop (λ _, true)
    [(mkWorld (Some []) true true None, []);
     (ir660, [SIGALRM true; SIGIO (answer IRKBD_RSP_MSOK); SIGALRM true;
       SIGIO (Some (frame_bytes [Keys [0x1e; 0x9e]])); SIGALRM true; SIGIO None])] irkbd_init with
  | Ok (_, k) => to_console k = [0x1e; 0x9e; 0x1e; 0x9e] ∧ connected k = false ∧
      sent k = [IRKBD_CMD_INIT_MOUSE; IRKBD_CMD_ENABLE; IRKBD_CMD_ENABLE]
  | Stop _ => False
  end.
Proof. by vm_compute. Qed.
