(* ===== verification/DevList.v ===== *)
(** * The interfaces of the system, read from /proc/net/dev (irattach/irattach.c) *)
From Stdlib Require Import String Ascii.
From S2P Require Import Prelude CInt Printf CLib.
Local Open Scope string_scope.
Local Open Scope list_scope.
Local Open Scope Z_scope.

#[local] Arguments Ascii.eqb : simpl never.

(** ** The functions *)
Definition get_irdevname (nsize : nat) (buf : string) : option string :=
  let buf := skip_space buf in
  if starts_with "irda" buf then
    name ← str_before ":" buf;
    if (nsize <? String.length name + 1)%nat then None else Some name
  else None.

(** the loop over the lines: [rows] is the number of rows of the array [ifnames] *)
Fixpoint devlist_loop (fuel : nat) (maxchars rows : nat) (maxnames : Z) (ifnames : list string)
    (fh : string) : res (option (list string)) :=
  match fuel with
  | O => Stop OutOfFuel
  | S fuel =>
      match fgets 1024 fh with
      | None => Ok (Some ifnames)
      | Some (buff, fh) =>
          match get_irdevname maxchars buff with
          | Some name =>
              if (length ifnames <? rows)%nat then
                let ifnames := ifnames ++ [name] in
                if maxnames <? Z.of_nat (length ifnames) then Ok None
                else devlist_loop fuel maxchars rows maxnames ifnames fh
              else Stop OobWrite
          | None =>
              if maxnames <? Z.of_nat (length ifnames) then Ok None
              else devlist_loop fuel maxchars rows maxnames ifnames fh
          end
      end
  end.

Definition fgets_skip (n : nat) (fh : string) : string :=
  match fgets n fh with
  | Some (_, fh) => fh
  | None => fh
  end.

(** [None]: the result -1 *)
Definition get_devlist (proc_net_dev : option string) (maxchars rows : nat) (maxnames : Z)
    : res (option (list string)) :=
  match proc_net_dev with
  | None => Ok None
  | Some fh =>
      let fh := fgets_skip 1024 (fgets_skip 1024 fh) in
      devlist_loop (S (String.length fh)) maxchars rows maxnames [] fh
  end.

(** ** The lines of the file

    An interface: spaces, its name, a colon, counters. *)
Definition dev_line (i : string * string * string) : string :=
  let '(pad, name, stats) := i in pad +:+ name +:+ ":" +:+ stats.
Definition dev_name (i : string * string * string) : string := i.1.2.

Definition dev_ok (i : string * string * string) : Prop :=
  let '(pad, name, stats) := i in
  str_all is_space pad = true ∧ str_all not_newline (dev_line i) = true ∧
  (String.length (dev_line i) ≤ 1022)%nat ∧
  str_all (λ c, negb (Ascii.eqb c ":") && negb (is_space c)) name = true ∧ name ≠ "" ∧
  (String.length name ≤ 15)%nat.

Lemma str_before_app c s t :
  str_all (λ d, negb (Ascii.eqb d c)) s = true → str_before c (s +:+ String c t) = Some s.
Proof.
  induction s as [|d s IH].
  { intros _. rewrite str_app_nil_l. cbn. by rewrite Ascii.eqb_refl. }
  rewrite str_app_cons. cbn.
  destruct (Ascii.eqb d c); [done|]. intros H. by rewrite IH.
Qed.

Lemma starts_with_app c a s t :
  str_all (λ d, negb (Ascii.eqb d c)) a = true →
  starts_with a (s +:+ String c t) = starts_with a s.
Proof.
  revert s. induction a as [|d a IH]; intros [|e s]; rewrite ?str_app_cons, ?str_app_nil_l; cbn; [done..| |].
  - intros [H1 _]%andb_true_iff. by destruct (Ascii.eqb d c).
  - intros [_ H]%andb_true_iff. by rewrite IH.
Qed.

(** the name of an interface is found, if it is one of IrDA *)
Lemma get_irdevname_line i :
  dev_ok i →
  get_irdevname 17 (dev_line i +:+ nl)
  = if starts_with "irda" (dev_name i) then Some (dev_name i) else None.
Proof.
  destruct i as [[pad name] stats]. intros (H1 & _ & _ & H4 & H5 & H6).
  unfold dev_name, dev_line, get_irdevname. cbn [fst snd].
  rewrite !str_app_assoc, skip_space_pad by done.
  change (":" +:+ stats +:+ nl) with (String ":" (stats +:+ nl)).
  rewrite skip_space_none.
  2: { intros c t E. destruct name as [|d name]; [done|]. rewrite str_app_cons in E.
       injection E as -> _. cbn in H4. by destruct (is_space c), (Ascii.eqb c ":"). }
  rewrite starts_with_app by done. destruct (starts_with "irda" name); [|done].
  rewrite str_before_app.
  - cbn [mbind option_bind]. destruct (Nat.ltb_spec 17 (String.length name + 1)); [lia|done].
  - clear -H4. induction name as [|c name IH]; [done|]. cbn in *.
    apply andb_true_iff in H4 as [[H _]%andb_true_iff H4]. by rewrite H, IH.
Qed.

(** ** The list *)
Definition ir_names (ifs : list (string * string * string)) : list string :=
  filter (λ n, starts_with "irda" n = true) (dev_name <$> ifs).

Lemma devlist_loop_all ifs fuel rows names :
  Forall dev_ok ifs → (length ifs < fuel)%nat → (length names ≤ rows)%nat →
  devlist_loop fuel 17 rows (Z.of_nat rows) names (text (dev_line <$> ifs))
  = if (length names + length (ir_names ifs) <=? rows)%nat
    then Ok (Some (names ++ ir_names ifs)) else Stop OobWrite.
Proof.
  intros Hok. revert fuel names. induction Hok as [|i ifs Hi _ IH]; intros [|fuel] names Hf Hn;
    cbn [length] in Hf; [lia| |lia|].
  - cbn. rewrite Nat.add_0_r, app_nil_r. by rewrite (proj2 (Nat.leb_le _ _)).
  - cbn [devlist_loop text foldr fmap list_fmap]. fold (text (dev_line <$> ifs)).
    rewrite fgets_whole.
    2: { by destruct i as [[? ?] ?]; destruct Hi as (_ & ? & _). }
    2: { destruct i as [[? ?] ?]; destruct Hi as (_ & _ & ? & _); lia. }
    rewrite get_irdevname_line by done. unfold ir_names. cbn [fmap list_fmap].
    rewrite filter_cons. fold (ir_names ifs).
    destruct (starts_with "irda" (dev_name i)).
    + rewrite decide_True by done. destruct (Nat.ltb_spec (length names) rows) as [Hr|Hr].
      * rewrite (proj2 (Z.ltb_ge _ _)) by (rewrite length_app; cbn; lia).
        rewrite IH by (rewrite ?length_app; cbn; lia). rewrite length_app, <- app_assoc. cbn.
        by rewrite <- Nat.add_assoc.
      * by rewrite (proj2 (Nat.leb_gt _ _)) by (cbn; lia).
    + rewrite decide_False by done. rewrite (proj2 (Z.ltb_ge _ _)) by lia.
      apply IH; lia.
Qed.

(** the list of the IrDA interfaces: whatever interfaces the file lists after
    its two lines of header, the names that begin with irda are stored, in their
    order, when the array has a row for each; with one interface more, the next
    name is written past the array: the test for too many names comes after the
    name is stored, and allows one too many. *)
Theorem get_devlist_spec h1 h2 ifs rows :
  str_all not_newline h1 = true → (String.length h1 ≤ 1022)%nat →
  str_all not_newline h2 = true → (String.length h2 ≤ 1022)%nat → Forall dev_ok ifs →
  get_devlist (Some (text (h1 :: h2 :: (dev_line <$> ifs)))) 17 rows (Z.of_nat rows)
  = if (length (ir_names ifs) <=? rows)%nat then Ok (Some (ir_names ifs)) else Stop OobWrite.
Proof.
  intros N1 L1 N2 L2 Hok. unfold get_devlist, fgets_skip. cbn [text foldr].
  fold (text (dev_line <$> ifs)). rewrite !fgets_whole by (done || lia).
  rewrite devlist_loop_all; [done|done| |cbn; lia].
  pose proof (length_text (dev_line <$> ifs)) as H. rewrite length_fmap in H. lia.
Qed.

Lemma get_devlist_spec_witness :
  let ifs := [("    ", "lo", " 0 0"); (" ", "irda0", " 5 7"); ("  ", "eth0", " 1 2");
              (" ", "irda1", " 0 0")] in
  get_devlist (Some (text ("Inter-|" :: " face |" :: (dev_line <$> ifs)))) 17 1 1 = Stop OobWrite ∧
  get_devlist (Some (text ("Inter-|" :: " face |" :: (dev_line <$> ifs)))) 17 2 2
    = Ok (Some ["irda0"; "irda1"]).
Proof.
  intros ifs.
  assert (Forall dev_ok ifs) as H.
  { repeat constructor; cbn; done || lia. }
  split.
  - etrans; [exact (get_devlist_spec "Inter-|" " face |" ifs 1 eq_refl ltac:(cbn; lia) eq_refl
      ltac:(cbn; lia) H)|by vm_compute].
  - etrans; [exact (get_devlist_spec "Inter-|" " face |" ifs 2 eq_refl ltac:(cbn; lia) eq_refl
      ltac:(cbn; lia) H)|by vm_compute].
Defined.
