(* ===== verification/Attach.v ===== *)
(** * irattach: a network interface over an infrared port (irattach/)

    irattach.c, util.c and dongle_attach.c.  The kernel is a parameter, the class
    [Kernel]: every system call the programs make is a function of a state of the
    system; what the proofs rely on of it is [KernelLaws].  The programs are over
    the monad [P], since what they leave behind when they exit is what matters. *)
From Stdlib Require Import String Ascii.
From S2P Require Import Prelude CInt Printf CLib Proc DevList.
Local Open Scope string_scope.
Local Open Scope list_scope.
Local Open Scope Z_scope.

(** ** Constants: irda.h, and those of the system *)
Definition IRDA_TEKRAM_DONGLE := 0.
Definition IRDA_ESI_DONGLE := 1.
Definition IRDA_ACTISYS_DONGLE := 2.
Definition IRDA_ACTISYS_PLUS_DONGLE := 3.
Definition IRDA_GIRBIL_DONGLE := 4.
Definition IRDA_LITELINK_DONGLE := 5.
Definition IRDA_AIRPORT_DONGLE := 6.
Definition IRDA_OLD_BELKIN_DONGLE := 7.
Definition IRDA_EP7211_IR := 8.
Definition IRDA_MCP2120_DONGLE := 9.
Definition IRDA_ACT200L_DONGLE := 10.
Definition IRDA_MA600_DONGLE := 11.
Definition IRDA_TOIM3232_DONGLE := 12.
Definition N_IRDA := 11.
Definition O_NONBLOCK := 0x800.
Definition FD_CLOEXEC := 1.
Definition IFF_UP := 0x1.
Definition IFF_RUNNING := 0x40.
Definition IFNAMSIZ : nat := 16.
Definition SIGHUP := 1.
Definition SIGINT := 2.
Definition SIGTERM := 15.
(** CS8|CREAD|B9600|CLOCAL, IGNBRK|IGNPAR *)
Definition RAW_CFLAG := Z.lor (Z.lor 0x30 0x80) (Z.lor 0xd 0x800).
Definition RAW_IFLAG := Z.lor 1 4.
Definition VTIME : nat := 5.
Definition VMIN : nat := 6.

Record termios := mkTermios {
  c_iflag : Z;
  c_oflag : Z;
  c_cflag : Z;
  c_lflag : Z;
  c_cc : list Z }.

(** ** The system calls

    [None] and [false] are the results of a call that failed. *)
Class Kernel (K : Type) := {
  k_error : K → string;                              (* strerror(errno) *)
  (* the interfaces, through a socket: SIOCGIFFLAGS, SIOCSIFFLAGS, SIOCSDONGLE *)
  k_socket : K → bool * K;
  k_getifflags : string → K → option Z * K;
  k_setifflags : string → Z → K → bool * K;
  k_setdongle : string → Z → K → bool * K;
  (* the tty: open, fcntl, ioctl, tcgetattr, tcsetattr, close *)
  k_open : string → K → option Z * K;
  k_getfl : K → option Z * K;
  k_setfl : Z → K → bool * K;
  k_getfd : K → option Z * K;
  k_setfd : Z → K → bool * K;
  k_excl : K → bool * K;
  k_getd : K → option Z * K;
  k_setd : Z → K → bool * K;
  k_getattr : K → option termios * K;
  k_setattr : termios → K → bool * K;
  k_ttydongle : Z → K → bool * K;                    (* IRTTY_IOCTDONGLE *)
  k_ttyname : K → option string * K;                 (* IRTTY_IOCGNAME *)
  k_close : Z → K → bool * K;
  (* files and processes *)
  k_netdev : K → option string;                      (* /proc/net/dev *)
  k_sh : string → K → option (string * Z) * K;       (* popen: the output, pclose *)
  k_fork : K → Z * K;
  k_setsid : K → bool * K;
  k_writepid : K → bool * K;
  k_unlink : K → bool * K;
  k_signal : Z → K → bool * K;
  k_uname : K → option string * K }.

(** ** The state: the variables of irattach.c, and what was written

    [past_device] is the byte that follows the array [device] in memory: [main]
    writes it.  [err_open] is false when the file 2 was closed: nothing that is
    written to stderr goes anywhere then. *)
Record irattach (K : Type) := mkAttach {
  kern : K;
  devfd : Z;
  fdflags : Z;
  initfdflags : Z;
  initdisc : Z;
  termsave : termios;
  termvalid : Z;
  device : string;
  past_device : Z;
  out : string;
  err : string;
  err_open : bool;
  log : list string }.
Arguments mkAttach {K} _ _ _ _ _ _ _ _ _ _ _ _ _.
Arguments kern {K} _.
Arguments devfd {K} _.
Arguments fdflags {K} _.
Arguments initfdflags {K} _.
Arguments initdisc {K} _.
Arguments termsave {K} _.
Arguments termvalid {K} _.
Arguments device {K} _.
Arguments past_device {K} _.
Arguments out {K} _.
Arguments err {K} _.
Arguments err_open {K} _.
Arguments log {K} _.

(** ** Dongles *)
Definition dongle_list : list (Z * string) := [
  (IRDA_ESI_DONGLE, "esi");
  (IRDA_TEKRAM_DONGLE, "tekram");
  (IRDA_ACTISYS_DONGLE, "actisys");
  (IRDA_ACTISYS_PLUS_DONGLE, "actisys+");
  (IRDA_GIRBIL_DONGLE, "girbil");
  (IRDA_LITELINK_DONGLE, "litelink");
  (IRDA_AIRPORT_DONGLE, "airport");
  (IRDA_OLD_BELKIN_DONGLE, "old_belkin");
  (IRDA_EP7211_IR, "ep7211");
  (IRDA_MCP2120_DONGLE, "mcp2120");
  (IRDA_ACT200L_DONGLE, "act200l");
  (IRDA_MA600_DONGLE, "ma600");
  (IRDA_TOIM3232_DONGLE, "toim3232")].

Fixpoint find_dongle (l : list (Z * string)) (dongle : string) : Z :=
  match l with
  | [] => -1
  | (id, name) :: l => if String.eqb name dongle then id else find_dongle l dongle
  end.
Definition get_dongle (dongle : string) : Z := find_dongle dongle_list dongle.

Section attach.
Context {K : Type} `{!Kernel K}.
Abbreviation Proc := (P (irattach K)).

(** ** Calls and output *)
Definition call {A} (f : K → A * K) : Proc A := λ s,
  let '(a, k) := f (kern s) in
  Ok (inr a, mkAttach k (devfd s) (fdflags s) (initfdflags s) (initdisc s) (termsave s)
    (termvalid s) (device s) (past_device s) (out s) (err s) (err_open s) (log s)).
Definition printf (t : string) : Proc unit :=
  pset (λ s, mkAttach (kern s) (devfd s) (fdflags s) (initfdflags s) (initdisc s) (termsave s)
    (termvalid s) (device s) (past_device s) (out s +:+ t) (err s) (err_open s) (log s)).
Definition eprintf (t : string) : Proc unit :=
  pset (λ s, mkAttach (kern s) (devfd s) (fdflags s) (initfdflags s) (initdisc s) (termsave s)
    (termvalid s) (device s) (past_device s) (out s)
    (if err_open s then err s +:+ t else err s) (err_open s) (log s)).
Definition syslog (t : string) : Proc unit :=
  pset (λ s, mkAttach (kern s) (devfd s) (fdflags s) (initfdflags s) (initdisc s) (termsave s)
    (termvalid s) (device s) (past_device s) (out s) (err s) (err_open s) (log s ++ [t])).
(** a message that ends with [%m], or with [strerror(errno)] *)
Definition syslog_m (t : string) : Proc unit :=
  e ← pget (λ s, k_error (kern s)); syslog (t +:+ e).
Definition eprintf_m (t : string) : Proc unit :=
  e ← pget (λ s, k_error (kern s)); eprintf (t +:+ e +:+ nl).
Definition perror (t : string) : Proc unit := eprintf_m (t +:+ ": ").

(** ** The variables *)
Definition set_device (d : string) : Proc unit :=
  pset (λ s, mkAttach (kern s) (devfd s) (fdflags s) (initfdflags s) (initdisc s) (termsave s)
    (termvalid s) d (past_device s) (out s) (err s) (err_open s) (log s)).
Definition set_past_device (b : Z) : Proc unit :=
  pset (λ s, mkAttach (kern s) (devfd s) (fdflags s) (initfdflags s) (initdisc s) (termsave s)
    (termvalid s) (device s) b (out s) (err s) (err_open s) (log s)).
Definition set_devfd (fd : Z) : Proc unit :=
  pset (λ s, mkAttach (kern s) fd (fdflags s) (initfdflags s) (initdisc s) (termsave s)
    (termvalid s) (device s) (past_device s) (out s) (err s) (err_open s) (log s)).
Definition set_fdflags (f : Z) : Proc unit :=
  pset (λ s, mkAttach (kern s) (devfd s) f (initfdflags s) (initdisc s) (termsave s)
    (termvalid s) (device s) (past_device s) (out s) (err s) (err_open s) (log s)).
Definition set_initfdflags (f : Z) : Proc unit :=
  pset (λ s, mkAttach (kern s) (devfd s) (fdflags s) f (initdisc s) (termsave s)
    (termvalid s) (device s) (past_device s) (out s) (err s) (err_open s) (log s)).
Definition set_initdisc (d : Z) : Proc unit :=
  pset (λ s, mkAttach (kern s) (devfd s) (fdflags s) (initfdflags s) d (termsave s)
    (termvalid s) (device s) (past_device s) (out s) (err s) (err_open s) (log s)).
Definition save_term (t : termios) : Proc unit :=
  pset (λ s, mkAttach (kern s) (devfd s) (fdflags s) (initfdflags s) (initdisc s) t
    0 (device s) (past_device s) (out s) (err s) (err_open s) (log s)).
Definition close_err : Proc unit :=
  pset (λ s, mkAttach (kern s) (devfd s) (fdflags s) (initfdflags s) (initdisc s) (termsave s)
    (termvalid s) (device s) (past_device s) (out s) (err s) false (log s)).

(** ** Interfaces *)
Definition modify_flags (dev : string) (set clear : Z) : Proc Z :=
  sockfd ← call k_socket;
  if negb sockfd then syslog_m "socket(AF_IRDA): ";; mret (-1)
  else
    let ifr_name := str_take IFNAMSIZ dev in
    ifr_flags ← call (k_getifflags ifr_name);
    match ifr_flags with
    | None => syslog_m "ioctl(SIOCGIFFLAGS): ";; mret (-1)
    | Some ifr_flags =>
        let ifr_flags := u16 (Z.lor ifr_flags set) in
        let ifr_flags := u16 (Z.land ifr_flags (Z.lnot clear)) in
        ok ← call (k_setifflags ifr_name ifr_flags);
        if negb ok then syslog_m "ioctl(SIOCSIFFLAGS): ";; mret (-1)
        else mret 0
    end.

Definition ifup (dev : string) : Proc Z :=
  syslog ("Starting device " +:+ dev);; modify_flags dev (Z.lor IFF_UP IFF_RUNNING) 0.
Definition ifdown (dev : string) : Proc Z :=
  syslog ("Stopping device " +:+ dev);; modify_flags dev 0 IFF_UP.

(** ** The end: it never returns *)
Definition set_file_flags (flags : Z) (what : string) : Proc unit :=
  ok ← call (k_setfl flags);
  pwhen (negb ok) (syslog_m what).

Definition restore_disc : Proc unit :=
  initdisc ← pget initdisc;
  pwhen (negb (initdisc =? -1))
    (ok ← call (k_setd initdisc);
     pwhen (negb ok)
       (eprintf ("Oups ! Can't set back original link discipline..." +:+ nl);;
        syslog_m "ioctl: set_inidisc: ")).

Definition restore_attr : Proc unit :=
  termvalid ← pget termvalid;
  pwhen (negb (termvalid =? -1))
    (termsave ← pget termsave;
     ok ← call (k_setattr termsave);
     pwhen (negb ok) (syslog_m "tcsetattr: ")).

Definition restore_tty : Proc unit :=
  flags ← pget fdflags;
  set_fdflags (Z.land flags (Z.lnot O_NONBLOCK));;
  set_file_flags (Z.land flags (Z.lnot O_NONBLOCK)) "fcntl: fdflags: ";;
  restore_disc;;
  restore_attr;;
  initfdflags ← pget initfdflags;
  set_file_flags initfdflags "fcntl: initfdflags: ";;
  fd ← pget devfd;
  _ ← call (k_close fd);
  set_devfd (-1).

Definition finish {A} (signo : Z) : Proc A :=
  _ ← call k_unlink;
  syslog ("exiting ..." +:+ nl);;
  if signo =? -1 then exit 1 else exit 0.

Definition cleanup {A} (signo : Z) : Proc A :=
  (if (signo =? SIGTERM) || (signo =? SIGINT) then syslog ("got SIGTERM or SIGINT" +:+ nl)
   else if signo =? SIGHUP then syslog ("got SIGHUP" +:+ nl)
   else mret tt);;
  dev ← pget device;
  _ ← ifdown dev;
  fd ← pget devfd;
  pwhen (negb (fd =? -1)) restore_tty;;
  finish signo.

Definition clean_exit {A} (status : Z) : Proc A := cleanup status.

Definition print_usage : Proc unit :=
  eprintf ("Usage: irattach <dev> [-d dongle] [-s] [-b] [-v] [-h]" +:+ nl);;
  eprintf ("       <dev> is tty name, device name or module name" +:+ nl);;
  eprintf ("Dongles supported :" +:+ nl);;
  eprintf (String.concat "" ((λ d, tab +:+ d.2 +:+ nl) <$> dongle_list));;
  eprintf nl.

(** ** Commands (util.c) *)
Fixpoint log_lines (fuel : nat) (f : string) : Proc unit :=
  match fuel with
  | O => stopped OutOfFuel
  | S fuel =>
      match fgets 255 f with
      | None => mret tt
      | Some (line, f) =>
          match c_str line with
          | EmptyString => stopped OobWrite
          | line => syslog ("+ " +:+ drop_last line);; log_lines fuel f
          end
      end
  end.

Definition WIFEXITED (ret : Z) : bool := Z.land ret 0x7f =? 0.
Definition WEXITSTATUS (ret : Z) : Z := Z.land (Z.shiftr ret 8) 0xff.
Definition WTERMSIG (ret : Z) : Z := Z.land ret 0x7f.

Definition execute (msg cmd : string) : Proc Z :=
  syslog ("executing: '" +:+ cmd +:+ "'");;
  f ← call (k_sh (cmd +:+ " 2>&1"));
  match f with
  | None => stopped NullDeref
  | Some (f, ret) =>
      log_lines (S (String.length f)) f;;
      if WIFEXITED ret then
        pwhen (negb (WEXITSTATUS ret =? 0))
          (syslog (msg +:+ " exited with status " +:+ fmt_d (WEXITSTATUS ret)));;
        mret (WEXITSTATUS ret)
      else
        syslog (msg +:+ " exited on signal " +:+ fmt_d (WTERMSIG ret));;
        mret (-1)
  end.

Definition set_sysctl_param (name value : string) : Proc Z :=
  execute ("Setting " +:+ name +:+ " to " +:+ value)
    ("echo " +:+ value +:+ " > /proc/sys/net/irda/" +:+ name).

Definition load_module (name : string) : Proc Z :=
  execute ("Trying to load module " +:+ name) ("/sbin/modprobe " +:+ name).

Definition write_pid : Proc unit :=
  f ← call k_writepid;
  pwhen (negb f) (syslog_m "could not open /var/run/irattach.pid: ").

Fixpoint close_files (n : nat) (ttyfd : Z) : Proc unit :=
  match n with
  | O => mret tt
  | S n =>
      close_files n ttyfd;;
      let i := Z.of_nat n in
      pwhen (negb (i =? ttyfd)) (_ ← call (k_close i); pwhen (i =? 2) close_err)
  end.

Definition fork_now (ttyfd : Z) : Proc unit :=
  ret ← call k_fork;
  if 0 <? ret then exit 0
  else
    pwhen (ret =? -1) (syslog_m "forking: ");;
    ok ← call k_setsid;
    pwhen (negb ok) (syslog_m "detaching from tty: ");;
    ret ← call k_fork;
    if 0 <? ret then exit 0
    else close_files 64 ttyfd;; write_pid.

(** ** The interfaces of a module *)
Definition devlist (maxchars rows : nat) (maxnames : Z) : Proc (option (list string)) := λ s,
  match get_devlist (k_netdev (kern s)) maxchars rows maxnames with
  | Ok l => Ok (inr l, s)
  | Stop w => Stop w
  end.

Fixpoint new_devices (firstone : bool) (before_names after_names : list string) : Proc Z :=
  match after_names with
  | [] => mret 0
  | name :: after_names =>
      if existsb (String.eqb name) before_names then
        new_devices firstone before_names after_names
      else if firstone then
        eprintf ("Found additional interface [" +:+ name +:+ "]" +:+ nl);;
        pid ← call k_fork;
        if pid =? 0 then set_device name;; mret 0
        else new_devices firstone before_names after_names
      else
        set_device name;;
        eprintf ("Found interface [" +:+ name +:+ "]" +:+ nl);;
        new_devices true before_names after_names
  end.

Definition get_module_devices (modname : string) : Proc Z :=
  before_names ← devlist (IFNAMSIZ + 1) 10 10;
  match before_names with
  | None => eprintf ("Could not get device name list." +:+ nl);; exit (-1)
  | Some before_names =>
      ret ← load_module modname;
      if truth ret then
        device ← pget device;
        eprintf ("Invalid module name [" +:+ device +:+ "] !" +:+ nl);;
        print_usage;;
        exit (-1)
      else
        after_names ← devlist (IFNAMSIZ + 1) 15 15;
        match after_names with
        | None | Some [] => eprintf ("Could not get device name list." +:+ nl);; exit (-1)
        | Some after_names => new_devices false before_names after_names
        end
  end.

(** ** The tty *)
Definition establish_irda : Proc unit :=
  ok ← call k_excl;
  pwhen (negb ok) (syslog_m "ioctl(TIOCEXCL): ");;
  d ← call k_getd;
  match d with
  | None => syslog_m "ioctl(TIOCGETD): ";; clean_exit (-1)
  | Some d => set_initdisc d
  end;;
  ok ← call (k_setd N_IRDA);
  pwhen (negb ok)
    (eprintf ("Maybe you don't have IrDA support in your kernel?" +:+ nl);;
     e ← pget (λ s, k_error (kern s));
     syslog ("irattach: tty: set_disc(" +:+ fmt_d N_IRDA +:+ "): " +:+ e +:+ nl);;
     clean_exit (-1)).

Definition tty_configure (tios : termios) : termios :=
  mkTermios RAW_IFLAG 0 RAW_CFLAG 0 (<[VTIME := 0]> (<[VMIN := 1]> (c_cc tios))).

Definition init_irda_ldisc : Proc unit :=
  t ← call k_getattr;
  match t with
  | None => syslog_m "tcgetattr: ";; clean_exit (-1)
  | Some tios =>
      save_term tios;;
      ok ← call (k_setattr (tty_configure tios));
      pwhen (negb ok) (syslog_m "tcsetattr: ";; clean_exit (-1))
  end.

Definition start_tty : Proc unit :=
  fdflags0 ← pget fdflags;
  let fl := Z.land fdflags0 (Z.lnot O_NONBLOCK) in
  set_fdflags fl;;
  ok ← call (k_setfl fl);
  pwhen (negb ok) (syslog_m "Couldn't set device fd flags: ");;
  cloexec ← call k_getfd;
  match cloexec with
  | None => syslog_m "Couldn't get device fd close-on-exec flag: ";; clean_exit (-1)
  | Some cloexec =>
      ok ← call (k_setfd (Z.lor cloexec FD_CLOEXEC));
      pwhen (negb ok) (syslog_m "Couldn't set device fd close-on-exec flag: ";; clean_exit (-1))
  end;;
  init_irda_ldisc;;
  establish_irda;;
  ok ← call (k_setfl (Z.lor fl O_NONBLOCK));
  pwhen (negb ok) (syslog_m "Couldn't set device to non-blocking mode: ";; clean_exit (-1)).

Definition open_tty (dev : string) : Proc Z :=
  ttyfd ← call (k_open dev);
  match ttyfd with
  | None => eprintf_m ("Failed to open device " +:+ dev +:+ ": ");; exit (-1)
  | Some ttyfd =>
      f ← call k_getfl;
      match f with
      | None =>
          set_fdflags (-1);;
          eprintf_m ("Couldn't get device " +:+ dev +:+ " flags: ");;
          _ ← call (k_close ttyfd);
          exit (-1)
      | Some f => set_fdflags f;; set_initfdflags f;; mret ttyfd
      end
  end.

Definition attach_dongle (ttyfd : Z) (dev : string) (dongle : Z) : Proc unit :=
  if negb (ttyfd =? -1) then _ ← call (k_ttydongle dongle); mret tt
  else
    sockfd ← call k_socket;
    if negb sockfd then perror "socket";; clean_exit (-1)
    else
      ok ← call (k_setdongle (str_take IFNAMSIZ dev) dongle);
      if negb ok then perror "ioctl";; clean_exit (-1)
      else mret tt.

(** ** [main] *)
Record options := mkOptions {
  dongle : Z;
  discovery : Z;
  daemonize : bool }.

Variable VERSION : string.

Definition option_case (c : ascii) (optarg : string) (o : options) : Proc options :=
  if Ascii.eqb c "s" then mret (mkOptions (dongle o) 1 (daemonize o))
  else if Ascii.eqb c "d" then
    let dongle := get_dongle optarg in
    if dongle =? -1 then
      eprintf ("Sorry, dongle not supported yet!" +:+ nl);; print_usage;; exit (-1)
    else mret (mkOptions dongle (discovery o) (daemonize o))
  else if Ascii.eqb c "v" then printf ("Version: " +:+ VERSION +:+ nl);; exit 0
  else if Ascii.eqb c "h" then print_usage;; exit 0
  else if Ascii.eqb c "b" then mret (mkOptions (dongle o) (discovery o) false)
  else print_usage;; exit (-1).

Fixpoint parse_options (l : list (ascii * string)) (o : options) : Proc options :=
  match l with
  | [] => mret o
  | (c, optarg) :: l => o ← option_case c optarg o; parse_options l o
  end.

(** the choice of what the first argument names; the result: it is a tty *)
Definition open_device : Proc bool :=
  dev ← pget device;
  if starts_with "/dev" dev then
    fd ← open_tty dev; set_devfd fd;; mret true
  else if starts_with "irda" dev &&
      (match String.get 4 dev with Some c => is_digit c | None => false end) then
    _ ← load_module dev; mret false
  else _ ← get_module_devices dev; mret false.

Definition trap (signo : Z) (name : string) : Proc unit :=
  ok ← call (k_signal signo);
  pwhen (negb ok) (syslog_m ("signal(" +:+ name +:+ "): ")).

(** the name of the interface of the tty *)
Definition ask_name : Proc unit :=
  info ← call k_ttyname;
  match info with
  | None => syslog "Are you using an old kernel?";; clean_exit (-1)
  | Some name => set_device (str_take 20 name)
  end.

(** the name of the host, discovery *)
Definition set_params (o : options) : Proc unit :=
  buf ← call k_uname;
  match buf with
  | None => mret tt
  | Some nodename =>
      match first_token "." nodename with
      | None => stopped NullDeref
      | Some host => _ ← set_sysctl_param "devname" host; mret tt
      end
  end;;
  pwhen (0 <? discovery o) (_ ← set_sysctl_param "discovery" "1"; mret tt).

(** the dongle, the parameters, the interface *)
Definition start_up (o : options) (fd : Z) : Proc unit :=
  dev ← pget device;
  pwhen (negb (dongle o =? -1)) (attach_dongle fd dev (dongle o));;
  set_params o;;
  ret ← ifup dev;
  pwhen (ret <? 0) (clean_exit (-1)).

(** what the daemon does up to its last loop *)
Definition serve (tty : bool) (o : options) (fd : Z) : Proc unit :=
  pwhen (daemonize o) (fork_now fd);;
  trap SIGHUP "SIGHUP";;
  trap SIGTERM "SIGTERM";;
  trap SIGINT "SIGINT";;
  pwhen tty (start_tty;; ask_name);;
  start_up o fd.

(** what [main] does up to its last loop, where it waits for a signal *)
Definition main (argc : Z) (argv1 : string) (opts : list (ascii * string)) : Proc unit :=
  if (argc <? 2) || (5 <? argc) then print_usage;; exit (-1)
  else
    set_device (str_take 20 argv1);;
    set_past_device 0;;
    o ← parse_options opts (mkOptions (-1) (-1) true);
    tty ← open_device;
    fd ← pget devfd;
    serve tty o fd.
End attach.

(** ** Commands *)
Section commands.
Context {K : Type} `{!Kernel K}.
Implicit Types (s : irattach K) (k : K).

Definition with_kern (k : K) (s : irattach K) : irattach K :=
  mkAttach k (devfd s) (fdflags s) (initfdflags s) (initdisc s) (termsave s)
    (termvalid s) (device s) (past_device s) (out s) (err s) (err_open s) (log s).
Definition with_log (l : list string) s : irattach K :=
  mkAttach (kern s) (devfd s) (fdflags s) (initfdflags s) (initdisc s) (termsave s)
    (termvalid s) (device s) (past_device s) (out s) (err s) (err_open s) (log s ++ l).

Lemma wp_call {A} (f : K → A * K) Q E s :
  (∀ a k, f (kern s) = (a, k) → Q a (with_kern k s)) → wp (call f) Q E s.
Proof. intros H. unfold wp, call. destruct (f (kern s)) as [a k] eqn:E1. by apply H. Qed.

Lemma with_log_log l l' s : with_log l' (with_log l s) = with_log (l ++ l') s.
Proof. unfold with_log. cbn. by rewrite app_assoc. Qed.
Lemma with_log_nil s : with_log [] s = s.
Proof. unfold with_log. rewrite app_nil_r. by destruct s. Qed.

(** a line that the buffer of [execute] holds *)
Definition short_line (l : string) : Prop :=
  str_all not_newline l = true ∧ str_all not_nul l = true ∧ (String.length l ≤ 253)%nat.

Lemma log_lines_all ls fuel s :
  Forall short_line ls → (length ls < fuel)%nat →
  log_lines fuel (text ls) s = Ok (inr tt, with_log ((λ l, "+ " +:+ l) <$> ls) s).
Proof.
  intros Hls. revert fuel s. induction Hls as [|l ls (H1 & H2 & H3) _ IH]; intros [|fuel] s Hf;
    cbn [length] in Hf; [lia| |lia|].
  - cbn. unfold mret, P_ret. by rewrite with_log_nil.
  - cbn [log_lines text foldr]. fold (text ls). rewrite fgets_whole by (done || lia).
    rewrite c_str_all by (rewrite str_all_app, H2; done).
    destruct (l +:+ nl) as [|c u] eqn:E; [by destruct l|]. rewrite <- E.
    change (drop_last (l +:+ nl)) with (drop_last (l +:+ String (chr 10) "")).
    rewrite drop_last_snoc.
    change (log_lines fuel (text ls) (with_log ["+ " +:+ l] s) = Ok (inr tt,
      with_log (("+ " +:+ l) :: ((λ l, "+ " +:+ l) <$> ls)) s)).
    rewrite IH by lia. by rewrite with_log_log.
Qed.

(** what the end of a command means: its status, or the signal that killed it *)
Definition command_result (msg : string) (ret : Z) : Z * list string :=
  if ret mod 128 =? 0 then
    let status := (ret / 256) mod 256 in
    (status, if status =? 0 then [] else [msg +:+ " exited with status " +:+ fmt_d status])
  else (-1, [msg +:+ " exited on signal " +:+ fmt_d (ret mod 128)]).

Lemma wait_status ret :
  WIFEXITED ret = (ret mod 128 =? 0) ∧ WEXITSTATUS ret = (ret / 256) mod 256 ∧
  WTERMSIG ret = ret mod 128.
Proof.
  unfold WIFEXITED, WEXITSTATUS, WTERMSIG. change 0x7f with (Z.ones 7).
  change 0xff with (Z.ones 8). rewrite !Z.land_ones, Z.shiftr_div_pow2 by done. done.
Qed.

(** a command is run with its errors on its output; every line of the output
    goes to the log, in order and whole, after the command itself; then its status
    if it is not 0, or the signal that ended it.  The result is the status, or
    -1. *)
Theorem execute_logs msg cmd ls ret k s :
  k_sh (cmd +:+ " 2>&1") (kern s) = (Some (text ls, ret), k) →
  Forall short_line ls →
  execute msg cmd s = Ok (inr (command_result msg ret).1,
    with_kern k (with_log (["executing: '" +:+ cmd +:+ "'"] ++ ((λ l, "+ " +:+ l) <$> ls)
      ++ (command_result msg ret).2) s)).
Proof.
  intros Hk Hls. unfold execute, mbind, P_bind, call, syslog at 1, pset.
  cbn [kern]. rewrite Hk. rewrite log_lines_all by (done || (pose proof (length_text ls); lia)).
  destruct (wait_status ret) as (-> & -> & ->). unfold command_result, with_kern, with_log.
  destruct (ret mod 128 =? 0); [destruct ((ret / 256) mod 256 =? 0) eqn:E|]; cbn;
    rewrite ?E; cbn; unfold mret, P_ret; by rewrite <- ?app_assoc, ?app_nil_r.
Qed.
End commands.

(** ** dongle_attach *)
Section dongle_attach.
Context {K : Type} `{!Kernel K}.

(** the tests of [strcmp], in their order *)
Definition dongle_names : list (Z * string) := [
  (IRDA_ESI_DONGLE, "esi");
  (IRDA_TEKRAM_DONGLE, "tekram");
  (IRDA_ACTISYS_DONGLE, "actisys");
  (IRDA_ACTISYS_PLUS_DONGLE, "actisys+");
  (IRDA_GIRBIL_DONGLE, "girbil");
  (IRDA_LITELINK_DONGLE, "litelink");
  (IRDA_AIRPORT_DONGLE, "airport");
  (IRDA_OLD_BELKIN_DONGLE, "old_belkin");
  (IRDA_EP7211_IR, "ep7211");
  (IRDA_MCP2120_DONGLE, "mcp2120");
  (IRDA_ACT200L_DONGLE, "act200l");
  (IRDA_MA600_DONGLE, "ma600")].

(** a name that is not known leaves the variable as it was *)
Definition name_dongle (optarg : string) (dongle : Z) : Z :=
  let id := find_dongle dongle_names optarg in
  if id =? -1 then dongle else id.

Fixpoint dongle_options (l : list (ascii * string)) (dongle : Z) : P (irattach K) Z :=
  match l with
  | [] => mret dongle
  | (c, optarg) :: l =>
      if Ascii.eqb c "d" then
        let dongle := name_dongle optarg dongle in
        if dongle =? -1 then printf ("Sorry, dongle not supported yet!" +:+ nl);; exit (-1)
        else dongle_options l dongle
      else dongle_options l dongle
  end.

(** [dev] is an array of 10 characters *)
Definition dongle_attach (argc : Z) (argv1 : string) (opts : list (ascii * string))
    : P (irattach K) Z :=
  if argc <? 3 then
    printf ("Usage: dongle_attach <device> -d <dongle>" +:+ nl);;
    printf (nl +:+ "Example: dongle_attach irda0 -d esi" +:+ nl +:+ nl);;
    exit (-1)
  else if (10 <=? String.length argv1)%nat then stopped OobWrite
  else
    dongle ← dongle_options opts (-1);
    fd ← call k_socket;
    if negb fd then perror "socket";; exit (-1)
    else
      ok ← call (k_setdongle (str_take IFNAMSIZ argv1) dongle);
      if negb ok then perror "ioctl";; exit (-1)
      else mret 0.
End dongle_attach.

(** both programs know the same dongles, but one *)
Lemma dongles_agree name :
  name ≠ "toim3232" → name_dongle name (-1) = get_dongle name.
Proof.
  intros Hn. unfold name_dongle, get_dongle, dongle_names, dongle_list. cbn [find_dongle].
  repeat match goal with |- context [String.eqb ?a name] =>
    destruct (String.eqb_spec a name); [by subst|] end.
  done.
Qed.

(** ** A kernel for the examples

    One tty that may not know the line discipline of IrDA, three interfaces that a
    module creates, and a process: the child of one of the calls of [fork]. *)
Record sim (child : nat) := mkSim {
  sim_fl : Z;
  sim_disc : Z;
  sim_attr : termios;
  sim_ifs : gmap string Z;
  sim_forks : nat;
  sim_loaded : bool;
  sim_irda : bool }.
Arguments sim_fl {child} _.
Arguments sim_disc {child} _.
Arguments sim_attr {child} _.
Arguments sim_ifs {child} _.
Arguments sim_forks {child} _.
Arguments sim_loaded {child} _.
Arguments sim_irda {child} _.
Arguments mkSim {child} _ _ _ _ _ _ _.

Definition sim_dev (name : string) : string := " " +:+ name +:+ ": 0 0".
Definition sim_netdev {child} (k : sim child) : string :=
  text (["Inter-| Receive"; " face |bytes"; " lo: 0 0"; sim_dev "irda0"]
    ++ if sim_loaded k then [sim_dev "irda1"; sim_dev "irda2"] else []).

#[export] Instance sim_kernel (child : nat) : Kernel (sim child) := {|
  k_error _ := "Invalid argument";
  k_socket k := (true, k);
  k_getifflags n k := (u16 <$> sim_ifs k !! n, k);
  k_setifflags n v k :=
    match sim_ifs k !! n with
    | Some _ => (true, mkSim (sim_fl k) (sim_disc k) (sim_attr k) (<[n := v]> (sim_ifs k))
        (sim_forks k) (sim_loaded k) (sim_irda k))
    | None => (false, k)
    end;
  k_setdongle _ _ k := (true, k);
  k_open _ k := (Some 3, k);
  k_getfl k := (Some (sim_fl k), k);
  k_setfl v k := (true, mkSim v (sim_disc k) (sim_attr k) (sim_ifs k) (sim_forks k)
    (sim_loaded k) (sim_irda k));
  k_getfd k := (Some 0, k);
  k_setfd _ k := (true, k);
  k_excl k := (true, k);
  k_getd k := (Some (sim_disc k), k);
  k_setd v k :=
    if (v =? N_IRDA) && negb (sim_irda k) then (false, k)
    else (true, mkSim (sim_fl k) v (sim_attr k) (sim_ifs k) (sim_forks k)
      (sim_loaded k) (sim_irda k));
  k_getattr k := (Some (sim_attr k), k);
  k_setattr v k := (true, mkSim (sim_fl k) (sim_disc k) v (sim_ifs k) (sim_forks k)
    (sim_loaded k) (sim_irda k));
  k_ttydongle _ k := (true, k);
  k_ttyname k := (Some "irda0", k);
  k_close _ k := (true, k);
  k_netdev k := Some (sim_netdev k);
  k_sh _ k := (Some (text ["done"], 0), mkSim (sim_fl k) (sim_disc k) (sim_attr k) (sim_ifs k)
    (sim_forks k) true (sim_irda k));
  k_fork k := (if Nat.eqb (sim_forks k) child then 0 else 100,
    mkSim (sim_fl k) (sim_disc k) (sim_attr k) (sim_ifs k) (S (sim_forks k))
    (sim_loaded k) (sim_irda k));
  k_setsid k := (true, k);
  k_writepid k := (true, k);
  k_unlink k := (true, k);
  k_signal _ k := (true, k);
  k_uname k := (Some "laptop.home", k) |}.

Definition sim_attr0 : termios := mkTermios 0x500 5 0xcbd 0x8a3b (replicate 32 3).
Definition sim_start (child : nat) (irda : bool) : irattach (sim child) :=
  mkAttach (mkSim 0x802 0 sim_attr0 {[ "irda0" := 0x80 ]} 0 false irda)
    (-1) (-1) (-1) (-1) sim_attr0 (-1) "" 0 "" "" true [].

Lemma execute_logs_witness :
  ∃ s', execute "Trying to load module nsc-ircc" "/sbin/modprobe nsc-ircc" (sim_start 9 true)
    = Ok (inr 0, s') ∧ log s' = ["executing: '/sbin/modprobe nsc-ircc'"; "+ done"].
Proof.
  eexists. split.
  - apply (execute_logs "Trying to load module nsc-ircc" "/sbin/modprobe nsc-ircc" ["done"] 0
      (kern (with_kern (mkSim 0x802 0 sim_attr0 {[ "irda0" := 0x80 ]} 0 true true)
        (sim_start 9 true))) (sim_start 9 true)); [reflexivity|].
    repeat constructor.
  - reflexivity.
Defined.
