(* ===== verification/AttachDev.v ===== *)
(** * irattach and the interfaces (irattach/irattach.c)

    The flags of an interface, and the interfaces that loading a module creates. *)
From Stdlib Require Import String Ascii.
From S2P Require Import Prelude CInt Printf CLib Proc DevList Attach.
Local Open Scope string_scope.
Local Open Scope list_scope.
Local Open Scope Z_scope.

(** ** Flags

    What the proofs rely on of SIOCGIFFLAGS and SIOCSIFFLAGS: they read and write
    the flags of the interface of that name, if there is one. *)
Class NetLaws (K : Type) `{!Kernel K} := {
  if_flags : K → gmap string Z;
  if_range k n v : if_flags k !! n = Some v → 0 ≤ v < 65536;     (* a short *)
  socket_net k : if_flags (k_socket k).2 = if_flags k;
  getifflags_net n k : let '(r, k') := k_getifflags n k in
    if_flags k' = if_flags k ∧ (∀ v, r = Some v → if_flags k !! n = Some v);
  setifflags_net n v k : 0 ≤ v < 65536 → let '(r, k') := k_setifflags n v k in
    if_flags k' = if r then <[n := v]> (if_flags k) else if_flags k }.

Section flags.
Context {K : Type} `{!Kernel K} `{!NetLaws K}.
Implicit Types (s : irattach K).

(** the flags become [f] of what they were and the result is 0, or nothing
    changes and the result is -1 *)
Definition flags_set (n : string) (f : Z → Z) s (r : Z) s' : Prop :=
  (∃ old, r = 0 ∧ if_flags (kern s) !! n = Some old ∧
    if_flags (kern s') = <[n := f old]> (if_flags (kern s))) ∨
  (r = -1 ∧ if_flags (kern s') = if_flags (kern s)).

Lemma modify_flags_ok dev set clear s :
  wp (modify_flags dev set clear)
    (flags_set (str_take IFNAMSIZ dev)
      (λ old, u16 (Z.land (u16 (Z.lor old set)) (Z.lnot clear))) s) (λ _ _, False) s.
Proof.
  unfold modify_flags, syslog_m, syslog. cbv zeta. generalize (str_take IFNAMSIZ dev). intros n.
  apply wp_bind, wp_call. intros r k E.
  pose proof (socket_net (kern s)) as L. rewrite E in L. cbn in L.
  destruct r; cbn [negb]; [|wps; right; by rewrite <- L].
  apply wp_bind, wp_call. intros g k1 E1. cbn in E1.
  pose proof (getifflags_net n k) as L1. rewrite E1 in L1.
  destruct L1 as [L1 G1]. destruct g as [g|]; [|wps; right; split; [done|]; cbn; congruence].
  specialize (G1 g eq_refl). apply wp_bind, wp_call. intros r2 k2 E2. cbn in E2.
  match type of E2 with k_setifflags ?n ?v _ = _ =>
    pose proof (setifflags_net n v k1 (u16_range _)) as L2 end.
  rewrite E2 in L2. destruct r2; cbn [negb]; wps; [left; exists g|right];
    (split; [done|]); cbn; rewrite ?L2, ?L1, ?L in *; done.
Qed.

Lemma u16_land_lnot x c : u16 (Z.land (u16 x) (Z.lnot c)) = Z.land (u16 x) (Z.lnot c).
Proof.
  unfold u16. rewrite <- !Z.land_ones by done. rewrite <- !Z.land_assoc.
  by rewrite (Z.land_comm (Z.lnot c)), (Z.land_assoc (Z.ones 16)), Z.land_diag.
Qed.

(** starting an interface sets its flags UP and RUNNING and keeps its others;
    stopping it clears UP and keeps the others, RUNNING too.  The interface is the
    one whose name is the first 16 characters; no other changes.  When a call
    fails, nothing changes and the result is -1. *)
Theorem ifup_ifdown_spec dev s :
  let n := str_take IFNAMSIZ dev in
  wp (ifup dev) (flags_set n (λ old, Z.lor old (Z.lor IFF_UP IFF_RUNNING)) s) (λ _ _, False) s ∧
  wp (ifdown dev) (flags_set n (λ old, Z.land old (Z.lnot IFF_UP)) s) (λ _ _, False) s.
Proof.
  assert (∀ v f, is_byte f → 0 ≤ v < 65536 → u16 (Z.lor v f) = Z.lor v f) as Hlor.
  { intros v f Hf Hv. unfold u16. rewrite <- Z.land_ones, Z.land_lor_distr_l, !Z.land_ones by done.
    unfold is_byte in Hf. by rewrite !Z.mod_small by lia. }
  cbv zeta. split; apply wp_bind, wp_set;
    (eapply wp_mono; [apply modify_flags_ok| |done]); cbv beta;
    intros r s' [(old & -> & Hold & H)|H]; [left|by right|left|by right];
    exists old; (split; [done|]); (split; [exact Hold|]);
    apply if_range in Hold; rewrite H, u16_land_lnot; cbn [kern].
  - by rewrite Hlor, Z.land_m1_r by done.
  - by rewrite Z.lor_0_r, u16_small.
Qed.
End flags.

(** ** The interfaces of a module

    A process of the program: the [i]-th call of [fork] gives 0 in the [i]-th child. *)
Class Forks (K : Type) `{!Kernel K} (i : nat) := {
  forks : K → nat;
  fork_counts k : forks (k_fork k).2 = S (forks k);
  fork_child k : (k_fork k).1 = 0 ↔ forks k = i }.

Section module.
Context {K : Type} `{!Kernel K} (i : nat) `{!Forks K i}.
Implicit Types (s : irattach K).

(** the interfaces that were not there before *)
Definition new_names (before after : list string) : list string :=
  filter (λ n, existsb (String.eqb n) before = false) after.

Lemma new_devices_more before after s :
  (forks (kern s) ≤ i)%nat →
  ∃ s', new_devices true before after s = Ok (inr 0, s') ∧
    device s' = default (device s) (new_names before after !! (i - forks (kern s))%nat).
Proof.
  revert s. induction after as [|n after IH]; intros s Hs; [by exists s|].
  unfold new_names. rewrite filter_cons. fold (new_names before after). cbn [new_devices].
  destruct (existsb (String.eqb n) before).
  { rewrite decide_False by done. by apply IH. }
  rewrite decide_True by done. unfold eprintf, call, mbind, P_bind, pset. cbn [kern].
  pose proof (fork_counts (kern s)) as Hc. pose proof (fork_child (kern s)) as Hi.
  destruct (k_fork (kern s)) as [pid k]. cbn in Hc, Hi.
  destruct (Z.eqb_spec pid 0) as [Hp|Hp].
  - apply Hi in Hp. rewrite Hp, Nat.sub_diag. eexists. split; [reflexivity|]. done.
  - assert (forks (kern s) ≠ i) as Hne by tauto.
    match goal with |- context [new_devices true before after ?x] =>
      destruct (IH x) as (s' & E' & D') end; [cbn; lia|].
    exists s'. split; [exact E'|]. rewrite D'. cbn. rewrite Hc.
    replace (i - forks (kern s))%nat with (S (i - S (forks (kern s))))%nat by lia. done.
Qed.

Lemma new_devices_first before after s :
  forks (kern s) = 0%nat →
  ∃ s', new_devices false before after s = Ok (inr 0, s') ∧
    device s' = let new := new_names before after in
      default (default (device s) (new !! 0%nat)) (new !! S i).
Proof.
  intros Hs. revert s Hs. induction after as [|n after IH]; intros s Hs; [by exists s|].
  unfold new_names. rewrite filter_cons. fold (new_names before after). cbn [new_devices].
  destruct (existsb (String.eqb n) before).
  { rewrite decide_False by done. by apply IH. }
  rewrite decide_True by done. unfold eprintf, set_device, mbind, P_bind, pset. cbv beta iota.
  match goal with |- context [new_devices true before after ?x] =>
    destruct (new_devices_more before after x) as (s' & E' & D') end; [cbn; lia|].
  exists s'. split; [exact E'|]. rewrite D'. cbn. by rewrite Hs, Nat.sub_0_r.
Qed.

(** a module: when it loads, and the interfaces can be listed before and
    after, each new interface is managed by one process.  The first one is that of
    the program itself, the [i]-th that of the [i]-th child; without a new interface,
    the program goes on with the name of the module. *)
Theorem module_devices_shared before after modname s s1 :
  get_devlist (k_netdev (kern s)) 17 10 10 = Ok (Some before) →
  load_module modname s = Ok (inr 0, s1) →
  get_devlist (k_netdev (kern s1)) 17 15 15 = Ok (Some after) → after ≠ [] →
  forks (kern s1) = 0%nat →
  ∃ s', get_module_devices modname s = Ok (inr 0, s') ∧
    device s' = let new := new_names before after in
      default (default (device s1) (new !! 0%nat)) (new !! S i).
Proof.
  intros Hb Hl Ha Hne Hf. unfold get_module_devices, mbind, P_bind, devlist at 1.
  change (IFNAMSIZ + 1)%nat with 17%nat. rewrite Hb, Hl. cbn [truth Z.eqb negb].
  unfold devlist. rewrite Ha. destruct after as [|n after]; [done|].
  by apply new_devices_first.
Qed.
End module.

(** ** Examples *)
#[export] Program Instance sim_net child : NetLaws (sim child) :=
  {| if_flags k := u16 <$> sim_ifs k |}.
Next Obligation.
  intros c k n v. simpl. rewrite lookup_fmap. destruct (sim_ifs k !! n); intros [= <-]. apply u16_range.
Qed.
Next Obligation. done. Qed.
Next Obligation. intros c n k. split; [done|]. intros v Hv. simpl in *. by rewrite lookup_fmap. Qed.
Next Obligation.
  intros c n v k Hv. simpl. destruct (sim_ifs k !! n); [|done].
  simpl. by rewrite fmap_insert, u16_small.
Qed.

#[export] Program Instance sim_processes (i : nat) : Forks (sim i) i :=
  {| forks := sim_forks |}.
Next Obligation. done. Qed.
Next Obligation. intros i k. simpl. destruct (Nat.eqb_spec (sim_forks k) i); by split. Qed.

Example module_processes :
  (λ i, match get_module_devices "nsc-ircc" (sim_start i true) with
        | Ok (inr _, s) => device s
        | _ => "" end) <$> [0%nat; 1%nat] = ["irda2"; "irda1"].
Proof. by vm_compute. Qed.

Lemma module_devices_shared_witness :
  ∃ s', get_module_devices "nsc-ircc" (sim_start 0 true) = Ok (inr 0, s') ∧
    device s' = "irda2".
Proof.
  destruct (module_devices_shared 0 ["irda0"] ["irda0"; "irda1"; "irda2"] "nsc-ircc"
    (sim_start 0 true) (with_kern (mkSim 0x802 0 sim_attr0 {[ "irda0" := 0x80 ]} 0 true true)
       (with_log ["executing: '/sbin/modprobe nsc-ircc'"; "+ done"] (sim_start 0 true))))
    as (s' & E & D); [by vm_compute..|].
  exists s'. split; [exact E|]. rewrite D. by vm_compute.
Defined.
