(* ===== verification/AttachTty.v ===== *)
(** * irattach puts everything back: the tty (irattach/irattach.c)

    The laws of the kernel that the proofs rely on, and what the program does to a
    serial port from its start to its end. *)
From Stdlib Require Import String Ascii.
From S2P Require Import Prelude CInt Printf CLib Proc DevList Attach.
Local Open Scope string_scope.
Local Open Scope list_scope.
Local Open Scope Z_scope.

(** ** What the proofs rely on of the kernel

    The settings of a tty: file flags, line discipline, terminal attributes.  A call
    that sets one of them sets just that, and only when it succeeds; the others
    change none of them. *)
Record tty := mkTty {
  fl : Z;
  disc : Z;
  attr : termios }.

Class KernelLaws (K : Type) `{!Kernel K} := {
  tty_of : K → tty;
  getfl_ok k : let '(r, k') := k_getfl k in
    tty_of k' = tty_of k ∧ (∀ v, r = Some v → v = fl (tty_of k));
  getd_ok k : let '(r, k') := k_getd k in
    tty_of k' = tty_of k ∧ (∀ v, r = Some v → v = disc (tty_of k));
  getattr_ok k : let '(r, k') := k_getattr k in
    tty_of k' = tty_of k ∧ (∀ v, r = Some v → v = attr (tty_of k));
  setfl_ok v k : let '(r, k') := k_setfl v k in
    tty_of k' = if r then mkTty v (disc (tty_of k)) (attr (tty_of k)) else tty_of k;
  setd_ok v k : let '(r, k') := k_setd v k in
    tty_of k' = if r then mkTty (fl (tty_of k)) v (attr (tty_of k)) else tty_of k;
  setattr_ok v k : let '(r, k') := k_setattr v k in
    tty_of k' = if r then mkTty (fl (tty_of k)) (disc (tty_of k)) v else tty_of k;
  quiet_socket k : tty_of (k_socket k).2 = tty_of k;
  quiet_getifflags n k : tty_of (k_getifflags n k).2 = tty_of k;
  quiet_setifflags n v k : tty_of (k_setifflags n v k).2 = tty_of k;
  quiet_setdongle n v k : tty_of (k_setdongle n v k).2 = tty_of k;
  open_ok d k fd : (k_open d k).1 = Some fd → 0 ≤ fd;
  quiet_open d k : tty_of (k_open d k).2 = tty_of k;
  quiet_getfd k : tty_of (k_getfd k).2 = tty_of k;
  quiet_setfd v k : tty_of (k_setfd v k).2 = tty_of k;
  quiet_excl k : tty_of (k_excl k).2 = tty_of k;
  quiet_ttydongle v k : tty_of (k_ttydongle v k).2 = tty_of k;
  quiet_ttyname k : tty_of (k_ttyname k).2 = tty_of k;
  quiet_close v k : tty_of (k_close v k).2 = tty_of k;
  quiet_sh c k : tty_of (k_sh c k).2 = tty_of k;
  quiet_fork k : tty_of (k_fork k).2 = tty_of k;
  quiet_setsid k : tty_of (k_setsid k).2 = tty_of k;
  quiet_writepid k : tty_of (k_writepid k).2 = tty_of k;
  quiet_unlink k : tty_of (k_unlink k).2 = tty_of k;
  quiet_signal n k : tty_of (k_signal n k).2 = tty_of k;
  quiet_uname k : tty_of (k_uname k).2 = tty_of k }.
Create Rewrite HintDb kernel.
#[export] Hint Rewrite @quiet_socket @quiet_getifflags @quiet_setifflags @quiet_setdongle
  @quiet_open @quiet_getfd @quiet_setfd @quiet_excl @quiet_ttydongle @quiet_ttyname
  @quiet_close @quiet_sh @quiet_fork @quiet_setsid @quiet_writepid @quiet_unlink
  @quiet_signal @quiet_uname : kernel.

Section tty.
Context {K : Type} `{!Kernel K} `{!KernelLaws K}.
Implicit Types (s : irattach K) (k : K).

(** a part of the program that leaves the variables and the settings of the tty alone *)
Definition same_tty s s' : Prop :=
  tty_of (kern s') = tty_of (kern s) ∧ devfd s' = devfd s ∧ fdflags s' = fdflags s ∧
  initfdflags s' = initfdflags s ∧ initdisc s' = initdisc s ∧ termsave s' = termsave s ∧
  termvalid s' = termvalid s ∧ device s' = device s.
#[export] Instance same_tty_po : PreOrder same_tty.
Proof. split; unfold same_tty; [by repeat split|]. unfold same_tty. intros a b c. intuition congruence. Qed.

(** ... and that ends only if [X] *)
Definition quiet {A} (X : Prop) (m : P (irattach K) A) : Prop :=
  ∀ s, wp m (λ _ s', same_tty s s') (λ _ s', X ∧ same_tty s s') s.

Lemma tty_quiet_ret {A} X (a : A) : quiet X (mret a).
Proof. intros s. apply wp_ret. cbv beta. reflexivity. Qed.
Lemma tty_quiet_bind {A B} X (m : P (irattach K) A) (f : A → P (irattach K) B) :
  quiet X m → (∀ a, quiet X (f a)) → quiet X (m ≫= f).
Proof.
  intros Hm Hf s. apply wp_bind. eapply wp_mono; [apply Hm| |done].
  cbv beta. intros a s1 H1. eapply wp_mono; [apply Hf|..]; cbv beta.
  - intros. etrans; [exact H1|done].
  - intros c s2 [HX H2]. split; [done|]. etrans; [exact H1|done].
Qed.
Lemma quiet_exit {A} (X : Prop) c : X → quiet X (exit (A:=A) c).
Proof. intros HX s. apply wp_exit. split; [done|]. reflexivity. Qed.
Lemma tty_quiet_get {A} X (f : irattach K → A) : quiet X (pget f).
Proof. intros s. apply wp_get. cbv beta. reflexivity. Qed.
Lemma quiet_set X f : (∀ s, same_tty s (f s)) → quiet X (pset f).
Proof. intros H s. apply wp_set, H. Qed.
Lemma quiet_call {A} X (f : K → A * K) :
  (∀ k, tty_of (f k).2 = tty_of k) → quiet X (call f).
Proof.
  intros Hf s. apply wp_call. intros a k E. split; [|done].
  change (tty_of k = tty_of (kern s)). by rewrite <- (Hf (kern s)), E.
Qed.
Lemma quiet_call_bind {A B} X (f : K → A * K) (g : A → P (irattach K) B) (R : A → Prop) :
  (∀ k, tty_of (f k).2 = tty_of k) → (∀ k, R (f k).1) → (∀ a, R a → quiet X (g a)) →
  quiet X (call f ≫= g).
Proof.
  intros Hf HR Hg s. apply wp_bind, wp_call. intros a k E.
  assert (same_tty s (with_kern k s)) as Hk.
  { split; [|done]. change (tty_of k = tty_of (kern s)). by rewrite <- (Hf (kern s)), E. }
  pose proof (HR (kern s)) as Ha. rewrite E in Ha.
  eapply wp_mono; [by apply Hg|intros; etrans; [exact Hk|done]|].
  intros c s' [HX H]. split; [done|]. etrans; [exact Hk|exact H].
Qed.
Lemma quiet_when X b m : quiet X m → quiet X (pwhen b m).
Proof. destruct b; [done|]. intros _. apply tty_quiet_ret. Qed.
Lemma quiet_mono {A} (X Y : Prop) (m : P (irattach K) A) :
  (X → Y) → quiet X m → quiet Y m.
Proof. intros HXY H s. eapply wp_mono; [apply H|done|]. intros c s' []. auto. Qed.

Ltac quiet :=
  repeat match goal with
  | |- ∀ _, quiet _ _ => intro
  | |- quiet _ (_ ≫= _) => apply tty_quiet_bind
  | |- quiet _ (mret _) => apply tty_quiet_ret
  | |- quiet _ (exit _) => apply quiet_exit; done
  | |- quiet _ (pget _) => apply tty_quiet_get
  | |- quiet _ (pset _) => apply quiet_set; done
  | |- quiet _ (pwhen _ _) => apply quiet_when
  | |- quiet _ (call _) => apply quiet_call; intros; by autorewrite with kernel
  | |- quiet _ (match ?x with _ => _ end) => destruct x
  | |- quiet _ (perror _) => unfold perror
  | |- quiet _ ?m => progress (try unfold syslog_m; try unfold eprintf_m; try unfold syslog;
       try unfold eprintf; try unfold printf; try unfold set_past_device;
       try unfold close_err)
  end.

Lemma quiet_modify_flags dev set clear : quiet False (modify_flags dev set clear).
Proof. unfold modify_flags. quiet. Qed.
Lemma quiet_ifup dev : quiet False (ifup dev).
Proof. unfold ifup. quiet. apply quiet_modify_flags. Qed.
Lemma quiet_ifdown dev : quiet False (ifdown dev).
Proof. unfold ifdown. quiet. apply quiet_modify_flags. Qed.
Lemma quiet_usage : quiet False print_usage.
Proof. unfold print_usage. quiet. Qed.
Lemma quiet_trap n t : quiet False (trap n t).
Proof. unfold trap. quiet. Qed.
Lemma quiet_close_files n fd : quiet False (close_files n fd).
Proof. induction n; simpl; quiet; done. Qed.
Lemma quiet_fork_now fd : quiet True (fork_now fd).
Proof.
  unfold fork_now, write_pid. quiet; (apply quiet_mono with False; [done|]; apply quiet_close_files).
Qed.
Lemma quiet_parse_options V l o : quiet True (parse_options V l o).
Proof.
  revert o. induction l as [|[c t] l IH]; intros o; cbn [parse_options]; quiet; [|apply IH].
  unfold option_case. quiet; (apply quiet_mono with False; [done|]; apply quiet_usage).
Qed.

(** a shell can be started, and its commands write text; the host has a name *)
Hypothesis sh_ok : ∀ c k, ∃ f ret, (k_sh c k).1 = Some (f, ret) ∧ str_all not_nul f = true.
Hypothesis host_ok : ∀ k n, (k_uname k).1 = Some n → first_token "." n ≠ None.

Lemma quiet_log_lines fuel f :
  (String.length f < fuel)%nat → str_all not_nul f = true → quiet False (log_lines fuel f).
Proof.
  revert f. induction fuel as [|fuel IH]; intros f Hf Hn; [lia|]. cbn [log_lines].
  destruct (decide (f = "")) as [->|Hne]; [apply tty_quiet_ret|].
  destruct (fgets_some 255 f ltac:(lia) Hne) as (c & l & r & -> & ->).
  rewrite str_all_app in Hn. apply andb_true_iff in Hn as [Hl Hr].
  rewrite c_str_all by done. quiet. apply IH; [|done].
  rewrite str_length_app in Hf. cbn in Hf. lia.
Qed.
Lemma quiet_execute msg cmd : quiet False (execute msg cmd).
Proof.
  unfold execute. apply tty_quiet_bind; [by quiet|]. intros _.
  apply quiet_call_bind with (R := λ r, ∃ f ret, r = Some (f, ret) ∧ str_all not_nul f = true);
    [intros; by autorewrite with kernel|apply sh_ok|].
  intros ? (f & ret & -> & Hf). apply tty_quiet_bind; [apply quiet_log_lines; [lia|done]|].
  quiet.
Qed.

(** ** The settings are put back

    [t0]: the settings before the program; the kernel accepts them. *)
Context (t0 : tty).
Hypothesis accepted : ∀ k, (k_setfl (fl t0) k).1 = true ∧ (k_setd (disc t0) k).1 = true ∧
  (k_setattr (attr t0) k).1 = true.
Hypothesis disc_ok : disc t0 ≠ -1.

(** the variables hold what changed *)
Definition saved s : Prop :=
  devfd s ≠ -1 ∧ initfdflags s = fl t0 ∧
  (initdisc s = disc t0 ∨ initdisc s = -1 ∧ disc (tty_of (kern s)) = disc t0) ∧
  (termvalid s ≠ -1 ∧ termsave s = attr t0 ∨
   termvalid s = -1 ∧ attr (tty_of (kern s)) = attr t0).
Definition restored s : Prop := tty_of (kern s) = t0 ∧ devfd s = -1.

Lemma saved_same s s' : saved s → same_tty s s' → saved s'.
Proof.
  intros (H1 & H2 & H3 & H4) (E1 & E2 & E3 & E4 & E5 & E6 & E7 & _). unfold saved.
  by rewrite E1, E2, E4, E5, E6, E7.
Qed.

Lemma tty_eq (t : tty) f d a : fl t = f → disc t = d → attr t = a → t = mkTty f d a.
Proof. by destruct t; intros <- <- <-. Qed.

Lemma wp_quiet {A} (m : P (irattach K) A) Q E s :
  quiet False m → (∀ a s', same_tty s s' → Q a s') → wp m Q E s.
Proof. intros Hm HQ. eapply wp_mono; [apply Hm|intros a s'; apply HQ|by intros ? ? []]. Qed.

(** the calls that set something, as rules *)
Lemma wp_setfl v Q E s :
  (∀ (r : bool) k, tty_of k = (if r then mkTty v (disc (tty_of (kern s))) (attr (tty_of (kern s)))
     else tty_of (kern s)) → (v = fl t0 → r = true) → Q r (with_kern k s)) →
  wp (call (k_setfl v)) Q E s.
Proof.
  intros H. apply wp_call. intros r k Ek. apply H.
  - pose proof (setfl_ok v (kern s)) as L. by rewrite Ek in L.
  - intros ->. pose proof (accepted (kern s)) as (A & _). by rewrite Ek in A.
Qed.
Lemma wp_setd v Q E s :
  (∀ (r : bool) k, tty_of k = (if r then mkTty (fl (tty_of (kern s))) v (attr (tty_of (kern s)))
     else tty_of (kern s)) → (v = disc t0 → r = true) → Q r (with_kern k s)) →
  wp (call (k_setd v)) Q E s.
Proof.
  intros H. apply wp_call. intros r k Ek. apply H.
  - pose proof (setd_ok v (kern s)) as L. by rewrite Ek in L.
  - intros ->. pose proof (accepted (kern s)) as (_ & A & _). by rewrite Ek in A.
Qed.
Lemma wp_setattr v Q E s :
  (∀ (r : bool) k, tty_of k = (if r then mkTty (fl (tty_of (kern s))) (disc (tty_of (kern s))) v
     else tty_of (kern s)) → (v = attr t0 → r = true) → Q r (with_kern k s)) →
  wp (call (k_setattr v)) Q E s.
Proof.
  intros H. apply wp_call. intros r k Ek. apply H.
  - pose proof (setattr_ok v (kern s)) as L. by rewrite Ek in L.
  - intros ->. pose proof (accepted (kern s)) as (_ & _ & A). by rewrite Ek in A.
Qed.

(** the variables that hold what changed *)
Definition same_vars s s' : Prop :=
  devfd s' = devfd s ∧ initfdflags s' = initfdflags s ∧ initdisc s' = initdisc s ∧
  termsave s' = termsave s ∧ termvalid s' = termvalid s.
Lemma same_tty_vars s s' : same_tty s s' → same_vars s s'.
Proof. unfold same_tty, same_vars. tauto. Qed.
Lemma same_tty_kern s s' : same_tty s s' → tty_of (kern s') = tty_of (kern s).
Proof. unfold same_tty. tauto. Qed.

Ltac msg := apply wp_quiet; [solve [quiet]|intros [] ? ?Hmsg].

Lemma set_file_flags_ok v what s :
  wp (set_file_flags v what) (λ _ s', same_vars s s' ∧
    disc (tty_of (kern s')) = disc (tty_of (kern s)) ∧
    attr (tty_of (kern s')) = attr (tty_of (kern s)) ∧
    (v = fl t0 → fl (tty_of (kern s')) = fl t0)) (λ _ _, False) s.
Proof.
  unfold set_file_flags. wps. apply wp_setfl. intros r k E A. msg.
  pose proof (same_tty_vars _ _ Hmsg) as V. apply same_tty_kern in Hmsg. rewrite Hmsg. cbn. rewrite E.
  split; [exact V|]. destruct r; cbn; [by auto|]. split; [done|]. split; [done|].
  intros Hv. by specialize (A Hv).
Qed.

Lemma restore_disc_ok s :
  initdisc s = disc t0 ∨ initdisc s = -1 ∧ disc (tty_of (kern s)) = disc t0 →
  wp restore_disc (λ _ s', same_vars s s' ∧ fl (tty_of (kern s')) = fl (tty_of (kern s)) ∧
    disc (tty_of (kern s')) = disc t0 ∧ attr (tty_of (kern s')) = attr (tty_of (kern s)))
    (λ _ _, False) s.
Proof.
  intros Hd. unfold restore_disc. wps.
  - apply wp_setd. intros r k E A. msg.
    pose proof (same_tty_vars _ _ Hmsg) as V. apply same_tty_kern in Hmsg. rewrite Hmsg. cbn. rewrite E.
    split; [exact V|]. destruct Hd as [Hd|[Hd _]]; [|by rewrite Hd in *].
    rewrite (A Hd). by rewrite Hd.
  - destruct Hd as [Hd|[_ Hd]]; [|done]. rewrite Hd in *.
    destruct (Z.eqb_spec (disc t0) (-1)); done.
Qed.

Lemma restore_attr_ok s :
  termvalid s ≠ -1 ∧ termsave s = attr t0 ∨ termvalid s = -1 ∧ attr (tty_of (kern s)) = attr t0 →
  wp restore_attr (λ _ s', same_vars s s' ∧ fl (tty_of (kern s')) = fl (tty_of (kern s)) ∧
    disc (tty_of (kern s')) = disc (tty_of (kern s)) ∧ attr (tty_of (kern s')) = attr t0)
    (λ _ _, False) s.
Proof.
  intros Ha. unfold restore_attr. wps.
  - apply wp_setattr. intros r k E A. msg.
    pose proof (same_tty_vars _ _ Hmsg) as V. apply same_tty_kern in Hmsg. rewrite Hmsg. cbn. rewrite E.
    split; [exact V|]. destruct Ha as [[_ Ha]|[Ha _]]; [|by rewrite Ha in *].
    rewrite (A Ha). by rewrite Ha.
  - destruct Ha as [[Ha _]|[_ Ha]]; [|done].
    by rewrite (proj2 (Z.eqb_neq _ _) Ha) in *.
Qed.

Lemma restore_tty_ok s :
  saved s → wp restore_tty (λ _ s', restored s') (λ _ _, False) s.
Proof.
  intros (Hfd & Hfl & Hd & Ha). unfold restore_tty, set_fdflags, set_devfd. wps.
  eapply wp_mono; [apply set_file_flags_ok| |done].
  intros [] s1 ((V1 & V2 & V3 & V4 & V5) & D1 & A1 & _). cbn in *. wps.
  eapply wp_mono; [apply restore_disc_ok; by rewrite V3, D1| |done].
  intros [] s2 ((W1 & W2 & W3 & W4 & W5) & F2 & D2 & A2). cbn in *. wps.
  eapply wp_mono; [apply restore_attr_ok; by rewrite W5, W4, A2, V4, V5, A1| |done].
  intros [] s3 ((X1 & X2 & X3 & X4 & X5) & F3 & D3 & A3). cbn in *. wps.
  eapply wp_mono; [apply set_file_flags_ok| |done].
  intros [] s4 (_ & D4 & A4 & F4). cbn in *. wps.
  apply wp_call. intros r k E. wps. split; [|done]. cbn.
  pose proof (quiet_close (devfd s4) (kern s4)) as L. rewrite E in L. cbn in L. rewrite L.
  rewrite (tty_eq t0 _ _ _ eq_refl eq_refl eq_refl). apply tty_eq; [apply F4; congruence|congruence..].
Qed.

(** the program can put everything back: at any time *)
Definition recoverable s : Prop :=
  saved s ∨ devfd s = -1 ∧ tty_of (kern s) = t0.

Lemma recoverable_same s s' : recoverable s → same_tty s s' → recoverable s'.
Proof.
  intros [H|[H1 H2]] E; [left; by eapply saved_same|right].
  destruct E as (E1 & E2 & _). by rewrite E1, E2.
Qed.

Definition ended (code : Z) (c : Z) s : Prop := c = code ∧ restored s.

Lemma finish_ok {A} (Q : A → irattach K → Prop) signo s :
  restored s → wp (finish signo) Q (ended (if signo =? -1 then 1 else 0)) s.
Proof.
  intros Hr. unfold finish, syslog. wps. apply wp_call. intros r0 k E0. wps.
  assert (restored (with_kern k s)) as Hk.
  { split; [|apply Hr]. cbn. pose proof (quiet_unlink (kern s)) as L. rewrite E0 in L. cbn in L.
    rewrite L. apply Hr. }
  destruct (signo =? -1); wps; by split.
Qed.

Lemma cleanup_ok {A} (Q : A → irattach K → Prop) signo s :
  recoverable s → wp (cleanup signo) Q (ended (if signo =? -1 then 1 else 0)) s.
Proof.
  intros Hs. unfold cleanup. wps.
  apply wp_quiet; [by quiet|]. intros [] s1 E1. wps.
  apply wp_quiet; [apply quiet_ifdown|]. intros r s2 E2.
  assert (recoverable s2) as Hs2.
  { eapply recoverable_same; [exact Hs|]. etrans; [exact E1|exact E2]. }
  wps.
  - eapply wp_mono; [apply restore_tty_ok| |done]; [|intros [] s3 Hr; by apply finish_ok].
    destruct Hs2 as [Hs2|[Hn _]]; [done|]. by rewrite Hn in *.
  - apply finish_ok. destruct Hs2 as [(Hn & _)|[? ?]]; [|by split].
    by rewrite (proj2 (Z.eqb_neq _ _) Hn) in *.
Qed.

(** ** The tty is set up, or put back *)
Lemma fail_ok {A} (m : P (irattach K) unit) (Q : A → irattach K → Prop) s :
  quiet False m → recoverable s → wp (m;; clean_exit (-1)) Q (ended 1) s.
Proof.
  intros Hm Hs. wps. apply wp_quiet; [done|]. intros [] s1 E1.
  apply cleanup_ok. by eapply recoverable_same.
Qed.
Lemma check_ok b (m : P (irattach K) unit) Q s :
  quiet False m → recoverable s → (b = false → Q tt s) →
  wp (pwhen b (m;; clean_exit (-1))) Q (ended 1) s.
Proof. intros Hm Hs HQ. apply wp_when; [|done]. intros _. by apply fail_ok. Qed.

Ltac q x s E := apply wp_bind, wp_quiet; [solve [quiet]|intros x s E; cbv beta].

(** what stays when a setting of the tty changes that is saved *)
Lemma saved_tty k s :
  saved s → (initdisc s = -1 → disc (tty_of k) = disc (tty_of (kern s))) →
  (termvalid s = -1 → attr (tty_of k) = attr (tty_of (kern s))) → saved (with_kern k s).
Proof.
  intros (H1 & H2 & H3 & H4) Hd Ha. split; [done|]. split; [done|]. cbn.
  split; [destruct H3 as [|[? ?]]; [by left|right; split; [done|]; rewrite Hd; done]
         |destruct H4 as [|[? ?]]; [by left|right; split; [done|]; rewrite Ha; done]].
Qed.

Lemma establish_irda_ok s :
  saved s → termvalid s ≠ -1 → initdisc s = -1 →
  wp establish_irda (λ _ s', saved s' ∧ tty_of (kern s')
      = mkTty (fl (tty_of (kern s))) N_IRDA (attr (tty_of (kern s))) ∧ fdflags s' = fdflags s)
    (ended 1) s.
Proof.
  intros Hs Hv Hd. unfold establish_irda.
  q r1 s1 E1. q r2 s2 E2.
  assert (same_tty s s2) as E by (etrans; [exact E1|exact E2]). clear E1 E2.
  pose proof (saved_same _ _ Hs E) as Hs2. destruct E as (K2 & _ & F2 & _ & D2 & _ & V2 & _).
  apply wp_bind, wp_call. intros d k Ek.
  pose proof (getd_ok (kern s2)) as L. rewrite Ek in L. destruct L as [Lk Ld].
  assert (saved (with_kern k s2)) as Hk by (apply saved_tty; [done|by rewrite Lk..]).
  destruct d as [d|]; [|by apply wp_bind, fail_ok; [quiet|left]].
  specialize (Ld d eq_refl). unfold set_initdisc. apply wp_bind, wp_set. cbv beta.
  destruct Hk as (S1 & S2 & S3 & S4). cbn in S1, S2, S3, S4.
  assert (d = disc t0) as ->.
  { destruct S3 as [S3|[_ S3]]; [by rewrite D2, Hd in S3|congruence]. }
  match goal with |- wp _ _ _ ?s' => remember s' as s3 eqn:E3 end.
  apply wp_bind, wp_setd. intros r k' E' _.
  assert (saved (with_kern k' s3)) as Hs3.
  { subst s3. split; [done|]. split; [done|]. split; [by left|left]. cbn.
    destruct S4 as [|[S4 _]]; [done|]. by rewrite V2 in S4. }
  assert (tty_of (kern s3) = tty_of (kern s) ∧ fdflags s3 = fdflags s) as [T3 F3].
  { subst s3. cbn. by rewrite Lk, K2, F2. }
  apply wp_when; intros Hr; cbv beta.
  - q x1 s4 E4. q x2 s5 E5. q x3 s6 E6. apply cleanup_ok. left.
    eapply saved_same; [exact Hs3|]. etrans; [exact E4|]. etrans; [exact E5|exact E6].
  - split; [exact Hs3|]. destruct r; [|done]. cbn. by rewrite E', T3, F3.
Qed.

Lemma init_irda_ldisc_ok s :
  saved s → termvalid s = -1 →
  wp init_irda_ldisc (λ _ s', saved s' ∧ termvalid s' ≠ -1 ∧ initdisc s' = initdisc s ∧
    tty_of (kern s') = mkTty (fl (tty_of (kern s))) (disc (tty_of (kern s)))
      (tty_configure (attr t0)) ∧ fdflags s' = fdflags s) (ended 1) s.
Proof.
  intros Hs Hv. unfold init_irda_ldisc. apply wp_bind, wp_call. intros t k Ek.
  pose proof (getattr_ok (kern s)) as L. rewrite Ek in L. destruct L as [Lk Lt].
  assert (saved (with_kern k s)) as Hk by (apply saved_tty; [done|by rewrite Lk..]).
  destruct t as [t|]; [|by apply fail_ok; [quiet|left]]. specialize (Lt t eq_refl).
  destruct Hs as (S1 & S2 & S3 & S4).
  assert (t = attr t0) as -> by (destruct S4 as [[? _]|[_ ?]]; congruence).
  unfold save_term. apply wp_bind, wp_set. cbv beta.
  apply wp_bind, wp_setattr. intros r k' E' _. cbn in E'. rewrite Lk in E'.
  match goal with |- wp _ _ _ ?s' => assert (saved s') as Hs' end.
  { split; [done|]. split; [done|]. split; [|by left]. cbn.
    destruct S3 as [|[? S3]]; [by left|right]. split; [done|]. rewrite E'. by destruct r. }
  apply check_ok; [quiet|by left|]. intros Hr. destruct r; [|done].
  split; [exact Hs'|]. by cbn.
Qed.

(** the settings when the tty is an interface *)
Definition irda_tty : tty :=
  mkTty (Z.lor (Z.land (fl t0) (Z.lnot O_NONBLOCK)) O_NONBLOCK) N_IRDA (tty_configure (attr t0)).

Lemma start_tty_ok s :
  saved s → initdisc s = -1 → termvalid s = -1 → fdflags s = fl t0 →
  wp start_tty (λ _ s', saved s' ∧ tty_of (kern s') = irda_tty) (ended 1) s.
Proof.
  intros Hs Hd Hv Hf. unfold start_tty, set_fdflags. wp_step. wp_step. wp_step. wp_step.
  apply wp_bind, wp_setfl. intros r1 k1 E1 _. cbn in E1.
  match goal with |- wp _ _ _ ?s' => remember s' as s1 eqn:Es end.
  assert (saved s1 ∧ initdisc s1 = -1 ∧ termvalid s1 = -1) as (Hs1 & Hd1 & Hv1).
  { subst s1. split; [|done]. destruct Hs as (S1 & S2 & S3 & S4).
    split; [done|]. split; [done|]. cbn. rewrite E1. by destruct r1. }
  clear dependent k1. clear Hs Hd Hv. rewrite Hf.
  q x2 s2 E2. apply wp_bind, wp_quiet; [solve [quiet]|]. intros cloexec s3 E3.
  assert (same_tty s1 s3) as E by (etrans; [exact E2|exact E3]). clear E2 E3.
  pose proof (saved_same _ _ Hs1 E) as Hs3. destruct E as (_ & _ & _ & _ & D3 & _ & V3 & _).
  rewrite Hd1 in D3. rewrite Hv1 in V3. clear dependent s1.
  apply wp_bind.
  apply wp_mono with (Q := λ _ s4, saved s4 ∧ initdisc s4 = -1 ∧ termvalid s4 = -1)
    (E := ended 1); [|cbv beta|done].
  { destruct cloexec as [c|]; [|by apply fail_ok; [quiet|left]].
    q r4 s4 E4. pose proof (saved_same _ _ Hs3 E4) as Hs4.
    apply check_ok; [quiet|by left|]. intros _. split; [done|].
    destruct E4 as (_ & _ & _ & _ & -> & _ & -> & _). by split. }
  clear dependent s3. intros [] s4 (Hs4 & Hd4 & Hv4).
  apply wp_bind. eapply wp_mono; [by apply init_irda_ldisc_ok| |done].
  cbv beta. intros [] s5 (Hs5 & Hv5 & Hd5 & T5 & _).
  apply wp_bind. eapply wp_mono; [apply establish_irda_ok; [done|done|congruence]| |done].
  cbv beta. intros [] s6 (Hs6 & T6 & _). rewrite T5 in T6. cbn in T6.
  apply wp_bind, wp_setfl. intros r k E _. rewrite T6 in E. cbn in E.
  assert (saved (with_kern k s6)) as Hk.
  { destruct Hs6 as (S1 & S2 & S3 & S4). split; [done|]. split; [done|]. cbn.
    rewrite T6 in *. cbn in *. destruct r; rewrite E; by split. }
  apply check_ok; [quiet|by left|]. intros Hr. destruct r; [|done]. split; [exact Hk|]. by cbn.
Qed.

(** ** The whole program on a tty *)
(** nothing has changed yet *)
Definition fresh s : Prop :=
  tty_of (kern s) = t0 ∧ initdisc s = -1 ∧ termvalid s = -1.
Definition untouched (c : Z) s : Prop := tty_of (kern s) = t0.

Lemma saved_fresh s :
  fresh s → devfd s ≠ -1 → initfdflags s = fl t0 → saved s.
Proof.
  intros (H1 & H2 & H3) Hd Hi. unfold saved. rewrite H1. split; [done|]. split; [done|].
  split; by right.
Qed.
Lemma fresh_same s s' : fresh s → same_tty s s' → fresh s'.
Proof.
  intros (H1 & H2 & H3) (E1 & _ & _ & _ & E5 & _ & E7 & _). unfold fresh. by rewrite E1, E5, E7.
Qed.

Lemma open_tty_ok dev s :
  fresh s →
  wp (open_tty dev) (λ fd s', 0 ≤ fd ∧ fresh s' ∧ fdflags s' = fl t0 ∧ initfdflags s' = fl t0)
    untouched s.
Proof.
  intros (H2 & H3 & H4). unfold open_tty, set_fdflags, set_initfdflags.
  apply wp_bind, wp_call. intros fd k E.
  pose proof (quiet_open dev (kern s)) as L. rewrite E in L. cbn in L.
  destruct fd as [fd|].
  2: { eapply wp_mono with (Q := λ _ _, False) (E := λ _ s', same_tty (with_kern k s) s').
       - unfold eprintf_m, eprintf. by wps.
       - done.
       - intros c s' (E1 & _). unfold untouched. rewrite E1. cbn. congruence. }
  assert (0 ≤ fd) as Hfd by (apply (open_ok dev (kern s)); by rewrite E).
  apply wp_bind, wp_call. intros f k' E'. cbn in E'.
  pose proof (getfl_ok k) as L'. rewrite E' in L'. destruct L' as [Lk Lf].
  destruct f as [f|].
  - specialize (Lf f eq_refl). wps. subst f. unfold fresh. cbn.
    rewrite Lk, L, H2, H3, H4. by repeat split.
  - wps. apply wp_quiet; [by quiet|]. intros [] s' (E1 & _). wps. apply wp_call. intros r k2 E2.
    wps. unfold untouched. pose proof (quiet_close fd (kern s')) as L2. rewrite E2 in L2. cbn in L2.
    cbn in *. congruence.
Qed.

Lemma ask_name_ok s :
  saved s →
  wp ask_name (λ _ s', saved s' ∧ tty_of (kern s') = tty_of (kern s)) (ended 1) s.
Proof.
  intros Hs. unfold ask_name. apply wp_bind, wp_quiet; [by quiet|]. intros info s1 E1.
  pose proof (saved_same _ _ Hs E1) as Hs1.
  destruct info as [name|]; [|by apply fail_ok; [quiet|left]].
  apply wp_set. split; [exact Hs1|]. apply E1.
Qed.

Lemma quiet_set_params o : quiet False (set_params o).
Proof.
  apply quiet_call_bind with (R := λ r, ∀ n, r = Some n → first_token "." n ≠ None);
    [intros; by autorewrite with kernel|apply host_ok|].
  intros buf Hb. apply tty_quiet_bind; [|quiet; apply quiet_execute].
  destruct buf as [n|]; [|quiet]. specialize (Hb n eq_refl).
  destruct (first_token "." n); [|done]. quiet. apply quiet_execute.
Qed.

Lemma start_up_ok o fd s :
  saved s → fd ≠ -1 →
  wp (start_up o fd) (λ _ s', saved s' ∧ tty_of (kern s') = tty_of (kern s)) (ended 1) s.
Proof.
  intros Hs Hfd. unfold start_up, attach_dongle. rewrite (proj2 (Z.eqb_neq _ _) Hfd). cbn [negb].
  q dev s1 E1. q x s2 E2. apply wp_bind, wp_quiet; [apply quiet_set_params|]. intros y s3 E3.
  apply wp_bind, wp_quiet; [apply quiet_ifup|]. intros ret s4 E4.
  assert (same_tty s s4) as E by (do 3 (etrans; [eassumption|]); done).
  pose proof (saved_same _ _ Hs E) as Hs4.
  apply wp_when; intros _; [apply cleanup_ok; by left|]. split; [done|apply E].
Qed.

(** waiting for a signal, with everything saved *)
Definition serving s : Prop := tty_of (kern s) = irda_tty ∧ saved s.

Lemma serve_ok o fd s :
  fresh s → saved s → fdflags s = fl t0 → fd ≠ -1 →
  wp (serve true o fd) (λ _ s', serving s') untouched s.
Proof.
  intros Hf Hs Hfl Hfd. unfold serve.
  apply wp_bind. eapply wp_mono; [apply quiet_when, quiet_fork_now| |].
  2: { intros c s' [_ (E & _)]. unfold untouched. rewrite E. apply Hf. }
  cbv beta. intros [] s1 E1.
  apply wp_bind, wp_quiet; [apply quiet_trap|]. intros [] s2 E2.
  apply wp_bind, wp_quiet; [apply quiet_trap|]. intros [] s3 E3.
  apply wp_bind, wp_quiet; [apply quiet_trap|]. intros [] s4 E4.
  assert (same_tty s s4) as E by (do 3 (etrans; [eassumption|]); done).
  pose proof (saved_same _ _ Hs E) as Hs4. destruct (fresh_same _ _ Hf E) as (_ & Hd & Hv).
  destruct E as (_ & _ & Ef & _). rewrite Hfl in Ef.
  apply wp_mono with (Q := λ _ s', serving s') (E := ended 1);
    [|done|by intros c s' [_ [? _]]].
  apply wp_bind. unfold pwhen. apply wp_bind.
  eapply wp_mono; [by apply start_tty_ok| |done]. cbv beta. intros [] s5 [Hs5 T5].
  eapply wp_mono; [by apply ask_name_ok| |done]. cbv beta. intros [] s6 [Hs6 T6].
  eapply wp_mono; [by apply start_up_ok| |done]. cbv beta. intros [] s7 [Hs7 T7].
  split; [congruence|done].
Qed.

Lemma caught_ok signo s :
  In signo [SIGHUP; SIGINT; SIGTERM] → serving s →
  wp (cleanup (A:=unit) signo) (λ _ _, False) (λ c s', c = 0 ∧ restored s') s.
Proof.
  intros Hsig [_ Hs].
  assert ((signo =? -1) = false) as Hn by (apply Z.eqb_neq; destruct Hsig as [<-|[<-|[<-|[]]]]; done).
  pose proof (cleanup_ok (A:=unit) (λ _ _, False) signo s (or_introl Hs)) as H.
  by rewrite Hn in H.
Qed.

(** C40: on a serial port (a name under /dev).  Let the kernel accept the settings that the port
    had whenever they are put back, the discipline of the port not be -1, every shell command be
    started ([popen] gives a file: the program does not look) and write no NUL, and the name
    of the host, when [uname] gives one, have a first part.  Then the program either ends with the
    settings of the port as they were, whichever other call failed, or reaches its last loop with the port turned
    into an interface; and there each of SIGHUP, SIGINT and SIGTERM ends it with status 0
    and every setting put back: file flags, line discipline and attributes. *)
Theorem irattach_session V argc argv1 opts s :
  fresh s → starts_with "/dev" (str_take 20 argv1) = true →
  wp (main V argc argv1 opts)
    (λ _ s', tty_of (kern s') = irda_tty ∧
      ∀ signo, In signo [SIGHUP; SIGINT; SIGTERM] →
        wp (cleanup (A:=unit) signo) (λ _ _, False) (λ c s'', c = 0 ∧ restored s'') s')
    (λ _ s', tty_of (kern s') = t0) s.
Proof.
  intros Hs Hdev. unfold main. destruct ((argc <? 2) || (5 <? argc)).
  { apply wp_bind, wp_quiet; [apply quiet_usage|]. intros [] s' (E & _). wps. rewrite E. apply Hs. }
  cbv iota. apply wp_bind, wp_set. cbv beta. apply wp_bind, wp_set. cbv beta.
  match goal with |- wp _ _ _ ?x => assert (fresh x ∧ device x = str_take 20 argv1) as [Hf Hd]
    by done; generalize dependent x; intros s0 Hf Hd end. clear dependent s.
  apply wp_bind. eapply wp_mono; [apply quiet_parse_options| |].
  2: { intros c s' [_ (E & _)]. rewrite E. apply Hf. }
  cbv beta. intros o s1 E1. pose proof (fresh_same _ _ Hf E1) as Hf1.
  assert (device s1 = str_take 20 argv1) as Hd1.
  { destruct E1 as (_ & _ & _ & _ & _ & _ & _ & ->). done. }
  clear dependent s0. apply wp_bind. unfold open_device. apply wp_bind, wp_get. cbv beta.
  rewrite Hd1, Hdev. apply wp_bind. eapply wp_mono; [by apply open_tty_ok| |done].
  cbv beta. intros fd s2 (Hfd & Hf2 & Hfl & Hi). apply wp_bind, wp_set, wp_ret. cbv beta.
  apply wp_bind, wp_get. cbv beta. cbn [devfd].
  eapply wp_mono; [apply serve_ok; [exact Hf2| |exact Hfl|lia]| |done].
  - apply saved_fresh; [exact Hf2|cbn; lia|exact Hi].
  - cbv beta. intros [] s3 H3. split; [apply H3|]. intros signo Hsig. by apply caught_ok.
Qed.
End tty.

(** ** Examples *)
#[export] Program Instance sim_laws (child : nat) : KernelLaws (sim child) :=
  {| tty_of k := mkTty (sim_fl k) (sim_disc k) (sim_attr k) |}.
Solve All Obligations with
  try solve [done | naive_solver | intros; simpl; repeat case_match; naive_solver].

Next Obligation. by intros child d k fd [= <-]. Qed.

(** the serial port of a laptop, turned into an interface and put back *)
Example session_example :
  match main "0.9.17" 3 "/dev/ttyS1" [("b"%char, "")] (sim_start 9 true) with
  | Ok (inr _, s) =>
      sim_disc (kern s) = N_IRDA ∧ sim_ifs (kern s) !! "irda0" = Some 0xc1 ∧
      match cleanup (A:=unit) SIGTERM s with
      | Ok (inl 0, s) => kern s = mkSim 0x802 0 sim_attr0 {[ "irda0" := 0xc0 ]} 0 true true
      | _ => False
      end
  | _ => False
  end.
Proof. by vm_compute. Qed.

(** ... and one whose kernel has no IrDA: the program ends with status 1 *)
Example session_refused :
  match main "0.9.17" 2 "/dev/ttyS1" [] (sim_start 1 false) with
  | Ok (inl c, s) => c = 0 ∧ kern s = mkSim 0x802 0 sim_attr0 {[ "irda0" := 0x80 ]} 1 false false
  | _ => False
  end.
Proof. by vm_compute. Qed.

Lemma sim_shell child c (k : sim child) :
  ∃ f ret, (k_sh c k).1 = Some (f, ret) ∧ str_all not_nul f = true.
Proof. exists (text ["done"]), 0. by vm_compute. Defined.
Lemma sim_host child (k : sim child) n : (k_uname k).1 = Some n → first_token "." n ≠ None.
Proof. by intros [= <-]. Defined.

Lemma irattach_session_witness :
  let t0 := mkTty 0x802 0 sim_attr0 in
  let s := sim_start 9 true in
  fresh t0 s ∧
  wp (main "0.9.17" 3 "/dev/ttyS1" [("b"%char, "")])
    (λ _ s', tty_of (kern s') = irda_tty t0 ∧
      ∀ signo, In signo [SIGHUP; SIGINT; SIGTERM] →
        wp (cleanup (A:=unit) signo) (λ _ _, False) (λ c s'', c = 0 ∧ restored t0 s'') s')
    (λ _ s', tty_of (kern s') = t0) s.
Proof.
  intros t0 s. split; [done|].
  apply (irattach_session (sim_shell 9) (sim_host 9) t0); done.
Defined.
