(* ===== verification/AttachUtil.v ===== *)
(** * Functions of irattach/util.c that no program calls: [beep], [lookup_dev],
    [execute_on_dev] *)
From Stdlib Require Import String Ascii.
From S2P Require Import Prelude CInt Printf CLib Proc DevList Attach.
Local Open Scope string_scope.
Local Open Scope list_scope.
Local Open Scope Z_scope.

#[local] Arguments Ascii.eqb : simpl never.

Definition ENODEV := 19.

(** ** [beep] *)
Inductive sound :=
  | KDMKTONE (arg : Z)
  | usleep (usec : Z).

Definition be_quiet := 1.

(** what the console and the clock are asked for *)
Definition beep_on (be_quiet : Z) (console : bool) (ms freq : Z) : list sound :=
  if truth be_quiet then []
  else if negb console then []
  else [KDMKTONE (s32 (Z.lor (u32 (Z.shiftl ms 16)) freq)); usleep (u32 (ms * 1000))].
Definition beep (console : bool) (ms freq : Z) : list sound := beep_on be_quiet console ms freq.

(** ** [lookup_dev] *)
Section lookup.
Variable ulong_max : Z.

(** the word at the head of a string, and the rest *)
Fixpoint word (s : string) : string :=
  match s with
  | EmptyString => ""
  | String c s => if is_space c then "" else String c (word s)
  end.

(** [sscanf(s, %d %s, &n, t)]: its result, and the two variables *)
Definition scan_minor (s : string) (n : Z) (t : string) : Z * Z * string :=
  match scan_d ulong_max s with
  | None => (if String.eqb (skip_space s) "" then -1 else 0, n, t)
  | Some (v, rest) =>
      match word (skip_space rest) with
      | EmptyString => (1, s32 v, t)
      | w => (2, s32 v, w)
      end
  end.

Fixpoint lookup_loop (fuel : nat) (name f : string) (n : Z) (t : string) : res (Z * string) :=
  match fuel with
  | O => Stop OutOfFuel
  | S fuel =>
      match fgets 32 f with
      | None => Ok (n, t)
      | Some (s, f) =>
          let '(r, n, t) := scan_minor s n t in
          if (r =? 2) && String.eqb name t then Ok (n, t)
          else lookup_loop fuel name f n t
      end
  end.

(** [n0] and [t0] are what the two variables hold before anything is stored *)
Definition lookup_dev (proc_misc : option string) (errno n0 : Z) (t0 name : string) : res Z :=
  match proc_misc with
  | None => Ok (- errno)
  | Some f =>
      match lookup_loop (S (String.length f)) name f n0 t0 with
      | Ok (n, t) => Ok (if String.eqb name t then n else - ENODEV)
      | Stop w => Stop w
      end
  end.

(** *** The lines of the file: padding, the minor number, the name *)
Definition misc_line (i : string * Z * string) : string :=
  let '(pad, n, name) := i in pad +:+ fmt_u n +:+ " " +:+ name.
Definition misc_ok (i : string * Z * string) : Prop :=
  let '(pad, n, name) := i in
  str_all is_space pad = true ∧ 0 ≤ n < 2 ^ 31 ∧ name ≠ "" ∧
  str_all (λ c, negb (is_space c)) name = true ∧ str_all not_newline (misc_line i) = true ∧
  (String.length (misc_line i) ≤ 30)%nat.

Lemma word_line w :
  str_all (λ c, negb (is_space c)) w = true → word (w +:+ nl) = w.
Proof.
  induction w as [|c w IH]; [done|]. rewrite str_app_cons. cbn.
  destruct (is_space c); [done|]. intros H. by rewrite IH.
Qed.

Hypothesis ulong : 2 ^ 32 - 1 ≤ ulong_max.

Lemma scan_minor_line i n0 t0 :
  misc_ok i → scan_minor (misc_line i +:+ nl) n0 t0 = (2, i.1.2, i.2).
Proof.
  destruct i as [[pad n] name]. intros (Hp & Hn & Hne & Hw & _ & _). cbn [fst snd misc_line].
  unfold scan_minor. rewrite !str_app_assoc, scan_d_printed; [|done|done|done|by intros c t [= <- _]].
  rewrite str_app_cons, str_app_nil_l. cbn [skip_space]. change (is_space " ") with true. cbv iota.
  rewrite skip_space_none.
  - rewrite word_line by done. rewrite s32_small by lia. by destruct name.
  - intros c t Ec. destruct name as [|d name]; [done|]. rewrite str_app_cons in Ec.
    injection Ec as <- _. cbn in Hw. by destruct (is_space d).
Qed.

Definition first_minor (name : string) (l : list (string * Z * string)) : option Z :=
  (λ i, i.1.2) <$> head (filter (λ i, i.2 = name) l).

Lemma lookup_loop_ok name l fuel n t :
  Forall misc_ok l → (length l < fuel)%nat →
  ∃ n' t', lookup_loop fuel name (text (misc_line <$> l)) n t = Ok (n', t') ∧
    match first_minor name l with
    | Some m => t' = name ∧ n' = m
    | None => (l = [] ∧ n' = n ∧ t' = t) ∨ (l ≠ [] ∧ t' ≠ name)
    end.
Proof.
  intros Hl. revert fuel n t. induction Hl as [|i l Hi _ IH]; intros [|fuel] n t Hf;
    cbn [length] in Hf; [lia| |lia|].
  - exists n, t. split; [done|]. by left.
  - cbn [lookup_loop text foldr fmap list_fmap]. fold (text (misc_line <$> l)).
    rewrite fgets_whole.
    2: { by destruct i as [[? ?] ?]; destruct Hi as (_ & _ & _ & _ & ? & _). }
    2: { destruct i as [[? ?] ?]; destruct Hi as (_ & _ & _ & _ & _ & ?); lia. }
    rewrite scan_minor_line by done.
    unfold first_minor. rewrite filter_cons.
    change (2 =? 2) with true. cbn [andb].
    destruct (String.eqb_spec name i.2) as [->|Hne].
    + rewrite decide_True by done. cbn. by eexists _, _.
    + rewrite decide_False by congruence. fold (first_minor name l).
      destruct (IH fuel i.1.2 i.2) as (n' & t' & E & H); [lia|]. exists n', t'. split; [done|].
      destruct (first_minor name l); [done|]. right. split; [done|].
      destruct H as [(_ & _ & ->)|[_ H]]; congruence.
Qed.

(** a device is found: the minor number of the first line with its name; a name
    that no line has gives -ENODEV, unless the file has no line at all and the
    array, which was never written, holds the name *)
Theorem lookup_dev_spec errno n0 t0 name l :
  Forall misc_ok l →
  lookup_dev (Some (text (misc_line <$> l))) errno n0 t0 name
  = Ok (match first_minor name l with
        | Some m => m
        | None => if bool_decide (l = [] ∧ t0 = name) then n0 else - ENODEV
        end).
Proof.
  intros Hl. unfold lookup_dev. pose proof (length_text (misc_line <$> l)) as Hlen.
  rewrite length_fmap in Hlen.
  destruct (lookup_loop_ok name l (S (String.length (text (misc_line <$> l)))) n0 t0 Hl)
    as (n & t & -> & H); [lia|].
  destruct (first_minor name l).
  - destruct H as [-> ->]. by rewrite String.eqb_refl.
  - destruct H as [(-> & -> & ->)|[Hne Ht]].
    + destruct (String.eqb_spec name t0) as [->|Hn]; [by rewrite bool_decide_true|].
      by rewrite bool_decide_false by (intros [_ ?]; congruence).
    + rewrite (proj2 (String.eqb_neq _ _)) by congruence.
      by rewrite bool_decide_false by (intros [? _]; congruence).
Qed.
End lookup.

(** ** [execute_on_dev] *)
Section execute.
Context {K : Type} `{!Kernel K}.

(** [msg] has 128 bytes and [cmd] 512, to which [execute] appends five *)
Definition execute_on_dev (action class dev : string) (minor : Z) : P (irattach K) Z :=
  let msg := action +:+ " cmd" in
  let cmd := "./" +:+ class +:+ " " +:+ action +:+ " " +:+ dev +:+ " " +:+ fmt_d minor in
  if (128 <? String.length msg + 1)%nat then stopped OobWrite
  else if (512 <? String.length cmd + 5 + 1)%nat then stopped OobWrite
  else execute msg cmd.
End execute.

(** a line of 31 characters and more is read in two parts *)
Example lookup_dev_examples :
  let misc := [(" ", 63, "irda"); ("", 175, "agpgart")] in
  let lookup name := lookup_dev 0xffffffff (Some (text (misc_line <$> misc))) 2 0 "" name in
  lookup "irda" = Ok 63 ∧ lookup "agpgart" = Ok 175 ∧ lookup "rtc" = Ok (-19) ∧
  lookup_dev 0xffffffff None 2 0 "" "irda" = Ok (-2) ∧
  lookup_dev 0xffffffff (Some ("1 a-name-that-is-longer-than-it-may-be" +:+ nl)) 2 0 ""
    "a-name-that-is-longer-than-it" = Ok 1.
Proof. by vm_compute. Qed.

Lemma lookup_dev_spec_witness :
  lookup_dev 0xffffffff (Some (text (misc_line <$> [(" ", 63, "irda"); ("", 175, "agpgart")])))
    2 0 "" "agpgart" = Ok 175.
Proof.
  apply (lookup_dev_spec 0xffffffff ltac:(lia) 2 0 "" "agpgart"
    [(" ", 63, "irda"); ("", 175, "agpgart")]).
  repeat constructor; cbn; done || lia.
Defined.
