(* ===== verification/IrdaPing.v ===== *)
(** * irdaping (irdaping/irdaping.c)

    The frames sent at each alarm and the answers that are shown.  The width of
    [long] and the byte order of the host are parameters, since a [struct timeval]
    travels in the frame as it lies in memory.  A signal is taken between two
    rounds of the loop, where the program blocks in [recvfrom]. *)
From Stdlib Require Import String Ascii SpecFloat.
From S2P Require Import Prelude CInt Printf CFloat NetBuf Frame Obex Conn Dump IrLMP IrLAP Capture IrDump CLib Proc.
Local Open Scope string_scope.
Local Open Scope list_scope.
Local Open Scope Z_scope.

Definition TEST_FRAME := 0xe3.
Definition RSP_FRAME := 0x00.
Definition BROADCAST := 0xffffffff.
Definition DEV_DEFAULT : string := "irda0".
(** [sizeof(struct test_frame)], and [self.buf] and [buf] *)
Definition test_frame_size := 10.
Definition buf_size : Z := 2048.
(** [sizeof(struct timezone)]: two [int] *)
Definition timezone_size : nat := 8.

(** the globals ([fd] apart); [hwaddr] is [ifr.ifr_hwaddr.sa_data], and [device]
    what [strncpy] left in the array before the zeros *)
Record instance := mkInst {
  inst_packets : Z;
  inst_saddr : Z;
  inst_daddr : Z;
  hwaddr : list Z;
  framelen : Z;
  device : string;
  time_current : timeval;
  inst_buf : list Z }.

(** the program: the globals, [buf] of [main], what was printed and sent (the
    address [spkt_device], the bytes), and the calls that [perror] named *)
Record ping := mkPing {
  self : instance;
  main_buf : list Z;
  stdout : string;
  errors : list string;
  sent : list (list Z * list Z) }.

Definition set_self (f : instance → instance) (s : ping) : ping :=
  mkPing (f (self s)) (main_buf s) (stdout s) (errors s) (sent s).
Definition with_buf (b : list Z) (i : instance) : instance :=
  mkInst (inst_packets i) (inst_saddr i) (inst_daddr i) (hwaddr i) (framelen i) (device i)
    (time_current i) b.
Definition print (t : string) : P ping unit :=
  pset (λ s, mkPing (self s) (main_buf s) (stdout s +:+ t) (errors s) (sent s)).
Definition perror (call : string) : P ping unit :=
  pset (λ s, mkPing (self s) (main_buf s) (stdout s) (errors s ++ [call]) (sent s)).

(** ** Objects of the host *)
Fixpoint le_bytes (n : nat) (v : Z) : list Z :=
  match n with
  | O => []
  | S n => u8 v :: le_bytes n (v / 256)
  end.
Fixpoint le_value (l : list Z) : Z :=
  match l with
  | [] => 0
  | b :: l => b + 256 * le_value l
  end.

(** [%6.2f] *)
Definition pad_left (w : nat) (s : string) : string :=
  str_of_bytes (replicate (w - String.length s) 32) +:+ s.
Definition fmt_6_2f (x : spec_float) : string :=
  let digits h := fmt_u (h / 100) +:+ "." +:+ fmt_02d (h mod 100) in
  pad_left 6 match x with
  | S754_zero s => if s then "-0.00" else "0.00"
  | S754_finite s m e => (if s then "-" else "") +:+ digits (hundredths m e)
  | S754_infinity s => if s then "-inf" else "inf"
  | S754_nan => "nan"
  end.

(** [((float) sec * 1000000.0 + usec) / 1000.0], in [double], assigned to a
    [float] *)
Definition ping_ms (sec usec : Z) : spec_float :=
  float_of_double (SFdiv 53 1024
    (SFadd 53 1024 (SFmul 53 1024 (float_of_Z sec) (double_of_Z 1000000)) (double_of_Z usec))
    (double_of_Z 1000)).

(** the system: the interface, and [sendto] given the size and the bytes of
    [self.buf] *)
Class Interface := {
  has_socket : bool;
  can_bind : string → bool;
  hardware_address : string → option (list Z);
  accepts : Z → list Z → bool }.

Section irdaping.
Context `{Interface}.
Variable e : endian.
(** [sizeof(long)] *)
Variable w : nat.
(** what the stack holds where [from.spkt_device] is *)
Variable device_junk : list Z.

Definition long_bytes (v : Z) : list Z :=
  match e with LittleEndian => le_bytes w v | BigEndian => rev (le_bytes w v) end.
(** a value as a [long], a [size_t] *)
Definition long (v : Z) : Z := (v + 2 ^ (8 * Z.of_nat w - 1)) mod 2 ^ (8 * Z.of_nat w)
  - 2 ^ (8 * Z.of_nat w - 1).
Definition size_t (v : Z) : Z := v mod 2 ^ (8 * Z.of_nat w).
Definition long_value (l : list Z) : Z :=
  long (le_value (match e with LittleEndian => l | BigEndian => rev l end)).

Definition timeval_bytes (t : timeval) : list Z :=
  long_bytes (tv_sec t) ++ long_bytes (tv_usec t).
Definition timeval_size : Z := 2 * Z.of_nat w.
Definition test_info_size : Z := 2 + timeval_size.

(** [strtol(s, NULL, 10)] *)
Definition strtol10 (s : string) : Z :=
  let t := skip_space s in
  let v := match t with
    | String "-" t => - fst (scan 10 0 t)
    | String "+" t => fst (scan 10 0 t)
    | t => fst (scan 10 0 t)
    end in
  Z.max (- 2 ^ (8 * Z.of_nat w - 1)) (Z.min v (2 ^ (8 * Z.of_nat w - 1) - 1)).

(** a store in [self.buf] *)
Definition store (off : Z) (bs : list Z) : P ping unit :=
  i ← pget self;
  if decide (0 ≤ off ∧ off + Z.of_nat (length bs) ≤ buf_size)
  then pset (set_self (with_buf (splice off bs (inst_buf i))))
  else stopped OobWrite.

(** [for (i=0;i<rest;i++) info->info[i] = n++;] *)
Fixpoint fill (rounds : nat) (off n : Z) : P ping unit :=
  match rounds with
  | O => mret tt
  | S rounds => store off [u8 n];; fill rounds (off + 1) (n + 1)
  end.

Definition cleanup : P ping unit :=
  print nl;;
  i ← pget self;
  print (fmt_d (inst_packets i) +:+ " packets received by filter" +:+ nl);;
  exit 0.

(** the four bytes at the start of the hardware address, as a [__u32] *)
Definition own_address (i : instance) : Z :=
  match hwaddr i with
  | b0 :: b1 :: b2 :: b3 :: _ => host32 e b0 b1 b2 b3
  | _ => 0
  end.

Definition timeout (now : timeval) : P ping unit :=
  pset (set_self (λ i, mkInst (inst_packets i) (own_address i) (inst_daddr i) (hwaddr i)
    (framelen i) (device i) (time_current i) (inst_buf i)));;
  i ← pget self;
  store 0 [u8 (Z.lor CBROADCAST CMD_FRAME)];;
  store 1 [u8 (Z.lor TEST_FRAME PF_BIT)];;
  store 2 (le32_bytes (inst_saddr i));;
  store 6 (le32_bytes (inst_daddr i));;
  store 10 (le16_bytes (inst_packets i));;
  pset (set_self (λ i, mkInst (s32 (inst_packets i + 1)) (inst_saddr i) (inst_daddr i) (hwaddr i)
    (framelen i) (device i) now (inst_buf i)));;
  store 12 (take timezone_size (timeval_bytes now));;
  let rest := s32 (size_t (framelen i) - test_frame_size - test_info_size) in
  fill (Z.to_nat rest) (test_frame_size + test_info_size) 0;;
  i ← pget self;
  let name := take 14 (bytes_of_str (device i) ++ replicate 14 0) in
  if accepts (size_t (framelen i)) (inst_buf i)
  then pset (λ s, mkPing (self s) (main_buf s) (stdout s) (errors s)
    (sent s ++ [(take 6 name ++ device_junk, take (Z.to_nat (framelen i)) (inst_buf i))]))
  else perror "sendto";; exit (-1).

(** a frame that [recvfrom] gives, and the time when [gettimeofday] is called *)
Definition receive (bs : list Z) (now : timeval) : P ping unit :=
  let bs := take (Z.to_nat buf_size) bs in
  let count := Z.of_nat (length bs) in
  pset (λ s, mkPing (self s) (bs ++ drop (length bs) (main_buf s)) (stdout s) (errors s) (sent s));;
  buf ← pget main_buf;
  let byte k := default 0 (buf !! k) in
  if truth (Z.land (byte 0%nat) CMD_FRAME) || negb (byte 1%nat =? Z.lor TEST_FRAME PF_BIT) then mret tt
  else if count <? test_frame_size then mret tt
  else
    print (fmt_d count +:+ " bytes from ");;
    print ("0x" +:+ fmt_08x (le32 (byte 2%nat) (byte 3%nat) (byte 4%nat) (byte 5%nat)));;
    if count <? test_frame_size + test_info_size then print nl
    else
      let sec := long_value (take w (drop 12 buf)) in
      let usec := long_value (take w (drop (12 + w) buf)) in
      let '(sec1, usec1) := if tv_usec now <? usec then (long (tv_sec now - 1), long (tv_usec now + 1000000))
                            else (tv_sec now, tv_usec now) in
      let usec1 := long (usec1 - usec) in
      let sec1 := long (sec1 - sec) in
      print (": irda_seq=" +:+ fmt_d (le16 (byte 10%nat) (byte 11%nat)) +:+ " ");;
      print ("time=" +:+ fmt_6_2f (ping_ms sec1 usec1) +:+ " ms." +:+ nl).

Definition usage : P ping unit :=
  print ("Usage: irdaping <daddr> [-s <framesize>] [-i <iface>]" +:+ nl);;
  exit (-1).

Definition option_case (c : ascii) (optarg : string) : P ping unit :=
  if Ascii.eqb c "s" then
    pset (set_self (λ i, mkInst (inst_packets i) (inst_saddr i) (inst_daddr i) (hwaddr i)
      (s32 (strtol10 optarg)) (device i) (time_current i) (inst_buf i)))
  else if Ascii.eqb c "i" then
    pset (set_self (λ i, mkInst (inst_packets i) (inst_saddr i) (inst_daddr i) (hwaddr i)
      (framelen i) (str_take 14 optarg) (time_current i) (inst_buf i)))
  else if Ascii.eqb c "h" then usage
  else mret tt.

Fixpoint parse_options (opts : list (ascii * string)) : P ping unit :=
  match opts with
  | [] => mret tt
  | (c, optarg) :: opts => option_case c optarg;; parse_options opts
  end.

(** [if (self.framelen < (12+sizeof(struct timeval)))]: the length as a
    [size_t] *)
Definition correct_framelen : P ping unit :=
  pset (set_self (λ i, mkInst (inst_packets i) (inst_saddr i) (inst_daddr i) (hwaddr i)
    (if size_t (framelen i) <? 12 + timeval_size then 12 + timeval_size else framelen i)
    (device i) (time_current i) (inst_buf i))).

(** [argv[1]], and what [getopt] returns *)
Definition start (argv1 : option string) (opts : list (ascii * string)) : P ping unit :=
  match argv1 with
  | None => usage
  | Some addr =>
      pset (set_self (λ _, mkInst 0 0 (u32 (fst (strtoul (2 ^ (8 * Z.of_nat w) - 1) addr)))
        (replicate 14 0) 32 DEV_DEFAULT (mkTime 0 0) (replicate (Z.to_nat buf_size) 0)));;
      parse_options opts;;
      correct_framelen;;
      i ← pget self;
      if negb has_socket then perror "socket";; exit (-1)
      else if negb (can_bind (device i)) then perror "bind";; exit (-1)
      else
        match hardware_address (device i) with
        | None => perror "SIOCGIFHWADDR";; exit (-1)
        | Some a =>
            pset (set_self (λ i, mkInst (inst_packets i) (inst_saddr i) (inst_daddr i) a
              (framelen i) (device i) (time_current i) (inst_buf i)));;
            print ("IrDA ping (0x" +:+ fmt_08x (inst_daddr i) +:+ " on " +:+ device i +:+ "): "
              +:+ fmt_d (framelen i) +:+ " bytes" +:+ nl)
        end
  end.

Inductive event :=
  | Alarm (now : timeval)
  | Received (bs : list Z) (now : timeval)
  | RecvFailed
  | Killed.

Definition serve (ev : event) : P ping unit :=
  match ev with
  | Alarm now => timeout now
  | Received bs now => receive bs now
  | RecvFailed => perror "recvfrom";; exit (-1)
  | Killed => cleanup
  end.

Fixpoint serve_all (evs : list event) : P ping unit :=
  match evs with
  | [] => mret tt
  | ev :: evs => serve ev;; serve_all evs
  end.

Definition irdaping (argv1 : option string) (opts : list (ascii * string)) (evs : list event)
    : P ping unit :=
  start argv1 opts;; serve_all evs.
End irdaping.

(** ** Proofs *)
Lemma le_bytes_length n v : length (le_bytes n v) = n.
Proof. revert v. induction n; intros v; simpl; [done|by rewrite IHn]. Qed.
Lemma le_bytes_bytes n v : Forall is_byte (le_bytes n v).
Proof. revert v. induction n; intros v; simpl; constructor; [apply u8_range|done]. Qed.
Lemma le_value_bytes n v : le_value (le_bytes n v) = v mod 2 ^ (8 * Z.of_nat n).
Proof.
  revert v. induction n as [|n IH]; intros v; simpl le_bytes; simpl le_value.
  - by rewrite Z.mod_1_r.
  - rewrite IH. replace (8 * Z.of_nat (S n)) with (8 + 8 * Z.of_nat n) by lia.
    rewrite Z.pow_add_r, Z.rem_mul_r by lia. done.
Qed.

Section proofs.
Context `{Interface}.
Variable e : endian.
Variable w : nat.
Variable device_junk : list Z.
Hypothesis width : w = 4%nat ∨ w = 8%nat.

Lemma long_small v : - 2 ^ 31 ≤ v < 2 ^ 31 → long w v = v.
Proof.
  intros Hv. unfold long. destruct width as [-> | ->]; rewrite Z.mod_small; lia.
Qed.

Lemma long_value_bytes v : - 2 ^ 31 ≤ v < 2 ^ 31 → long_value e w (long_bytes e w v) = v.
Proof.
  intros Hv. unfold long_value, long_bytes.
  assert (Hl : le_value (match e with LittleEndian => match e with LittleEndian => le_bytes w v
    | BigEndian => rev (le_bytes w v) end | BigEndian => rev (match e with LittleEndian => le_bytes w v
    | BigEndian => rev (le_bytes w v) end) end) = v mod 2 ^ (8 * Z.of_nat w)).
  { rewrite <- le_value_bytes. destruct e; [done|by rewrite rev_involutive]. }
  rewrite Hl. unfold long. rewrite Zplus_mod_idemp_l. by apply long_small.
Qed.
Lemma long_bytes_length v : length (long_bytes e w v) = w.
Proof. unfold long_bytes. destruct e; rewrite ?length_rev; apply le_bytes_length. Qed.
Lemma long_bytes_bytes v : Forall is_byte (long_bytes e w v).
Proof. unfold long_bytes. destruct e; [|apply Forall_rev]; apply le_bytes_bytes. Qed.

(** *** The frame that an alarm sends *)

(** [b]: what [self.buf] held *)
Definition laid (c b : list Z) : list Z := c ++ drop (length c) b.
Definition holding (c b : list Z) (s : ping) : ping := set_self (with_buf (laid c b)) s.

Lemma store_next c b bs s :
  length b = Z.to_nat buf_size → Z.of_nat (length c + length bs) ≤ buf_size →
  store (Z.of_nat (length c)) bs (holding c b s) = Ok (inr tt, holding (c ++ bs) b s).
Proof.
  intros Hb Hl. unfold store, buf_size in *. unfold pget, mbind at 1, P_bind at 1.
  rewrite decide_True by lia. unfold pset, holding, set_self. cbn [self main_buf stdout errors sent].
  do 3 f_equal. unfold with_buf. cbn. f_equal. unfold laid.
  assert (drop (length c) b = take (length bs) (drop (length c) b)
    ++ drop (length c + length bs) b) as ->.
  { rewrite <- drop_drop. by rewrite take_drop. }
  rewrite splice_mid; [by rewrite length_app, app_assoc|].
  rewrite length_take, length_drop. lia.
Qed.

Fixpoint counted (n : nat) (k : Z) : list Z :=
  match n with
  | O => []
  | S n => u8 k :: counted n (k + 1)
  end.
Lemma counted_length n k : length (counted n k) = n.
Proof. revert k. induction n; intros k; simpl; [done|by rewrite IHn]. Qed.
Lemma counted_bytes n k : Forall is_byte (counted n k).
Proof. revert k. induction n; intros k; simpl; constructor; [apply u8_range|done]. Qed.

Lemma ping_fill_ok n c b k s :
  length b = Z.to_nat buf_size → Z.of_nat (length c + n) ≤ buf_size →
  fill n (Z.of_nat (length c)) k (holding c b s) = Ok (inr tt, holding (c ++ counted n k) b s).
Proof.
  intros Hb. revert c k. induction n as [|n IH]; intros c k Hl; cbn [fill counted].
  - by rewrite app_nil_r.
  - erewrite p_bind_ok by (apply store_next; [done|simpl; lia]).
    replace (Z.of_nat (length c) + 1) with (Z.of_nat (length (c ++ [u8 k])))
      by (rewrite length_app; simpl; lia).
    rewrite IH by (rewrite length_app; simpl; lia). by rewrite <- app_assoc.
Qed.

(** ... and one byte too many *)
Lemma fill_overflow n c b k s :
  length b = Z.to_nat buf_size → Z.of_nat (length c) ≤ buf_size < Z.of_nat (length c + n) →
  fill n (Z.of_nat (length c)) k (holding c b s) = Stop OobWrite.
Proof.
  intros Hb. revert c k. induction n as [|n IH]; intros c k Hl; cbn [fill]; [lia|].
  destruct (decide (Z.of_nat (length c) = buf_size)) as [E|E].
  - apply p_bind_stop. unfold store, pget, mbind, P_bind. rewrite decide_False; [done|].
    simpl. lia.
  - erewrite p_bind_ok by (apply store_next; [done|simpl; lia]).
    replace (Z.of_nat (length c) + 1) with (Z.of_nat (length (c ++ [u8 k])))
      by (rewrite length_app; simpl; lia).
    apply IH. rewrite length_app. simpl. lia.
Qed.

Lemma holding_skip c b k s :
  (k ≤ length b - length c)%nat →
  holding c b s = holding (c ++ take k (drop (length c) b)) b s.
Proof.
  intros Hk. unfold holding. do 2 f_equal. unfold laid.
  rewrite <- app_assoc. f_equal. rewrite length_app, length_take, length_drop.
  rewrite Nat.min_l by lia. rewrite <- drop_drop. by rewrite take_drop.
Qed.

(** the twelve bytes of the header and the sequence number; the time as far as it
    is copied; what was in the rest of its place *)
Definition ping_head (i : instance) : list Z :=
  lap_bytes 0xfe 1 1 (Test (own_address e i) (inst_daddr i)) ++ le16_bytes (inst_packets i).
Definition stamp (now : timeval) : list Z := take timezone_size (timeval_bytes e w now).
Definition gap (b : list Z) : list Z := take (2 * w - 8) (drop 20 b).
Definition ping_frame (now : timeval) (i : instance) : list Z :=
  ping_head i ++ stamp now ++ gap (inst_buf i)
  ++ counted (Z.to_nat (framelen i - 12 - timeval_size w)) 0.

Definition alarmed (now : timeval) (s : ping) : ping :=
  let i := self s in
  mkPing (mkInst (s32 (inst_packets i + 1)) (own_address e i) (inst_daddr i) (hwaddr i)
      (framelen i) (device i) now (laid (ping_frame now i) (inst_buf i)))
    (main_buf s) (stdout s) (errors s)
    (sent s ++ [(take 6 (take 14 (bytes_of_str (device i) ++ replicate 14 0)) ++ device_junk,
                 ping_frame now i)]).

Definition frame_fits (i : instance) : Prop :=
  length (inst_buf i) = Z.to_nat buf_size ∧ 12 + timeval_size w ≤ framelen i ≤ buf_size.

Lemma stamp_length now : length (stamp now) = 8%nat.
Proof.
  unfold stamp, timeval_bytes. rewrite length_take, length_app, !long_bytes_length.
  unfold timezone_size. destruct width; lia.
Qed.
Lemma ping_frame_length now i :
  frame_fits i → Z.of_nat (length (ping_frame now i)) = framelen i.
Proof.
  intros [Hb Hf]. unfold ping_frame. rewrite !length_app, stamp_length, counted_length.
  unfold gap, timeval_size, buf_size in *. rewrite length_take, length_drop, Hb.
  change (length (ping_head i)) with 12%nat. destruct width; lia.
Qed.

(** the header is written *)
Lemma timeout_head now s :
  let i := self s in
  length (inst_buf i) = Z.to_nat buf_size →
  timeout e w device_junk now s
  = (let rest := s32 (size_t w (framelen i) - test_frame_size - test_info_size w) in
     fill (Z.to_nat rest) (test_frame_size + test_info_size w) 0;;
     i ← pget self;
     let name := take 14 (bytes_of_str (device i) ++ replicate 14 0) in
     if accepts (size_t w (framelen i)) (inst_buf i)
     then pset (λ s, mkPing (self s) (main_buf s) (stdout s) (errors s)
       (sent s ++ [(take 6 name ++ device_junk, take (Z.to_nat (framelen i)) (inst_buf i))]))
     else perror "sendto";; exit (-1))
      (holding (ping_head i ++ stamp now ++ gap (inst_buf i)) (inst_buf i)
        (set_self (λ i, mkInst (s32 (inst_packets i + 1)) (own_address e i) (inst_daddr i) (hwaddr i)
          (framelen i) (device i) now (inst_buf i)) s)).
Proof.
  intros i Hb. unfold timeout. erewrite p_bind_ok by reflexivity.
  set (s1 := set_self _ s). assert (E : s1 = holding [] (inst_buf i) s1) by reflexivity.
  erewrite p_bind_ok by reflexivity. change (inst_saddr (self s1)) with (own_address e i).
  change (inst_daddr (self s1)) with (inst_daddr i).
  change (inst_packets (self s1)) with (inst_packets i).
  change (framelen (self s1)) with (framelen i). rewrite E.
  assert (Hst : ∀ c bs x, Z.of_nat (length c) = x → (length c + length bs ≤ 20)%nat →
    ∀ s', store x bs (holding c (inst_buf i) s') = Ok (inr tt, holding (c ++ bs) (inst_buf i) s')).
  { intros c bs x <- Hl s'. apply store_next; [done|unfold buf_size; lia]. }
  do 5 (erewrite p_bind_ok by (apply Hst; [reflexivity|simpl; lia])).
  erewrite p_bind_ok by reflexivity.
  match goal with |- context [holding ?c (inst_buf i) s1] =>
    change c with (ping_head i) end.
  set (s2 := set_self _ s).
  change (set_self _ (holding (ping_head i) (inst_buf i) s1)) with (holding (ping_head i) (inst_buf i) s2).
  erewrite p_bind_ok.
  2: { apply Hst; [done|]. fold (stamp now). rewrite stamp_length. done. }
  fold (stamp now). cbv zeta. rewrite (holding_skip _ _ (2 * w - 8)).
  2: { rewrite length_app, stamp_length, Hb. change (length (ping_head i)) with 12%nat.
       unfold buf_size. destruct width; lia. }
  rewrite length_app, stamp_length, <- app_assoc. change (length (ping_head i) + 8)%nat with 20%nat.
  done.
Qed.

Lemma size_small f : 0 ≤ f < 2 ^ 31 → size_t w f = f.
Proof. intros Hf. unfold size_t. destruct width as [-> | ->]; apply Z.mod_small; lia. Qed.
Lemma rest_ok f :
  0 ≤ f < 2 ^ 31 → s32 (size_t w f - test_frame_size - test_info_size w) = f - 12 - timeval_size w.
Proof.
  intros Hf. rewrite size_small by done. unfold test_frame_size, test_info_size, timeval_size.
  rewrite s32_small; [lia|]. destruct width; lia.
Qed.
Lemma ping_header_length now i :
  length (inst_buf i) = Z.to_nat buf_size →
  Z.of_nat (length (ping_head i ++ stamp now ++ gap (inst_buf i))) = test_frame_size + test_info_size w.
Proof.
  intros Hb. rewrite !length_app, stamp_length. change (length (ping_head i)) with 12%nat.
  unfold gap, test_frame_size, test_info_size, timeval_size, buf_size in *.
  rewrite length_take, length_drop, Hb. destruct width; lia.
Qed.

Lemma timeout_run now s :
  frame_fits (self s) →
  timeout e w device_junk now s
  = if accepts (framelen (self s)) (laid (ping_frame now (self s)) (inst_buf (self s)))
    then Ok (inr tt, alarmed now s)
    else Ok (inl 255, mkPing (self (alarmed now s)) (main_buf s) (stdout s)
           (errors s ++ ["sendto"]) (sent s)).
Proof.
  intros Hfit. pose proof (ping_frame_length now _ Hfit) as Hlen. destruct Hfit as [Hb Hf].
  rewrite timeout_head by done. cbv zeta.
  assert (Hs : 0 ≤ framelen (self s) < 2 ^ 31) by (unfold timeval_size, buf_size in *; lia).
  rewrite rest_ok by done. rewrite <- (ping_header_length now _ Hb).
  erewrite p_bind_ok.
  2: { apply ping_fill_ok; [done|]. unfold ping_frame in Hlen.
       rewrite length_app, length_app, length_app, counted_length in Hlen.
       rewrite !length_app. unfold buf_size in *. lia. }
  rewrite <- !app_assoc. fold (ping_frame now (self s)).
  erewrite p_bind_ok by reflexivity.
  change (framelen (self (holding _ _ _))) with (framelen (self s)).
  change (inst_buf (self (holding ?c ?b _))) with (laid c b).
  rewrite size_small by done.
  change (self (set_self ?f s)) with (f (self s)).
  assert (take (Z.to_nat (framelen (self s))) (laid (ping_frame now (self s)) (inst_buf (self s)))
    = ping_frame now (self s)) as ->.
  { unfold laid. replace (Z.to_nat _) with (length (ping_frame now (self s))) by lia.
    by rewrite take_app_length. }
  by destruct (accepts _ _).
Qed.

(** a frame that is longer than [self.buf] *)
Lemma timeout_overflow now s :
  length (inst_buf (self s)) = Z.to_nat buf_size → buf_size < framelen (self s) < 2 ^ 31 →
  timeout e w device_junk now s = Stop OobWrite.
Proof.
  intros Hb Hf. rewrite timeout_head by done. cbv zeta. unfold buf_size in *.
  rewrite rest_ok by lia. rewrite <- (ping_header_length now _ Hb).
  apply p_bind_stop. apply fill_overflow; [done|]. rewrite Nat2Z.inj_add, (ping_header_length now _ Hb).
  unfold test_frame_size, test_info_size, timeval_size, buf_size. destruct width; lia.
Qed.

(** *** The answer

    the time that the frame carries: [memcpy] copies the size of a
    [struct timezone] *)
Definition seen (t : timeval) : timeval :=
  if decide (w = 4%nat) then t else mkTime (tv_sec t) 0.
Definition gap_clear (i : instance) : Prop := gap (inst_buf i) = replicate (2 * w - 8) 0.

Lemma stamp_gap t : stamp t ++ replicate (2 * w - 8) 0 = timeval_bytes e w (seen t).
Proof.
  unfold stamp, seen, timeval_bytes, timezone_size.
  destruct width as [E|E]; rewrite E; cbn [decide].
  - rewrite decide_True by done. cbn [Nat.mul Nat.add Nat.sub replicate].
    rewrite app_nil_r. apply firstn_all2. rewrite <- E, length_app, !long_bytes_length. lia.
  - rewrite decide_False by done. cbn [tv_sec tv_usec]. rewrite <- E.
    rewrite take_app_le by (rewrite long_bytes_length; lia).
    rewrite take_ge by (rewrite long_bytes_length; lia). f_equal.
    unfold long_bytes. rewrite E. by destruct e.
Qed.

(** the response to a TEST command returns its information field *)
Definition answer (peer : Z) (f : list Z) : list Z :=
  [CBROADCAST; Z.lor TEST_FRAME PF_BIT] ++ le32_bytes peer ++ take 4 (drop 2 f) ++ drop 10 f.

Definition elapsed (now t : timeval) : timeval :=
  if tv_usec now <? tv_usec t
  then mkTime (tv_sec now - 1 - tv_sec t) (tv_usec now + 1000000 - tv_usec t)
  else mkTime (tv_sec now - tv_sec t) (tv_usec now - tv_usec t).

(** times before 2038, to the microsecond *)
Definition clock (t : timeval) : Prop := 0 ≤ tv_sec t < 2 ^ 31 ∧ 0 ≤ tv_usec t < 1000000.

Lemma elapsed_ok now t : clock now → clock t →
  instant (elapsed now t) = instant now - instant t ∧ 0 ≤ tv_usec (elapsed now t) < 1000000.
Proof.
  intros [_ H1] [_ H2]. unfold elapsed, instant.
  destruct (Z.ltb_spec (tv_usec now) (tv_usec t)); cbn; lia.
Qed.

Definition shown (n peer k : Z) (d : timeval) : string :=
  fmt_d n +:+ " bytes from 0x" +:+ fmt_08x peer +:+ ": irda_seq=" +:+ fmt_d k
  +:+ " time=" +:+ fmt_6_2f (ping_ms (tv_sec d) (tv_usec d)) +:+ " ms." +:+ nl.

Lemma le16_of_u8 k : le16 (u8 k) (u8 (k / 256)) = u16 k.
Proof.
  unfold le16, be16, u8, u16. change (2 ^ 8) with 256. change (2 ^ 16) with 65536. zmod.
Qed.

Lemma time_fields t info (hd : list Z) old : length hd = 12%nat → clock t →
  let buf := (hd ++ timeval_bytes e w t ++ info) ++ old in
  long_value e w (take w (drop 12 buf)) = tv_sec t ∧
  long_value e w (take w (drop (12 + w) buf)) = tv_usec t.
Proof.
  intros Hhd [H1 H2]. cbv zeta. unfold timeval_bytes. rewrite <- !app_assoc, <- drop_drop.
  rewrite (drop_app_length' hd) by (symmetry; done). rewrite (drop_app_length' (long_bytes e w (tv_sec t)))
    by (symmetry; apply long_bytes_length).
  rewrite !take_app_length' by (symmetry; apply long_bytes_length).
  rewrite !long_value_bytes by lia. done.
Qed.

Lemma receive_answer peer k a0 a1 a2 a3 t info now s :
  let bs := [CBROADCAST; Z.lor TEST_FRAME PF_BIT] ++ le32_bytes peer ++ [a0; a1; a2; a3]
    ++ le16_bytes k ++ timeval_bytes e w t ++ info in
  0 ≤ peer < 4294967296 → Z.of_nat (length bs) ≤ buf_size → clock now → clock t →
  receive e w bs now s
  = Ok (inr tt, mkPing (self s) (bs ++ drop (length bs) (main_buf s))
      (stdout s +:+ shown (Z.of_nat (length bs)) peer (u16 k) (elapsed now t)) (errors s) (sent s)).
Proof.
  intros bs Hp Hl Hnow Ht. unfold receive.
  assert (take (Z.to_nat buf_size) bs = bs) as -> by (apply take_ge; unfold buf_size in *; lia).
  cbv zeta. erewrite p_bind_ok by reflexivity. erewrite p_bind_ok by reflexivity. cbn [main_buf].
  assert (Hc : test_frame_size + test_info_size w ≤ Z.of_nat (length bs)).
  { unfold bs, timeval_bytes. rewrite !length_app, !long_bytes_length.
    unfold test_frame_size, test_info_size, timeval_size. simpl. lia. }
  set (buf := bs ++ _).
  change (default 0 (buf !! 0%nat)) with CBROADCAST.
  change (default 0 (buf !! 1%nat)) with (Z.lor TEST_FRAME PF_BIT).
  change (truth (Z.land CBROADCAST CMD_FRAME)) with false. rewrite Z.eqb_refl. cbn [orb negb].
  assert (test_frame_size <= test_frame_size + test_info_size w)
    by (unfold test_info_size, timeval_size; lia).
  rewrite (proj2 (Z.ltb_ge _ _)) by lia.
  erewrite p_bind_ok by reflexivity. erewrite p_bind_ok by reflexivity.
  rewrite (proj2 (Z.ltb_ge _ _)) by lia.
  change (default 0 (buf !! 2%nat)) with (u8 peer).
  change (default 0 (buf !! 3%nat)) with (u8 (peer / 256)).
  change (default 0 (buf !! 4%nat)) with (u8 (peer / 65536)).
  change (default 0 (buf !! 5%nat)) with (u8 (peer / 16777216)).
  change (default 0 (buf !! 10%nat)) with (u8 k).
  change (default 0 (buf !! 11%nat)) with (u8 (k / 256)).
  unfold le32. rewrite be32_of_bytes by done. rewrite le16_of_u8.
  pose proof (time_fields t info ([CBROADCAST; Z.lor TEST_FRAME PF_BIT] ++ le32_bytes peer
    ++ [a0; a1; a2; a3] ++ le16_bytes k) (drop (length bs) (main_buf s)) eq_refl Ht) as [E1 E2].
  rewrite <- !app_assoc in E1, E2. rewrite !(app_assoc (timeval_bytes e w t)) in E1, E2.
  assert (Hbuf : buf = [CBROADCAST; Z.lor TEST_FRAME PF_BIT] ++ le32_bytes peer
    ++ [a0; a1; a2; a3] ++ le16_bytes k ++ (timeval_bytes e w t ++ info) ++ drop (length bs) (main_buf s)).
  { unfold buf, bs. by rewrite <- !app_assoc. }
  rewrite <- Hbuf in E1, E2. rewrite E1, E2.
  destruct Hnow as [Hn1 Hn2], Ht as [Ht1 Ht2]. unfold shown, elapsed.
  destruct (Z.ltb_spec (tv_usec now) (tv_usec t)).
  - rewrite !(long_small (_ now - 1)), !(long_small (_ now + _)) by lia.
    rewrite !long_small by lia. cbn [tv_sec tv_usec].
    erewrite p_bind_ok by reflexivity. unfold print, pset. cbn [self main_buf stdout errors sent].
    do 3 f_equal. by rewrite !str_app_assoc, !str_app_cons, !str_app_nil_l.
  - rewrite !long_small by lia. cbn [tv_sec tv_usec].
    erewrite p_bind_ok by reflexivity. unfold print, pset. cbn [self main_buf stdout errors sent].
    do 3 f_equal. by rewrite !str_app_assoc, !str_app_cons, !str_app_nil_l.
Qed.

Lemma own_address_range i : Forall is_byte (hwaddr i) → 0 ≤ own_address e i < 4294967296.
Proof.
  intros Hb. unfold own_address. destruct (hwaddr i) as [|b0 [|b1 [|b2 [|b3 l]]]]; try lia.
  decompose_Forall. destruct e; by apply be32_range.
Qed.


(** the answer to a frame: its sequence number, and the time since the frame was
    sent, exact to the microsecond where [long] has four bytes; where it has
    eight, the microseconds of the time of sending were not sent, and count as
    zero. *)
Theorem ping_answered t0 t1 peer s s1 name f :
  frame_fits (self s) → gap_clear (self s) → 0 ≤ peer < 4294967296 → clock t0 → clock t1 →
  timeout e w device_junk t0 s = Ok (inr tt, s1) → sent s1 = sent s ++ [(name, f)] →
  ∃ d s2, receive e w (answer peer f) t1 s1 = Ok (inr tt, s2) ∧
    stdout s2 = stdout s +:+ shown (framelen (self s)) peer (u16 (inst_packets (self s))) d ∧
    instant d = instant t1 - instant (seen t0) ∧ 0 ≤ tv_usec d < 1000000.
Proof.
  intros Hfit Hgap Hp Ht0 Ht1. rewrite timeout_run by done. case_match; [|done]. intros [= <-].
  intros Hsent. apply app_inv_head in Hsent. injection Hsent as _ <-.
  pose proof (ping_frame_length t0 _ Hfit) as Hlen.
  assert (Hseen : clock (seen t0)) by (unfold seen, clock in *; case_decide; cbn; lia).
  assert (Ha : answer peer (ping_frame t0 (self s)) = [CBROADCAST; Z.lor TEST_FRAME PF_BIT]
    ++ le32_bytes peer ++ le32_bytes (own_address e (self s)) ++ le16_bytes (inst_packets (self s))
    ++ timeval_bytes e w (seen t0) ++ counted (Z.to_nat (framelen (self s) - 12 - timeval_size w)) 0).
  { unfold answer, ping_frame. rewrite Hgap, (app_assoc (stamp t0)), stamp_gap. done. }
  assert (Hl : length (answer peer (ping_frame t0 (self s))) = length (ping_frame t0 (self s))).
  { rewrite Ha. unfold ping_frame. rewrite Hgap, (app_assoc (stamp t0)), stamp_gap. done. }
  rewrite Ha in *. set (own := own_address e (self s)) in *.
  do 2 eexists. split.
  { apply (receive_answer peer _ (u8 own) (u8 (own / 256)) (u8 (own / 65536))
      (u8 (own / 16777216)) (seen t0)); try done.
    change [u8 own; u8 (own / 256); u8 (own / 65536); u8 (own / 16777216)] with (le32_bytes own).
    rewrite Hl. destruct Hfit. lia. }
  change [u8 own; u8 (own / 256); u8 (own / 65536); u8 (own / 16777216)] with (le32_bytes own).
  rewrite Hl, Hlen. split; [done|]. by apply elapsed_ok.
Qed.

(** *** A session *)
Lemma receive_quiet bs now s : ∃ t b,
  receive e w bs now s = Ok (inr tt, mkPing (self s) b (stdout s +:+ t) (errors s) (sent s)).
Proof.
  unfold receive. cbv zeta. erewrite p_bind_ok by reflexivity. erewrite p_bind_ok by reflexivity.
  cbn [main_buf]. set (buf := _ ++ _). set (s1 := mkPing _ _ _ _ _).
  destruct (_ || _); [exists ""; eexists; unfold s1; by rewrite str_app_nil_r|].
  destruct (_ <? _); [exists ""; eexists; unfold s1; by rewrite str_app_nil_r|].
  erewrite p_bind_ok by reflexivity. erewrite p_bind_ok by reflexivity.
  destruct (_ <? _).
  { do 2 eexists. unfold print, pset, s1. cbn [self main_buf stdout errors sent].
    by rewrite !str_app_assoc. }
  destruct (if tv_usec now <? _ then _ else _) as [sec usec].
  erewrite p_bind_ok by reflexivity. do 2 eexists.
  unfold print, pset, s1. cbn [self main_buf stdout errors sent]. by rewrite !str_app_assoc.
Qed.

Fixpoint alarms (evs : list event) : Z :=
  match evs with
  | Alarm _ :: evs => 1 + alarms evs
  | _ :: evs => alarms evs
  | [] => 0
  end.
Definition running (ev : event) : Prop :=
  match ev with Alarm _ | Received _ _ => True | _ => False end.

Lemma alarms_nonneg evs : 0 ≤ alarms evs.
Proof. induction evs as [|[] ?]; cbn [alarms]; lia. Qed.

Lemma alarmed_fits now s : frame_fits (self s) → frame_fits (self (alarmed now s)).
Proof.
  intros Hf. pose proof (ping_frame_length now _ Hf) as Hl. destruct Hf as [Hb Hf].
  split; [|exact Hf]. cbn [alarmed self inst_buf]. unfold laid, buf_size in *.
  rewrite length_app, length_drop. lia.
Qed.

(** what the frames sent and the count have in common *)
Lemma serve_running evs s :
  (∀ n b, accepts n b = true) → Forall running evs → frame_fits (self s) →
  0 ≤ inst_packets (self s) → inst_packets (self s) + alarms evs < 2 ^ 31 →
  ∃ t s', serve_all e w device_junk evs s = Ok (inr tt, s') ∧
    inst_packets (self s') = inst_packets (self s) + alarms evs ∧
    Z.of_nat (length (sent s')) = Z.of_nat (length (sent s)) + alarms evs ∧
    stdout s' = stdout s +:+ t.
Proof.
  intros Hacc Hev. revert s. induction Hev as [|ev evs Hr Hev IH]; intros s Hf Hp Ha;
    cbn [serve_all alarms] in *.
  { exists "", s. rewrite str_app_nil_r. split; [done|]. repeat split; lia. }
  pose proof (alarms_nonneg evs). destruct ev as [now|bs now| |]; try done; cbn [serve].
  - erewrite p_bind_ok by (rewrite timeout_run, Hacc by done; reflexivity).
    destruct (IH (alarmed now s)) as (t & s' & -> & E1 & E2 & E3);
      [by apply alarmed_fits|cbn [alarmed self inst_packets]; rewrite s32_small; lia..|].
    exists t, s'. split; [done|]. cbn [alarmed self inst_packets sent stdout] in *.
    rewrite s32_small in E1 by lia. rewrite length_app in E2. simpl in E2.
    repeat split; [lia|lia|done].
  - destruct (receive_quiet bs now s) as (u & b & Hrec). erewrite p_bind_ok by exact Hrec.
    destruct (IH (mkPing (self s) b (stdout s +:+ u) (errors s) (sent s)) Hf Hp Ha)
      as (t & s' & -> & E1 & E2 & E3).
    exists (u +:+ t), s'. split; [done|]. cbn [self sent stdout] in *.
    rewrite E3, str_app_assoc. done.
Qed.

Lemma ping_cleanup_ok s : cleanup s
  = Ok (inl 0, mkPing (self s) (main_buf s) (stdout s +:+ nl +:+ fmt_d (inst_packets (self s))
      +:+ " packets received by filter" +:+ nl) (errors s) (sent s)).
Proof.
  unfold cleanup. do 3 (erewrite p_bind_ok by reflexivity). unfold exit.
  cbn [self main_buf stdout errors sent]. by rewrite !str_app_assoc.
Qed.
Lemma serve_killed evs s :
  serve_all e w device_junk (evs ++ [Killed]) s = (serve_all e w device_junk evs;; cleanup) s.
Proof.
  revert s. induction evs as [|ev evs IH]; intros s; cbn [app serve_all].
  - cbn [serve]. erewrite (p_bind_exit cleanup) by apply ping_cleanup_ok.
    by erewrite p_bind_ok, ping_cleanup_ok by reflexivity.
  - rewrite p_bind_assoc. unfold mbind, P_bind. destruct (serve _ _ _ _ _) as [[[c|u] s1]|]; try done; apply IH.
Qed.

(** the count that is printed when the program is stopped, "packets received by
    filter", is the number of frames it has sent, whatever was received in
    between, be it nothing at all. *)
Theorem ping_counts_sent evs s :
  (∀ n b, accepts n b = true) → Forall running evs → frame_fits (self s) →
  inst_packets (self s) = 0 → sent s = [] → alarms evs < 2 ^ 31 →
  ∃ t s', serve_all e w device_junk (evs ++ [Killed]) s = Ok (inl 0, s') ∧
    stdout s' = t +:+ nl +:+ fmt_d (alarms evs) +:+ " packets received by filter" +:+ nl ∧
    Z.of_nat (length (sent s')) = alarms evs.
Proof.
  intros Hacc Hev Hf Hp Hs Ha.
  destruct (serve_running evs s Hacc Hev Hf) as (t & s' & Hrun & E1 & E2 & E3); [lia|lia|].
  rewrite Hp in E1. rewrite Hs in E2. simpl in E2.
  rewrite serve_killed. erewrite p_bind_ok by exact Hrun. rewrite ping_cleanup_ok, E1.
  do 2 eexists. split; [reflexivity|]. split; [done|]. cbn [sent]. lia.
Qed.

(** *** The size of the frames *)

(** the last [-s], as an [int] *)
Definition last_size (opts : list (ascii * string)) (n : Z) : Z :=
  foldl (λ n o, if Ascii.eqb o.1 "s" then s32 (strtol10 w o.2) else n) n opts.

Lemma s32_range n : - 2 ^ 31 ≤ s32 n < 2 ^ 31.
Proof. unfold s32. pose proof (Z.mod_pos_bound (n + 2 ^ 31) (2 ^ 32)). lia. Qed.
Lemma last_size_range opts n : - 2 ^ 31 ≤ n < 2 ^ 31 → - 2 ^ 31 ≤ last_size opts n < 2 ^ 31.
Proof.
  unfold last_size. revert n. induction opts as [|o opts IH]; intros n Hn; cbn [foldl]; [done|].
  apply IH. case_match; [apply s32_range|done].
Qed.

Lemma parse_options_frame opts s s' :
  parse_options w opts s = Ok (inr tt, s') →
  framelen (self s') = last_size opts (framelen (self s)) ∧
  inst_buf (self s') = inst_buf (self s).
Proof.
  unfold last_size. revert s. induction opts as [|[c a] opts IH]; intros s; cbn [parse_options foldl].
  { by intros [= <-]. }
  unfold option_case. cbn [fst snd]. destruct (Ascii.eqb c "s").
  { erewrite p_bind_ok by reflexivity. intros Hr. by apply IH in Hr. }
  destruct (Ascii.eqb c "i").
  { erewrite p_bind_ok by reflexivity. intros Hr. by apply IH in Hr. }
  destruct (Ascii.eqb c "h"); [done|]. erewrite p_bind_ok by reflexivity. apply IH.
Qed.

Lemma start_frame addr opts s s' :
  start w (Some addr) opts s = Ok (inr tt, s') →
  let n := last_size opts 32 in
  framelen (self s') = (if size_t w n <? 12 + timeval_size w then 12 + timeval_size w else n) ∧
  inst_buf (self s') = replicate (Z.to_nat buf_size) 0.
Proof.
  unfold start. erewrite p_bind_ok by reflexivity. intros Hrun.
  unfold mbind at 1, P_bind at 1 in Hrun.
  destruct (parse_options w opts _) as [[[c|[]] s1]|] eqn:E; [done| |done].
  apply parse_options_frame in E as [E1 E2]. erewrite p_bind_ok in Hrun by reflexivity.
  erewrite p_bind_ok in Hrun by reflexivity.
  destruct (negb has_socket); [done|]. destruct (negb _); [done|].
  destruct (hardware_address _); [|done]. erewrite p_bind_ok in Hrun by reflexivity.
  injection Hrun as <-. cbn -[replicate buf_size size_t timeval_size Z.add]. rewrite E1, E2. done.
Qed.

Lemma negative_rest n : - 2 ^ 30 ≤ n < 0 →
  Z.to_nat (s32 (2 ^ (8 * Z.of_nat w) + n - test_frame_size - test_info_size w)) = 0%nat.
Proof.
  intros Hn. unfold test_frame_size, test_info_size, timeval_size, s32.
  destruct width as [-> | ->].
  - replace (_ + 2 ^ 31) with (n - 20 + 2 ^ 31 + 1 * 2 ^ 32) by lia.
    rewrite Z_mod_plus_full, Z.mod_small; lia.
  - replace (_ + 2 ^ 31) with (n - 28 + 2 ^ 31 + 2 ^ 32 * 2 ^ 32) by lia.
    rewrite Z_mod_plus_full, Z.mod_small; lia.
Qed.

(** the frame size of [-s], an [int].  Sizes up to [sizeof(self.buf)] are served,
    the smallest one being that of the header; a larger one is not refused, and the
    first alarm writes past the buffer; a negative one is not corrected either,
    since it is compared as a [size_t], and what the kernel is asked to send is
    then almost the whole address space. *)
Theorem ping_frame_size addr opts s s' :
  start w (Some addr) opts s = Ok (inr tt, s') →
  let n := last_size opts 32 in
  (0 ≤ n ≤ buf_size → frame_fits (self s') ∧ framelen (self s') = Z.max n (12 + timeval_size w)) ∧
  (buf_size < n → ∀ now, timeout e w device_junk now s' = Stop OobWrite) ∧
  (- 2 ^ 30 ≤ n < 0 → framelen (self s') = n ∧
     ∀ now, (∀ b, accepts (2 ^ (8 * Z.of_nat w) + n) b = false) →
     ∃ s'', timeout e w device_junk now s' = Ok (inl 255, s'') ∧ sent s'' = sent s').
Proof.
  intros Hs n. apply start_frame in Hs as [Hf Hb]. fold n in Hf.
  assert (Hn : - 2 ^ 31 ≤ n < 2 ^ 31) by (apply last_size_range; lia).
  assert (Hlen : length (inst_buf (self s')) = Z.to_nat buf_size) by (by rewrite Hb, length_replicate).
  assert (Hw : timeval_size w = 8 ∨ timeval_size w = 16)
    by (unfold timeval_size; destruct width; lia).
  split; [|split].
  - intros Hr. rewrite size_small in Hf by (unfold buf_size in *; lia). unfold frame_fits.
    rewrite Hlen, Hf. unfold buf_size in *. destruct (Z.ltb_spec n (12 + timeval_size w)); lia.
  - intros Hr now. apply timeout_overflow; [done|]. unfold buf_size in *.
    rewrite size_small in Hf by lia. rewrite (proj2 (Z.ltb_ge _ _)) in Hf by lia. lia.
  - intros Hr. assert (Hsz : size_t w n = 2 ^ (8 * Z.of_nat w) + n).
    { unfold size_t. symmetry. apply Z.mod_unique with (-1); [|lia].
      destruct width as [-> | ->]; lia. }
    rewrite Hsz, (proj2 (Z.ltb_ge _ _)) in Hf by (destruct width as [E|E]; rewrite E in *; lia).
    split; [done|]. intros now Hacc. rewrite timeout_head by done. cbv zeta. rewrite Hf, Hsz.
    rewrite negative_rest by done. cbn [Z.to_nat fill]. erewrite p_bind_ok by reflexivity.
    erewrite p_bind_ok by reflexivity.
    change (framelen (self (holding ?c ?b (set_self ?f s')))) with (framelen (self s')).
    rewrite Hf, Hsz, Hacc. erewrite p_bind_ok by reflexivity. by eexists.
Qed.
End proofs.

(** ** Witnesses *)
#[local] Instance lab : Interface :=
  {| has_socket := true; can_bind _ := true; hardware_address _ := Some (replicate 4 0x5a ++ replicate 10 0);
     accepts n _ := n <? 2 ^ 31 |}.
#[local] Instance lab_all : Interface :=
  {| has_socket := true; can_bind _ := true; hardware_address _ := Some (replicate 4 0x5a ++ replicate 10 0);
     accepts _ _ := true |}.
Definition off : ping :=
  mkPing (mkInst 0 0 0 [] 0 "" (mkTime 0 0) []) (replicate 2048 0) "" [] [].
(** after the start with the size [n] *)
Definition on (n : Z) : ping :=
  mkPing (mkInst 0 0 0x12345678 (replicate 4 0x5a ++ replicate 10 0) n "irda0" (mkTime 0 0)
    (replicate 2048 0)) (replicate 2048 0) "" [] [].

Example irdaping_example :
  match irdaping (H:=lab) LittleEndian 4 [] (Some "0x12345678") []
    [Alarm (mkTime 100 250000);
     Received ([0xfe; 0xf3; 0x78; 0x56; 0x34; 0x12; 0x5a; 0x5a; 0x5a; 0x5a; 0; 0]
       ++ le_bytes 4 100 ++ le_bytes 4 250000 ++ counted 12 0) (mkTime 100 281250); Killed] off with
  | Ok (r, s) => r = inl 0 ∧ stdout s =
      "IrDA ping (0x12345678 on irda0): 32 bytes" +:+ nl
      +:+ "32 bytes from 0x12345678: irda_seq=0 time= 31.25 ms." +:+ nl
      +:+ nl +:+ "1 packets received by filter" +:+ nl
  | Stop _ => False
  end.
Proof. vm_compute. by split. Qed.

Lemma on_fits n w : w = 4%nat ∨ w = 8%nat → 28 ≤ n ≤ 2048 → frame_fits w (self (on n)).
Proof.
  intros Hw Hn. split; [reflexivity|]. unfold timeval_size, buf_size. cbn [on self framelen].
  destruct Hw; lia.
Defined.
Lemma on_clear n w : w = 4%nat ∨ w = 8%nat → gap_clear w (self (on n)).
Proof. by intros [-> | ->]. Defined.


Lemma ping_answered_witness :
  let s1 := alarmed LittleEndian 8 [] (mkTime 5 600000) (on 32) in
  let f := ping_frame LittleEndian 8 (mkTime 5 600000) (self (on 32)) in
  ∃ d s2, receive LittleEndian 8 (answer 0x77 f) (mkTime 5 700000) s1 = Ok (inr tt, s2) ∧
    stdout s2 = "" +:+ shown 32 0x77 (u16 0) d ∧
    instant d = instant (mkTime 5 700000) - instant (mkTime 5 0) ∧ 0 ≤ tv_usec d < 1000000.
Proof.
  apply (ping_answered (H:=lab_all) LittleEndian 8 [] (or_intror eq_refl) (mkTime 5 600000)
    (mkTime 5 700000) 0x77 (on 32) _ (take 6 (take 14 (bytes_of_str "irda0" ++ replicate 14 0)) ++ [])).
  - apply on_fits; [by right|lia].
  - apply on_clear; by right.
  - lia.
  - by split.
  - by split.
  - rewrite timeout_run; [done|by right|apply on_fits; [by right|lia]].
  - reflexivity.
Defined.

Lemma ping_counts_sent_witness :
  ∃ t s', serve_all (H:=lab_all) LittleEndian 8 []
      ([Alarm (mkTime 1 0); Received [1; 2] (mkTime 1 5); Alarm (mkTime 2 0)] ++ [Killed]) (on 32)
    = Ok (inl 0, s') ∧
    stdout s' = t +:+ nl +:+ fmt_d 2 +:+ " packets received by filter" +:+ nl ∧
    Z.of_nat (length (sent s')) = 2.
Proof.
  apply (ping_counts_sent (H:=lab_all) LittleEndian 8 [] (or_intror eq_refl)
    [Alarm (mkTime 1 0); Received [1; 2] (mkTime 1 5); Alarm (mkTime 2 0)] (on 32)).
  - done.
  - by repeat constructor.
  - apply on_fits; [by right|lia].
  - done.
  - done.
  - cbn [alarms]. lia.
Defined.

Lemma ping_frame_size_witness :
  match start (H:=lab) 8 (Some "0x12345678") [("s"%char, "-5")] off with
  | Ok (inr tt, s') => framelen (self s') = -5 ∧ ∀ now, ∃ s'',
      timeout (H:=lab) LittleEndian 8 [] now s' = Ok (inl 255, s'') ∧ sent s'' = sent s'
  | _ => False
  end.
Proof.
  destruct (start _ _ _ _) as [[[|[]] s']|] eqn:E; [by vm_compute in E| |by vm_compute in E].
  pose proof (ping_frame_size (H:=lab) LittleEndian 8 [] (or_intror eq_refl) _ _ _ _ E)
    as (_ & _ & H3).
  change (last_size 8 [("s"%char, "-5")] 32) with (-5) in H3.
  destruct H3 as [H3 H4]; [lia|]. split; [exact H3|]. intros now. apply H4. intros b. done.
Defined.
