(* ===== verification/Irda.v ===== *)
(** * The irda tool (irda/src/main.c, irias.c)

    The command line, one query of an attribute of the local or remote information
    base, its report, and the repetition of the query by a timer.  [m_argv] from
    [arg_index] on is the list of the arguments left. *)
From Stdlib Require Import String Ascii.
From S2P Require Import Prelude CInt Printf CLib Proc.
Local Open Scope string_scope.
Local Open Scope list_scope.
Local Open Scope Z_scope.

(** configure.ac *)
Definition PACKAGE_NAME : string := "irda".
Definition PACKAGE_VERSION : string := "0.1".
(** <linux/irda.h>, <limits.h> *)
Definition IAS_EXPORT_CLASSNAME : nat := 64.
Definition IAS_EXPORT_ATTRIBNAME : nat := 256.
Definition IAS_MAX_OCTET_STRING := 1024.
Definition PATH_MAX : nat := 4096.

(** the attribute that the kernel stores in a [struct irda_ias_set]: its type, and
    the part of the union that the type selects *)
Inductive ias_attribute :=
  | IasMissing
  | IasInteger (n : Z)
  | IasOctSeq (octet_seq : list Z)
  | IasString (len charset : Z) (s : string)
  | IasOther (type : Z).

(** the fields of [ias_data.query] that are sent; the arrays as [strncpy] left them *)
Record ias_query := mkQuery {
  irda_class_name : string;
  irda_attrib_name : string;
  daddr : Z }.

(** The system: [has_irda] is [None] where the socket opens, or the error number;
    the answer of [getsockopt] ([true]: IRLMP_IAS_GET, the local base); opening a
    file for writing and how much of the data [write] takes. *)
Class Ias (K : Type) := {
  has_irda : option Z;
  get_attribute : bool → ias_query → K → option ias_attribute * K;
  can_open : string → bool;
  takes : list Z → nat;
  has_irias : bool }.

(** the globals of both files, the files of the system, what is printed and the
    calls that [perror] names *)
Record irda (K : Type) := mkIrda {
  kern : K;
  count : Z;
  delay : Z;
  fmt_column : bool;
  fmt_no_header : bool;
  debug : Z;
  fmt_sep : ascii;
  m_func : bool;            (* set to [irias_get_exec] *)
  timer : option Z;
  is_local : bool;
  query : ias_query;
  filename : string;
  files : gmap string (list Z);
  out : string;
  err : string;
  errors : list string }.
Arguments mkIrda {K}. Arguments kern {K}. Arguments count {K}. Arguments delay {K}.
Arguments fmt_column {K}. Arguments fmt_no_header {K}. Arguments debug {K}.
Arguments fmt_sep {K}. Arguments m_func {K}. Arguments timer {K}. Arguments is_local {K}.
Arguments query {K}. Arguments filename {K}. Arguments files {K}. Arguments out {K}.
Arguments err {K}. Arguments errors {K}.

Section irda.
Context {K : Type} `{!Ias K}.
Implicit Types (s : irda K).

(** ** Assignments *)
Definition set_kern (k : K) s := mkIrda k (count s) (delay s) (fmt_column s) (fmt_no_header s) (debug s)
  (fmt_sep s) (m_func s) (timer s) (is_local s) (query s) (filename s) (files s) (out s) (err s) (errors s).
Definition set_count n s := mkIrda (kern s) n (delay s) (fmt_column s) (fmt_no_header s) (debug s)
  (fmt_sep s) (m_func s) (timer s) (is_local s) (query s) (filename s) (files s) (out s) (err s) (errors s).
Definition set_delay n s := mkIrda (kern s) (count s) n (fmt_column s) (fmt_no_header s) (debug s)
  (fmt_sep s) (m_func s) (timer s) (is_local s) (query s) (filename s) (files s) (out s) (err s) (errors s).
Definition set_format col nohdr sep s := mkIrda (kern s) (count s) (delay s) col nohdr (debug s)
  sep (m_func s) (timer s) (is_local s) (query s) (filename s) (files s) (out s) (err s) (errors s).
Definition set_debug n s := mkIrda (kern s) (count s) (delay s) (fmt_column s) (fmt_no_header s) n
  (fmt_sep s) (m_func s) (timer s) (is_local s) (query s) (filename s) (files s) (out s) (err s) (errors s).
Definition set_timer f t s := mkIrda (kern s) (count s) (delay s) (fmt_column s) (fmt_no_header s)
  (debug s) (fmt_sep s) f t (is_local s) (query s) (filename s) (files s) (out s) (err s) (errors s).
Definition set_query local q file s := mkIrda (kern s) (count s) (delay s) (fmt_column s)
  (fmt_no_header s) (debug s) (fmt_sep s) (m_func s) (timer s) local q file (files s) (out s) (err s)
  (errors s).
Definition set_files f s := mkIrda (kern s) (count s) (delay s) (fmt_column s) (fmt_no_header s)
  (debug s) (fmt_sep s) (m_func s) (timer s) (is_local s) (query s) (filename s) f (out s) (err s)
  (errors s).
Definition set_text o e p s := mkIrda (kern s) (count s) (delay s) (fmt_column s) (fmt_no_header s)
  (debug s) (fmt_sep s) (m_func s) (timer s) (is_local s) (query s) (filename s) (files s) o e p.

Definition printf t : P (irda K) unit := pset (λ s, set_text (out s +:+ t) (err s) (errors s) s).
Definition eprintf t : P (irda K) unit := pset (λ s, set_text (out s) (err s +:+ t) (errors s) s).
Definition perror t : P (irda K) unit :=
  pset (λ s, set_text (out s) (err s) (errors s ++ [t]) s).

(** an array of [n] characters printed or measured as a string *)
Definition array_text (n : nat) (t : string) : P (irda K) string :=
  if (String.length t <? n)%nat then mret t else stopped OobRead.

(** [!nptr || !*nptr || !endptr || *endptr] *)
Definition bad_number (arg rest : string) : bool :=
  match arg, rest with
  | EmptyString, _ => true
  | _, EmptyString => false
  | _, _ => true
  end.

(** ** Messages *)
Definition version : P (irda K) unit :=
  printf (PACKAGE_NAME +:+ ", " +:+ PACKAGE_VERSION +:+ nl).
Definition main_help : P (irda K) unit :=
  printf ("Usage: " +:+ PACKAGE_NAME +:+ " [ OPTIONS ] OBJECT { COMMAND | help }" +:+ nl
    +:+ "where OBJECT := { lap | lmp | ias | ttp }" +:+ nl
    +:+ "      OPTIONS := { -V[version] | -h[elp] | [ -c count ] [ -d delay ] " +:+ nl
    +:+ "                 [ -H ] [ -C ] [ -S separator ] [ -D ] }" +:+ nl).
Definition main_no_option (o : string) : P (irda K) unit :=
  eprintf ("Option " +:+ dq +:+ o +:+ dq +:+ " is unknown, try " +:+ dq +:+ PACKAGE_NAME +:+ " -help"
    +:+ dq +:+ "." +:+ nl).
Definition main_no_object (o : string) : P (irda K) unit :=
  eprintf ("Object " +:+ dq +:+ o +:+ dq +:+ " is unknown, try " +:+ dq +:+ PACKAGE_NAME +:+ " help"
    +:+ dq +:+ "." +:+ nl).
Definition main_no_action : P (irda K) unit :=
  eprintf ("No action given, try " +:+ dq +:+ PACKAGE_NAME +:+ " help" +:+ dq +:+ "." +:+ nl).
Definition main_err_param (o : string) : P (irda K) unit :=
  eprintf ("Invalid parameter value " +:+ dq +:+ o +:+ dq +:+ "." +:+ nl).
Definition main_no_complete : P (irda K) unit :=
  eprintf ("Command line is not complete. Try " +:+ dq +:+ PACKAGE_NAME +:+ " help" +:+ dq +:+ "."
    +:+ nl).
Definition irias_help : P (irda K) unit :=
  printf ("Usage: " +:+ PACKAGE_NAME +:+ " ias list" +:+ nl +:+ "       " +:+ PACKAGE_NAME
    +:+ " ias get [ DEST ] class CLASS attrib ATTRIB [ filename FILE ]" +:+ nl
    +:+ "DEST := { local | remote DEVADDR }" +:+ nl).
Definition irias_no_option (o : string) : P (irda K) unit :=
  eprintf ("Command " +:+ dq +:+ o +:+ dq +:+ " is unknown, try " +:+ dq +:+ PACKAGE_NAME
    +:+ " ias help" +:+ dq +:+ "." +:+ nl).
Definition irias_no_complete : P (irda K) unit :=
  eprintf ("Command line is not complete. Try " +:+ dq +:+ PACKAGE_NAME +:+ " ias help" +:+ dq +:+ "."
    +:+ nl).
Definition irias_no_iasclass : P (irda K) unit :=
  eprintf (dq +:+ "class" +:+ dq +:+ " attribute is not present. Try " +:+ dq +:+ PACKAGE_NAME
    +:+ " ias help" +:+ dq +:+ "." +:+ nl).
Definition irias_no_iasattrib : P (irda K) unit :=
  eprintf (dq +:+ "attrib" +:+ dq +:+ " attribute is not present. Try " +:+ dq +:+ PACKAGE_NAME
    +:+ " ias help" +:+ dq +:+ "." +:+ nl).
Definition irias_err_daddr (o : string) : P (irda K) unit :=
  eprintf ("Invalid device address " +:+ dq +:+ o +:+ dq +:+ ". Example: 0xabcd." +:+ nl).

(** ** The report of an attribute *)
Definition charset_names : list string :=
  ["ASCII"; "ISO-8859-1"; "ISO-8859-2"; "ISO-8859-3"; "ISO-8859-4"; "ISO-8859-5"; "ISO-8859-6";
   "ISO-8859-7"; "ISO-8859-8"; "ISO-8859-9"; "UNICODE"].

Definition irias_show_octetseq (octets : list Z) : P (irda K) unit :=
  if decide (Z.of_nat (length octets) ≤ IAS_MAX_OCTET_STRING)
  then printf (String.concat "" ((λ b, fmt_02x b +:+ " ") <$> octets))
  else stopped OobRead.

(** [open(ias_data.filename, O_WRONLY|O_CREAT, 0644)], [write], [close]: the file is
    not truncated *)
Definition write_file (name : string) (octets : list Z) : P (irda K) bool :=
  if can_open name then
    s ← pget id;
    let old := default [] (files s !! name) in
    let taken := take (takes octets) octets in
    pset (set_files (<[name := taken ++ drop (length taken) old]> (files s)));;
    pwhen (negb (Nat.eqb (length taken) (length octets))) (perror name);;
    mret true
  else perror name;; mret false.

Definition char (c : ascii) : string := String c EmptyString.

Definition irias_list_entry (q : ias_query) (a : ias_attribute) : P (irda K) unit :=
  s ← pget id;
  let sep := char (fmt_sep s) in
  let column := fmt_column s in
  class ← array_text IAS_EXPORT_CLASSNAME (irda_class_name q);
  attrib ← array_text IAS_EXPORT_ATTRIBNAME (irda_attrib_name q);
  printf (if column then class +:+ sep +:+ attrib
          else "Class: " +:+ dq +:+ class +:+ dq +:+ nl +:+ "Attribute: " +:+ dq +:+ attrib +:+ dq
            +:+ nl);;
  match a with
  | IasMissing => mret tt
  | IasInteger n =>
      printf (if column then sep +:+ "integer" +:+ sep +:+ fmt_d (s32 n) +:+ nl
              else "Attribute Type: Integer" +:+ nl +:+ "Value: " +:+ fmt_d (s32 n) +:+ nl)
  | IasOctSeq octets =>
      printf (if column then sep +:+ "octetseq" +:+ sep
              else "Attribute Type: Octet Sequence (length="
                +:+ fmt_d (Z.of_nat (length octets)) +:+ ")" +:+ nl);;
      name ← array_text PATH_MAX (filename s);
      if negb (String.eqb name "") then
        written ← write_file name octets;
        pwhen written (printf (if column then "(" +:+ name +:+ ")" +:+ nl
                               else "Value: (file=" +:+ name +:+ ")" +:+ nl))
      else if column then irias_show_octetseq octets;; printf nl
      else printf "Value: ";; irias_show_octetseq octets;; printf nl
  | IasString len charset t =>
      if column then printf (sep +:+ "string" +:+ sep +:+ t +:+ nl)
      else
        match charset_names !! Z.to_nat charset with
        | Some name =>
            printf ("Attribute Type: String (length=" +:+ fmt_d len +:+ ", charset=" +:+ name +:+ ")"
              +:+ nl +:+ "Value: " +:+ dq +:+ t +:+ dq +:+ nl)
        | None => stopped OobRead
        end
  | IasOther type =>
      eprintf (PACKAGE_NAME +:+ ": Invalid IAS attribute type received. type=" +:+ fmt_d (s32 type));;
      exit 1
  end.

Definition irias_get_exec : P (irda K) unit :=
  s ← pget id;
  let '(r, k) := get_attribute (is_local s) (query s) (kern s) in
  pset (set_kern k);;
  match r with
  | None => perror PACKAGE_NAME
  | Some a => irias_list_entry (query s) a
  end.

(** ** The timer *)
Definition cleanup : P (irda K) unit := exit 0.

Definition timeout : P (irda K) unit :=
  n ← pget count;
  if truth n then
    f ← pget m_func;
    pwhen f irias_get_exec;;
    pset (λ s, set_count (u32 (count s - 1)) s)
  else cleanup.

Definition register_timeout : P (irda K) unit := pset (λ s, set_timer true (Some (delay s)) s).

(** ** irda ias get *)
Definition set_class (v : string) : P (irda K) unit := pset (λ s,
  set_query (is_local s) (mkQuery v (irda_attrib_name (query s)) (daddr (query s))) (filename s) s).
Definition set_attrib (v : string) : P (irda K) unit := pset (λ s,
  set_query (is_local s) (mkQuery (irda_class_name (query s)) v (daddr (query s))) (filename s) s).
Definition set_daddr (v : Z) : P (irda K) unit := pset (λ s,
  set_query (is_local s) (mkQuery (irda_class_name (query s)) (irda_attrib_name (query s)) v) (filename s) s).
Definition set_local (b : bool) : P (irda K) unit := pset (λ s,
  set_query b (query s) (filename s) s).
Definition set_filename (v : string) : P (irda K) unit := pset (λ s,
  set_query (is_local s) (query s) v s).

(** the loop over the arguments; the result says which names were given *)
Fixpoint get_options (ulong_max : Z) (args : list string) (have_class have_attrib : bool)
    : P (irda K) (bool * bool) :=
  let incomplete := irias_no_complete;; exit 255 in
  match args with
  | [] => mret (have_class, have_attrib)
  | a :: args =>
      if starts_with "lo" a then set_local true;; get_options ulong_max args have_class have_attrib
      else if starts_with "re" a then
        set_local false;;
        match args with
        | [] => incomplete
        | v :: args =>
            set_daddr (u32 (fst (strtoul16 ulong_max v)));;
            if bad_number v (snd (strtoul16 ulong_max v)) then irias_err_daddr v;; exit 1
            else get_options ulong_max args have_class have_attrib
        end
      else if starts_with "cl" a then
        match args with
        | [] => incomplete
        | v :: args =>
            set_class (str_take IAS_EXPORT_CLASSNAME v);; get_options ulong_max args true have_attrib
        end
      else if starts_with "at" a then
        match args with
        | [] => incomplete
        | v :: args =>
            set_attrib (str_take IAS_EXPORT_ATTRIBNAME v);; get_options ulong_max args have_class true
        end
      else if starts_with "fi" a then
        match args with
        | [] => incomplete
        | v :: args =>
            set_filename (str_take PATH_MAX v);; get_options ulong_max args have_class have_attrib
        end
      else irias_no_option a;; exit 255
  end.

(** [inr] is [while (1) sleep(m_sleep)]: the program waits for its timer *)
Definition irias_get (ulong_max : Z) (args : list string) : P (irda K) unit :=
  set_local true;;
  set_filename "";;
  '(have_class, have_attrib) ← get_options ulong_max args false false;
  if negb have_class then irias_no_iasclass;; exit 255
  else if negb have_attrib then irias_no_iasattrib;; exit 255
  else
    match has_irda with
    | Some errno => perror PACKAGE_NAME;; exit errno
    | None =>
        s ← pget id;
        let sep := char (fmt_sep s) in
        pwhen (fmt_column s && negb (fmt_no_header s))
          (printf ("class" +:+ sep +:+ "attribute" +:+ sep +:+ "type" +:+ sep +:+ "value" +:+ nl));;
        if truth (count s) then register_timeout
        else irias_get_exec;; exit 0
    end.

Definition irias_set : P (irda K) unit := mret tt.

(** [regcomp] stores through [rx_class], which was never assigned *)
Definition irias_list : P (irda K) unit :=
  if has_irias then stopped OobWrite
  else perror "Unable to open the /proc/net/irda/irias file".

Definition irias_main (ulong_max : Z) (args : list string) : P (irda K) unit :=
  match args with
  | [] => irias_list;; exit 0
  | a :: args =>
      if starts_with "he" a then irias_help;; exit 255
      else if starts_with "ge" a then irias_get ulong_max args
      else if starts_with "se" a then irias_set;; exit 0
      else if starts_with "ls" a || starts_with "sh" a || starts_with "li" a then
        irias_list;; exit 0
      else irias_no_option a;; exit 255
  end.

(** ** Options and objects *)

(** [abs(strtoul(...))] as an [unsigned int] *)
Definition unsigned_abs (ulong_max : Z) (v : string) : Z :=
  u32 (Z.abs (s32 (fst (strtoul ulong_max v)))).

Fixpoint general_options (ulong_max : Z) (args : list string) : P (irda K) (list string) :=
  let number (set : Z → irda K → irda K) (v : string) :=
    pset (set (unsigned_abs ulong_max v));;
    pwhen (bad_number v (snd (strtoul ulong_max v))) (main_err_param v;; exit 255) in
  let incomplete := main_no_complete;; exit 255 in
  match args with
  | String "-" o :: args' =>
      match o with
      | EmptyString => general_options ulong_max args'
      | String c _ =>
          if Ascii.eqb c "V" then version;; exit 0
          else if Ascii.eqb c "h" then main_help;; exit 255
          else if Ascii.eqb c "D" then
            pset (λ s, set_debug (u32 (debug s + 1)) s);; general_options ulong_max args'
          else if Ascii.eqb c "C" then
            pset (λ s, set_format true (fmt_no_header s) (fmt_sep s) s);; general_options ulong_max args'
          else if Ascii.eqb c "H" then
            pset (λ s, set_format (fmt_column s) true (fmt_sep s) s);; general_options ulong_max args'
          else if Ascii.eqb c "S" then
            match args' with
            | [] => incomplete
            | v :: args'' =>
                let c := match v with String c _ => c | EmptyString => "000"%char end in
                pset (λ s, set_format (fmt_column s) (fmt_no_header s) c s);;
                general_options ulong_max args''
            end
          else if Ascii.eqb c "d" then
            match args' with
            | [] => incomplete
            | v :: args'' => number set_delay v;; general_options ulong_max args''
            end
          else if Ascii.eqb c "c" then
            match args' with
            | [] => incomplete
            | v :: args'' => number set_count v;; general_options ulong_max args''
            end
          else main_no_option (String "-" o);; exit 255
      end
  | _ => mret args
  end.

Definition main (ulong_max : Z) (argv : list string) : P (irda K) unit :=
  pset (λ s, set_text (out s) (err s) (errors s)
    (mkIrda (kern s) 0 1 false false 0 ":" false (timer s) (is_local s) (query s) (filename s) (files s)
      (out s) (err s) (errors s)));;
  match argv with
  | [] => main_help;; exit 255
  | _ =>
      args ← general_options ulong_max argv;
      match args with
      | [] => main_no_action;; exit 255
      | a :: args =>
          if starts_with "he" a then main_help;; exit 255
          else if starts_with "ia" a then irias_main ulong_max args
          else main_no_object a;; exit 255
      end
  end.

(** the program, and [n] signals of its timer *)
Fixpoint ticks (n : nat) : P (irda K) unit :=
  match n with
  | O => mret tt
  | S n => timeout;; ticks n
  end.
Definition irda_run (ulong_max : Z) (argv : list string) (n : nat) : P (irda K) unit :=
  main ulong_max argv;; ticks n.

(** ** Proofs *)

(** what can be reported: the type is one of the four, and what is printed is
    within its array *)
Definition printable (column : bool) (a : ias_attribute) : Prop :=
  match a with
  | IasMissing | IasInteger _ => True
  | IasOctSeq octets => Z.of_nat (length octets) ≤ IAS_MAX_OCTET_STRING
  | IasString _ charset _ => column = true ∨ 0 ≤ charset < 11
  | IasOther _ => False
  end.
Definition terminated (q : ias_query) (file : string) : Prop :=
  (String.length (irda_class_name q) < IAS_EXPORT_CLASSNAME)%nat ∧
  (String.length (irda_attrib_name q) < IAS_EXPORT_ATTRIBNAME)%nat ∧
  (String.length file < PATH_MAX)%nat.

(** only the files and the text change *)
Definition reported s s' : Prop :=
  ∃ f o e p, s' = set_files f (set_text o e p s).
Lemma reported_refl s : reported s s.
Proof. destruct s. by eexists _, _, _, _. Qed.
Lemma reported_trans s s1 s2 : reported s s1 → reported s1 s2 → reported s s2.
Proof. intros (? & ? & ? & ? & ->) (? & ? & ? & ? & ->). by eexists _, _, _, _. Qed.

Definition reports {A} (m : P (irda K) A) : Prop := ∀ s, ∃ a s', m s = Ok (inr a, s') ∧ reported s s'.
Lemma reports_printf t : reports (printf t).
Proof. intros s. do 2 eexists. split; [done|]. by eexists (files s), _, _, _. Qed.
Lemma reports_perror t : reports (perror t).
Proof. intros s. do 2 eexists. split; [done|]. by eexists (files s), _, _, _. Qed.
Lemma reports_ret {A} (a : A) : reports (mret a).
Proof. intros s. do 2 eexists. split; [done|]. apply reported_refl. Qed.
Lemma reports_bind {A B} (m : P (irda K) A) (k : A → P (irda K) B) :
  reports m → (∀ a, reports (k a)) → reports (m ≫= k).
Proof.
  intros Hm Hk s. destruct (Hm s) as (a & s1 & E & H1). destruct (Hk a s1) as (b & s2 & E2 & H2).
  exists b, s2. split; [by rewrite (p_bind_ok _ _ _ _ _ E)|]. by eapply reported_trans.
Qed.
Lemma reports_get {A} (f : irda K → A) : reports (pget f).
Proof. intros s. do 2 eexists. split; [done|]. apply reported_refl. Qed.
Lemma reports_when b m : reports m → reports (pwhen b m).
Proof. intros Hm. destruct b; [done|apply reports_ret]. Qed.

Ltac reports :=
  repeat match goal with
  | |- reports (_ ≫= _) => apply reports_bind; [|intros ?]
  | |- reports (if ?b then _ else _) => destruct b
  | _ => first [apply reports_printf | apply reports_perror | apply reports_ret | apply reports_get
               | apply reports_when]
  end.

Lemma reports_write_file name octets : reports (write_file name octets).
Proof.
  unfold write_file. destruct (can_open name); [|by reports].
  apply reports_bind; [apply reports_get|intros s0]. cbv zeta.
  apply reports_bind; [|intros ?; by reports].
  intros s. do 2 eexists. split; [done|]. destruct s. by eexists _, _, _, _.
Qed.

Lemma entry_reports q a s :
  terminated q (filename s) → printable (fmt_column s) a →
  ∃ s', irias_list_entry q a s = Ok (inr tt, s') ∧ reported s s'.
Proof.
  intros (Hc & Ha & Hf) Hp. unfold irias_list_entry. erewrite p_bind_ok by reflexivity.
  cbv zeta. unfold array_text. apply Nat.ltb_lt in Hc, Ha, Hf. rewrite Hc, Ha.
  do 2 (erewrite p_bind_ok by reflexivity). cbn [id]. rewrite Hf.
  set (column := fmt_column s) in *. set (name := filename s) in *.
  set (sep := char (fmt_sep s)). clearbody column name sep.
  assert (Hoct : ∀ l, Z.of_nat (length l) ≤ IAS_MAX_OCTET_STRING → reports (irias_show_octetseq l)).
  { intros l Hl. unfold irias_show_octetseq. rewrite decide_True by done. apply reports_printf. }
  match goal with |- ∃ s', ?m s = _ ∧ _ => enough (Hr : reports m) end.
  { destruct (Hr s) as ([] & s' & E & H1). eauto. }
  apply reports_bind; [apply reports_printf|intros _]. clear s.
  destruct a as [|n|octets|len charset t|]; cbn [printable] in Hp; [by reports|by reports| | |done].
  - specialize (Hoct _ Hp). reports; try done. apply reports_write_file.
  - destruct column; [by reports|]. destruct Hp as [Hp|Hp]; [done|].
    assert (is_Some (charset_names !! Z.to_nat charset)) as [name' ->].
    { apply lookup_lt_is_Some. change (length charset_names) with 11%nat. lia. }
    by reports.
Qed.

(** the state of the kernel after [n] queries *)
Definition asked (local : bool) (q : ias_query) (n : nat) (k : K) : K :=
  Nat.iter n (λ k, snd (get_attribute local q k)) k.

Definition answers_printable (column local : bool) (q : ias_query) : Prop :=
  ∀ k a, fst (get_attribute local q k) = Some a → printable column a.

Lemma get_exec_ok s :
  terminated (query s) (filename s) → answers_printable (fmt_column s) (is_local s) (query s) →
  ∃ s', irias_get_exec s = Ok (inr tt, s') ∧
    reported (set_kern (snd (get_attribute (is_local s) (query s) (kern s))) s) s'.
Proof.
  intros Ht Ha. specialize (Ha (kern s)). unfold irias_get_exec. erewrite p_bind_ok by reflexivity.
  cbn [id]. destruct (get_attribute _ _ _) as [r k]. cbn [fst snd] in *.
  erewrite p_bind_ok by reflexivity. destruct r as [a|].
  - apply entry_reports; [exact Ht|]. by apply Ha.
  - destruct (reports_perror PACKAGE_NAME (set_kern k s)) as ([] & s' & E & H1). eauto.
Qed.

(** the timer: one query for each signal as long as [count] lasts, then the end *)
Lemma ticks_ok n s :
  m_func s = true → count s = Z.of_nat n → Z.of_nat n < 4294967296 →
  terminated (query s) (filename s) → answers_printable (fmt_column s) (is_local s) (query s) →
  ∃ s', ticks (S n) s = Ok (inl 0, s') ∧ kern s' = asked (is_local s) (query s) n (kern s).
Proof.
  revert s. induction n as [|n IH]; intros s Hm Hc Hn Ht Ha.
  - exists s. split; [|done]. cbn [ticks]. apply p_bind_exit. unfold timeout.
    erewrite p_bind_ok by reflexivity. by rewrite Hc.
  - destruct (get_exec_ok s Ht Ha) as (s1 & E & (f & o & er & p & ->)).
    change (ticks (S (S n)) s) with ((timeout;; ticks (S n)) s).
    erewrite p_bind_ok.
    2: { unfold timeout. erewrite p_bind_ok by reflexivity.
         assert (truth (count s) = true) as -> by (rewrite Hc; apply negb_true_iff, Z.eqb_neq; lia).
         erewrite p_bind_ok by reflexivity. rewrite Hm. cbn [pwhen].
         erewrite p_bind_ok by exact E. reflexivity. }
    match goal with |- ∃ s', ticks _ ?s1 = _ ∧ _ => destruct (IH s1) as (s' & E' & Hk) end;
      try done.
    { cbn [set_count count set_files set_text set_kern]. rewrite Hc, u32_small by lia. lia. }
    { lia. }
    exists s'. split; [exact E'|]. rewrite Hk. cbn [set_count set_files set_text set_kern kern is_local query].
    unfold asked. by rewrite Nat.iter_succ_r.
Qed.

Lemma get_options_remote ulong_max addr class attrib s :
  2 ^ 32 - 1 ≤ ulong_max → 0 ≤ addr < 2 ^ 32 →
  (String.length class < IAS_EXPORT_CLASSNAME)%nat →
  (String.length attrib < IAS_EXPORT_ATTRIBNAME)%nat →
  get_options ulong_max ["remote"; "0x" +:+ fmt_x addr; "class"; class; "attrib"; attrib] false false s
  = Ok (inr (true, true), set_query false (mkQuery class attrib addr) (filename s) s).
Proof.
  intros Hmax Haddr Hc Ha. cbn [get_options].
  change (starts_with "lo" "remote") with false. change (starts_with "re" "remote") with true.
  cbv iota. erewrite p_bind_ok by reflexivity. erewrite p_bind_ok by reflexivity.
  rewrite strtoul16_hex by lia. cbn [fst snd]. change (bad_number ("0x" +:+ fmt_x addr) "") with false.
  cbv iota. change (starts_with "lo" "class") with false. change (starts_with "re" "class") with false.
  change (starts_with "cl" "class") with true. cbv iota. erewrite p_bind_ok by reflexivity.
  change (starts_with "lo" "attrib") with false. change (starts_with "re" "attrib") with false.
  change (starts_with "cl" "attrib") with false. change (starts_with "at" "attrib") with true.
  cbv iota. erewrite p_bind_ok by reflexivity. rewrite !str_take_all by lia.
  by rewrite u32_small by lia.
Qed.

(** C9: from the command line to the queries: [irda -c N ias get remote 0xADDR class C
    attrib A], with its timer, asks the device ADDR for the attribute A of C
    exactly N times, also when queries fail, and then exits with status 0, as long as each answer can be
    printed: a type that is known, an octet string of at most 1024 bytes, a string in one of the
    11 character sets of the table (another one makes the report read past the table).  ADDR and
    N are read back as they were printed; the names of the class and the attribute fit
    their fields. *)
Theorem irda_asks ulong_max n addr class attrib s :
  0 < Z.of_nat n < 2 ^ 31 → 2 ^ 32 - 1 ≤ ulong_max → 0 ≤ addr < 2 ^ 32 →
  (String.length class < IAS_EXPORT_CLASSNAME)%nat →
  (String.length attrib < IAS_EXPORT_ATTRIBNAME)%nat → has_irda = None →
  answers_printable false false (mkQuery class attrib addr) →
  ∃ s', irda_run ulong_max
      ["-c"; fmt_u (Z.of_nat n); "ias"; "get"; "remote"; "0x" +:+ fmt_x addr; "class"; class;
       "attrib"; attrib] (S n) s = Ok (inl 0, s') ∧
    kern s' = asked false (mkQuery class attrib addr) n (kern s).
Proof.
  intros Hn Hmax Haddr Hclass Hattrib Hirda Hp. unfold irda_run, main.
  rewrite p_bind_assoc. erewrite p_bind_ok by reflexivity. cbv beta iota.
  destruct (fmt_base_head 10 (Z.of_nat n)) as (d & t & Ed & _); [lia|lia|].
  assert (Hnum : bad_number (fmt_u (Z.of_nat n)) (snd (strtoul ulong_max (fmt_u (Z.of_nat n)))) = false).
  { rewrite strtoul_dec by lia. unfold fmt_u. by rewrite Ed. }
  assert (Hval : unsigned_abs ulong_max (fmt_u (Z.of_nat n)) = Z.of_nat n).
  { unfold unsigned_abs. rewrite strtoul_dec by lia. cbn [fst].
    rewrite s32_small, Z.abs_eq, u32_small by lia. done. }
  revert Hnum Hval. generalize (fmt_u (Z.of_nat n)). intros arg Hnum Hval.
  cbn [general_options Ascii.eqb Bool.eqb]. rewrite Hnum, Hval. cbn [pwhen].
  rewrite !p_bind_assoc. do 2 (erewrite p_bind_ok by reflexivity). cbv beta.
  erewrite p_bind_ok by reflexivity. cbv beta iota.
  change (starts_with "he" "ias") with false. change (starts_with "ia" "ias") with true.
  cbv iota. unfold irias_main. cbv beta iota.
  change (starts_with "he" "get") with false. change (starts_with "ge" "get") with true.
  cbv iota. unfold irias_get. rewrite !p_bind_assoc. erewrite p_bind_ok by reflexivity.
  rewrite p_bind_assoc. erewrite p_bind_ok by reflexivity.
  rewrite p_bind_assoc. erewrite p_bind_ok by (by apply get_options_remote). cbv beta iota.
  cbn [negb]. rewrite Hirda. rewrite p_bind_assoc. erewrite p_bind_ok by reflexivity.
  cbv zeta. cbn [id]. rewrite p_bind_assoc. erewrite p_bind_ok by reflexivity.
  match goal with |- context [truth ?c] => change c with (Z.of_nat n) end.
  assert (truth (Z.of_nat n) = true) as -> by (apply negb_true_iff, Z.eqb_neq; lia).
  erewrite p_bind_ok by reflexivity.
  match goal with |- ∃ s', ticks _ ?s1 = _ ∧ _ =>
    destruct (ticks_ok n s1) as (s' & E & Hk); try done; [lia| |by exists s'] end.
  split; [done|]. split; [done|]. unfold PATH_MAX. simpl. lia.
Qed.

(** a string in a character set that the table does not have makes the report read
    past the table; 0xff, which stands for Unicode, is one of these, though the
    table ends with the name of Unicode.  The column format never looks there. *)
Theorem irias_charset_overflow q len charset t s :
  terminated q (filename s) → 11 ≤ charset →
  (fmt_column s = false → irias_list_entry q (IasString len charset t) s = Stop OobRead) ∧
  (fmt_column s = true → ∃ s', irias_list_entry q (IasString len charset t) s = Ok (inr tt, s') ∧
     out s' = out s +:+ irda_class_name q +:+ char (fmt_sep s) +:+ irda_attrib_name q
       +:+ char (fmt_sep s) +:+ "string" +:+ char (fmt_sep s) +:+ t +:+ nl).
Proof.
  intros (Hc & Ha & Hf) Hch. apply Nat.ltb_lt in Hc, Ha.
  assert (Hn : charset_names !! Z.to_nat charset = None).
  { apply lookup_ge_None. change (length charset_names) with 11%nat. lia. }
  unfold irias_list_entry, array_text. rewrite Hc, Ha. split; intros Hcol.
  - do 3 (erewrite p_bind_ok by reflexivity). cbn [id]. rewrite Hcol.
    erewrite p_bind_ok by reflexivity. by rewrite Hn.
  - do 3 (erewrite p_bind_ok by reflexivity). cbn [id]. rewrite Hcol.
    erewrite p_bind_ok by reflexivity. eexists. split; [reflexivity|].
    cbn [set_text out]. by rewrite !str_app_assoc.
Qed.

(** an octet sequence saved with [filename]: the file holds it from its start, and
    what a longer file held after it is still there, since the file is opened
    without O_TRUNC. *)
Theorem irias_saves_octets q octets s :
  terminated q (filename s) → filename s ≠ "" → can_open (filename s) = true →
  takes octets = length octets →
  ∃ s', irias_list_entry q (IasOctSeq octets) s = Ok (inr tt, s') ∧ errors s' = errors s ∧
    files s' = <[filename s := octets ++ drop (length octets) (default [] (files s !! filename s))]>
      (files s).
Proof.
  intros (Hc & Ha & Hf) Hne Hopen Htakes. apply Nat.ltb_lt in Hc, Ha, Hf.
  apply String.eqb_neq in Hne. unfold irias_list_entry, array_text. rewrite Hc, Ha.
  do 3 (erewrite p_bind_ok by reflexivity). cbn [id]. rewrite Hf.
  do 3 (erewrite p_bind_ok by reflexivity). rewrite Hne. cbn [negb]. unfold write_file.
  rewrite Hopen, Htakes, firstn_all, Nat.eqb_refl. cbn [negb pwhen].
  erewrite p_bind_ok by (do 3 (erewrite p_bind_ok by reflexivity); reflexivity).
  cbn [pwhen]. eexists. split; [reflexivity|]. done.
Qed.
End irda.

(** ** Witnesses *)

(** a device with one attribute, and the count of the queries *)
#[local] Instance one_device : Ias nat :=
  {| has_irda := None;
     get_attribute local q n :=
       (if String.eqb (irda_attrib_name q) "DeviceName" then Some (IasString 4 0 "test") else None, S n);
     can_open _ := true; takes := length (A:=Z); has_irias := true |}.
Definition irda_start : irda nat :=
  mkIrda 0%nat 0 1 false false 0 ":" false None true (mkQuery "" "" 0) "" ∅ "" "" [].

Example irda_examples :
  match irda_run 0xffffffff ["-C"; "-S"; ","; "ias"; "ge"; "cl"; "Device"; "at"; "DeviceName"] 0 irda_start with
  | Ok (r, s) => r = inl 0 ∧ out s =
      "class,attribute,type,value" +:+ nl +:+ "Device,DeviceName,string,test" +:+ nl
  | Stop _ => False
  end ∧
  irda_run 0xffffffff ["ias"; "ls"] 0 irda_start = Stop OobWrite.
Proof. by vm_compute. Qed.

Lemma irda_asks_witness :
  ∃ s', irda_run 0xffffffff
      ["-c"; fmt_u 3; "ias"; "get"; "remote"; "0x" +:+ fmt_x 0xabcd; "class"; "Device"; "attrib";
       "DeviceName"] 4 irda_start = Ok (inl 0, s') ∧
    kern s' = asked false (mkQuery "Device" "DeviceName" 0xabcd) 3 0%nat.
Proof.
  apply (irda_asks 0xffffffff 3 0xabcd "Device" "DeviceName" irda_start); try done.
  - unfold IAS_EXPORT_CLASSNAME. simpl. lia.
  - unfold IAS_EXPORT_ATTRIBNAME. simpl. lia.
  - intros k a [= <-]. right. lia.
Defined.

Lemma irias_charset_overflow_witness :
  (fmt_column irda_start = false →
   irias_list_entry (mkQuery "Device" "DeviceName" 0) (IasString 4 0xff "test") irda_start = Stop OobRead) ∧
  (fmt_column irda_start = true →
   ∃ s', irias_list_entry (mkQuery "Device" "DeviceName" 0) (IasString 4 0xff "test") irda_start
       = Ok (inr tt, s') ∧
     out s' = "" +:+ "Device" +:+ char ":" +:+ "DeviceName" +:+ char ":" +:+ "string" +:+ char ":"
       +:+ "test" +:+ nl).
Proof.
  apply (irias_charset_overflow (mkQuery "Device" "DeviceName" 0) 4 0xff "test" irda_start); [|lia].
  unfold terminated, IAS_EXPORT_CLASSNAME, IAS_EXPORT_ATTRIBNAME, PATH_MAX. simpl. lia.
Defined.

Lemma irias_saves_octets_witness :
  let s := set_query true (mkQuery "Device" "Icon" 0) "icon" (set_files {["icon" := [9; 9; 9; 9]]} irda_start) in
  ∃ s', irias_list_entry (mkQuery "Device" "Icon" 0) (IasOctSeq [1; 2]) s = Ok (inr tt, s') ∧
    errors s' = errors s ∧
    files s' = <["icon" := [1; 2] ++ drop 2 (default [] (files s !! "icon"))]> (files s).
Proof.
  intros s. apply (irias_saves_octets (mkQuery "Device" "Icon" 0) [1; 2] s); try done.
  unfold terminated, IAS_EXPORT_CLASSNAME, IAS_EXPORT_ATTRIBNAME, PATH_MAX. simpl. lia.
Defined.
