(* ===== verification/Psion.v ===== *)
(** * File transfer with a Psion 5 (psion/irpsion5.c)

    The choice of the device, sending a file, receiving one, the command line.  The
    socket is a stream: a [read] gives what has arrived, up to the size asked for.
    The messages of [DEBUG] are not modelled.  [long] has 64 bits. *)
From Stdlib Require Import String Ascii.
From S2P Require Import Prelude CInt Printf CFloat NetBuf CLib Proc.
Local Open Scope string_scope.
Local Open Scope list_scope.
Local Open Scope Z_scope.

Definition MAX_DEVICES := 10.
(** <asm/errno.h> *)
Definition EPERM := 1.
Definition EAGAIN := 11.
Definition EINVAL := 22.
Definition ENETUNREACH := 101.
(** [sizeof(struct irda_device_list)] with one device, and of a device *)
Definition device_info_size := 36.
Definition device_list_size := 4 + device_info_size.
(** [buflen] *)
Definition buflen : Z := 2044.
Definition service_name : string := "Epoc32:EikonIr:v1.0".
Definition date_offset := 62168263200000000.

Record device := mkDevice { dev_daddr : Z; dev_info : string }.

(** [getsockopt(IRLMP_ENUMDEVICES)]: the new [len], [list->len] and the devices that
    were stored *)
Inductive enum_result :=
  | Found (len count : Z) (devs : list device)
  | EnumFailed (errno : Z).

(** what a [read] finds; no data is the end of the stream *)
Inductive arrival :=
  | Data (bs : list Z)
  | ReadFailed (errno : Z).

Record file := mkFile { content : list Z; st_size : Z; st_mtime : Z; writable : bool }.

(** The system: errors are given by their numbers.  [enumerate] is given the
    capacity of the buffer and the number of the attempt, [sent_part] is how much
    of the data [write] takes. *)
Class Net := {
  open_socket : option Z;
  enumerate : Z → Z → enum_result;
  connect_to : Z → string → option Z;
  max_sdu : option Z;
  sent_part : list Z → option nat;
  can_create : string → bool;
  slot_file : bool;                     (* whether slot_timeout can be written *)
  bind_and_listen : bool * bool;
  stores : list Z → bool;               (* whether [fwrite] of these bytes succeeds *)
  fclose_ok : string → bool;
  utime_ok : string → bool;
  now : Z;
  time_at : Z → Z;                      (* what [time] gives, call by call *)
  fresh : list Z }.                     (* what [malloc(buflen)] finds in the memory *)

Record psion := mkPsion {
  debug_level : Z;
  verbose : bool;
  slot_timeout : Z;
  slot_written : option string;
  files : gmap string file;
  buf : list Z;
  arriving : list arrival;
  clients : list (list arrival);        (* the connections to come *)
  sent : list (list Z);                 (* each [write] *)
  out : string;
  err : string;
  errors : list string;
  ticks : Z }.                          (* how often the time was asked for *)

Definition set_options d v t s := mkPsion d v t (slot_written s) (files s) (buf s) (arriving s)
  (clients s) (sent s) (out s) (err s) (errors s) (ticks s).
Definition set_slot w s := mkPsion (debug_level s) (verbose s) (slot_timeout s) w (files s) (buf s)
  (arriving s) (clients s) (sent s) (out s) (err s) (errors s) (ticks s).
Definition set_files f s := mkPsion (debug_level s) (verbose s) (slot_timeout s) (slot_written s) f
  (buf s) (arriving s) (clients s) (sent s) (out s) (err s) (errors s) (ticks s).
Definition set_buf b s := mkPsion (debug_level s) (verbose s) (slot_timeout s) (slot_written s)
  (files s) b (arriving s) (clients s) (sent s) (out s) (err s) (errors s) (ticks s).
Definition set_arriving a c s := mkPsion (debug_level s) (verbose s) (slot_timeout s) (slot_written s)
  (files s) (buf s) a c (sent s) (out s) (err s) (errors s) (ticks s).
Definition set_sent w s := mkPsion (debug_level s) (verbose s) (slot_timeout s) (slot_written s)
  (files s) (buf s) (arriving s) (clients s) w (out s) (err s) (errors s) (ticks s).
Definition set_text o e p s := mkPsion (debug_level s) (verbose s) (slot_timeout s) (slot_written s)
  (files s) (buf s) (arriving s) (clients s) (sent s) o e p (ticks s).
Definition set_ticks n s := mkPsion (debug_level s) (verbose s) (slot_timeout s) (slot_written s)
  (files s) (buf s) (arriving s) (clients s) (sent s) (out s) (err s) (errors s) n.

Definition printf t : P psion unit := pset (λ s, set_text (out s +:+ t) (err s) (errors s) s).
Definition eprintf t : P psion unit := pset (λ s, set_text (out s) (err s +:+ t) (errors s) s).
Definition perror t : P psion unit := pset (λ s, set_text (out s) (err s) (errors s ++ [t]) s).
Definition fail {A} (t : string) (code : Z) : P psion A := perror t;; exit code.

(** a string in [buf] *)
Definition buf_string : P psion string :=
  b ← pget buf;
  match cstr b with
  | Some l => mret (str_of_bytes l)
  | None => stopped OobRead
  end.
(** bytes stored at the start of [buf] *)
Definition fill_buf (bs : list Z) : P psion unit :=
  if decide (Z.of_nat (length bs) ≤ buflen) then pset (λ s, set_buf (bs ++ drop (length bs) (buf s)) s)
  else stopped OobWrite.

Lemma substring_all s : String.substring 0 (String.length s) s = s.
Proof. induction s as [|c s IH]; cbn; [done|by rewrite IH]. Qed.

Section psion.
Context `{Net}.

(** [read(fd, buf, n)]: the number of bytes, or the error *)
Definition read (n : Z) : P psion (Z + Z) :=
  s ← pget id;
  match arriving s with
  | [] => mret (inl 0)
  | ReadFailed e :: a => pset (set_arriving a (clients s));; mret (inr e)
  | Data bs :: a =>
      let k := Z.to_nat n in
      pset (set_arriving (if (length bs <=? k)%nat then a else Data (drop k bs) :: a) (clients s));;
      fill_buf (take k bs);;
      mret (inl (Z.of_nat (length (take k bs))))
  end.

(** [write(fd, bs, n)] *)
Definition write (bs : list Z) : P psion Z :=
  match sent_part bs with
  | None => mret (-1)
  | Some k => pset (λ s, set_sent (sent s ++ [take k bs]) s);; mret (Z.of_nat (length (take k bs)))
  end.

(** ** Discovery *)
Definition set_slot_timeout (ms : Z) : P psion unit :=
  if slot_file then pset (set_slot (Some (fmt_d ms +:+ nl)))
  else perror "/proc/sys/net/irda/slot_timeout".

(** the five attempts: [len] is what the previous one left; the result is [len] and
    what is in the buffer *)
Fixpoint discovery_loop (attempts : nat) (i len : Z) (list_ : option (Z * list device))
    : P psion (Z * option (Z * list device)) :=
  match attempts with
  | O => mret (len, list_)
  | S attempts =>
      match enumerate len i with
      | Found len count devs =>
          if (i =? 0) && (len =? 4) then discovery_loop attempts (i + 1) len (Some (count, devs))
          else mret (len, Some (count, devs))
      | EnumFailed e =>
          if e =? EAGAIN then discovery_loop attempts (i + 1) len list_
          else fail "getsockopt" (-1)
      end
  end.

(** the first device whose name starts with [p] *)
Fixpoint first_named (p : string) (devs : list device) : option device :=
  match devs with
  | [] => None
  | d :: devs => if starts_with p (dev_info d) then Some d else first_named p devs
  end.

Definition select_device (devs : list device) : option device :=
  match first_named "Symbian EPOC" devs with
  | Some d => Some d
  | None =>
      match first_named "Psion Series 5" devs with
      | Some d => Some d
      | None => head devs
      end
  end.

Definition discover_devices : P psion Z :=
  t ← pget slot_timeout;
  pwhen (0 <? t) (set_slot_timeout t);;
  '(len, l) ← discovery_loop 5 0 (device_list_size + device_info_size * (MAX_DEVICES - 1)) None;
  if len <? 4 then eprintf ("Unexpected len value: " +:+ fmt_d len +:+ nl);; exit 1
  else
    match l with
    | None => stopped OobRead           (* nothing was stored in the buffer *)
    | Some (count, devs) =>
        if count <=? 0 then mret 0
        else if Z.of_nat (length devs) <? count then stopped OobRead
        else
          match select_device (take (Z.to_nat count) devs) with
          | Some d =>
              v ← pget verbose;
              pwhen v (printf ("Sending to " +:+ dev_info d +:+ nl));;
              mret (dev_daddr d)
          | None => stopped OobRead
          end
    end.

Definition irttp_get_mtu : P psion Z :=
  match max_sdu with
  | None => perror "getsockopt IRTTP_MAX_SDU_SIZE";; mret (-1)
  | Some mtu => mret mtu
  end.

Definition check_mtu : P psion unit :=
  mtu ← irttp_get_mtu;
  pwhen (negb (mtu =? 2045) && negb (mtu =? 2044))
    (eprintf ("Expecting mtu to be 2045, investigate!" +:+ nl));;
  pset (set_buf fresh).

(** ** Sending *)

(** the time since the start of year 0, in microseconds *)
Definition psion_date (mtime : Z) : Z := (date_offset + 1000000 * u32 mtime) mod 2 ^ 64.

Definition send_header (name : string) (f : file) : string :=
  let date := psion_date (st_mtime f) in
  "FILE " +:+ fmt_d (s32 (st_size f)) +:+ " " +:+ fmt_d (if writable f then 32 else 33) +:+ " "
  +:+ fmt_u (date / 2 ^ 32) +:+ " " +:+ fmt_u (u32 date) +:+ " " +:+ name.

(** [time(NULL)], assigned to an [int] *)
Definition tick : P psion Z :=
  n ← pget ticks;
  pset (set_ticks (n + 1));;
  mret (s32 (time_at n)).

Definition cr : string := String "013" "".
Fixpoint spaces (n : nat) : string :=
  match n with
  | O => ""
  | S n => String " " (spaces n)
  end.
(** [%4.1f] *)
Definition fmt_4_1f (x : SpecFloat.spec_float) : string :=
  let t := fmt_f 1 x in
  if (String.length t <? 4)%nat then String " " t else t.
(** [cnt / 1000.0 / seconds] *)
Definition speed (cnt seconds : Z) : SpecFloat.spec_float :=
  double_div (double_div (double_of_Z cnt) (double_of_Z 1000)) (double_of_Z seconds).
(** [100.0 * cnt / size] *)
Definition percent (cnt size : Z) : SpecFloat.spec_float :=
  double_div (double_mul (double_of_Z 100) (double_of_Z cnt)) (double_of_Z size).

(** is it time for a progress line? *)
Definition too_soon (cnt t0 tx t : Z) : bool := (s32 (t - t0) =? 0) || (cnt =? 0) || (tx =? t).

(** the progress line, at most one for each second: the new [tx] *)
Definition send_progress (size cnt t0 tx : Z) : P psion Z :=
  v ← pget verbose;
  if negb v then mret tx
  else
    t ← tick;
    if too_soon cnt t0 tx t then mret tx
    else
      let dt := s32 (t - t0) in
      printf ("sent " +:+ fmt_d cnt +:+ "/" +:+ fmt_u size +:+ " bytes=" +:+ fmt_4_1f (percent cnt size)
        +:+ "% in " +:+ fmt_d dt +:+ " sec, " +:+ fmt_g (speed cnt dt) +:+ " Kbytes/s, to go "
        +:+ fmt_d (Z.quot ((size - cnt) * dt) cnt) +:+ " sec  " +:+ cr);;
      mret t.

(** the last line of the verbose mode *)
Definition summary (verb name : string) (cnt t0 t : Z) : P psion unit :=
  let t := if t =? t0 then s32 (t + 1) else t in
  let dt := s32 (t - t0) in
  printf (cr +:+ spaces 79 +:+ cr);;
  printf (verb +:+ " " +:+ name +:+ ", " +:+ fmt_d cnt +:+ " bytes in " +:+ fmt_d dt +:+ " sec. "
    +:+ fmt_g (speed cnt dt) +:+ " KBytes/sec" +:+ nl).

(** [while (!ferror(f) && !feof(f))]: [fread] of up to [buflen] bytes and [write] *)
Fixpoint send_data (fuel : nat) (rest : list Z) (size cnt t0 tx : Z) : P psion Z :=
  match fuel with
  | O => stopped OutOfFuel
  | S fuel =>
      let chunk := take (Z.to_nat buflen) rest in
      let rest := drop (Z.to_nat buflen) rest in
      let eof := (length chunk <? Z.to_nat buflen)%nat in
      match chunk with
      | [] => mret cnt
      | _ =>
          fill_buf chunk;;
          wrc ← write chunk;
          if wrc <? 0 then fail "write" 1
          else if wrc <? Z.of_nat (length chunk) then
            eprintf ("Problem: only sent " +:+ fmt_d wrc +:+ " of " +:+ fmt_d (Z.of_nat (length chunk))
              +:+ nl);;
            exit 1
          else
            let cnt := s32 (cnt + Z.of_nat (length chunk)) in
            tx ← send_progress size cnt t0 tx;
            if eof then mret cnt else send_data fuel rest size cnt t0 tx
      end
  end.

Definition read_ack : P psion unit :=
  rc ← read (buflen - 1);
  match rc with
  | inr _ => fail "reply error" 1
  | inl rc =>
      if rc =? 0 then eprintf ("EOF on reply?" +:+ nl);; exit 1
      else
        pset (λ s, set_buf (splice rc [0] (buf s)) s);;
        reply ← buf_string;
        if String.eqb reply "ACK N" then eprintf ("Psion refused the file, disk full?" +:+ nl);; exit 1
        else if negb (String.eqb reply "ACK Y") then
          eprintf ("Unexpected response: " +:+ reply +:+ nl);; exit 1
        else mret tt
  end.

(** the close of the other side *)
Definition read_close : P psion unit :=
  rc ← read buflen;
  match rc with
  | inl rc =>
      if 0 <? rc then
        eprintf ("Strange: the other side responded." +:+ nl);;
        t ← buf_string;
        eprintf ("rc=" +:+ fmt_d rc +:+ ", data:" +:+ t +:+ nl);;
        exit 1
      else eprintf ("Received end of file." +:+ nl)
  | inr e => if e =? EPERM then mret tt else fail "last read" 1
  end.

Definition sendfile (name : string) : P psion unit :=
  match open_socket with
  | Some e =>
      perror "socket";;
      pwhen (e =? EINVAL) (eprintf ("Is IrDA active?, perhaps run irmanager" +:+ nl));;
      exit (-1)
  | None =>
      daddr ← discover_devices;
      if daddr =? 0 then eprintf ("No IRDA device found" +:+ nl);; exit 1
      else
        match connect_to daddr service_name with
        | Some e =>
            perror "connect";;
            pwhen (e =? ENETUNREACH) (eprintf ("No Psion5 or IR-receive is not selected" +:+ nl));;
            exit (-1)
        | None =>
            check_mtu;;
            s ← pget id;
            match files s !! name with
            | None => fail name 1
            | Some f =>
                let header := bytes_of_str (send_header name f) in
                fill_buf (header ++ [0]);;
                rc ← write header;
                if negb (rc =? Z.of_nat (length header)) then
                  perror "write";;
                  eprintf ("rc = " +:+ fmt_d rc +:+ ", strlen=" +:+ fmt_d (Z.of_nat (length header)) +:+ nl);;
                  exit 1
                else
                  read_ack;;
                  t0 ← tick;
                  cnt ← send_data (S (length (content f))) (content f) (st_size f) 0 t0 t0;
                  pwhen (negb (cnt =? st_size f))
                    (printf ("Warning: file size changed: initial: " +:+ fmt_u (st_size f)
                       +:+ ", actual: " +:+ fmt_d cnt +:+ nl));;
                  read_close;;
                  v ← pget verbose;
                  pwhen v (t ← tick; summary "Sent" name cnt t0 t)
            end
        end
  end.

(** ** Receiving *)
Variable ulong_max : Z.

#[local] Abbreviation scan_u := (CLib.scan_u ulong_max).
#[local] Abbreviation scan_d := (CLib.scan_d ulong_max).
#[local] Abbreviation atoi := (CLib.atoi ulong_max).

Record header := mkHeader {
  fsize : Z;
  fmode : Z;
  fdate1 : Z;
  fdate2 : Z;
  fname : string }.

(** what [sscanf] returns where the first number is missing *)
Definition no_number (s : string) : Z := if String.eqb (skip_space s) "" then -1 else 0.

(** [sscanf(buf, FILE %u %u %u %u %n)] and [buf+cnt], or what [sscanf] returns with less;
    the string starts with FILE and a space *)
Definition scan_header (s : string) : Z + header :=
  let s := skip_space (String.substring 4 (String.length s - 4) s) in
  match scan_u s with
  | None => inl (no_number s)
  | Some (size, s) =>
      match scan_u s with
      | None => inl 1
      | Some (mode, s) =>
          match scan_u s with
          | None => inl 2
          | Some (date1, s) =>
              match scan_u s with
              | None => inl 3
              | Some (date2, s) => inr (mkHeader size mode date1 date2 (skip_space s))
              end
          end
      end
  end.

(** [( fdatell - 62168263200000000ULL) / 1000000], as an [unsigned int] *)
Definition unix_date (h : header) : Z :=
  let fdatell := (fdate1 h * 2 ^ 32 + fdate2 h) mod 2 ^ 64 in
  u32 (((fdatell - date_offset) mod 2 ^ 64) / 1000000).

(** [fopen(name, wb)] and [fwrite] *)
Definition create (name : string) : P psion unit :=
  if can_create name
  then pset (λ s, set_files (<[name := mkFile [] 0 now (match files s !! name with
    | Some f => writable f | None => true end)]> (files s)) s)
  else fail name 1.
Definition append (name : string) (bs : list Z) : P psion unit :=
  pset (λ s, set_files (match files s !! name with
    | Some f => <[name := mkFile (content f ++ bs) (st_size f + Z.of_nat (length bs)) (st_mtime f)
        (writable f)]> (files s)
    | None => files s end) s).

(** the progress line: the new [tx] and [t].  The time to go is computed in
    [unsigned int] *)
Definition receive_progress (size cnt t0 tx t : Z) : P psion (Z * Z) :=
  v ← pget verbose;
  if negb v then mret (tx, t)
  else
    t ← tick;
    if too_soon cnt t0 tx t then mret (tx, t)
    else
      let dt := s32 (t - t0) in
      printf ("got " +:+ fmt_d cnt +:+ "/" +:+ fmt_u size +:+ " bytes=" +:+ fmt_g (percent cnt size)
        +:+ "% in " +:+ fmt_d dt +:+ " sec, " +:+ fmt_g (speed cnt dt) +:+ " Kbytes/s, to go "
        +:+ fmt_d (s32 (u32 (u32 (size - cnt) * dt) / u32 cnt)) +:+ " sec  " +:+ cr);;
      mret (t, t).

(** [while (cnt < fsize)]: [cnt], and the last [t] *)
Fixpoint receive_data (fuel : nat) (name : string) (size cnt t0 tx t : Z) : P psion (Z * Z) :=
  if negb (u32 cnt <? size) then mret (cnt, t)
  else
    match fuel with
    | O => stopped OutOfFuel
    | S fuel =>
        rc ← read buflen;
        match rc with
        | inr _ => fail "data read" 1
        | inl rc =>
            if rc =? 0 then fail "data read 0" 1
            else
              b ← pget buf;
              let data := take (Z.to_nat rc) b in
              if stores data then
                append name data;;
                let cnt := s32 (cnt + rc) in
                p ← receive_progress size cnt t0 tx t;
                receive_data fuel name size cnt t0 p.1 p.2
              else fail "fwrite" 1
        end
    end.

(** the reads that the stream can give: each takes a byte or an element of it *)
Definition arrival_size (a : arrival) : nat :=
  match a with Data bs => S (length bs) | ReadFailed _ => 1%nat end.
Definition stream_size (l : list arrival) : nat := sum_list (arrival_size <$> l).

(** [abort], by [assert] *)
Definition abort {A} : P psion A := exit 134.

(** what the line at the start asks for: a name, a size, a date *)
Definition parse_request (line : string) : P psion (string * Z * Z) :=
  if starts_with "FILE " line then
    match scan_header line with
    | inl rc => eprintf ("sscanf " +:+ dq +:+ line +:+ dq +:+ " rc=" +:+ fmt_d rc +:+ nl);; exit 1
    | inr h => mret (fname h, fsize h, unix_date h)
    end
  else if starts_with "DATA " line then
    let arg := String.substring 4 (String.length line - 4) line in
    match scan_d arg with
    | None => eprintf ("sscanf rc=" +:+ fmt_d (no_number arg) +:+ nl);; exit 1
    | Some (size, _) => mret ("/tmp/psion5-data", size, 0)
    end
  else eprintf ("Unknown data type: " +:+ line +:+ nl);; exit 1.

(** [utime]; a date of 0 is no date *)
Definition set_date (name : string) (date : Z) : P psion unit :=
  pwhen (truth date)
    (if utime_ok name then
       pset (λ s, set_files (match files s !! name with
         | Some f => <[name := mkFile (content f) (st_size f) date (writable f)]> (files s)
         | None => files s end) s)
     else perror name).

(** what follows the data *)
Definition finish_file (name : string) (size date cnt t0 t : Z) : P psion unit :=
  pwhen (negb (u32 cnt =? size))
    (printf ("Warning: file size changed: initial: " +:+ fmt_u size +:+ ", actual: "
       +:+ fmt_d cnt +:+ nl));;
  v ← pget verbose;
  pwhen v (summary "Received" name cnt t0 t);;
  if fclose_ok name then set_date name date else fail "fclose" 1.

Definition handle_client : P psion unit :=
  check_mtu;;
  rc ← read buflen;
  match rc with
  | inr _ => fail "1st read" 1
  | inl rc =>
      if rc =? 0 then fail "1st read 0" 1
      else if negb (rc <? buflen) then abort
      else
        pset (λ s, set_buf (splice rc [0] (buf s)) s);;
        line ← buf_string;
        '(name, size, date) ← parse_request line;
        create name;;
        rc ← write (bytes_of_str "ACK Y");
        if negb (rc =? 5) then
          perror "1st write";; eprintf ("1st write rc = " +:+ fmt_d rc +:+ nl);; exit 1
        else
          s ← pget id;
          t0 ← tick;
          c ← receive_data (S (stream_size (arriving s))) name size 0 t0 t0 t0;
          finish_file name size date c.1 t0 c.2
  end.

(** [accept] gives the next connection, and fails after the last one *)
Fixpoint accept_loop (cs : list (list arrival)) (mode : Z) : P psion unit :=
  match cs with
  | [] => perror "accept"
  | c :: cs =>
      pset (set_arriving c cs);;
      handle_client;;
      if mode =? 1 then mret tt else accept_loop cs mode
  end.

Definition receivefile (mode : Z) : P psion unit :=
  match open_socket with
  | Some _ => fail "socket" (-1)
  | None =>
      if negb (fst bind_and_listen) then perror "bind"
      else if negb (snd bind_and_listen) then perror "listen"
      else s ← pget id; accept_loop (clients s) mode
  end.

(** ** The command line *)
Fixpoint send_all (names : list string) : P psion unit :=
  match names with
  | [] => mret tt
  | n :: names => sendfile n;; send_all names
  end.
(** up to the next switch *)
Fixpoint send_names (args : list string) : P psion (list string) :=
  match args with
  | [] => mret []
  | a :: rest => if starts_with "-" a then mret args else sendfile a;; send_names rest
  end.

Fixpoint switches (fuel : nat) (args : list string) : P psion unit :=
  match args, fuel with
  | [], _ => mret tt
  | _, O => stopped OutOfFuel
  | a :: args, S fuel =>
      if String.eqb a "-s" then
        match args with
        | b :: rest =>
            if String.eqb b "--" then
              (* argv++; argv++; for ( ; argv[1] ; argv++) sendfile(argv[1]) *)
              match rest with
              | [] => stopped OobRead
              | _ :: names => send_all names
              end
            else rest ← send_names args; switches fuel rest
        | [] => switches fuel []
        end
      else if String.eqb a "-D" || String.eqb a "-S" then
        match args with
        | [] => stopped NullDeref
        | v :: rest =>
            pset (λ s, if String.eqb a "-D" then set_options (atoi v) (verbose s) (slot_timeout s) s
                       else set_options (debug_level s) (verbose s) (atoi v) s);;
            switches fuel rest
        end
      else if String.eqb a "-r" then receivefile 1;; switches fuel args
      else if String.eqb a "-b" then receivefile 0;; switches fuel args
      else if String.eqb a "-v" then
        pset (λ s, set_options (debug_level s) true (slot_timeout s) s);; switches fuel args
      else if String.eqb a "-q" then
        pset (λ s, set_options (debug_level s) false (slot_timeout s) s);; switches fuel args
      else
        eprintf ("Error: unknown switch " +:+ a +:+ nl);;
        eprintf ("Call without args for usage: irpsion5" +:+ nl);;
        exit 1
  end.

Definition usage : P psion unit :=
  eprintf ("Usage: irpsion5 [-S ms] [-D n] [-v] [-q] [-s file] [-r] [-b]" +:+ nl
    +:+ tab +:+ "-s file" +:+ tab +:+ "Send file to the Psion" +:+ nl
    +:+ tab +:+ "-r" +:+ tab +:+ "Receive a file from the Psion" +:+ nl
    +:+ tab +:+ "-b" +:+ tab +:+ "Receive multiple files (batch mode)" +:+ nl
    +:+ tab +:+ "-v" +:+ tab +:+ "Verbose mode, progress indication" +:+ nl
    +:+ tab +:+ "-q" +:+ tab +:+ "quiet mode, no progress indication" +:+ nl
    +:+ tab +:+ "-S ms" +:+ tab +:+ "Set discovery slot timeout, standard 80ms, default 120ms" +:+ nl
    +:+ tab +:+ "-D n" +:+ tab +:+ "Debug level" +:+ nl);;
  exit 1.

(** [argv], after the name of the program, here irpsion5 *)
Definition main (argv : list string) : P psion unit :=
  match argv with
  | [] => usage
  | _ => switches (length argv) argv
  end.

End psion.

(** ** Proofs *)

(** *** Code that only shows something *)
Section shows.
Context `{Net}.

(** what is read and written, and what is only shown *)
Definition same_data (s s' : psion) : Prop :=
  files s' = files s ∧ arriving s' = arriving s ∧ clients s' = clients s ∧ sent s' = sent s ∧
  buf s' = buf s.

Lemma same_data_trans s1 s2 s3 : same_data s1 s2 → same_data s2 s3 → same_data s1 s3.
Proof. unfold same_data. intuition congruence. Qed.

(** code that returns and only shows something *)
Definition shows {A} (m : P psion A) : Prop := ∀ s, ∃ a s', m s = Ok (inr a, s') ∧ same_data s s'.

Lemma shows_ret {A} (a : A) : shows (mret a).
Proof. intros s. by exists a, s. Qed.
Lemma shows_get {A} (f : psion → A) : shows (pget f).
Proof. intros s. by exists (f s), s. Qed.
Lemma shows_set f : (∀ s, same_data s (f s)) → shows (pset f).
Proof. intros Hf s. by exists tt, (f s). Qed.
Lemma shows_bind {A B} (m : P psion A) (k : A → P psion B) :
  shows m → (∀ a, shows (k a)) → shows (m ≫= k).
Proof.
  intros Hm Hk s. destruct (Hm s) as (a & s1 & E1 & H1). destruct (Hk a s1) as (b & s2 & E2 & H2).
  exists b, s2. split; [by rewrite (p_bind_ok _ _ _ _ _ E1)|by eapply same_data_trans].
Qed.
Lemma shows_when b (m : P psion unit) : shows m → shows (pwhen b m).
Proof. intros Hm. by destruct b; [|apply shows_ret]. Qed.

Ltac shows :=
  repeat match goal with
  | |- ∀ _, shows _ => intro
  | |- shows (_ ≫= _) => apply shows_bind
  | |- shows (pwhen _ _) => apply shows_when
  | |- shows (match ?x with _ => _ end) => destruct x
  | |- shows (mret _) => apply shows_ret
  | |- shows (pget _) => apply shows_get
  | |- shows (printf _) => by apply shows_set
  | |- shows (eprintf _) => by apply shows_set
  | |- shows (perror _) => by apply shows_set
  | |- shows (pset _) => by apply shows_set
  end.

Lemma tick_shows : shows tick.
Proof. unfold tick. shows. Qed.
Lemma send_progress_shows size cnt t0 tx : shows (send_progress size cnt t0 tx).
Proof. unfold send_progress. shows; apply tick_shows. Qed.
Lemma receive_progress_shows size cnt t0 tx t : shows (receive_progress size cnt t0 tx t).
Proof. unfold receive_progress. shows; apply tick_shows. Qed.
Lemma summary_shows verb name cnt t0 t : shows (summary verb name cnt t0 t).
Proof. unfold summary. shows. Qed.

Lemma sent_summary_shows name cnt t0 :
  shows (v ← pget verbose; pwhen v (t ← tick; summary "Sent" name cnt t0 t)).
Proof. shows; [apply tick_shows|apply summary_shows]. Qed.
Lemma received_summary_shows name cnt t0 t :
  shows (v ← pget verbose; pwhen v (summary "Received" name cnt t0 t)).
Proof. shows. apply summary_shows. Qed.
End shows.

Section transfer.
Context `{Net}.
Variable ulong_max : Z.
#[local] Abbreviation scan_u := (CLib.scan_u ulong_max).
#[local] Abbreviation scan_header := (scan_header ulong_max).
#[local] Abbreviation handle_client := (handle_client ulong_max).

(** *** The header *)
Hypothesis ulong : 2 ^ 32 - 1 ≤ ulong_max.

Lemma fmt_d_u n : 0 ≤ n → fmt_d n = fmt_u n.
Proof. intros Hn. unfold fmt_d, fmt_u. by rewrite (proj2 (Z.ltb_ge n 0)). Qed.

Lemma fmt_u_head n : 0 ≤ n → ∃ c t, fmt_u n = String c t ∧ is_digit c = true ∧
  is_space c = false ∧ Ascii.eqb c "-" = false ∧ Ascii.eqb c "+" = false.
Proof.
  intros Hn. destruct (decide (n = 0)) as [->|Hz]; [by exists "0"%char, ""|].
  destruct (fmt_base_head 10 n) as (d & t & E & Hd); [lia|lia|]. exists (digit d), t.
  split; [exact E|].
  assert (d = 1 ∨ d = 2 ∨ d = 3 ∨ d = 4 ∨ d = 5 ∨ d = 6 ∨ d = 7 ∨ d = 8 ∨ d = 9) as Hc by lia.
  by repeat destruct Hc as [->|Hc]; try subst.
Qed.

(** a number as it is printed, after at most one space *)
Lemma scan_u_printed n r :
  0 ≤ n < 2 ^ 32 → (∀ c t, r = String c t → digit_of c = 99) →
  scan_u (fmt_u n +:+ r) = Some (n, r) ∧ scan_u (" " +:+ fmt_u n +:+ r) = Some (n, r).
Proof.
  intros Hn Hr. destruct (fmt_u_head n) as (c & t & E & Hd & Hs & Hm & Hp); [lia|].
  assert (Hscan : scan 10 0 (fmt_u n +:+ r) = (n, r)).
  { apply scan_fmt_app; [lia|lia|]. destruct r as [|c' r]; [done|]. cbn. by rewrite (Hr c' r). }
  assert (Hsig : signed (fmt_u n +:+ r) = (false, fmt_u n +:+ r)).
  { unfold signed. rewrite E, str_app_cons. cbn [skip_space]. rewrite Hs.
    destruct c as [[] [] [] [] [] [] [] []]; done. }
  assert (Hsig' : signed (" " +:+ fmt_u n +:+ r) = (false, fmt_u n +:+ r)) by exact Hsig.
  unfold CLib.scan_u. rewrite Hsig, Hsig'. rewrite E, str_app_cons in *. rewrite Hd, Hscan.
  rewrite (proj2 (Z.ltb_ge _ _)), u32_small by lia. done.
Qed.

Lemma psion_date_range m : 0 ≤ psion_date m < 2 ^ 64 ∧ psion_date m / 2 ^ 32 < 2 ^ 32 ∧
  psion_date m = date_offset + 1000000 * u32 m.
Proof.
  unfold psion_date, date_offset. pose proof (u32_range m). rewrite Z.mod_small by lia.
  split; [lia|]. split; [|done]. apply Z.div_lt_upper_bound; lia.
Qed.

Definition header_of (name : string) (f : file) : header :=
  mkHeader (st_size f) (if writable f then 32 else 33) (psion_date (st_mtime f) / 2 ^ 32)
    (u32 (psion_date (st_mtime f))) name.

(** a name that the header can carry *)
Definition plain_name (name : string) : Prop :=
  str_all not_nul name = true ∧ (∀ c t, name = String c t → is_space c = false) ∧
  (String.length name ≤ 1980)%nat.

Lemma scan_header_sent name f :
  plain_name name → 0 ≤ st_size f < 2 ^ 31 →
  scan_header (send_header name f) = inr (header_of name f).
Proof.
  intros (_ & Hsp & _) Hsz. unfold send_header, scan_header. rewrite s32_small, fmt_d_u by lia.
  destruct (psion_date_range (st_mtime f)) as (H1 & H2 & _).
  set (r4 := " " +:+ name). set (r3 := " " +:+ fmt_u (u32 (psion_date (st_mtime f))) +:+ r4).
  set (r2 := " " +:+ fmt_u (psion_date (st_mtime f) / 2 ^ 32) +:+ r3).
  set (r1 := " " +:+ fmt_d (if writable f then 32 else 33) +:+ r2).
  assert (Hsub : String.substring 4 (String.length ("FILE " +:+ fmt_u (st_size f) +:+ r1) - 4)
    ("FILE " +:+ fmt_u (st_size f) +:+ r1) = " " +:+ fmt_u (st_size f) +:+ r1).
  { rewrite !str_app_cons, str_app_nil_l. cbn [String.length Nat.sub substring]. by rewrite substring_all. }
  rewrite Hsub. assert (Hsk : skip_space (" " +:+ fmt_u (st_size f) +:+ r1) = fmt_u (st_size f) +:+ r1).
  { destruct (fmt_u_head (st_size f)) as (c & t & -> & _ & Hs & _); [lia|].
    change (skip_space (String c t +:+ r1) = String c t +:+ r1).
    apply skip_space_none. intros c' t' [= <- _]. done. }
  rewrite Hsk. cbv zeta. assert (Hr : ∀ x, ∀ c t, " " +:+ x = String c t → digit_of c = 99)
    by (by intros x c t [= <- _]).
  destruct (scan_u_printed (st_size f) r1) as [-> _]; [lia|apply Hr|].
  unfold r1 at 1. rewrite fmt_d_u by (by destruct (writable f)).
  destruct (scan_u_printed (if writable f then 32 else 33) r2) as [_ ->];
    [by destruct (writable f)|apply Hr|].
  unfold r2 at 1. destruct (scan_u_printed (psion_date (st_mtime f) / 2 ^ 32) r3) as [_ ->];
    [split; [apply Z.div_pos; lia|lia]|apply Hr|].
  unfold r3 at 1. destruct (scan_u_printed (u32 (psion_date (st_mtime f))) r4) as [_ ->];
    [apply u32_range|apply Hr|]. unfold r4, header_of. do 2 f_equal.
  change (skip_space name = name). by apply skip_space_none.
Qed.

(** the date comes back, to the second, as 32 bits *)
Lemma unix_date_sent name f : unix_date (header_of name f) = u32 (st_mtime f).
Proof.
  destruct (psion_date_range (st_mtime f)) as (H1 & _ & E). unfold unix_date, header_of.
  cbn [fdate1 fdate2]. pose proof (u32_range (st_mtime f)) as Hu.
  assert (Hd : psion_date (st_mtime f) / 2 ^ 32 * 2 ^ 32 + u32 (psion_date (st_mtime f))
    = psion_date (st_mtime f)).
  { unfold u32. pose proof (Z.div_mod (psion_date (st_mtime f)) (2 ^ 32)). lia. }
  rewrite Hd, (Z.mod_small (psion_date _)) by done. rewrite E.
  replace (date_offset + 1000000 * u32 (st_mtime f) - date_offset)
    with (u32 (st_mtime f) * 1000000) by lia.
  rewrite Z.mod_small by lia. rewrite Z.div_mul by lia. by apply u32_small.
Qed.

Lemma header_not_nul name f : plain_name name → str_all not_nul (send_header name f) = true.
Proof.
  intros (Hn & _). unfold send_header. rewrite !str_all_app, !fmt_u_not_nul, Hn.
  assert (∀ z, str_all not_nul (fmt_d z) = true) as Hd.
  { intros z. unfold fmt_d. destruct (z <? 0); [|apply fmt_u_not_nul].
    rewrite str_all_app. apply (fmt_u_not_nul (- z)). }
  by rewrite !Hd.
Qed.


(** *** Sending *)
Hypothesis writes : ∀ bs, sent_part bs = Some (length bs).

Lemma write_all bs s : write bs s = Ok (inr (Z.of_nat (length bs)), set_sent (sent s ++ [bs]) s).
Proof. unfold write. rewrite writes, firstn_all. done. Qed.

Lemma fill_ok bs s : Z.of_nat (length bs) ≤ buflen →
  fill_buf bs s = Ok (inr tt, set_buf (bs ++ drop (length bs) (buf s)) s).
Proof. intros Hl. unfold fill_buf. by rewrite decide_True. Qed.

(** [sendfile] puts the data on the socket in pieces of [buflen] bytes: all of it, in
    order *)
Lemma send_data_ok fuel rest size cnt t0 tx s :
  (length rest < fuel)%nat → 0 ≤ cnt → cnt + Z.of_nat (length rest) < 2 ^ 31 →
  ∃ chunks s', send_data fuel rest size cnt t0 tx s = Ok (inr (cnt + Z.of_nat (length rest)), s') ∧
    sent s' = sent s ++ chunks ∧ files s' = files s ∧ arriving s' = arriving s ∧
    concat chunks = rest.
Proof.
  revert rest cnt tx s. induction fuel as [|fuel IH]; intros rest cnt tx s Hf Hc Hl; [lia|].
  cbn [send_data]. pose proof (take_drop (Z.to_nat buflen) rest) as Hsplit.
  assert (Hcl : Z.of_nat (length (take (Z.to_nat buflen) rest)) ≤ buflen)
    by (unfold buflen; rewrite length_take; lia).
  assert (Hend : (length (take (Z.to_nat buflen) rest) < Z.to_nat buflen)%nat →
    drop (Z.to_nat buflen) rest = []).
  { rewrite length_take. intros Hlt. apply drop_ge. lia. }
  destruct (take (Z.to_nat buflen) rest) as [|x chunk'] eqn:E.
  { assert (drop (Z.to_nat buflen) rest = []) as Hd by (apply Hend; unfold buflen; simpl; lia).
    rewrite Hd in Hsplit. cbn [app] in Hsplit. subst rest. exists [], s.
    split; [by rewrite Z.add_0_r|]. by rewrite app_nil_r. }
  cbv zeta. set (chunk := x :: chunk') in *. set (rest' := drop (Z.to_nat buflen) rest) in *.
  assert (Hn : (0 < length chunk)%nat) by (simpl; lia). clearbody chunk rest'. clear E x chunk'.
  subst rest. rewrite length_app in *.
  erewrite p_bind_ok by (by apply fill_ok). erewrite p_bind_ok by apply write_all.
  rewrite (proj2 (Z.ltb_ge (Z.of_nat (length chunk)) 0)) by lia. rewrite Z.ltb_irrefl.
  rewrite s32_small by lia. set (s1 := set_sent _ _).
  destruct (send_progress_shows size (cnt + Z.of_nat (length chunk)) t0 tx s1)
    as (tx' & s2 & E2 & (F2 & A2 & _ & S2 & _)).
  erewrite p_bind_ok by exact E2. destruct (Nat.ltb_spec (length chunk) (Z.to_nat buflen)) as [Hlt|Hge].
  - rewrite (Hend Hlt) in *. rewrite app_nil_r, Nat.add_0_r in *.
    exists [chunk], s2. rewrite S2, F2, A2. repeat split. apply app_nil_r.
  - destruct (IH rest' (cnt + Z.of_nat (length chunk)) tx' s2) as (chunks & s' & -> & Hs & Hf' & Ha & Hcat);
      [lia|lia|lia|].
    exists (chunk :: chunks), s'. rewrite Hs, Hf', Ha, S2, F2, A2. cbn [concat]. rewrite Hcat.
    split; [rewrite Nat2Z.inj_add; do 3 f_equal; lia|]. split; [|done].
    unfold s1. cbn [sent set_sent set_buf]. by rewrite <- app_assoc.
Qed.

(** what goes through the socket and the files, and what does not *)
Definition same_io (s s' : psion) : Prop :=
  files s' = files s ∧ arriving s' = arriving s ∧ clients s' = clients s ∧ sent s' = sent s.

(** the devices that are in sight at the first attempt *)
Definition in_sight (devs : list device) : Prop :=
  devs ≠ [] ∧ ∃ len, 4 < len ∧
    enumerate (device_list_size + device_info_size * (MAX_DEVICES - 1)) 0
    = Found len (Z.of_nat (length devs)) devs.

Lemma select_some devs : devs ≠ [] → is_Some (select_device devs).
Proof.
  unfold select_device. intros Hd. destruct (first_named _ devs); [by eexists|].
  destruct (first_named _ devs); [by eexists|]. by destruct devs; [|eexists].
Qed.

Lemma discover_ok devs s : in_sight devs →
  ∃ d s', select_device devs = Some d ∧ discover_devices s = Ok (inr (dev_daddr d), s') ∧ same_io s s'.
Proof.
  intros (Hd & len & Hlen & He). destruct (select_some devs Hd) as [d Hsel].
  unfold discover_devices. erewrite p_bind_ok by reflexivity.
  assert (Hslot : ∃ s1, pwhen (0 <? slot_timeout s) (set_slot_timeout (slot_timeout s)) s
    = Ok (inr tt, s1) ∧ same_io s s1).
  { destruct (0 <? slot_timeout s); [|by exists s]. unfold pwhen, set_slot_timeout.
    by destruct slot_file; eexists. }
  destruct Hslot as (s1 & E1 & Hs1). erewrite p_bind_ok by exact E1.
  erewrite p_bind_ok.
  2: { cbn [discovery_loop]. rewrite He. rewrite (proj2 (Z.eqb_neq len 4)) by lia. reflexivity. }
  cbv beta iota. rewrite (proj2 (Z.ltb_ge len 4)) by lia.
  assert (Hn : (0 < length devs)%nat) by (destruct devs; [done|simpl; lia]).
  rewrite (proj2 (Z.leb_gt _ 0)) by lia. rewrite Z.ltb_irrefl, Nat2Z.id, firstn_all, Hsel.
  exists d. erewrite p_bind_ok by reflexivity. destruct (verbose s1); by eexists.
Qed.

Lemma check_mtu_ok s : ∃ s', check_mtu s = Ok (inr tt, s') ∧ same_io s s' ∧ buf s' = fresh.
Proof.
  unfold check_mtu, irttp_get_mtu. destruct max_sdu as [mtu|].
  - erewrite p_bind_ok by reflexivity. destruct (_ && _); by eexists.
  - erewrite p_bind_ok by reflexivity. by eexists.
Qed.

Lemma cstr_line (t : string) b : str_all not_nul t = true →
  cstr (splice (Z.of_nat (length (bytes_of_str t))) [0] (bytes_of_str t ++ b)) = Some (bytes_of_str t).
Proof.
  intros Ht. unfold splice. rewrite Nat2Z.id, take_app_length. by apply cstr_of_str.
Qed.

Lemma read_data n bs a s :
  arriving s = Data bs :: a → Z.of_nat (length bs) ≤ n → n ≤ buflen →
  read n s = Ok (inr (inl (Z.of_nat (length bs))),
    set_buf (bs ++ drop (length bs) (buf s)) (set_arriving a (clients s) s)).
Proof.
  intros Ha Hl Hn. unfold read. erewrite p_bind_ok by reflexivity. cbn [id]. rewrite Ha.
  erewrite p_bind_ok by reflexivity. rewrite !(take_ge bs) by lia.
  rewrite (proj2 (Nat.leb_le _ _)) by lia. by erewrite p_bind_ok by (apply fill_ok; lia).
Qed.

(** the line that a peer sent *)
Lemma read_line {A} n (t : string) a (k : string → P psion A) s :
  arriving s = Data (bytes_of_str t) :: a → str_all not_nul t = true →
  Z.of_nat (String.length t) ≤ n → n ≤ buflen →
  ∃ b, (pset (λ s, set_buf (splice (Z.of_nat (length (bytes_of_str t))) [0] (buf s)) s);;
    line ← buf_string; k line)
    (set_buf (bytes_of_str t ++ drop (length (bytes_of_str t)) (buf s)) (set_arriving a (clients s) s))
  = k t (set_buf b (set_arriving a (clients s) s)).
Proof.
  intros Ha Ht Hl Hn. eexists. erewrite p_bind_ok by reflexivity.
  erewrite p_bind_ok.
  2: { unfold buf_string. erewrite p_bind_ok by reflexivity. cbn [buf set_buf].
       rewrite cstr_line by done. rewrite str_of_bytes_of_str. reflexivity. }
  done.
Qed.

(** *** A file from one side to the other *)
Definition sendable (name : string) (f : file) : Prop :=
  plain_name name ∧ st_size f = Z.of_nat (length (content f)) ∧ st_size f < 2 ^ 31.

Lemma header_length name f : sendable name f → 0 ≤ st_size f →
  (String.length (send_header name f) ≤ 2042)%nat.
Proof.
  intros ((_ & _ & Hl) & _ & Hs) H0. destruct (psion_date_range (st_mtime f)) as (H1 & H2 & _).
  unfold send_header. rewrite s32_small, fmt_d_u by lia. rewrite !str_length_app.
  pose proof (fmt_u_length (st_size f)). pose proof (fmt_u_length (psion_date (st_mtime f) / 2 ^ 32)).
  pose proof (fmt_u_length _ (u32_range (psion_date (st_mtime f)))).
  assert (0 ≤ psion_date (st_mtime f) / 2 ^ 32) by (apply Z.div_pos; lia).
  assert (String.length (fmt_d (if writable f then 32 else 33)) = 2%nat) as -> by (by destruct (writable f)).
  cbn [String.length]. lia.
Qed.

Lemma read_ack_ok a s :
  arriving s = Data (bytes_of_str "ACK Y") :: a →
  ∃ b, read_ack s = Ok (inr tt, set_buf b (set_arriving a (clients s) s)).
Proof.
  intros Ha. unfold read_ack. erewrite p_bind_ok by (by eapply read_data).
  cbv beta iota. destruct (read_line (buflen - 1) "ACK Y" a (λ reply,
      if String.eqb reply "ACK N" then eprintf ("Psion refused the file, disk full?" +:+ nl);; exit 1
      else if negb (String.eqb reply "ACK Y") then
        eprintf ("Unexpected response: " +:+ reply +:+ nl);; exit 1
      else mret tt) s Ha) as [b Hb]; try done.
  exists b. exact Hb.
Qed.

(** the other side closes, or the connection is gone *)
Lemma read_close_ok a s :
  arriving s = a → a = [] ∨ a = [ReadFailed EPERM] →
  ∃ s', read_close s = Ok (inr tt, s') ∧ sent s' = sent s ∧ files s' = files s.
Proof.
  intros Hs Ha. unfold read_close, read. rewrite p_bind_assoc. erewrite p_bind_ok by reflexivity.
  cbn [id]. rewrite Hs. destruct Ha as [-> | ->]; [by eexists|].
  rewrite p_bind_assoc. erewrite p_bind_ok by reflexivity.
  erewrite p_bind_ok by reflexivity. by eexists.
Qed.

(** the side of the computer that sends *)
Lemma sendfile_ok name f devs d a s :
  files s !! name = Some f → sendable name f →
  open_socket = None → in_sight devs → select_device devs = Some d → dev_daddr d ≠ 0 →
  connect_to (dev_daddr d) service_name = None →
  arriving s = Data (bytes_of_str "ACK Y") :: a → a = [] ∨ a = [ReadFailed EPERM] →
  ∃ chunks s', sendfile name s = Ok (inr tt, s') ∧
    sent s' = sent s ++ bytes_of_str (send_header name f) :: chunks ∧ concat chunks = content f ∧
    files s' = files s.
Proof.
  intros Hfile Hsend Hsock Hsight Hsel Hd0 Hconn Harr Ha.
  unfold sendfile. rewrite Hsock.
  destruct (discover_ok devs s Hsight) as (d' & s1 & Hsel' & E1 & (F1 & A1 & C1 & S1)).
  rewrite Hsel in Hsel'. injection Hsel' as <-. erewrite p_bind_ok by exact E1.
  rewrite (proj2 (Z.eqb_neq _ _)) by done. rewrite Hconn.
  destruct (check_mtu_ok s1) as (s2 & E2 & (F2 & A2 & C2 & S2) & _). erewrite p_bind_ok by exact E2.
  erewrite p_bind_ok by reflexivity. cbn [id]. rewrite F2, F1, Hfile.
  assert (H0 : 0 ≤ st_size f) by (destruct Hsend as (_ & -> & _); lia).
  pose proof (header_length name f Hsend H0) as Hlen. rewrite <- bytes_of_str_length in Hlen.
  cbv zeta. erewrite p_bind_ok.
  2: { apply fill_ok. rewrite length_app. cbn [length]. unfold buflen. lia. }
  erewrite p_bind_ok by apply write_all. rewrite Z.eqb_refl. cbn [negb].
  set (s3 := set_sent _ _).
  assert (A3 : arriving s3 = Data (bytes_of_str "ACK Y") :: a) by (by unfold s3; cbn; rewrite A2, A1).
  destruct (read_ack_ok a s3 A3) as [b Hack].
  erewrite p_bind_ok by exact Hack.
  set (s4 := set_buf _ _).
  destruct (tick_shows s4) as (t0 & s5 & E5 & (F5 & A5 & _ & S5 & _)). erewrite p_bind_ok by exact E5.
  destruct (send_data_ok (S (length (content f))) (content f) (st_size f) 0 t0 t0 s5)
    as (chunks & s6 & Es & S6 & F6 & A6 & Hcat);
    [lia|lia|destruct Hsend as (_ & <- & ?); lia|].
  erewrite p_bind_ok by exact Es. rewrite Z.add_0_l.
  destruct Hsend as (_ & Hsz & _). rewrite Hsz, Z.eqb_refl. cbn [negb pwhen].
  erewrite p_bind_ok by reflexivity. exists chunks.
  assert (A6' : arriving s6 = a) by (by rewrite A6, A5).
  destruct (read_close_ok a s6 A6' Ha) as (s7 & Ec & S7 & F7). erewrite p_bind_ok by exact Ec.
  destruct (sent_summary_shows name (Z.of_nat (length (content f))) t0 s7)
    as ([] & s' & E' & (F' & _ & _ & S' & _)).
  exists s'. split; [exact E'|]. rewrite S', S7, S6, S5, F', F7, F6, F5.
  unfold s4, s3. cbn [sent files set_buf set_sent set_arriving]. rewrite S2, S1, F2, F1.
  split; [by rewrite <- app_assoc|]. by split.
Qed.

(** *** Receiving *)
Hypothesis room : ∀ bs, stores bs = true.

Definition longer (bs : list Z) (f : file) : file :=
  mkFile (content f ++ bs) (st_size f + Z.of_nat (length bs)) (st_mtime f) (writable f).

Lemma longer_longer a b f : longer b (longer a f) = longer (a ++ b) f.
Proof. unfold longer. cbn. rewrite <- app_assoc, length_app. f_equal. lia. Qed.

(** the successive reads give [parts] *)
Definition read_sizes (parts : list (list Z)) : Prop :=
  Forall (λ p, p ≠ [] ∧ Z.of_nat (length p) ≤ buflen) parts.

Lemma receive_data_ok parts fuel name size cnt t0 tx t rest f s :
  read_sizes parts → (length parts < fuel)%nat → 0 ≤ cnt →
  cnt + Z.of_nat (length (concat parts)) = size → size < 2 ^ 31 →
  arriving s = (Data <$> parts) ++ rest → files s !! name = Some f →
  ∃ t' s', receive_data fuel name size cnt t0 tx t s = Ok (inr (size, t'), s') ∧
    files s' = <[name := longer (concat parts) f]> (files s) ∧ sent s' = sent s ∧
    arriving s' = rest.
Proof.
  intros Hp. revert fuel cnt tx t f s. induction Hp as [|p parts [Hne Hle] Hp IH];
    intros fuel cnt tx t f s Hfuel Hc Hsz Hmax Harr Hf.
  - cbn [concat length] in Hsz. destruct fuel as [|fuel]; [lia|]. cbn [receive_data].
    rewrite u32_small by lia. rewrite (proj2 (Z.ltb_ge _ _)) by lia. cbn [negb].
    exists t, s. replace cnt with size by lia. split; [done|]. split; [|by split].
    rewrite insert_id; [done|]. unfold longer. cbn. rewrite app_nil_r, Z.add_0_r. by destruct f.
  - destruct fuel as [|fuel]; [simpl in Hfuel; lia|]. cbn [concat] in *. rewrite length_app in Hsz.
    assert (Hn : (0 < length p)%nat) by (destruct p; [done|simpl; lia]).
    cbn [receive_data]. rewrite u32_small by lia. rewrite (proj2 (Z.ltb_lt _ _)) by lia. cbn [negb].
    erewrite p_bind_ok by (apply (read_data buflen p ((Data <$> parts) ++ rest)); [done|done|lia]).
    cbv beta iota. rewrite (proj2 (Z.eqb_neq _ _)) by lia. erewrite p_bind_ok by reflexivity.
    cbn [buf set_buf]. rewrite Nat2Z.id, take_app_length. rewrite room.
    erewrite p_bind_ok by reflexivity. rewrite s32_small by lia. cbv zeta.
    match goal with |- context [(_ ≫= _) ?s1] =>
      destruct (receive_progress_shows size (cnt + Z.of_nat (length p)) t0 tx t s1)
        as ([tx' t'] & s2 & E2 & (F2 & A2 & _ & S2 & _)) end.
    erewrite p_bind_ok by exact E2. cbn [files arriving sent set_files set_buf set_arriving] in F2, A2, S2.
    rewrite Hf in F2.
    destruct (IH fuel (cnt + Z.of_nat (length p)) tx' t' (longer p f) s2) as (t2 & s' & E & Hf' & Hs' & Ha');
      try (simpl in Hfuel; lia); try done.
    { rewrite F2. apply lookup_insert_eq. }
    exists t2, s'. split; [exact E|]. rewrite Hf', Hs', Ha', S2, F2. split; [|by split].
    by rewrite insert_insert_eq, longer_longer.
Qed.

Lemma stream_size_ge l : (length l ≤ stream_size l)%nat.
Proof.
  unfold stream_size. induction l as [|a l IH]; [done|].
  change (S (length l) ≤ arrival_size a + sum_list (arrival_size <$> l))%nat.
  assert (1 ≤ arrival_size a)%nat by (destruct a; simpl; lia). lia.
Qed.

Lemma parse_request_sent name f s : plain_name name → 0 ≤ st_size f < 2 ^ 31 →
  parse_request ulong_max (send_header name f) s = Ok (inr (name, st_size f, u32 (st_mtime f)), s).
Proof.
  intros Hn Hs. unfold parse_request. change (starts_with "FILE " (send_header name f)) with true.
  cbv iota. rewrite scan_header_sent by done. by rewrite unix_date_sent.
Qed.

(** the end of a transfer with nothing missing: the date *)
Lemma finish_file_ok name size date t0 t g s :
  utime_ok name = true → fclose_ok name = true → 0 ≤ size < 2 ^ 31 → files s !! name = Some g →
  ∃ s', finish_file name size date size t0 t s = Ok (inr tt, s') ∧ sent s' = sent s ∧
    arriving s' = arriving s ∧
    files s' = <[name := mkFile (content g) (st_size g) (if date =? 0 then st_mtime g else date)
      (writable g)]> (files s).
Proof.
  intros Hut Hcl Hsz Hg. unfold finish_file. rewrite u32_small, Z.eqb_refl by lia. cbn [negb pwhen].
  erewrite p_bind_ok by reflexivity. rewrite <- p_bind_assoc.
  destruct (received_summary_shows name size t0 t s) as ([] & s1 & E1 & (F1 & A1 & _ & S1 & _)). erewrite p_bind_ok by exact E1.
  rewrite Hcl. unfold set_date, truth. destruct (date =? 0); cbn [negb pwhen].
  - exists s1. rewrite F1. repeat split; try done. rewrite insert_id; [done|]. by destruct g.
  - rewrite Hut. eexists. split; [reflexivity|]. cbn [sent arriving files set_files].
    by rewrite F1, Hg.
Qed.

(** once the file is made and acknowledged *)
Lemma receive_file_ok name f parts rest w fs s :
  sendable name f → concat parts = content f → read_sizes parts →
  utime_ok name = true → fclose_ok name = true →
  files s = <[name := mkFile [] 0 now w]> fs → arriving s = (Data <$> parts) ++ rest →
  ∃ r', (t0 ← tick;
         c ← receive_data (S (stream_size (arriving s))) name (st_size f) 0 t0 t0 t0;
         finish_file name (st_size f) (u32 (st_mtime f)) c.1 t0 c.2) s = Ok (inr tt, r') ∧
    sent r' = sent s ∧
    files r' = <[name := mkFile (content f) (st_size f)
        (if u32 (st_mtime f) =? 0 then now else u32 (st_mtime f)) w]> fs ∧
    arriving r' = rest.
Proof.
  intros (_ & Hsz & Hmax) Hcat Hparts Hut Hcl F3 A3.
  destruct (tick_shows s) as (t0 & s4 & E4 & (F4 & A4 & _ & S4 & _)).
  erewrite p_bind_ok by exact E4. rewrite A3 in A4. rewrite F3 in F4.
  destruct (receive_data_ok parts (S (stream_size (arriving s))) name (st_size f) 0 t0 t0 t0 rest
    (mkFile [] 0 now w) s4) as (t & s5 & E5 & F5 & S5 & A5); try done.
  { rewrite A3. pose proof (stream_size_ge ((Data <$> parts) ++ rest)) as Hge.
    rewrite length_app, length_fmap in Hge. lia. }
  { rewrite Hcat. lia. }
  { rewrite F4. apply lookup_insert_eq. }
  erewrite p_bind_ok by exact E5. cbn [fst snd]. rewrite F4, insert_insert_eq in F5.
  destruct (finish_file_ok name (st_size f) (u32 (st_mtime f)) t0 t (longer (concat parts) (mkFile [] 0 now w)) s5)
    as (s6 & E6 & S6 & A6 & F6); [done|done|lia|rewrite F5; apply lookup_insert_eq|].
  exists s6. split; [exact E6|]. rewrite S6, A6, F6, S5, A5, F5, S4, insert_insert_eq.
  split; [done|]. split; [|done]. unfold longer. cbn. by rewrite Hcat, Hsz.
Qed.

(** the side of the computer that receives *)
Lemma handle_client_ok name f parts rest r :
  sendable name f → concat parts = content f → read_sizes parts →
  can_create name = true → utime_ok name = true → fclose_ok name = true →
  arriving r = Data (bytes_of_str (send_header name f)) :: (Data <$> parts) ++ rest →
  ∃ r', handle_client r = Ok (inr tt, r') ∧ sent r' = sent r ++ [bytes_of_str "ACK Y"] ∧
    files r' = <[name := mkFile (content f) (st_size f)
        (if u32 (st_mtime f) =? 0 then now else u32 (st_mtime f))
        (match files r !! name with Some g => writable g | None => true end)]> (files r) ∧
    arriving r' = rest.
Proof.
  intros Hsend Hcat Hparts Hcreate Hut Hcl Harr.
  assert (H0 : 0 ≤ st_size f) by (destruct Hsend as (_ & -> & _); lia).
  pose proof (header_length name f Hsend H0) as Hlen. pose proof Hsend as (Hplain & Hsz & Hmax).
  unfold handle_client.
  destruct (check_mtu_ok r) as (r1 & E1 & (F1 & A1 & C1 & S1) & _). erewrite p_bind_ok by exact E1.
  rewrite Harr in A1.
  erewrite p_bind_ok.
  2: { apply (read_data buflen _ _ _ A1); [rewrite bytes_of_str_length; unfold buflen; lia|done]. }
  cbv beta iota. pose proof (header_not_nul name f Hplain) as Hnul.
  assert (Hpos : (0 < length (bytes_of_str (send_header name f)))%nat)
    by (rewrite bytes_of_str_length; unfold send_header; rewrite str_length_app; cbn [String.length]; lia).
  rewrite (proj2 (Z.eqb_neq _ 0)) by lia.
  rewrite (proj2 (Z.ltb_lt _ _)) by (rewrite bytes_of_str_length; unfold buflen; lia). cbn [negb].
  erewrite p_bind_ok by reflexivity. erewrite p_bind_ok.
  2: { unfold buf_string. erewrite p_bind_ok by reflexivity. cbn [buf set_buf].
       rewrite cstr_line, str_of_bytes_of_str by done. reflexivity. }
  erewrite p_bind_ok by (apply parse_request_sent; [done|lia]). cbv beta iota.
  unfold create. rewrite Hcreate. erewrite p_bind_ok by reflexivity.
  erewrite p_bind_ok by apply write_all. cbn [negb].
  change (negb (Z.of_nat (length (bytes_of_str "ACK Y")) =? 5)) with false. cbv iota.
  erewrite p_bind_ok by reflexivity. cbn [id].
  match goal with |- context [stream_size (arriving ?x)] => set (s3 := x) end.
  set (w := match files r !! name with Some g => writable g | None => true end).
  assert (F3 : files s3 = <[name := mkFile [] 0 now w]> (files r))
    by (unfold s3, w; cbn [files set_sent set_files set_buf set_arriving]; by rewrite F1).
  assert (S3 : sent s3 = sent r ++ [bytes_of_str "ACK Y"])
    by (unfold s3; cbn [sent set_sent set_files set_buf set_arriving]; by rewrite S1).
  assert (A3 : arriving s3 = (Data <$> parts) ++ rest) by done.
  clearbody s3. destruct (receive_file_ok name f parts rest w (files r) s3) as (r' & E' & S' & F' & A'); try done.
  exists r'. split; [exact E'|]. by rewrite S', S3.
Qed.

(** C2: a file from one computer to the other.  What [sendfile] puts on the socket, in
    answer to a peer that acknowledges, is a header and all the bytes of the file in
    order; and a [handle_client] that gets the header and then these bytes, cut in
    any way the stream delivers them, ends with the file under the same name, with
    the same bytes, the same size and the same date to the second (unless the date
    is 0), having acknowledged it. *)
Theorem psion_transfer name f devs d a s :
  files s !! name = Some f → sendable name f →
  open_socket = None → in_sight devs → select_device devs = Some d → dev_daddr d ≠ 0 →
  connect_to (dev_daddr d) service_name = None → can_create name = true → utime_ok name = true →
  fclose_ok name = true → arriving s = Data (bytes_of_str "ACK Y") :: a → a = [] ∨ a = [ReadFailed EPERM] →
  ∃ line data s', sendfile name s = Ok (inr tt, s') ∧ sent s' = sent s ++ line :: data ∧
    files s' = files s ∧
    ∀ parts rest r, concat parts = concat data → read_sizes parts →
      arriving r = Data line :: (Data <$> parts) ++ rest →
      ∃ r', handle_client r = Ok (inr tt, r') ∧ sent r' = sent r ++ [bytes_of_str "ACK Y"] ∧
        files r' = <[name := mkFile (content f) (st_size f)
            (if u32 (st_mtime f) =? 0 then now else u32 (st_mtime f))
            (match files r !! name with Some g => writable g | None => true end)]> (files r) ∧
        arriving r' = rest.
Proof.
  intros Hfile Hsend Hsock Hsight Hsel Hd0 Hconn Hcreate Hut Hcl Harr Ha.
  destruct (sendfile_ok name f devs d a s) as (chunks & s' & E & Hs & Hcat & Hf); try done.
  exists (bytes_of_str (send_header name f)), chunks, s'. split; [done|]. split; [done|].
  split; [done|]. intros parts rest r Hparts Hsizes Hr. rewrite Hcat in Hparts.
  by apply (handle_client_ok name f parts rest r).
Qed.

End transfer.

(** *** The device that is chosen *)
Section ends.
Context `{Net}.
Variable ulong_max : Z.
#[local] Abbreviation handle_client := (handle_client ulong_max).
#[local] Abbreviation accept_loop := (accept_loop ulong_max).
#[local] Abbreviation receivefile := (receivefile ulong_max).
#[local] Abbreviation switches := (switches ulong_max).
#[local] Abbreviation main := (main ulong_max).

Definition named (p : string) (d : device) : Prop := starts_with p (dev_info d) = true.

Lemma first_named_spec p devs :
  match first_named p devs with
  | Some d => ∃ pre post, devs = pre ++ d :: post ∧ named p d ∧ Forall (λ x, ¬ named p x) pre
  | None => Forall (λ x, ¬ named p x) devs
  end.
Proof.
  unfold named. induction devs as [|d devs IH]; cbn [first_named]; [constructor|].
  destruct (starts_with p (dev_info d)) eqn:E.
  - exists [], devs. by repeat split.
  - assert (¬ starts_with p (dev_info d) = true) as Hn by (by rewrite E).
    destruct (first_named p devs) as [x|]; [|by constructor].
    destruct IH as (pre & post & -> & Hx & Hpre). exists (d :: pre), post.
    split; [done|]. split; [done|]. by constructor.
Qed.

(** of the devices in sight, the file goes to the first one that calls itself
    Symbian EPOC; without one, to the first Psion Series 5; without one of these
    either, to the first device. *)
Theorem psion_choice devs s :
  in_sight devs →
  ∃ pre d post s', devs = pre ++ d :: post ∧ discover_devices s = Ok (inr (dev_daddr d), s') ∧
    (named "Symbian EPOC" d ∧ Forall (λ x, ¬ named "Symbian EPOC" x) pre ∨
     Forall (λ x, ¬ named "Symbian EPOC" x) devs ∧
       (named "Psion Series 5" d ∧ Forall (λ x, ¬ named "Psion Series 5" x) pre ∨
        Forall (λ x, ¬ named "Psion Series 5" x) devs ∧ pre = [])).
Proof.
  intros Hs. destruct (discover_ok devs s Hs) as (d & s' & Hsel & Hd & _). unfold select_device in Hsel.
  pose proof (first_named_spec "Symbian EPOC" devs) as H1.
  pose proof (first_named_spec "Psion Series 5" devs) as H2.
  destruct (first_named "Symbian EPOC" devs).
  { injection Hsel as ->. destruct H1 as (pre & post & E & ? & ?). exists pre, d, post, s'. auto. }
  destruct (first_named "Psion Series 5" devs).
  { injection Hsel as ->. destruct H2 as (pre & post & E & ? & ?). exists pre, d, post, s'. auto 8. }
  destruct devs as [|d' post]; [done|]. injection Hsel as ->. exists [], d, post, s'. auto 8.
Qed.

(** *** Ends *)
Ltac ends :=
  repeat first [ends_step | match goal with
  | |- ends (printf _) => unfold printf
  | |- ends (eprintf _) => unfold eprintf
  | |- ends (perror _) => unfold perror
  | |- ends (fail _ _) => unfold fail
  | |- ends abort => unfold abort
  end].

Lemma ends_fill bs : ends (fill_buf bs).
Proof. unfold fill_buf. ends. Qed.
Lemma ends_line : ends buf_string.
Proof. unfold buf_string. ends. Qed.
Lemma ends_write bs : ends (write bs).
Proof. unfold write. ends. Qed.
#[local] Hint Resolve ends_fill ends_line ends_write : ends.
Lemma ends_read n : ends (read n).
Proof. unfold read. ends. Qed.
Lemma ends_mtu : ends check_mtu.
Proof. unfold check_mtu, irttp_get_mtu. ends. Qed.
Lemma ends_discovery k i len l : ends (discovery_loop k i len l).
Proof. revert i len l. induction k; intros; cbn [discovery_loop]; ends. Qed.
#[local] Hint Resolve ends_read ends_mtu ends_discovery : ends.
Lemma ends_discover : ends discover_devices.
Proof. unfold discover_devices, set_slot_timeout. ends. Qed.
Lemma ends_ack : ends read_ack.
Proof. unfold read_ack. ends. Qed.
Lemma ends_close : ends read_close.
Proof. unfold read_close. ends. Qed.
Lemma ends_tick : ends tick.
Proof. unfold tick. ends. Qed.
Lemma ends_summary verb name cnt t0 t : ends (summary verb name cnt t0 t).
Proof. unfold summary. ends. Qed.
#[local] Hint Resolve ends_tick ends_summary : ends.
Lemma ends_send_progress size cnt t0 tx : ends (send_progress size cnt t0 tx).
Proof. unfold send_progress. ends. Qed.
Lemma ends_receive_progress size cnt t0 tx t : ends (receive_progress size cnt t0 tx t).
Proof. unfold receive_progress. ends. Qed.
#[local] Hint Resolve ends_send_progress ends_receive_progress : ends.
Lemma ends_send_data fuel rest size cnt t0 tx :
  (length rest < fuel)%nat → ends (send_data fuel rest size cnt t0 tx).
Proof.
  revert rest cnt tx. induction fuel as [|fuel IH]; intros rest cnt tx Hf; [lia|]. cbn [send_data].
  cbv zeta.
  assert (Hd : (∀ cnt' tx', ends (send_data fuel (drop (Z.to_nat buflen) rest) size cnt' t0 tx'))
    ∨ rest = []).
  { destruct rest; [by right|]. left. intros cnt' tx'. apply IH. rewrite length_drop. unfold buflen.
    simpl in *. lia. }
  destruct (take (Z.to_nat buflen) rest) eqn:E; [ends|].
  destruct Hd as [Hd|Hd]; [|by rewrite Hd, take_nil in E].
  apply ends_bind; [auto with ends|intros _]. apply ends_bind; [auto with ends|intros wrc].
  destruct (_ <? _); [ends|]. destruct (_ <? _); [ends|].
  apply ends_bind; [auto with ends|intros tx']. destruct (Nat.ltb _ _); [ends|apply Hd].
Qed.
#[local] Hint Resolve ends_discover ends_ack ends_close : ends.
Lemma ends_sendfile name : ends (sendfile name).
Proof.
  unfold sendfile. destruct open_socket; [ends|]. apply ends_bind; [auto with ends|intros daddr].
  destruct (_ =? _); [ends|]. destruct (connect_to _ _); [ends|].
  apply ends_bind; [auto with ends|intros _]. apply ends_bind; [auto with ends|intros s].
  destruct (files s !! name) as [f|]; [|ends]. cbv zeta.
  apply ends_bind; [auto with ends|intros _]. apply ends_bind; [auto with ends|intros rc].
  destruct (negb _); [ends|]. apply ends_bind; [auto with ends|intros _].
  apply ends_bind; [auto with ends|intros t0].
  apply ends_bind; [apply ends_send_data; lia|intros cnt]. ends.
Qed.

Lemma read_shrinks n s rc s' : 0 < n ≤ buflen →
  read n s = Ok (inr (inl rc), s') → rc ≠ 0 → (stream_size (arriving s') < stream_size (arriving s))%nat.
Proof.
  intros Hn. unfold read. erewrite p_bind_ok by reflexivity. cbn [id].
  destruct (arriving s) as [|[bs|e] l] eqn:E.
  - intros [= <- _]. done.
  - erewrite p_bind_ok by reflexivity. unfold fill_buf. rewrite decide_True
      by (rewrite length_take; lia).
    intros [= <- <-]. cbn [arriving set_buf set_arriving]. intros Hrc. rewrite length_take in Hrc.
    unfold stream_size. destruct (length bs <=? Z.to_nat n)%nat.
    + change (sum_list (arrival_size <$> l) < S (length bs) + sum_list (arrival_size <$> l))%nat. lia.
    + change (S (length (drop (Z.to_nat n) bs)) + sum_list (arrival_size <$> l)
        < S (length bs) + sum_list (arrival_size <$> l))%nat. rewrite length_drop. lia.
  - erewrite p_bind_ok by reflexivity. done.
Qed.

Lemma receive_data_ends fuel name size cnt t0 tx t s :
  (stream_size (arriving s) < fuel)%nat → receive_data fuel name size cnt t0 tx t s ≠ Stop OutOfFuel.
Proof.
  revert cnt tx t s. induction fuel as [|fuel IH]; intros cnt tx t s Hf; [lia|]. cbn [receive_data].
  destruct (negb _); [done|]. pose proof (ends_read buflen s) as Hr.
  destruct (read buflen s) as [[[c|[rc|e]] s1]|w] eqn:E.
  - by rewrite (p_bind_exit _ _ _ _ _ E).
  - rewrite (p_bind_ok _ _ _ _ _ E). cbv beta iota. destruct (Z.eqb_spec rc 0); [done|].
    apply read_shrinks in E; [|by unfold buflen|done].
    erewrite p_bind_ok by reflexivity. cbv zeta. destruct (stores _); [|done].
    erewrite p_bind_ok by reflexivity.
    match goal with |- context [(receive_progress ?a ?b ?c ?d ?e ≫= _) ?s1] =>
      destruct (receive_progress_shows a b c d e s1) as (q & s2 & E2 & (_ & A2 & _)) end.
    erewrite p_bind_ok by exact E2. apply IH. rewrite A2. cbn [arriving set_files]. lia.
  - rewrite (p_bind_ok _ _ _ _ _ E). done.
  - rewrite (p_bind_stop _ _ _ _ E). congruence.
Qed.

Lemma ends_handle_client : ends handle_client.
Proof.
  unfold handle_client. apply ends_bind; [auto with ends|intros _].
  apply ends_bind; [auto with ends|intros [rc|e]]; [|ends].
  destruct (_ =? _); [ends|]. destruct (negb _); [ends|].
  apply ends_bind; [auto with ends|intros _]. apply ends_bind; [auto with ends|intros line].
  apply ends_bind; [unfold parse_request; ends|intros [[name size] date]].
  apply ends_bind; [unfold create; ends|intros _].
  apply ends_bind; [auto with ends|intros rc']. destruct (negb _); [ends|].
  intros s. erewrite p_bind_ok by reflexivity. cbn [id].
  destruct (tick_shows s) as (t0 & s1 & E1 & (_ & A1 & _)). erewrite p_bind_ok by exact E1.
  apply ends_bind_at; [apply receive_data_ends; rewrite A1; lia|intros c].
  unfold finish_file, set_date. ends.
Qed.
Lemma ends_receivefile mode : ends (receivefile mode).
Proof.
  assert (∀ cs, ends (accept_loop cs mode)) as Ha.
  { pose proof ends_handle_client. induction cs; cbn [accept_loop]; ends; auto with ends. }
  unfold receivefile. ends; apply Ha.
Qed.
Lemma ends_send_names args : ends (send_names args) ∧
  ∀ s rest s', send_names args s = Ok (inr rest, s') → (length rest ≤ length args)%nat.
Proof.
  pose proof ends_sendfile. split.
  - induction args; cbn [send_names]; ends; auto.
  - induction args as [|a args IH]; intros s rest s'; cbn [send_names]; [by intros [= <- _]|].
    destruct (starts_with _ _); [by intros [= <- _]|]. unfold mbind, P_bind.
    destruct (sendfile a s) as [[[c|[]] s1]|]; try done. intros Hr. apply IH in Hr. simpl. lia.
Qed.

(** whatever the command line, the files, the network and the peers do, the
    program ends: no loop of it runs for ever. *)
Theorem psion_ends argv s : main argv s ≠ Stop OutOfFuel.
Proof.
  pose proof ends_sendfile as Hsf. pose proof ends_receivefile as Hrf.
  assert (Hall : ∀ names, ends (send_all names)) by (induction names; cbn [send_all]; ends; auto).
  assert (Hsw : ∀ fuel args, (length args ≤ fuel)%nat → ends (switches fuel args)).
  { induction fuel as [|fuel IH]; intros [|x args] Hf; cbn [switches]; try done; simpl in Hf; try lia.
    destruct (String.eqb x "-s").
    { destruct args as [|b rest]; [apply IH; simpl; lia|]. destruct (String.eqb b "--"); [ends; auto|].
      destruct (ends_send_names (b :: rest)) as [He Hlen]. intros s1. unfold mbind, P_bind.
      specialize (He s1). specialize (Hlen s1).
      destruct (send_names (b :: rest) s1) as [[[c|r] s2]|]; [done| |congruence].
      apply IH. specialize (Hlen r s2 eq_refl). simpl in *. lia. }
    destruct (_ || _); [destruct args; ends; apply IH; simpl in *; lia|].
    repeat (match goal with |- context [String.eqb ?a ?b] => destruct (String.eqb a b) end; [ends; auto; apply IH; lia|]).
    ends. }
  destruct argv; [done|]. cbn [main]. by apply Hsw.
Qed.

(** the names after [-s --]: the first of them is never sent, and without any the
    program reads past the end of [argv]. *)
Theorem psion_skips_first name names s :
  main ("-s" :: "--" :: name :: names) s = send_all names s ∧ main ["-s"; "--"] s = Stop OobRead.
Proof. done. Qed.
End ends.

(** ** Witnesses *)
Definition palmtop : device := mkDevice 0x77 "Symbian EPOC 5mx".
Definition desktop : device := mkDevice 0x55 "laptop".
#[local] Instance two_devices : Net :=
  {| open_socket := None; enumerate _ _ := Found 76 2 [desktop; palmtop]; connect_to _ _ := None;
     max_sdu := Some 2045; sent_part bs := Some (length bs); can_create _ := true; slot_file := true;
     bind_and_listen := (true, true); stores _ := true; fclose_ok _ := true; utime_ok _ := true; now := 7; time_at k := 100 + k;
     fresh := replicate 2044 0 |}.
Definition note : file := mkFile (bytes_of_str "some text") 9 938000000 true.
Definition psion_state (files : gmap string file) (a : list arrival) : psion :=
  mkPsion 0 true 120 None files (replicate 2044 0) a [a] [] "" "" [] 0.

(** two seconds go by while the file is sent, one while it is received *)
Example psion_examples :
  match main 0xffffffff ["-s"; "note"]
    (psion_state {["note" := note]} [Data (bytes_of_str "ACK Y"); ReadFailed EPERM]) with
  | Ok (r, s) => r = inr tt ∧ sent s = [bytes_of_str (send_header "note" note); bytes_of_str "some text"]
      ∧ out s = "Sending to Symbian EPOC 5mx" +:+ nl
          +:+ "sent 9/9 bytes=100.0% in 1 sec, 0.009 Kbytes/s, to go 0 sec  " +:+ cr
          +:+ cr +:+ spaces 79 +:+ cr
          +:+ "Sent note, 9 bytes in 2 sec. 0.0045 KBytes/sec" +:+ nl
  | Stop _ => False
  end ∧
  send_header "note" note = "FILE 9 32 14693071 3777193984 note" ∧
  match main 0xffffffff ["-q"; "-r"]
    (psion_state ∅ [Data (bytes_of_str (send_header "note" note)); Data (bytes_of_str "some ");
       Data (bytes_of_str "text")]) with
  | Ok (r, s) => r = inr tt ∧ files s !! "note" = Some note ∧ sent s = [bytes_of_str "ACK Y"] ∧
      out s = ""
  | Stop _ => False
  end.
Proof. by vm_compute. Qed.

(** the time to go of a receiver is computed in 32 bits: with 8 million bytes left
    after 600 seconds it is wrong *)
Example time_to_go_wraps :
  match receive_progress 9000000 1000000 0 0 0 (set_ticks 500 (psion_state ∅ [])) with
  | Ok (_, s) => out s = "got 1000000/9000000 bytes=11.1111% in 600 sec, 1.66667 Kbytes/s, to go 505 sec  "
      +:+ cr
  | Stop _ => False
  end.
Proof. by vm_compute. Qed.

Lemma note_sendable : sendable "note" note.
Proof.
  split; [|by split]. split; [done|]. split; [by intros c t [= <- _]|]. simpl. lia.
Defined.
Lemma two_in_sight : in_sight [desktop; palmtop].
Proof. split; [done|]. by exists 76. Defined.

Lemma psion_transfer_witness :
  let s := psion_state {["note" := note]} [Data (bytes_of_str "ACK Y"); ReadFailed EPERM] in
  ∃ line data s', sendfile "note" s = Ok (inr tt, s') ∧ sent s' = sent s ++ line :: data ∧
    files s' = files s ∧
    ∀ parts rest r, concat parts = concat data → read_sizes parts →
      arriving r = Data line :: (Data <$> parts) ++ rest →
      ∃ r', handle_client 0xffffffff r = Ok (inr tt, r') ∧ sent r' = sent r ++ [bytes_of_str "ACK Y"] ∧
        files r' = <["note" := mkFile (content note) 9
            (if u32 938000000 =? 0 then now else u32 938000000)
            (match files r !! "note" with Some g => writable g | None => true end)]> (files r) ∧
        arriving r' = rest.
Proof.
  intros s. apply (psion_transfer 0xffffffff ltac:(lia) ltac:(done) ltac:(done) "note" note
    [desktop; palmtop] palmtop [ReadFailed EPERM] s); try done.
  - apply note_sendable.
  - apply two_in_sight.
  - by right.
Defined.

Lemma psion_choice_witness :
  ∃ pre d post s', [desktop; palmtop] = pre ++ d :: post ∧
    discover_devices (psion_state ∅ []) = Ok (inr (dev_daddr d), s') ∧
    (named "Symbian EPOC" d ∧ Forall (λ x, ¬ named "Symbian EPOC" x) pre ∨
     Forall (λ x, ¬ named "Symbian EPOC" x) [desktop; palmtop] ∧
       (named "Psion Series 5" d ∧ Forall (λ x, ¬ named "Psion Series 5" x) pre ∨
        Forall (λ x, ¬ named "Psion Series 5" x) [desktop; palmtop] ∧ pre = [])).
Proof. apply (psion_choice [desktop; palmtop] (psion_state ∅ [])). apply two_in_sight. Defined.
