(* ===== verification/Spray.v ===== *)
(** * irdaspray: echo and discard over IrDA sockets (irsockets/irdaspray.c)

    The client, the server, the choice of the device, the command line.  The answers of
    the system are those of a kernel that is a parameter; the socket keeps the
    boundaries of the messages.  A [fork] gives its answer, and the run is that of
    the process that gets it.  The service database is in SprayIas.v. *)
From Stdlib Require Import String Ascii SpecFloat.
From S2P Require Import Prelude CInt Printf CFloat NetBuf CLib Proc.
Local Open Scope string_scope.
Local Open Scope list_scope.
Local Open Scope Z_scope.

(** <asm/errno.h> *)
Definition EAGAIN := 11.
Definition ENOTUNIQ := 76.
Definition EADDRNOTAVAIL := 99.
Definition HINT_PDA := 0x02.
Definition HINT_COMPUTER := 0x04.
Definition DISC_MAX_DEVICES := 10.
(** [sizeof(struct irda_device_list) + sizeof(struct irda_device_info) * DISC_MAX_DEVICES] *)
Definition DISC_BUF_LEN := 40 + 36 * DISC_MAX_DEVICES.
(** [sizeof(buf)] *)
Definition buf_size : Z := 8200.

(** [%X], [%02X] *)
Fixpoint upper (s : string) : string :=
  match s with
  | EmptyString => EmptyString
  | String c t =>
      String (if (97 <=? ord c) && (ord c <=? 122) then chr (ord c - 32) else c) (upper t)
  end.
Definition fmt_X (n : Z) : string := upper (fmt_x n).
Definition fmt_02X (n : Z) : string := pad0 2 (fmt_X n).

Record device := mkDevice { dev_daddr : Z; dev_info : string }.

(** what a [recv] finds *)
Inductive message :=
  | Msg (bs : list Z)
  | RecvFailed.

(** The system calls on the socket.  A call that fails gives the error, or [false];
    [enum_devices] gives [list->len] and the devices it stored, [takes n] how much
    [send] takes of a message of [n] bytes. *)
Class IrdaKernel (K : Type) := {
  sys_socket : K → bool * K;
  set_hint_mask : list Z → K → bool * K;
  enum_devices : Z → K → option (Z * list device) * K;
  wait_device : Z → K → option Z * K;
  sys_connect : Z → string → K → option Z * K;
  query_ias : Z → string → string → K → option Z * K;
  sock_name : K → option (Z * Z) * K;
  sys_bind : string → K → bool * K;
  sys_listen : Z → K → bool * K;
  takes : Z → K → option Z * K;
  clock : K → (Z * Z) * K }.

(** a process: the kernel, the messages to come on the connection, the
    connections to come, the messages sent, the answers of [fork], the descriptors open *)
Record spray (K : Type) := mkSpray {
  kernel : K;
  incoming : list message;
  clients : list (list message);
  sent : list (list Z);
  buf : list Z;
  stdin : string;
  forks : list Z;
  open_fds : Z;
  out : string;
  err : string;
  errors : list string }.
Arguments mkSpray {K} _ _ _ _ _ _ _ _ _ _ _.
Arguments kernel {K} _.
Arguments incoming {K} _.
Arguments clients {K} _.
Arguments sent {K} _.
Arguments buf {K} _.
Arguments stdin {K} _.
Arguments forks {K} _.
Arguments open_fds {K} _.
Arguments out {K} _.
Arguments err {K} _.
Arguments errors {K} _.

(** the globals that the options set *)
Record settings := mkSettings {
  frame_size : Z;
  frame_number : Z;
  echo : bool;
  server : bool;
  two : bool }.
Definition defaults : settings := mkSettings 1024 100 true false false.

Section state.
Context {K : Type}.
Definition set_kernel k (s : spray K) : spray K := mkSpray k (incoming s) (clients s) (sent s) (buf s) (stdin s)
  (forks s) (open_fds s) (out s) (err s) (errors s).
Definition set_incoming i (s : spray K) : spray K := mkSpray (kernel s) i (clients s) (sent s) (buf s) (stdin s)
  (forks s) (open_fds s) (out s) (err s) (errors s).
Definition set_clients c (s : spray K) : spray K := mkSpray (kernel s) (incoming s) c (sent s) (buf s) (stdin s)
  (forks s) (open_fds s) (out s) (err s) (errors s).
Definition set_sent w (s : spray K) : spray K := mkSpray (kernel s) (incoming s) (clients s) w (buf s) (stdin s)
  (forks s) (open_fds s) (out s) (err s) (errors s).
Definition set_buf b (s : spray K) : spray K := mkSpray (kernel s) (incoming s) (clients s) (sent s) b (stdin s)
  (forks s) (open_fds s) (out s) (err s) (errors s).
Definition set_stdin i (s : spray K) : spray K := mkSpray (kernel s) (incoming s) (clients s) (sent s) (buf s) i
  (forks s) (open_fds s) (out s) (err s) (errors s).
Definition set_forks f (s : spray K) : spray K := mkSpray (kernel s) (incoming s) (clients s) (sent s) (buf s) (stdin s)
  f (open_fds s) (out s) (err s) (errors s).
Definition set_fds n (s : spray K) : spray K := mkSpray (kernel s) (incoming s) (clients s) (sent s) (buf s) (stdin s)
  (forks s) n (out s) (err s) (errors s).
Definition set_text o e p (s : spray K) : spray K := mkSpray (kernel s) (incoming s) (clients s) (sent s) (buf s) (stdin s)
  (forks s) (open_fds s) o e p.

Definition printf t : P (spray K) unit := pset (λ s, set_text (out s +:+ t) (err s) (errors s) s).
Definition eprintf t : P (spray K) unit := pset (λ s, set_text (out s) (err s +:+ t) (errors s) s).
Definition perror t : P (spray K) unit := pset (λ s, set_text (out s) (err s) (errors s ++ [t]) s).
Definition kcall {A} (f : K → A * K) : P (spray K) A := λ s,
  let '(a, k) := f (kernel s) in Ok (inr a, set_kernel k s).
Definition fork : P (spray K) Z := λ s,
  match forks s with
  | [] => Ok (inr (-1), s)
  | pid :: fs => Ok (inr pid, set_forks fs s)
  end.
Definition close : P (spray K) unit := pset (λ s, set_fds (open_fds s - 1) s).
End state.

Section irdaspray.
Context {K : Type} `{!IrdaKernel K}.
Variable ulong_max : Z.
Variable argv0 : string.

(** [socket(AF_IRDA, SOCK_SEQPACKET, 0)] *)
Definition open_socket : P (spray K) unit :=
  ok ← kcall sys_socket;
  if ok : bool then pset (λ s, set_fds (open_fds s + 1) s) else perror "socket";; exit (-1).

(** ** The choice of the device *)
Definition irdaspray_sethintmask : P (spray K) unit :=
  ok ← kcall (set_hint_mask [Z.lor HINT_COMPUTER HINT_PDA; 0]);
  if ok : bool then mret tt else perror "setsockopt";; exit (-1).

Definition irdaspray_check_discovery : P (spray K) Z :=
  r ← kcall (enum_devices DISC_BUF_LEN);
  match r with
  | None => printf ("Didn't find any devices!" +:+ nl);; mret (-1)
  | Some (len, _) =>
      if u32 len =? 0 then printf ("Didn't find any devices!" +:+ nl);; mret (-1)
      else mret 0
  end.

Definition irdaspray_waitfor_device : P (spray K) Z :=
  let timeout := 30000 in
  irdaspray_sethintmask;;
  r ← irdaspray_check_discovery;
  if r =? 0 then mret 0
  else
    printf ("Waiting for a device..." +:+ nl);;
    r ← kcall (wait_device timeout);
    match r with
    | Some e =>
        if negb (e =? EAGAIN) then perror "getsockopt-wait";; exit (-1)
        else
          printf ("Nothing found in the last " +:+ fmt_d (timeout / 1000) +:+ " s" +:+ nl);;
          mret (-1)
    | None => mret 0
    end.

(** each device and whether it has the service; the devices beyond those that the kernel
    stored are outside of what was written *)
Fixpoint list_devices (n : nat) (i : Z) (devs : list device) (service_name : string)
    : P (spray K) unit :=
  match n, devs with
  | O, _ => mret tt
  | S _, [] => stopped OobRead
  | S n, d :: devs =>
      printf ("  [" +:+ fmt_d (i + 1) +:+ "] name:  " +:+ dev_info d +:+ ", daddr: 0x"
        +:+ fmt_08x (u32 (dev_daddr d)));;
      r ← kcall (query_ias (dev_daddr d) service_name "IrDA:TinyTP:LsapSel");
      match r with
      | None => printf (", has service " +:+ service_name +:+ nl)
      | Some e =>
          if negb (e =? EADDRNOTAVAIL) then printf (" <can't query IAS>" +:+ nl)
          else printf (", doesn't have " +:+ service_name +:+ nl)
      end;;
      list_devices n (i + 1) devs service_name
  end.

(** [scanf(X, &i)] *)
Definition scan_number : P (spray K) (option Z) :=
  t ← pget stdin;
  match scan_x ulong_max t with
  | None => mret None
  | Some (v, rest) => pset (set_stdin rest);; mret (Some (s32 v))
  end.

(** the number typed, and its device *)
Definition choose (len : Z) (devs : list device) : P (spray K) Z :=
  n ← scan_number;
  match n with
  | None => mret (-1)
  | Some i =>
      let i := s32 (i - 1) in
      if (i <? 0) && (u32 len <? u32 i) then mret (-1)
      else if i <? 0 then stopped OobRead
      else
        match devs !! Z.to_nat i with
        | Some d => mret (s32 (dev_daddr d))
        | None => stopped OobRead
        end
  end.

Definition irdaspray_discover_devices (service_name : string) : P (spray K) Z :=
  irdaspray_sethintmask;;
  r ← kcall (enum_devices DISC_BUF_LEN);
  match r with
  | None => printf ("Didn't find any devices!" +:+ nl);; mret (-1)
  | Some (len, devs) =>
      if u32 len =? 0 then printf ("Didn't find any devices!" +:+ nl);; mret (-1)
      else
        printf ("Discovered " +:+ fmt_d (s32 len) +:+ " devices :" +:+ nl);;
        list_devices (Z.to_nat (u32 len)) 0 devs service_name;;
        printf "Enter device number:";;
        choose len devs
  end.

(** ** The client *)
Definition service (g : settings) : string := if echo g then "IrECHO" else "IrDISCARD".

Definition irdaspray_connect_request (g : settings) : P (spray K) Z :=
  let service_name := service g in
  r ← irdaspray_waitfor_device;
  if negb (r =? 0) then mret (-1)
  else
    r ← kcall (sys_connect 0 service_name);
    match r with
    | None => printf ("Auto-connect did found exactly one device !" +:+ nl);; mret 0
    | Some e =>
        if e =? EADDRNOTAVAIL then
          printf ("Auto-connect could not find anything..." +:+ nl);; mret (-1)
        else
          (if negb (e =? ENOTUNIQ) then printf ("Auto-connect failed..." +:+ nl)
           else printf ("Auto-connect has found more than one device..." +:+ nl));;
          daddr ← irdaspray_discover_devices service_name;
          if daddr =? -1 then mret (-1)
          else
            r ← kcall (sys_connect (u32 daddr) service_name);
            match r with
            | Some _ => perror "connect";; mret (-1)
            | None =>
                r ← kcall sock_name;
                match r with
                | None => perror "getsockname";; mret (-1)
                | Some (addr, lsap) =>
                    printf ("We have been assigned Address 0x" +:+ fmt_X (u32 addr)
                      +:+ " and LSAP 0x" +:+ fmt_02X (u8 lsap) +:+ "..." +:+ nl);;
                    printf ("Connected!" +:+ nl);;
                    mret 0
                end
            end
    end.

(** [send(fd, buf, len, 0)], with [size] bytes in [buf]: the kernel reads from it what it takes *)
Definition send (size len : Z) : P (spray K) Z :=
  r ← kcall (takes (len mod (ulong_max + 1)));
  match r with
  | None => mret (-1)
  | Some n =>
      if n <=? size then
        pset (λ s, set_sent (sent s ++ [take (Z.to_nat n) (buf s)]) s);; mret (s32 n)
      else stopped OobRead
  end.

(** [recv(fd, buf, sizeof(buf), 0)]: one message, and no message is the end *)
Definition recv (size : Z) : P (spray K) Z :=
  l ← pget incoming;
  match l with
  | [] => mret 0
  | RecvFailed :: l => pset (set_incoming l);; mret (-1)
  | Msg bs :: l =>
      let bs := take (Z.to_nat size) bs in
      pset (set_incoming l);;
      pset (λ s, set_buf (bs ++ drop (length bs) (buf s)) s);;
      mret (Z.of_nat (length bs))
  end.

Fixpoint add_up (n : nat) (call : P (spray K) Z) (total : Z) : P (spray K) Z :=
  match n with
  | O => mret total
  | S n => actual ← call; add_up n call (s32 (total + actual))
  end.
Definition irdaspray_transmit (g : settings) : P (spray K) Z :=
  add_up (Z.to_nat (frame_number g)) (send buf_size (frame_size g)) 0.
Definition irdaspray_receive (g : settings) : P (spray K) Z :=
  add_up (Z.to_nat (frame_number g)) (recv buf_size) 0.

(** [(double) sec + (double) ((double) usec / 1000000.0)], and the rate *)
Definition seconds (sec usec : Z) : spec_float :=
  SFadd 53 1024 (double_of_Z sec) (SFdiv 53 1024 (double_of_Z usec) (double_of_Z 1000000)).
Definition kbytes (total : Z) (time : spec_float) : spec_float :=
  SFdiv 53 1024 (SFdiv 53 1024 (double_of_Z total) time) (double_of_Z 1024).
Definition report (what : string) (total sec usec : Z) : string :=
  let time := seconds sec usec in
  what +:+ " " +:+ fmt_d total +:+ " bytes in " +:+ fmt_f 6 time +:+ " seconds ("
  +:+ fmt_f 3 (kbytes total time) +:+ " kbytes/s)" +:+ nl.

(** the second instance connects a socket of its own, in the parent *)
Definition second_client (g : settings) : P (spray K) Z :=
  if two g then
    tpid ← fork;
    if negb (tpid =? 0) then
      close;;
      open_socket;;
      irdaspray_connect_request g
    else mret 0
  else mret 0.

Definition ir_client (g : settings) : P (spray K) Z :=
  open_socket;;
  ret ← irdaspray_connect_request g;
  if negb (ret =? 0) then mret (-1)
  else
    start ← kcall clock;
    ret ← second_client g;
    if negb (ret =? 0) then mret (-1)
    else
      '(pid, total) ← (if echo g then
                         pid ← fork;
                         total ← (if negb (pid =? 0) then irdaspray_receive g
                                  else irdaspray_transmit g);
                         mret (pid, total)
                       else total ← irdaspray_transmit g; mret (0, total));
      end_ ← kcall clock;
      let sec := fst end_ - fst start in
      let usec := snd end_ - snd start in
      printf (report (if negb (pid =? 0) then "Received" else "Transmitted") total sec usec);;
      mret 0.

(** ** The server *)
Fixpoint serve (size : Z) (fuel : nat) (g : settings) : P (spray K) unit :=
  match fuel with
  | O => stopped OutOfFuel
  | S fuel =>
      actual ← recv size;
      if actual <=? 0 then mret tt
      else
        printf ("Got " +:+ fmt_d actual +:+ " bytes" +:+ nl);;
        actual ← (if echo g then
                    actual ← send size actual;
                    printf ("Sent " +:+ fmt_d actual +:+ " bytes" +:+ nl);;
                    mret actual
                  else mret actual);
        if 0 <? actual then serve size fuel g else mret tt
  end.

(** the process of one connection *)
Definition child (size : Z) (g : settings) : P (spray K) Z :=
  printf ("Connected!" +:+ nl);;
  l ← pget incoming;
  serve size (S (length l)) g;;
  close;;
  printf ("Disconnected!" +:+ nl);;
  mret 0.

Fixpoint accept_loop (cs : list (list message)) (g : settings) : P (spray K) Z :=
  printf ("Waiting for connection!" +:+ nl);;
  match cs with
  | [] => perror "accept";; mret (-1)
  | c :: cs =>
      pset (λ s, set_clients cs (set_incoming c (set_fds (open_fds s + 1) s)));;
      pid ← fork;
      if pid =? 0 then child buf_size g else accept_loop cs g
  end.

Definition ir_server (g : settings) : P (spray K) Z :=
  (if echo g then printf ("IrDA Echo server starting ..." +:+ nl)
   else printf ("IrDA Discard server starting ..." +:+ nl));;
  open_socket;;
  ok ← kcall (sys_bind (service g));
  if negb ok then perror "bind";; mret (-1)
  else
    ok ← kcall (sys_listen 8);
    if negb ok then perror "listen";; mret (-1)
    else
      cs ← pget clients;
      accept_loop cs g.

(** ** The command line *)
Definition usage : P (spray K) unit :=
  eprintf ("usage: " +:+ argv0 +:+ " [-s] [-c] [-d] [-e] [-h] [-b frame-size] [-n frames] " +:+ nl);;
  eprintf ("      -s act as a server" +:+ nl);;
  eprintf ("      -c act as a client (default)" +:+ nl);;
  eprintf ("      -d use discard service for unidirection transfer" +:+ nl);;
  eprintf ("      -e use echo service for bidirection transfer (default)" +:+ nl);;
  eprintf ("      -t open two concurent client sockets" +:+ nl);;
  eprintf ("      -h print this message ;-)" +:+ nl);;
  eprintf ("      -b frame-size in bytes (default 1024, max 8192)" +:+ nl);;
  eprintf ("      -n number of frames (default 100)" +:+ nl);;
  exit 1.

(** what [getopt] gives: the letter and the argument *)
Definition option_case (c : ascii) (optarg : string) (g : settings) : P (spray K) settings :=
  if Ascii.eqb c "s" then mret (mkSettings (frame_size g) (frame_number g) (echo g) true (two g))
  else if Ascii.eqb c "c" then
    mret (mkSettings (frame_size g) (frame_number g) (echo g) false (two g))
  else if Ascii.eqb c "d" then
    mret (mkSettings (frame_size g) (frame_number g) false (server g) (two g))
  else if Ascii.eqb c "e" then
    mret (mkSettings (frame_size g) (frame_number g) true (server g) (two g))
  else if Ascii.eqb c "t" then
    mret (mkSettings (frame_size g) (frame_number g) (echo g) (server g) true)
  else if Ascii.eqb c "n" then
    mret (mkSettings (frame_size g) (atoi ulong_max optarg) (echo g) (server g) (two g))
  else if Ascii.eqb c "b" then
    mret (mkSettings (atoi ulong_max optarg) (frame_number g) (echo g) (server g) (two g))
  else usage;; mret g.

Fixpoint parse_options (l : list (ascii * string)) (g : settings) : P (spray K) settings :=
  match l with
  | [] => mret g
  | (c, optarg) :: l => g ← option_case c optarg g; parse_options l g
  end.

Definition main (l : list (ascii * string)) : P (spray K) Z :=
  g ← parse_options l defaults;
  if server g then ir_server g else ir_client g.
End irdaspray.

(** ** The transfer *)
Section transfer.
Context {K : Type} `{!IrdaKernel K}.
Variable ulong_max : Z.
Hypothesis long32 : 2 ^ 32 ≤ ulong_max.
Variable size : Z.
Hypothesis size_int : size < 2 ^ 31.
(** the socket takes a whole message *)
Hypothesis takes_all : ∀ n k, 0 ≤ n ≤ size → ∃ k', takes n k = (Some n, k').

(** what a call leaves alone *)
Definition same_io (s s' : spray K) : Prop :=
  clients s' = clients s ∧ stdin s' = stdin s ∧ forks s' = forks s ∧ open_fds s' = open_fds s ∧
  err s' = err s ∧ errors s' = errors s.
Lemma same_io_trans s s1 s2 : same_io s s1 → same_io s1 s2 → same_io s s2.
Proof. unfold same_io. intuition congruence. Qed.

Lemma send_ok n (s : spray K) : 0 ≤ n ≤ size →
  ∃ s', send ulong_max size n s = Ok (inr n, s') ∧ sent s' = sent s ++ [take (Z.to_nat n) (buf s)] ∧
    buf s' = buf s ∧ incoming s' = incoming s ∧ out s' = out s ∧ same_io s s'.
Proof.
  intros Hn. unfold send.
  rewrite Z.mod_small by lia.
  destruct (takes_all n (kernel s) Hn) as [k' Ek].
  erewrite p_bind_ok by (unfold kcall; rewrite Ek; reflexivity). cbv iota beta.
  rewrite (proj2 (Z.leb_le _ _)) by lia. erewrite p_bind_ok by reflexivity.
  eexists. split; [by rewrite s32_small by lia|]. by repeat split.
Qed.

Lemma transmit_ok n b total (s : spray K) :
  0 ≤ b ≤ size → 0 ≤ total → total + Z.of_nat n * b < 2 ^ 31 →
  ∃ s', add_up n (send ulong_max size b) total s = Ok (inr (total + Z.of_nat n * b), s') ∧
    sent s' = sent s ++ replicate n (take (Z.to_nat b) (buf s)) ∧
    out s' = out s ∧ same_io s s'.
Proof.
  intros Hb. revert total s. induction n as [|n IH]; intros total s H0 Hmax.
  - exists s. rewrite Z.add_0_r, app_nil_r. by repeat split.
  - destruct (send_ok b s Hb) as (s1 & E1 & S1 & B1 & _ & O1 & I1).
    cbn [add_up]. erewrite p_bind_ok by exact E1.
    destruct (IH (total + b) s1) as (s2 & E2 & S2 & O2 & I2); [lia..|].
    exists s2. rewrite s32_small by nia. rewrite E2. split; [do 3 f_equal; lia|].
    rewrite S2, S1, B1, <- app_assoc. split; [done|]. split; [congruence|].
    by eapply same_io_trans.
Qed.

Lemma recv_ok bs l (s : spray K) :
  incoming s = Msg bs :: l → Z.of_nat (length bs) ≤ size →
  ∃ s', recv size s = Ok (inr (Z.of_nat (length bs)), s') ∧ incoming s' = l ∧
    buf s' = bs ++ drop (length bs) (buf s) ∧ sent s' = sent s ∧ out s' = out s ∧ same_io s s' ∧
    kernel s' = kernel s.
Proof.
  intros Hin Hlen. unfold recv. erewrite p_bind_ok by reflexivity. rewrite Hin. cbv zeta.
  rewrite take_ge by lia. eexists. split; [reflexivity|]. by repeat split.
Qed.

Fixpoint total_length (fs : list (list Z)) : Z :=
  match fs with [] => 0 | f :: fs => Z.of_nat (length f) + total_length fs end.
Lemma total_length_replicate n f : total_length (replicate n f) = Z.of_nat n * Z.of_nat (length f).
Proof. induction n as [|n IH]; [done|]. cbn [replicate total_length]. rewrite IH. lia. Qed.
Lemma total_length_nonneg fs : 0 ≤ total_length fs.
Proof. induction fs; cbn [total_length]; lia. Qed.

Lemma receive_ok fs rest total (s : spray K) :
  incoming s = map Msg fs ++ rest → Forall (λ f, Z.of_nat (length f) ≤ size) fs →
  0 ≤ total → total + total_length fs < 2 ^ 31 →
  ∃ s', add_up (length fs) (recv size) total s = Ok (inr (total + total_length fs), s') ∧
    sent s' = sent s ∧ out s' = out s ∧ same_io s s' ∧ kernel s' = kernel s.
Proof.
  revert total s. induction fs as [|f fs IH]; intros total s Hin Hall H0 Hmax.
  - exists s. cbn. rewrite Z.add_0_r. by repeat split.
  - apply Forall_cons in Hall as [Hf Hall]. cbn [total_length] in *.
    pose proof (total_length_nonneg fs).
    destruct (recv_ok f (map Msg fs ++ rest) s Hin Hf) as (s1 & E1 & I1 & _ & S1 & O1 & A1 & K1).
    cbn [add_up length]. erewrite p_bind_ok by exact E1.
    destruct (IH (total + Z.of_nat (length f)) s1) as (s2 & E2 & S2 & O2 & A2 & K2);
      [done..|lia|lia|].
    exists s2. rewrite s32_small by lia. rewrite E2. split; [do 3 f_equal; lia|].
    split; [congruence|]. split; [congruence|]. split; [by eapply same_io_trans|congruence].
Qed.

(** what the server prints of a connection *)
Fixpoint served (e : bool) (fs : list (list Z)) : string :=
  match fs with
  | [] => ""
  | f :: fs =>
      let n := fmt_d (Z.of_nat (length f)) in
      "Got " +:+ n +:+ " bytes" +:+ nl
      +:+ (if e then "Sent " +:+ n +:+ " bytes" +:+ nl else "") +:+ served e fs
  end.

Definition fits (f : list Z) : Prop := 0 < Z.of_nat (length f) ≤ size.

Lemma spray_serve_ok g fs fuel (s : spray K) :
  incoming s = map Msg fs → Forall fits fs → (length fs < fuel)%nat →
  ∃ s', serve ulong_max size fuel g s = Ok (inr tt, s') ∧
    sent s' = sent s ++ (if echo g then fs else []) ∧
    out s' = out s +:+ served (echo g) fs ∧ same_io s s'.
Proof.
  revert fuel s. induction fs as [|f fs IH]; intros fuel s Hin Hall Hfuel;
    (destruct fuel as [|fuel]; [lia|]); cbn [serve].
  - assert (recv size s = Ok (inr 0, s)) as E by (unfold recv; erewrite p_bind_ok by reflexivity; by rewrite Hin).
    erewrite p_bind_ok by exact E. exists s.
    rewrite str_app_nil_r. destruct (echo g); rewrite ?app_nil_r; by repeat split.
  - apply Forall_cons in Hall as [[Hf0 Hf] Hall]. cbn [length] in Hfuel.
    destruct (recv_ok f (map Msg fs) s Hin Hf) as (s1 & E1 & I1 & B1 & S1 & O1 & A1 & _).
    erewrite p_bind_ok by exact E1. rewrite (proj2 (Z.leb_gt _ _)) by lia.
    erewrite p_bind_ok by reflexivity.
    set (s2 := set_text _ _ _ s1).
    assert (A2 : same_io s s2) by exact A1. assert (I2 : incoming s2 = map Msg fs) by exact I1.
    destruct (echo g) eqn:He.
    + destruct (send_ok (Z.of_nat (length f)) s2) as (s3 & E3 & S3 & B3 & I3 & O3 & A3);
        [lia|].
      rewrite p_bind_assoc. erewrite p_bind_ok by exact E3. rewrite p_bind_assoc.
      erewrite p_bind_ok by reflexivity. erewrite p_bind_ok by reflexivity.
      rewrite (proj2 (Z.ltb_lt _ _)) by lia. set (s4 := set_text _ _ _ s3).
      destruct (IH fuel s4) as (s5 & E5 & S5 & O5 & A5);
        [cbn; by rewrite I3|done|lia|].
      exists s5. split; [exact E5|].
      assert (take (length f) (buf s2) = f) as Hb by (cbn; rewrite B1; by apply take_app_length).
      rewrite S5. cbn [s4 set_text sent]. rewrite S3, Nat2Z.id, Hb. cbn [s2 set_text sent].
      rewrite S1, <- app_assoc. split; [done|]. split.
      * rewrite O5. cbn [s4 set_text out]. rewrite O3. cbn [s2 set_text out served].
        by rewrite O1, !str_app_assoc.
      * eapply same_io_trans; [exact A2|]. eapply same_io_trans; [exact A3|exact A5].
    + erewrite p_bind_ok by reflexivity. rewrite (proj2 (Z.ltb_lt _ _)) by lia.
      destruct (IH fuel s2) as (s5 & E5 & S5 & O5 & A5); [done|done|lia|].
      exists s5. split; [exact E5|]. rewrite app_nil_r in *. split; [by rewrite S5|]. split.
      * rewrite O5. cbn [s2 set_text out served]. rewrite O1. by rewrite !str_app_assoc, str_app_nil_l.
      * by eapply same_io_trans.
Qed.
Lemma child_ok g fs (s : spray K) :
  incoming s = map Msg fs → Forall fits fs →
  ∃ s', child ulong_max size g s = Ok (inr 0, s') ∧
    sent s' = sent s ++ (if echo g then fs else []) ∧ open_fds s' = open_fds s - 1 ∧
    clients s' = clients s ∧ forks s' = forks s ∧ errors s' = errors s ∧
    out s' = out s +:+ "Connected!" +:+ nl +:+ served (echo g) fs +:+ "Disconnected!" +:+ nl.
Proof.
  intros Hin Hfs. unfold child. erewrite p_bind_ok by reflexivity.
  erewrite p_bind_ok by reflexivity. cbn [set_text incoming]. rewrite Hin, length_map.
  set (s0 := set_text _ _ _ s).
  destruct (spray_serve_ok g fs (S (length fs)) s0)
    as (s1 & E1 & S1 & O1 & A1); [exact Hin|exact Hfs|lia|].
  erewrite p_bind_ok by exact E1. erewrite p_bind_ok by reflexivity.
  erewrite p_bind_ok by reflexivity. eexists. split; [reflexivity|]. cbn.
  destruct A1 as (C1 & _ & P1 & F1 & _ & R1). rewrite S1, O1, F1, C1, P1, R1. do 5 (split; [done|]).
  cbn [s0 set_text out]. by rewrite !str_app_assoc.
Qed.

End transfer.

(** ** A client and a server *)
Section session.
Context {K : Type} `{!IrdaKernel K}.
Variable ulong_max : Z.
Hypothesis long32 : 2 ^ 32 ≤ ulong_max.
(** one server is in range, and its socket takes whole messages *)
Class Willing := {
  socket_ok k : ∃ k', sys_socket k = (true, k');
  hints_ok h k : ∃ k', set_hint_mask h k = (true, k');
  in_range n k : ∃ len devs k', enum_devices n k = (Some (len, devs), k') ∧ u32 len ≠ 0;
  connect_ok name k : ∃ k', sys_connect 0 name k = (None, k');
  bind_ok name k : ∃ k', sys_bind name k = (true, k');
  listen_ok n k : ∃ k', sys_listen n k = (true, k');
  takes_ok n k : 0 ≤ n ≤ buf_size → ∃ k', takes n k = (Some n, k') }.
Context `{!Willing}.

Lemma kcall_ok {A} (f : K → A * K) a k' (s : spray K) :
  f (kernel s) = (a, k') → kcall f s = Ok (inr a, set_kernel k' s).
Proof. unfold kcall. by intros ->. Qed.

(** only the kernel, the descriptors and what was printed may change *)
Definition same_conn (s s' : spray K) : Prop :=
  clients s' = clients s ∧ stdin s' = stdin s ∧ forks s' = forks s ∧
  errors s' = errors s ∧ sent s' = sent s ∧ buf s' = buf s ∧ incoming s' = incoming s.

Lemma open_socket_ok (s : spray K) :
  ∃ s', open_socket s = Ok (inr tt, s') ∧ out s' = out s ∧ same_conn s s' ∧
    open_fds s' = open_fds s + 1.
Proof.
  destruct (socket_ok (kernel s)) as [k Ek]. unfold open_socket.
  erewrite p_bind_ok by (apply kcall_ok, Ek). eexists. split; [reflexivity|]. by repeat split.
Qed.

Definition connected : string := "Auto-connect did found exactly one device !" +:+ nl.
Lemma connect_request_ok g (s : spray K) :
  ∃ s', irdaspray_connect_request ulong_max g s = Ok (inr 0, s') ∧
    out s' = out s +:+ connected ∧ same_conn s s' ∧ open_fds s' = open_fds s.
Proof.
  destruct (hints_ok [Z.lor HINT_COMPUTER HINT_PDA; 0] (kernel s)) as [k1 E1].
  destruct (in_range DISC_BUF_LEN k1) as (len & devs & k2 & E2 & Hlen).
  destruct (connect_ok (service g) k2) as [k3 E3].
  assert (irdaspray_waitfor_device s = Ok (inr 0, set_kernel k2 s)) as Hwait.
  { unfold irdaspray_waitfor_device.
    assert (irdaspray_sethintmask s = Ok (inr tt, set_kernel k1 s)) as Hh.
    { unfold irdaspray_sethintmask. by erewrite p_bind_ok by (apply kcall_ok, E1). }
    erewrite p_bind_ok by exact Hh.
    assert (irdaspray_check_discovery (set_kernel k1 s) = Ok (inr 0, set_kernel k2 s)) as Hd.
    { unfold irdaspray_check_discovery. erewrite p_bind_ok by (apply kcall_ok, E2).
      cbv iota beta. by rewrite (proj2 (Z.eqb_neq _ _) Hlen). }
    by erewrite p_bind_ok by exact Hd. }
  unfold irdaspray_connect_request. erewrite p_bind_ok by exact Hwait. cbn [negb Z.eqb].
  erewrite p_bind_ok by (apply kcall_ok, E3). cbv iota beta.
  erewrite p_bind_ok by reflexivity. eexists. split; [reflexivity|]. by repeat split.
Qed.

(** both sides of the fork of the echo client, once it has run its transfer *)
Lemma client_ok g pid fs (call : P (spray K) Z) total w (s : spray K) :
  echo g = true → two g = false → forks s = pid :: fs →
  call = (if negb (pid =? 0) then irdaspray_receive g else irdaspray_transmit ulong_max g) →
  (∀ s1, sent s1 = sent s → buf s1 = buf s → incoming s1 = incoming s → ∃ s2,
    call s1 = Ok (inr total, s2) ∧ out s2 = out s1 ∧ sent s2 = w) →
  ∃ s' sec usec, ir_client ulong_max g s = Ok (inr 0, s') ∧ sent s' = w ∧
    out s' = out s +:+ connected
      +:+ report (if negb (pid =? 0) then "Received" else "Transmitted") total sec usec.
Proof.
  intros He Htwo Hf Hcall Hrun. unfold ir_client, second_client. rewrite He, Htwo.
  destruct (open_socket_ok s) as (s1 & E1 & O1 & C1 & _). erewrite p_bind_ok by exact E1.
  destruct (connect_request_ok g s1) as (s2 & E2 & O2 & C2 & _). erewrite p_bind_ok by exact E2.
  cbn [negb Z.eqb]. destruct (clock (kernel s2)) as [t1 k1] eqn:Ek1.
  erewrite p_bind_ok by (apply kcall_ok, Ek1). erewrite p_bind_ok by reflexivity.
  cbn [negb Z.eqb].
  set (s3 := set_kernel k1 s2).
  assert (fork s3 = Ok (inr pid, set_forks fs s3)) as Ef.
  { unfold fork, s3. cbn [set_kernel forks]. destruct C1 as (_ & _ & F1 & _), C2 as (_ & _ & F2 & _).
    by rewrite F2, F1, Hf. }
  assert (sent (set_forks fs s3) = sent s ∧ buf (set_forks fs s3) = buf s ∧
    incoming (set_forks fs s3) = incoming s) as (A1 & A2 & A3).
  { destruct C1 as (_ & _ & _ & _ & X1 & Y1 & Z1), C2 as (_ & _ & _ & _ & X2 & Y2 & Z2). cbn.
    repeat split; congruence. }
  destruct (Hrun (set_forks fs s3) A1 A2 A3) as (s4 & E4 & O4 & W4).
  destruct (clock (kernel s4)) as [t2 k2] eqn:Ek2.
  do 3 eexists. rewrite p_bind_assoc. erewrite p_bind_ok by exact Ef. rewrite p_bind_assoc.
  subst call. erewrite p_bind_ok by exact E4. erewrite p_bind_ok by reflexivity. cbv beta iota.
  erewrite p_bind_ok by (apply kcall_ok, Ek2).
  erewrite p_bind_ok by reflexivity. split; [reflexivity|]. cbn [set_text set_kernel sent out].
  split; [done|]. rewrite O4. cbn [set_forks s3 set_kernel out]. rewrite O2, O1.
  by rewrite !str_app_assoc.
Qed.
Definition starting (g : settings) : string :=
  if echo g then "IrDA Echo server starting ..." +:+ nl
  else "IrDA Discard server starting ..." +:+ nl.
Definition waiting : string := "Waiting for connection!" +:+ nl.

Lemma server_listens g (s : spray K) :
  ∃ s', ir_server ulong_max g s = accept_loop ulong_max (clients s) g s' ∧
    out s' = out s +:+ starting g ∧ same_conn s s' ∧ open_fds s' = open_fds s + 1.
Proof.
  unfold ir_server.
  assert ((if echo g then printf ("IrDA Echo server starting ..." +:+ nl)
     else printf ("IrDA Discard server starting ..." +:+ nl)) s
    = Ok (inr tt, set_text (out s +:+ starting g) (err s) (errors s) s)) as E0.
  { unfold starting. by destruct (echo g). }
  erewrite p_bind_ok by exact E0. set (s0 := set_text _ _ _ s).
  destruct (open_socket_ok s0) as (s1 & E1 & O1 & C1 & F1). erewrite p_bind_ok by exact E1.
  destruct (bind_ok (service g) (kernel s1)) as [k2 E2].
  erewrite p_bind_ok by (apply kcall_ok, E2). cbn [negb].
  destruct (listen_ok 8 k2) as [k3 E3].
  erewrite p_bind_ok by (apply kcall_ok, E3). cbn [negb]. erewrite p_bind_ok by reflexivity.
  pose proof (proj1 C1) as Hc. cbn [set_kernel clients]. rewrite Hc.
  eexists. split; [reflexivity|]. done.
Qed.

(** the process that transmits, and the one that receives *)
Lemma sender_ok g fs (s : spray K) :
  echo g = true → two g = false → 0 < frame_size g ≤ buf_size → 0 ≤ frame_number g →
  frame_number g * frame_size g < 2 ^ 31 → sent s = [] →
  ∃ s' sec usec, ir_client ulong_max g (set_forks (0 :: fs) s) = Ok (inr 0, s') ∧
    sent s' = replicate (Z.to_nat (frame_number g)) (take (Z.to_nat (frame_size g)) (buf s)) ∧
    out s' = out s +:+ connected
      +:+ report "Transmitted" (frame_number g * frame_size g) sec usec.
Proof.
  intros He Htwo Hsize Hn Hmax Hs.
  apply (client_ok g 0 fs (irdaspray_transmit ulong_max g) _ _ (set_forks (0 :: fs) s)); [done..|].
  intros u Su Bu _. unfold irdaspray_transmit.
  destruct (transmit_ok ulong_max long32 buf_size ltac:(done) takes_ok (Z.to_nat (frame_number g))
    (frame_size g) 0 u) as (u' & E & S & O & _); [lia|lia|lia|].
  exists u'. rewrite E. split; [do 3 f_equal; lia|]. split; [done|].
  rewrite S, Su, Bu. cbn [set_forks sent buf]. by rewrite Hs.
Qed.
Lemma receiver_ok g pid fs frames (s : spray K) :
  echo g = true → two g = false → pid ≠ 0 → sent s = [] →
  Forall (λ f, Z.of_nat (length f) ≤ buf_size) frames → total_length frames < 2 ^ 31 →
  length frames = Z.to_nat (frame_number g) →
  ∃ s' sec usec,
    ir_client ulong_max g (set_forks (pid :: fs) (set_incoming (map Msg frames) s)) = Ok (inr 0, s') ∧
    out s' = out s +:+ connected +:+ report "Received" (total_length frames) sec usec.
Proof.
  intros He Htwo Hpid Hs Hfits Hmax Hlen. pose proof (total_length_nonneg frames).
  destruct (client_ok g pid fs (irdaspray_receive g) (total_length frames) [] (set_forks (pid :: fs)
    (set_incoming (map Msg frames) s))) as (s2 & sec2 & usec2 & E2 & _ & O4); [done..| | |].
  { by rewrite (proj2 (Z.eqb_neq _ _) Hpid). }
  { intros u Su _ Iu. cbn in Iu. unfold irdaspray_receive.
    destruct (receive_ok buf_size frames [] 0 u) as (u' & E & S & O & _);
      [by rewrite app_nil_r|exact Hfits|lia|lia|].
    rewrite Hlen in E. exists u'. rewrite E, S, Su. split; [done|]. by split. }
  exists s2, sec2, usec2. split; [exact E2|]. rewrite O4. by rewrite (proj2 (Z.eqb_neq _ _) Hpid).
Qed.

(** C3: a client and an echo server: the sender sends [frame_number] frames
    of [frame_size] bytes from its buffer, the server gives the same frames back
    in the same order and shows each of them, and the receiver counts what the
    sender counted, for every frame that is not empty and fits the buffers, as
    long as the count is an [int]. *)
Theorem spray_echo g (s t : spray K) cs fs1 fs2 pid :
  echo g = true → two g = false →
  0 < frame_size g ≤ buf_size → 0 ≤ frame_number g →
  frame_number g * frame_size g < 2 ^ 31 →
  Z.of_nat (length (buf s)) = buf_size → sent s = [] → sent t = [] → forks t = 0 :: fs2 →
  pid ≠ 0 →
  let frames := replicate (Z.to_nat (frame_number g)) (take (Z.to_nat (frame_size g)) (buf s)) in
  ∃ s1 t1 s2 sec1 usec1 sec2 usec2,
    ir_client ulong_max g (set_forks (0 :: fs1) s) = Ok (inr 0, s1) ∧ sent s1 = frames ∧
    ir_server ulong_max g (set_clients (map Msg (sent s1) :: cs) t) = Ok (inr 0, t1) ∧
    sent t1 = frames ∧
    out t1 = out t +:+ starting g +:+ waiting +:+ "Connected!" +:+ nl +:+ served true frames
      +:+ "Disconnected!" +:+ nl ∧
    ir_client ulong_max g (set_forks (pid :: fs1) (set_incoming (map Msg (sent t1)) s))
    = Ok (inr 0, s2) ∧
    out s1 = out s +:+ connected
      +:+ report "Transmitted" (frame_number g * frame_size g) sec1 usec1 ∧
    out s2 = out s +:+ connected
      +:+ report "Received" (frame_number g * frame_size g) sec2 usec2.
Proof.
  intros He Htwo Hsize Hn Hmax Hbuf Hs Ht Hf Hpid frames.
  assert (Forall (fits buf_size) frames) as Hfits.
  { apply Forall_replicate. unfold fits. rewrite length_take. lia. }
  assert (total_length frames = frame_number g * frame_size g) as Htotal.
  { unfold frames. rewrite total_length_replicate, length_take, Z2Nat.id by lia. f_equal. lia. }
  destruct (sender_ok g fs1 s) as (s1 & sec1 & usec1 & E1 & S1 & O1); [done..|].
  set (t0 := set_clients (map Msg (sent s1) :: cs) t).
  destruct (server_listens g t0) as (t1 & El & O2 & C2 & _).
  destruct C2 as (_ & _ & F2 & _ & T2 & _). cbn [t0 set_clients forks sent out] in F2, T2, O2.
  rewrite Hf in F2. rewrite Ht in T2.
  set (t2 := set_forks fs2 (set_clients cs (set_incoming (map Msg frames)
    (set_fds (open_fds t1 + 1) (set_text (out t1 +:+ waiting) (err t1) (errors t1) t1))))).
  destruct (child_ok ulong_max long32 buf_size ltac:(done) takes_ok g frames t2)
    as (t3 & E3 & S3 & _ & _ & _ & _ & O3); [done|done|].
  rewrite He in S3, O3. cbn [t2 set_forks set_clients set_incoming set_fds set_text sent out] in S3, O3.
  rewrite T2 in S3. rewrite O2, !str_app_assoc in O3. cbn [app] in S3.
  destruct (receiver_ok g pid fs1 frames s) as (s2 & sec2 & usec2 & E2 & O4); [done..| |lia| |].
  { eapply Forall_impl; [exact Hfits|]. by intros f [_ Hlen]. }
  { unfold frames. by rewrite length_replicate. }
  rewrite Htotal in O4. exists s1, t3, s2, sec1, usec1, sec2, usec2.
  split; [exact E1|]. split; [exact S1|]. split.
  { etransitivity; [exact El|]. cbn [t0 set_clients clients accept_loop]. erewrite p_bind_ok by reflexivity.
    erewrite p_bind_ok by reflexivity.
    erewrite p_bind_ok by (unfold fork; cbn [set_clients set_incoming set_fds set_text forks];
      rewrite F2; reflexivity).
    rewrite S1. exact E3. }
  split; [exact S3|]. split; [exact O3|]. rewrite S3. split; [exact E2|]. split; [exact O1|exact O4].
Qed.
End session.

(** ** Ending, the choice, the descriptors *)
Section more.
Context {K : Type} `{!IrdaKernel K}.
Variable ulong_max : Z.
Variable argv0 : string.

Lemma ends_kcall {A} (f : K → A * K) : ends (kcall f).
Proof. intros s. unfold kcall. by destruct (f _). Qed.
Lemma ends_fork : ends (S:=spray K) fork.
Proof. intros s. unfold fork. by destruct (forks s). Qed.
#[local] Hint Resolve ends_kcall ends_fork : ends.
Ltac ends :=
  repeat first [ends_step | match goal with
  | |- ends (printf _) => unfold printf
  | |- ends (eprintf _) => unfold eprintf
  | |- ends (perror _) => unfold perror
  | |- ends close => unfold close
  end].

Lemma ends_open : ends (S:=spray K) open_socket.
Proof. unfold open_socket. ends. Qed.
Lemma ends_hints : ends (S:=spray K) irdaspray_sethintmask.
Proof. unfold irdaspray_sethintmask. ends. Qed.
Lemma ends_scan : ends (S:=spray K) (scan_number ulong_max).
Proof. unfold scan_number. ends. Qed.
#[local] Hint Resolve ends_open ends_hints ends_scan : ends.
Lemma ends_choose len devs : ends (S:=spray K) (choose ulong_max len devs).
Proof. unfold choose. ends. Qed.
#[local] Hint Resolve ends_choose : ends.
Lemma ends_list n i devs name : ends (S:=spray K) (list_devices n i devs name).
Proof. revert i devs. induction n; intros i devs; destruct devs; cbn [list_devices]; ends. Qed.
Lemma ends_wait : ends (S:=spray K) irdaspray_waitfor_device.
Proof. unfold irdaspray_waitfor_device, irdaspray_check_discovery. ends. Qed.
#[local] Hint Resolve ends_list ends_wait : ends.
Lemma ends_spray_discover name : ends (S:=spray K) (irdaspray_discover_devices ulong_max name).
Proof. unfold irdaspray_discover_devices. ends. Qed.
#[local] Hint Resolve ends_spray_discover : ends.
Lemma ends_connect g : ends (S:=spray K) (irdaspray_connect_request ulong_max g).
Proof. unfold irdaspray_connect_request. ends. Qed.
Lemma ends_send size n : ends (S:=spray K) (send ulong_max size n).
Proof. unfold send. ends. Qed.
Lemma ends_recv size : ends (S:=spray K) (recv size).
Proof. unfold recv. ends. Qed.
#[local] Hint Resolve ends_connect ends_send ends_recv : ends.
Lemma ends_add_up n (call : P (spray K) Z) total : ends call → ends (add_up n call total).
Proof. intros Hc. revert total. induction n; intros; cbn [add_up]; ends. Qed.
Lemma ends_client g : ends (S:=spray K) (ir_client ulong_max g).
Proof.
  assert (ends (S:=spray K) (second_client ulong_max g)) by (unfold second_client; ends).
  assert (ends (S:=spray K) (irdaspray_receive g)) by (apply ends_add_up; auto with ends).
  assert (ends (S:=spray K) (irdaspray_transmit ulong_max g)) by (apply ends_add_up; auto with ends).
  unfold ir_client. ends.
Qed.

(** each round of the server takes a message *)
Lemma recv_shrinks size (s : spray K) a s' :
  recv size s = Ok (inr a, s') → a ≤ 0 ∨ (length (incoming s') < length (incoming s))%nat.
Proof.
  unfold recv. erewrite p_bind_ok by reflexivity.
  destruct (incoming s) as [|[bs|] l] eqn:Hin; intros [= <- <-]; cbn; [by left|right; lia..].
Qed.
Lemma send_incoming size n (s : spray K) a s' :
  send ulong_max size n s = Ok (a, s') → incoming s' = incoming s.
Proof.
  unfold send, kcall, mbind, P_bind. destruct (takes _ _) as [[m|] k]; [|by intros [= _ <-]].
  destruct (_ <=? _); [by intros [= _ <-]|done].
Qed.
Lemma serve_ends size fuel g (s : spray K) :
  (length (incoming s) < fuel)%nat → serve ulong_max size fuel g s ≠ Stop OutOfFuel.
Proof.
  revert s. induction fuel as [|fuel IH]; intros s Hf; [lia|]. cbn [serve].
  unfold mbind at 1, P_bind at 1. pose proof (ends_recv size s) as Hr.
  destruct (recv size s) as [[[c|a] s1]|w] eqn:E1; [done| |congruence].
  destruct (Z.leb_spec a 0) as [|Ha]; [done|].
  destruct (recv_shrinks _ _ _ _ E1) as [|Hlt]; [lia|].
  erewrite p_bind_ok by reflexivity. set (s2 := set_text _ _ _ s1).
  assert (length (incoming s2) < length (incoming s))%nat as Hlt2 by exact Hlt.
  destruct (echo g).
  - rewrite p_bind_assoc. unfold mbind at 1, P_bind at 1. pose proof (ends_send size a s2) as Hs.
    destruct (send ulong_max size a s2) as [[[c|b] s3]|w] eqn:E3; [done| |congruence].
    rewrite p_bind_assoc. erewrite p_bind_ok by reflexivity. erewrite p_bind_ok by reflexivity.
    destruct (0 <? b); [|done]. apply IH. cbn. rewrite (send_incoming _ _ _ _ _ E3). lia.
  - erewrite p_bind_ok by reflexivity. destruct (0 <? a); [|done]. apply IH. lia.
Qed.
Lemma ends_child size g : ends (S:=spray K) (child ulong_max size g).
Proof.
  unfold child. apply ends_bind; [unfold printf; ends|intros _]. intros s.
  erewrite p_bind_ok by reflexivity. apply ends_bind_at; [apply serve_ends; lia|intros _]. ends.
Qed.
#[local] Hint Resolve ends_client ends_child : ends.
Lemma ends_accept cs g : ends (S:=spray K) (accept_loop ulong_max cs g).
Proof. induction cs; cbn [accept_loop]; ends. Qed.
#[local] Hint Resolve ends_accept : ends.

(** every run ends, whatever the options, the kernel, the peers and
    the answers of [fork]: a round of the server takes a message, the listing is as
    long as the list, the loops of the client are counted. *)
Theorem spray_ends l (s : spray K) : main ulong_max argv0 l s ≠ Stop OutOfFuel.
Proof.
  revert s. change (ends (S:=spray K) (main ulong_max argv0 l)). unfold main, ir_server.
  assert (∀ g, ends (S:=spray K) (parse_options ulong_max argv0 l g)) as Hp.
  { induction l as [|[c a] l IH]; intros g; cbn [parse_options]; [ends|].
    unfold option_case, usage. ends. }
  ends; apply Hp.
Qed.

(** *** The choice *)
Lemma list_devices_ok devs i name (s : spray K) :
  ∃ s', list_devices (length devs) i devs name s = Ok (inr tt, s') ∧ stdin s' = stdin s.
Proof.
  revert i s. induction devs as [|d devs IH]; intros i s; [by exists s|].
  cbn [length list_devices]. erewrite p_bind_ok by reflexivity.
  unfold mbind at 1, P_bind at 1, kcall.
  match goal with |- context [query_ias ?a ?b ?c ?k] => destruct (query_ias a b c k) as [r k'] end.
  set (s1 := set_kernel _ _).
  assert (∃ t, (match r with
    | None => printf (", has service " +:+ name +:+ nl)
    | Some e => if negb (e =? EADDRNOTAVAIL) then printf (" <can't query IAS>" +:+ nl)
                else printf (", doesn't have " +:+ name +:+ nl)
    end) s1 = Ok (inr tt, set_text (out s1 +:+ t) (err s1) (errors s1) s1)) as [t Et].
  { destruct r as [e|]; [destruct (negb _)|]; by eexists. }
  erewrite p_bind_ok by exact Et.
  destruct (IH (i + 1) (set_text (out s1 +:+ t) (err s1) (errors s1) s1)) as (s' & -> & Hs).
  by exists s'.
Qed.

Lemma discover_asks name devs k1 k2 (s : spray K) :
  set_hint_mask [6; 0] (kernel s) = (true, k1) →
  enum_devices DISC_BUF_LEN k1 = (Some (Z.of_nat (length devs), devs), k2) →
  0 < Z.of_nat (length devs) ≤ 11 →
  ∃ s1, stdin s1 = stdin s ∧
    irdaspray_discover_devices ulong_max name s
    = choose ulong_max (Z.of_nat (length devs)) devs s1.
Proof.
  intros E1 E2 Hlen. unfold irdaspray_discover_devices.
  assert (irdaspray_sethintmask s = Ok (inr tt, set_kernel k1 s)) as Hh.
  { unfold irdaspray_sethintmask. by erewrite p_bind_ok by (apply kcall_ok, E1). }
  erewrite p_bind_ok by exact Hh. erewrite p_bind_ok by (apply kcall_ok, E2). cbv iota beta.
  rewrite u32_small by lia. rewrite (proj2 (Z.eqb_neq _ _)) by lia.
  erewrite p_bind_ok by reflexivity. rewrite Nat2Z.id. set (s0 := set_text _ _ _ _).
  destruct (list_devices_ok devs 0 name s0) as (s1 & E & Hs).
  erewrite p_bind_ok by exact E. erewrite p_bind_ok by reflexivity.
  eexists. split; [|reflexivity]. done.
Qed.

(** with the devices that the kernel found on the list, a number from
    1 to their count chooses that device, 0 or a negative number none, what is
    not a number none; and a number beyond the list reads beyond the devices,
    since the test of the bounds joins its halves with [&&]. *)
Theorem spray_choice name devs k1 k2 (s : spray K) :
  set_hint_mask [6; 0] (kernel s) = (true, k1) →
  enum_devices DISC_BUF_LEN k1 = (Some (Z.of_nat (length devs), devs), k2) →
  0 < Z.of_nat (length devs) ≤ 11 →
  match scan_x ulong_max (stdin s) with
  | None => ∃ s', irdaspray_discover_devices ulong_max name s = Ok (inr (-1), s')
  | Some (v, _) =>
      let i := s32 v in
      - 2 ^ 31 < i →
      if i <=? 0 then ∃ s', irdaspray_discover_devices ulong_max name s = Ok (inr (-1), s')
      else match devs !! Z.to_nat (i - 1) with
           | Some d => ∃ s', irdaspray_discover_devices ulong_max name s
                             = Ok (inr (s32 (dev_daddr d)), s')
           | None => irdaspray_discover_devices ulong_max name s = Stop OobRead
           end
  end.
Proof.
  intros E1 E2 Hlen. destruct (discover_asks name devs k1 k2 s E1 E2 Hlen) as (s1 & Hs1 & ->).
  unfold choose, scan_number. rewrite p_bind_assoc. erewrite p_bind_ok by reflexivity. rewrite Hs1.
  destruct (scan_x ulong_max (stdin s)) as [[v rest]|]; [|by eexists].
  cbv zeta. intros Hmin. rewrite p_bind_assoc. erewrite p_bind_ok by reflexivity.
  erewrite p_bind_ok by reflexivity.
  assert (s32 v < 2 ^ 31) as Hmax.
  { unfold s32. pose proof (Z.mod_pos_bound (v + 2 ^ 31) (2 ^ 32)). lia. }
  cbv iota beta zeta. rewrite (s32_small (s32 v - 1)) by lia.
  rewrite (u32_small (Z.of_nat (length devs))) by lia.
  destruct (Z.leb_spec (s32 v) 0) as [Hle|Hgt].
  - rewrite (proj2 (Z.ltb_lt (s32 v - 1) 0)) by lia.
    assert (u32 (s32 v - 1) = s32 v - 1 + 2 ^ 32) as ->.
    { unfold u32. symmetry. apply Zmod_unique with (-1); lia. }
    rewrite (proj2 (Z.ltb_lt _ _)) by lia. by eexists.
  - rewrite (proj2 (Z.ltb_ge (s32 v - 1) 0)) by lia. cbn [andb].
    destruct (devs !! _); [by eexists|done].
Qed.

(** *** The descriptors of the server *)

(** the server that listens never closes the connections that it gave
    to its children: after [n] of them it has [n] descriptors more open, has
    received and sent nothing itself, and ends when [accept] fails. *)
Theorem spray_server_leaks g cs pids rest (s : spray K) :
  forks s = pids ++ rest → length pids = length cs → Forall (λ p, p ≠ 0) pids →
  ∃ s', accept_loop ulong_max cs g s = Ok (inr (-1), s') ∧
    open_fds s' = open_fds s + Z.of_nat (length cs) ∧ sent s' = sent s ∧
    forks s' = rest ∧ errors s' = errors s ++ ["accept"].
Proof.
  revert pids s. induction cs as [|c cs IH]; intros pids s Hf Hlen Hpids.
  - destruct pids; [|done]. cbn in Hf. eexists. split; [reflexivity|]. cbn.
    rewrite Z.add_0_r. by repeat split.
  - destruct pids as [|pid pids]; [done|]. injection Hlen as Hlen.
    apply Forall_cons in Hpids as [Hp Hpids]. cbn [accept_loop].
    erewrite p_bind_ok by reflexivity. erewrite p_bind_ok by reflexivity.
    erewrite p_bind_ok by (unfold fork; cbn [set_clients set_incoming set_fds set_text forks];
      rewrite Hf; reflexivity).
    rewrite (proj2 (Z.eqb_neq _ _) Hp).
    edestruct (IH pids) as (s' & E & F & S & R & X); [|exact Hlen|exact Hpids|].
    2: { exists s'. split; [exact E|]. rewrite F, S, R, X. cbn. repeat split. lia. }
    done.
Qed.
End more.

(** ** A kernel for the examples: two devices in range; the state is its clock *)
#[export] Instance room (crowded : bool) : IrdaKernel Z := {|
  sys_socket k := (true, k);
  set_hint_mask _ k := (true, k);
  enum_devices _ k := (Some (2, [mkDevice 0x12345678 "printer"; mkDevice 0x9abc "laptop"]), k);
  wait_device _ k := (Some EAGAIN, k);
  sys_connect d _ k := ((if crowded && (d =? 0) then Some ENOTUNIQ else None), k);
  query_ias d _ _ k := ((if d =? 0x9abc then None else Some EADDRNOTAVAIL), k);
  sock_name k := (Some (0x1a2b3c4d, 0x5f), k);
  sys_bind _ k := (true, k);
  sys_listen _ k := (true, k);
  takes n k := (Some n, k);
  clock k := ((1000 + k, 250000 * k), k + 2) |}.
#[export] Program Instance room_willing : Willing (IrdaKernel0 := room false).
Next Obligation. by eexists. Qed.
Next Obligation. by eexists. Qed.
Next Obligation. by do 3 eexists. Qed.
Next Obligation. by eexists. Qed.
Next Obligation. by eexists. Qed.
Next Obligation. by eexists. Qed.
Next Obligation. by eexists. Qed.

Definition fresh (input : string) : spray Z :=
  mkSpray 0 [] [] [] (replicate (Z.to_nat buf_size) 0) input [] 0 "" "" [].

(** the conversation of a client in a crowded room that takes the second device, and
    its report *)
Example spray_conversation :
  ∃ s, main (IrdaKernel0 := room true) 0xffffffffffffffff "irdaspray"
      [("d"%char, ""); ("b"%char, "600"); ("n"%char, "4")] (fresh (" 2" +:+ nl))
    = Ok (inr 0, s) ∧ length (sent s) = 4%nat ∧
  out s = "Auto-connect has found more than one device..." +:+ nl
    +:+ "Discovered 2 devices :" +:+ nl
    +:+ "  [1] name:  printer, daddr: 0x12345678, doesn't have IrDISCARD" +:+ nl
    +:+ "  [2] name:  laptop, daddr: 0x00009abc, has service IrDISCARD" +:+ nl
    +:+ "Enter device number:We have been assigned Address 0x1A2B3C4D and LSAP 0x5F..." +:+ nl
    +:+ "Connected!" +:+ nl
    +:+ "Transmitted 2400 bytes in 2.500000 seconds (0.938 kbytes/s)" +:+ nl.
Proof. eexists. split; [vm_compute; reflexivity|]. by vm_compute. Qed.

Lemma spray_echo_witness :
  let g := mkSettings 64 3 true false false in
  let frames := replicate 3 (take 64 (replicate (Z.to_nat buf_size) 0)) in
  ∃ s1 t1 s2 sec1 usec1 sec2 usec2,
    ir_client (IrdaKernel0 := room false) 0xffffffffffffffff g (set_forks [0] (fresh ""))
    = Ok (inr 0, s1) ∧ sent s1 = frames ∧
    ir_server (IrdaKernel0 := room false) 0xffffffffffffffff g
      (set_clients [map Msg (sent s1)] (set_forks [0] (fresh ""))) = Ok (inr 0, t1) ∧
    sent t1 = frames ∧
    out t1 = "" +:+ starting g +:+ waiting +:+ "Connected!" +:+ nl +:+ served true frames
      +:+ "Disconnected!" +:+ nl ∧
    ir_client (IrdaKernel0 := room false) 0xffffffffffffffff g
      (set_forks [7] (set_incoming (map Msg (sent t1)) (fresh ""))) = Ok (inr 0, s2) ∧
    out s1 = "" +:+ connected +:+ report "Transmitted" 192 sec1 usec1 ∧
    out s2 = "" +:+ connected +:+ report "Received" 192 sec2 usec2.
Proof.
  intros g frames.
  apply (spray_echo (IrdaKernel0 := room false) 0xffffffffffffffff ltac:(done) g (fresh "")
    (set_forks [0] (fresh "")) [] [] [] 7); try done.
Defined.

Lemma spray_choice_witness :
  ∃ s', irdaspray_discover_devices (IrdaKernel0 := room true) 0xffffffffffffffff "IrECHO"
      (fresh ("2" +:+ nl)) = Ok (inr 0x9abc, s').
Proof.
  apply (spray_choice (IrdaKernel0 := room true) 0xffffffffffffffff "IrECHO"
    [mkDevice 0x12345678 "printer"; mkDevice 0x9abc "laptop"] 0 0 (fresh ("2" +:+ nl))); done.
Defined.

Lemma spray_server_leaks_witness :
  let s := set_forks [5; 6] (fresh "") in
  ∃ s', accept_loop (IrdaKernel0 := room false) 0xffffffffffffffff [[Msg [1]]; []] defaults s
    = Ok (inr (-1), s') ∧ open_fds s' = 0 + 2 ∧ sent s' = [] ∧ forks s' = [] ∧
    errors s' = [] ++ ["accept"].
Proof.
  intros s.
  apply (spray_server_leaks (IrdaKernel0 := room false) 0xffffffffffffffff defaults
    [[Msg [1]]; []] [5; 6] [] s); [done|done|by repeat constructor].
Defined.
