(* ===== verification/SprayIas.v ===== *)
(** * irdaspray: the tests of the service database (irsockets/irdaspray.c)

    [irias_play] and [irias_remove], which the program calls when it is built with
    SETIAS and DELIAS.  The kernel's database is a parameter; its laws are what
    the comments of the code expect of it: a new attribute is stored (what setting one that is
    there does, EINVAL under Linux, is left open: the tests never do it), those of the kernel are refused. *)
From Stdlib Require Import String Ascii.
From S2P Require Import Prelude CInt Printf Proc Spray.
Local Open Scope string_scope.
Local Open Scope list_scope.
Local Open Scope Z_scope.

Definition IAS_INTEGER := 1.
Definition IAS_STRING := 3.

(** the member of the union [attribute] that was written last *)
Inductive union :=
  | irda_attrib_int (n : Z)
  | irda_attrib_string (len : Z) (string_ : string).

(** The calls: [IRLMP_IAS_SET] gets the names, the type and the union;
    [IRLMP_IAS_GET] and [IRLMP_IAS_QUERY] give the type, and the union read as an
    integer and as a string. *)
Class IasKernel (K : Type) := {
  ias_set : string → string → Z → union → K → bool * K;
  ias_del : string → string → K → bool * K;
  ias_get : string → string → K → option (Z * Z * string) * K;
  ias_query : string → string → K → option (Z * Z * string) * K }.

Section ias.
Context {K : Type} `{!IasKernel K}.

Definition quoted (what s : string) : P (spray K) unit :=
  printf (what +:+ " = ``" +:+ s +:+ "''" +:+ nl).

(** one block of [irias_play]: the call, and its messages when it fails *)
Definition set_attribute (class attrib : string) (type : Z) (v : union) (name : string)
    : P (spray K) unit :=
  ok ← kcall (ias_set class attrib type v);
  if ok : bool then mret tt
  else printf ("Can't set " +:+ name +:+ " in IAS" +:+ nl);; perror "setsockopt".
Definition set_string (class attrib s name : string) : P (spray K) unit :=
  set_attribute class attrib IAS_STRING (irda_attrib_string (Z.of_nat (String.length s)) s) name.

(** the names of the two devices *)
Definition show_names : P (spray K) unit :=
  r ← kcall (ias_get "Device" "DeviceName");
  match r with
  | Some (_, _, s) => quoted "The name of our device is" s
  | None => mret tt
  end;;
  r ← kcall (ias_query "Device" "DeviceName");
  match r with
  | Some (_, _, s) => quoted "The name of the other device is" s
  | None => mret tt
  end.

Definition set_attributes (echo : bool) : P (spray K) unit :=
  set_attribute "my:object" "my:int" IAS_INTEGER (irda_attrib_int 45) "<my:object><my:int>";;
  set_string "my:object" "my:string" "The String" "<my:object><my:string>";;
  set_string "Device" "Owner" "Myself" "<Device><Owner>";;
  set_string (if echo then "IrECHO" else "IrDISCARD") "App-Name" "irdaspray.magic"
    "<IrECHO><App-Name>";;
  set_attribute "" "App-Version" IAS_INTEGER (irda_attrib_int 3) "<><App-Version>";;
  (* the type is still that of the block before *)
  set_attribute "Device" "DeviceName" IAS_INTEGER
    (irda_attrib_string (Z.of_nat (String.length "Linux")) "Linux") "<Device><DeviceName>".

Definition read_attributes : P (spray K) unit :=
  r ← kcall (ias_get "my:object" "my:int");
  match r with
  | Some (t, n, _) =>
      printf ("Type = " +:+ fmt_d (s32 t) +:+ nl);; printf ("Int = " +:+ fmt_d (s32 n) +:+ nl)
  | None => mret tt
  end;;
  r ← kcall (ias_get "my:object" "my:string");
  match r with
  | Some (t, _, s) => printf ("Type = " +:+ fmt_d (s32 t) +:+ nl);; quoted "String" s
  | None => mret tt
  end.

Definition irias_play (echo : bool) : P (spray K) unit :=
  show_names;; set_attributes echo;; read_attributes.

(** one block of [irias_remove] *)
Definition remove (class attrib name : string) (tells : bool) : P (spray K) unit :=
  ok ← kcall (ias_del class attrib);
  if ok : bool then mret tt
  else
    printf ("Can't remove " +:+ name +:+ " in IAS" +:+ nl);;
    pwhen tells (perror "setsockopt").

Definition irias_remove (echo : bool) : P (spray K) unit :=
  remove "my:object" "my:int" "<my:object><my:int>" true;;
  remove "my:object" "my:string" "<my:object><my:string>" true;;
  remove "Device" "Owner" "<Device><Owner>" true;;
  remove (if echo then "IrECHO" else "IrDISCARD") "App-Name" "<IrECHO><App-Name>" false;;
  remove "" "App-Version" "<><App-Version>" true;;
  remove "Device" "DeviceName" "<Device><DeviceName>" true;;
  remove "None" "None" "<None><None>" true.
End ias.

(** ** The database *)
Inductive attribute :=
  | AttrInt (n : Z)
  | AttrString (s : string).
Abbreviation database := (gmap (string * string) attribute).

(** A database of the attributes of the users; the attributes of the kernel can
    be neither set nor deleted, and one that is not there cannot be deleted.  The empty
    name of a class means the object of the socket. *)
Class IasLaws (K : Type) `{!IasKernel K} := {
  db : K → database;
  own : K → string;                         (* the object of the socket *)
  owned : string * string → bool;           (* the attributes of the kernel *)
  key k (class attrib : string) := (if String.eqb class "" then own k else class, attrib);
  set_int class attrib n k : owned (key k class attrib) = false →
    db k !! key k class attrib = None →
    ∃ k', ias_set class attrib IAS_INTEGER (irda_attrib_int n) k = (true, k') ∧
      own k' = own k ∧ db k' = <[key k class attrib := AttrInt n]> (db k);
  set_str class attrib s k : owned (key k class attrib) = false →
    db k !! key k class attrib = None →
    ∃ k', ias_set class attrib IAS_STRING (irda_attrib_string (Z.of_nat (String.length s)) s) k
      = (true, k') ∧ own k' = own k ∧ db k' = <[key k class attrib := AttrString s]> (db k);
  set_owned class attrib t v k : owned (key k class attrib) = true →
    ias_set class attrib t v k = (false, k);
  del_there class attrib k : owned (key k class attrib) = false →
    is_Some (db k !! key k class attrib) →
    ∃ k', ias_del class attrib k = (true, k') ∧ own k' = own k ∧
      db k' = delete (key k class attrib) (db k);
  del_not class attrib k :
    owned (key k class attrib) = true ∨ db k !! key k class attrib = None →
    ias_del class attrib k = (false, k);
  get_int class attrib n k : db k !! key k class attrib = Some (AttrInt n) →
    ∃ s, ias_get class attrib k = (Some (IAS_INTEGER, n, s), k);
  get_str class attrib s k : db k !! key k class attrib = Some (AttrString s) →
    ∃ n, ias_get class attrib k = (Some (IAS_STRING, n, s), k) }.

Section laws.
Context {K : Type} `{!IasKernel K, !IasLaws K}.
Variable e : bool.
Definition app_class : string := if e then "IrECHO" else "IrDISCARD".
Variables (name1 name2 : option (Z * Z * string)).

(** the names of the devices are read and the state stays *)
Definition reads (k : K) : Prop :=
  ias_get "Device" "DeviceName" k = (name1, k) ∧ ias_query "Device" "DeviceName" k = (name2, k).

Definition says (what : string) (r : option (Z * Z * string)) : string :=
  match r with
  | Some (_, _, s) => what +:+ " = ``" +:+ s +:+ "''" +:+ nl
  | None => ""
  end.

(** the state of the program with another kernel and more text *)
Definition goes (k : K) (t : string) (ps : list string) (s : spray K) : spray K :=
  set_text (out s +:+ t) (err s) (errors s ++ ps) (set_kernel k s).
Lemma goes_goes k1 t1 p1 k2 t2 p2 s :
  goes k2 t2 p2 (goes k1 t1 p1 s) = goes k2 (t1 +:+ t2) (p1 ++ p2) s.
Proof. unfold goes, set_text, set_kernel. cbn. by rewrite str_app_assoc, app_assoc. Qed.

Lemma set_int_ok class attrib n name k s :
  kernel s = k → owned (key k class attrib) = false → db k !! key k class attrib = None →
  ∃ k', set_attribute class attrib IAS_INTEGER (irda_attrib_int n) name s
        = Ok (inr tt, set_kernel k' s) ∧
    own k' = own k ∧ db k' = <[key k class attrib := AttrInt n]> (db k).
Proof.
  intros <- Ho Hn. destruct (set_int class attrib n _ Ho Hn) as (k' & E & H1 & H2).
  exists k'. split; [|done]. unfold set_attribute.
  by erewrite p_bind_ok by (unfold kcall; rewrite E; reflexivity).
Qed.
Lemma set_string_ok class attrib v name k s :
  kernel s = k → owned (key k class attrib) = false → db k !! key k class attrib = None →
  ∃ k', set_string class attrib v name s = Ok (inr tt, set_kernel k' s) ∧
    own k' = own k ∧ db k' = <[key k class attrib := AttrString v]> (db k).
Proof.
  intros <- Ho Hn. destruct (set_str class attrib v _ Ho Hn) as (k' & E & H1 & H2).
  exists k'. split; [|done]. unfold set_string, set_attribute.
  by erewrite p_bind_ok by (unfold kcall; rewrite E; reflexivity).
Qed.
Lemma remove_ok class attrib name b k s :
  kernel s = k → owned (key k class attrib) = false → is_Some (db k !! key k class attrib) →
  ∃ k', remove class attrib name b s = Ok (inr tt, set_kernel k' s) ∧
    own k' = own k ∧ db k' = delete (key k class attrib) (db k).
Proof.
  intros <- Ho Hd. destruct (del_there class attrib _ Ho Hd) as (k' & E & H1 & H2).
  exists k'. split; [|done]. unfold remove.
  by erewrite p_bind_ok by (unfold kcall; rewrite E; reflexivity).
Qed.
Lemma remove_not class attrib name s :
  owned (key (kernel s) class attrib) = true ∨ db (kernel s) !! key (kernel s) class attrib = None →
  remove class attrib name true s = Ok (inr tt, goes (kernel s)
    ("Can't remove " +:+ name +:+ " in IAS" +:+ nl) ["setsockopt"] s).
Proof.
  intros H. unfold remove.
  erewrite p_bind_ok by (unfold kcall; rewrite (del_not _ _ _ H); reflexivity). by destruct s.
Qed.
Lemma printf_goes t s : printf t s = Ok (inr tt, goes (kernel s) t [] s).
Proof. destruct s. unfold goes. cbn. by rewrite app_nil_r. Qed.

Lemma kcall_goes {A} (f : K → A * K) a s :
  f (kernel s) = (a, kernel s) → kcall f s = Ok (inr a, s).
Proof. intros E. unfold kcall. rewrite E. by destruct s. Qed.

Lemma says_ok what call r s :
  call (kernel s) = (r, kernel s) →
  (r ← kcall call; match r with Some (_, _, v) => quoted what v | None => mret tt end) s
  = Ok (inr tt, goes (kernel s) (says what r) [] s).
Proof.
  intros E. erewrite p_bind_ok by exact (kcall_goes _ _ s E).
  destruct r as [[[a b] v]|]; [apply printf_goes|].
  destruct s. unfold goes, says. cbn. by rewrite str_app_nil_r, app_nil_r.
Qed.

Lemma show_names_ok s : reads (kernel s) →
  show_names s = Ok (inr tt, goes (kernel s)
    (says "The name of our device is" name1 +:+ says "The name of the other device is" name2) [] s).
Proof.
  intros [R1 R2]. unfold show_names.
  rewrite <- p_bind_assoc.
  erewrite p_bind_ok by exact (says_ok _ _ name1 s R1).
  rewrite (says_ok _ _ name2) by exact R2. by rewrite goes_goes.
Qed.

Lemma read_attributes_ok n v s :
  db (kernel s) !! ("my:object", "my:int") = Some (AttrInt n) →
  db (kernel s) !! ("my:object", "my:string") = Some (AttrString v) →
  read_attributes s = Ok (inr tt, goes (kernel s)
    ("Type = 1" +:+ nl +:+ "Int = " +:+ fmt_d (s32 n) +:+ nl +:+ "Type = 3" +:+ nl
     +:+ "String = ``" +:+ v +:+ "''" +:+ nl) [] s).
Proof.
  intros D1 D2. destruct (get_int "my:object" "my:int" n (kernel s) D1) as [v1 G1].
  destruct (get_str "my:object" "my:string" v (kernel s) D2) as [v2 G2].
  unfold read_attributes. erewrite p_bind_ok by exact (kcall_goes _ _ s G1). cbv iota beta.
  rewrite p_bind_assoc. erewrite p_bind_ok by apply printf_goes.
  erewrite p_bind_ok by apply printf_goes.
  erewrite p_bind_ok by exact (kcall_goes _ _ (goes (kernel s) _ _ (goes (kernel s) _ _ s)) G2).
  cbv iota beta. erewrite p_bind_ok by apply printf_goes. unfold quoted. rewrite printf_goes.
  rewrite !goes_goes. cbn [goes set_text set_kernel kernel]. rewrite !str_app_assoc. done.
Qed.

(** the attributes that the tests make *)
Definition user_keys (k : K) : list (string * string) :=
  [("my:object", "my:int"); ("my:object", "my:string"); ("Device", "Owner"); (app_class, "App-Name");
   (own k, "App-Version")].

Definition played : string :=
  says "The name of our device is" name1 +:+ says "The name of the other device is" name2
  +:+ "Can't set <Device><DeviceName> in IAS" +:+ nl
  +:+ "Type = 1" +:+ nl +:+ "Int = 45" +:+ nl
  +:+ "Type = 3" +:+ nl +:+ "String = ``The String''" +:+ nl.

Definition with_tests (k : K) (d : database) : database :=
  <[(own k, "App-Version") := AttrInt 3]> (<[(app_class, "App-Name") := AttrString "irdaspray.magic"]>
  (<[("Device", "Owner") := AttrString "Myself"]>
  (<[("my:object", "my:string") := AttrString "The String"]>
  (<[("my:object", "my:int") := AttrInt 45]> d)))).

(** an attribute that was not there is not what was set since *)
Ltac absent D :=
  rewrite D; unfold key; cbn; rewrite ?lookup_insert_ne by (intros [=]); try done.

Lemma set_attributes_ok s :
  let k := kernel s in
  owned ("Device", "DeviceName") = true →
  Forall (λ x, owned x = false ∧ db k !! x = None) (user_keys k) →
  ∃ k', set_attributes e s
        = Ok (inr tt, goes k' ("Can't set <Device><DeviceName> in IAS" +:+ nl) ["setsockopt"] s) ∧
    own k' = own k ∧ db k' = with_tests k (db k).
Proof.
  intros k Hdev Hkeys.
  inversion_clear Hkeys as [|? ? [H1 N1] Hk1]. inversion_clear Hk1 as [|? ? [H2 N2] Hk2].
  inversion_clear Hk2 as [|? ? [H3 N3] Hk3]. inversion_clear Hk3 as [|? ? [H4 N4] Hk4].
  inversion_clear Hk4 as [|? ? [H5 N5] _].
  assert (∀ k, key k app_class "App-Name" = (app_class, "App-Name")) as Ka
    by (unfold app_class; by destruct e).
  unfold set_attributes.
  destruct (set_int_ok "my:object" "my:int" 45 "<my:object><my:int>" k s)
    as (k1 & E1 & O1 & D1); [done|exact H1|exact N1|]. erewrite p_bind_ok by exact E1.
  destruct (set_string_ok "my:object" "my:string" "The String" "<my:object><my:string>" k1
    (set_kernel k1 s)) as (k2 & E2 & O2 & D2);
    [done|exact H2|absent D1|]. erewrite p_bind_ok by exact E2.
  destruct (set_string_ok "Device" "Owner" "Myself" "<Device><Owner>" k2
    (set_kernel k2 (set_kernel k1 s))) as (k3 & E3 & O3 & D3); [done|exact H3|absent D2; absent D1|].
  erewrite p_bind_ok by exact E3.
  destruct (set_string_ok app_class "App-Name" "irdaspray.magic" "<IrECHO><App-Name>" k3
    (set_kernel k3 (set_kernel k2 (set_kernel k1 s)))) as (k4 & E4 & O4 & D4);
    [done|by rewrite Ka|rewrite Ka; absent D3; absent D2; absent D1|].
  erewrite p_bind_ok by exact E4.
  destruct (set_int_ok "" "App-Version" 3 "<><App-Version>" k4
    (set_kernel k4 (set_kernel k3 (set_kernel k2 (set_kernel k1 s))))) as (k5 & E5 & O5 & D5);
    [done|unfold key; cbn; by rewrite O4, O3, O2, O1|
     unfold key; cbn; rewrite O4, O3, O2, O1; absent D4; absent D3; absent D2; absent D1|].
  erewrite p_bind_ok by exact E5. set (s5 := set_kernel k5 _).
  exists k5. split; [|split; [congruence|]].
  - unfold set_attribute.
    erewrite p_bind_ok by (unfold kcall; rewrite set_owned by exact Hdev; reflexivity). by destruct s.
  - rewrite D5, D4, D3, D2, D1. unfold key, with_tests, app_class. cbn. rewrite O4, O3, O2, O1.
    by destruct e.
Qed.

Lemma irias_play_ok s :
  let k := kernel s in
  reads k → owned ("Device", "DeviceName") = true →
  Forall (λ x, owned x = false ∧ db k !! x = None) (user_keys k) →
  ∃ k', irias_play e s = Ok (inr tt, goes k' played ["setsockopt"] s) ∧
    own k' = own k ∧ db k' = with_tests k (db k).
Proof.
  intros k Hr Hdev Hkeys. unfold irias_play.
  erewrite p_bind_ok by exact (show_names_ok s Hr). set (s0 := goes _ _ _ s).
  destruct (set_attributes_ok s0 Hdev Hkeys) as (k5 & E5 & O & D).
  erewrite p_bind_ok by exact E5.
  rewrite (read_attributes_ok 45 "The String").
  - exists k5. split; [|done]. unfold s0. rewrite !goes_goes. unfold played. cbn [goes set_text set_kernel kernel].
    rewrite !str_app_assoc. done.
  - cbn [goes set_text set_kernel kernel]. rewrite D. unfold with_tests.
    rewrite !lookup_insert_ne by (intros [=]). by rewrite lookup_insert_eq.
  - cbn [goes set_text set_kernel kernel]. rewrite D. unfold with_tests.
    rewrite !lookup_insert_ne by (intros [=]). by rewrite lookup_insert_eq.
Qed.
(** an attribute that the tests made is there; and its deletion undoes its making *)
Ltac there D :=
  rewrite D; rewrite ?lookup_insert_ne by (intros [=]); rewrite lookup_insert_eq; by eexists.
Ltac deleted D0 D1 :=
  rewrite D0 in D1; rewrite ?delete_insert_ne in D1 by (intros [=]);
  rewrite delete_insert_id in D1
    by (rewrite ?lookup_insert_ne by (intros [=]); done).

Definition refused (what name : string) : string :=
  "Can't " +:+ what +:+ " " +:+ name +:+ " in IAS" +:+ nl.

Lemma irias_remove_ok s d :
  let k := kernel s in
  owned ("Device", "DeviceName") = true → Forall (λ x, owned x = false ∧ d !! x = None) (user_keys k) →
  d !! ("None", "None") = None → db k = with_tests k d →
  ∃ k', irias_remove e s = Ok (inr tt, goes k'
      (refused "remove" "<Device><DeviceName>" +:+ refused "remove" "<None><None>")
      ["setsockopt"; "setsockopt"] s) ∧
    own k' = own k ∧ db k' = d.
Proof.
  intros k Hdev Hkeys Hnone D0.
  inversion_clear Hkeys as [|? ? [H1 N1] Hk1]. inversion_clear Hk1 as [|? ? [H2 N2] Hk2].
  inversion_clear Hk2 as [|? ? [H3 N3] Hk3]. inversion_clear Hk3 as [|? ? [H4 N4] Hk4].
  inversion_clear Hk4 as [|? ? [H5 N5] _].
  unfold irias_remove, with_tests in *.
  destruct (remove_ok "my:object" "my:int" "<my:object><my:int>" true k s)
    as (k1 & E1 & O1 & D1); [done|exact H1|unfold key; cbn; there D0|].
  erewrite p_bind_ok by exact E1. unfold key in D1. cbn in D1. deleted D0 D1.
  destruct (remove_ok "my:object" "my:string" "<my:object><my:string>" true k1 (set_kernel k1 s))
    as (k2 & E2 & O2 & D2); [done|exact H2|unfold key; cbn; there D1|].
  erewrite p_bind_ok by exact E2. unfold key in D2. cbn in D2. deleted D1 D2.
  destruct (remove_ok "Device" "Owner" "<Device><Owner>" true k2 (set_kernel k2 (set_kernel k1 s)))
    as (k3 & E3 & O3 & D3); [done|exact H3|unfold key; cbn; there D2|].
  erewrite p_bind_ok by exact E3. unfold key in D3. cbn in D3. deleted D2 D3.
  assert (∀ k, key k app_class "App-Name" = (app_class, "App-Name")) as Ka
    by (unfold app_class; by destruct e).
  destruct (remove_ok app_class "App-Name" "<IrECHO><App-Name>" false k3
    (set_kernel k3 (set_kernel k2 (set_kernel k1 s)))) as (k4 & E4 & O4 & D4);
    [done|by rewrite Ka|rewrite Ka; there D3|].
  erewrite p_bind_ok by exact E4. rewrite Ka in D4. deleted D3 D4.
  assert (∀ a, key k4 "" a = (own k, a)) as Ko by (intros; unfold key; cbn; congruence).
  destruct (remove_ok "" "App-Version" "<><App-Version>" true k4
    (set_kernel k4 (set_kernel k3 (set_kernel k2 (set_kernel k1 s))))) as (k5 & E5 & O5 & D5);
    [done|by rewrite Ko|rewrite Ko; there D4|].
  erewrite p_bind_ok by exact E5. rewrite Ko in D5. deleted D4 D5. set (s5 := set_kernel k5 _).
  erewrite p_bind_ok by exact (remove_not "Device" "DeviceName" _ s5 (or_introl Hdev)).
  rewrite remove_not by (right; cbn [goes set_text set_kernel kernel s5]; by rewrite D5).
  rewrite goes_goes. exists k5. split; [|split; [congruence|done]].
  unfold refused. rewrite !str_app_assoc. by destruct s.
Qed.

(** C27: the tests leave the database as they found it: on a database without their
    attributes, [irias_play] makes the five attributes, reads two of them back
    with their types and values, and is refused the name of the device; after
    [irias_remove] each of the five is gone, the attributes of the kernel and of
    others are what they were, and the two removals that should fail
    are the ones that are told. *)
Theorem ias_tests_roundtrip s :
  let k := kernel s in
  reads k → owned ("Device", "DeviceName") = true →
  Forall (λ x, owned x = false ∧ db k !! x = None) (user_keys k) →
  db k !! ("None", "None") = None →
  ∃ k1 k2, irias_play e s = Ok (inr tt, goes k1 played ["setsockopt"] s) ∧
    db k1 = with_tests k (db k) ∧
    (irias_play e;; irias_remove e) s = Ok (inr tt, goes k2
      (played +:+ refused "remove" "<Device><DeviceName>" +:+ refused "remove" "<None><None>")
      ["setsockopt"; "setsockopt"; "setsockopt"] s) ∧
    db k2 = db k.
Proof.
  intros k Hr Hdev Hkeys Hnone.
  destruct (irias_play_ok s Hr Hdev Hkeys) as (k1 & E1 & O1 & D1).
  set (s1 := goes k1 _ _ s) in E1.
  destruct (irias_remove_ok s1 (db k)) as (k2 & E2 & _ & D2); [done| |done| |].
  { unfold user_keys. cbn [s1 goes set_text set_kernel kernel]. rewrite O1. exact Hkeys. }
  { cbn [s1 goes set_text set_kernel kernel]. rewrite D1. unfold with_tests. by rewrite O1. }
  exists k1, k2. split; [exact E1|]. split; [done|].
  split; [|exact D2]. erewrite p_bind_ok by exact E1. rewrite E2. unfold s1. by rewrite goes_goes.
Qed.
End laws.

(** ** A database for the examples: the object of the socket is IrECHO *)
Definition object_of (class attrib : string) : string * string :=
  (if String.eqb class "" then "IrECHO" else class, attrib).
Definition of_kernel (x : string * string) : bool := bool_decide (x = ("Device", "DeviceName")).

#[export] Instance ias_example : IasKernel database := {|
  ias_set class attrib t v k :=
    let x := object_of class attrib in
    if of_kernel x || bool_decide (is_Some (k !! x)) then (false, k)
    else match v with
         | irda_attrib_int n => if t =? IAS_INTEGER then (true, <[x := AttrInt n]> k) else (false, k)
         | irda_attrib_string _ s =>
             if t =? IAS_STRING then (true, <[x := AttrString s]> k) else (false, k)
         end;
  ias_del class attrib k :=
    let x := object_of class attrib in
    if of_kernel x then (false, k)
    else match k !! x with Some _ => (true, delete x k) | None => (false, k) end;
  ias_get class attrib k :=
    (match k !! object_of class attrib with
     | Some (AttrInt n) => Some (IAS_INTEGER, n, "")
     | Some (AttrString s) => Some (IAS_STRING, 0, s)
     | None => None
     end, k);
  ias_query class attrib k := (None, k) |}.

#[export] Program Instance ias_example_laws : IasLaws database :=
  {| db k := k; own _ := "IrECHO"; owned := of_kernel |}.
Next Obligation.
  intros class attrib n k H1 H2. cbn in *. unfold object_of. rewrite H1, H2.
  eexists. split; [reflexivity|]. by split.
Qed.
Next Obligation.
  intros class attrib n k H1 H2. cbn in *. unfold object_of. rewrite H1, H2.
  eexists. split; [reflexivity|]. by split.
Qed.
Next Obligation. intros. cbn in *. unfold object_of. by rewrite H. Qed.
Next Obligation.
  intros. cbn in *. unfold object_of. rewrite H. destruct H0 as [v Hv]. rewrite Hv. eexists. split; [reflexivity|]. by split.
Qed.
Next Obligation.
  intros class attrib k [H|H]; cbn in *; unfold object_of; rewrite H; [done|by destruct (of_kernel _)].
Qed.
Next Obligation. intros. cbn in *. unfold object_of. rewrite H. by eexists. Qed.
Next Obligation. intros. cbn in *. unfold object_of. rewrite H. by eexists. Qed.

Definition named : database :=
  {[ ("Device", "DeviceName") := AttrString "ws1"; ("me", "note") := AttrInt 7 ]}.
Definition ias_start : spray database := mkSpray named [] [] [] [] "" [] 1 "" "" [].

Lemma ias_tests_roundtrip_witness :
  ∃ k1 k2,
    irias_play false ias_start = Ok (inr tt,
      goes k1 (played (Some (IAS_STRING, 0, "ws1")) None) ["setsockopt"] ias_start) ∧
    db k1 = with_tests false named named ∧
    (irias_play false;; irias_remove false) ias_start = Ok (inr tt,
      goes k2 (played (Some (IAS_STRING, 0, "ws1")) None
               +:+ refused "remove" "<Device><DeviceName>" +:+ refused "remove" "<None><None>")
        ["setsockopt"; "setsockopt"; "setsockopt"] ias_start) ∧
    db k2 = named.
Proof.
  destruct (ias_tests_roundtrip false (Some (IAS_STRING, 0, "ws1")) None ias_start)
    as (k1 & k2 & E1 & D1 & E2 & D2); [done|done|by repeat constructor|done|].
  exists k1, k2. split; [exact E1|]. split; [exact D1|]. split; [exact E2|exact D2].
Defined.
