(* ===== verification/SprayOld.v ===== *)
(** * The older socket programs (irsockets/oldies/irdaspray.c, echo.c, client.c)

    Three programs: the client [irdaspray], the server [echo], also called
    [discard], and [client], which lists the devices.  The process and its messages are those of
    Spray.v; the sockets here are streams, so a message is what one [recv] finds of the
    stream. *)
From Stdlib Require Import String Ascii SpecFloat.
From S2P Require Import Prelude CInt Printf CFloat NetBuf CLib Proc Spray.
Local Open Scope string_scope.
Local Open Scope list_scope.
Local Open Scope Z_scope.

Record old_device := mkOld {
  old_daddr : Z;
  old_saddr : Z;
  old_info : string;
  hints0 : Z }.
Definition MAX_DEVICES := 10.
Definition sizeof_device_list := 40.
Definition sizeof_device_info := 36.

(** [list_hints n] is [getsockopt(IRLMP_ENUMDEVICES)] on [n] bytes: the bytes that it gave, [list->len]
    and the devices; [set_sdu], [get_sdu] are the option [IRTTP_MAX_SDU_SIZE] *)
Class OldKernel (K : Type) := {
  list_hints : Z → K → option (Z * Z * list old_device) * K;
  set_sdu : Z → K → bool * K;
  get_sdu : K → option Z * K }.

(** ** The client (irdaspray.c) *)
Module Client.
Record settings := mkSettings {
  mtu : Z;
  frame_size : Z;
  frame_number : Z;
  delay : Z;
  echo : bool }.
Definition defaults : settings := mkSettings 0 1024 100 0 false.
(** [sizeof(buf)] *)
Definition buf_size : Z := 4096.

Section client.
Context {K : Type} `{!IrdaKernel K} `{!OldKernel K}.
Variable ulong_max : Z.
Variable argv0 : string.

(** the first device that is a computer, of those the list holds *)
Fixpoint try_devices (n : nat) (devs : list old_device) : P (spray K) (option Z) :=
  match n, devs with
  | O, _ => mret None
  | S _, [] => stopped OobRead
  | S n, d :: devs =>
      printf ("  name:  " +:+ old_info d +:+ nl);;
      printf ("  daddr: " +:+ fmt_08x (u32 (old_daddr d)) +:+ nl);;
      printf ("  saddr: " +:+ fmt_08x (u32 (old_saddr d)) +:+ nl);;
      printf nl;;
      if truth (Z.land (hints0 d) HINT_COMPUTER) then
        printf ("Lets try this one" +:+ nl);;
        mret (Some (s32 (old_daddr d)))
      else try_devices n devs
  end.

Definition irdaspray_discover_devices : P (spray K) Z :=
  let len := sizeof_device_list + sizeof_device_info * MAX_DEVICES in
  r ← kcall (list_hints len);
  match r with
  | None => perror "getsockopt";; exit (-1)
  | Some (len, n, devs) =>
      found ← (if 0 <? len then
                 printf ("Discovered: (list len=" +:+ fmt_d (s32 n) +:+ ")" +:+ nl);;
                 try_devices (Z.to_nat (u32 n)) devs
               else mret None);
      match found with
      | Some daddr => mret daddr
      | None => printf ("Didn't find any devices!" +:+ nl);; mret (-1)
      end
  end.

(** the result, and the globals with the new [mtu] *)
Definition irdaspray_connect_request (g : settings) : P (spray K) (Z * settings) :=
  daddr ← irdaspray_discover_devices;
  if daddr =? -1 then mret (-1, g)
  else
    ok ← kcall (set_sdu (mtu g));
    if negb ok then perror "setsockopt";; exit (-1)
    else
      r ← kcall (sys_connect (u32 daddr) (if echo g then "IrECHO" else "IrDISCARD"));
      match r with
      | Some _ => perror "connect";; mret (-1, g)
      | None =>
          r ← kcall get_sdu;
          match r with
          | None => perror "getsockopt";; exit (-1)
          | Some m => mret (0, mkSettings m (frame_size g) (frame_number g) (delay g) (echo g))
          end
      end.

Definition irdaspray_transmit (g : settings) : P (spray K) Z :=
  add_up (Z.to_nat (frame_number g)) (send ulong_max buf_size (frame_size g)) 0.
Definition irdaspray_receive (g : settings) : P (spray K) Z :=
  add_up (Z.to_nat (frame_number g)) (recv buf_size) 0.

Definition usage : P (spray K) unit :=
  eprintf ("usage: " +:+ argv0
    +:+ " [-v] [-e] [-h] [-b frame-size] [-n frames] [-f file] [device]" +:+ nl);;
  eprintf ("      -v verbose" +:+ nl);;
  eprintf ("      -e use echo service for full duplex transfer" +:+ nl);;
  eprintf ("      -h print this message" +:+ nl);;
  eprintf ("      -s frame-size in bytes (default 1024)" +:+ nl);;
  eprintf ("      -n number of frames (default 100)" +:+ nl);;
  eprintf ("      -f file to preload buffer (zero buffer by default)" +:+ nl);;
  eprintf ("      -d inter-buffer transmission delay in usecs (default 0)" +:+ nl);;
  exit 1.

Definition option_case (c : ascii) (optarg : string) (g : settings) : P (spray K) settings :=
  let n := atoi ulong_max optarg in
  if Ascii.eqb c "m" then
    mret (mkSettings n (frame_size g) (frame_number g) (delay g) (echo g))
  else if Ascii.eqb c "e" then
    mret (mkSettings (mtu g) (frame_size g) (frame_number g) (delay g) true)
  else if Ascii.eqb c "h" then usage;; mret g
  else if Ascii.eqb c "n" then
    mret (mkSettings (mtu g) (frame_size g) n (delay g) (echo g))
  else if Ascii.eqb c "s" then
    mret (mkSettings (mtu g) n (frame_number g) (delay g) (echo g))
  else if Ascii.eqb c "d" then
    mret (mkSettings (mtu g) (frame_size g) (frame_number g) n (echo g))
  else usage;; mret g.
Fixpoint parse_options (l : list (ascii * string)) (g : settings) : P (spray K) settings :=
  match l with
  | [] => mret g
  | (c, optarg) :: l => g ← option_case c optarg g; parse_options l g
  end.

(** the process that [fork] gives no number transmits; its [wait] finds no child, and
    returns at once *)
Definition transfer (g : settings) : P (spray K) (Z * Z) :=
  if echo g then
    pid ← fork;
    total ← (if negb (pid =? 0) then irdaspray_receive g else irdaspray_transmit g);
    mret (pid, total)
  else total ← irdaspray_transmit g; mret (0, total).

Definition main (l : list (ascii * string)) : P (spray K) Z :=
  g ← parse_options l defaults;
  open_socket;;
  '(ret, g) ← irdaspray_connect_request g;
  if negb (ret =? 0) then mret (-1)
  else
    printf ("Connected!" +:+ nl);;
    start ← kcall clock;
    '(pid, total) ← transfer g;
    end_ ← kcall clock;
    printf (report (if negb (pid =? 0) then "Received" else "Transmitted") total
      (fst end_ - fst start) (snd end_ - snd start));;
    mret 0.
End client.
End Client.

(** ** The server (echo.c) *)
Module Echo.
(** [sizeof(buf)] *)
Definition buf_size : Z := 4098.

Section server.
Context {K : Type} `{!IrdaKernel K}.
Variable ulong_max : Z.
Variable argv0 : string.

(** [strcmp(argv[0], "discard") == 0] *)
Definition discard : bool := String.eqb argv0 "discard".
(** whether the loop on the messages sends them back *)
Definition personality : Spray.settings := Spray.mkSettings 0 0 (negb discard) true false.

(** one connection after the other, each to its end, in this process *)
Fixpoint accept_loop (cs : list (list message)) : P (spray K) Z :=
  printf ("Waiting for connection!" +:+ nl);;
  match cs with
  | [] => perror "accept";; mret (-1)
  | c :: cs =>
      pset (λ s, set_clients cs (set_incoming c (set_fds (open_fds s + 1) s)));;
      child ulong_max buf_size personality;;
      accept_loop cs
  end.

Definition main : P (spray K) Z :=
  (if discard then printf ("IrDA Discard server starting ..." +:+ nl)
   else printf ("IrDA Echo server starting ..." +:+ nl));;
  open_socket;;
  ok ← kcall (sys_bind (if discard then "IrDISCARD" else "IrECHO"));
  if negb ok then perror "bind";; mret (-1)
  else
    ok ← kcall (sys_listen 8);
    if negb ok then perror "listen";; mret (-1)
    else
      cs ← pget clients;
      accept_loop cs.
End server.
End Echo.

(** ** The list of the devices (client.c) *)
Module Lister.
Section lister.
Context {K : Type} `{!IrdaKernel K} `{!OldKernel K}.

Fixpoint show_devices (n : nat) (devs : list old_device) : P (spray K) unit :=
  match n, devs with
  | O, _ => mret tt
  | S _, [] => stopped OobRead
  | S n, d :: devs =>
      printf ("  name:  " +:+ old_info d +:+ nl);;
      printf ("  daddr: " +:+ fmt_08x (u32 (old_daddr d)) +:+ nl);;
      printf ("  saddr: " +:+ fmt_08x (u32 (old_saddr d)) +:+ nl);;
      printf nl;;
      show_devices n devs
  end.

Definition discover_devices : P (spray K) Z :=
  let len := sizeof_device_list + sizeof_device_info * MAX_DEVICES in
  r ← kcall (list_hints len);
  match r with
  | None => perror "getsockopt";; exit (-1)
  | Some (len, n, devs) =>
      printf ("len=" +:+ fmt_d (s32 len) +:+ nl);;
      (if 0 <? len then
         printf ("Discovered:" +:+ nl);;
         show_devices (Z.to_nat (u32 n)) devs
       else mret tt);;
      mret 0
  end.

(** up to the loop in which the program sleeps for ever *)
Definition main : P (spray K) unit :=
  open_socket;;
  printf ("sizeof(struct irda_device_list)=" +:+ fmt_d sizeof_device_list +:+ nl);;
  printf ("sizeof(struct irda_device_info)=" +:+ fmt_d sizeof_device_info +:+ nl);;
  discover_devices;;
  mret tt.
End lister.
End Lister.

(** ** The server serves its connections in turn *)
Definition of_chunks (css : list (list (list Z))) : list (list message) := map (map Msg) css.
(** what is printed of a connection *)
Definition connection_text (e : bool) (cs : list (list Z)) : string :=
  waiting +:+ "Connected!" +:+ nl +:+ served e cs +:+ "Disconnected!" +:+ nl.
Definition connections_text (e : bool) (css : list (list (list Z))) : string :=
  foldr (λ cs t, connection_text e cs +:+ t) "" css.

Section serving.
Context {K : Type} `{!IrdaKernel K} `{!Willing}.
Variable ulong_max : Z.
Hypothesis long32 : 2 ^ 32 ≤ ulong_max.
Variable argv0 : string.

Lemma takes_echo n (k : K) : 0 ≤ n ≤ Echo.buf_size → ∃ k', takes n k = (Some n, k').
Proof. intros Hn. apply takes_ok. unfold Echo.buf_size, buf_size in *. lia. Qed.

Lemma echo_loop_ok css (s : spray K) :
  Forall (Forall (fits Echo.buf_size)) css →
  ∃ s', Echo.accept_loop ulong_max argv0 (of_chunks css) s = Ok (inr (-1), s') ∧
    sent s' = sent s ++ (if Echo.discard argv0 then [] else concat css) ∧
    open_fds s' = open_fds s ∧ errors s' = errors s ++ ["accept"] ∧
    out s' = out s +:+ connections_text (negb (Echo.discard argv0)) css +:+ waiting.
Proof.
  revert s. induction css as [|cs css IH]; intros s Hall.
  - eexists. split; [reflexivity|]. cbn. destruct (Echo.discard argv0);
      rewrite ?app_nil_r; by repeat split.
  - pose proof (Forall_inv Hall) as Hcs. pose proof (Forall_inv_tail Hall) as Hall2.
    cbn [of_chunks map Echo.accept_loop]. erewrite p_bind_ok by reflexivity.
    erewrite p_bind_ok by reflexivity. set (s1 := set_clients _ _).
    destruct (child_ok ulong_max long32 Echo.buf_size ltac:(done) takes_echo
      (Echo.personality argv0) cs s1) as (s2 & E2 & S2 & F2 & _ & _ & R2 & O2); [done|done|].
    erewrite p_bind_ok by exact E2.
    destruct (IH s2 Hall2) as (s3 & E3 & S3 & F3 & R3 & O3).
    exists s3. split; [exact E3|].
    cbn [Echo.personality echo] in S2, O2. cbn [s1 set_clients set_incoming set_fds set_text sent
      open_fds errors out] in S2, F2, R2, O2.
    rewrite S3, S2, F3, F2, R3, R2, O3, O2. split; [|split; [lia|split; [done|]]].
    + destruct (Echo.discard argv0); cbn [negb concat]; by rewrite ?app_nil_r, <- ?app_assoc.
    + cbn [connections_text foldr]. unfold connection_text, waiting. by rewrite !str_app_assoc.
Qed.

(** the old server serves the connections one after the other, in its one process: called
    as anything but [discard] it sends back, on each, the pieces that it receives of the stream, in order,
    and shows each; it closes what it has accepted, and returns -1 when [accept] fails. *)
Lemma old_server_serves css (s : spray K) :
  Forall (Forall (fits Echo.buf_size)) css → clients s = of_chunks css →
  ∃ s', Echo.main ulong_max argv0 s = Ok (inr (-1), s') ∧
    sent s' = sent s ++ (if Echo.discard argv0 then [] else concat css) ∧
    open_fds s' = open_fds s + 1 ∧ errors s' = errors s ++ ["accept"] ∧
    out s' = out s
      +:+ (if Echo.discard argv0 then "IrDA Discard server starting ..." +:+ nl
           else "IrDA Echo server starting ..." +:+ nl)
      +:+ connections_text (negb (Echo.discard argv0)) css +:+ waiting.
Proof.
  intros Hall Hcl. unfold Echo.main.
  set (start := if Echo.discard argv0 then _ +:+ nl else _).
  assert ((if Echo.discard argv0 then printf ("IrDA Discard server starting ..." +:+ nl)
     else printf ("IrDA Echo server starting ..." +:+ nl)) s
    = Ok (inr tt, set_text (out s +:+ start) (err s) (errors s) s)) as E0.
  { unfold start. by destruct (Echo.discard argv0). }
  erewrite p_bind_ok by exact E0. set (s0 := set_text _ _ _ s).
  destruct (open_socket_ok s0) as (s1 & E1 & O1 & C1 & F1). erewrite p_bind_ok by exact E1.
  destruct (Spray.bind_ok (if Echo.discard argv0 then "IrDISCARD" else "IrECHO") (kernel s1))
    as [k2 E2].
  erewrite p_bind_ok by (apply kcall_ok, E2). cbn [negb].
  destruct (listen_ok 8 k2) as [k3 E3]. erewrite p_bind_ok by (apply kcall_ok, E3). cbn [negb].
  erewrite p_bind_ok by reflexivity.
  destruct C1 as (C1 & _ & _ & R1 & S1 & _ & _). cbn [set_kernel clients].
  rewrite C1. cbn [s0 set_text clients]. rewrite Hcl.
  destruct (echo_loop_ok css (set_kernel k3 (set_kernel k2 s1)) Hall) as (s4 & E4 & S4 & F4 & R4 & O4).
  exists s4. split; [exact E4|].
  cbn [set_kernel sent open_fds errors out] in S4, F4, R4, O4.
  rewrite S4, S1, F4, F1, R4, R1, O4, O1. cbn [s0 set_text sent open_fds errors out].
  by rewrite !str_app_assoc.
Qed.
End serving.

(** ** The client and the server *)
Definition computer (d : old_device) : bool := truth (Z.land (hints0 d) HINT_COMPUTER).
Definition device_text (d : old_device) : string :=
  "  name:  " +:+ old_info d +:+ nl +:+ "  daddr: " +:+ fmt_08x (u32 (old_daddr d)) +:+ nl
  +:+ "  saddr: " +:+ fmt_08x (u32 (old_saddr d)) +:+ nl +:+ nl.
(** the devices up to the first that is a computer *)
Fixpoint tried_text (devs : list old_device) : string :=
  match devs with
  | [] => ""
  | d :: devs => device_text d +:+ (if computer d then "Lets try this one" +:+ nl else tried_text devs)
  end.

(** a computer is in range, and takes connections and whole frames *)
Class OldWilling {K} `{!IrdaKernel K} `{!OldKernel K} := {
  old_socket k : ∃ k', sys_socket k = (true, k');
  old_listed n k : ∃ len devs d k',
    list_hints n k = (Some (len, Z.of_nat (length devs), devs), k') ∧ 0 < len ∧
    Z.of_nat (length devs) < 2 ^ 31 ∧ List.find computer devs = Some d ∧ s32 (old_daddr d) ≠ -1;
  old_sdu m k : ∃ k', set_sdu m k = (true, k');
  old_connect a name k : ∃ k', sys_connect a name k = (None, k');
  old_mtu k : ∃ m k', get_sdu k = (Some m, k');
  old_takes n k : 0 ≤ n ≤ Client.buf_size → ∃ k', takes n k = (Some n, k') }.

Section client.
Context {K : Type} `{!IrdaKernel K} `{!OldKernel K} `{!OldWilling}.
Variable ulong_max : Z.
Hypothesis long32 : 2 ^ 32 ≤ ulong_max.
Variable argv0 : string.

(** only the kernel and the text may change *)
Definition same_but_text (s s' : spray K) : Prop := same_conn s s' ∧ open_fds s' = open_fds s.
Lemma printf_ok t (s : spray K) :
  printf t s = Ok (inr tt, set_text (out s +:+ t) (err s) (errors s) s).
Proof. done. Qed.

Lemma try_devices_ok devs d (s : spray K) :
  List.find computer devs = Some d →
  Client.try_devices (length devs) devs s
  = Ok (inr (Some (s32 (old_daddr d))), set_text (out s +:+ tried_text devs) (err s) (errors s) s).
Proof.
  revert s. induction devs as [|x devs IH]; intros s Hf; [done|].
  cbn [List.find] in Hf. cbn [length Client.try_devices tried_text].
  do 4 erewrite p_bind_ok by apply printf_ok. fold (computer x).
  destruct (computer x).
  - injection Hf as ->. erewrite p_bind_ok by apply printf_ok. unfold mret, P_ret.
    unfold set_text. cbn. unfold device_text. by rewrite !str_app_assoc.
  - rewrite IH by done. unfold set_text. cbn. unfold device_text. by rewrite !str_app_assoc.
Qed.

Lemma old_connect_ok g (s : spray K) :
  ∃ s' m t, Client.irdaspray_connect_request g s
    = Ok (inr (0, Client.mkSettings m (Client.frame_size g) (Client.frame_number g)
                    (Client.delay g) (Client.echo g)), s') ∧
    out s' = out s +:+ t ∧ same_but_text s s'.
Proof.
  destruct (old_listed (sizeof_device_list + sizeof_device_info * MAX_DEVICES) (kernel s))
    as (len & devs & d & k1 & E1 & Hlen & Hn & Hd & Ha).
  unfold Client.irdaspray_connect_request.
  set (head := "Discovered: (list len=" +:+ fmt_d (s32 (Z.of_nat (length devs))) +:+ ")" +:+ nl).
  assert (Client.irdaspray_discover_devices s = Ok (inr (s32 (old_daddr d)),
    set_text ((out s +:+ head) +:+ tried_text devs) (err s) (errors s) (set_kernel k1 s))) as Hdisc.
  { unfold Client.irdaspray_discover_devices. erewrite p_bind_ok by (apply kcall_ok, E1).
    cbv iota beta. rewrite (proj2 (Z.ltb_lt _ _)) by done.
    rewrite p_bind_assoc. erewrite p_bind_ok by apply printf_ok.
    rewrite u32_small, Nat2Z.id by lia.
    erewrite p_bind_ok by (apply try_devices_ok, Hd). done. }
  erewrite p_bind_ok by exact Hdisc. rewrite (proj2 (Z.eqb_neq _ _)) by done.
  destruct (old_sdu (Client.mtu g) k1) as [k2 E2].
  erewrite p_bind_ok by (apply kcall_ok, E2). cbn [negb].
  destruct (old_connect (u32 (s32 (old_daddr d))) (if Client.echo g then "IrECHO" else "IrDISCARD") k2)
    as [k3 E3].
  erewrite p_bind_ok by (apply kcall_ok, E3). cbv iota beta.
  destruct (old_mtu k3) as (m & k4 & E4). erewrite p_bind_ok by (apply kcall_ok, E4). cbv iota beta.
  eexists _, m, (head +:+ tried_text devs). split; [reflexivity|].
  cbn. rewrite str_app_assoc. split; [done|]. by repeat split.
Qed.

(** [-e -s frame_size -n frame_number], as typed *)
Definition echo_args (b n : Z) : list (ascii * string) :=
  [("e"%char, ""); ("s"%char, fmt_u b); ("n"%char, fmt_u n)].

(** either side of the fork, once it has run its transfer *)
Lemma old_client_ok b n pid fs call total w (s : spray K) :
  0 ≤ b < 2 ^ 31 → 0 ≤ n < 2 ^ 31 → forks s = pid :: fs →
  (∀ g, Client.frame_size g = b → Client.frame_number g = n →
     call g = (if negb (pid =? 0) then Client.irdaspray_receive g
               else Client.irdaspray_transmit ulong_max g)) →
  (∀ g s1, Client.frame_size g = b → Client.frame_number g = n → sent s1 = sent s →
     buf s1 = buf s → incoming s1 = incoming s →
     ∃ s2, call g s1 = Ok (inr total, s2) ∧ sent s2 = w ∧ out s2 = out s1) →
  ∃ s' t sec usec, Client.main ulong_max argv0 (echo_args b n) s = Ok (inr 0, s') ∧ sent s' = w ∧
    out s' = out s +:+ t +:+ "Connected!" +:+ nl
      +:+ report (if negb (pid =? 0) then "Received" else "Transmitted") total sec usec.
Proof.
  intros Hb Hn Hf Hcall Hrun. unfold Client.main.
  set (g0 := Client.mkSettings 0 b n 0 true).
  assert (Client.parse_options ulong_max argv0 (echo_args b n) Client.defaults s = Ok (inr g0, s)) as Eo.
  { unfold g0. rewrite <- (atoi_printed ulong_max ltac:(lia) b) at 2 by done.
    by rewrite <- (atoi_printed ulong_max ltac:(lia) n) at 2 by done. }
  erewrite p_bind_ok by exact Eo. destruct (old_socket (kernel s)) as [k0 E0].
  assert (open_socket s = Ok (inr tt, set_fds (open_fds s + 1) (set_kernel k0 s))) as Es.
  { unfold open_socket. by erewrite p_bind_ok by (apply kcall_ok, E0). }
  erewrite p_bind_ok by exact Es. set (s0 := set_fds _ _).
  destruct (old_connect_ok g0 s0) as (s1 & m & t & E1 & O1 & ((_ & _ & F1 & _ & X1 & Y1 & Z1) & _)).
  erewrite p_bind_ok by exact E1. cbv iota beta. cbn [negb Z.eqb].
  set (g := Client.mkSettings m _ _ _ _). erewrite p_bind_ok by apply printf_ok.
  destruct (clock (kernel s1)) as [t1 k1] eqn:Ek1. erewrite p_bind_ok by (apply kcall_ok; exact Ek1).
  set (s2 := set_kernel k1 _).
  destruct (Hrun g (set_forks fs s2)) as (s3 & E3 & W3 & O3); [done|done|exact X1|exact Y1|exact Z1|].
  assert (Client.transfer ulong_max g s2 = Ok (inr (pid, total), s3)) as Et.
  { unfold Client.transfer. cbn [g Client.echo g0].
    assert (fork s2 = Ok (inr pid, set_forks fs s2)) as Ef.
    { unfold fork, s2. cbn [set_kernel set_text forks]. rewrite F1. cbn [s0 set_fds set_kernel forks].
      by rewrite Hf. }
    erewrite p_bind_ok by exact Ef. rewrite <- Hcall by done. by erewrite p_bind_ok by exact E3. }
  erewrite p_bind_ok by exact Et. cbv iota beta.
  destruct (clock (kernel s3)) as [t2 k2] eqn:Ek2. erewrite p_bind_ok by (apply kcall_ok; exact Ek2).
  erewrite p_bind_ok by apply printf_ok. eexists _, t, _, _. split; [reflexivity|].
  cbn [set_text set_kernel sent out]. split; [done|]. rewrite O3.
  cbn [set_forks s2 set_kernel set_text out]. rewrite O1. cbn [s0 set_fds set_kernel out].
  by rewrite !str_app_assoc.
Qed.
End client.

Lemma total_length_concat fs : total_length fs = Z.of_nat (length (concat fs)).
Proof. induction fs as [|f fs IH]; [done|]. cbn [concat total_length]. rewrite length_app, IH. lia. Qed.
Lemma total_length_app fs gs : total_length (fs ++ gs) = total_length fs + total_length gs.
Proof. rewrite !total_length_concat, concat_app, length_app. lia. Qed.
Lemma total_length_pos size fs : Forall (fits size) fs → Z.of_nat (length fs) ≤ total_length fs.
Proof. induction 1 as [|f fs Hf Hfs IH]; [done|]. cbn [total_length length]. unfold fits in Hf. lia. Qed.

Section session.
Context {K : Type} `{!IrdaKernel K} `{!OldKernel K} `{!Willing} `{!OldWilling}.
Variable ulong_max : Z.
Hypothesis long32 : 2 ^ 32 ≤ ulong_max.

(** the process that transmits *)
Lemma old_sender_ok b n fs argv (s : spray K) :
  0 < b ≤ Client.buf_size → 0 ≤ n < 2 ^ 31 → n * b < 2 ^ 31 → sent s = [] →
  ∃ s' x sec usec,
    Client.main ulong_max argv (echo_args b n) (set_forks (0 :: fs) s) = Ok (inr 0, s') ∧
    sent s' = replicate (Z.to_nat n) (take (Z.to_nat b) (buf s)) ∧
    out s' = out s +:+ x +:+ "Connected!" +:+ nl +:+ report "Transmitted" (n * b) sec usec.
Proof.
  intros Hb Hn Hmax Hs.
  destruct (old_client_ok ulong_max long32 argv b n 0 fs (Client.irdaspray_transmit ulong_max)
    (n * b) (replicate (Z.to_nat n) (take (Z.to_nat b) (buf s))) (set_forks (0 :: fs) s))
    as (s1 & x & sec & usec & E & S & O); [unfold Client.buf_size in *; lia|lia|done|done| |].
  { intros g u Gb Gn Su Bu _. unfold Client.irdaspray_transmit. rewrite Gb, Gn.
    destruct (transmit_ok ulong_max long32 Client.buf_size ltac:(done) old_takes (Z.to_nat n) b 0 u)
      as (u' & E & S & O & _); [lia|lia|lia|].
    exists u'. rewrite E. split; [do 3 f_equal; lia|]. split; [|done].
    rewrite S, Su, Bu. cbn [set_forks sent buf]. by rewrite Hs. }
  exists s1, x, sec, usec. split; [exact E|]. by split.
Qed.

(** [n] calls of [recv] take the first [n] pieces; when fewer are left, the others find the end
    of the stream *)
Lemma add_up_end size n total (s : spray K) :
  incoming s = [] → 0 ≤ total < 2 ^ 31 → add_up n (recv size) total s = Ok (inr total, s).
Proof.
  intros Hi Ht. induction n as [|n IH]; [done|]. cbn [add_up].
  assert (recv size s = Ok (inr 0, s)) as E
    by (unfold recv; erewrite p_bind_ok by reflexivity; by rewrite Hi).
  erewrite p_bind_ok by exact E.
  by rewrite Z.add_0_r, s32_small by lia.
Qed.
Lemma receive_first size n ds total (s : spray K) :
  incoming s = map Msg ds → Forall (λ f, Z.of_nat (length f) ≤ size) ds →
  0 ≤ total → total + total_length ds < 2 ^ 31 →
  ∃ s', add_up n (recv size) total s = Ok (inr (total + total_length (take n ds)), s') ∧
    sent s' = sent s ∧ out s' = out s.
Proof.
  revert ds total s. induction n as [|n IH]; intros ds total s Hi Hall Hlo Hmax.
  - exists s. cbn. by rewrite Z.add_0_r.
  - destruct ds as [|d ds]; cbn [take total_length] in *.
    { exists s. rewrite Z.add_0_r. rewrite add_up_end by (done || lia). done. }
    apply Forall_cons in Hall as [Hd Hall]. pose proof (total_length_nonneg ds).
    destruct (recv_ok size d (map Msg ds) s Hi Hd) as (s1 & E1 & I1 & _ & S1 & O1 & _).
    cbn [add_up]. erewrite p_bind_ok by exact E1. rewrite s32_small by lia.
    destruct (IH ds (total + Z.of_nat (length d)) s1) as (s2 & E2 & S2 & O2); [done..|lia|lia|].
    exists s2. rewrite E2. split; [do 3 f_equal; lia|]. by rewrite S2, S1, O2, O1.
Qed.

(** the process that receives, on a stream that comes in the pieces [ds] *)
Lemma old_receiver_ok b n fs pid ds argv (s : spray K) :
  0 ≤ b < 2 ^ 31 → 0 ≤ n < 2 ^ 31 → sent s = [] → pid ≠ 0 →
  Forall (fits Client.buf_size) ds → total_length ds < 2 ^ 31 →
  ∃ s' x sec usec,
    Client.main ulong_max argv (echo_args b n) (set_forks (pid :: fs) (set_incoming (map Msg ds) s))
    = Ok (inr 0, s') ∧
    out s' = out s +:+ x +:+ "Connected!" +:+ nl
      +:+ report "Received" (total_length (take (Z.to_nat n) ds)) sec usec.
Proof.
  intros Hb Hn Hs Hpid Hds Hmax. set (got := take (Z.to_nat n) ds).
  assert (Hgot : Forall (fits Client.buf_size) got) by by apply Forall_take.
  assert (Hsplit : total_length got + total_length (drop (Z.to_nat n) ds) = total_length ds).
  { rewrite <- total_length_app. unfold got. by rewrite take_drop. }
  pose proof (total_length_nonneg got). pose proof (total_length_nonneg (drop (Z.to_nat n) ds)).
  destruct (old_client_ok ulong_max long32 argv b n pid fs Client.irdaspray_receive
    (total_length got) [] (set_forks (pid :: fs) (set_incoming (map Msg ds) s)))
    as (s2 & x & sec & usec & E3 & _ & O3); [lia|lia|done| | |].
  { intros g _ _. by rewrite (proj2 (Z.eqb_neq _ _) Hpid). }
  { intros g u _ Gn Su _ Iu. cbn in Iu. unfold Client.irdaspray_receive. rewrite Gn.
    destruct (receive_first Client.buf_size (Z.to_nat n) ds 0 u) as (u' & E & S & O);
      [exact Iu|eapply Forall_impl; [exact Hds|]; by intros f [_ Hf]|done|lia|].
    exists u'. rewrite E, S, Su. split; [done|]. split; [exact Hs|done]. }
  exists s2, x, sec, usec. split; [exact E3|]. rewrite O3. by rewrite (proj2 (Z.eqb_neq _ _) Hpid).
Qed.

(** the first [n] of the pieces are all of the bytes exactly when there are no more than [n] *)
Lemma pieces_counted size n ds :
  Forall (fits size) ds → 0 ≤ n →
  total_length (take (Z.to_nat n) ds) = total_length ds ↔ Z.of_nat (length ds) ≤ n.
Proof.
  intros Hds Hn. rewrite <- (take_drop (Z.to_nat n) ds) at 2. rewrite total_length_app.
  pose proof (total_length_pos size (drop (Z.to_nat n) ds) ltac:(by apply Forall_drop)) as Hp.
  rewrite length_drop in Hp. split; intros Heq; [lia|]. rewrite drop_ge by lia. cbn. lia.
Qed.

End session.

(** ** Every run ends *)
Section ending.
Context {K : Type} `{!IrdaKernel K} `{!OldKernel K}.
Variable ulong_max : Z.
Variable argv0 : string.
#[local] Hint Resolve ends_kcall ends_fork ends_open ends_send ends_recv ends_child : ends.
Ltac ends :=
  repeat first [ends_step | match goal with
  | |- ends (printf _) => unfold printf
  | |- ends (eprintf _) => unfold eprintf
  | |- ends (perror _) => unfold perror
  end].

Lemma ends_try n devs : ends (S:=spray K) (Client.try_devices n devs).
Proof. revert devs. induction n; intros devs; destruct devs; cbn [Client.try_devices]; ends. Qed.
Lemma ends_show n devs : ends (S:=spray K) (Lister.show_devices n devs).
Proof. revert devs. induction n; intros devs; destruct devs; cbn [Lister.show_devices]; ends. Qed.
Lemma ends_old_options l g : ends (S:=spray K) (Client.parse_options ulong_max argv0 l g).
Proof.
  revert g. induction l as [|[c a] l IH]; intros g; cbn [Client.parse_options]; [ends|].
  unfold Client.option_case, Client.usage. ends.
Qed.
#[local] Hint Resolve ends_try ends_show ends_old_options : ends.
Lemma ends_old_connect g : ends (S:=spray K) (Client.irdaspray_connect_request g).
Proof. unfold Client.irdaspray_connect_request, Client.irdaspray_discover_devices. ends. Qed.
Lemma ends_transfer g : ends (S:=spray K) (Client.transfer ulong_max g).
Proof.
  assert (ends (S:=spray K) (Client.irdaspray_receive g)) by (apply ends_add_up; auto with ends).
  assert (ends (S:=spray K) (Client.irdaspray_transmit ulong_max g)) by (apply ends_add_up; auto with ends).
  unfold Client.transfer. ends.
Qed.
#[local] Hint Resolve ends_old_connect ends_transfer : ends.
Lemma ends_echo_loop cs : ends (S:=spray K) (Echo.accept_loop ulong_max argv0 cs).
Proof. induction cs; cbn [Echo.accept_loop]; ends. Qed.
#[local] Hint Resolve ends_echo_loop : ends.

(** the three programs end, whatever the options, the kernel, the peers (the list of
    the devices up to its last sleep) *)
Theorem old_programs_end l (s : spray K) :
  Client.main ulong_max argv0 l s ≠ Stop OutOfFuel ∧
  Echo.main ulong_max argv0 s ≠ Stop OutOfFuel ∧ Lister.main s ≠ Stop OutOfFuel.
Proof.
  assert (H1 : ends (S:=spray K) (Client.main ulong_max argv0 l)) by (unfold Client.main; ends).
  assert (H2 : ends (S:=spray K) (Echo.main ulong_max argv0)) by (unfold Echo.main; ends).
  assert (H3 : ends (S:=spray K) Lister.main)
    by (unfold Lister.main, Lister.discover_devices; ends).
  auto.
Qed.
End ending.

(** ** A kernel for the examples: a printer and a computer in range *)
#[export] Instance old_room : OldKernel Z := {|
  list_hints _ k := (Some (112, 2, [mkOld 0x1111 0x2222 "printer" 0x08;
                                    mkOld 0x9abc 0x2222 "laptop" 0x04]), k);
  set_sdu _ k := (true, k);
  get_sdu k := (Some 2042, k) |}.
#[export] Program Instance old_room_willing : OldWilling (IrdaKernel0 := room false).
Next Obligation. by eexists. Qed.
Next Obligation.
  eexists 112, [_; _], _, k. split; [reflexivity|]. split; [done|]. split; [done|].
  split; [reflexivity|done].
Qed.
Next Obligation. by eexists. Qed.
Next Obligation. by eexists. Qed.
Next Obligation. by do 2 eexists. Qed.
Next Obligation. by eexists. Qed.

Definition old_fresh : spray Z :=
  mkSpray 0 [] [] [] (replicate (Z.to_nat Client.buf_size) 7) "" [] 0 "" "" [].

(** the list of the devices; a frame larger than the buffer is read beyond it; the options of
    the usage that the program does not have; the server called by its path echoes *)
Example old_examples :
  (∃ s, Lister.main (IrdaKernel0 := room false) old_fresh = Ok (inr tt, s) ∧
     out s = "sizeof(struct irda_device_list)=40" +:+ nl
       +:+ "sizeof(struct irda_device_info)=36" +:+ nl +:+ "len=112" +:+ nl +:+ "Discovered:" +:+ nl
       +:+ "  name:  printer" +:+ nl +:+ "  daddr: 00001111" +:+ nl +:+ "  saddr: 00002222" +:+ nl
       +:+ nl +:+ "  name:  laptop" +:+ nl +:+ "  daddr: 00009abc" +:+ nl
       +:+ "  saddr: 00002222" +:+ nl +:+ nl) ∧
  Client.main (IrdaKernel0 := room false) 0xffffffffffffffff "irdaspray" [("s"%char, "5000")] old_fresh
    = Stop OobRead ∧
  (∃ s, Client.main (IrdaKernel0 := room false) 0xffffffffffffffff "irdaspray" [("v"%char, "")] old_fresh
    = Ok (inl 1, s)) ∧
  Echo.discard "discard" = true ∧ Echo.discard "./discard" = false.
Proof.
  split; [eexists; split; vm_compute; reflexivity|]. split; [by vm_compute|].
  split; [eexists; vm_compute; reflexivity|done].
Qed.

