(* ===== verification/IrSock.v ===== *)
(** * The small programs of irsockets/

    [irscanf] and [irscanfx] send the lines typed to a socket, [irprintf] and
    [irprintfx] show what arrives at one, as a stream and as reads; [send_ultra] and
    [recv_ultra] do the same with single packets; [ias_query] shows an attribute of a
    service database.  The answers of the system calls are parameters. *)
From Stdlib Require Import String Ascii.
From S2P Require Import Prelude CInt Printf CLib Proc.
Local Open Scope string_scope.
Local Open Scope list_scope.
Local Open Scope Z_scope.

(** a program with a terminal and a socket, which takes all that is written: what is
    typed, what is sent, what is shown, the messages on [stderr] ([perror] by the call it names) *)
Record term := mkTerm {
  input : string;
  wire : string;
  shown : string;
  errors : list string }.

Definition printf t : P term unit :=
  pset (λ s, mkTerm (input s) (wire s) (shown s +:+ t) (errors s)).
Definition perror t : P term unit :=
  pset (λ s, mkTerm (input s) (wire s) (shown s) (errors s ++ [t])).
Definition put_wire t : P term unit :=
  pset (λ s, mkTerm (input s) (wire s +:+ t) (shown s) (errors s)).
Definition set_input t : P term unit := pset (λ s, mkTerm t (wire s) (shown s) (errors s)).

(** the character that ends a conversation *)
Definition etx : ascii := chr 3.
Definition starts (c : ascii) (s : string) : bool :=
  match s with String d _ => Ascii.eqb d c | EmptyString => false end.

(** [strncpy(buf, s, n); buf[n] = 0] *)
Definition cut (n : nat) (s : string) : string := str_take n (c_str s).
(** ... without the terminator: a longer string runs into what is behind *)
Definition cut_open (n : nat) (junk s : string) : string :=
  let s := c_str s in
  if (String.length s <? n)%nat then s else str_take n s +:+ c_str junk.

(** what the system calls answer *)
Record calls := mkCalls {
  socket_ok : bool;
  hints_ok : bool;
  connect_ok : bool;
  fdopen_ok : bool;
  bind_ok : bool;
  listen_ok : bool }.

Section sockets.
Variable sys : calls.

(** ** irscanf and irscanfx *)
Definition BUF_IN : nat := 4096.

(** the choice of a device (its call is compiled out): what [getsockopt] gives is
    [list->len] and the devices with their addresses and names, as the kernel stored them *)
Definition irscanf_discover_devices (found : option (Z * list (Z * string))) : P term Z :=
  let none := perror "getsockopt";; printf ("Didn't find any devices!" +:+ nl);; mret (-1) in
  match found with
  | None => none
  | Some (len, devs) =>
      if u32 len =? 0 then none
      else
        printf ("Discovered " +:+ fmt_d (s32 len) +:+ " devices :" +:+ nl);;
        (fix list_devices (n : nat) (i : Z) (devs : list (Z * string)) : P term unit :=
           match n, devs with
           | O, _ => mret tt
           | S _, [] => stopped OobRead
           | S n, (daddr, info) :: devs =>
               printf ("  [" +:+ fmt_d (i + 1) +:+ "] name:  " +:+ info +:+ ", daddr: 0x"
                 +:+ fmt_08x (u32 daddr) +:+ nl);;
               list_devices n (i + 1) devs
           end) (Z.to_nat (u32 len)) 0 devs;;
        printf ("Lets try this one" +:+ nl);;
        match devs with
        | (daddr, _) :: _ => mret (s32 daddr)
        | [] => stopped OobRead
        end
  end.

(** the loop; [fgets] reads into [buf], and a string ends at its first null character *)
Fixpoint push_lines (fuel : nat) : P term unit :=
  match fuel with
  | O => stopped OutOfFuel
  | S fuel =>
      t ← pget input;
      match fgets BUF_IN t with
      | None => put_wire (String etx "")
      | Some (line, rest) =>
          set_input rest;;
          if starts "." line then put_wire (String etx "")
          else put_wire (c_str line);; if starts etx line then mret tt else push_lines fuel
      end
  end.

(** both programs; [file] is the one that works on a stream *)
Definition scanf_session (file : bool) : P term Z :=
  if negb (socket_ok sys) then perror "socket";; exit (-1)
  else if negb (hints_ok sys) then perror "setsockopt-hints";; exit (-1)
  else if negb (connect_ok sys) then perror "connect";; mret (-1)
  else if file && negb (fdopen_ok sys) then perror "fdopen";; mret (-1)
  else
    printf ("Connected!" +:+ nl);;
    printf ("Type your text with '.' on the last line..." +:+ nl);;
    t ← pget input;
    push_lines (S (String.length t));;
    printf ("Closing connection..." +:+ nl);;
    mret 0.
Definition irscanf_main : P term Z := scanf_session true.
Definition irscanfx_main : P term Z := scanf_session false.

(** ** irprintf *)
Definition BUF_OUT : nat := 4098.

(** the lines of one connection *)
Fixpoint show_lines (fuel : nat) (stream : string) : P term unit :=
  match fuel with
  | O => stopped OutOfFuel
  | S fuel =>
      match fgets BUF_OUT stream with
      | None => mret tt
      | Some (line, rest) =>
          if starts etx line then mret tt
          else
            printf (c_str line);;
            match c_str line with
            | EmptyString => mret tt
            | _ => show_lines fuel rest
            end
      end
  end.

(** the connections, each a stream; then [accept] fails *)
Fixpoint show_connections (cs : list string) : P term Z :=
  printf ("Waiting for connection!" +:+ nl);;
  match cs with
  | [] => perror "accept";; mret (-1)
  | c :: cs =>
      if negb (fdopen_ok sys) then perror "fdopen";; mret (-1)
      else
        printf ("Connected!" +:+ nl);;
        show_lines (S (String.length c)) c;;
        printf ("Disconnected!" +:+ nl);;
        show_connections cs
  end.

(** [rest]: what comes after the socket is open *)
Definition listen_then (rest : P term Z) : P term Z :=
  printf ("IrDA printf server starting ..." +:+ nl);;
  if negb (socket_ok sys) then perror "socket";; exit (-1)
  else if negb (bind_ok sys) then perror "bind";; mret (-1)
  else if negb (listen_ok sys) then perror "listen";; mret (-1)
  else rest.
Definition irprintf_main (cs : list string) : P term Z := listen_then (show_connections cs).

(** ** irprintfx: the reads of a connection, each of at most the size of the buffer;
    [None] is a read that fails *)
Fixpoint show_reads (reads : list (option string)) : P term unit :=
  match reads with
  | [] | None :: _ => mret tt
  | Some r :: reads =>
      match r with
      | EmptyString => mret tt
      | String c _ =>
          if Ascii.eqb c etx then mret tt
          else printf r;; if ord c =? 0 then mret tt else show_reads reads
      end
  end.

Fixpoint show_sockets (cs : list (list (option string))) : P term Z :=
  printf ("Waiting for connection!" +:+ nl);;
  match cs with
  | [] => perror "accept";; mret (-1)
  | c :: cs =>
      printf ("Connected!" +:+ nl);;
      show_reads c;;
      printf ("Disconnected!" +:+ nl);;
      show_sockets cs
  end.
Definition irprintfx_main (cs : list (list (option string))) : P term Z :=
  listen_then (show_sockets cs).

(** ** send_ultra and recv_ultra *)
Definition UPID := 0x3.
Definition ULTRA_BUF : Z := 382.

Definition send_ultra_main (args : list string) : P term Z :=
  let buf := match args with [] => "Ultra-Test" | a :: _ => cut 380 a end in
  if negb (socket_ok sys) then perror "Creating socket";; mret (-1)
  else if negb (bind_ok sys) then perror "Connect";; mret (-1)
  else
    printf ("Ready to send on Ultra-PID " +:+ fmt_d UPID +:+ nl);;
    put_wire (buf +:+ String (chr 0) "");;
    printf ("Sent Ultra packet ``" +:+ buf +:+ "''" +:+ nl);;
    mret 0.

(** the packets that arrive before the program is stopped; [None] is a [recv] that
    fails.  The bytes that a packet leaves of the one before lie behind its
    terminator. *)
Fixpoint show_packets (packets : list (option string)) : P term unit :=
  match packets with
  | [] => mret tt
  | None :: _ => stopped OobWrite
  | Some p :: packets =>
      let p := str_take (Z.to_nat ULTRA_BUF) p in
      if Z.of_nat (String.length p) <? ULTRA_BUF then
        printf ("Received packet ``" +:+ c_str p +:+ "''" +:+ nl);;
        show_packets packets
      else stopped OobWrite
  end.
Definition recv_ultra_main (packets : list (option string)) : P term Z :=
  if negb (socket_ok sys) then perror "Creating socket";; mret (-1)
  else if negb (bind_ok sys) then perror "Connect";; mret (-1)
  else
    printf ("Waiting for Ultra packets on UPID " +:+ fmt_d UPID +:+ "..." +:+ nl);;
    show_packets packets;;
    mret 0.

(** ** ias_query *)
Definition IAS_MISSING := 0.
Definition IAS_INTEGER := 1.
Definition IAS_OCT_SEQ := 2.
Definition IAS_STRING := 3.
Definition IAS_MAX_CLASSNAME : nat := 60.
Definition IAS_MAX_ATTRIBNAME : nat := 60.

(** the answer: [len], the type, the union as an integer and as a string *)
Record answer := mkAnswer { ans_len : Z; ans_type : Z; ans_int : Z; ans_string : string }.

Variable ulong_max : Z.
(** the answer for an address and two names *)
Variable lookup_ias : Z → string → string → option answer.
(** what the structure held before: the address, the ends of the names *)
Variable daddr_junk : Z.
Variables class_junk attrib_junk : string.

Definition ias_query (daddr : Z) (class attrib : string) : P term Z :=
  printf ("Querying for " +:+ class +:+ ":" +:+ attrib +:+ nl);;
  match lookup_ias (if daddr =? 0 then daddr_junk else u32 daddr)
          (cut_open IAS_MAX_CLASSNAME class_junk class)
          (cut_open IAS_MAX_ATTRIBNAME attrib_junk attrib) with
  | None => perror "getsockopt";; exit (-1)
  | Some a =>
      pwhen (0 <? ans_len a) (
        printf ("Success2" +:+ nl);;
        if ans_type a =? IAS_INTEGER then
          printf (class +:+ ":" +:+ attrib +:+ "=" +:+ fmt_d (s32 (ans_int a)) +:+ nl)
        else if ans_type a =? IAS_OCT_SEQ then printf ("got octseq" +:+ nl)
        else if ans_type a =? IAS_STRING then
          printf (class +:+ ":" +:+ attrib +:+ "=" +:+ c_str (ans_string a) +:+ nl)
        else if ans_type a =? IAS_MISSING then printf ("Missing!" +:+ nl)
        else printf ("Unknown type " +:+ fmt_d (s32 (ans_type a)) +:+ "!" +:+ nl));;
      mret 0
  end.

(** the arguments after the name of the program *)
Definition ias_query_main (argv0 : string) (args : list string) : P term Z :=
  if negb (socket_ok sys) then perror "socket";; exit (-1)
  else
    match args with
    | a :: class :: attrib :: _ =>
        match scan_x ulong_max a with
        | None => perror ("Invalid address: " +:+ dq +:+ a +:+ dq +:+ "..." +:+ nl);; mret 0
        | Some (iraddr, _) => ias_query (s32 iraddr) class attrib;; mret 0
        end
    | _ => perror ("Usage : " +:+ argv0 +:+ " iraddr class attrib" +:+ nl);; mret 0
    end.
End sockets.

(** ** A text from one terminal to another *)
Definition willing : calls := mkCalls true true true true true true.

(** a line that is neither the end of the text nor of the conversation, and fits *)
Definition plain_line (l : string) : Prop :=
  str_all not_newline l = true ∧ str_all not_nul l = true ∧ starts "." l = false ∧
  starts etx l = false ∧ (String.length l + 2 ≤ BUF_IN)%nat.

Lemma plain_starts c l : Ascii.eqb "010" c = false → starts c l = false →
  starts c (l +:+ nl) = false.
Proof. destruct l as [|d l]; [|done]. intros H _. exact H. Qed.
Lemma plain_c_str l : str_all not_nul l = true → c_str (l +:+ nl) = l +:+ nl.
Proof. intros H. apply c_str_all. by rewrite str_all_app, H. Qed.

Lemma push_lines_ok ls rest fuel s :
  Forall plain_line ls → rest = "" ∨ starts "." rest = true →
  input s = text ls +:+ rest → (length ls < fuel)%nat →
  ∃ i, push_lines fuel s
       = Ok (inr tt, mkTerm i (wire s +:+ text ls +:+ String etx "") (shown s) (errors s)).
Proof.
  intros Hls Hrest. revert fuel s. induction Hls as [|l ls Hl Hls IH]; intros fuel s Hin Hf;
    (destruct fuel as [|fuel]; [cbn in Hf; lia|]); cbn [push_lines];
    (erewrite p_bind_ok by reflexivity); rewrite Hin.
  - cbn [text foldr]. rewrite str_app_nil_l. destruct Hrest as [->|Hdot].
    + exists (input s). by destruct s.
    + destruct (fgets_some BUF_IN rest) as (c & l & r & -> & E); [unfold BUF_IN; lia|by intros ->|].
      assert (starts "." (String c l) = true) as -> by (by rewrite E in Hdot).
      exists r. by erewrite p_bind_ok by reflexivity.
  - destruct Hl as (Hnl & Hnul & Hdot & Hetx & Hlen).
    assert (text (l :: ls) +:+ rest = l +:+ nl +:+ text ls +:+ rest) as ->
      by (cbn [text foldr]; by rewrite !str_app_assoc).
    rewrite fgets_whole by done. erewrite p_bind_ok by reflexivity.
    rewrite !plain_starts by done. rewrite plain_c_str by done. erewrite p_bind_ok by reflexivity.
    edestruct (IH fuel) as (i & ->); [|cbn [length] in Hf; lia|].
    2: { exists i. cbn [wire shown errors]. change (text (l :: ls)) with (l +:+ nl +:+ text ls).
         by rewrite !str_app_assoc. }
    done.
Qed.

Lemma show_lines_ok ls fuel s :
  Forall plain_line ls → (length ls < fuel)%nat →
  show_lines fuel (text ls +:+ String etx "") s
  = Ok (inr tt, mkTerm (input s) (wire s) (shown s +:+ text ls) (errors s)).
Proof.
  intros Hls. revert fuel s. induction Hls as [|l ls Hl Hls IH]; intros fuel s Hf;
    (destruct fuel as [|fuel]; [cbn in Hf; lia|]); cbn [show_lines].
  - cbn [text foldr]. rewrite str_app_nil_r. by destruct s.
  - destruct Hl as (Hnl & Hnul & Hdot & Hetx & Hlen).
    assert (text (l :: ls) +:+ String etx "" = l +:+ nl +:+ text ls +:+ String etx "") as ->
      by (cbn [text foldr]; by rewrite !str_app_assoc).
    rewrite fgets_whole by (done || unfold BUF_IN, BUF_OUT in *; lia).
    rewrite plain_starts by done. rewrite plain_c_str by done. erewrite p_bind_ok by reflexivity.
    assert (∃ c t, l +:+ nl = String c t) as (c & t & E)
      by (destruct l; [by do 2 eexists|rewrite str_app_cons; by do 2 eexists]).
    rewrite E. cbn [length] in Hf. rewrite IH by lia. rewrite <- E. cbn [shown].
    change (text (l :: ls)) with (l +:+ nl +:+ text ls). by rewrite !str_app_assoc.
Qed.

Definition listening : string := "IrDA printf server starting ..." +:+ nl.
Definition waiting : string := "Waiting for connection!" +:+ nl.

(** C28: the lines typed to [irscanf] or [irscanfx], up to a line that starts with a
    point or to the end of the input, are sent with a mark behind, and are what
    [irprintf] shows of the connection: the same lines, in order, and nothing else.
    A line may hold any characters but null, of any number up to the size of the buffer, as
    long as it does not start with the point or the mark. *)
Theorem chat_roundtrip file ls rest s t :
  Forall plain_line ls → rest = "" ∨ starts "." rest = true → input s = text ls +:+ rest →
  wire s = "" →
  ∃ s' t', scanf_session willing file s = Ok (inr 0, s') ∧ wire s' = text ls +:+ String etx "" ∧
    irprintf_main willing [wire s'] t = Ok (inr (-1), t') ∧
    shown t' = shown t +:+ listening +:+ waiting +:+ "Connected!" +:+ nl +:+ text ls
      +:+ "Disconnected!" +:+ nl +:+ waiting ∧ errors t' = errors t ++ ["accept"].
Proof.
  intros Hls Hrest Hin Hwire. unfold scanf_session. cbn [willing socket_ok hints_ok connect_ok
    fdopen_ok negb]. rewrite andb_false_r. do 3 erewrite p_bind_ok by reflexivity.
  set (s1 := mkTerm _ _ _ _).
  destruct (push_lines_ok ls rest (S (String.length (input s1))) s1 Hls Hrest) as (i & E1).
  { exact Hin. }
  { cbn [s1 input]. rewrite Hin, str_length_app. pose proof (length_text ls). lia. }
  erewrite p_bind_ok by exact E1. do 2 eexists. split; [reflexivity|]. cbn [wire s1].
  rewrite Hwire, str_app_nil_l. split; [done|].
  unfold irprintf_main, listen_then, show_connections. cbn [willing socket_ok bind_ok listen_ok
    fdopen_ok negb]. do 3 erewrite p_bind_ok by reflexivity.
  erewrite p_bind_ok by (apply show_lines_ok; [done|]; rewrite str_length_app;
    pose proof (length_text ls); lia).
  do 3 erewrite p_bind_ok by reflexivity. split; [reflexivity|]. cbn [shown errors].
  split; [|done]. by rewrite !str_app_assoc.
Qed.

(** a last line without its newline is sent as it is, and the mark behind it no
    longer starts a line: the server shows it *)
Lemma push_last l fuel s :
  str_all not_newline l = true → str_all not_nul l = true → starts "." l = false →
  starts etx l = false → (String.length l + 2 ≤ BUF_IN)%nat → l ≠ "" → input s = l → (2 ≤ fuel)%nat →
  push_lines fuel s
  = Ok (inr tt, mkTerm "" (wire s +:+ l +:+ String etx "") (shown s) (errors s)).
Proof.
  intros Hnl Hnul Hdot Hetx Hlen Hne Hin Hf. destruct fuel as [|[|fuel]]; [lia..|].
  cbn [push_lines]. erewrite p_bind_ok by reflexivity. rewrite Hin.
  assert (∀ n, (String.length l ≤ n)%nat → fgets_line n l = (l, "")) as Hline.
  { clear -Hnl. induction l as [|c l IH]; intros [|n] Hn; cbn in *; [done|done|lia|].
    apply andb_true_iff in Hnl as [Hc Hnl]. unfold not_newline in Hc.
    destruct (Ascii.eqb c "010"); [done|]. by rewrite IH by (done || lia). }
  assert (fgets BUF_IN l = Some (l, "")) as ->.
  { unfold fgets. destruct l; [done|]. rewrite Hline; [done|unfold BUF_IN in *; lia]. }
  erewrite p_bind_ok by reflexivity. rewrite Hdot, c_str_all, Hetx by done.
  erewrite p_bind_ok by reflexivity. cbn [push_lines]. erewrite p_bind_ok by reflexivity.
  cbn [input fgets]. unfold put_wire, pset. cbn. by rewrite str_app_assoc.
Qed.

Example chat_without_newline :
  ∃ s' t', irscanf_main willing (mkTerm "good bye" "" "" []) = Ok (inr 0, s') ∧
    irprintf_main willing [wire s'] (mkTerm "" "" "" []) = Ok (inr (-1), t') ∧
    shown t' = listening +:+ waiting +:+ "Connected!" +:+ nl +:+ "good bye" +:+ String etx ""
      +:+ "Disconnected!" +:+ nl +:+ waiting.
Proof.
  do 2 eexists. split; [vm_compute; reflexivity|]. split; [vm_compute; reflexivity|]. by vm_compute.
Qed.

(** ** Reads of any size *)
Lemma split_text r x m c : r +:+ x = m +:+ String c "" →
  (∃ m2, m = r +:+ m2 ∧ x = m2 +:+ String c "") ∨ (r = m +:+ String c "" ∧ x = "").
Proof.
  revert m. induction r as [|d r IH]; intros m E.
  - left. exists m. by rewrite str_app_nil_l in E.
  - rewrite str_app_cons in E. destruct m as [|d' m].
    + rewrite str_app_nil_l in E. injection E as -> E.
      right. by destruct r; [rewrite str_app_nil_l in E; subst|rewrite str_app_cons in E].
    + rewrite str_app_cons in E. injection E as -> E.
      destruct (IH m E) as [(m2 & -> & ->)|[-> ->]]; [left|by right].
      exists m2. by rewrite str_app_cons.
Qed.

Definition concat_str (rs : list string) : string := foldr (λ r t, r +:+ t) "" rs.
Definition in_text (c : ascii) : bool := negb (Ascii.eqb c etx) && not_nul c.

(** [irprintfx] shows the text of a conversation however the socket cuts it into
    reads; the mark at its end is shown as well when it comes in the same
    read as the end of the text, and only then. *)
Theorem reads_shown rs m s :
  Forall (λ r, r ≠ "") rs → concat_str rs = m +:+ String etx "" → str_all in_text m = true →
  ∃ tail, show_reads (map Some rs) s
      = Ok (inr tt, mkTerm (input s) (wire s) (shown s +:+ m +:+ tail) (errors s)) ∧
    tail = (if bool_decide (last rs = Some (String etx "")) then "" else String etx "").
Proof.
  intros Hne. revert m s. induction Hne as [|r rs Hr Hne IH]; intros m s E Hm.
  - by destruct m; [rewrite str_app_nil_l in E|rewrite str_app_cons in E].
  - change (concat_str (r :: rs)) with (r +:+ concat_str rs) in E.
    destruct r as [|c r]; [done|]. cbn [map show_reads].
    assert (c = etx ∧ m = "" ∨ in_text c = true) as Hc.
    { destruct m as [|d m].
      - rewrite str_app_nil_l, str_app_cons in E. injection E as -> _. by left.
      - rewrite !str_app_cons in E. injection E as -> _. cbn in Hm.
        apply andb_true_iff in Hm as [Hm _]. by right. }
    destruct Hc as [[-> ->]|Hc].
    + rewrite Ascii.eqb_refl. rewrite str_app_nil_l, str_app_cons in E. injection E as E.
      destruct r; [|by rewrite str_app_cons in E]. rewrite str_app_nil_l in E.
      destruct rs as [|r2 rs].
      * exists "". cbn [last]. rewrite bool_decide_eq_true_2 by done.
        rewrite !str_app_nil_r. by destruct s.
      * exfalso. apply Forall_cons in Hne as [Hr2 _].
        change (concat_str (r2 :: rs)) with (r2 +:+ concat_str rs) in E.
        by destruct r2; [|rewrite str_app_cons in E].
    + unfold in_text, not_nul in Hc. apply andb_true_iff in Hc as [H1 H2].
      apply negb_true_iff in H1, H2. rewrite H1. erewrite p_bind_ok by reflexivity. rewrite H2.
      destruct (split_text _ _ _ _ E) as [(m2 & -> & E2)|[E1 E2]].
      * rewrite str_all_app in Hm. apply andb_true_iff in Hm as [_ Hm].
        destruct (IH m2 (mkTerm (input s) (wire s) (shown s +:+ String c r) (errors s)) E2 Hm)
          as (tail & -> & Ht).
        exists tail. split; [cbn [input wire shown errors]; by rewrite !str_app_assoc|].
        destruct rs as [|r2 rs]; [|done].
        by destruct m2; [rewrite str_app_nil_l in E2|rewrite str_app_cons in E2].
      * destruct rs as [|r2 rs].
        -- exists (String etx ""). cbn [map show_reads last]. rewrite <- E1. split; [done|].
           rewrite bool_decide_eq_false_2; [done|]. intros [= -> ->].
           by rewrite Ascii.eqb_refl in H1.
        -- exfalso. apply Forall_cons in Hne as [Hr2 _].
           change (concat_str (r2 :: rs)) with (r2 +:+ concat_str rs) in E2.
           by destruct r2; [|rewrite str_app_cons in E2].
Qed.

(** ** Packets *)
Lemma str_take_length n s : String.length (str_take n s) = Nat.min n (String.length s).
Proof. revert s. induction n as [|n IH]; intros [|c s]; cbn; [done..|]. by rewrite IH. Qed.
Lemma c_str_app_nul s : str_all not_nul s = true → c_str (s +:+ String (chr 0) "") = s.
Proof.
  induction s as [|c s IH]; [done|]. rewrite str_app_cons. cbn. unfold not_nul at 1.
  destruct (ord c =? 0); [done|]. intros H. by rewrite IH.
Qed.
Lemma c_str_no_nul s : str_all not_nul (c_str s) = true.
Proof.
  induction s as [|c s IH]; [done|]. cbn. destruct (ord c =? 0) eqn:E; [done|]. cbn.
  unfold not_nul at 1. by rewrite E.
Qed.
Lemma str_take_all_p p n s : str_all p s = true → str_all p (str_take n s) = true.
Proof.
  revert s. induction n as [|n IH]; intros [|c s]; [done..|]. cbn.
  rewrite !andb_true_iff. intros [? ?]. split; [done|]. by apply IH.
Qed.

(** what [send_ultra] is given, up to 380 characters, is what [recv_ultra]
    shows; its packets are short enough never to be written past the buffer, while a packet of
    another sender that fills the buffer, or a [recv] that fails, makes it write outside. *)
Theorem ultra_roundtrip a s t packets :
  wire s = "" →
  ∃ s', send_ultra_main willing [a] s = Ok (inr 0, s') ∧
    wire s' = cut 380 a +:+ String (chr 0) "" ∧
    show_packets (Some (wire s') :: packets) t
    = show_packets packets (mkTerm (input t) (wire t)
        (shown t +:+ "Received packet ``" +:+ cut 380 a +:+ "''" +:+ nl) (errors t)) ∧
    show_packets (None :: packets) t = Stop OobWrite ∧
    ∀ p, ULTRA_BUF ≤ Z.of_nat (String.length p) → show_packets (Some p :: packets) t = Stop OobWrite.
Proof.
  intros Hw. eexists. split; [reflexivity|]. cbn [wire]. rewrite Hw, str_app_nil_l.
  assert (String.length (cut 380 a) ≤ 380)%nat as Hlen.
  { unfold cut. rewrite str_take_length. lia. }
  split; [done|]. split; [|split; [done|]].
  - cbn [show_packets]. unfold ULTRA_BUF.
    rewrite str_take_all by (rewrite str_length_app; cbn [String.length]; lia).
    rewrite (proj2 (Z.ltb_lt _ _)) by (rewrite str_length_app; cbn [String.length]; lia).
    rewrite c_str_app_nul by (apply str_take_all_p, c_str_no_nul).
    by erewrite p_bind_ok by reflexivity.
  - intros p Hp. cbn [show_packets]. unfold ULTRA_BUF in *. rewrite str_take_length.
    by rewrite (proj2 (Z.ltb_ge _ _)) by lia.
Qed.

(** ** Examples *)
Example discover_example :
  ∃ s, irscanf_discover_devices (Some (2, [(0x1234, "palm"); (0xbeef, "pc")])) (mkTerm "" "" "" [])
    = Ok (inr 0x1234, s) ∧
  shown s = "Discovered 2 devices :" +:+ nl +:+ "  [1] name:  palm, daddr: 0x00001234" +:+ nl
    +:+ "  [2] name:  pc, daddr: 0x0000beef" +:+ nl +:+ "Lets try this one" +:+ nl.
Proof. eexists. split; [vm_compute; reflexivity|]. by vm_compute. Qed.

Definition one_attribute (daddr : Z) (class attrib : string) : option answer :=
  if (daddr =? 0xbeef) && String.eqb class "Device" && String.eqb attrib "DeviceName"
  then Some (mkAnswer 1 IAS_STRING 0 "palm") else Some (mkAnswer 1 IAS_MISSING 0 "").
Example ias_query_examples :
  ∃ s1 s2 s3,
    ias_query_main willing 0xffffffff one_attribute 0 "" "" "ias_query"
      ["0xBEEF"; "Device"; "DeviceName"] (mkTerm "" "" "" []) = Ok (inr 0, s1) ∧
    shown s1 = "Querying for Device:DeviceName" +:+ nl +:+ "Success2" +:+ nl
      +:+ "Device:DeviceName=palm" +:+ nl ∧
    ias_query_main willing 0xffffffff one_attribute 0 "" "" "ias_query"
      ["1"; "Device"; "DeviceName"] (mkTerm "" "" "" []) = Ok (inr 0, s2) ∧
    shown s2 = "Querying for Device:DeviceName" +:+ nl +:+ "Success2" +:+ nl
      +:+ "Missing!" +:+ nl ∧
    ias_query_main willing 0xffffffff one_attribute 0 "" "" "ias_query"
      ["zero"; "a"; "b"] (mkTerm "" "" "" []) = Ok (inr 0, s3) ∧ shown s3 = "".
Proof.
  do 3 eexists. split; [vm_compute; reflexivity|]. split; [by vm_compute|].
  split; [vm_compute; reflexivity|]. split; [by vm_compute|].
  split; [vm_compute; reflexivity|by vm_compute].
Qed.

Lemma chat_roundtrip_witness :
  let ls := ["Hello,"; ""; "are you there?"] in
  let t := mkTerm "" "" "" [] in
  ∃ s' t',
    irscanf_main willing (mkTerm (text ls +:+ ".quit" +:+ nl) "" "" []) = Ok (inr 0, s') ∧
    wire s' = text ls +:+ String etx "" ∧
    irprintf_main willing [wire s'] t = Ok (inr (-1), t') ∧
    shown t' = "" +:+ listening +:+ waiting +:+ "Connected!" +:+ nl +:+ text ls
      +:+ "Disconnected!" +:+ nl +:+ waiting ∧ errors t' = [] ++ ["accept"].
Proof.
  intros ls t.
  apply (chat_roundtrip true ls (".quit" +:+ nl) (mkTerm (text ls +:+ ".quit" +:+ nl) "" "" []) t);
    [|by right|done|done].
  repeat constructor; cbn; unfold BUF_IN; lia.
Defined.

Lemma reads_shown_witness :
  ∃ tail, show_reads (map Some ["Hel"; "lo" +:+ nl +:+ String etx ""]) (mkTerm "" "" "" [])
    = Ok (inr tt, mkTerm "" "" ("" +:+ ("Hello" +:+ nl) +:+ tail) []) ∧ tail = String etx "".
Proof.
  apply (reads_shown ["Hel"; "lo" +:+ nl +:+ String etx ""] ("Hello" +:+ nl) (mkTerm "" "" "" []));
    [by repeat constructor|done|done].
Defined.

Lemma ultra_roundtrip_witness :
  ∃ s', send_ultra_main willing ["ping"] (mkTerm "" "" "" []) = Ok (inr 0, s') ∧
    wire s' = "ping" +:+ String (chr 0) "" ∧
    show_packets [Some (wire s')] (mkTerm "" "" "" [])
    = show_packets [] (mkTerm "" "" ("" +:+ "Received packet ``" +:+ "ping" +:+ "''" +:+ nl) []) ∧
    show_packets [None] (mkTerm "" "" "" []) = Stop OobWrite ∧
    ∀ p, ULTRA_BUF ≤ Z.of_nat (String.length p) →
      show_packets [Some p] (mkTerm "" "" "" []) = Stop OobWrite.
Proof. by apply (ultra_roundtrip "ping" (mkTerm "" "" "" []) (mkTerm "" "" "" []) []). Defined.
