(* ===== verification/Irnetd.v ===== *)
(** * irnetd: pppd for each request of the IrNET driver (irnetd/irnetd.c)

    The command is built once in an array; at each request of the event channel the
    address is copied from the line into the place that [endp] points to.  The loop
    has no end: a run is given by what each [fgets] reads. *)
From Stdlib Require Import String Ascii.
From S2P Require Import Prelude CInt Printf NetBuf CLib Proc.
Local Open Scope string_scope.
Local Open Scope list_scope.
Local Open Scope Z_scope.

(** [sizeof(line)] and [sizeof(cmd)] *)
Definition LINE : Z := 255.
Definition CMD : Z := 255.
Definition cmd1 : string := "pppd /dev/irnet 9600 local ".
Definition cmd2 : string := "noauth nolock connect-delay 0 idle 10 ".
Definition cmd3 : string := "connect " +:+ dq +:+ "echo addr ".
Definition aux : string := "01235678" +:+ dq.

(** the arrays, with [endp] as an index of [cmd], and what the program does: the messages, the calls named by
    [perror], the commands run *)
Record irnetd := mkIrnetd {
  line : list Z;
  cmd : list Z;
  endp : nat;
  out : string;
  errors : list string;
  commands : list string }.

Definition set_line l s := mkIrnetd l (cmd s) (endp s) (out s) (errors s) (commands s).
Definition set_cmd c s := mkIrnetd (line s) c (endp s) (out s) (errors s) (commands s).
Definition set_endp n s := mkIrnetd (line s) (cmd s) n (out s) (errors s) (commands s).
Definition printf t : P irnetd unit :=
  pset (λ s, mkIrnetd (line s) (cmd s) (endp s) (out s +:+ t) (errors s) (commands s)).
Definition perror t : P irnetd unit :=
  pset (λ s, mkIrnetd (line s) (cmd s) (endp s) (out s) (errors s ++ [t]) (commands s)).

(** the length of the string in [cmd] *)
Definition cmd_string : P irnetd (list Z) :=
  c ← pget cmd;
  match cstr c with Some l => mret l | None => stopped OobRead end.
(** bytes stored in an array from an index on *)
Definition store (n : nat) (bs : list Z) (a : list Z) : list Z :=
  take n a ++ bs ++ drop (n + length bs) a.
Definition store_cmd (n : nat) (bs : list Z) : P irnetd unit :=
  if Z.of_nat n + Z.of_nat (length bs) <=? CMD then pset (λ s, set_cmd (store n bs (cmd s)) s)
  else stopped OobWrite.

Definition strcpy_cmd (t : string) : P irnetd unit := store_cmd 0 (bytes_of_str t ++ [0]).
Definition strcat_cmd (t : string) : P irnetd unit :=
  l ← cmd_string; store_cmd (length l) (bytes_of_str t ++ [0]).

Fixpoint add_args (args : list string) : P irnetd unit :=
  match args with
  | [] => mret tt
  | a :: args => strcat_cmd (c_str a);; strcat_cmd " ";; add_args args
  end.

(** the fixed part of the command *)
Definition build (args : list string) : P irnetd unit :=
  strcpy_cmd cmd1;;
  match args with
  | [] => strcat_cmd cmd2
  | _ => add_args args
  end;;
  strcat_cmd cmd3;;
  l ← cmd_string;
  pset (set_endp (length l));;
  strcat_cmd aux.

Section irnetd.
(** whether /dev/irnet can be opened, and whether a command can be run *)
Variable can_open : bool.
Variable can_run : string → bool.

(** [fgets(line, 255, irnet)]: what it reads, if it reads something *)
Definition read_line (r : option string) : P irnetd unit :=
  match r with
  | None => mret tt
  | Some t =>
      let l := bytes_of_str (str_take (Z.to_nat LINE - 1) t) ++ [0] in
      pset (λ s, set_line (l ++ drop (length l) (line s)) s)
  end.

Fixpoint copy_addr (i : nat) (n : nat) : P irnetd unit :=
  match n with
  | O => mret tt
  | S n =>
      s ← pget id;
      match line s !! (i + 13)%nat with
      | None => stopped OobRead
      | Some b => store_cmd (endp s + i) [b];; copy_addr (S i) n
      end
  end.

Definition one_event (r : option string) : P irnetd unit :=
  read_line r;;
  l ← pget line;
  pwhen (prefixb (bytes_of_str "Req") l) (
    copy_addr 0 8;;
    l ← cmd_string;
    let c := str_of_bytes l in
    pset (λ s, mkIrnetd (line s) (cmd s) (endp s) (out s) (errors s) (commands s ++ [c]));;
    pwhen (negb (can_run c)) (perror "irnetd: ")).

Fixpoint events (rs : list (option string)) : P irnetd unit :=
  match rs with
  | [] => mret tt
  | r :: rs => one_event r;; events rs
  end.

Definition main (args : list string) (rs : list (option string)) : P irnetd Z :=
  build args;;
  l ← cmd_string;
  printf ("The command is [" +:+ str_of_bytes l +:+ "]" +:+ nl);;
  if negb can_open then perror "Error opening /dev/irnet: ";; mret (-1)
  else events rs;; mret 0.
End irnetd.

(** ** The command *)
Definition no_zero (l : list Z) : Prop := ∀ b, b ∈ l → b ≠ 0.

(** the array [cmd] holds a string *)
Definition holds (t : list Z) (s : irnetd) : Prop :=
  ∃ rest, cmd s = t ++ 0 :: rest ∧ no_zero t ∧ length (cmd s) = Z.to_nat CMD.

Lemma no_zero_str t : str_all not_nul t = true → no_zero (bytes_of_str t).
Proof.
  induction t as [|c t IH]; cbn; [by intros _ b ?%elem_of_nil|].
  rewrite andb_true_iff. intros [Hc Ht] b [->|Hb]%elem_of_cons; [|by apply IH].
  unfold not_nul in Hc. apply negb_true_iff, Z.eqb_neq in Hc. done.
Qed.

Lemma cmd_string_ok t s : holds t s → cmd_string s = Ok (inr t, s).
Proof.
  intros (rest & E & Hz & _). unfold cmd_string. erewrite p_bind_ok by reflexivity.
  by rewrite E, cstr_app.
Qed.

Lemma no_zero_app l k : no_zero l → no_zero k → no_zero (l ++ k).
Proof. intros Hl Hk b [Hb|Hb]%elem_of_app; [by apply Hl|by apply Hk]. Qed.

Lemma store_length n bs a : (n + length bs ≤ length a)%nat → length (store n bs a) = length a.
Proof. intros H. unfold store. rewrite !length_app, length_take, length_drop. lia. Qed.

Lemma store_cmd_ok n bs s : Z.of_nat n + Z.of_nat (length bs) ≤ CMD →
  store_cmd n bs s = Ok (inr tt, set_cmd (store n bs (cmd s)) s).
Proof. intros H. unfold store_cmd. by rewrite (proj2 (Z.leb_le _ _) H). Qed.

Lemma strcpy_ok t s :
  str_all not_nul t = true → Z.of_nat (String.length t) < CMD → length (cmd s) = Z.to_nat CMD →
  ∃ c, strcpy_cmd t s = Ok (inr tt, set_cmd c s) ∧ holds (bytes_of_str t) (set_cmd c s).
Proof.
  intros Ht Hlen Hc. unfold strcpy_cmd. pose proof (bytes_of_str_length t).
  rewrite store_cmd_ok by (rewrite length_app; cbn; lia).
  eexists. split; [reflexivity|]. unfold holds. cbn [set_cmd cmd].
  rewrite store_length by (rewrite length_app; cbn; lia).
  exists (drop (0 + length (bytes_of_str t ++ [0])) (cmd s)). unfold store. cbn [take app].
  rewrite <- app_assoc. split; [done|]. split; [by apply no_zero_str|done].
Qed.

Lemma strcat_ok l t s :
  holds l s → str_all not_nul t = true →
  Z.of_nat (length l) + Z.of_nat (String.length t) < CMD →
  ∃ c, strcat_cmd t s = Ok (inr tt, set_cmd c s) ∧ holds (l ++ bytes_of_str t) (set_cmd c s).
Proof.
  intros Hh Ht Hlen. pose proof Hh as (rest & E & Hz & Hc). unfold strcat_cmd.
  erewrite p_bind_ok by exact (cmd_string_ok l s Hh). pose proof (bytes_of_str_length t).
  rewrite store_cmd_ok by (rewrite length_app; cbn; lia).
  eexists. split; [reflexivity|]. unfold holds. cbn [set_cmd cmd].
  rewrite store_length by (rewrite length_app; cbn; lia).
  exists (drop (length l + length (bytes_of_str t ++ [0])) (cmd s)). unfold store.
  rewrite E at 1. rewrite take_app_length, <- !app_assoc. split; [done|].
  split; [by apply no_zero_app, no_zero_str|done].
Qed.

(** an argument list that does not fit the array *)
Lemma strcat_overflow l t s :
  holds l s → CMD ≤ Z.of_nat (length l) + Z.of_nat (String.length t) →
  strcat_cmd t s = Stop OobWrite.
Proof.
  intros Hh Hlen. unfold strcat_cmd. erewrite p_bind_ok by exact (cmd_string_ok l s Hh).
  unfold store_cmd. pose proof (bytes_of_str_length t). rewrite length_app. cbn [length].
  by rewrite (proj2 (Z.leb_gt _ _)) by lia.
Qed.

(** what the arguments put into the command *)
Definition args_text (args : list string) : string :=
  foldr (λ a t, c_str a +:+ " " +:+ t) "" args.
Definition fixed_part (args : list string) : string :=
  cmd1 +:+ (match args with [] => cmd2 | _ => args_text args end) +:+ cmd3.

Lemma bytes_of_str_app s t : bytes_of_str (s +:+ t) = bytes_of_str s ++ bytes_of_str t.
Proof. induction s as [|c s IH]; [done|]. rewrite str_app_cons. cbn. by rewrite IH. Qed.
Lemma c_str_not_nul s : str_all not_nul (c_str s) = true.
Proof.
  induction s as [|c s IH]; [done|]. cbn. destruct (ord c =? 0) eqn:E; [done|]. cbn.
  unfold not_nul at 1. by rewrite E.
Qed.
Lemma set_cmd_set_cmd c d s : set_cmd c (set_cmd d s) = set_cmd c s.
Proof. done. Qed.

(** two strings put behind what is there: one test of the space is enough *)
Lemma add_args_ok l args s :
  holds l s →
  if Z.of_nat (length l) + Z.of_nat (String.length (args_text args)) <? CMD
  then ∃ c, add_args args s = Ok (inr tt, set_cmd c s) ∧
    holds (l ++ bytes_of_str (args_text args)) (set_cmd c s)
  else add_args args s = Stop OobWrite.
Proof.
  revert l s. induction args as [|a args IH]; intros l s Hh.
  - cbn [args_text foldr String.length]. rewrite Z.add_0_r, app_nil_r.
    destruct Hh as (rest & E & Hz & Hc).
    assert (Z.of_nat (length l) < CMD).
    { rewrite E, length_app in Hc. cbn in Hc. lia. }
    rewrite (proj2 (Z.ltb_lt _ _)) by done. exists (cmd s).
    split; [by destruct s|]. by exists rest.
  - cbn [args_text foldr add_args]. fold (args_text args). rewrite !str_length_app. cbn [String.length].
    destruct (Z.ltb_spec (Z.of_nat (length l) + Z.of_nat (String.length (c_str a))) CMD) as [H1|H1].
    + destruct (strcat_ok l (c_str a) s Hh (c_str_not_nul a) H1) as (c1 & E1 & Hh1).
      erewrite p_bind_ok by exact E1. pose proof (bytes_of_str_length (c_str a)) as Hb.
      destruct (Z.ltb_spec (Z.of_nat (length l) + Z.of_nat (String.length (c_str a)) + 1) CMD)
        as [H2|H2].
      * destruct (strcat_ok _ " " _ Hh1 eq_refl) as (c2 & E2 & Hh2);
          [rewrite length_app; cbn; lia|].
        erewrite p_bind_ok by exact E2. rewrite set_cmd_set_cmd in *.
        specialize (IH _ _ Hh2). rewrite !length_app in IH. cbn [length bytes_of_str] in IH.
        match goal with |- if ?x <? CMD then _ else _ =>
          replace x with (Z.of_nat (length l + length (bytes_of_str (c_str a)) + 1)
            + Z.of_nat (String.length (args_text args))) by lia end.
        destruct (_ <? CMD); [|exact IH]. destruct IH as (c & -> & Hc).
        exists c. split; [done|]. by rewrite !bytes_of_str_app, !app_assoc.
      * rewrite (proj2 (Z.ltb_ge _ _)) by lia. apply p_bind_stop.
        apply (strcat_overflow _ _ _ Hh1). rewrite length_app. cbn. lia.
    + rewrite (proj2 (Z.ltb_ge _ _)) by lia. apply p_bind_stop.
      apply (strcat_overflow _ _ _ Hh). lia.
Qed.

Lemma args_text_not_nul args : str_all not_nul (args_text args) = true.
Proof.
  induction args as [|a args IH]; [done|]. cbn [args_text foldr]. fold (args_text args).
  by rewrite !str_all_app, c_str_not_nul, IH.
Qed.

(** the command is built exactly when it fits: the arguments are put one
    after the other into 255 characters without a look at their length. *)
Lemma build_spec args s :
  length (cmd s) = Z.to_nat CMD →
  if Z.of_nat (String.length (fixed_part args)) + 9 <? CMD
  then ∃ c, build args s = Ok (inr tt, set_endp (String.length (fixed_part args)) (set_cmd c s)) ∧
    holds (bytes_of_str (fixed_part args) ++ bytes_of_str aux) (set_cmd c s)
  else build args s = Stop OobWrite.
Proof.
  intros Hc. unfold build. destruct (strcpy_ok cmd1 s) as (c1 & E1 & H1); [done|done|done|].
  erewrite p_bind_ok by exact E1. set (s1 := set_cmd c1 s) in *.
  set (mid := match args with [] => cmd2 | _ => args_text args end).
  assert (if Z.of_nat (length (bytes_of_str cmd1)) + Z.of_nat (String.length mid) <? CMD
    then ∃ c, (match args with [] => strcat_cmd cmd2 | _ => add_args args end) s1
        = Ok (inr tt, set_cmd c s1) ∧ holds (bytes_of_str cmd1 ++ bytes_of_str mid) (set_cmd c s1)
    else (match args with [] => strcat_cmd cmd2 | _ => add_args args end) s1 = Stop OobWrite) as Hmid.
  { destruct args as [|a args]; [|by apply add_args_ok].
    by apply (strcat_ok _ cmd2 s1 H1). }
  assert (String.length (fixed_part args)
    = length (bytes_of_str cmd1) + String.length mid + length (bytes_of_str cmd3))%nat as Hlen.
  { unfold fixed_part. fold mid. by rewrite !str_length_app, !bytes_of_str_length, Nat.add_assoc. }
  destruct (_ <? CMD) eqn:Hfit1.
  2: { rewrite (proj2 (Z.ltb_ge _ _)); [by apply p_bind_stop|]. apply Z.ltb_ge in Hfit1. lia. }
  destruct Hmid as (c2 & E2 & H2). erewrite p_bind_ok by exact E2.
  rewrite <- bytes_of_str_app in H2. pose proof (bytes_of_str_length (cmd1 +:+ mid)) as HL.
  rewrite str_length_app, <- bytes_of_str_length in HL.
  destruct (Z.ltb_spec (Z.of_nat (length (bytes_of_str (cmd1 +:+ mid)))
    + Z.of_nat (String.length cmd3)) CMD) as [Hfit2|Hfit2].
  2: { rewrite (proj2 (Z.ltb_ge _ _)); [apply p_bind_stop; by apply (strcat_overflow _ _ _ H2)|].
       rewrite <- bytes_of_str_length in Hfit2. lia. }
  destruct (strcat_ok _ cmd3 _ H2 eq_refl Hfit2) as (c3 & E3 & H3).
  erewrite p_bind_ok by exact E3. rewrite <- bytes_of_str_app in H3.
  assert ((cmd1 +:+ mid) +:+ cmd3 = fixed_part args) as Efix
    by (unfold fixed_part; by rewrite str_app_assoc).
  rewrite Efix, !set_cmd_set_cmd in *.
  erewrite p_bind_ok by exact (cmd_string_ok _ _ H3). erewrite p_bind_ok by reflexivity.
  rewrite bytes_of_str_length. set (s3 := set_endp _ _).
  destruct (Z.ltb_spec (Z.of_nat (String.length (fixed_part args)) + 9) CMD) as [Hfit|Hfit].
  - destruct (strcat_ok (bytes_of_str (fixed_part args)) aux s3) as (c4 & E4 & H4);
      [exact H3|done|rewrite bytes_of_str_length; exact Hfit|].
    exists c4. rewrite E4. by split.
  - apply (strcat_overflow (bytes_of_str (fixed_part args))); [exact H3|].
    rewrite bytes_of_str_length. exact Hfit.
Qed.

(** ** The requests *)
Inductive event :=
  | Request (addr tail : string)
  | Other (t : string)
  | Closed.

Definition line_of (e : event) : option string :=
  match e with
  | Request addr tail => Some ("Request from " +:+ addr +:+ tail)
  | Other t => Some t
  | Closed => None
  end.
Definition ok_event (e : event) : Prop :=
  match e with
  | Request addr tail =>
      String.length addr = 8%nat ∧ str_all not_nul addr = true ∧ (String.length tail ≤ 233)%nat
  | Other t => starts_with "Req" t = false ∧ (String.length t ≤ 254)%nat
  | Closed => True
  end.

Definition command (args : list string) (addr : string) : string :=
  fixed_part args +:+ addr +:+ dq.
(** the commands of the events: a channel that is closed gives the line before
    once more *)
Fixpoint runs (args : list string) (prev : option string) (es : list event) : list string :=
  match es with
  | [] => []
  | Request addr _ :: es => command args addr :: runs args (Some addr) es
  | Other _ :: es => runs args None es
  | Closed :: es =>
      match prev with
      | Some addr => command args addr :: runs args prev es
      | None => runs args prev es
      end
  end.

Section session.
Variable args : list string.
Variable can_run : string → bool.
#[local] Abbreviation T := (bytes_of_str (fixed_part args)).

(** between two events: the command with some address, and what is in [line] *)
Definition ready (prev : option string) (s : irnetd) : Prop :=
  (∃ addr rest, cmd s = T ++ addr ++ 34 :: 0 :: rest ∧ length addr = 8%nat ∧ no_zero addr ∧
    length (cmd s) = Z.to_nat CMD) ∧
  endp s = length T ∧
  match prev with
  | Some addr => ∃ rest, line s = bytes_of_str ("Request from " +:+ addr) ++ rest ∧
      String.length addr = 8%nat ∧ str_all not_nul addr = true
  | None => prefixb (bytes_of_str "Req") (line s) = false
  end.

Lemma put_byte (l m : list Z) b c : <[length l := b]> (l ++ c :: m) = l ++ b :: m.
Proof. rewrite insert_app_r_alt by lia. by rewrite Nat.sub_diag. Qed.

Lemma store_one n b (a : list Z) : (n < length a)%nat → store n [b] a = <[n := b]> a.
Proof. intros H. unfold store. rewrite insert_take_drop by done. by rewrite Nat.add_1_r. Qed.

Lemma copy_addr_ok (done_ : list Z) (new old r1 r2 : list Z) s :
  line s = bytes_of_str "Request from " ++ done_ ++ new ++ r1 →
  cmd s = T ++ done_ ++ old ++ r2 → length old = length new → endp s = length T →
  Z.of_nat (length (T ++ done_ ++ old)) ≤ CMD →
  copy_addr (length done_) (length new) s
  = Ok (inr tt, set_cmd (T ++ done_ ++ new ++ r2) s).
Proof.
  revert done_ old s. induction new as [|b new IH]; intros done_ old s Hl Hc Hlen He Hfit.
  - destruct old; [|done]. cbn [length copy_addr]. rewrite <- Hc. by destruct s.
  - destruct old as [|b0 old]; [done|]. cbn [length copy_addr].
    erewrite p_bind_ok by reflexivity. cbn [id].
    assert (line s !! (length done_ + 13)%nat = Some b) as ->.
    { rewrite Hl. rewrite lookup_app_r by (cbn; lia). cbn [length bytes_of_str].
      rewrite lookup_app_r by (cbn; lia). cbn. 
      replace (length done_ + 13 - 13 - length done_)%nat with 0%nat by lia. done. }
    rewrite !length_app in Hfit. cbn [length] in Hfit, Hlen.
    erewrite p_bind_ok by (apply store_cmd_ok; cbn [length]; rewrite He; lia).
    set (s1 := set_cmd _ s).
    assert (cmd s1 = T ++ (done_ ++ [b]) ++ old ++ r2) as Hc1.
    { cbn [s1 set_cmd cmd]. rewrite store_one by (rewrite He, Hc, !length_app; cbn; lia).
      rewrite Hc, He, app_assoc, <- length_app. cbn [app]. rewrite put_byte.
      by rewrite <- !app_assoc. }
    specialize (IH (done_ ++ [b]) old s1).
    assert (length (done_ ++ [b]) = S (length done_)) as Hd by (rewrite length_app; cbn; lia).
    rewrite Hd in IH.
    rewrite IH; [|cbn [s1 set_cmd line]; rewrite Hl; by rewrite <- !app_assoc|exact Hc1|lia|exact He|].
    + f_equal. f_equal. unfold s1. rewrite set_cmd_set_cmd. by rewrite <- !app_assoc.
    + rewrite !length_app. cbn. lia.
Qed.

Lemma read_line_ok t s : (String.length t ≤ 254)%nat →
  read_line (Some t) s
  = Ok (inr tt, set_line (bytes_of_str t ++ 0 :: drop (S (String.length t)) (line s)) s).
Proof.
  intros Ht. unfold read_line, pset, LINE. rewrite str_take_all by lia.
  rewrite length_app, bytes_of_str_length. cbn [length]. rewrite Nat.add_1_r.
  by rewrite <- app_assoc.
Qed.

(** a request in the line runs the command with its address *)
Lemma request_ok addr s :
  ready (Some addr) s →
  ∃ c ps, (l ← pget line;
    pwhen (prefixb (bytes_of_str "Req") l) (
      copy_addr 0 8;;
      l ← cmd_string;
      let c := str_of_bytes l in
      pset (λ s, mkIrnetd (line s) (cmd s) (endp s) (out s) (errors s) (commands s ++ [c]));;
      pwhen (negb (can_run c)) (perror "irnetd: "))) s
  = Ok (inr tt, mkIrnetd (line s) c (endp s) (out s) (errors s ++ ps)
      (commands s ++ [command args addr])) ∧
  ready (Some addr) (mkIrnetd (line s) c (endp s) (out s) (errors s ++ ps)
      (commands s ++ [command args addr])).
Proof.
  intros ((old & rest & Hc & Hold & Hz & Hlen) & He & (r1 & Hl & Ha & Hnul)).
  erewrite p_bind_ok by reflexivity.
  assert (prefixb (bytes_of_str "Req") (line s) = true) as -> by (by rewrite Hl). cbn [pwhen].
  pose proof (bytes_of_str_length addr) as Hb. rewrite Ha in Hb.
  pose proof (copy_addr_ok [] (bytes_of_str addr) old r1 (34 :: 0 :: rest) s) as Hcopy.
  rewrite Hb in Hcopy. cbn [app length] in Hcopy.
  erewrite p_bind_ok by (apply Hcopy; [rewrite Hl, bytes_of_str_app, <- app_assoc; done|done|
    done|done|rewrite Hc, !length_app in Hlen; rewrite length_app; cbn in Hlen; lia]).
  clear Hcopy. set (c := T ++ bytes_of_str addr ++ 34 :: 0 :: rest).
  assert (Hstr : T ++ bytes_of_str addr ++ [34] = bytes_of_str (command args addr)).
  { unfold command. by rewrite !bytes_of_str_app. }
  assert (holds (bytes_of_str (command args addr)) (set_cmd c s)) as Hh.
  { exists rest. cbn [set_cmd cmd]. rewrite <- Hstr. split; [unfold c; by rewrite <- !app_assoc|].
    split; [|unfold c; rewrite Hc in Hlen; rewrite !length_app in *; cbn in *; lia].
    rewrite Hstr. apply no_zero_str. unfold command. rewrite !str_all_app, Hnul. cbn.
    unfold fixed_part. rewrite !str_all_app. destruct args as [|a l]; [done|].
    by rewrite args_text_not_nul. }
  erewrite p_bind_ok by exact (cmd_string_ok _ _ Hh). cbv zeta.
  erewrite p_bind_ok by reflexivity. rewrite str_of_bytes_of_str.
  assert (∀ ps, ready (Some addr) (mkIrnetd (line s) c (endp s) (out s) (errors s ++ ps)
      (commands s ++ [command args addr]))) as Hready.
  { intros ps. split; [|split; [exact He|by exists r1]]. exists (bytes_of_str addr), rest.
    split; [done|]. split; [done|]. split; [by apply no_zero_str|].
    unfold c. cbn [cmd]. rewrite Hc in Hlen. rewrite !length_app in *. cbn in *. lia. }
  destruct (can_run _); cbn [negb pwhen].
  - exists c, []. split; [|apply Hready]. by rewrite app_nil_r.
  - exists c, ["irnetd: "]. split; [done|apply Hready].
Qed.
Lemma prefixb_text t r : starts_with "Req" t = false →
  prefixb (bytes_of_str "Req") (bytes_of_str t ++ 0 :: r) = false.
Proof.
  assert (∀ c d, Ascii.eqb c d = (ord c =? ord d)) as Heq.
  { intros c d. destruct (Ascii.eqb_spec c d) as [->|N]; [by rewrite Z.eqb_refl|].
    symmetry. apply Z.eqb_neq. intros E. apply N. rewrite <- (chr_ord c), <- (chr_ord d). by rewrite E. }
  destruct t as [|a t]; [done|]. cbn [starts_with bytes_of_str prefixb app]. rewrite Heq.
  destruct (_ =? ord a); [|done]. cbn [andb].
  destruct t as [|b t]; [done|]. cbn [starts_with bytes_of_str prefixb app]. rewrite Heq.
  destruct (_ =? ord b); [|done]. cbn [andb].
  destruct t as [|c t]; [done|]. cbn [starts_with bytes_of_str prefixb app]. rewrite Heq.
  by destruct (_ =? ord c).
Qed.

Definition after (prev : option string) (e : event) : option string :=
  match e with Request addr _ => Some addr | Other _ => None | Closed => prev end.

Lemma read_ready prev e s : ready prev s → ok_event e →
  ∃ s', read_line (line_of e) s = Ok (inr tt, s') ∧ ready (after prev e) s' ∧
    commands s' = commands s ∧ out s' = out s.
Proof.
  intros (Hc & He & Hl) Hok. destruct e as [addr tail|t|]; cbn [line_of after ok_event] in *.
  - destruct Hok as (Ha & Hnul & Htail). rewrite read_line_ok
      by (rewrite !str_length_app, Ha; cbn [String.length]; lia).
    eexists. split; [reflexivity|]. split; [|done]. split; [exact Hc|]. split; [exact He|].
    cbn [set_line line]. rewrite !bytes_of_str_app, <- !app_assoc. by eexists.
  - destruct Hok as (Hreq & Hlen). rewrite read_line_ok by done.
    eexists. split; [reflexivity|]. split; [|done]. split; [exact Hc|]. split; [exact He|].
    cbn [set_line line]. by apply prefixb_text.
  - exists s. by repeat split.
Qed.

Lemma one_event_ok prev e s : ready prev s → ok_event e →
  ∃ s', one_event can_run (line_of e) s = Ok (inr tt, s') ∧ ready (after prev e) s' ∧
    commands s' = commands s ++ runs args prev [e] ∧ out s' = out s.
Proof.
  intros Hr Hok. destruct (read_ready prev e s Hr Hok) as (s1 & E1 & R1 & C1 & O1).
  unfold one_event. erewrite p_bind_ok by exact E1.
  assert (runs args prev [e] = match after prev e with Some a => [command args a] | None => [] end)
    as -> by (by destruct e, prev).
  destruct (after prev e) as [addr|] eqn:Ea.
  - destruct (request_ok addr s1 R1) as (c & ps & E2 & R2). eexists. split; [exact E2|].
    split; [exact R2|]. cbn. by rewrite C1.
  - erewrite p_bind_ok by reflexivity. destruct R1 as (Hc & He & Hl). rewrite Hl. cbn [pwhen].
    exists s1. split; [done|]. split; [by split|]. by rewrite app_nil_r.
Qed.

Lemma events_ok es prev s : ready prev s → Forall ok_event es →
  ∃ s', events can_run (map line_of es) s = Ok (inr tt, s') ∧
    commands s' = commands s ++ runs args prev es ∧ out s' = out s.
Proof.
  intros Hr Hes. revert prev s Hr. induction Hes as [|e es He Hes IH]; intros prev s Hr.
  - exists s. cbn [runs]. by rewrite app_nil_r.
  - cbn [map events]. destruct (one_event_ok prev e s Hr He) as (s1 & E1 & R1 & C1 & O1).
    erewrite p_bind_ok by exact E1. destruct (IH _ s1 R1) as (s' & E' & C' & O').
    exists s'. split; [exact E'|]. rewrite C', C1, O', O1, <- app_assoc. split; [|done].
    f_equal. by destruct e, prev.
Qed.
End session.

(** C29: a session of irnetd.  Arguments that fit the array give the command
    that is shown; then each request on the event channel runs that command with
    the address of the request, other events run nothing, and when the channel
    gives no line the request before, if it was the last line, is run again.
    Arguments that do not fit are written past the array. *)
Theorem irnetd_session args es can_run s :
  length (cmd s) = Z.to_nat CMD → prefixb (bytes_of_str "Req") (line s) = false →
  commands s = [] → Forall ok_event es →
  if Z.of_nat (String.length (fixed_part args)) + 9 <? CMD then
    ∃ s', main true can_run args (map line_of es) s = Ok (inr 0, s') ∧
      out s' = out s +:+ "The command is [" +:+ command args "01235678" +:+ "]" +:+ nl ∧
      commands s' = runs args None es
  else main true can_run args (map line_of es) s = Stop OobWrite.
Proof.
  intros Hc Hl Hrun Hes. pose proof (build_spec args s Hc) as Hb. unfold main.
  destruct (_ <? CMD); [|by apply p_bind_stop].
  destruct Hb as (c & Eb & Hh). erewrite p_bind_ok by exact Eb.
  set (s1 := set_endp _ _).
  assert (holds (bytes_of_str (fixed_part args) ++ bytes_of_str aux) s1) as Hh1 by exact Hh.
  erewrite p_bind_ok by exact (cmd_string_ok _ _ Hh1). erewrite p_bind_ok by reflexivity.
  cbn [negb]. set (s2 := mkIrnetd _ _ _ _ _ _).
  assert (ready args None s2) as Hready.
  { split; [|split; [symmetry; apply bytes_of_str_length|exact Hl]].
    destruct Hh as (rest & E & _ & Hlen). exists (bytes_of_str "01235678"), rest.
    cbn [s2 s1 set_endp cmd]. split; [rewrite E; unfold aux; rewrite bytes_of_str_app;
      by rewrite <- !app_assoc|]. split; [done|]. split; [by apply no_zero_str|exact Hlen]. }
  destruct (events_ok args can_run es None s2 Hready Hes) as (s' & E' & C' & O').
  erewrite p_bind_ok by exact E'. exists s'. split; [done|].
  rewrite O', C'. cbn [s2 s1 set_endp set_cmd out commands]. rewrite Hrun. split; [|done].
  f_equal. unfold command, aux. rewrite <- bytes_of_str_app, str_of_bytes_of_str.
  by rewrite !str_app_assoc.
Qed.

(** ** Examples *)
Definition fresh : irnetd := mkIrnetd (replicate 255 0) (replicate 255 65) 0 "" [] [].

Example irnetd_example :
  ∃ s, main true (λ _, true) []
    [Some ("Discovered 12345678 (palm)" +:+ nl); Some ("Request from 9abcdef0 (palm)" +:+ nl); None]
    fresh = Ok (inr 0, s) ∧
  commands s = replicate 2 ("pppd /dev/irnet 9600 local noauth nolock connect-delay 0 idle 10 connect "
    +:+ dq +:+ "echo addr 9abcdef0" +:+ dq).
Proof. eexists. split; [vm_compute; reflexivity|]. by vm_compute. Qed.

Lemma irnetd_session_witness :
  let es := [Other "Connected"; Request "9abcdef0" (" (palm)" +:+ nl); Closed] in
  ∃ s', main true (λ _, false) ["noauth"] (map line_of es) fresh = Ok (inr 0, s') ∧
    out s' = "" +:+ "The command is [" +:+ command ["noauth"] "01235678" +:+ "]" +:+ nl ∧
    commands s' = runs ["noauth"] None es.
Proof.
  intros es. apply (irnetd_session ["noauth"] es (λ _, false) fresh); [done..|].
  repeat constructor; cbn; lia.
Defined.
