(* ===== verification/IrCard.v ===== *)
(** * ircard_cs: the driver of the IBM 31T1502 (irda-utils/pcmcia/ircard_cs.c, .h)

    The controller is reached through eight ports in banks and through a window of
    shared memory.  Frames to send are queued in the window; the chip is told the
    address and the length of one frame at a time.  A received frame is left by the
    chip in a ring, followed by its length and its status.

    The kernel (the SIR driver [irport], time, the allocator of buffers, the queue of
    the interface) and the window are parameters, [CardHost].  What the theorems need
    of the chip is [IbmChip]. *)
From Stdlib Require Import String.
From S2P Require Import Prelude CInt Printf PortIO.
Local Open Scope string_scope.
Local Open Scope list_scope.
Local Open Scope Z_scope.

(** ** Registers (ircard_cs.h) *)
Definition MCR := 0x00.
Definition MCR_INTR_EN := 0x80.
Definition MCR_TX_EN := 0x40.
Definition MCR_RX_EN := 0x20.
Definition MCR_BANK_MASK := 0x1f.
Definition MSR := 0x01.
Definition MSR_RX_COND_ID := 0x08.
Definition MSR_RX_DATA_ID := 0x0a.
Definition MSR_TX_EMPTY_ID := 0x0c.
Definition MSR_TX_COND_ID := 0x0e.
Definition MSR_ID_MASK := 0x0e.
Definition MISC := 0x01.
Definition TX_CTRL1 := 0x03.
Definition TX_CTRL1_RTS := 0x80.
Definition TX_CTRL1_UNDR_EOM_I := 0x20.
Definition TX_CTRL2 := 0x04.
Definition TX_CTRL2_EN_TX_CRC := 0x40.
Definition TX_CTRL2_EARLY_EOM_16 := 0x01.
Definition TX_STAT := 0x05.
Definition TX_STAT_FIFO_UNDR := 0x08.
Definition TX_STAT_EOM := 0x04.
Definition RX_CTRL := 0x06.
Definition RX_CTRL_COND_I := 0x01.
Definition RX_CTRL_EN_CRC := 0x40.
Definition RESET := 0x07.
Definition RESET_RX_SPEC_BITS := 0x30.
Definition RESET_RX_RFP := 0x40.
Definition RESET_TX_SPEC_BITS := 0x50.
Definition RESET_HARDWARE := 0x70.
Definition RX_RING_FRM_PTR_LOW := 0x04.
Definition RX_RING_FRM_PTR_HIGH := 0x05.
Definition TX_BYTE_COUNT_LOW := 0x06.
Definition TX_BYTE_COUNT_HIGH := 0x07.
Definition IR_CONF := 0x01.
Definition IR_CONF_SIR := 0x00.
Definition IR_CONF_MIR := 0x02.
Definition IR_CONF_FIR := 0x04.
Definition IR_CONF_MIR_1152 := 0x00.
Definition IR_CONF_MIR_576 := 0x10.
Definition IR_TRANS_CTRL := 0x02.
Definition IR_TRANS_CTRL_TXD_FRC := 0x02.
Definition IR_TRANS_CTRL_XCVROFF := 0x10.
Definition SH_MEM_PAGE := 0x01.
Definition TX_DMA_ADDR_LOW := 0x02.
Definition TX_DMA_ADDR_HIGH := 0x03.
Definition PAGE_DISABLE := 0x40.
Definition REVISION_ID := 0x07.
Definition SHMEM_TX_START := 0x4000.
Definition MAX_WINDOW := 8.
Definition IRCARD_MAGIC := 92612.

(** the size of the window that is asked for and mapped ([req.Size]) *)
Definition SHMEM_SIZE := 0x8000.

(** of the kernel *)
Definition EBUSY := 16.
Inductive io_direction := IO_XMIT | IO_RECV.

(** ** Data *)
Record frame_cb := mkFrame {
  start : Z;   (* Start of frame in sh-mem *)
  flen : Z }.  (* [len] *)
#[export] Instance frame_cb_eq_dec : EqDecision frame_cb.
Proof. solve_decision. Defined.

(** [queue] has [MAX_WINDOW] entries *)
Record shm_queue_t := mkQueue {
  queue : list frame_cb;
  ptr : Z;      (* Currently being sent *)
  qlen : Z;     (* [len] *)
  free : Z;     (* Next free slot *)
  tail : Z }.   (* Next free start in shmem *)

(** the fields of [struct ircard_cb] that the code uses *)
Record ircard_cb := mkCb {
  magic : Z;
  stopped : Z;           (* [stop] *)
  tx_q : shm_queue_t;
  data : Z;              (* Ptr to last frame received *)
  stamp : Z * Z;         (* seconds, microseconds *)
  now : Z * Z }.

Record net_stats := mkStats {
  rx_packets : Z; tx_packets : Z; tx_bytes : Z; rx_errors : Z; tx_errors : Z;
  rx_frame_errors : Z; rx_fifo_errors : Z; tx_fifo_errors : Z }.

(** which function [netdev.hard_start_xmit] is *)
Inductive xmit_handler := ircard_hard_xmit_h | irport_hard_xmit_h.

(** the fields of [struct irda_device] that the code uses; [idev_magic] is
    [magic == IRDA_DEVICE_MAGIC], [outside_frame] is [rx_buff.state == OUTSIDE_FRAME] *)
Record irda_device := mkIdev {
  idev_magic : bool;
  iobase : Z;
  iobase2 : Z;
  membase : Z;
  direction : io_direction;
  baudrate : Z;
  tbusy : Z;
  interrupt : Z;
  hard_start_xmit : xmit_handler;
  media_busy : Z;
  tx_buff_len : Z;
  outside_frame : bool;
  stats : net_stats }.

(** a buffer of the kernel: its octets, and the turnaround time it asks for *)
Record sk_buff := mkSkb {
  skb_data : list Z;
  skb_mtt : Z }.

(** ** The host *)
Inductive call :=
  | IrportStart (base : Z)
  | IrportStop (base : Z)
  | IrportChangeSpeed (speed : Z)
  | IrportInterrupt (irq : Z)
  | IrportWaitUntilSent
  | Udelay (us : Z)
  | ScheduleTimeout (ms : Z)
  | DevKfreeSkb
  | MarkBh
  | NetSetup
  | NetOpen
  | NetClose
  | ModIncUseCount
  | ModDecUseCount.

Class CardHost (D : Type) := {
  mem_in : Z → D → Z * D;
  mem_out : Z → Z → D → D;
  service : call → D → D;
  time_of_day : D → (Z * Z) * D;
  alloc_skb : Z → D → bool * D;
  txqueue_empty : D → bool }.

(** the driver: the hardware with the kernel, the device, the private data, the lock
    of the device, and the frames given to [netif_rx] *)
Record fir (D : Type) := mkFir {
  hw : io D;
  idev : irda_device;
  self : ircard_cb;
  locked : bool;
  netif : list (list Z) }.
Arguments mkFir {D} _ _ _ _ _.
Arguments hw {D} _.
Arguments idev {D} _.
Arguments self {D} _.
Arguments locked {D} _.
Arguments netif {D} _.

#[export] Program Instance fir_hw {D} : Lens (fir D) (io D) :=
  {| view := hw; put h s := mkFir h (idev s) (self s) (locked s) (netif s) |}.
Solve All Obligations with done || by intros ? [].

(** *** Assignments *)
Definition with_queue v q := mkQueue v (ptr q) (qlen q) (free q) (tail q).
Definition with_ptr v q := mkQueue (queue q) v (qlen q) (free q) (tail q).
Definition with_qlen v q := mkQueue (queue q) (ptr q) v (free q) (tail q).
Definition with_free v q := mkQueue (queue q) (ptr q) (qlen q) v (tail q).
Definition with_tail v q := mkQueue (queue q) (ptr q) (qlen q) (free q) v.

Definition with_stopped v c := mkCb (magic c) v (tx_q c) (data c) (stamp c) (now c).
Definition with_tx_q v c := mkCb (magic c) (stopped c) v (data c) (stamp c) (now c).
Definition with_data v c := mkCb (magic c) (stopped c) (tx_q c) v (stamp c) (now c).
Definition with_stamp v c := mkCb (magic c) (stopped c) (tx_q c) (data c) v (now c).
Definition with_now v c := mkCb (magic c) (stopped c) (tx_q c) (data c) (stamp c) v.

Definition with_direction v i := mkIdev (idev_magic i) (iobase i) (iobase2 i) (membase i)
  v (baudrate i) (tbusy i) (interrupt i) (hard_start_xmit i) (media_busy i) (tx_buff_len i)
  (outside_frame i) (stats i).
Definition with_baudrate v i := mkIdev (idev_magic i) (iobase i) (iobase2 i) (membase i)
  (direction i) v (tbusy i) (interrupt i) (hard_start_xmit i) (media_busy i) (tx_buff_len i)
  (outside_frame i) (stats i).
Definition with_tbusy v i := mkIdev (idev_magic i) (iobase i) (iobase2 i) (membase i)
  (direction i) (baudrate i) v (interrupt i) (hard_start_xmit i) (media_busy i)
  (tx_buff_len i) (outside_frame i) (stats i).
Definition with_interrupt v i := mkIdev (idev_magic i) (iobase i) (iobase2 i) (membase i)
  (direction i) (baudrate i) (tbusy i) v (hard_start_xmit i) (media_busy i) (tx_buff_len i)
  (outside_frame i) (stats i).
Definition with_handler v i := mkIdev (idev_magic i) (iobase i) (iobase2 i) (membase i)
  (direction i) (baudrate i) (tbusy i) (interrupt i) v (media_busy i) (tx_buff_len i)
  (outside_frame i) (stats i).
Definition with_media_busy v i := mkIdev (idev_magic i) (iobase i) (iobase2 i) (membase i)
  (direction i) (baudrate i) (tbusy i) (interrupt i) (hard_start_xmit i) v (tx_buff_len i)
  (outside_frame i) (stats i).
Definition with_stats v i := mkIdev (idev_magic i) (iobase i) (iobase2 i) (membase i)
  (direction i) (baudrate i) (tbusy i) (interrupt i) (hard_start_xmit i) (media_busy i)
  (tx_buff_len i) (outside_frame i) v.

Definition tx_error n := mkStats (rx_packets n) (tx_packets n) (tx_bytes n) (rx_errors n)
  (tx_errors n + 1) (rx_frame_errors n) (rx_fifo_errors n) (tx_fifo_errors n + 1).
Definition tx_sent bytes n := mkStats (rx_packets n) (tx_packets n + 1) (tx_bytes n + bytes)
  (rx_errors n) (tx_errors n) (rx_frame_errors n) (rx_fifo_errors n) (tx_fifo_errors n).
Definition rx_frame_error n := mkStats (rx_packets n) (tx_packets n) (tx_bytes n)
  (rx_errors n + 1) (tx_errors n) (rx_frame_errors n + 1) (rx_fifo_errors n) (tx_fifo_errors n).
Definition rx_fifo_error n := mkStats (rx_packets n) (tx_packets n) (tx_bytes n)
  (rx_errors n + 1) (tx_errors n) (rx_frame_errors n) (rx_fifo_errors n + 1) (tx_fifo_errors n).
Definition rx_packet n := mkStats (rx_packets n + 1) (tx_packets n) (tx_bytes n)
  (rx_errors n) (tx_errors n) (rx_frame_errors n) (rx_fifo_errors n) (tx_fifo_errors n).

Section driver.
Context {D : Type} `{!PortDev D} `{!CardHost D}.
Implicit Types (i : irda_device) (c : ircard_cb) (q : shm_queue_t).

Definition set_idev (f : irda_device → irda_device) : M (fir D) unit :=
  modify (λ s, mkFir (hw s) (f (idev s)) (self s) (locked s) (netif s)).
Definition set_self (f : ircard_cb → ircard_cb) : M (fir D) unit :=
  modify (λ s, mkFir (hw s) (idev s) (f (self s)) (locked s) (netif s)).
Definition set_tx_q (f : shm_queue_t → shm_queue_t) : M (fir D) unit :=
  set_self (λ c, with_tx_q (f (tx_q c)) c).
Definition set_stats (f : net_stats → net_stats) : M (fir D) unit :=
  set_idev (λ i, with_stats (f (stats i)) i).
Definition set_dev (f : D → D) : M (fir D) unit :=
  zoom (modify (λ h : io D, mkIo (f (dev h)) (io_log h) (io_out h) (io_err h) (io_sys h))).
Definition get_dev {A} (f : D → A * D) : M (fir D) A :=
  zoom (λ h : io D, let '(a, d) := f (dev h) in
    Ok (a, mkIo d (io_log h) (io_out h) (io_err h) (io_sys h))).

Definition get_idev : M (fir D) irda_device := gets idev.
Definition get_q : M (fir D) shm_queue_t := gets (λ s, tx_q (self s)).
Definition get_txq_empty : M (fir D) bool := gets (λ s, txqueue_empty (dev (hw s))).

Definition out (v port : Z) : M (fir D) unit := zoom (outb v port).
Definition inp (port : Z) : M (fir D) Z := zoom (inb port).
Definition printk (t : string) : M (fir D) unit := zoom (printf t).
Definition kcall (c : call) : M (fir D) unit := set_dev (service c).

(** taking a lock that is held spins for ever *)
Definition spin_lock : M (fir D) unit :=
  held ← gets locked;
  if held : bool then halt OutOfFuel
  else modify (λ s, mkFir (hw s) (idev s) (self s) true (netif s)).
Definition spin_unlock : M (fir D) unit :=
  modify (λ s, mkFir (hw s) (idev s) (self s) false (netif s)).

(** *** The window *)
Definition in_window i (a : Z) : bool := (membase i <=? a) && (a <? membase i + SHMEM_SIZE).

Definition readb (a : Z) : M (fir D) Z :=
  i ← get_idev;
  if in_window i a then (v ← get_dev (mem_in a); mret (u8 v)) else halt OobRead.
Definition writeb (v a : Z) : M (fir D) unit :=
  i ← get_idev;
  if in_window i a then set_dev (mem_out a (u8 v)) else halt OobWrite.

Fixpoint copy_to_pc (a : Z) (l : list Z) : M (fir D) unit :=
  match l with
  | [] => mret tt
  | b :: l => writeb b a;; copy_to_pc (a + 1) l
  end.
Fixpoint copy_from_pc (a : Z) (n : nat) : M (fir D) (list Z) :=
  match n with
  | O => mret []
  | S n => b ← readb a; l ← copy_from_pc (a + 1) n; mret (b :: l)
  end.

(** ** The banks (ircard_cs.h) *)
Definition ircard_set_mcr (base itr bank : Z) : M (fir D) unit :=
  out (Z.lor itr bank) (base + MCR).

Definition switch_bank_raw (base bank : Z) : M (fir D) unit := out bank (base + MCR).

Definition switch_bank (base bank : Z) : M (fir D) Z :=
  mcr ← inp (base + MCR);
  let old_bank := Z.land mcr MCR_BANK_MASK in
  ircard_set_mcr base (u8 (Z.land mcr (Z.lnot MCR_BANK_MASK))) bank;;
  mret old_bank.

(** ** Set-up *)
Definition ircard_probe : M (fir D) Z :=
  i ← get_idev;
  let base := iobase i in
  switch_bank base 3;;
  revision ← inp (base + REVISION_ID);
  printk ("IBM 31T1502 controller revision " +:+ fmt_d revision +:+ nl);;
  out 0 (base + SH_MEM_PAGE);;
  switch_bank base 0;;
  out TX_CTRL2_EN_TX_CRC (base + TX_CTRL2);;
  switch_bank base 3;;
  out 0 (base + SH_MEM_PAGE);;
  out 0 (base + TX_DMA_ADDR_LOW);;
  out PAGE_DISABLE (base + TX_DMA_ADDR_HIGH);;
  mret 0.

Definition ircard_sir_to_fir (base : Z) : M (fir D) unit :=
  switch_bank_raw base 2;;
  out IR_TRANS_CTRL_XCVROFF (base + IR_TRANS_CTRL);;
  kcall (Udelay 2);;
  out (Z.lor IR_TRANS_CTRL_XCVROFF IR_TRANS_CTRL_TXD_FRC) (base + IR_TRANS_CTRL);;
  kcall (Udelay 2);;
  out IR_TRANS_CTRL_TXD_FRC (base + IR_TRANS_CTRL);;
  kcall (Udelay 2);;
  out 0 (base + IR_TRANS_CTRL).

Definition ircard_fir_to_sir (base : Z) : M (fir D) unit :=
  switch_bank_raw base 2;;
  out IR_TRANS_CTRL_XCVROFF (base + IR_TRANS_CTRL);;
  kcall (Udelay 2);;
  out 0 (base + IR_TRANS_CTRL).

(** ** Receiving *)

(** [tx_q.len = tx_q.ptr = tx_q.free = 0; tx_q.tail = SHMEM_TX_START + membase] *)
Definition reset_tx_q : M (fir D) unit :=
  i ← get_idev;
  set_tx_q (λ q, mkQueue (queue q) 0 0 0 (SHMEM_TX_START + membase i)).

Definition ircard_receive (base : Z) : M (fir D) Z :=
  bank ← switch_bank base 0;
  ircard_set_mcr base MCR_INTR_EN bank;;
  reset_tx_q;;
  out RESET_RX_SPEC_BITS (base + RESET);;
  out RESET_RX_RFP (base + RESET);;
  ircard_set_mcr base (Z.lor MCR_RX_EN MCR_INTR_EN) bank;;
  switch_bank base 0;;
  out (Z.lor RX_CTRL_EN_CRC RX_CTRL_COND_I) (base + RX_CTRL);;
  out 0xc0 (base + MISC);;
  set_idev (with_direction IO_RECV);;
  mret 0.

Definition ring_frame_pointer (base : Z) : M (fir D) Z :=
  switch_bank base 1;;
  lo ← inp (base + RX_RING_FRM_PTR_LOW);
  hi ← inp (base + RX_RING_FRM_PTR_HIGH);
  mret (Z.lor lo (Z.shiftl (Z.land hi 0x3f) 8)).

Definition ircard_receive_complete (base : Z) : M (fir D) bool :=
  rfp ← ring_frame_pointer base;
  if rfp =? 0 then mret false
  else
    i ← get_idev;
    let mem := membase i in
    stat ← readb (mem + rfp);
    low ← readb (mem + rfp - 1);
    let len := Z.lor (Z.shiftl (Z.land stat 0x1f) 8) low in
    if tst stat 0x80 then set_stats rx_frame_error;; mret false
    else if tst stat 0x40 then set_stats rx_frame_error;; mret false
    else if tst stat 0x20 then
      switch_bank base 0;;
      out RESET_RX_SPEC_BITS (base + RESET);;
      set_stats rx_fifo_error;; mret false
    else if negb (5 <? len) then mret false
    else
      let start := mem + rfp - len - 1 in
      tv ← get_dev time_of_day;
      set_self (with_stamp tv);;
      set_self (with_data (rfp + 1));;
      let len := len - 4 in
      let len := if 2050 <? len then 2050 else len in
      ok ← get_dev (alloc_skb (len + 1));
      if negb ok then
        printk ("ircard_receive_complete(), memory squeeze, dropping frame." +:+ nl);;
        mret false
      else
        frame ← copy_from_pc start (Z.to_nat len);
        set_stats rx_packet;;
        modify (λ s, mkFir (hw s) (idev s) (self s) (locked s) (netif s ++ [frame]));;
        mret true.

(** ** The speed *)
Definition ircard_change_speed (speed : Z) : M (fir D) unit :=
  i ← get_idev;
  if negb (idev_magic i) then mret tt
  else
    let base := iobase i in
    spin_lock;;
    (if (1152000 <? baudrate i) && (speed <? 4000000) then ircard_fir_to_sir base
     else if (baudrate i <? 4000000) && (1152000 <? speed) then ircard_sir_to_fir base
     else mret tt);;
    set_idev (with_baudrate speed);;
    set_idev (with_handler (if 115200 <? speed then ircard_hard_xmit_h else irport_hard_xmit_h));;
    switch_bank_raw base 0;;
    out 0x07 (base + 7);;
    switch_bank_raw base 2;;
    (if speed =? 576000 then
       kcall (IrportStop (iobase2 i));;
       out (Z.lor IR_CONF_MIR_576 IR_CONF_MIR) (base + IR_CONF)
     else if speed =? 1152000 then
       kcall (IrportStop (iobase2 i));;
       out (Z.lor IR_CONF_MIR_1152 IR_CONF_MIR) (base + IR_CONF)
     else if speed =? 4000000 then
       kcall (IrportStop (iobase2 i));;
       out IR_CONF_FIR (base + IR_CONF)
     else
       kcall (IrportStart (iobase2 i));;
       kcall (IrportChangeSpeed speed);;
       out IR_CONF_SIR (base + IR_CONF));;
    set_idev (with_tbusy 0);;
    when (115200 <? speed) (ircard_receive base;; mret tt);;
    spin_unlock.

(** ** Sending *)
Definition queue_get (n : Z) : M (fir D) frame_cb :=
  q ← get_q;
  if decide (0 ≤ n) then or_stop OobRead (queue q !! Z.to_nat n) else halt OobRead.

Definition queue_set (n : Z) (f : frame_cb) : M (fir D) unit :=
  q ← get_q;
  if decide (0 ≤ n < Z.of_nat (length (queue q)))
  then set_tx_q (λ q, with_queue (<[Z.to_nat n := f]> (queue q)) q)
  else halt OobWrite.

Definition ircard_dma_write (base : Z) : M (fir D) unit :=
  q ← get_q;
  switch_bank base 0;;
  out 0 (base + MISC);;
  set_idev (with_direction IO_XMIT);;
  ircard_set_mcr base (Z.lor MCR_INTR_EN MCR_TX_EN) 0;;
  out (Z.lor TX_CTRL2_EN_TX_CRC TX_CTRL2_EARLY_EOM_16) (base + TX_CTRL2);;
  switch_bank base 1;;
  f ← queue_get (ptr q);
  out (Z.land (flen f) 0xff) (base + TX_BYTE_COUNT_LOW);;
  out (Z.land (Z.shiftr (flen f) 8) 0x1f) (base + TX_BYTE_COUNT_HIGH);;
  switch_bank base 3;;
  out 0 (base + SH_MEM_PAGE);;
  i ← get_idev;
  let addr := start f - membase i in
  out (Z.land addr 0xff) (base + TX_DMA_ADDR_LOW);;
  out (Z.lor PAGE_DISABLE (Z.land (Z.shiftr addr 8) 0x3f)) (base + TX_DMA_ADDR_HIGH);;
  switch_bank base 0;;
  out 0xc0 (base + MISC);;
  switch_bank base 0;;
  out (Z.lor TX_CTRL1_RTS TX_CTRL1_UNDR_EOM_I) (base + TX_CTRL1).

(** the delay before the first frame of a turn *)
Definition mtt_delay (mtt : Z) : M (fir D) unit :=
  when (truth mtt)
    (tv ← get_dev time_of_day;
     set_self (with_now tv);;
     c ← gets self;
     let diff := snd (now c) - snd (stamp c) in
     let diff := if diff <? 0 then diff + 1000000 else diff in
     when (diff <? mtt) (kcall (Udelay (mtt - diff)))).

Definition ircard_hard_xmit (skb : sk_buff) : M (fir D) Z :=
  i ← get_idev;
  if negb (tbusy i =? 0) then mret (- EBUSY)
  else
    set_idev (with_tbusy 1);;
    spin_lock;;
    switch_bank (iobase i) 0;;
    let len := Z.of_nat (length (skb_data skb)) in
    q ← get_q;
    queue_set (free q) (mkFrame (tail q) len);;
    set_tx_q (λ q, with_tail (tail q + len) q);;
    copy_to_pc (tail q) (skb_data skb);;
    set_tx_q (λ q, with_qlen (qlen q + 1) q);;
    set_tx_q (λ q, with_free (free q + 1) q);;
    q ← get_q;
    when (qlen q =? 1) (mtt_delay (skb_mtt skb);; ircard_dma_write (iobase i));;
    spin_unlock;;
    kcall DevKfreeSkb;;
    set_idev (with_tbusy 0);;
    mret 0.

(** [more]: how often the status may still be read; the code breaks after 1001 reads *)
Fixpoint spin_until_eom (base stat : Z) (more : nat) : M (fir D) unit :=
  if tst stat TX_STAT_EOM then mret tt
  else match more with
  | O => mret tt
  | S more => stat ← inp (base + TX_STAT); spin_until_eom base stat more
  end.
Definition eom_reads : nat := Z.to_nat 1001.

Definition ircard_xmit_complete : M (fir D) unit :=
  i ← get_idev;
  let base := iobase i in
  bank ← switch_bank base 0;
  stat ← inp (base + TX_STAT);
  (if tst stat TX_STAT_FIFO_UNDR then set_stats tx_error
   else
     spin_until_eom base stat eom_reads;;
     set_stats (tx_sent (tx_buff_len i)));;
  ircard_set_mcr base MCR_INTR_EN bank;;
  out 0 (base + MISC);;
  out RESET_TX_SPEC_BITS (base + RESET);;
  set_idev (with_tbusy 0);;
  set_idev (with_media_busy 0);;
  set_tx_q (λ q, with_ptr (ptr q + 1) q);;
  set_tx_q (λ q, with_qlen (qlen q - 1) q);;
  q ← get_q;
  (if truth (qlen q) then ircard_dma_write base
   else
     empty ← get_txq_empty;
     when empty (out 0 (base + TX_CTRL1);; ircard_receive base;; mret tt));;
  kcall MarkBh.

(** ** Interrupts *)
Definition ircard_dispatch (base msr : Z) : M (fir D) unit :=
  if msr =? MSR_TX_COND_ID then ircard_xmit_complete
  else if msr =? MSR_RX_DATA_ID then ircard_receive_complete base;; mret tt
  else if msr =? MSR_RX_COND_ID then ircard_receive_complete base;; mret tt
  else mret tt.

(** [more] is [11 - bogus] *)
Fixpoint interrupt_loop (base msr : Z) (more : nat) : M (fir D) unit :=
  if msr =? 0 then mret tt
  else
    ircard_dispatch base msr;;
    match more with
    | O => printk ("ircard_interrupt(), breaking!" +:+ nl)
    | S more =>
        msr ← inp (base + MSR);
        interrupt_loop base (Z.land msr MSR_ID_MASK) more
    end.

(** [known] is [dev_id != NULL] *)
Definition ircard_interrupt (irq : Z) (known : bool) : M (fir D) unit :=
  if negb known then
    printk ("ircard_cs: irq " +:+ fmt_d irq +:+ " for unknown device." +:+ nl)
  else
    i ← get_idev;
    if baudrate i <=? 115200 then kcall (IrportInterrupt irq)
    else
      spin_lock;;
      set_idev (with_interrupt 1);;
      bank ← switch_bank (iobase i) 0;
      msr ← inp (iobase i + MSR);
      interrupt_loop (iobase i) (Z.land msr MSR_ID_MASK) 11;;
      switch_bank (iobase i) bank;;
      set_idev (with_interrupt 0);;
      spin_unlock.

(** ** Network operations *)
Definition ircard_net_init : M (fir D) Z :=
  kcall NetSetup;;
  mret 0.

Definition ircard_net_open : M (fir D) Z :=
  i ← get_idev;
  if negb (idev_magic i) then mret 0
  else
    kcall NetOpen;;
    kcall (IrportStart (iobase2 i));;
    kcall ModIncUseCount;;
    mret 0.

Definition ircard_net_close : M (fir D) Z :=
  kcall NetClose;;
  i ← get_idev;
  if negb (idev_magic i) then mret 0
  else
    kcall (IrportStop (iobase2 i));;
    kcall ModDecUseCount;;
    mret 0.

Definition ircard_wait_until_sent : M (fir D) unit :=
  i ← get_idev;
  if 115200 <? baudrate i then kcall (ScheduleTimeout 60) else kcall IrportWaitUntilSent.

Definition ircard_is_receiving : M (fir D) bool :=
  i ← get_idev;
  mret (if negb (idev_magic i) then false
        else if 115200 <? baudrate i then false
        else negb (outside_frame i)).
End driver.
