(* ===== verification/IrChip.v ===== *)
(** * The 31T1502 as its driver relies on it, and what the driver does with it

    [chip] is what the theorems see of the card and of the kernel; [IbmChip] gives the
    laws: the registers keep what is written, the window is memory, a request to send
    puts on the air the octets of the window that the address and the count
    registers name, and the ring frame pointer is read in bank 1.  The values of
    the status registers are left to the hardware.  Two points are idealised: the frame goes
    out whole even where the chip then reports an underrun (ircard_cs.h), and the bit
    PAGE_DISABLE (0x40) of the high address register is read as bit 14 of the address.  [wp] runs the driver on that
    view. *)
From Stdlib Require Import String.
From S2P Require Import Prelude CInt Printf PortIO IrCard.
Local Open Scope string_scope.
Local Open Scope list_scope.
Local Open Scope Z_scope.

Definition MISC_XMIT := 0x80.

Record chip := mkChip {
  c_mcr : Z;
  c_reg : Z → Z → Z;        (* bank, offset *)
  c_rfp : Z;                (* ring frame pointer *)
  c_shm : Z → Z;            (* by offset in the window *)
  c_air : list (list Z);    (* the frames that were sent *)
  c_txq_empty : bool }.     (* the interface has no frame waiting *)

Definition c_bank (c : chip) : Z := Z.land (c_mcr c) MCR_BANK_MASK.
Definition set_mcr v c := mkChip v (c_reg c) (c_rfp c) (c_shm c) (c_air c) (c_txq_empty c).
Definition set_reg b o v c := mkChip (c_mcr c)
  (λ b' o', if (b' =? b) && (o' =? o) then v else c_reg c b' o')
  (c_rfp c) (c_shm c) (c_air c) (c_txq_empty c).
Definition set_rfp v c := mkChip (c_mcr c) (c_reg c) v (c_shm c) (c_air c) (c_txq_empty c).
Definition set_shm v c := mkChip (c_mcr c) (c_reg c) (c_rfp c) v (c_air c) (c_txq_empty c).
Definition set_air v c := mkChip (c_mcr c) (c_reg c) (c_rfp c) (c_shm c) v (c_txq_empty c).

Fixpoint shm_bytes (m : Z → Z) (a : Z) (n : nat) : list Z :=
  match n with
  | O => []
  | S n => m a :: shm_bytes m (a + 1) n
  end.

(** the window after [l] was copied to [a] *)
Fixpoint put_bytes (m : Z → Z) (a : Z) (l : list Z) : Z → Z :=
  match l with
  | [] => m
  | b :: l => put_bytes (λ x, if x =? a then u8 b else m x) (a + 1) l
  end.

Lemma shm_bytes_ext m m' a n :
  (∀ x, a ≤ x < a + Z.of_nat n → m x = m' x) → shm_bytes m a n = shm_bytes m' a n.
Proof.
  revert a. induction n as [|n IH]; intros a H; [done|]. simpl.
  rewrite H by lia. f_equal. apply IH. intros x Hx. apply H. lia.
Qed.
Lemma shm_bytes_length m a n : length (shm_bytes m a n) = n.
Proof. revert a. induction n; intros a; simpl; congruence. Qed.
Lemma put_bytes_before m a l x : x < a → put_bytes m a l x = m x.
Proof.
  revert m a. induction l as [|b l IH]; intros m a Hx; [done|]. simpl.
  rewrite IH by lia. by rewrite (proj2 (Z.eqb_neq x a)) by lia.
Qed.
Lemma shm_put_before m a l o n :
  o + Z.of_nat n ≤ a → shm_bytes (put_bytes m a l) o n = shm_bytes m o n.
Proof. intros H. apply shm_bytes_ext. intros x Hx. apply put_bytes_before. lia. Qed.
Lemma shm_put m a l :
  Forall is_byte l → shm_bytes (put_bytes m a l) a (length l) = l.
Proof.
  intros Hl. revert m a. induction Hl as [|b l Hb _ IH]; intros m a; [done|]. simpl.
  rewrite put_bytes_before by lia. rewrite Z.eqb_refl, u8_small by done.
  by rewrite IH.
Qed.

Definition tx_address (c : chip) : Z :=
  c_reg c 3 TX_DMA_ADDR_LOW + 256 * c_reg c 3 TX_DMA_ADDR_HIGH.
Definition tx_count (c : chip) : Z :=
  c_reg c 1 TX_BYTE_COUNT_LOW + 256 * c_reg c 1 TX_BYTE_COUNT_HIGH.

(** a byte written to the port at [o] *)
Definition chip_out (o v : Z) (c : chip) : chip :=
  if o =? MCR then set_mcr v c
  else
    let c1 := set_reg (c_bank c) o v c in
    if (o =? TX_CTRL1) && (c_bank c =? 0) && tst v TX_CTRL1_RTS && tst (c_mcr c) MCR_TX_EN
       && tst (c_reg c 0 MISC) MISC_XMIT
    then set_air (c_air c ++ [shm_bytes (c_shm c) (tx_address c) (Z.to_nat (tx_count c))]) c1
    else if (o =? RESET) && (c_bank c =? 0) && (v =? RESET_RX_RFP) then set_rfp 0 c1
    else c1.

Lemma mcr_out o v c : o ≠ MCR → c_mcr (chip_out o v c) = c_mcr c.
Proof.
  intros Ho. unfold chip_out. rewrite (proj2 (Z.eqb_neq o MCR)) by done.
  by repeat case_match.
Qed.

Class IbmChip (D : Type) `{!PortDev D} `{!CardHost D} (base mem : Z) := {
  abs : D → chip;
  chip_mcr_byte d : is_byte (c_mcr (abs d));
  chip_shm_byte d a : is_byte (c_shm (abs d) a);
  chip_read_mcr d : fst (dev_in (base + MCR) d) = c_mcr (abs d);
  chip_read o d : 0 ≤ o < 8 → abs (snd (dev_in (base + o) d)) = abs d;
  chip_rfp_low d : c_bank (abs d) = 1 →
    fst (dev_in (base + RX_RING_FRM_PTR_LOW) d) = c_rfp (abs d) mod 256;
  chip_rfp_high d : c_bank (abs d) = 1 →
    fst (dev_in (base + RX_RING_FRM_PTR_HIGH) d) = c_rfp (abs d) / 256;
  chip_write o v d : 0 ≤ o < 8 → is_byte v →
    abs (dev_out v (base + o) d) = chip_out o v (abs d);
  chip_mem_in a d : mem ≤ a < mem + SHMEM_SIZE →
    fst (mem_in a d) = c_shm (abs d) (a - mem) ∧ abs (snd (mem_in a d)) = abs d;
  chip_mem_out a v d : mem ≤ a < mem + SHMEM_SIZE → is_byte v →
    abs (mem_out a v d)
    = set_shm (λ x, if x =? a - mem then v else c_shm (abs d) x) (abs d);
  chip_service k d : abs (service k d) = abs d;
  chip_time d : abs (snd (time_of_day d)) = abs d;
  chip_alloc n d : abs (snd (alloc_skb n d)) = abs d;
  chip_txq d : txqueue_empty d = c_txq_empty (abs d) }.

Record core := mkCore {
  k_chip : chip;
  k_idev : irda_device;
  k_self : ircard_cb;
  k_locked : bool;
  k_netif : list (list Z) }.
Abbreviation k_q c := (tx_q (k_self c)).

Section wp.
Context {D : Type} `{!PortDev D} `{!CardHost D} (base mem : Z) `{!IbmChip D base mem}.
Hypothesis base_port : 0 ≤ base ∧ base + 8 ≤ 65536.

Definition core_of (s : fir D) : core :=
  mkCore (abs (base:=base) (mem:=mem) (dev (hw s))) (idev s) (self s) (locked s) (netif s).

(** [m] returns from every state that is seen as [c], with [Q] *)
Definition wp {A} (m : M (fir D) A) (Q : A → core → Prop) (c : core) : Prop :=
  ∀ s, core_of s = c → ∃ a s', m s = Ok (a, s') ∧ Q a (core_of s').

Lemma fir_ret {A} (a : A) Q c : Q a c → wp (mret a) Q c.
Proof. intros HQ s <-. by exists a, s. Qed.
Lemma fir_bind {A B} (m : M (fir D) A) (k : A → M (fir D) B) Q c :
  wp m (λ a, wp (k a) Q) c → wp (m ≫= k) Q c.
Proof.
  intros Hm s Es. destruct (Hm s Es) as (a & s1 & E1 & H1).
  destruct (H1 s1 eq_refl) as (b & s2 & E2 & H2).
  exists b, s2. split; [by erewrite bind_ok by exact E1|done].
Qed.
Lemma fir_mono {A} (m : M (fir D) A) (Q Q' : A → core → Prop) c :
  wp m Q c → (∀ a c', Q a c' → Q' a c') → wp m Q' c.
Proof. intros Hm HQ s Es. destruct (Hm s Es) as (a & s' & E & H). eauto. Qed.
Lemma fir_when b (m : M (fir D) unit) Q c :
  (b = true → wp m Q c) → (b = false → Q tt c) → wp (when b m) Q c.
Proof. destruct b; intros H1 H2; [by apply H1|]. apply fir_ret, H2, eq_refl. Qed.

Lemma fir_get_idev Q c : Q (k_idev c) c → wp get_idev Q c.
Proof. intros HQ s <-. by exists (idev s), s. Qed.
Lemma fir_get_q Q c : Q (k_q c) c → wp get_q Q c.
Proof. intros HQ s <-. by exists (tx_q (self s)), s. Qed.
Lemma fir_get_self Q c : Q (k_self c) c → wp (gets self) Q c.
Proof. intros HQ s <-. by exists (self s), s. Qed.
Lemma fir_get_txq_empty Q c : Q (c_txq_empty (k_chip c)) c → wp get_txq_empty Q c.
Proof.
  intros HQ s <-. exists (txqueue_empty (dev (hw s))), s. split; [done|].
  by rewrite (chip_txq (base:=base) (mem:=mem)).
Qed.
Lemma fir_set_idev f Q c :
  Q tt (mkCore (k_chip c) (f (k_idev c)) (k_self c) (k_locked c) (k_netif c)) →
  wp (set_idev f) Q c.
Proof. intros HQ s <-. by eexists _, _. Qed.
Lemma fir_set_self f Q c :
  Q tt (mkCore (k_chip c) (k_idev c) (f (k_self c)) (k_locked c) (k_netif c)) →
  wp (set_self f) Q c.
Proof. intros HQ s <-. by eexists _, _. Qed.
Lemma fir_deliver x Q c :
  Q tt (mkCore (k_chip c) (k_idev c) (k_self c) (k_locked c) (k_netif c ++ [x])) →
  wp (modify (λ s, mkFir (hw s) (idev s) (self s) (locked s) (netif s ++ [x]))) Q c.
Proof. intros HQ s <-. by eexists _, _. Qed.
Lemma fir_spin_lock Q c :
  k_locked c = false →
  Q tt (mkCore (k_chip c) (k_idev c) (k_self c) true (k_netif c)) → wp spin_lock Q c.
Proof.
  intros Hl HQ s <-. unfold spin_lock, gets, modify, mbind, M_bind.
  simpl in Hl. rewrite Hl. by eexists _, _.
Qed.
Lemma fir_spin_unlock Q c :
  Q tt (mkCore (k_chip c) (k_idev c) (k_self c) false (k_netif c)) → wp spin_unlock Q c.
Proof. intros HQ s <-. by eexists _, _. Qed.
Lemma fir_printk t Q c : Q tt c → wp (printk t) Q c.
Proof. intros HQ s <-. by eexists _, _. Qed.
Lemma fir_kcall k Q c : Q tt c → wp (kcall k) Q c.
Proof.
  intros HQ s <-. eexists _, _. split; [done|].
  unfold core_of. cbn. by rewrite chip_service.
Qed.
Lemma fir_get_dev {A} (f : D → A * D) Q c :
  (∀ d, abs (base:=base) (mem:=mem) (snd (f d)) = abs (base:=base) (mem:=mem) d) →
  (∀ d, Q (fst (f d)) c) → wp (get_dev f) Q c.
Proof.
  intros Hf HQ s <-. unfold get_dev, zoom. cbn. specialize (Hf (dev (hw s))).
  specialize (HQ (dev (hw s))). destruct (f (dev (hw s))) as [a d]. eexists _, _. split; [done|].
  unfold core_of. cbn in *. rewrite Hf. done.
Qed.

Lemma fir_out v o Q c :
  0 ≤ o < 8 →
  Q tt (mkCore (chip_out o (u8 v) (k_chip c)) (k_idev c) (k_self c) (k_locked c) (k_netif c)) →
  wp (out v (base + o)) Q c.
Proof.
  intros Ho HQ s <-. eexists _, _. split; [done|].
  unfold core_of. cbn. rewrite u16_small by lia.
  by rewrite chip_write by (done || apply u8_range).
Qed.
Lemma fir_inp o Q c :
  0 ≤ o < 8 → (∀ v, is_byte v → Q v c) → wp (inp (base + o)) Q c.
Proof.
  intros Ho HQ s <-. unfold inp, zoom, inb. cbn. rewrite u16_small by lia.
  pose proof (chip_read (base:=base) (mem:=mem) o (dev (hw s)) Ho) as Hd.
  destruct (dev_in (base + o) (dev (hw s))) as [v d]. eexists _, _. split; [done|].
  unfold core_of. cbn in *. rewrite Hd. apply HQ, u8_range.
Qed.
(** when the value is known *)
Lemma fir_inp_is o v Q c :
  0 ≤ o < 8 →
  (∀ d, abs (base:=base) (mem:=mem) d = k_chip c → u8 (fst (dev_in (base + o) d)) = v) →
  Q v c → wp (inp (base + o)) Q c.
Proof.
  intros Ho Hv HQ s <-. specialize (Hv (dev (hw s)) eq_refl).
  unfold inp, zoom, inb. cbn. rewrite u16_small by lia.
  pose proof (chip_read (base:=base) (mem:=mem) o (dev (hw s)) Ho) as Hd.
  destruct (dev_in (base + o) (dev (hw s))) as [w d]. eexists _, _. split; [done|].
  unfold core_of. cbn in *. by rewrite Hd, Hv.
Qed.

(** *** The banks *)
Definition bank_mcr (mcr bank : Z) : Z :=
  u8 (Z.lor (u8 (Z.land mcr (Z.lnot MCR_BANK_MASK))) bank).

Lemma bank_mcr_bank mcr b : 0 ≤ b < 32 → Z.land (bank_mcr mcr b) MCR_BANK_MASK = b.
Proof.
  intros Hb. unfold bank_mcr, u8, MCR_BANK_MASK.
  change 31 with (Z.ones 5). change (2 ^ 8) with (2 ^ 8)%Z.
  apply Z.bits_inj'. intros n Hn.
  rewrite Z.land_spec, Z.testbit_ones_nonneg by lia.
  destruct (Z.ltb_spec n 5).
  - rewrite Z.mod_pow2_bits_low, Z.lor_spec, Z.mod_pow2_bits_low, Z.land_spec, Z.lnot_spec by lia.
    rewrite Z.testbit_ones_nonneg by lia. rewrite (proj2 (Z.ltb_lt n 5)) by done.
    cbn. by rewrite andb_false_r, andb_true_r.
  - rewrite andb_false_r. destruct (decide (b = 0)) as [->|]; [by rewrite Z.bits_0|].
    symmetry. apply Z.bits_above_log2; [lia|].
    assert (Z.log2 b < 5) by (apply Z.log2_lt_pow2; lia). lia.
Qed.

Lemma fir_set_mcr itr b Q c :
  Q tt (mkCore (set_mcr (u8 (Z.lor itr b)) (k_chip c)) (k_idev c) (k_self c) (k_locked c)
    (k_netif c)) →
  wp (ircard_set_mcr base itr b) Q c.
Proof. intros HQ. by apply fir_out. Qed.
Lemma fir_switch_bank_raw b Q c :
  Q tt (mkCore (set_mcr (u8 b) (k_chip c)) (k_idev c) (k_self c) (k_locked c) (k_netif c)) →
  wp (switch_bank_raw base b) Q c.
Proof. intros HQ. by apply fir_out. Qed.
Lemma fir_switch_bank b Q c :
  Q (c_bank (k_chip c)) (mkCore (set_mcr (bank_mcr (c_mcr (k_chip c)) b) (k_chip c))
    (k_idev c) (k_self c) (k_locked c) (k_netif c)) →
  wp (switch_bank base b) Q c.
Proof.
  intros HQ s Es. unfold switch_bank.
  apply (fir_bind _ _ Q c); [|done].
  apply (fir_inp_is MCR (c_mcr (k_chip c))); [done|..].
  - intros d <-. rewrite chip_read_mcr. apply u8_small, chip_mcr_byte.
  - apply fir_bind, fir_set_mcr, fir_ret. apply HQ.
Qed.

(** *** The window *)
Lemma in_window_iff i a : in_window i a = true ↔ membase i ≤ a < membase i + SHMEM_SIZE.
Proof. unfold in_window. rewrite andb_true_iff, Z.leb_le, Z.ltb_lt. done. Qed.

Lemma fir_readb a Q c :
  membase (k_idev c) = mem → mem ≤ a < mem + SHMEM_SIZE →
  Q (c_shm (k_chip c) (a - mem)) c → wp (readb a) Q c.
Proof.
  intros Hm Ha HQ. apply fir_bind, fir_get_idev.
  rewrite (proj2 (in_window_iff (k_idev c) a)) by (by rewrite Hm).
  apply fir_bind. intros s <-. unfold get_dev, zoom. cbn.
  destruct (chip_mem_in (base:=base) (mem:=mem) a (dev (hw s)) Ha) as [Hv Hd].
  destruct (mem_in a (dev (hw s))) as [v d]. eexists _, _. split; [done|].
  unfold core_of. cbn in *. rewrite Hd, Hv. apply fir_ret.
  rewrite u8_small by apply chip_shm_byte. exact HQ.
Qed.

Lemma fir_writeb v a Q c :
  membase (k_idev c) = mem → mem ≤ a < mem + SHMEM_SIZE →
  Q tt (mkCore (set_shm (λ x, if x =? a - mem then u8 v else c_shm (k_chip c) x) (k_chip c))
    (k_idev c) (k_self c) (k_locked c) (k_netif c)) →
  wp (writeb v a) Q c.
Proof.
  intros Hm Ha HQ. apply fir_bind, fir_get_idev.
  rewrite (proj2 (in_window_iff (k_idev c) a)) by (by rewrite Hm).
  intros s <-. eexists _, _. split; [done|].
  unfold core_of. cbn. by rewrite chip_mem_out by (done || apply u8_range).
Qed.

Lemma fir_copy_from_pc n a Q c :
  membase (k_idev c) = mem → mem ≤ a → a + Z.of_nat n ≤ mem + SHMEM_SIZE →
  Q (shm_bytes (c_shm (k_chip c)) (a - mem) n) c → wp (copy_from_pc a n) Q c.
Proof.
  intros Hm. revert a Q. induction n as [|n IH]; intros a Q Ha Hn HQ; [by apply fir_ret|].
  apply fir_bind, fir_readb; [done|lia|]. apply fir_bind, IH; [lia..|]. apply fir_ret.
  cbn in HQ. by replace (a + 1 - mem) with (a - mem + 1) by lia.
Qed.

Lemma fir_copy_to_pc l a Q c :
  membase (k_idev c) = mem → mem ≤ a → a + Z.of_nat (length l) ≤ mem + SHMEM_SIZE →
  Q tt (mkCore (set_shm (put_bytes (c_shm (k_chip c)) (a - mem) l) (k_chip c))
    (k_idev c) (k_self c) (k_locked c) (k_netif c)) →
  wp (copy_to_pc a l) Q c.
Proof.
  intros Hm. revert a c Hm. induction l as [|b l IH]; intros a c Hm Ha Hn HQ.
  - apply fir_ret. by destruct c as [[]].
  - simpl in Hn. apply fir_bind, fir_writeb; [done|lia|].
    apply IH; [done|lia..|]. cbn in *. by replace (a + 1 - mem) with (a - mem + 1) by lia.
Qed.

(** *** The queue *)
Lemma fir_queue_get n f Q c :
  0 ≤ n → queue (k_q c) !! Z.to_nat n = Some f → Q f c → wp (queue_get n) Q c.
Proof.
  intros Hn Hf HQ. apply fir_bind, fir_get_q. rewrite decide_True by done.
  rewrite Hf. by apply fir_ret.
Qed.
Lemma fir_queue_set n f Q c :
  0 ≤ n < Z.of_nat (length (queue (k_q c))) →
  Q tt (mkCore (k_chip c) (k_idev c)
    (with_tx_q (with_queue (<[Z.to_nat n := f]> (queue (k_q c))) (k_q c)) (k_self c))
    (k_locked c) (k_netif c)) →
  wp (queue_set n f) Q c.
Proof.
  intros Hn HQ. apply fir_bind, fir_get_q. rewrite decide_True by done.
  by apply fir_set_self.
Qed.
End wp.

(** one step of the driver on the view *)
Ltac drv_step :=
  lazymatch goal with
  | |- wp _ _ (_ ≫= _) _ _ => apply fir_bind
  | |- wp _ _ (mret _) _ _ => apply fir_ret
  | |- wp _ _ (when _ _) _ _ => apply fir_when; intros
  | |- wp _ _ get_idev _ _ => apply fir_get_idev
  | |- wp _ _ get_q _ _ => apply fir_get_q
  | |- wp _ _ (gets self) _ _ => apply fir_get_self
  | |- wp _ _ get_txq_empty _ _ => apply fir_get_txq_empty
  | |- wp _ _ (set_idev _) _ _ => apply fir_set_idev
  | |- wp _ _ (set_self _) _ _ => apply fir_set_self
  | |- wp _ _ (set_tx_q _) _ _ => apply fir_set_self
  | |- wp _ _ (set_stats _) _ _ => apply fir_set_idev
  | |- wp _ _ spin_lock _ _ => apply fir_spin_lock; [done|]
  | |- wp _ _ spin_unlock _ _ => apply fir_spin_unlock
  | |- wp _ _ (printk _) _ _ => apply fir_printk
  | |- wp _ _ (kcall _) _ _ => apply fir_kcall
  | |- wp _ _ (switch_bank _ _) _ _ => apply fir_switch_bank; [assumption|]
  | |- wp _ _ (switch_bank_raw _ _) _ _ => apply fir_switch_bank_raw; [assumption|]
  | |- wp _ _ (ircard_set_mcr _ _ _) _ _ => apply fir_set_mcr; [assumption|]
  | |- wp _ _ (out _ _) _ _ => apply fir_out; [assumption|done|]
  | |- wp _ _ (get_dev time_of_day) _ _ => apply fir_get_dev; [apply chip_time|intros ?]
  | |- wp _ _ (get_dev (alloc_skb _)) _ _ => apply fir_get_dev; [apply chip_alloc|intros ?]
  end; cbv beta; cbn [k_chip k_idev k_self k_locked k_netif]; rewrite ?mcr_out by done;
  cbn [c_mcr set_mcr].
Ltac drv := repeat drv_step.

(** what the accesses of [ircard_dma_write] make the chip do *)
Lemma dma_write_chip ch b0 a b x y : ∃ r,
  let m0 := u8 (Z.lor (Z.lor MCR_INTR_EN MCR_TX_EN) 0) in
  let m1 := bank_mcr m0 1 in let m3 := bank_mcr m1 3 in let m4 := bank_mcr m3 0 in
  chip_out TX_CTRL1 (u8 (Z.lor TX_CTRL1_RTS TX_CTRL1_UNDR_EOM_I))
    (set_mcr (bank_mcr m4 0) (chip_out MISC (u8 0xc0)
    (set_mcr m4 (chip_out TX_DMA_ADDR_HIGH y (chip_out TX_DMA_ADDR_LOW x
      (chip_out SH_MEM_PAGE (u8 0)
    (set_mcr m3 (chip_out TX_BYTE_COUNT_HIGH b (chip_out TX_BYTE_COUNT_LOW a
    (set_mcr m1 (chip_out TX_CTRL2 (u8 (Z.lor TX_CTRL2_EN_TX_CRC TX_CTRL2_EARLY_EOM_16))
    (set_mcr m0 (chip_out MISC (u8 0) (set_mcr b0 ch))))))))))))))
  = mkChip (Z.lor MCR_INTR_EN MCR_TX_EN) r (c_rfp ch) (c_shm ch)
      (c_air ch ++ [shm_bytes (c_shm ch) (x + 256 * y) (Z.to_nat (a + 256 * b))])
      (c_txq_empty ch).
Proof. eexists. reflexivity. Qed.

(** the low and high part of a number of 13 bits, and of an offset of the window *)
Lemma count_bytes n : 0 ≤ n < 8192 →
  u8 (Z.land n 0xff) + 256 * u8 (Z.land (Z.shiftr n 8) 0x1f) = n.
Proof.
  intros Hn. rewrite Z.shiftr_div_pow2 by done. change 0xff with (Z.ones 8).
  change 0x1f with (Z.ones 5). rewrite !Z.land_ones by done.
  rewrite !u8_small by zmod. zmod.
Qed.
Lemma address_bytes a : SHMEM_TX_START ≤ a < SHMEM_SIZE →
  u8 (Z.land a 0xff) + 256 * u8 (Z.lor PAGE_DISABLE (Z.land (Z.shiftr a 8) 0x3f)) = a.
Proof.
  unfold SHMEM_TX_START, SHMEM_SIZE, PAGE_DISABLE. intros Ha.
  rewrite Z.shiftr_div_pow2 by done. change 0xff with (Z.ones 8).
  change 0x3f with (Z.ones 6). rewrite !Z.land_ones by done.
  pose proof (lor_add_disjoint 1 ((a / 2 ^ 8) mod 2 ^ 6) 6) as Hh.
  change (Z.shiftl 1 6) with 0x40 in Hh. rewrite Hh by zmod. change (1 * 2 ^ 6) with 0x40.
  rewrite !u8_small by zmod. zmod.
Qed.

(** the chip sends nothing, and the window and the interface stay as they are *)
Definition quiet (c c' : chip) : Prop :=
  c_shm c' = c_shm c ∧ c_air c' = c_air c ∧ c_txq_empty c' = c_txq_empty c.

Lemma quiet_refl c : quiet c c.
Proof. done. Qed.
Lemma quiet_trans c1 c2 c3 : quiet c1 c2 → quiet c2 c3 → quiet c1 c3.
Proof. unfold quiet. intros (-> & -> & ->). done. Qed.
Lemma quiet_set_mcr v c c' : quiet c c' → quiet c (set_mcr v c').
Proof. done. Qed.
Lemma quiet_write o v c c' : o ≠ TX_CTRL1 ∨ tst v TX_CTRL1_RTS = false →
  quiet c c' → quiet c (chip_out o v c').
Proof.
  intros Ho H. unfold chip_out.
  assert (E : (o =? TX_CTRL1) && (c_bank c' =? 0) && tst v TX_CTRL1_RTS = false).
  { destruct Ho as [Ho| ->]; [by rewrite (proj2 (Z.eqb_neq o TX_CTRL1))|].
    by rewrite andb_false_r. }
  rewrite E. by repeat case_match.
Qed.

(** the receiver is on, with its interrupts and the transfer to the window *)
Definition receiving (c : chip) : Prop :=
  c_mcr c = Z.lor MCR_INTR_EN MCR_RX_EN ∧
  c_reg c 0 RX_CTRL = Z.lor RX_CTRL_EN_CRC RX_CTRL_COND_I ∧ c_reg c 0 MISC = 0xc0.

Definition empty_q (mem : Z) (q : shm_queue_t) : shm_queue_t :=
  mkQueue (queue q) 0 0 0 (SHMEM_TX_START + mem).

(** the accesses of [ircard_receive] when [b] was selected *)
Definition receive_chip (b m0 : Z) (ch : chip) : chip :=
  let m1 := u8 (Z.lor MCR_INTR_EN b) in
  let m2 := u8 (Z.lor (Z.lor MCR_RX_EN MCR_INTR_EN) b) in
  chip_out MISC (u8 0xc0) (chip_out RX_CTRL (u8 (Z.lor RX_CTRL_EN_CRC RX_CTRL_COND_I))
    (set_mcr (bank_mcr m2 0) (set_mcr m2
      (chip_out RESET (u8 RESET_RX_RFP) (chip_out RESET (u8 RESET_RX_SPEC_BITS)
        (set_mcr m1 (set_mcr m0 ch))))))).

Definition all_banks : list Z := Z.of_nat <$> seq 0 32.
Lemma all_banks_spec (P : Z → Prop) b :
  (∀ b, b ∈ all_banks → P b) → 0 ≤ b < 32 → P b.
Proof.
  intros HP Hb. apply HP, list_elem_of_fmap. exists (Z.to_nat b). rewrite elem_of_seq. lia.
Qed.
Lemma bank_range m : 0 ≤ Z.land m MCR_BANK_MASK < 32.
Proof. change MCR_BANK_MASK with (Z.ones 5). rewrite Z.land_ones by done. zmod. Qed.

Lemma receive_chip_quiet b m0 ch : quiet ch (receive_chip b m0 ch).
Proof. repeat first [apply quiet_write; [by left|] | apply quiet_set_mcr]. apply quiet_refl. Qed.
Lemma receive_chip_on b m0 ch : 0 ≤ b < 32 → receiving (receive_chip b m0 ch).
Proof.
  apply (all_banks_spec (λ b, receiving (receive_chip b m0 ch))).
  apply Forall_forall. repeat constructor.
Qed.
(** the commands that reset the receiver go to the bank that was selected *)
Lemma receive_chip_rfp b m0 ch : 0 ≤ b < 32 →
  c_rfp (receive_chip b m0 ch) = if b =? 0 then 0 else c_rfp ch.
Proof.
  apply (all_banks_spec (λ b, c_rfp (receive_chip b m0 ch) = if b =? 0 then 0 else c_rfp ch)).
  apply Forall_forall. repeat constructor.
Qed.

(** ... and the mode of the transceiver stays *)
Lemma receive_chip_mode b m0 ch : 0 ≤ b < 32 →
  c_reg (receive_chip b m0 ch) 2 IR_CONF = c_reg ch 2 IR_CONF.
Proof.
  apply (all_banks_spec (λ b, c_reg (receive_chip b m0 ch) 2 IR_CONF = c_reg ch 2 IR_CONF)).
  apply Forall_forall. repeat constructor.
Qed.

(** the octets of an entry of the queue; it lies in the transmit part of the window *)
Definition entry_bytes (mem : Z) (m : Z → Z) (f : frame_cb) : list Z :=
  shm_bytes m (start f - mem) (Z.to_nat (flen f)).
Definition entry_fits (mem : Z) (f : frame_cb) : Prop :=
  SHMEM_TX_START ≤ start f - mem < SHMEM_SIZE ∧ 0 ≤ flen f < 8192.

(** the frames that wait behind the one being sent *)
Definition waiting (mem : Z) (m : Z → Z) (q : shm_queue_t) : list (list Z) :=
  entry_bytes mem m <$> take (Z.to_nat (qlen q - 1)) (drop (Z.to_nat (ptr q + 1)) (queue q)).

(** the queue is in order, and all that was given is on the air or waits *)
Record tx_inv (mem : Z) (given : list (list Z)) (c : core) : Prop := {
  inv_mem : membase (k_idev c) = mem;
  inv_slots : length (queue (k_q c)) = Z.to_nat MAX_WINDOW;
  inv_ptr : 0 ≤ ptr (k_q c) ∧ 0 ≤ qlen (k_q c);
  inv_free : free (k_q c) = ptr (k_q c) + qlen (k_q c) ∧ free (k_q c) ≤ MAX_WINDOW;
  inv_tail : SHMEM_TX_START ≤ tail (k_q c) - mem ≤ SHMEM_SIZE;
  inv_entries n f : queue (k_q c) !! n = Some f → (n < Z.to_nat (free (k_q c)))%nat →
    ptr (k_q c) ≤ Z.of_nat n → entry_fits mem f ∧ start f + flen f ≤ tail (k_q c);
  inv_given : c_air (k_chip c) ++ waiting mem (c_shm (k_chip c)) (k_q c) = given }.

(** *** A frame is put in the queue *)
Definition push (len : Z) (q : shm_queue_t) : shm_queue_t :=
  mkQueue (<[Z.to_nat (free q) := mkFrame (tail q) len]> (queue q)) (ptr q) (qlen q + 1)
    (free q + 1) (tail q + len).

Lemma take_drop_insert {A} n k i (x : A) l :
  (k + n ≤ i)%nat → take n (drop k (<[i:=x]> l)) = take n (drop k l).
Proof. intros Hi. rewrite !take_drop_commute. by rewrite take_insert_ge. Qed.

Lemma waiting_push mem m given c l :
  tx_inv mem given c → free (k_q c) < MAX_WINDOW → Forall is_byte l →
  m = c_shm (k_chip c) →
  waiting mem (put_bytes m (tail (k_q c) - mem) l) (push (Z.of_nat (length l)) (k_q c))
  = waiting mem m (k_q c) ++ (if qlen (k_q c) =? 0 then [] else [l]).
Proof.
  intros [_ Hl [Hp Hn] [Hf _] Ht He _] Hfree Hb ->.
  unfold MAX_WINDOW in *. change (Z.to_nat 8) with 8%nat in Hl.
  set (q := k_q c) in *. unfold waiting. cbn [push ptr qlen queue].
  destruct (Z.eqb_spec (qlen q) 0) as [E|E]; [rewrite E; by rewrite app_nil_r|].
  replace (Z.to_nat (qlen q + 1 - 1)) with (S (Z.to_nat (qlen q - 1))) by lia.
  erewrite take_S_r.
  2:{ rewrite lookup_drop. replace (Z.to_nat (ptr q + 1) + Z.to_nat (qlen q - 1))%nat
        with (Z.to_nat (free q)) by lia. apply list_lookup_insert_eq. lia. }
  rewrite take_drop_insert by lia. rewrite fmap_app. f_equal.
  - apply list_fmap_ext. intros i f Hi. unfold entry_bytes.
    apply lookup_take_Some in Hi as [Hi Hlt]. rewrite lookup_drop in Hi.
    destruct (He _ _ Hi) as [[_ Hz] Hend]; [lia..|].
    apply shm_put_before. lia.
  - cbn. unfold entry_bytes. cbn. rewrite Nat2Z.id. by rewrite shm_put.
Qed.

Lemma push_entries mem given c len :
  tx_inv mem given c → free (k_q c) < MAX_WINDOW → 0 < len < 8192 →
  tail (k_q c) + len ≤ mem + SHMEM_SIZE →
  ∀ n f, queue (push len (k_q c)) !! n = Some f → (n < Z.to_nat (free (k_q c) + 1))%nat →
    ptr (k_q c) ≤ Z.of_nat n → entry_fits mem f ∧ start f + flen f ≤ tail (k_q c) + len.
Proof.
  intros [_ Hl [Hp Hn] [Hf _] Ht He _] Hfree Hlen Hend n f Hnf Hlt Hge.
  cbn [push queue] in Hnf.
  destruct (decide (n = Z.to_nat (free (k_q c)))) as [->|Hne].
  - rewrite list_lookup_insert_eq in Hnf by (rewrite Hl; unfold MAX_WINDOW in *; lia).
    injection Hnf as <-. unfold entry_fits. cbn. unfold SHMEM_TX_START, SHMEM_SIZE in *. lia.
  - rewrite list_lookup_insert_ne in Hnf by done.
    destruct (He n f Hnf) as [H1 H2]; [lia..|]. split; [done|lia].
Qed.

Lemma inv_pushed mem given c l c' :
  tx_inv mem given c → free (k_q c) < MAX_WINDOW → Forall is_byte l →
  let len := Z.of_nat (length l) in
  0 < len < 8192 → tail (k_q c) + len ≤ mem + SHMEM_SIZE →
  membase (k_idev c') = mem → k_q c' = push len (k_q c) →
  c_shm (k_chip c') = put_bytes (c_shm (k_chip c)) (tail (k_q c) - mem) l →
  c_air (k_chip c') = c_air (k_chip c) ++ (if qlen (k_q c) =? 0 then [l] else []) →
  tx_inv mem (given ++ [l]) c'.
Proof.
  intros Hinv Hfree Hb len Hlen Hend Hm Hq Hs Ha.
  pose proof (push_entries mem given c len Hinv Hfree Hlen Hend) as He.
  pose proof (waiting_push mem _ given c l Hinv Hfree Hb eq_refl) as Hw.
  destruct Hinv as [_ Hl [Hp Hn] [Hf _] Ht _ Hg].
  constructor; rewrite ?Hq; try solve [done | cbn; lia | exact He].
  - cbn. by rewrite length_insert.
  - rewrite Hs, Ha. unfold len. rewrite Hw, <- Hg, <- !app_assoc. f_equal.
    destruct (Z.eqb_spec (qlen (k_q c)) 0) as [E|]; [|done].
    unfold waiting. rewrite E. by rewrite app_nil_r.
Qed.

(** *** A frame is finished *)
Definition pop (q : shm_queue_t) : shm_queue_t :=
  mkQueue (queue q) (ptr q + 1) (qlen q - 1) (free q) (tail q).

Lemma waiting_pop mem m q :
  0 ≤ ptr q → 1 < qlen q → (Z.to_nat (ptr q + qlen q) ≤ length (queue q))%nat →
  ∃ f, queue q !! Z.to_nat (ptr q + 1) = Some f ∧
    waiting mem m q = entry_bytes mem m f :: waiting mem m (pop q).
Proof.
  intros Hp Hq Hl. destruct (lookup_lt_is_Some_2 (queue q) (Z.to_nat (ptr q + 1))) as [f Hf];
    [lia|]. exists f. split; [done|]. unfold waiting. cbn [pop ptr qlen queue].
  rewrite (drop_S _ _ _ Hf).
  replace (Z.to_nat (qlen q - 1)) with (S (Z.to_nat (qlen q - 1 - 1))) by lia.
  replace (Z.to_nat (ptr q + 1 + 1)) with (S (Z.to_nat (ptr q + 1))) by lia. done.
Qed.

Lemma inv_popped mem given c c' :
  tx_inv mem given c → 0 < qlen (k_q c) → membase (k_idev c') = mem → k_q c' = pop (k_q c) →
  c_shm (k_chip c') = c_shm (k_chip c) →
  c_air (k_chip c') ++ waiting mem (c_shm (k_chip c)) (pop (k_q c)) = given →
  tx_inv mem given c'.
Proof.
  intros [_ Hl [Hp Hn] [Hf Hx] Ht He Hg] Hlen Hm Hq Hs Ha.
  constructor; rewrite ?Hq; try solve [done | cbn; lia].
  - cbn. intros n f Hnf Hlt Hge. apply (He n f Hnf); lia.
  - by rewrite Hs.
Qed.
Lemma inv_emptied mem given c c' :
  tx_inv mem given c → qlen (k_q c) = 1 → membase (k_idev c') = mem →
  k_q c' = empty_q mem (k_q c) → quiet (k_chip c) (k_chip c') → tx_inv mem given c'.
Proof.
  intros [_ Hl [Hp Hn] [Hf Hx] Ht He Hg] Hlen Hm Hq (Hs & Ha & _).
  unfold MAX_WINDOW, SHMEM_TX_START, SHMEM_SIZE in *.
  constructor; rewrite ?Hq; try solve [done | cbn; unfold SHMEM_TX_START, SHMEM_SIZE; lia].
  rewrite Ha, <- Hg. unfold waiting. by rewrite Hlen.
Qed.

Section driver.
Context {D : Type} `{!PortDev D} `{!CardHost D} (base mem : Z) `{!IbmChip D base mem}.
Hypothesis base_port : 0 ≤ base ∧ base + 8 ≤ 65536.
#[local] Abbreviation wp := (wp base mem (D:=D)).

Lemma dma_write_ok f c (Q : unit → core → Prop) :
  membase (k_idev c) = mem → 0 ≤ ptr (k_q c) →
  queue (k_q c) !! Z.to_nat (ptr (k_q c)) = Some f → entry_fits mem f →
  (∀ r, let ch := k_chip c in
    Q tt (mkCore (mkChip (Z.lor MCR_INTR_EN MCR_TX_EN) r (c_rfp ch) (c_shm ch)
        (c_air ch ++ [entry_bytes mem (c_shm ch) f]) (c_txq_empty ch))
      (with_direction IO_XMIT (k_idev c)) (k_self c) (k_locked c) (k_netif c))) →
  wp (ircard_dma_write base) Q c.
Proof.
  intros Hm Hp Hf [Hs Hl] HQ. unfold ircard_dma_write. drv.
  apply fir_queue_get with f; [done..|]. drv.
  cbn [membase with_direction]. rewrite Hm.
  match goal with
  | |- context [set_mcr (bank_mcr (c_mcr ?ch) 0) ?ch] =>
      destruct (dma_write_chip ch (bank_mcr (c_mcr ch) 0)
        (u8 (Z.land (flen f) 0xff)) (u8 (Z.land (Z.shiftr (flen f) 8) 0x1f))
        (u8 (Z.land (start f - mem) 0xff))
        (u8 (Z.lor PAGE_DISABLE (Z.land (Z.shiftr (start f - mem) 8) 0x3f)))) as [r E]
  end.
  cbv zeta in E. rewrite E, count_bytes, address_bytes by lia. apply HQ.
Qed.

(** *** Getting ready to receive *)
Lemma ircard_receive_ok c (Q : Z → core → Prop) :
  (∀ ch, quiet (k_chip c) ch → receiving ch →
    c_rfp ch = (if c_bank (k_chip c) =? 0 then 0 else c_rfp (k_chip c)) →
    c_reg ch 2 IR_CONF = c_reg (k_chip c) 2 IR_CONF →
    Q 0 (mkCore ch (with_direction IO_RECV (k_idev c))
      (with_tx_q (empty_q (membase (k_idev c)) (k_q c)) (k_self c))
      (k_locked c) (k_netif c))) →
  wp (ircard_receive base) Q c.
Proof.
  intros HQ. unfold ircard_receive, reset_tx_q. drv.
  pose proof (bank_range (c_mcr (k_chip c))) as Hb.
  pose (m0 := bank_mcr (c_mcr (k_chip c)) 0).
  exact (HQ _ (receive_chip_quiet _ m0 _) (receive_chip_on _ m0 _ Hb)
    (receive_chip_rfp _ m0 _ Hb) (receive_chip_mode _ m0 _ Hb)).
Qed.

Lemma mtt_delay_ok mtt c (Q : unit → core → Prop) :
  (∀ cb, tx_q cb = k_q c →
    Q tt (mkCore (k_chip c) (k_idev c) cb (k_locked c) (k_netif c))) →
  wp (mtt_delay mtt) Q c.
Proof. intros HQ. destruct c. unfold mtt_delay. drv; by apply HQ. Qed.

Lemma spin_until_eom_ok stat more c (Q : unit → core → Prop) :
  Q tt c → wp (spin_until_eom base stat more) Q c.
Proof.
  intros HQ. revert stat. induction more as [|more IH]; intros stat; cbn [spin_until_eom];
    case_match; try by apply fir_ret.
  apply fir_bind, fir_inp; [done..|]. intros v _. apply IH.
Qed.

(** the device is ready to take a frame *)
Definition idle (c : core) : Prop :=
  iobase (k_idev c) = base ∧ tbusy (k_idev c) = 0 ∧ k_locked c = false.

Lemma hard_xmit_ok given skb c :
  tx_inv mem given c → idle c → Forall is_byte (skb_data skb) →
  free (k_q c) < MAX_WINDOW →
  let len := Z.of_nat (length (skb_data skb)) in
  0 < len < 8192 → tail (k_q c) + len ≤ mem + SHMEM_SIZE →
  wp (ircard_hard_xmit skb) (λ r c', r = 0 ∧ tx_inv mem (given ++ [skb_data skb]) c' ∧ idle c' ∧
    k_q c' = push len (k_q c) ∧ c_txq_empty (k_chip c') = c_txq_empty (k_chip c)) c.
Proof.
  intros Hinv (Hbase & Hbusy & Hlock) Hb Hfree len Hlen Hend.
  assert (Hpost : ∀ ch i cb, membase i = mem → iobase i = base →
    tx_q cb = push len (k_q c) → c_txq_empty ch = c_txq_empty (k_chip c) →
    c_shm ch = put_bytes (c_shm (k_chip c)) (tail (k_q c) - mem) (skb_data skb) →
    c_air ch = c_air (k_chip c) ++ (if qlen (k_q c) =? 0 then [skb_data skb] else []) →
    let c' := mkCore ch (with_tbusy 0 i) cb false (k_netif c) in
    0 = 0 ∧ tx_inv mem (given ++ [skb_data skb]) c' ∧ idle c' ∧
      k_q c' = push len (k_q c) ∧ c_txq_empty (k_chip c') = c_txq_empty (k_chip c)).
  { intros ch i cb Hm Hb' Hq Hx Hs Ha c'. split; [done|].
    split; [by eapply inv_pushed|]. by repeat split. }
  destruct (Hinv) as [Hm Hl [Hp Hn] [Hf _] Ht _ _].
  unfold MAX_WINDOW in *. change (Z.to_nat 8) with 8%nat in Hl.
  unfold ircard_hard_xmit. drv_step. drv_step. rewrite Hbusy, Hbase. cbn [Z.eqb negb]. drv.
  apply fir_queue_set; [cbn; rewrite Hl; lia|]. drv.
  apply fir_copy_to_pc; [done|unfold SHMEM_TX_START in *; lia|lia|]. drv.
  all: match goal with
  | |- context [mkCore _ _ ?cb _ _] =>
      assert (Hq : tx_q cb = push len (k_q c)) by done;
      revert Hq; generalize cb; intros cb1 Hq
  end; cbv beta in *.
  - apply mtt_delay_ok. cbn [k_chip k_idev k_self k_locked k_netif]. intros cb2 Hq2.
    rewrite Hq in Hq2. assert (E : qlen (k_q c) = 0) by (cbn in *; lia).
    apply dma_write_ok with (mkFrame (tail (k_q c)) len); cbn [k_chip k_idev k_self].
    + done.
    + by rewrite Hq2.
    + rewrite Hq2. cbn. replace (ptr (k_q c)) with (free (k_q c)) by lia.
      apply list_lookup_insert_eq. lia.
    + unfold entry_fits, SHMEM_TX_START, SHMEM_SIZE in *. cbn. lia.
    + intros r. drv. apply Hpost; try done. rewrite E. cbn. unfold entry_bytes. cbn.
      unfold len. by rewrite Nat2Z.id, shm_put.
  - apply Hpost; try done.
    destruct (Z.eqb_spec (qlen (k_q c)) 0) as [E|]; [cbn in *; lia|].
    by rewrite app_nil_r.
Qed.

(** how the queue goes on when a frame is finished *)
Definition next_q (c : core) : shm_queue_t :=
  if (qlen (k_q c) =? 1) && c_txq_empty (k_chip c) then empty_q mem (k_q c) else pop (k_q c).

Definition finished (given : list (list Z)) (c c' : core) : Prop :=
  tx_inv mem given c' ∧ iobase (k_idev c') = base ∧ tbusy (k_idev c') = 0 ∧
  k_locked c' = k_locked c ∧ k_q c' = next_q c ∧
  c_txq_empty (k_chip c') = c_txq_empty (k_chip c).

(** the end of [ircard_xmit_complete] *)
Lemma next_frame_ok given c ch i cb :
  tx_inv mem given c → 0 < qlen (k_q c) → quiet (k_chip c) ch → membase i = mem →
  iobase i = base → tbusy i = 0 → tx_q cb = pop (k_q c) →
  wp (if truth (qlen (pop (k_q c))) then ircard_dma_write base
      else empty ← get_txq_empty;
        when empty (out 0 (base + TX_CTRL1);; ircard_receive base;; mret tt))
    (λ _, finished given c) (mkCore ch i cb (k_locked c) (k_netif c)).
Proof.
  intros Hinv Hlen Hq Hm Hbase Hbusy Hcb. destruct (Hq) as (Qs & Qa & Qe).
  destruct (Hinv) as [_ Hl [Hp Hn] [Hf Hx] _ He Hg].
  unfold MAX_WINDOW in *. change (Z.to_nat 8) with 8%nat in Hl.
  unfold truth. destruct (Z.eqb_spec (qlen (pop (k_q c))) 0) as [E|E]; cbn in E; cbn [negb].
  - assert (E1 : qlen (k_q c) = 1) by lia.
    assert (Hw : waiting mem (c_shm (k_chip c)) (k_q c) = []) by (unfold waiting; by rewrite E1).
    assert (Hw' : waiting mem (c_shm (k_chip c)) (pop (k_q c)) = [])
      by (unfold waiting; cbn; by rewrite E1).
    unfold finished, next_q. rewrite E1, <- Qe. cbn [Z.eqb]. drv.
    + apply ircard_receive_ok; [done..|]. cbn [k_chip k_idev k_self k_locked k_netif].
      intros ch' Hr _ _ _. drv. rewrite H. cbn.
      assert (H2 : quiet (k_chip c) ch')
        by (eapply quiet_trans; [|exact Hr]; by apply quiet_write; [right|]).
      split; [|by destruct H2 as (_ & _ & ->); rewrite <- Qe, Hm, Hcb, H].
      eapply inv_emptied; try done. cbn. by rewrite Hm, Hcb.
    + split; [|by rewrite H].
      eapply inv_popped; try done; cbn; try lia. by rewrite Qa, Hw', <- Hg, Hw.
  - destruct (waiting_pop mem (c_shm (k_chip c)) (k_q c)) as (f & Hf1 & Hw);
      [lia|cbn in *; lia|rewrite Hl; lia|].
    destruct (He _ _ Hf1) as [Hfit _]; [lia|lia|].
    apply dma_write_ok with f; cbn [k_idev k_self]; rewrite ?Hcb; cbn [pop ptr queue];
      try done; [lia|].
    intros r. unfold finished, next_q. cbn [k_chip k_idev k_self k_locked k_netif].
    destruct (Z.eqb_spec (qlen (k_q c)) 1) as [|_]; [lia|]. cbn.
    split; [|done]. eapply inv_popped; try done; cbn.
    rewrite Qa, Qs, <- app_assoc. cbn. by rewrite <- Hw.
Qed.

Lemma xmit_complete_ok given c :
  tx_inv mem given c → iobase (k_idev c) = base → 0 < qlen (k_q c) →
  wp ircard_xmit_complete (λ _, finished given c) c.
Proof.
  intros Hinv Hbase Hlen. pose proof (inv_mem _ _ _ Hinv) as Hm.
  unfold ircard_xmit_complete. drv_step. drv_step. rewrite Hbase. drv.
  apply fir_inp; [done..|]. intros stat _. cbv beta. drv_step.
  match goal with |- wp _ ?Q ?c0 => assert (Hrest : ∀ i, membase i = mem → iobase i = base →
    Q tt (mkCore (k_chip c0) i (k_self c0) (k_locked c0) (k_netif c0))) end.
  { cbv beta. cbn [k_chip k_idev k_self k_locked k_netif]. intros i Hmi Hbi. drv.
    eapply fir_mono; [apply (next_frame_ok given c); try done|].
    - apply quiet_write; [by left|]. by apply quiet_write; [left|].
    - intros [] c' Hc'. by drv. }
  destruct (tst stat TX_STAT_FIFO_UNDR).
  - drv_step. by apply Hrest.
  - drv_step. apply spin_until_eom_ok; [done..|]. drv_step. by apply Hrest.
Qed.
End driver.
