(* ===== verification/IrCardRun.v ===== *)
(** * Runs of the card driver (ircard_cs.c)

    Frames given to the driver go on the air in order and unchanged ([tx_in_order]),
    as long as the queue of eight and the window have room; [ninth_frame] is what
    happens when eight frames were sent since the last turn to receive.  A frame that
    the chip left in the ring is delivered ([receive_complete_ok]); every entry of the
    driver ends, with the lock free when it returns ([driver_ends]); [change_speed_ok] gives the
    registers after a change of the speed. *)
From Stdlib Require Import String.
From S2P Require Import Prelude CInt Printf PortIO IrCard IrChip.
Local Open Scope string_scope.
Local Open Scope list_scope.
Local Open Scope Z_scope.

Section runs.
Context {D : Type} `{!PortDev D} `{!CardHost D} (base mem : Z) `{!IbmChip D base mem}.
Hypothesis base_port : 0 ≤ base ∧ base + 8 ≤ 65536.
#[local] Abbreviation core_of := (core_of base mem (D:=D)).
#[local] Abbreviation wp := (wp base mem (D:=D)).

Definition on_air (s : fir D) : list (list Z) := c_air (k_chip (core_of s)).
Definition in_queue (s : fir D) : list (list Z) :=
  waiting mem (c_shm (k_chip (core_of s))) (tx_q (self s)).

(** ready to receive, nothing to send and nothing sent *)
Definition fresh (c : core) : Prop :=
  tx_inv mem [] c ∧ idle base c ∧ k_q c = empty_q mem (k_q c).

(** the hardware works on its own: it may write in the receive part of the window and
    change its registers *)
Definition elsewhere (c c' : core) : Prop :=
  k_idev c' = k_idev c ∧ k_self c' = k_self c ∧ k_locked c' = k_locked c ∧
  c_air (k_chip c') = c_air (k_chip c) ∧
  ∀ a, SHMEM_TX_START ≤ a → c_shm (k_chip c') a = c_shm (k_chip c) a.

(** there is room for a frame *)
Definition room (skb : sk_buff) (q : shm_queue_t) : Prop :=
  Forall is_byte (skb_data skb) ∧ free q < MAX_WINDOW ∧
  0 < Z.of_nat (length (skb_data skb)) < 8192 ∧
  tail q + Z.of_nat (length (skb_data skb)) ≤ mem + SHMEM_SIZE.

(** frames given, frames finished, and the hardware in between *)
Inductive tx_run : list (list Z) → fir D → Prop :=
  | run_start s : fresh (core_of s) → tx_run [] s
  | run_xmit given skb s s' : tx_run given s → room skb (tx_q (self s)) →
      ircard_hard_xmit skb s = Ok (0, s') → tx_run (given ++ [skb_data skb]) s'
  | run_complete given s s' : tx_run given s → 0 < qlen (tx_q (self s)) →
      ircard_xmit_complete s = Ok (tt, s') → tx_run given s'
  | run_elsewhere given s s' : tx_run given s → elsewhere (core_of s) (core_of s') →
      tx_run given s'.

Lemma inv_elsewhere given c c' : tx_inv mem given c → elsewhere c c' → tx_inv mem given c'.
Proof.
  intros [Hm Hl Hp Hf Ht He Hg] (Ei & Es & _ & Ea & Em).
  constructor; rewrite ?Ei, ?Es; try done. rewrite Ea, <- Hg. f_equal.
  apply list_fmap_ext. intros n f Hf'.
  apply lookup_take_Some in Hf' as [Hf' Hlt]. rewrite lookup_drop in Hf'.
  destruct (He _ _ Hf') as [[Hs _] _]; [lia..|].
  apply shm_bytes_ext. intros x Hx. apply Em. lia.
Qed.

Lemma tx_run_inv given s :
  tx_run given s → tx_inv mem given (core_of s) ∧ idle base (core_of s).
Proof.
  induction 1 as [s (H & H' & _)|given skb s s' _ [Hi Hd] (Hb & Hf & Hn & Ht) E
    |given s s' _ [Hi Hd] Hq E|given s s' _ [Hi Hd] He].
  - done.
  - destruct (hard_xmit_ok base mem base_port _ skb _ Hi Hd Hb Hf Hn Ht s eq_refl)
      as (r & s1 & E1 & _ & H1 & H2 & _).
    rewrite E in E1. by injection E1 as _ <-.
  - destruct (xmit_complete_ok base mem base_port _ _ Hi (proj1 Hd) Hq s eq_refl)
      as ([] & s1 & E1 & H1 & H2 & H3 & H4 & _).
    rewrite E in E1. injection E1 as <-. split; [done|].
    destruct Hd as (_ & _ & Hl). by rewrite <- H4 in Hl.
  - split; [by eapply inv_elsewhere|].
    destruct He as (Ei & _ & El & _). unfold idle in *. by rewrite Ei, El.
Qed.

Lemma run_xmit_ok given skb s :
  tx_run given s → room skb (tx_q (self s)) →
  ∃ s', ircard_hard_xmit skb s = Ok (0, s') ∧ tx_run (given ++ [skb_data skb]) s' ∧
    tx_q (self s') = push (Z.of_nat (length (skb_data skb))) (tx_q (self s)) ∧
    c_txq_empty (k_chip (core_of s')) = c_txq_empty (k_chip (core_of s)).
Proof.
  intros Hrun Hr. destruct (tx_run_inv _ _ Hrun) as [Hi Hd]. destruct (Hr) as (Hb & Hf & Hn & Ht).
  destruct (hard_xmit_ok base mem base_port _ skb _ Hi Hd Hb Hf Hn Ht s eq_refl)
    as (r & s1 & E1 & -> & _ & _ & H).
  exists s1. split; [done|]. split; [by eapply run_xmit|done].
Qed.

Lemma run_complete_ok given s :
  tx_run given s → 0 < qlen (tx_q (self s)) →
  ∃ s', ircard_xmit_complete s = Ok (tt, s') ∧ tx_run given s' ∧
    tx_q (self s') = next_q mem (core_of s) ∧
    c_txq_empty (k_chip (core_of s')) = c_txq_empty (k_chip (core_of s)).
Proof.
  intros Hrun Hq. destruct (tx_run_inv _ _ Hrun) as [Hi Hd].
  destruct (xmit_complete_ok base mem base_port _ _ Hi (proj1 Hd) Hq s eq_refl)
    as ([] & s1 & E1 & _ & _ & _ & _ & H).
  exists s1. split; [done|]. split; [by eapply run_complete|done].
Qed.

(** C4: Frames given to the driver of the card are sent in order and unchanged: after
    any run of transmissions, completions and accesses of the hardware to its part of
    the window, the frames that the chip put on the air followed by those that wait in
    the queue are exactly the frames given; a frame that has room is accepted, and the
    completion of a frame is always handled. *)
Theorem tx_in_order given s :
  tx_run given s →
  on_air s ++ in_queue s = given ∧
  (∀ skb, room skb (tx_q (self s)) →
     ∃ s', ircard_hard_xmit skb s = Ok (0, s') ∧ tx_run (given ++ [skb_data skb]) s') ∧
  (0 < qlen (tx_q (self s)) →
     ∃ s', ircard_xmit_complete s = Ok (tt, s') ∧ tx_run given s').
Proof.
  intros Hrun. destruct (tx_run_inv _ _ Hrun) as [Hi _]. split_and!; [apply Hi|..].
  - intros skb Hr. destruct (run_xmit_ok _ _ _ Hrun Hr) as (s1 & E & H & _). eauto.
  - intros Hq. destruct (run_complete_ok _ _ Hrun Hq) as (s1 & E & H & _). eauto.
Qed.

(** ** Eight frames without a turn to receive *)

(** a frame that is finished before the next is given *)
Definition send_alone (skb : sk_buff) : M (fir D) unit :=
  ircard_hard_xmit skb;; ircard_xmit_complete.
Fixpoint send_each (l : list sk_buff) : M (fir D) unit :=
  match l with
  | [] => mret tt
  | skb :: l => send_alone skb;; send_each l
  end.

Definition total (l : list sk_buff) : Z :=
  foldr (λ skb n, Z.of_nat (length (skb_data skb)) + n) 0 l.
Definition frame_ok (skb : sk_buff) : Prop :=
  Forall is_byte (skb_data skb) ∧ 0 < Z.of_nat (length (skb_data skb)) < 8192.

Lemma total_nonneg l : 0 ≤ total l.
Proof. induction l; simpl; lia. Qed.

Lemma send_each_ok l given s :
  tx_run given s → c_txq_empty (k_chip (core_of s)) = false → Forall frame_ok l →
  let q := tx_q (self s) in
  qlen q = 0 → free q + Z.of_nat (length l) ≤ MAX_WINDOW →
  tail q + total l ≤ mem + SHMEM_SIZE →
  ∃ s', send_each l s = Ok (tt, s') ∧ tx_run (given ++ (skb_data <$> l)) s' ∧
    qlen (tx_q (self s')) = 0 ∧ free (tx_q (self s')) = free q + Z.of_nat (length l).
Proof.
  revert given s. induction l as [|skb l IH]; intros given s Hrun Hx Hl q Hq Hf Ht.
  { exists s. rewrite app_nil_r. split; [done|]. split; [done|]. split; [done|]. subst q. simpl length. lia. }
  apply Forall_cons in Hl as [[Hb Hn] Hl]. simpl length in Hf. cbn [total foldr] in Ht.
  fold (total l) in Ht.
  pose proof (total_nonneg l) as Hpos.
  destruct (run_xmit_ok _ skb _ Hrun) as (s1 & E1 & R1 & Q1 & X1);
    [split_and!; try done; fold q; lia|].
  destruct (run_complete_ok _ _ R1) as (s2 & E2 & R2 & Q2 & X2); [rewrite Q1; unfold push; cbn [qlen]; subst q; lia|].
  assert (Q3 : tx_q (self s2) = pop (push (Z.of_nat (length (skb_data skb))) q)).
  { rewrite Q2. unfold next_q. rewrite X1, Hx, andb_false_r. cbn. by rewrite Q1. }
  destruct (IH _ _ R2) as (s3 & E3 & R3 & Q4 & F3);
    [by rewrite X2, X1|done|rewrite Q3; unfold pop, push; cbn [free tail qlen]; lia..|].
  exists s3. split; [|split; [|split; [done|]]].
  - cbn [send_each]. unfold send_alone. rewrite bind_assoc.
    erewrite bind_ok by exact E1. by erewrite bind_ok by exact E2.
  - cbn. by rewrite cons_middle, app_assoc.
  - rewrite F3, Q3. unfold pop, push. cbn [free]. fold q. simpl length. lia.
Qed.

(** ... with every slot used, the next frame is written past them *)
Lemma no_slot skb s :
  idle base (core_of s) → free (tx_q (self s)) = Z.of_nat (length (queue (tx_q (self s)))) →
  ircard_hard_xmit skb s = Stop OobWrite.
Proof.
  intros (Hb & Hbusy & Hl) Hf. unfold ircard_hard_xmit. cbn in Hb, Hbusy, Hl.
  rewrite (bind_ok _ _ s (idev s) s) by done. rewrite Hbusy, Hb. cbn [Z.eqb negb].
  set (s1 := mkFir (hw s) (with_tbusy 1 (idev s)) (self s) true (netif s)).
  rewrite (bind_ok _ _ s tt (mkFir (hw s) (with_tbusy 1 (idev s)) (self s) (locked s) (netif s)))
    by done.
  rewrite (bind_ok _ _ _ tt s1).
  2:{ unfold spin_lock, gets, modify, mbind, M_bind. cbn. by rewrite Hl. }
  destruct (fir_switch_bank base mem base_port 0 (λ _ c, k_self c = self s) (core_of s1)
    eq_refl s1 eq_refl) as (b & s2 & E2 & H2).
  rewrite (bind_ok _ _ _ _ _ E2). cbn in H2.
  rewrite (bind_ok _ _ s2 (tx_q (self s)) s2) by (unfold get_q, gets; by rewrite H2).
  apply bind_stop. unfold queue_set.
  rewrite (bind_ok _ _ s2 (tx_q (self s)) s2) by (unfold get_q, gets; by rewrite H2).
  rewrite decide_False by lia. done.
Qed.

(** C14: The slots of the transmit queue are only given back when the driver turns to
    receive: when eight frames were sent one after the other, each finished before the
    next was given, while the interface always had more to send, the queue is empty
    and all of them went out, but the ninth is written past the array of slots. *)
Theorem ninth_frame l s :
  fresh (core_of s) → c_txq_empty (k_chip (core_of s)) = false →
  Forall frame_ok l → length l = 8%nat → total l ≤ SHMEM_SIZE - SHMEM_TX_START →
  ∃ s', send_each l s = Ok (tt, s') ∧ qlen (tx_q (self s')) = 0 ∧
    on_air s' = skb_data <$> l ∧
    ∀ skb, ircard_hard_xmit skb s' = Stop OobWrite.
Proof.
  intros Hfresh Hx Hl H8 Ht. destruct (Hfresh) as (_ & _ & Hq). cbn in Hq.
  destruct (send_each_ok l [] s) as (s1 & E1 & R1 & Q1 & F1); try done.
  - by constructor.
  - by rewrite Hq.
  - rewrite Hq, H8. done.
  - rewrite Hq. cbn [tail empty_q]. lia.
  - destruct (tx_run_inv _ _ R1) as [[_ Hs _ _ _ _ Hg] Hd].
    exists s1. split; [done|]. split; [done|]. split.
    + cbn in Hg. unfold waiting in Hg. rewrite Q1 in Hg. cbn in Hg.
      by rewrite app_nil_r in Hg.
    + intros skb. apply no_slot; [done|]. rewrite F1, Hq, H8. cbn in Hs. by rewrite Hs.
Qed.

(** ** Receiving *)

(** what the chip leaves of a frame in the ring, up to the ring frame pointer: the
    frame, its checksum, the number of these octets and the status *)
Definition ring_record (frame crc : list Z) (status : Z) : list Z :=
  let n := Z.of_nat (length frame + length crc) in
  frame ++ crc ++ [n mod 256; Z.lor status (n / 256)].

Lemma shm_bytes_app m a l1 l2 :
  shm_bytes m a (length (l1 ++ l2)) = l1 ++ l2 →
  shm_bytes m a (length l1) = l1 ∧ shm_bytes m (a + Z.of_nat (length l1)) (length l2) = l2.
Proof.
  revert a. induction l1 as [|x l1 IH]; intros a H; simpl in *.
  - by rewrite Z.add_0_r.
  - injection H as -> H. destruct (IH _ H) as [-> H2]. split; [done|].
    by replace (a + Z.of_nat (S (length l1))) with (a + 1 + Z.of_nat (length l1)) by lia.
Qed.

Lemma rfp_parts p : 0 ≤ p < 0x4000 →
  Z.lor (u8 (p mod 256)) (Z.shiftl (Z.land (u8 (p / 256)) 0x3f) 8) = p.
Proof.
  intros Hp. rewrite !u8_small by zmod. change 0x3f with (Z.ones 6).
  rewrite Z.land_ones, Z.lor_comm, lor_add_disjoint by zmod. zmod.
Qed.

(** the high part of a length, without the bits of the errors *)
Lemma status_parts h : 0 ≤ h < 32 →
  tst h 0x80 = false ∧ tst h 0x40 = false ∧ tst h 0x20 = false ∧ Z.land h 0x1f = h.
Proof.
  apply (all_banks_spec (λ h, tst h 0x80 = false ∧ tst h 0x40 = false ∧ tst h 0x20 = false
    ∧ Z.land h 0x1f = h)).
  apply Forall_forall. repeat constructor.
Qed.

Lemma ring_record_parts m a frame crc :
  let n := Z.of_nat (length frame + length crc) in
  shm_bytes m a (length (ring_record frame crc 0)) = ring_record frame crc 0 →
  shm_bytes m a (length frame) = frame ∧ m (a + n) = n mod 256 ∧ m (a + n + 1) = n / 256.
Proof.
  intros n H. apply shm_bytes_app in H as [H1 H]. apply shm_bytes_app in H as [_ H].
  cbn [shm_bytes length] in H. split; [done|].
  replace (a + Z.of_nat (length frame) + Z.of_nat (length crc)) with (a + n) in H by lia.
  fold n in H. injection H as -> ->. done.
Qed.

(** the ring frame pointer is read *)
Lemma fir_rfp c (Q : Z → core → Prop) :
  0 ≤ c_rfp (k_chip c) < 0x4000 →
  Q (c_rfp (k_chip c)) (mkCore (set_mcr (bank_mcr (c_mcr (k_chip c)) 1) (k_chip c)) (k_idev c)
    (k_self c) (k_locked c) (k_netif c)) →
  wp (ring_frame_pointer base) Q c.
Proof.
  intros Hp HQ. unfold ring_frame_pointer. drv.
  set (ch := set_mcr _ _) in *.
  assert (Hbank : c_bank ch = 1) by (by apply bank_mcr_bank).
  apply (fir_inp_is _ _ base_port _ (u8 (c_rfp ch mod 256))); [done|..].
  { intros d Hd. cbn in Hd. rewrite <- Hd in *. by rewrite chip_rfp_low. }
  apply fir_bind, (fir_inp_is _ _ base_port _ (u8 (c_rfp ch / 256))); [done|..].
  { intros d Hd. cbn in Hd. rewrite <- Hd in *. by rewrite chip_rfp_high. }
  drv. by rewrite rfp_parts.
Qed.

Lemma rx_ok frame crc c :
  membase (k_idev c) = mem → length crc = 4%nat → (2 ≤ length frame ≤ 2050)%nat →
  let p := c_rfp (k_chip c) in
  let r := ring_record frame crc 0 in
  Z.of_nat (length r) - 1 ≤ p < 0x4000 →
  shm_bytes (c_shm (k_chip c)) (p + 1 - Z.of_nat (length r)) (length r) = r →
  wp (ircard_receive_complete base) (λ b c',
    k_netif c' = k_netif c ++ (if b : bool then [frame] else []) ∧
    ((∀ n d, fst (alloc_skb (D:=D) n d) = true) → b = true) ∧
    data (k_self c') = p + 1 ∧ c_bank (k_chip c') = 1) c.
Proof.
  intros Hm Hcrc Hlen p r Hp Hr.
  set (n := Z.of_nat (length frame + length crc)) in *.
  assert (Hl : Z.of_nat (length r) = n + 2)
    by (unfold r, ring_record; rewrite !length_app; simpl length; lia).
  destruct (ring_record_parts _ _ _ _ Hr) as (R1 & R2 & R3). fold n in R2, R3.
  rewrite Hl in *. destruct (status_parts (n / 256)) as (T1 & T2 & T3 & T4); [zmod|].
  unfold ircard_receive_complete. apply fir_bind, fir_rfp; [lia|]. cbv beta. fold p.
  rewrite (proj2 (Z.eqb_neq p 0)) by lia. drv. rewrite Hm.
  apply fir_readb; [done|unfold SHMEM_SIZE; lia|]. cbn [k_chip c_shm set_mcr]. 
  replace (mem + p - mem) with (p + 1 - (n + 2) + n + 1) by lia. rewrite R3. drv.
  apply fir_readb; [done|unfold SHMEM_SIZE; lia|]. cbn [k_chip c_shm set_mcr].
  replace (mem + p - 1 - mem) with (p + 1 - (n + 2) + n) by lia. rewrite R2. drv.
  rewrite T1, T2, T3, T4, lor_add_disjoint by zmod.
  replace (n / 256 * 2 ^ 8 + n mod 256) with n by zmod.
  rewrite (proj2 (Z.ltb_lt 5 n)) by lia. cbn [negb]. drv.
  rewrite (proj2 (Z.ltb_ge 2050 (n - 4))) by lia.
  match goal with |- context [alloc_skb ?a ?d] => destruct (fst (alloc_skb a d)) eqn:Ea end;
    cbn [negb]; drv.
  - apply fir_copy_from_pc; [done|lia|unfold SHMEM_SIZE; lia|]. drv.
    apply fir_deliver. drv. cbn. split_and!; [|done..|by apply bank_mcr_bank].
    replace (mem + p - n - 1 - mem) with (p + 1 - (n + 2)) by lia.
    replace (Z.to_nat (n - 4)) with (length frame) by lia. by rewrite R1.
  - cbn. rewrite app_nil_r. split_and!; [done| |done|by apply bank_mcr_bank].
    intros Ha. by rewrite Ha in Ea.
Qed.

(** C7: A frame that the chip left in the ring, followed by its checksum, its length and
    a status without errors, is delivered as it is when the kernel gives a buffer
    for it; the start of the next one is remembered.  Bank 1 stays selected, so that
    the interrupt handler's next read of the interrupt status is a read of another
    register. *)
Theorem receive_complete_ok frame crc s :
  let c := core_of s in
  let p := c_rfp (k_chip c) in
  let r := ring_record frame crc 0 in
  membase (idev s) = mem → length crc = 4%nat → (2 ≤ length frame ≤ 2050)%nat →
  Z.of_nat (length r) - 1 ≤ p < 0x4000 →
  shm_bytes (c_shm (k_chip c)) (p + 1 - Z.of_nat (length r)) (length r) = r →
  ∃ b s', ircard_receive_complete base s = Ok (b, s') ∧
    netif s' = netif s ++ (if b : bool then [frame] else []) ∧
    ((∀ n d, fst (alloc_skb (D:=D) n d) = true) → b = true) ∧
    data (self s') = p + 1 ∧ c_bank (k_chip (core_of s')) = 1.
Proof.
  intros c p r Hm Hcrc Hlen Hp Hr.
  exact (rx_ok frame crc c Hm Hcrc Hlen Hp Hr s eq_refl).
Qed.

(** ** The speed *)
Definition ir_mode (speed : Z) : Z :=
  if speed =? 576000 then Z.lor IR_CONF_MIR_576 IR_CONF_MIR
  else if speed =? 1152000 then Z.lor IR_CONF_MIR_1152 IR_CONF_MIR
  else if speed =? 4000000 then IR_CONF_FIR
  else IR_CONF_SIR.

Lemma transceiver_ok (b1 b2 : bool) c (Q : unit → core → Prop) :
  (∀ ch, quiet (k_chip c) ch → c_rfp ch = c_rfp (k_chip c) →
    Q tt (mkCore ch (k_idev c) (k_self c) (k_locked c) (k_netif c))) →
  wp (if b1 then ircard_fir_to_sir base else if b2 then ircard_sir_to_fir base else mret tt) Q c.
Proof.
  intros HQ. destruct c as [ch0 i cb l n]. destruct b1; [|destruct b2].
  - unfold ircard_fir_to_sir. drv. apply HQ; [|done].
    repeat (apply quiet_write; [by left|]). done.
  - unfold ircard_sir_to_fir. drv. apply HQ; [|done].
    repeat (apply quiet_write; [by left|]). done.
  - drv. apply HQ; [|done]. apply quiet_refl.
Qed.

Lemma set_mode_ok b2 speed c (Q : unit → core → Prop) :
  Q tt (mkCore (chip_out IR_CONF (ir_mode speed) (k_chip c)) (k_idev c) (k_self c)
    (k_locked c) (k_netif c)) →
  wp (if speed =? 576000 then
        kcall (IrportStop b2);; out (Z.lor IR_CONF_MIR_576 IR_CONF_MIR) (base + IR_CONF)
      else if speed =? 1152000 then
        kcall (IrportStop b2);; out (Z.lor IR_CONF_MIR_1152 IR_CONF_MIR) (base + IR_CONF)
      else if speed =? 4000000 then
        kcall (IrportStop b2);; out IR_CONF_FIR (base + IR_CONF)
      else
        kcall (IrportStart b2);; kcall (IrportChangeSpeed speed);;
        out IR_CONF_SIR (base + IR_CONF)) Q c.
Proof. intros HQ. unfold ir_mode in HQ. by repeat case_match; drv. Qed.

Lemma change_speed_wp speed c :
  idev_magic (k_idev c) = true → iobase (k_idev c) = base → membase (k_idev c) = mem →
  k_locked c = false →
  wp (ircard_change_speed speed) (λ _ c',
    baudrate (k_idev c') = speed ∧ tbusy (k_idev c') = 0 ∧ k_locked c' = false ∧
    c_reg (k_chip c') 2 IR_CONF = ir_mode speed ∧
    hard_start_xmit (k_idev c')
      = (if 115200 <? speed then ircard_hard_xmit_h else irport_hard_xmit_h) ∧
    (115200 < speed → receiving (k_chip c') ∧ direction (k_idev c') = IO_RECV ∧
      k_q c' = empty_q mem (k_q c) ∧ c_rfp (k_chip c') = c_rfp (k_chip c))) c.
Proof.
  intros Hmag Hbase Hm Hlock. unfold ircard_change_speed.
  drv_step. drv_step. rewrite Hmag, Hbase. cbn [negb]. drv.
  apply transceiver_ok. intros ch _ Hr. drv. apply set_mode_ok. drv.
  - apply ircard_receive_ok; [done..|]. cbn [k_chip k_idev k_self k_locked k_netif].
    intros ch' _ Hon Hrfp Hmode. drv. split_and!; try done.
    intros _. split_and!; try done; [cbn; by rewrite Hm|]. rewrite Hrfp. exact Hr.
  - cbn. split_and!; try done. apply Z.ltb_ge in H. lia.
Qed.

(** After a change of the speed the card is in the mode of the speed, the handler of
    the transmission is the driver's exactly above 115200 bit/s, the device is free and
    the lock is given back.  Above 115200 bit/s the receiver is on and the transmit
    queue is empty; the commands that reset the receiver went to bank 2, where they are
    not commands: the ring frame pointer is what it was. *)
Theorem change_speed_ok speed s :
  idev_magic (idev s) = true → iobase (idev s) = base → membase (idev s) = mem →
  locked s = false →
  ∃ s', ircard_change_speed speed s = Ok (tt, s') ∧
    baudrate (idev s') = speed ∧ tbusy (idev s') = 0 ∧ locked s' = false ∧
    c_reg (k_chip (core_of s')) 2 IR_CONF = ir_mode speed ∧
    hard_start_xmit (idev s')
      = (if 115200 <? speed then ircard_hard_xmit_h else irport_hard_xmit_h) ∧
    (115200 < speed → receiving (k_chip (core_of s')) ∧ direction (idev s') = IO_RECV ∧
      tx_q (self s') = empty_q mem (tx_q (self s)) ∧
      c_rfp (k_chip (core_of s')) = c_rfp (k_chip (core_of s))).
Proof.
  intros H1 H2 H3 H4.
  destruct (change_speed_wp speed (core_of s) H1 H2 H3 H4 s eq_refl) as ([] & s' & E & H).
  by exists s'.
Qed.
End runs.

(** ** Every entry ends and gives the lock back *)
Section lock.
Context {D : Type} `{!PortDev D} `{!CardHost D}.
(** the ways in which an operation may stop *)
Variable bad : stop → Prop.

(** [m] returns and leaves the lock as it was, or stops in one of these ways *)
Definition lockless {A} (m : M (fir D) A) : Prop := ∀ s,
  match m s with
  | Ok (_, s') => locked s' = locked s
  | Stop w => bad w
  end.

Lemma lockless_ret {A} (a : A) : lockless (mret a).
Proof. done. Qed.
Lemma lockless_halt {A} w : bad w → lockless (A:=A) (halt w).
Proof. intros Hw s. exact Hw. Qed.
Lemma lockless_bind {A B} (m : M (fir D) A) (k : A → M (fir D) B) :
  lockless m → (∀ a, lockless (k a)) → lockless (m ≫= k).
Proof.
  intros Hm Hk s. unfold mbind, M_bind. specialize (Hm s).
  destruct (m s) as [[a s1]|w]; [|done]. specialize (Hk a s1).
  destruct (k a s1) as [[b s2]|w]; [congruence|done].
Qed.
Lemma lockless_when b (m : M (fir D) unit) : lockless m → lockless (when b m).
Proof. by destruct b. Qed.
Lemma lockless_gets {A} (f : fir D → A) : lockless (gets f).
Proof. done. Qed.
Lemma lockless_or_stop {A} w (o : option A) : bad w → lockless (or_stop w o).
Proof. intros Hw s. by destruct o. Qed.
Lemma lockless_get_idev : lockless get_idev.
Proof. done. Qed.
Lemma lockless_get_q : lockless get_q.
Proof. done. Qed.
Lemma lockless_get_txq_empty : lockless get_txq_empty.
Proof. done. Qed.
Lemma lockless_set_idev f : lockless (set_idev f).
Proof. done. Qed.
Lemma lockless_set_self f : lockless (set_self f).
Proof. done. Qed.
Lemma lockless_get_dev {A} (f : D → A * D) : lockless (get_dev f).
Proof. intros s. unfold get_dev, zoom. cbn. by destruct (f (dev (hw s))). Qed.
Lemma lockless_set_dev f : lockless (set_dev f).
Proof. done. Qed.
Lemma lockless_out v p : lockless (out v p).
Proof. done. Qed.
Lemma lockless_inp p : lockless (inp p).
Proof. intros s. unfold inp, zoom, inb. cbn. by destruct (dev_in _ _). Qed.
Lemma lockless_printk t : lockless (printk t).
Proof. done. Qed.
Lemma lockless_deliver l :
  lockless (modify (λ s, mkFir (hw s) (idev s) (self s) (locked s) (netif s ++ l))).
Proof. done. Qed.
Lemma lockless_kcall k : lockless (kcall k).
Proof. done. Qed.
Lemma lockless_set_tx_q f : lockless (set_tx_q f).
Proof. done. Qed.
Lemma lockless_set_stats f : lockless (set_stats f).
Proof. done. Qed.
Lemma lockless_raw base b : lockless (switch_bank_raw base b).
Proof. done. Qed.
Lemma lockless_set_mcr base itr b : lockless (ircard_set_mcr base itr b).
Proof. done. Qed.
End lock.

Create HintDb lock.
#[export] Hint Resolve lockless_ret lockless_gets lockless_get_idev lockless_get_q
  lockless_get_txq_empty lockless_set_idev lockless_set_self lockless_get_dev
  lockless_set_dev lockless_out lockless_inp lockless_printk lockless_deliver
  lockless_kcall lockless_set_tx_q lockless_set_stats lockless_raw lockless_set_mcr : lock.
#[export] Hint Extern 1 (lockless _ (halt _)) => by apply lockless_halt; auto : lock.
#[export] Hint Extern 1 (lockless _ (or_stop _ _)) => by apply lockless_or_stop; auto : lock.

Ltac lockless :=
  repeat match goal with
  | |- ∀ _, lockless _ _ => intro
  | |- lockless _ (_ ≫= _) => apply lockless_bind; [|intro]
  | |- lockless _ (when _ _) => apply lockless_when
  | |- lockless _ (if ?b then _ else _) => destruct b
  | |- lockless _ (match ?x with _ => _ end) => destruct x
  | |- lockless _ _ => solve [auto 3 with lock nocore]
  end.

Section entries.
Context {D : Type} `{!PortDev D} `{!CardHost D}.
Variable bad : stop → Prop.

Lemma lockless_switch_bank base b : lockless (D:=D) bad (switch_bank base b).
Proof. unfold switch_bank. lockless. Qed.
Lemma lockless_readb a : bad OobRead → lockless (D:=D) bad (readb a).
Proof. intros Hb. unfold readb. lockless. Qed.
Lemma lockless_writeb v a : bad OobWrite → lockless (D:=D) bad (writeb v a).
Proof. intros Hb. unfold writeb. lockless. Qed.
#[local] Hint Resolve lockless_switch_bank lockless_readb lockless_writeb : lock.
Lemma lockless_copy_to_pc a l : bad OobWrite → lockless (D:=D) bad (copy_to_pc a l).
Proof. intros Hb. revert a. induction l; intros; cbn; lockless. Qed.
Lemma lockless_copy_from_pc a n : bad OobRead → lockless (D:=D) bad (copy_from_pc a n).
Proof. intros Hb. revert a. induction n; intros; cbn; lockless. Qed.
Lemma lockless_queue_get n : bad OobRead → lockless (D:=D) bad (queue_get n).
Proof. intros Hb. unfold queue_get. lockless. Qed.
Lemma lockless_queue_set n f : bad OobWrite → lockless (D:=D) bad (queue_set n f).
Proof. intros Hb. unfold queue_set. lockless. Qed.
#[local] Hint Resolve lockless_copy_to_pc lockless_copy_from_pc lockless_queue_get
  lockless_queue_set : lock.
Lemma lockless_receive base : lockless (D:=D) bad (ircard_receive base).
Proof. unfold ircard_receive, reset_tx_q. lockless. Qed.
Lemma lockless_rfp base : lockless (D:=D) bad (ring_frame_pointer base).
Proof. unfold ring_frame_pointer. lockless. Qed.
#[local] Hint Resolve lockless_receive lockless_rfp : lock.
Lemma lockless_receive_complete base : bad OobRead → lockless (D:=D) bad (ircard_receive_complete base).
Proof. intros Hb. unfold ircard_receive_complete. lockless. Qed.
Lemma lockless_dma_write base : bad OobRead → lockless (D:=D) bad (ircard_dma_write base).
Proof. intros Hb. unfold ircard_dma_write. lockless. Qed.
Lemma lockless_mtt mtt : lockless (D:=D) bad (mtt_delay mtt).
Proof. unfold mtt_delay. lockless. Qed.
Lemma lockless_spin base stat n : lockless (D:=D) bad (spin_until_eom base stat n).
Proof. revert stat. induction n; intros; cbn; lockless. Qed.
#[local] Hint Resolve lockless_receive_complete lockless_dma_write lockless_mtt
  lockless_spin : lock.
Lemma lockless_xmit_complete : bad OobRead → lockless (D:=D) bad ircard_xmit_complete.
Proof. intros Hb. unfold ircard_xmit_complete. lockless. Qed.
#[local] Hint Resolve lockless_xmit_complete : lock.
Lemma lockless_dispatch base msr : bad OobRead → lockless (D:=D) bad (ircard_dispatch base msr).
Proof. intros Hb. unfold ircard_dispatch. lockless. Qed.
#[local] Hint Resolve lockless_dispatch : lock.
Lemma lockless_interrupt_loop base msr n : bad OobRead → lockless (D:=D) bad (interrupt_loop base msr n).
Proof. intros Hb. revert msr. induction n; intros; cbn; lockless. Qed.

#[local] Hint Resolve lockless_interrupt_loop : lock.

(** [m], begun when the lock is [b], returns when it is [b'], or stops in one of these ways *)
Definition locks {A} (b : bool) (m : M (fir D) A) (b' : bool) : Prop := ∀ s, locked s = b →
  match m s with
  | Ok (_, s') => locked s' = b'
  | Stop w => bad w
  end.
Lemma locks_lockless {A} b (m : M (fir D) A) : lockless bad m → locks b m b.
Proof.
  intros Hm s <-. specialize (Hm s). by destruct (m s) as [[]|].
Qed.
Lemma locks_bind {A B} b b1 b2 (m : M (fir D) A) (k : A → M (fir D) B) :
  locks b m b1 → (∀ a, locks b1 (k a) b2) → locks b (m ≫= k) b2.
Proof.
  intros Hm Hk s Hb. unfold mbind, M_bind. specialize (Hm s Hb).
  destruct (m s) as [[a s1]|w]; [|done]. apply (Hk a s1 Hm).
Qed.
Lemma locks_spin_lock : locks false spin_lock true.
Proof. intros s Hs. unfold spin_lock, gets, modify, mbind, M_bind. by rewrite Hs. Qed.
Lemma locks_spin_unlock b : locks b spin_unlock false.
Proof. done. Qed.

Ltac locks :=
  repeat match goal with
  | |- locks _ (spin_lock ≫= _) _ => eapply locks_bind; [apply locks_spin_lock|intro]
  | |- locks _ (spin_unlock ≫= _) _ => eapply locks_bind; [apply locks_spin_unlock|intro]
  | |- locks _ spin_unlock _ => apply locks_spin_unlock
  | |- locks _ _ _ => apply locks_lockless; solve [lockless]
  | |- locks _ (_ ≫= _) _ => eapply locks_bind; [apply locks_lockless; solve [lockless]|intro]
  | |- locks _ (if ?b then _ else _) _ => destruct b
  end.

Lemma locks_hard_xmit skb :
  bad OobRead → bad OobWrite → locks false (ircard_hard_xmit skb) false.
Proof. intros Hr Hw. unfold ircard_hard_xmit. locks. Qed.
Lemma locks_interrupt irq known : bad OobRead → locks false (ircard_interrupt irq known) false.
Proof. intros Hr. unfold ircard_interrupt. locks. Qed.
Lemma lockless_sir_to_fir base : lockless (D:=D) bad (ircard_sir_to_fir base).
Proof. unfold ircard_sir_to_fir. lockless. Qed.
Lemma lockless_fir_to_sir base : lockless (D:=D) bad (ircard_fir_to_sir base).
Proof. unfold ircard_fir_to_sir. lockless. Qed.
#[local] Hint Resolve lockless_sir_to_fir lockless_fir_to_sir : lock.
Lemma locks_change_speed speed : locks false (ircard_change_speed speed) false.
Proof. unfold ircard_change_speed. locks. Qed.
End entries.

(** *** A transmission that has room *)
Section space.
Context {D : Type} `{!PortDev D} `{!CardHost D}.

(** [m] returns, and keeps the lock, the window and the queue *)
Definition calm {A} (m : M (fir D) A) : Prop := ∀ s, ∃ a s', m s = Ok (a, s') ∧
  locked s' = locked s ∧ membase (idev s') = membase (idev s) ∧ tx_q (self s') = tx_q (self s).

Lemma calm_bind {A B} (m : M (fir D) A) (k : A → M (fir D) B) :
  calm m → (∀ a, calm (k a)) → calm (m ≫= k).
Proof.
  intros Hm Hk s. destruct (Hm s) as (a & s1 & E1 & L1 & M1 & Q1).
  destruct (Hk a s1) as (b & s2 & E2 & L2 & M2 & Q2). exists b, s2.
  split; [by erewrite bind_ok by exact E1|]. by rewrite L2, M2, Q2.
Qed.
Lemma calm_inp p : calm (inp p).
Proof.
  intros s. unfold inp, zoom, inb. cbn. destruct (dev_in _ _) as [v d]. by eexists _, _.
Qed.
Lemma calm_get_dev {A} (f : D → A * D) : calm (get_dev f).
Proof. intros s. unfold get_dev, zoom. cbn. destruct (f _) as [a d]. by eexists _, _. Qed.
Lemma calm_step {A B} (m : M (fir D) A) (k : A → M (fir D) B) s (P : B → fir D → Prop) :
  calm m →
  (∀ a s', locked s' = locked s → membase (idev s') = membase (idev s) →
    tx_q (self s') = tx_q (self s) → ∃ b t, k a s' = Ok (b, t) ∧ P b t) →
  ∃ b t, (m ≫= k) s = Ok (b, t) ∧ P b t.
Proof.
  intros Hm Hk. destruct (Hm s) as (a & s1 & E1 & L1 & M1 & Q1).
  destruct (Hk a s1 L1 M1 Q1) as (b & t & E & H). exists b, t.
  split; [by erewrite bind_ok by exact E1|done].
Qed.

Ltac calm :=
  repeat match goal with
  | |- ∀ _, calm _ => intro
  | |- calm (_ ≫= _) => apply calm_bind; [|intro]
  | |- calm (inp _) => apply calm_inp
  | |- calm (get_dev _) => apply calm_get_dev
  | |- calm (when ?b _) => destruct b; unfold when
  | |- calm (if ?b then _ else _) => destruct b
  | |- calm _ => by intros ?; eexists _, _
  end.

Lemma calm_switch_bank base b : calm (switch_bank base b).
Proof. unfold switch_bank. calm. Qed.
Lemma calm_mtt mtt : calm (mtt_delay mtt).
Proof. unfold mtt_delay. calm. Qed.

Definition inside (s : fir D) (a n : Z) : Prop :=
  membase (idev s) ≤ a ∧ a + n ≤ membase (idev s) + SHMEM_SIZE.
Lemma calm_copy a l s : inside s a (Z.of_nat (length l)) →
  ∃ s', copy_to_pc a l s = Ok (tt, s') ∧
    locked s' = locked s ∧ membase (idev s') = membase (idev s) ∧ tx_q (self s') = tx_q (self s).
Proof.
  revert a s. induction l as [|b l IH]; intros a s [H1 H2]; cbn [copy_to_pc length] in *.
  { by exists s. }
  assert (Hw : in_window (idev s) a = true).
  { unfold in_window. rewrite (proj2 (Z.leb_le _ _)), (proj2 (Z.ltb_lt _ _)) by lia. done. }
  assert (E : writeb b a s = set_dev (mem_out a (u8 b)) s).
  { unfold writeb. erewrite bind_ok by reflexivity. by rewrite Hw. }
  set (s1 := mkFir (mkIo (mem_out a (u8 b) (dev (hw s))) (io_log (hw s)) (io_out (hw s))
    (io_err (hw s)) (io_sys (hw s))) (idev s) (self s) (locked s) (netif s)).
  destruct (IH (a + 1) s1) as (s' & E' & H); [unfold inside in *; cbn; lia|].
  exists s'. split; [|exact H]. erewrite bind_ok; [exact E'|]. by rewrite E.
Qed.

(** a slot for the frame, one to send from, and space in the window *)
Definition tx_space (s : fir D) (n : Z) : Prop :=
  let q := tx_q (self s) in
  0 ≤ free q < Z.of_nat (length (queue q)) ∧ 0 ≤ ptr q < Z.of_nat (length (queue q)) ∧
  inside s (tail q) n.

Lemma dma_write_returns base s :
  0 ≤ ptr (tx_q (self s)) < Z.of_nat (length (queue (tx_q (self s)))) →
  ∃ a s', ircard_dma_write base s = Ok (a, s') ∧ locked s' = locked s.
Proof.
  intros Hp. unfold ircard_dma_write. erewrite bind_ok by reflexivity.
  eapply calm_step; [apply calm_switch_bank|]. intros _ s1 L1 _ Q1.
  eapply calm_step; [calm|]. intros _ s2 L2 _ Q2.
  eapply calm_step; [calm|]. intros _ s3 L3 _ Q3.
  eapply calm_step; [calm|]. intros _ s4 L4 _ Q4.
  eapply calm_step; [calm|]. intros _ s5 L5 _ Q5.
  eapply calm_step; [apply calm_switch_bank|]. intros _ s6 L6 _ Q6.
  assert (Q : tx_q (self s6) = tx_q (self s)) by congruence.
  destruct (lookup_lt_is_Some_2 (queue (tx_q (self s))) (Z.to_nat (ptr (tx_q (self s)))) ltac:(lia))
    as [f Hf].
  assert (E : queue_get (ptr (tx_q (self s))) s6 = Ok (f, s6)).
  { unfold queue_get. erewrite bind_ok by reflexivity. rewrite decide_True by lia.
    unfold or_stop. by rewrite Q, Hf. }
  erewrite bind_ok by exact E.
  match goal with |- ∃ a s', ?m s6 = _ ∧ _ => assert (Hc : calm m) by
    (pose proof calm_switch_bank; calm; auto) end.
  destruct (Hc s6) as (a & s' & E' & L' & _). exists a, s'. split; [exact E'|congruence].
Qed.

Lemma hard_xmit_returns skb s :
  locked s = false → tbusy (idev s) = 0 → tx_space s (Z.of_nat (length (skb_data skb))) →
  ∃ s', ircard_hard_xmit skb s = Ok (0, s') ∧ locked s' = false.
Proof.
  intros Hs Hb (Hf & Hp & Hi). set (n := Z.of_nat (length (skb_data skb))).
  unfold ircard_hard_xmit. erewrite bind_ok by reflexivity. rewrite Hb. cbn [negb Z.eqb].
  erewrite bind_ok by reflexivity. erewrite bind_ok.
  2: { unfold spin_lock. erewrite bind_ok by reflexivity. cbn. rewrite Hs. reflexivity. }
  set (s0 := mkFir _ _ _ true _). fold n.
  destruct (calm_switch_bank (iobase (idev s)) 0 s0) as (o & s1 & E1 & L1 & M1 & Q1).
  erewrite bind_ok by exact E1. erewrite bind_ok by reflexivity. rewrite Q1.
  change (tx_q (self s0)) with (tx_q (self s)). set (q := tx_q (self s)) in *.
  erewrite bind_ok.
  2: { unfold queue_set. erewrite bind_ok by reflexivity. rewrite Q1. cbn [s0 self].
       rewrite decide_True by done. reflexivity. }
  erewrite bind_ok by reflexivity.
  match goal with |- context [(copy_to_pc _ _ ≫= _) ?x] => set (s2 := x) end.
  destruct (calm_copy (tail q) (skb_data skb) s2) as (s3 & E3 & L3 & M3 & Q3).
  { unfold inside in *. cbn. rewrite M1. exact Hi. }
  erewrite bind_ok by exact E3. do 2 erewrite bind_ok by reflexivity.
  match goal with |- context [(get_q ≫= _) ?x] => set (s4 := x) end.
  assert (L4 : locked s4 = true) by (cbn; by rewrite L3; cbn; rewrite L1).
  assert (P4 : 0 ≤ ptr (tx_q (self s4)) < Z.of_nat (length (queue (tx_q (self s4))))).
  { cbn. rewrite Q3. cbn. rewrite Q1. cbn. by rewrite length_insert. }
  erewrite bind_ok by reflexivity.
  assert (Hd : ∃ s5, when (qlen (tx_q (self s4)) =? 1)
    (mtt_delay (skb_mtt skb);; ircard_dma_write (iobase (idev s))) s4 = Ok (tt, s5)).
  { destruct (_ =? 1); [|by eexists]. cbn [when].
    destruct (calm_mtt (skb_mtt skb) s4) as ([] & s5 & E5 & L5 & M5 & Q5).
    destruct (dma_write_returns (iobase (idev s)) s5) as ([] & s6 & E6 & _); [by rewrite Q5|].
    exists s6. by erewrite bind_ok by exact E5. }
  destruct Hd as [s5 E5]. erewrite bind_ok by exact E5. by eexists.
Qed.
End space.

Section driver_ends.
Context {D : Type} `{!PortDev D} `{!CardHost D}.

(** C24: Whatever the hardware answers, when the lock of the device is free: a change of the speed
    returns, with the lock free.  A transmission that finds the device idle, a slot of the queue
    free, a slot to send from and space for its frame in the window returns 0, with the lock free.
    Otherwise a transmission or an interrupt either returns, with the lock free, or
    comes to an access outside the queue or the window (a ninth frame, a frame beyond the
    window, a ring pointer that is smaller than the length of its frame), where the model stops and the code is
    undefined, still in its locked region; an interrupt only comes to reads.  So no entry takes the
    lock twice, and the loops on the interrupt and on the end of a transmission end. *)
Theorem driver_ends (s : fir D) :
  locked s = false →
  let ends {A} (m : M (fir D) A) bad := match m s with
    | Ok (_, s') => locked s' = false
    | Stop w => w ∈ bad
    end in
  (∀ speed, ends (ircard_change_speed speed) []) ∧
  (∀ skb, tbusy (idev s) = 0 → tx_space s (Z.of_nat (length (skb_data skb))) →
     ∃ s', ircard_hard_xmit skb s = Ok (0, s') ∧ locked s' = false) ∧
  (∀ skb, ends (ircard_hard_xmit skb) [OobRead; OobWrite]) ∧
  (∀ irq known, ends (ircard_interrupt irq known) [OobRead]).
Proof.
  intros Hs ends. split_and!.
  - intros speed. by apply (locks_change_speed (λ w, w ∈ [])).
  - intros skb Hb Hr. by apply hard_xmit_returns.
  - intros skb. apply (locks_hard_xmit (λ w, w ∈ [OobRead; OobWrite])); [set_solver..|done].
  - intros irq known. apply (locks_interrupt (λ w, w ∈ [OobRead])); [set_solver|done].
Qed.
End driver_ends.

(** ** A card *)
Definition chip_valid (c : chip) : Prop := is_byte (c_mcr c) ∧ ∀ a, is_byte (c_shm c a).

Lemma chip_out_valid o v c : is_byte v → chip_valid c → chip_valid (chip_out o v c).
Proof.
  intros Hv [Hm Hs]. unfold chip_out. by repeat case_match.
Qed.

(** the chip, and what its status registers will answer *)
Record card := mkCard {
  card_chip : { c : chip | chip_valid c };
  card_answers : list Z }.

Definition CARD_BASE := 0x308.
Definition CARD_MEM := 0xd0000.

Definition is_port (p : Z) : bool := (CARD_BASE <=? p) && (p <? CARD_BASE + 8).
Definition is_shm (a : Z) : bool := (CARD_MEM <=? a) && (a <? CARD_MEM + SHMEM_SIZE).

Lemma card_out_valid o v (c : { c : chip | chip_valid c }) :
  chip_valid (chip_out o (u8 v) (proj1_sig c)).
Proof. apply chip_out_valid; [apply u8_range|]. by destruct c. Qed.
Lemma card_mem_valid a v (c : { c : chip | chip_valid c }) :
  chip_valid (set_shm (λ x, if x =? a then u8 v else c_shm (proj1_sig c) x) (proj1_sig c)).
Proof.
  destruct c as [c [Hm Hs]]. split; [done|]. cbn. intros x.
  destruct (x =? a); [apply u8_range|apply Hs].
Qed.

#[export] Instance card_ports : PortDev card := {
  dev_in p d :=
    let c := proj1_sig (card_chip d) in
    if p =? CARD_BASE + MCR then (c_mcr c, d)
    else if (p =? CARD_BASE + RX_RING_FRM_PTR_LOW) && (c_bank c =? 1) then (c_rfp c mod 256, d)
    else if (p =? CARD_BASE + RX_RING_FRM_PTR_HIGH) && (c_bank c =? 1) then (c_rfp c / 256, d)
    else match card_answers d with
         | [] => (0, d)
         | v :: l => (v, mkCard (card_chip d) l)
         end;
  dev_out v p d :=
    if is_port p
    then mkCard (exist _ _ (card_out_valid (p - CARD_BASE) v (card_chip d))) (card_answers d)
    else d }.
#[export] Instance card_host : CardHost card := {
  mem_in a d := (c_shm (proj1_sig (card_chip d)) (a - CARD_MEM), d);
  mem_out a v d :=
    mkCard (exist _ _ (card_mem_valid (a - CARD_MEM) v (card_chip d))) (card_answers d);
  service _ d := d;
  time_of_day d := ((0, 0), d);
  alloc_skb _ d := (true, d);
  txqueue_empty d := c_txq_empty (proj1_sig (card_chip d)) }.

#[export] Program Instance card_chip_laws : IbmChip card CARD_BASE CARD_MEM :=
  {| abs d := proj1_sig (card_chip d) |}.
Next Obligation. intros d. apply (proj2_sig (card_chip d)). Qed.
Next Obligation. intros d. apply (proj2_sig (card_chip d)). Qed.
Next Obligation. done. Qed.
Next Obligation. intros o d _. cbn. by repeat case_match. Qed.
Next Obligation. intros d Hb. cbn -[Z.modulo]. rewrite Hb. done. Qed.
Next Obligation. intros d Hb. cbn -[Z.div]. rewrite Hb. done. Qed.
Next Obligation.
  intros o v d Ho Hv. cbn. unfold is_port.
  rewrite (proj2 (Z.leb_le _ _)), (proj2 (Z.ltb_lt _ _)) by lia. cbn [andb card_chip proj1_sig].
  rewrite u8_small by done. f_equal. lia.
Qed.
Next Obligation. done. Qed.
Next Obligation. intros a v d _ Hv. cbn. by rewrite u8_small. Qed.
Next Obligation. done. Qed.
Next Obligation. done. Qed.
Next Obligation. done. Qed.
Next Obligation. done. Qed.

(** ** Examples *)
Definition window (l : list (Z * list Z)) (a : Z) : Z :=
  default 0 (head (omap (λ '(b, l), if decide (b ≤ a) then l !! Z.to_nat (a - b) else None) l)).

Lemma chip_of_valid rfp (l : list (Z * list Z)) (full : bool) :
  chip_valid (mkChip 0 (λ _ _, 0) rfp (λ a, u8 (window l a)) [] full).
Proof. split; [done|]. intros a. apply u8_range. Qed.

Definition a_device (speed : Z) : irda_device :=
  mkIdev true CARD_BASE (CARD_BASE - 8) CARD_MEM IO_RECV speed 0 0 ircard_hard_xmit_h 0 0 true
    (mkStats 0 0 0 0 0 0 0 0).
Definition a_self : ircard_cb :=
  mkCb IRCARD_MAGIC 0
    (mkQueue (replicate 8 (mkFrame 0 0)) 0 0 0 (SHMEM_TX_START + CARD_MEM)) 0 (0, 0) (0, 0).
Definition a_card (rfp : Z) (l : list (Z * list Z)) (idle : bool) (answers : list Z) : fir card :=
  mkFir (mkIo (mkCard (exist _ _ (chip_of_valid rfp l idle)) answers) [] "" "" "")
    (a_device 4000000) a_self false [].

Lemma a_card_fresh rfp l idle answers :
  fresh CARD_BASE CARD_MEM (core_of CARD_BASE CARD_MEM (a_card rfp l idle answers)).
Proof.
  split; [|done]. constructor; try done; try solve [cbn; lia].
Qed.

Definition a_frame (l : list Z) : sk_buff := mkSkb l 100.

Example frames_go_out :
  let s := a_card 0 [] true [TX_STAT_EOM; TX_STAT_EOM] in
  match (ircard_hard_xmit (a_frame [1; 2; 3]);; ircard_hard_xmit (a_frame [4; 5]);;
         ircard_xmit_complete;; ircard_xmit_complete) s with
  | Ok (_, s') => on_air CARD_BASE CARD_MEM s' = [[1; 2; 3]; [4; 5]] ∧ qlen (tx_q (self s')) = 0
  | Stop _ => False
  end.
Proof. vm_compute. done. Qed.

Lemma tx_in_order_witness : ∃ s : fir card,
  on_air CARD_BASE CARD_MEM s ++ in_queue CARD_BASE CARD_MEM s = [[1; 2; 3]; [4; 5]].
Proof.
  assert (Hb : 0 ≤ CARD_BASE ∧ CARD_BASE + 8 ≤ 65536) by done.
  destruct (run_xmit_ok _ _ Hb [] (a_frame [1; 2; 3]) (a_card 0 [] true []))
    as (s1 & _ & R1 & Q1 & _).
  - apply run_start, a_card_fresh.
  - split_and!; try done; by repeat constructor.
  - destruct (run_xmit_ok _ _ Hb _ (a_frame [4; 5]) s1 R1) as (s2 & _ & R2 & _).
    + rewrite Q1. split_and!; try done; by repeat constructor.
    + exists s2. apply (tx_in_order CARD_BASE CARD_MEM Hb _ _ R2).
Defined.

Lemma ninth_frame_witness : ∃ s : fir card,
  on_air CARD_BASE CARD_MEM s = replicate 8 [7; 8] ∧
  ircard_hard_xmit (a_frame [9]) s = Stop OobWrite.
Proof.
  destruct (ninth_frame CARD_BASE CARD_MEM ltac:(done) (replicate 8 (a_frame [7; 8]))
    (a_card 0 [] false [])) as (s & _ & _ & H1 & H2);
    [apply a_card_fresh|done|by repeat constructor|done|done|].
  exists s. split; [exact H1|]. apply H2.
Defined.

(** a frame of six octets at the start of the ring *)
Definition a_record : list Z := ring_record [10; 11; 12; 13; 14; 15] [1; 2; 3; 4] 0.

Lemma receive_complete_ok_witness : ∃ s : fir card, netif s = [[10; 11; 12; 13; 14; 15]].
Proof.
  destruct (receive_complete_ok CARD_BASE CARD_MEM ltac:(done) [10; 11; 12; 13; 14; 15]
    [1; 2; 3; 4] (a_card 11 [(0, a_record)] true [])) as (b & s & _ & H1 & H2 & _);
    [done|done|cbn; lia|done|vm_compute; reflexivity|].
  exists s. rewrite H1, H2; done.
Defined.

Lemma change_speed_ok_witness : ∃ s : fir card,
  c_reg (k_chip (core_of CARD_BASE CARD_MEM s)) 2 IR_CONF = Z.lor IR_CONF_MIR_1152 IR_CONF_MIR.
Proof.
  destruct (change_speed_ok CARD_BASE CARD_MEM ltac:(done) 1152000 (a_card 0 [] true []))
    as (s & _ & _ & _ & _ & H & _); [done..|].
  exists s. exact H.
Defined.

Lemma driver_ends_witness : ∃ s',
  ircard_hard_xmit (mkSkb [1; 2; 3] 0) (a_card 0 [] true []) = Ok (0, s') ∧ locked s' = false.
Proof.
  destruct (driver_ends (a_card 0 [] true [])) as (_ & H & _); [done|].
  apply (H (mkSkb [1; 2; 3] 0)); [done|]. unfold tx_space, inside. repeat split; by vm_compute.
Defined.
