(* ===== verification/IrCardCs.v ===== *)
(** * ircard_cs as a client of the card services (irda-utils/pcmcia/ircard_cs.c)

    The life of a card: attach, configure, events, release, detach, and the module.
    The card services, which are not part of the program, are a parameter
    ([CardServices]): each request has a return code, 0 for success.  The flags of
    their tuples and of the state of a link are booleans.  *)
From Stdlib Require Import String.
From S2P Require Import Prelude CInt Printf PortIO IrCard IrChip IrCardRun.
Local Open Scope string_scope.
Local Open Scope list_scope.
Local Open Scope Z_scope.

(** ** What the services are asked and give *)

(** [IO_DATA_PATH_WIDTH_*] *)
Inductive path_width := WIDTH_AUTO | WIDTH_16 | WIDTH_8.

(** [cistpl_io_t] *)
Record cis_io := mkCisIo {
  nwin : Z;
  io_8bit : bool;
  io_16bit : bool;
  win0 : Z * Z;      (* base, len *)
  win1 : Z * Z }.

(** [cistpl_cftable_entry_t]; a voltage is [Some] when its bit [VNOM] is present *)
Record cftable_entry := mkEntry {
  is_default : bool;
  index : Z;
  audio : bool;
  vcc : option Z;
  vpp1 : option Z;
  irq_info : Z;
  e_io : cis_io;
  mem_nwin : Z;
  card_addr : Z }.

(** [= { 0 }] *)
Definition zero_entry : cftable_entry :=
  mkEntry false 0 false None None 0 (mkCisIo 0 false false (0, 0) (0, 0)) 0 0.

(** [config_req_t], [io_req_t] *)
Record config_req := mkConf {
  enable_spkr : bool;    (* CONF_ENABLE_SPKR *)
  enable_irq : bool;     (* CONF_ENABLE_IRQ *)
  audio_ena : bool;      (* [Status] is CCSR_AUDIO_ENA *)
  Vcc : Z;
  Vpp1 : Z;
  Vpp2 : Z;
  ConfigIndex : Z;
  ConfigBase : Z;
  Present : Z }.
Record io_req := mkIoReq {
  BasePort1 : Z;
  NumPorts1 : Z;
  Attributes1 : path_width;
  BasePort2 : Z;
  NumPorts2 : Z;
  Attributes2 : path_width }.

(** the bits of [link->state] *)
Record link_state := mkState {
  DEV_PRESENT : bool;
  DEV_CONFIG : bool;
  DEV_CONFIG_PENDING : bool;
  DEV_SUSPEND : bool;
  DEV_STALE_CONFIG : bool;
  DEV_STALE_LINK : bool;
  DEV_RELEASE_PENDING : bool }.

Definition with_present v t := mkState v (DEV_CONFIG t) (DEV_CONFIG_PENDING t)
  (DEV_SUSPEND t) (DEV_STALE_CONFIG t) (DEV_STALE_LINK t) (DEV_RELEASE_PENDING t).
Definition with_config v t := mkState (DEV_PRESENT t) v (DEV_CONFIG_PENDING t)
  (DEV_SUSPEND t) (DEV_STALE_CONFIG t) (DEV_STALE_LINK t) (DEV_RELEASE_PENDING t).
Definition with_config_pending v t := mkState (DEV_PRESENT t) (DEV_CONFIG t) v
  (DEV_SUSPEND t) (DEV_STALE_CONFIG t) (DEV_STALE_LINK t) (DEV_RELEASE_PENDING t).
Definition with_suspend v t := mkState (DEV_PRESENT t) (DEV_CONFIG t) (DEV_CONFIG_PENDING t)
  v (DEV_STALE_CONFIG t) (DEV_STALE_LINK t) (DEV_RELEASE_PENDING t).
Definition with_stale_config v t := mkState (DEV_PRESENT t) (DEV_CONFIG t)
  (DEV_CONFIG_PENDING t) (DEV_SUSPEND t) v (DEV_STALE_LINK t) (DEV_RELEASE_PENDING t).
Definition with_stale_link v t := mkState (DEV_PRESENT t) (DEV_CONFIG t)
  (DEV_CONFIG_PENDING t) (DEV_SUSPEND t) (DEV_STALE_CONFIG t) v (DEV_RELEASE_PENDING t).
Definition with_release_pending v t := mkState (DEV_PRESENT t) (DEV_CONFIG t)
  (DEV_CONFIG_PENDING t) (DEV_SUSPEND t) (DEV_STALE_CONFIG t) (DEV_STALE_LINK t) v.

(** [dev_link_t]; [handle] and [lwin] are 0 for null, [ldev] is [link->dev != NULL] *)
Record dev_link := mkLink {
  state : link_state;
  handle : Z;
  open : bool;
  irq_mask2 : Z;         (* irq.IRQInfo2 *)
  irq_assigned : Z;
  conf : config_req;
  lio : io_req;
  lwin : Z;
  ldev : bool }.

Definition with_state v l := mkLink v (handle l) (open l) (irq_mask2 l) (irq_assigned l)
  (conf l) (lio l) (lwin l) (ldev l).
Definition with_handle v l := mkLink (state l) v (open l) (irq_mask2 l) (irq_assigned l)
  (conf l) (lio l) (lwin l) (ldev l).
Definition with_assigned v l := mkLink (state l) (handle l) (open l) (irq_mask2 l) v
  (conf l) (lio l) (lwin l) (ldev l).
Definition with_conf v l := mkLink (state l) (handle l) (open l) (irq_mask2 l)
  (irq_assigned l) v (lio l) (lwin l) (ldev l).
Definition with_lio v l := mkLink (state l) (handle l) (open l) (irq_mask2 l)
  (irq_assigned l) (conf l) v (lwin l) (ldev l).
Definition with_lwin v l := mkLink (state l) (handle l) (open l) (irq_mask2 l)
  (irq_assigned l) (conf l) (lio l) v (ldev l).
Definition with_ldev v l := mkLink (state l) (handle l) (open l) (irq_mask2 l)
  (irq_assigned l) (conf l) (lio l) (lwin l) v.

(** [DesiredTuple] *)
Inductive tuple_code := CISTPL_CONFIG | CISTPL_CFTABLE_ENTRY.

(** the requests that give only a code, or nothing *)
Inductive request :=
  | RequestConfiguration (c : config_req)
  | ReleaseConfiguration
  | ReleaseIO (i : io_req)
  | ReleaseIRQ
  | ReleaseWindow (w : Z)
  | DeregisterClient (h : Z)
  | Iounmap (a : Z)
  | AddTimer
  | IrdaDeviceOpen (rates : list Z) (mtt_bits : Z) (flags : list string) (rx_size tx_size : Z)
  | IrdaDeviceClose
  | KernelFree (a : Z)
  | RegisterDriver
  | UnregisterDriver
  | ReportError (code : Z).

Class CardServices (D : Type) := {
  cs_revision_ok : D → bool;
  cs_kmalloc : D → option Z * D;             (* an address *)
  cs_register : D → (Z * Z) * D;             (* code, handle *)
  cs_first_tuple : tuple_code → D → Z * D;
  cs_next_tuple : D → Z * D;
  cs_tuple_data : D → Z * D;
  cs_parse_config : D → (Z * (Z * Z)) * D;   (* code, base, rmask[0] *)
  cs_parse_entry : D → (Z * cftable_entry) * D;
  cs_request_io : io_req → D → (Z * io_req) * D;
  cs_request_window : Z → D → (Z * (Z * Z)) * D;   (* of a size: code, window, base *)
  cs_map_page : Z → D → Z * D;
  cs_request_irq : Z → D → (Z * Z) * D;      (* of a mask: code, the line *)
  cs_ioremap : Z → Z → D → Z * D;
  cs_do : request → D → Z * D }.

(** a card: its driver and its link *)
Record pc (D : Type) := mkPc {
  drv : fir D;
  link : dev_link }.
Arguments mkPc {D} _ _.
Arguments drv {D} _.
Arguments link {D} _.

#[export] Program Instance pc_fir {D} : Lens (pc D) (fir D) :=
  {| view := drv; put f s := mkPc f (link s) |}.
Solve All Obligations with done || by intros ? [].

Section client.
Context {D : Type} `{!PortDev D} `{!CardHost D} `{!CardServices D}.
(** the parameters of the module *)
Variable irq_mask : Z.
Variable irq_list : list Z.   (* four *)
Variable qos_mtt_bits : Z.
(** what the variable [req] of [ircard_config] holds before it is set *)
Variable req_before : Z * Z.

Definition set_link (f : dev_link → dev_link) : M (pc D) unit :=
  modify (λ s, mkPc (drv s) (f (link s))).
Definition set_state (f : link_state → link_state) : M (pc D) unit :=
  set_link (λ l, with_state (f (state l)) l).
Definition get_link : M (pc D) dev_link := gets link.
Definition ask {A} (f : D → A * D) : M (pc D) A := zoom (get_dev f).
Definition do_request (r : request) : M (pc D) unit := ask (cs_do r);; mret tt.

(** ** Attach *)
Definition zero_conf : config_req := mkConf false false false 0 0 0 0 0 0.
Definition zero_io : io_req := mkIoReq 0 0 WIDTH_AUTO 0 0 WIDTH_AUTO.
Definition zero_state : link_state := mkState false false false false false false false.

(** [irq.IRQInfo2], over four entries of [irq_list] *)
Definition irq_info2 : Z :=
  if default 0 (irq_list !! 0%nat) =? -1 then irq_mask
  else foldl (λ m n, Z.lor m (Z.shiftl 1 n)) 0 (take 4 irq_list).

Definition new_link : dev_link :=
  mkLink zero_state 0 false irq_info2 0
    (mkConf false false false 50 0 0 0 0 0) zero_io 0 false.

Definition zero_idev : irda_device :=
  mkIdev false 0 0 0 IO_RECV 0 0 0 irport_hard_xmit_h 0 0 true (mkStats 0 0 0 0 0 0 0 0).
Definition new_self : ircard_cb :=
  mkCb IRCARD_MAGIC 0 (mkQueue (replicate 8 (mkFrame 0 0)) 0 0 0 0) 0 (0, 0) (0, 0).

(** ** Release *)
Definition ircard_release : M (pc D) unit :=
  l ← get_link;
  if open l then set_state (with_stale_config true)
  else
    i ← zoom get_idev;
    do_request (ReleaseWindow (lwin l));;
    do_request (Iounmap (membase i));;
    do_request ReleaseConfiguration;;
    do_request (ReleaseIO (lio l));;
    do_request ReleaseIRQ;;
    set_state (λ t, with_release_pending false (with_config false t)).

(** ** Configuration *)

(** [goto cs_failed], with the code of the service that failed *)
Definition cs_failed (ret : Z) : M (pc D) unit :=
  do_request (ReportError ret);;
  ircard_release.

(** [CS_CHECK]: the rest, or the failure *)
Definition cs_check (f : D → Z * D) (k : M (pc D) unit) : M (pc D) unit :=
  ret ← ask f;
  if ret =? 0 then k else cs_failed ret.

Definition cis_vcc (cfg dflt : cftable_entry) (c : config_req) : config_req :=
  match vcc cfg, vcc dflt with
  | Some v, _ | None, Some v =>
      mkConf (enable_spkr c) (enable_irq c) (audio_ena c) (v / 10000) (Vpp1 c) (Vpp2 c)
        (ConfigIndex c) (ConfigBase c) (Present c)
  | None, None => c
  end.
Definition cis_vpp (cfg dflt : cftable_entry) (c : config_req) : config_req :=
  match vpp1 cfg, vpp1 dflt with
  | Some v, _ | None, Some v =>
      mkConf (enable_spkr c) (enable_irq c) (audio_ena c) (Vcc c) (v / 10000) (v / 10000)
        (ConfigIndex c) (ConfigBase c) (Present c)
  | None, None => c
  end.
(** the index, the audio output, the voltages and the interrupt of an entry *)
Definition cis_conf (cfg dflt : cftable_entry) (c : config_req) : config_req :=
  let c := mkConf (enable_spkr c) (enable_irq c) (audio_ena c) (Vcc c) (Vpp1 c) (Vpp2 c)
    (index cfg) (ConfigBase c) (Present c) in
  let c := if audio cfg
    then mkConf true (enable_irq c) true (Vcc c) (Vpp1 c) (Vpp2 c) (ConfigIndex c)
      (ConfigBase c) (Present c)
    else c in
  let c := cis_vpp cfg dflt (cis_vcc cfg dflt c) in
  if truth (irq_info cfg) || truth (irq_info dflt)
  then mkConf (enable_spkr c) true (audio_ena c) (Vcc c) (Vpp1 c) (Vpp2 c) (ConfigIndex c)
    (ConfigBase c) (Present c)
  else c.

(** the windows of the ports *)
Definition cis_io_req (cfg dflt : cftable_entry) (r : io_req) : io_req :=
  let r := mkIoReq (BasePort1 r) 0 (Attributes1 r) (BasePort2 r) 0 (Attributes2 r) in
  if (0 <? nwin (e_io cfg)) || (0 <? nwin (e_io dflt)) then
    let i := if truth (nwin (e_io cfg)) then e_io cfg else e_io dflt in
    let w := if negb (io_8bit i) then WIDTH_16 else WIDTH_AUTO in
    let w := if negb (io_16bit i) then WIDTH_8 else w in
    let r := mkIoReq (fst (win0 i)) (snd (win0 i)) w (BasePort2 r) 0 (Attributes2 r) in
    if 1 <? nwin i
    then mkIoReq (BasePort1 r) (NumPorts1 r) w (fst (win1 i)) (snd (win1 i)) w
    else r
  else r.

(** one entry of the table: whether the services accept it, or [goto next_entry]; [req]
    is the base and the size of the variable [req], which an entry without memory
    windows does not set *)
Definition try_entry (req : Z * Z) : M (pc D) (bool * (Z * Z)) :=
  r1 ← ask cs_tuple_data;
  if negb (r1 =? 0) then mret (false, req)
  else
    '(r2, cfg) ← ask cs_parse_entry;
    if negb (r2 =? 0) then mret (false, req)
    else
      let dflt := if is_default cfg then cfg else zero_entry in
      if index cfg =? 0 then mret (false, req)
      else
        set_link (λ l, with_conf (cis_conf cfg dflt (conf l)) l);;
        set_link (λ l, with_lio (cis_io_req cfg dflt (lio l)) l);;
        l ← get_link;
        '(r3, io) ← ask (cs_request_io (lio l));
        set_link (with_lio io);;
        if negb (r3 =? 0) then mret (false, req)
        else if (0 <? mem_nwin cfg) || (0 <? mem_nwin dflt) then
          '(r4, (w, b)) ← ask (cs_request_window SHMEM_SIZE);
          let req := (b, SHMEM_SIZE) in
          set_link (with_lwin w);;
          if negb (r4 =? 0) then mret (false, req)
          else
            r5 ← ask (cs_map_page
              (if truth (mem_nwin cfg) then card_addr cfg else card_addr dflt));
            mret (r5 =? 0, req)
        else mret (true, req).

(** the loop over the entries; [fuel] bounds their number *)
Fixpoint config_loop (fuel : nat) (req : Z * Z) (k : Z * Z → M (pc D) unit) : M (pc D) unit :=
  match fuel with
  | O => halt OutOfFuel
  | S fuel =>
      '(ok, req) ← try_entry req;
      if ok : bool then k req else cs_check cs_next_tuple (config_loop fuel req k)
  end.

(** what is printed of a configuration *)
Definition config_text (l : dev_link) (req : Z * Z) : string :=
  let c := conf l in let i := lio l in
  "ircard0: index 0x" +:+ fmt_02x (ConfigIndex c) +:+ ": Vcc " +:+ fmt_d (Vcc c / 10)
    +:+ "." +:+ fmt_d (Vcc c mod 10)
  +:+ (if truth (Vpp1 c)
       then ", Vpp " +:+ fmt_d (Vpp1 c / 10) +:+ "." +:+ fmt_d (Vpp1 c mod 10) else "")
  +:+ (if enable_irq c then ", irq " +:+ fmt_d (irq_assigned l) else "")
  +:+ (if truth (NumPorts1 i) then ", io 0x" +:+ fmt_04x (BasePort1 i) +:+ "-0x"
         +:+ fmt_04x (BasePort1 i + NumPorts1 i - 1) else "")
  +:+ (if truth (NumPorts2 i) then " & 0x" +:+ fmt_04x (BasePort2 i) +:+ "-0x"
         +:+ fmt_04x (BasePort2 i + NumPorts2 i - 1) else "")
  +:+ (if truth (lwin l) then ", mem 0x" +:+ fmt_06x (fst req) +:+ "-0x"
         +:+ fmt_06x (fst req + snd req - 1) else "")
  +:+ nl.

(** [idev->qos.baud_rate.bits] *)
Definition qos_rates : list Z := [9600; 19200; 38400; 57600; 115200; 576000; 1152000; 4000000].

(** the device, once the card is configured; [irda_device_open] sets its [magic] *)
Definition start_device (req : Z * Z) : M (pc D) unit :=
  l ← get_link;
  m ← ask (cs_ioremap (fst req) (snd req));
  zoom (set_idev (λ i, mkIdev (idev_magic i) (BasePort1 (lio l) + 8) (BasePort1 (lio l)) m
    (direction i) 9600 (tbusy i) (interrupt i) (hard_start_xmit i) (media_busy i)
    (tx_buff_len i) (outside_frame i) (stats i)));;
  zoom reset_tx_q;;
  zoom ircard_probe;;
  zoom (set_idev (with_handler irport_hard_xmit_h));;
  do_request (IrdaDeviceOpen qos_rates qos_mtt_bits ["FIR"; "MIR"; "SIR"; "SHM"; "PIO"]
    4000 4000);;
  zoom (set_idev (λ i, mkIdev true (iobase i) (iobase2 i) (membase i) (direction i)
    (baudrate i) (tbusy i) (interrupt i) (hard_start_xmit i) (media_busy i) (tx_buff_len i)
    (outside_frame i) (stats i)));;
  set_state (with_config_pending false).

(** after the choice of an entry *)
Definition config_end (req : Z * Z) : M (pc D) unit :=
  l ← get_link;
  let k :=
    cs_check (cs_do (RequestConfiguration (conf l)))
      (set_link (with_ldev true);;
       l ← get_link;
       zoom (printk (config_text l req));;
       start_device req) in
  if enable_irq (conf l) then
    '(r, n) ← ask (cs_request_irq (irq_mask2 l));
    if r =? 0 then set_link (with_assigned n);; k else cs_failed r
  else k.

Definition ircard_config (fuel : nat) : M (pc D) unit :=
  cs_check (cs_first_tuple CISTPL_CONFIG)
    (cs_check cs_tuple_data
      ('(r, (b, p)) ← ask cs_parse_config;
       if negb (r =? 0) then cs_failed r
       else
         set_link (λ l, let c := conf l in with_conf (mkConf (enable_spkr c) (enable_irq c)
           (audio_ena c) (Vcc c) (Vpp1 c) (Vpp2 c) (ConfigIndex c) b p) l);;
         set_state (with_config true);;
         cs_check (cs_first_tuple CISTPL_CFTABLE_ENTRY)
           (config_loop fuel req_before config_end))).

(** ** Events *)
Inductive cs_event :=
  | CARD_REMOVAL | CARD_INSERTION | PM_SUSPEND | RESET_PHYSICAL | PM_RESUME | CARD_RESET
  | OTHER_EVENT.

Definition reset_physical : M (pc D) unit :=
  zoom (set_self (with_stopped 1));;
  l ← get_link;
  when (DEV_CONFIG (state l)) (do_request ReleaseConfiguration).

Definition card_reset : M (pc D) unit :=
  l ← get_link;
  when (DEV_CONFIG (state l)) (do_request (RequestConfiguration (conf l)));;
  zoom (set_self (with_stopped 0));;
  i ← zoom get_idev;
  zoom (kcall (IrportStart (iobase2 i)));;
  zoom (ircard_change_speed 9600).

Definition ircard_event (fuel : nat) (e : cs_event) : M (pc D) Z :=
  c ← zoom (gets self);
  if negb (magic c =? IRCARD_MAGIC) then mret (-1)
  else
    match e with
    | CARD_REMOVAL =>
        set_state (with_present false);;
        l ← get_link;
        when (DEV_CONFIG (state l))
          (zoom (set_self (with_stopped 1));; do_request AddTimer)
    | CARD_INSERTION =>
        set_state (λ t, with_config_pending true (with_present true t));;
        ircard_config fuel
    | PM_SUSPEND => set_state (with_suspend true);; reset_physical
    | RESET_PHYSICAL => reset_physical
    | PM_RESUME => set_state (with_suspend false);; card_reset
    | CARD_RESET => card_reset
    | OTHER_EVENT => mret tt
    end;;
    mret 0.
End client.

(** ** The cards of the module *)
Record inst := mkInst {
  i_id : Z;              (* the address of the link *)
  i_link : dev_link;
  i_idev : irda_device;
  i_self : ircard_cb;
  i_locked : bool }.

Record module_state (D : Type) := mkMod {
  m_hw : io D;
  m_netif : list (list Z);
  dev_list : list inst }.
Arguments mkMod {D} _ _ _.
Arguments m_hw {D} _.
Arguments m_netif {D} _.
Arguments dev_list {D} _.

Definition find_inst (id : Z) (l : list inst) : option (nat * inst) :=
  list_find (λ x, i_id x = id) l.

Section module.
Context {D : Type} `{!PortDev D} `{!CardHost D} `{!CardServices D}.
Variable irq_mask : Z.
Variable irq_list : list Z.

(** [m] on the card [x], which is at [n] in the list *)
Definition on_inst {A} (n : nat) (x : inst) (m : M (pc D) A) : M (module_state D) A := λ s,
  match m (mkPc (mkFir (m_hw s) (i_idev x) (i_self x) (i_locked x) (m_netif s)) (i_link x)) with
  | Ok (a, p) =>
      let f := drv p in
      Ok (a, mkMod (hw f) (netif f)
        (<[n := mkInst (i_id x) (link p) (idev f) (self f) (locked f)]> (dev_list s)))
  | Stop w => Stop w
  end.

Definition mod_ask {A} (f : D → A * D) : M (module_state D) A := λ s,
  let h := m_hw s in
  let '(a, d) := f (dev h) in
  Ok (a, mkMod (mkIo d (io_log h) (io_out h) (io_err h) (io_sys h)) (m_netif s) (dev_list s)).
Definition mod_do (r : request) : M (module_state D) unit := mod_ask (cs_do r);; mret tt.
Definition set_list (f : list inst → list inst) : M (module_state D) unit :=
  modify (λ s, mkMod (m_hw s) (m_netif s) (f (dev_list s))).

Definition ircard_detach (id : Z) : M (module_state D) unit :=
  l ← gets dev_list;
  match find_inst id l with
  | None => mret tt
  | Some (n, x) =>
      if DEV_CONFIG (state (i_link x)) then
        on_inst n x (set_state (with_stale_link true))
      else
        when (truth (handle (i_link x))) (mod_do (DeregisterClient (handle (i_link x))));;
        set_list (delete n);;
        mod_ask (λ d, (tt, service (IrportStop (iobase2 (i_idev x))) d));;
        mod_do IrdaDeviceClose;;
        mod_do (KernelFree id)
  end.

(** [kmalloc] and [memset] *)
Definition alloc_zeroed : M (module_state D) Z :=
  a ← mod_ask cs_kmalloc;
  or_stop NullDeref a.

Definition ircard_attach : M (module_state D) (option Z) :=
  id ← alloc_zeroed;
  alloc_zeroed;;
  set_list (cons (mkInst id (new_link irq_mask irq_list) zero_idev new_self false));;
  '(ret, h) ← mod_ask cs_register;
  set_list (λ l, match l with
    | x :: l => mkInst (i_id x) (with_handle h (i_link x)) (i_idev x) (i_self x) (i_locked x) :: l
    | [] => []
    end);;
  if negb (ret =? 0) then
    mod_do (ReportError ret);;
    ircard_detach id;;
    mret None
  else mret (Some id).

Definition init_module : M (module_state D) Z :=
  ok ← gets (λ s, cs_revision_ok (dev (m_hw s)));
  if negb ok then
    modify (λ s, let h := m_hw s in
      mkMod (mkIo (dev h) (io_log h)
        (io_out h +:+ "ircard_cs: Card Services release does not match!" +:+ nl)
        (io_err h) (io_sys h)) (m_netif s) (dev_list s));;
    mret (-1)
  else mod_do RegisterDriver;; mret 0.

(** one round of the loop of [cleanup_module], for the head of the list *)
Definition remove_head (x : inst) : M (module_state D) unit :=
  when (DEV_CONFIG (state (i_link x))) (on_inst 0 x ircard_release);;
  ircard_detach (i_id x).

Fixpoint remove_all (fuel : nat) : M (module_state D) unit :=
  l ← gets dev_list;
  match l with
  | [] => mret tt
  | x :: _ =>
      match fuel with
      | O => halt OutOfFuel
      | S fuel => remove_head x;; remove_all fuel
      end
  end.

Definition cleanup_module (fuel : nat) : M (module_state D) unit :=
  mod_do UnregisterDriver;;
  remove_all fuel.
End module.

(** ** The set-up ends, and it is all or nothing *)

(** [m] returns from [s], with [Q] *)
Definition gives {S A} (m : M S A) (Q : A → S → Prop) (s : S) : Prop :=
  ∃ a s', m s = Ok (a, s') ∧ Q a s'.

Section gives.
Context {S A B : Type}.
Lemma gives_ret (a : A) Q (s : S) : Q a s → gives (mret a) Q s.
Proof. intros H. by exists a, s. Qed.
Lemma gives_bind (m : M S A) (k : A → M S B) Q s :
  gives m (λ a, gives (k a) Q) s → gives (m ≫= k) Q s.
Proof.
  intros (a & s1 & E & b & s2 & E2 & H). exists b, s2.
  split; [by erewrite bind_ok by exact E|done].
Qed.
Lemma gives_mono (m : M S A) (Q Q' : A → S → Prop) s :
  gives m Q s → (∀ a s', Q a s' → Q' a s') → gives m Q' s.
Proof. intros (a & s' & E & H) HQ. exists a, s'. eauto. Qed.
Lemma gives_when b (m : M S unit) Q s :
  (b = true → gives m Q s) → (b = false → Q tt s) → gives (when b m) Q s.
Proof. destruct b; intros H1 H2; [by apply H1|]. exists tt, s. split; [done|by apply H2]. Qed.
Lemma gives_zoom {F} `{!Lens S F} (m : M F A) Q s :
  gives m (λ a f, Q a (put f s)) (view s) → gives (zoom m) Q s.
Proof. intros (a & f & E & H). exists a, (put f s). split; [by apply zoom_ok|done]. Qed.
End gives.

(** a table of entries that ends *)
Class FiniteCis (D : Type) `{!CardServices D} := {
  cis_size : nat;
  entries_left : D → nat;
  left_first d : (entries_left (snd (cs_first_tuple CISTPL_CFTABLE_ENTRY d)) ≤ cis_size)%nat;
  left_next d : fst (cs_next_tuple d) = 0 →
    (entries_left (snd (cs_next_tuple d)) < entries_left d)%nat;
  left_data d : (entries_left (snd (cs_tuple_data d)) ≤ entries_left d)%nat;
  left_parse d : (entries_left (snd (cs_parse_entry d)) ≤ entries_left d)%nat;
  left_io r d : (entries_left (snd (cs_request_io r d)) ≤ entries_left d)%nat;
  left_window n d : (entries_left (snd (cs_request_window n d)) ≤ entries_left d)%nat;
  left_map n d : (entries_left (snd (cs_map_page n d)) ≤ entries_left d)%nat }.

Section requests.
Context {D : Type} `{!PortDev D} `{!CardHost D} `{!CardServices D}.

Lemma gives_ask {A} (f : D → A * D) (Q : A → pc D → Prop) s :
  (∀ s', link s' = link s → idev (drv s') = idev (drv s) → self (drv s') = self (drv s) →
    dev (hw (drv s')) = snd (f (dev (hw (drv s)))) → Q (fst (f (dev (hw (drv s))))) s') →
  gives (ask f) Q s.
Proof.
  intros HQ. unfold ask, get_dev. apply gives_zoom, gives_zoom.
  destruct (f (dev (hw (drv s)))) as [a d] eqn:E.
  eexists a, _. split; [cbn; by rewrite E|]. by apply HQ.
Qed.
Lemma gives_do r (Q : unit → pc D → Prop) s :
  (∀ s', link s' = link s → idev (drv s') = idev (drv s) → self (drv s') = self (drv s) →
    Q tt s') → gives (do_request r) Q s.
Proof.
  intros HQ. apply gives_bind, gives_ask. intros s' H1 H2 H3 _. by apply gives_ret, HQ.
Qed.
Lemma gives_link (Q : dev_link → pc D → Prop) s : Q (link s) s → gives get_link Q s.
Proof. intros H. by exists (link s), s. Qed.
Lemma gives_set_link f (Q : unit → pc D → Prop) s :
  Q tt (mkPc (drv s) (f (link s))) → gives (set_link f) Q s.
Proof. intros H. by eexists _, _. Qed.

(** the card was given back, the link is as after a release *)
Definition given_back (l : dev_link) (s : pc D) : Prop :=
  open (link s) = open l ∧ DEV_CONFIG_PENDING (state (link s)) = DEV_CONFIG_PENDING (state l) ∧
  DEV_CONFIG (state (link s)) = false.

Lemma release_ok (Q : unit → pc D → Prop) s :
  open (link s) = false → (∀ s', given_back (link s) s' → Q tt s') →
  gives ircard_release Q s.
Proof.
  intros Ho HQ. unfold ircard_release. apply gives_bind, gives_link. rewrite Ho.
  apply gives_bind. exists (idev (drv s)), s. split; [by destruct s|].
  do 5 (apply gives_bind, gives_do; intros ? ? _ _).
  apply gives_set_link, HQ. unfold given_back. cbn.
  repeat match goal with H : link _ = link _ |- _ => rewrite H; clear H end. done.
Qed.

(** *** Suspend and resume *)
Lemma suspend_stops fuel s mtt req_before :
  magic (self (drv s)) = IRCARD_MAGIC →
  gives (ircard_event mtt req_before fuel PM_SUSPEND) (λ r s', r = 0 ∧
    DEV_SUSPEND (state (link s')) = true ∧ stopped (self (drv s')) = 1 ∧
    DEV_CONFIG (state (link s')) = DEV_CONFIG (state (link s))) s.
Proof.
  intros Hm. unfold ircard_event. apply gives_bind, gives_zoom.
  eexists _, _. split; [done|]. change (self (view s)) with (self (drv s)). rewrite Hm.
  change (negb (IRCARD_MAGIC =? IRCARD_MAGIC)) with false. cbv iota.
  apply gives_bind, gives_bind, gives_set_link. unfold reset_physical.
  apply gives_bind, gives_zoom. eexists _, _. split; [done|].
  apply gives_bind, gives_link. apply gives_when; intros Hc.
  - apply gives_do. intros s1 L1 _ S1. apply gives_ret. by rewrite L1, S1.
  - apply gives_ret. done.
Qed.
End requests.

(** *** What the services were asked, and what they answered *)
Inductive noted :=
  | Did (r : request) (code : Z)
  | GaveIO (code : Z) (i : io_req)
  | GaveWindow (code w base : Z)
  | GavePage (code : Z)
  | GaveIRQ (code line : Z)
  | Remapped (base size a : Z).

(** any services, with a record of the requests *)
Record recorded (D : Type) := mkRec { inner : D; notes : list noted }.
Arguments mkRec {D} _ _.
Arguments inner {D} _.
Arguments notes {D} _.

Section recorded.
Context {D : Type} `{!PortDev D} `{!CardHost D} `{!CardServices D}.

Definition noting {A} (n : A → list noted) (f : D → A * D) (d : recorded D) : A * recorded D :=
  (fst (f (inner d)), mkRec (snd (f (inner d))) (notes d ++ n (fst (f (inner d))))).
Definition unnoted {A} (f : D → A * D) (d : recorded D) : A * recorded D :=
  (fst (f (inner d)), mkRec (snd (f (inner d))) (notes d)).

#[export] Instance recorded_ports : PortDev (recorded D) := {
  dev_in p := unnoted (dev_in p);
  dev_out v p d := mkRec (dev_out v p (inner d)) (notes d) }.
#[export] Instance recorded_host : CardHost (recorded D) := {
  mem_in a := unnoted (mem_in a);
  mem_out a v d := mkRec (mem_out a v (inner d)) (notes d);
  service c d := mkRec (service c (inner d)) (notes d);
  time_of_day := unnoted time_of_day;
  alloc_skb n := unnoted (alloc_skb n);
  txqueue_empty d := txqueue_empty (inner d) }.
#[export] Instance recorded_services : CardServices (recorded D) := {
  cs_revision_ok d := cs_revision_ok (inner d);
  cs_kmalloc := unnoted cs_kmalloc;
  cs_register := unnoted cs_register;
  cs_first_tuple t := unnoted (cs_first_tuple t);
  cs_next_tuple := unnoted cs_next_tuple;
  cs_tuple_data := unnoted cs_tuple_data;
  cs_parse_config := unnoted cs_parse_config;
  cs_parse_entry := unnoted cs_parse_entry;
  cs_request_io r := noting (λ '(c, i), [GaveIO c i]) (cs_request_io r);
  cs_request_window n := noting (λ '(c, (w, b)), [GaveWindow c w b]) (cs_request_window n);
  cs_map_page n := noting (λ c, [GavePage c]) (cs_map_page n);
  cs_request_irq m := noting (λ '(c, n), [GaveIRQ c n]) (cs_request_irq m);
  cs_ioremap b n := noting (λ a, [Remapped b n a]) (cs_ioremap b n);
  cs_do r := noting (λ c, [Did r c]) (cs_do r) }.
#[export] Program Instance recorded_cis `{!FiniteCis D} : FiniteCis (recorded D) :=
  {| cis_size := cis_size; entries_left d := entries_left (inner d) |}.
Next Obligation. intros H d. apply left_first. Qed.
Next Obligation. intros H d Hd. exact (left_next (inner d) Hd). Qed.
Next Obligation. intros H d. apply left_data. Qed.
Next Obligation. intros H d. apply left_parse. Qed.
Next Obligation. intros H r d. apply left_io. Qed.
Next Obligation. intros H n d. apply left_window. Qed.
Next Obligation. intros H n d. apply left_map. Qed.
End recorded.

(** a request that asks for something: it gives nothing back *)
Definition wish (n : noted) : bool :=
  match n with
  | Did (RequestConfiguration _) _ | GaveIO _ _ | GaveWindow _ _ _ | GavePage _ | GaveIRQ _ _ => true
  | _ => false
  end.
Abbreviation wishes := (Forall (λ n, wish n = true)).

Section config.
Context {D : Type} `{!PortDev D} `{!CardHost D} `{!CardServices D} `{!FiniteCis D}.

Definition record (s : pc (recorded D)) : list noted := notes (dev (hw (drv s))).
Definition cis_left (s : pc (recorded D)) : nat := entries_left (dev (hw (drv s))).

(** the device is started, on the ports of the link *)
Definition started (l : dev_link) (s : pc (recorded D)) : Prop :=
  open (link s) = open l ∧ DEV_CONFIG_PENDING (state (link s)) = false ∧
  DEV_CONFIG (state (link s)) = true ∧ ldev (link s) = true ∧
  idev_magic (idev (drv s)) = true ∧ baudrate (idev (drv s)) = 9600 ∧
  iobase2 (idev (drv s)) = BasePort1 (lio (link s)) ∧
  iobase (idev (drv s)) = BasePort1 (lio (link s)) + 8 ∧
  hard_start_xmit (idev (drv s)) = irport_hard_xmit_h ∧
  tx_q (self (drv s)) = empty_q (membase (idev (drv s))) (tx_q (self (drv s))).

(** the memory window of an entry that has one *)
Definition window_given (l : dev_link) (b n : Z) (win : list noted) : Prop :=
  win = [] ∨ n = SHMEM_SIZE ∧ win = [GaveWindow 0 (lwin l) b; GavePage 0].

(** the services accepted an entry: what they gave for it is what the link has, and
    after it nothing was refused and nothing given back *)
Definition configured_from mtt (s s' : pc (recorded D)) : Prop :=
  let l := link s' in
  started (link s) s' ∧ ∃ before win b n c,
    record s' = record s ++ before ++ GaveIO 0 (lio l) :: win
      ++ (if enable_irq (conf l) then [GaveIRQ 0 (irq_assigned l)] else [])
      ++ [Did (RequestConfiguration (conf l)) 0; Remapped b n (membase (idev (drv s')));
          Did (IrdaDeviceOpen qos_rates mtt ["FIR"; "MIR"; "SIR"; "SHM"; "PIO"] 4000 4000) c] ∧
    wishes before ∧ window_given l b n win.

Definition answered (r : request) (n : noted) : Prop := ∃ c, n = Did r c.
(** something was refused: what the link has is given back, once, and the link is
    not configured *)
Definition refused_from (s s' : pc (recorded D)) : Prop :=
  let l := link s' in
  open l = open (link s) ∧
  DEV_CONFIG_PENDING (state l) = DEV_CONFIG_PENDING (state (link s)) ∧
  DEV_CONFIG (state l) = false ∧ idev (drv s') = idev (drv s) ∧
  ∃ before code back, code ≠ 0 ∧ record s' = record s ++ before ++ back ∧ wishes before ∧
    Forall2 answered
      [ReportError code; ReleaseWindow (lwin l); Iounmap (membase (idev (drv s')));
       ReleaseConfiguration; ReleaseIO (lio l); ReleaseIRQ] back.
Definition all_or_nothing mtt (s s' : pc (recorded D)) : Prop :=
  configured_from mtt s s' ∨ refused_from s s'.

(** *** The requests so far *)

(** from [s0] to [s] the requests [l] were made, and only the settings of the link changed *)
Definition asking (s0 : pc (recorded D)) (l : list noted) (s : pc (recorded D)) : Prop :=
  open (link s) = open (link s0) ∧
  DEV_CONFIG_PENDING (state (link s)) = DEV_CONFIG_PENDING (state (link s0)) ∧
  idev (drv s) = idev (drv s0) ∧ record s = record s0 ++ l.

Lemma asking_refl s : asking s [] s.
Proof. unfold asking. by rewrite app_nil_r. Qed.

Lemma asking_ask {A} (f : recorded D → A * recorded D) n (Q : A → pc (recorded D) → Prop) s0 l s :
  (∀ d, notes (snd (f d)) = notes d ++ n (fst (f d))) → asking s0 l s →
  (∀ s', let a := fst (f (dev (hw (drv s)))) in asking s0 (l ++ n a) s' →
     link s' = link s → dev (hw (drv s')) = snd (f (dev (hw (drv s)))) → Q a s') →
  gives (ask f) Q s.
Proof.
  intros Hn (Ho & Hp & Hi & Hr) HQ. apply gives_ask. intros s' L I _ E. apply HQ; [|done..].
  unfold asking. rewrite L, I. split; [done|]. split; [done|]. split; [done|].
  unfold record in *. by rewrite E, Hn, Hr, app_assoc.
Qed.
Lemma asking_set f s0 l s :
  (∀ k, open (f k) = open k ∧ DEV_CONFIG_PENDING (state (f k)) = DEV_CONFIG_PENDING (state k)) →
  asking s0 l s → asking s0 l (mkPc (drv s) (f (link s))).
Proof.
  intros Hf (Ho & Hp & Hi & Hr). destruct (Hf (link s)) as [E1 E2]. unfold asking. cbn.
  by rewrite E1, E2.
Qed.
Lemma asking_do r (Q : unit → pc (recorded D) → Prop) s0 l s :
  asking s0 l s →
  (∀ s' c, asking s0 (l ++ [Did r c]) s' → link s' = link s → Q tt s') →
  gives (do_request r) Q s.
Proof.
  intros Ha HQ. apply gives_bind. eapply (asking_ask _ (λ c, [Did r c])); [done|exact Ha|].
  intros s' a H L _. apply gives_ret. by eapply HQ.
Qed.

Lemma refuse code s0 l s :
  asking s0 l s → open (link s0) = false → wishes l → code ≠ 0 →
  gives (cs_failed code) (λ _, refused_from s0) s.
Proof.
  intros Ha Ho Hw Hc. unfold cs_failed. apply gives_bind. eapply asking_do; [exact Ha|].
  intros s1 c1 A1 L1. unfold ircard_release. apply gives_bind, gives_link.
  rewrite (proj1 A1), Ho. apply gives_bind. exists (idev (drv s1)), s1. split; [by destruct s1|].
  apply gives_bind. eapply asking_do; [exact A1|]. intros s2 c2 A2 L2.
  apply gives_bind. eapply asking_do; [exact A2|]. intros s3 c3 A3 L3.
  apply gives_bind. eapply asking_do; [exact A3|]. intros s4 c4 A4 L4.
  apply gives_bind. eapply asking_do; [exact A4|]. intros s5 c5 A5 L5.
  apply gives_bind. eapply asking_do; [exact A5|]. intros s6 c6 (O6 & P6 & I6 & R6) L6.
  apply gives_set_link. unfold refused_from. cbn.
  split; [done|]. split; [done|]. split; [done|]. split; [done|].
  assert (idev (drv s1) = idev (drv s6)) as EI by (rewrite I6; apply A1).
  assert (link s6 = link s1) as EL by congruence.
  rewrite <- !app_assoc in R6. exists l, code, (drop (length l) (drop (length (record s0)) (record s6))).
  rewrite R6, !drop_app_length, EL, <- EI. split; [done|]. split; [done|]. split; [done|].
  repeat constructor; by eexists.
Qed.

(** a request, whose refusal gives everything back *)
Lemma asking_check (f : recorded D → Z * recorded D) n k mtt s0 l s :
  (∀ d, notes (snd (f d)) = notes d ++ n (fst (f d))) → (∀ a, wishes (n a)) →
  asking s0 l s → open (link s0) = false → wishes l →
  (∀ s', asking s0 (l ++ n 0) s' → link s' = link s → fst (f (dev (hw (drv s)))) = 0 →
    dev (hw (drv s')) = snd (f (dev (hw (drv s)))) → gives k (λ _, all_or_nothing mtt s0) s') →
  gives (cs_check f k) (λ _, all_or_nothing mtt s0) s.
Proof.
  intros Hn Hnw Ha Ho Hw Hk. unfold cs_check. apply gives_bind.
  eapply (asking_ask f n); [done|exact Ha|]. intros s' a H L E. unfold a in *. clear a.
  destruct (Z.eqb_spec (fst (f (dev (hw (drv s))))) 0) as [E0|E0].
  - rewrite E0 in H. by apply Hk.
  - eapply gives_mono; [eapply refuse; [exact H|done|by apply Forall_app|done]|].
    intros [] ? Hr. by right.
Qed.

(** *** The device *)

(** [m] returns and touches only the hardware, and no services *)
Definition hw_only {A} (m : M (fir (recorded D)) A) : Prop :=
  ∀ s, gives m (λ _ s', idev s' = idev s ∧ self s' = self s ∧
    notes (dev (hw s')) = notes (dev (hw s))) s.

Lemma hw_bind {A B} (m : M (fir (recorded D)) A) (k : A → M (fir (recorded D)) B) :
  hw_only m → (∀ a, hw_only (k a)) → hw_only (m ≫= k).
Proof.
  intros Hm Hk s. apply gives_bind. eapply gives_mono; [apply Hm|].
  intros a s1 (E1 & E2 & E5). eapply gives_mono; [apply Hk|].
  intros b s2 (E3 & E4 & E6). by rewrite E3, E4, E6.
Qed.
Lemma hw_out v p : hw_only (out v p).
Proof. intros s. by eexists _, _. Qed.
Lemma hw_inp p : hw_only (inp p).
Proof. intros s. by eexists _, _. Qed.

Lemma probe_hw : hw_only ircard_probe.
Proof.
  unfold ircard_probe, switch_bank, ircard_set_mcr.
  repeat match goal with
  | |- ∀ _, hw_only _ => intro
  | |- hw_only (_ ≫= _) => apply hw_bind; [|intro]
  | |- hw_only (out _ _) => apply hw_out
  | |- hw_only (inp _) => apply hw_inp
  | |- hw_only _ => intros ?; by eexists _, _
  end.
Qed.

Lemma start_device_ok mtt req s :
  DEV_CONFIG (state (link s)) = true → ldev (link s) = true →
  gives (start_device mtt req) (λ _ s', started (link s) s' ∧
    conf (link s') = conf (link s) ∧ lio (link s') = lio (link s) ∧
    lwin (link s') = lwin (link s) ∧ irq_assigned (link s') = irq_assigned (link s) ∧
    ∃ c, record s' = record s ++ [Remapped (fst req) (snd req) (membase (idev (drv s')));
      Did (IrdaDeviceOpen qos_rates mtt ["FIR"; "MIR"; "SIR"; "SHM"; "PIO"] 4000 4000) c]) s.
Proof.
  intros Hc Hd. unfold start_device. apply gives_bind, gives_link.
  apply gives_bind, gives_ask. intros s1 L1 I1 S1 D1. set (m := fst _) in *.
  apply gives_bind, gives_zoom. eexists _, _. split; [done|].
  apply gives_bind, gives_zoom. eexists _, _. split; [done|].
  apply gives_bind, gives_zoom. eapply gives_mono; [apply probe_hw|].
  intros ? f (If & Sf & Nf). cbn in If, Sf, Nf.
  apply gives_bind, gives_zoom. eexists _, _. split; [done|].
  apply gives_bind. apply gives_bind, gives_ask. intros s2 L2 I2 S2 D2. apply gives_ret.
  apply gives_bind, gives_zoom. eexists _, _. split; [done|].
  apply gives_set_link. unfold started, record. cbn in *.
  rewrite I2, S2. cbn. rewrite If, Sf, L2, L1, D2, Nf, D1. cbn. rewrite Hc, Hd.
  split; [done|]. do 4 (split; [done|]). eexists. by rewrite <- app_assoc.
Qed.

(** *** An entry *)
Definition granted s0 (s : pc (recorded D)) (req : Z * Z) (l : list noted) : Prop :=
  ∃ before win, l = before ++ GaveIO 0 (lio (link s)) :: win ∧ wishes before ∧
    window_given (link s) (fst req) (snd req) win ∧ asking s0 l s.

Lemma config_end_ok mtt req s0 l s :
  granted s0 s req l → open (link s0) = false → DEV_CONFIG (state (link s)) = true →
  gives (config_end mtt req) (λ _, all_or_nothing mtt s0) s.
Proof.
  intros (before & win & -> & Hb & Hw & Ha) Ho Hc. unfold config_end.
  apply gives_bind, gives_link.
  assert (Hwish : wishes (before ++ GaveIO 0 (lio (link s)) :: win)).
  { apply Forall_app. split; [done|]. destruct Hw as [->|[_ ->]]; by repeat constructor. }
  set (l := before ++ _) in *. set (irq := if enable_irq (conf (link s))
    then λ n, [GaveIRQ 0 n] else λ _, []).
  assert (Hk : ∀ s1, asking s0 (l ++ irq (irq_assigned (link s1))) s1 →
    state (link s1) = state (link s) → conf (link s1) = conf (link s) →
    lio (link s1) = lio (link s) → lwin (link s1) = lwin (link s) →
    gives (cs_check (cs_do (RequestConfiguration (conf (link s))))
      (set_link (with_ldev true);; l ← get_link; zoom (printk (config_text l req));;
       start_device mtt req)) (λ _, all_or_nothing mtt s0) s1).
  { intros s1 A1 S1 C1 I1 W1.
    eapply (asking_check _ (λ c, [Did (RequestConfiguration (conf (link s))) c]));
      [done|by repeat constructor|exact A1|done| |].
    { apply Forall_app. split; [done|]. unfold irq. destruct (enable_irq _); by repeat constructor. }
    intros s2 (O2 & P2 & _ & R2) L2 _ _. apply gives_bind, gives_set_link.
    apply gives_bind, gives_link. apply gives_bind, gives_zoom. eexists _, _. split; [done|].
    eapply gives_mono; [apply start_device_ok; cbn; [by rewrite L2, S1|done]|].
    intros [] s3 (St & C3 & I3 & W3 & N3 & c & R3). cbn in C3, I3, W3, N3, R3. left.
    rewrite L2 in C3, I3, W3, N3. split.
    { unfold started in *. cbn in St. by rewrite O2 in St. }
    exists before, win, (fst req), (snd req), c. rewrite C3, C1, I3, I1, N3.
    split; [|split; [done|]].
    - change (record s3 = record s2 ++ [Remapped (fst req) (snd req) (membase (idev (drv s3)));
        Did (IrdaDeviceOpen qos_rates mtt ["FIR"; "MIR"; "SIR"; "SHM"; "PIO"] 4000 4000) c]) in R3.
      rewrite R3, R2. unfold l, irq. destruct (enable_irq _); by rewrite <- !app_assoc.
    - unfold window_given in *. by rewrite W3, W1. }
  destruct (enable_irq (conf (link s))) eqn:Ei; [|apply Hk; by rewrite ?app_nil_r].
  apply gives_bind. eapply (asking_ask _ (λ '(c, n), [GaveIRQ c n])); [done|exact Ha|].
  intros s1 a A1 L1 _. destruct a as [r n]. destruct (Z.eqb_spec r 0) as [->|Hr].
  - apply gives_bind, gives_set_link, Hk; [|cbn; by rewrite L1..].
    by apply (asking_set (with_assigned n)).
  - eapply gives_mono; [eapply refuse; [exact A1|done| |done]|intros [] ? H; by right].
    apply Forall_app. split; [done|by repeat constructor].
Qed.

(** an entry was tried: only the settings of the link changed, and when it was accepted
    the link has what was given for it *)
Definition tried s0 (s : pc (recorded D)) (r : bool * (Z * Z)) (s' : pc (recorded D)) : Prop :=
  state (link s') = state (link s) ∧ (cis_left s' ≤ cis_left s)%nat ∧
  ∃ l, wishes l ∧ asking s0 l s' ∧ (fst r = true → granted s0 s' (snd r) l).

Lemma entry_refused s0 s req l s' :
  asking s0 l s' → wishes l → state (link s') = state (link s) → (cis_left s' ≤ cis_left s)%nat →
  gives (mret (false, req)) (tried s0 s) s'.
Proof. intros A W S N. apply gives_ret. split; [done|]. split; [done|]. by exists l. Qed.

(** the ports of an entry are given, and its window *)
Lemma entry_window s0 s (mem : bool) addr req l s1 :
  let win := GaveIO 0 (lio (link s1)) in
  asking s0 (l ++ [win]) s1 → wishes l → state (link s1) = state (link s) →
  (cis_left s1 ≤ cis_left s)%nat →
  gives (if mem then
           '(r4, (w, b)) ← ask (cs_request_window SHMEM_SIZE);
           set_link (with_lwin w);;
           if negb (r4 =? 0) then mret (false, (b, SHMEM_SIZE))
           else r5 ← ask (cs_map_page addr); mret (r5 =? 0, (b, SHMEM_SIZE))
         else mret (true, req)) (tried s0 s) s1.
Proof.
  intros win A1 W S1 N1. assert (W1 : wishes (l ++ [win])) by (apply Forall_app; by repeat constructor).
  destruct mem.
  2: { apply gives_ret. split; [done|]. split; [done|]. exists (l ++ [win]).
       split; [done|]. split; [done|]. intros _. exists l, [].
       split; [done|]. split; [done|]. split; [by left|exact A1]. }
  apply gives_bind. eapply (asking_ask _ (λ '(c, (w, b)), [GaveWindow c w b]));
    [done|exact A1|].
  intros s2 a A2 L2 D2. destruct a as [r4 [w b]]. apply gives_bind, gives_set_link.
  set (s3 := mkPc _ _). assert (A3 : asking s0 ((l ++ [win]) ++ [GaveWindow r4 w b]) s3)
    by (by apply (asking_set (with_lwin w))).
  assert (S3 : state (link s3) = state (link s)) by (cbn; by rewrite L2).
  assert (N3 : (cis_left s3 ≤ cis_left s)%nat).
  { etrans; [|exact N1]. unfold cis_left at 1. cbn [s3 drv]. rewrite D2. apply left_window. }
  assert (W3 : wishes ((l ++ [win]) ++ [GaveWindow r4 w b]))
    by (apply Forall_app; by repeat constructor).
  destruct (Z.eqb_spec r4 0) as [->|]; [|by eapply entry_refused]. cbn [negb].
  apply gives_bind. eapply (asking_ask _ (λ c, [GavePage c])); [done|exact A3|].
  intros s4 r5 A4 L4 D4. apply gives_ret. split; [by rewrite L4|]. split.
  { etrans; [|exact N3]. unfold cis_left at 1. rewrite D4. apply left_map. }
  eexists. split; [|split; [exact A4|]].
  - apply Forall_app; by repeat constructor.
  - cbn [fst snd]. intros ->%Z.eqb_eq. exists l, [GaveWindow 0 w b; GavePage 0].
    rewrite <- !app_assoc in *. rewrite L4. cbn. rewrite L2. split; [done|]. split; [done|].
    split; [by right|done].
Qed.

Lemma try_entry_ok req s0 l s :
  asking s0 l s → wishes l → gives (try_entry req) (tried s0 s) s.
Proof.
  intros Ha Hw. unfold try_entry.
  apply gives_bind. eapply (asking_ask _ (λ _, [])); [intros; by rewrite app_nil_r|exact Ha|].
  rewrite app_nil_r. intros s1 r1 A1 L1 D1.
  assert (N1 : (cis_left s1 ≤ cis_left s)%nat) by (unfold cis_left; rewrite D1; apply left_data).
  destruct (negb _); [eapply entry_refused; by rewrite ?L1|].
  apply gives_bind. eapply (asking_ask _ (λ _, [])); [intros; by rewrite app_nil_r|exact A1|].
  rewrite app_nil_r. intros s2 [r2 cfg] A2 L2 D2.
  assert (N2 : (cis_left s2 ≤ cis_left s)%nat).
  { etrans; [|exact N1]. unfold cis_left at 1. rewrite D2. apply left_parse. }
  destruct (negb _); [eapply entry_refused; by rewrite ?L2, ?L1|]. cbv zeta.
  destruct (index cfg =? 0); [eapply entry_refused; by rewrite ?L2, ?L1|].
  set (dflt := if is_default cfg then cfg else zero_entry).
  do 2 apply gives_bind, gives_set_link. apply gives_bind, gives_link.
  match goal with |- gives _ _ ?x => set (s3 := x) end.
  assert (A3 : asking s0 l s3).
  { unfold s3. by apply (asking_set (λ l, with_lio (cis_io_req cfg dflt (lio l)) l)),
      (asking_set (λ l, with_conf (cis_conf cfg dflt (conf l)) l)) in A2. }
  assert (S3 : state (link s3) = state (link s)) by (cbn; by rewrite L2, L1).
  apply gives_bind. eapply (asking_ask _ (λ '(c, i), [GaveIO c i]));
    [done|exact A3|].
  intros s4 a A4 L4 D4. destruct a as [r3 io]. apply gives_bind, gives_set_link.
  set (s5 := mkPc _ _).
  assert (A5 : asking s0 (l ++ [GaveIO r3 io]) s5) by (by apply (asking_set (with_lio io))).
  assert (S5 : state (link s5) = state (link s)) by (cbn; by rewrite L4).
  assert (N5 : (cis_left s5 ≤ cis_left s)%nat).
  { etrans; [|exact N2]. unfold cis_left at 1. cbn [s5 drv]. rewrite D4. apply left_io. }
  destruct (Z.eqb_spec r3 0) as [->|].
  - by apply entry_window with (l := l).
  - cbn [negb]. eapply entry_refused; [exact A5|apply Forall_app; by repeat constructor|done..].
Qed.

Lemma config_loop_ok mtt fuel req s0 l s :
  asking s0 l s → wishes l → open (link s0) = false →
  (cis_left s < fuel)%nat → DEV_CONFIG (state (link s)) = true →
  gives (config_loop fuel req (config_end mtt)) (λ _, all_or_nothing mtt s0) s.
Proof.
  revert req l s. induction fuel as [|fuel IH]; intros req l s Ha Hw Ho Hf Hc; [lia|].
  cbn [config_loop]. apply gives_bind. eapply gives_mono; [by eapply try_entry_ok|].
  intros [ok req'] s1 (S1 & N1 & l1 & W1 & A1 & G1). destruct ok.
  - eapply config_end_ok; [by apply G1|done|by rewrite S1].
  - eapply (asking_check _ (λ _, [])); [intros; by rewrite app_nil_r|done|exact A1|done|done|].
    rewrite app_nil_r. intros s2 A2 L2 E2 D2. eapply IH; [exact A2|done|done| |by rewrite L2, S1].
    pose proof (left_next _ E2). unfold cis_left in *. rewrite D2. lia.
Qed.

(** C21: The configuration of a card whose link is not open always ends, for any services
    with a table of entries that ends, and its requests (all those that allot something or give it
    back, in order, with the answers) have one of two shapes.
    Either an entry was accepted: the last requests are its ports, its memory window and page when it
    has one, its interrupt when it has one, and its configuration, each answered with success and
    each with what the link holds; then memory is mapped (the window, when there is one) and the
    device is registered; nothing was given back; and the device is started at 9600 bit/s on these
    ports and this mapping, with an empty transmit queue.  Or something was refused: after
    the requests so far the error is reported, and the window, the mapping, the configuration, the
    ports and the interrupt that the link and the device hold at the end, obtained or not, are
    given back, each once; the link is not configured, and its device is as before.
    In both cases the record has no release for an entry that was tried and rejected earlier: ports
    and windows that were allotted for such an entry stay allotted. *)
Theorem config_all_or_nothing mtt req_before fuel s :
  open (link s) = false → (cis_size < fuel)%nat →
  ∃ s', ircard_config mtt req_before fuel s = Ok (tt, s') ∧ all_or_nothing mtt s s'.
Proof.
  intros Ho Hf.
  cut (gives (ircard_config mtt req_before fuel) (λ _, all_or_nothing mtt s) s).
  { intros ([] & s' & E & H). eauto. }
  unfold ircard_config.
  eapply (asking_check _ (λ _, [])); [intros; by rewrite app_nil_r|done|apply asking_refl|done|done|].
  intros s1 A1 L1 _ _.
  eapply (asking_check _ (λ _, [])); [intros; by rewrite app_nil_r|done|exact A1|done|done|].
  intros s2 A2 L2 _ _. apply gives_bind.
  eapply (asking_ask _ (λ _, [])); [intros; by rewrite app_nil_r|exact A2|].
  intros s3 a A3 L3 _. destruct a as [r [b p]]. destruct (Z.eqb_spec r 0) as [->|Hr]; cbn [negb].
  2: { eapply gives_mono; [eapply refuse; [exact A3|done..]|intros [] ? H; by right]. }
  do 2 apply gives_bind, gives_set_link.
  match goal with |- gives _ _ ?x => set (s4 := x) end.
  assert (A4 : asking s [] s4) by (by destruct A3 as (O3 & P3 & I3 & R3)).
  eapply (asking_check _ (λ _, [])); [intros; by rewrite app_nil_r|done|exact A4|done|done|].
  intros s5 A5 L5 _ D5. eapply config_loop_ok; [exact A5|done|done| |by rewrite L5].
  unfold cis_left. rewrite D5. eapply Nat.le_lt_trans; [apply left_first|done].
Qed.

End config.

(** ** The module is unloaded *)
Section unload.
Context {D : Type} `{!PortDev D} `{!CardHost D} `{!CardServices D}.

Lemma gives_mod_ask {A} (f : D → A * D) (Q : A → module_state D → Prop) s :
  (∀ a s', dev_list s' = dev_list s → Q a s') → gives (mod_ask f) Q s.
Proof.
  intros HQ. unfold gives, mod_ask. destruct (f (dev (m_hw s))) as [a d].
  eexists _, _. split; [done|]. by apply HQ.
Qed.
Lemma gives_mod_do r (Q : unit → module_state D → Prop) s :
  (∀ s', dev_list s' = dev_list s → Q tt s') → gives (mod_do r) Q s.
Proof.
  intros HQ. apply gives_bind, gives_mod_ask. intros a s' E. by apply gives_ret, HQ.
Qed.

(** a card that is not configured leaves the list *)
Lemma detach_head x l s :
  dev_list s = x :: l → DEV_CONFIG (state (i_link x)) = false →
  gives (ircard_detach (i_id x)) (λ _ s', dev_list s' = l) s.
Proof.
  intros Hl Hc. unfold ircard_detach. apply gives_bind. eexists _, s. split; [done|].
  rewrite Hl. unfold find_inst. cbn [list_find]. rewrite decide_True by done. rewrite Hc.
  apply gives_bind, gives_when; intros _;
    [apply gives_mod_do; intros s1 E1|assert (E1 : dev_list s = dev_list s) by done];
    (apply gives_bind; eexists _, _; split; [done|];
     apply gives_bind, gives_mod_ask; intros [] s2 E2;
     apply gives_bind, gives_mod_do; intros s3 E3; apply gives_mod_do; intros s4 E4;
     rewrite E4, E3, E2; cbn; by rewrite ?E1, Hl).
Qed.

Lemma remove_head_ok x l s :
  dev_list s = x :: l → open (i_link x) = false →
  gives (remove_head x) (λ _ s', dev_list s' = l) s.
Proof.
  intros Hl Ho. unfold remove_head. apply gives_bind, gives_when; intros Hc.
  2:{ by apply detach_head. }
  set (p := mkPc (mkFir (m_hw s) (i_idev x) (i_self x) (i_locked x) (m_netif s)) (i_link x)).
  destruct (release_ok (λ _, given_back (i_link x)) p) as ([] & p' & E & Ho' & _ & Hc');
    [done|done|].
  eexists tt, _. split; [unfold on_inst; fold p; by rewrite E|].
  set (x' := mkInst (i_id x) (link p') (idev (drv p')) (self (drv p')) (locked (drv p'))).
  apply (detach_head x'); [cbn; by rewrite Hl|exact Hc'].
Qed.

(** When no card is open, unloading the module ends, with as many rounds as there are
    cards, and every card has left the list, configured or not. *)
Theorem cleanup_module_ok s :
  Forall (λ x, open (i_link x) = false) (dev_list s) →
  ∃ s', cleanup_module (length (dev_list s)) s = Ok (tt, s') ∧ dev_list s' = [].
Proof.
  intros Ho. cut (gives (cleanup_module (length (dev_list s))) (λ _ s', dev_list s' = []) s).
  { intros ([] & s' & E & H). eauto. }
  unfold cleanup_module. apply gives_bind, gives_mod_do. intros s0 E0. rewrite <- E0 in *.
  remember (dev_list s0) as l eqn:El. symmetry in El. clear E0 s. revert s0 El.
  induction Ho as [|x l Hx _ IH]; intros s Hs; cbn [remove_all length].
  - apply gives_bind. eexists _, s. split; [done|]. rewrite Hs. by apply gives_ret.
  - apply gives_bind. eexists _, s. split; [done|]. rewrite Hs.
    apply gives_bind. eapply gives_mono; [by eapply remove_head_ok|].
    intros [] s1 E1. by apply IH.
Qed.
End unload.

(** ** A socket with a card *)
Record socket := mkSocket {
  sk_card : card;
  sk_table : list cftable_entry;
  sk_left : list cftable_entry }.

Definition sk_with (s : socket) (c : card) : socket := mkSocket c (sk_table s) (sk_left s).

#[export] Instance socket_ports : PortDev socket := {
  dev_in p s := let '(v, c) := dev_in p (sk_card s) in (v, sk_with s c);
  dev_out v p s := sk_with s (dev_out v p (sk_card s)) }.
#[export] Instance socket_host : CardHost socket := {
  mem_in a s := let '(v, c) := mem_in a (sk_card s) in (v, sk_with s c);
  mem_out a v s := sk_with s (mem_out a v (sk_card s));
  service _ s := s;
  time_of_day s := ((0, 0), s);
  alloc_skb _ s := (true, s);
  txqueue_empty s := txqueue_empty (sk_card s) }.
(** it has a table, gives the ports of [CARD_BASE] and a window at [CARD_MEM], and maps page 0 *)
#[export] Instance socket_services : CardServices socket := {
  cs_revision_ok _ := true;
  cs_kmalloc s := (Some 1, s);
  cs_register s := ((0, 7), s);
  cs_first_tuple t s := match t with
    | CISTPL_CONFIG => (0, s)
    | CISTPL_CFTABLE_ENTRY =>
        (if decide (sk_table s = []) then 1 else 0,
         mkSocket (sk_card s) (sk_table s) (take 4 (sk_table s)))
    end;
  cs_next_tuple s := match sk_left s with
    | _ :: _ :: _ => (0, mkSocket (sk_card s) (sk_table s) (drop 1 (sk_left s)))
    | _ => (1, s)
    end;
  cs_tuple_data s := (0, s);
  cs_parse_config s := ((0, (0x3f8, 1)), s);
  cs_parse_entry s := ((0, default zero_entry (head (sk_left s))), s);
  cs_request_io r s := (((if BasePort1 r =? CARD_BASE - 8 then 0 else 1), r), s);
  cs_request_window _ s := ((0, (1, CARD_MEM)), s);
  cs_map_page a s := (if a =? 0 then 0 else 1, s);
  cs_request_irq _ s := ((0, 5), s);
  cs_ioremap b _ s := (b, s);
  cs_do _ s := (0, s) }.

#[export] Program Instance socket_cis : FiniteCis socket :=
  {| cis_size := 4; entries_left s := length (sk_left s) |}.
Next Obligation. intros s. cbn. rewrite length_take. lia. Qed.
Next Obligation. intros s. cbn. destruct (sk_left s) as [|? [|? ?]]; cbn; intros; lia. Qed.
Next Obligation. done. Qed.
Next Obligation. done. Qed.
Next Obligation. done. Qed.
Next Obligation. done. Qed.
Next Obligation. done. Qed.

(** the second entry names the ports that are free *)
Definition an_entry (n port : Z) : cftable_entry :=
  mkEntry false n false (Some 50000) None 1 (mkCisIo 1 true false (port, 16) (0, 0)) 1 0.
Definition a_socket : socket :=
  mkSocket (dev (hw (a_card 0 [] true []))) [an_entry 1 0x100; an_entry 2 0x300] [].
Definition a_pc : pc socket :=
  mkPc (mkFir (mkIo a_socket [] "" "" "") zero_idev new_self false []) (new_link 0xdeb8 [-1; 0; 0; 0]).

Example insertion :
  match ircard_event 0x0f (0, 0) 5 CARD_INSERTION a_pc with
  | Ok (r, s) => r = 0 ∧ DEV_CONFIG (state (link s)) = true ∧ ConfigIndex (conf (link s)) = 2 ∧
      iobase (idev (drv s)) = CARD_BASE ∧ membase (idev (drv s)) = CARD_MEM ∧
      io_out (hw (drv s)) = "ircard0: index 0x02: Vcc 0.5, irq 5, io 0x0300-0x030f"
        +:+ ", mem 0x0d0000-0x0d7fff" +:+ nl +:+ "IBM 31T1502 controller revision 0" +:+ nl
  | Stop _ => False
  end.
Proof. vm_compute. done. Qed.

Definition recorded_pc (table : list cftable_entry) : pc (recorded socket) :=
  mkPc (mkFir (mkIo (mkRec (mkSocket (sk_card a_socket) table []) []) [] "" "" "") zero_idev
    new_self false []) (new_link 0xdeb8 [-1; 0; 0; 0]).

Lemma config_all_or_nothing_witness : ∃ s : pc (recorded socket),
  let s0 := recorded_pc (sk_table a_socket) in
  ircard_config 0x0f (0, 0) 5 s0 = Ok (tt, s) ∧ all_or_nothing 0x0f s0 s.
Proof.
  apply (config_all_or_nothing 0x0f (0, 0) 5 (recorded_pc (sk_table a_socket))); [done|cbn; lia].
Defined.

(** an entry is rejected for its page after its ports and its window were allotted: they are
    asked for again for the next entry, and the first are never given back, neither when that
    entry is accepted nor when it is refused too *)
Definition page_entry (n addr : Z) : cftable_entry :=
  mkEntry false n false (Some 50000) None 1 (mkCisIo 1 true false (0x300, 16) (0, 0)) 1 addr.
Definition allotted (n : noted) : bool :=
  match n with GaveIO 0 _ | GaveWindow 0 _ _ => true | _ => false end.
Definition given_up (n : noted) : bool :=
  match n with Did (ReleaseIO _) _ | Did (ReleaseWindow _) _ => true | _ => false end.
Example rejected_entry_leaks :
  let counts addr := match ircard_config 0x0f (0, 0) 5
      (recorded_pc [page_entry 1 1; page_entry 2 addr]) with
    | Ok (_, s) => Some (DEV_CONFIG (state (link s)),
        length (List.filter allotted (record s)), length (List.filter given_up (record s)))
    | Stop _ => None
    end in
  counts 0 = Some (true, 4%nat, 0%nat) ∧ counts 1 = Some (false, 4%nat, 2%nat).
Proof. vm_compute. done. Qed.

(** an entry that says it is the default does not serve the entries after it: the
    second entry asks for no port, although the default names them *)
Example default_is_forgotten :
  let d := mkEntry true 0 false None None 0 (mkCisIo 1 true false (0x300, 16) (0, 0)) 0 0 in
  let e := mkEntry false 2 false None None 1 (mkCisIo 0 false false (0, 0) (0, 0)) 1 0 in
  let s := mkPc (mkFir (mkIo (mkSocket (sk_card a_socket) [d; e] []) [] "" "" "") zero_idev
    new_self false []) (new_link 0xdeb8 [-1; 0; 0; 0]) in
  match ircard_config 0x0f (0, 0) 5 s with
  | Ok (_, s) => DEV_CONFIG (state (link s)) = false ∧ BasePort1 (lio (link s)) = 0
  | Stop _ => False
  end.
Proof. vm_compute. done. Qed.

Definition a_module (cfg : bool) : module_state socket :=
  mkMod (mkIo a_socket [] "" "" "") []
    [mkInst 1 (with_state (with_config cfg zero_state) (new_link 0xdeb8 [-1; 0; 0; 0]))
       zero_idev new_self false].

(** a card that is detached while it is configured is marked, and stays when it is
    released *)
Example stale_link_stays :
  match (ircard_detach 1;; on_inst 0 (mkInst 1 (with_state (with_stale_link true
      (with_config true zero_state)) (new_link 0xdeb8 [-1; 0; 0; 0])) zero_idev new_self false)
      ircard_release) (a_module true) with
  | Ok (_, s) => (λ x, (DEV_CONFIG (state (i_link x)), DEV_STALE_LINK (state (i_link x))))
      <$> dev_list s = [(false, true)]
  | Stop _ => False
  end.
Proof. vm_compute. done. Qed.

Lemma cleanup_module_ok_witness : ∃ s : module_state socket,
  cleanup_module 1 (a_module true) = Ok (tt, s) ∧ dev_list s = [].
Proof. apply (cleanup_module_ok (a_module true)). by repeat constructor. Defined.
